(* ===== verification/_CoqProject ===== *)
-Q . S2P
Prelude.v
Bitmask.v
ProgramIds.v
Errors.v
State.v
Runtime.v
Anchor.v
Frame.v
Reference.v
PdaSeeds.v
PdaUtils.v
Merkle.v
Layout.v
Common.v
Sample.v
Freeze.v
FreezeProofs.v
TransferControl.v
Token.v
TransferHook.v
Deployed.v
Operations.v
OperationsProofs.v
Hold.v
HoldProofs.v
HoldInvariant.v
SampleRuns.v
HoldTheorems.v
Frames.v
System.v
AccessControl.v
Cap.v
Mint.v
MintProofs.v
Snapshot.v
Coupon.v
CouponProofs.v
Bond.v
Payout.v
TokenInterface.v
Treasury.v
TreasuryProofs.v
TreasuryRuns.v
Factory.v
Registry.v
FactoryProofs.v
FactoryTheorems.v
Pause.v
Deactivate.v
NominalValue.v
Document.v
Transfer.v
HookMetas.v
TokenMint.v
MetadataUpdate.v
Deploy.v
Kept.v
Workspace.v
Ledger.v
