(* ===== verification/Prelude.v ===== *)
(** * The programs of the asseto workspace: a verification library

    The repository is a workspace of twenty Solana programs (Anchor, Rust, under
    [src/programs]) and a crate [common] they share.  Together they issue and
    run regulated tokens: [deploy] creates a Token-2022 mint whose every
    transfer calls [transfer-hook], which lets it through only if the mint is
    active, the control list ([transfer-control]) admits both sides, and the
    balance left covers what is frozen ([freeze]) and on hold ([hold]).
    [operations] burns and forces transfers, [mint] issues within the [cap],
    [pause] and [deactivate] stop a mint, [snapshot], [bond], [coupon] and
    [treasury] pay interest to the holders of a snapshot, [access-control] says
    who may do what, and [factory] keeps the classes of assets, whose finalized
    versions say which functionalities the mints of the class have.

    ** How the code is modelled

    A handler is a computation in the state-and-error monad below ([SM]) on a
    [World] (State.v): the lamports, owner and data of every account, the clock
    and the events.  An error aborts the instruction and leaves no world.  The
    accounts a handler receives are the fields of a record with the field names
    of its [#[derive(Accounts)]] struct; [X_try_accounts] runs the checks of
    the struct in Anchor's order, the deserialisations first and the constraints
    after them, and the handler of the same name as in the source follows.
    Several fields may name the same account: data is written where the code
    writes it, and a copy that was deserialised is written back at the end
    ([account_exit]), so aliasing is visible.  Integers are [Z] with the width
    checks of the source written out (the workspace builds with overflow checks).

    ** The files

    - Prelude: results, the monad and its inversion tactics ([inv_ok], [bind_ok],
      the class [OkInv]), the logics of what computations preserve ([preserves])
      and of where they fail, checked arithmetic.
    - Bitmask, ProgramIds, Errors, State, PdaSeeds, PdaUtils, Merkle, Layout,
      Common: [common/src], with the constants, guards and account records.
    - Runtime, Anchor: what the programs use of Solana and of Anchor.  Address
      derivation, rent and the system program are the class [SolanaRuntime] with
      [RuntimeLaws]; Reference is an instance, Sample a small deployed world.
    - Token, TokenInterface, TokenMint, and [ExtraAccountMetaList] in HookMetas:
      the instructions of the token programs and of the TLV library, as classes
      of operations with laws and an executable instance of each.
    - One file per program: Freeze, TransferControl, TransferHook with HookMetas,
      Operations, Hold, AccessControl, Cap, Mint, Snapshot, Coupon, Bond, Payout
      and Treasury, Factory, Pause, Deactivate, NominalValue, Document,
      Transfer, MetadataUpdate, Deploy.  An instruction [f] of the source is the
      definition [f]; the match of the [#[program]] module is the function named
      after the program on a sum type of its instructions.
    - FreezeProofs, OperationsProofs, HoldProofs, HoldInvariant, HoldTheorems,
      MintProofs, CouponProofs, TreasuryProofs, Registry with FactoryProofs and
      FactoryTheorems: the theorems of the programs whose proofs are long; the
      others are proved in the file of the program.  SampleRuns and TreasuryRuns
      run the handlers on the sample world.
    - Frame, Frames, Kept: what each instruction leaves as it is.
    - Deployed, System, Workspace, Ledger: the programs together.

    ** What is proved

    - The system (System, Ledger): any interleaving of instructions of the twenty
      programs, transfers and steps of other programs keeps [system_inv], so the
      balance of a token account always covers its holds; the configuration of a
      mint, the version of its class, its hook and its deactivation are for good.
      [deactivation_is_final]: which instructions a deactivated mint refuses.
    - The hook (TransferHook, HookMetas, Transfer, Deploy): the compliance rules
      hold for each transfer; the list written at deployment resolves to the
      accounts the hook asks for; a batch is exactly one compliant transfer per
      leg; a deployment leaves no authority outside the programs.
    - Refinements: the programs implement abstract specifications, a map of
      freeze statuses, a state machine of holds, sets of roles, control lists, a
      registry of asset classes, a book of coupons, a dated quote, a map of
      documents.  The entries are those of the mint and the account an
      instruction names, read at their canonical addresses, whatever state
      accounts the caller passes; the invariants say that no other address
      holds state of these programs.
    - Money: caps and burns respect supply and holds, a coupon is paid once per
      token account of a holder, from an account of the treasury authority of
      the mint, and pays the exact interest rounded down.
    - The shared crate: masks are sets of positions, Merkle proofs are those of
      the leaves, the hand-written mirrors of accounts read back what is
      serialized, and the account helpers leave rent-exempt accounts.

    ** Bounds, fuel, abstractions

    [discriminators_eq] is a loop with fuel; [discriminators_eq_terminates] gives
    the fuel that is enough, one more than the length of the slices.  Every other
    loop is over a list.  Addresses are numbers and the derivation of program
    addresses is injective ([RuntimeLaws]), which stands for the collision
    resistance of the hash; [Merkle] states exactly which collisions matter to a
    proof instead.  Program addresses do not sign transactions ([users]).  The
    classic token program never closes a mint ([classic_inv]), Token-2022 burns
    tokens of a deployed mint for its permissioned burner only and refuses an
    interface transfer of a mint with a hook whose accounts are missing.

    ** Not modelled

    The accounts and the self-call of [#[event_cpi]] (an event is appended to the
    world instead), the refusal of duplicate mutable accounts and of accounts
    not marked writable, the checks of the [system_program] and [rent] fields,
    compute and heap limits, and [usize] overflow of account sizes.  Account data
    is kept as records; their bytes are modelled where the code reads them by
    hand (the mirrors in [common/src/state], the coupon counter in the treasury,
    the class identifiers in the list of the hook), and sizes where rent depends
    on them.  [to_lowercase] is modelled for the ASCII letters it matters for.
    Tests, [test_support], migrations and clients are left out. *)

From Stdlib Require Export ZArith Lia String.
From stdpp Require Export base numbers list gmap strings option fin_maps.

#[global] Open Scope Z_scope.

(** ** Results and the handler monad

    A Rust [Result<T>] is [Result E A].  A handler threads the state [S] of the
    runtime and either fails, in which case the transaction is discarded and no
    state is left, or returns a value and the new state. *)

Inductive Result (E A : Type) : Type :=
| Ok (a : A)
| Err (e : E).
Arguments Ok {E A} a.
Arguments Err {E A} e.

Definition is_ok {E A} (r : Result E A) : bool :=
  match r with Ok _ => true | Err _ => false end.

(** [x.map_err(f)] *)
Definition map_err {E F A} (f : E -> F) (r : Result E A) : Result F A :=
  match r with Ok a => Ok a | Err e => Err (f e) end.

(** [x.ok_or(e)] *)
Definition ok_or {E A} (o : option A) (e : E) : Result E A :=
  match o with Some a => Ok a | None => Err e end.

Lemma ok_or_Ok {E A} (o : option A) (e : E) a : ok_or o e = Ok a -> o = Some a.
Proof. destruct o; [by intros [= ->]|discriminate]. Qed.

Definition SM (S E A : Type) : Type := S -> Result E (A * S).

#[global] Instance SM_ret {S E} : MRet (SM S E) := fun A a s => Ok (a, s).
#[global] Instance SM_bind {S E} : MBind (SM S E) := fun A B f m s =>
  match m s with
  | Ok (a, s') => f a s'
  | Err e => Err e
  end.

Section monad.
Context {S E : Type}.

Definition fail {A} (e : E) : SM S E A := fun _ => Err e.

(** [require!(b, e)] *)
Definition require (b : bool) (e : E) : SM S E unit :=
  if b then mret tt else fail e.

(** [r?] for a pure result *)
Definition lift {A} (r : Result E A) : SM S E A := fun s =>
  match r with Ok a => Ok (a, s) | Err e => Err e end.

Definition get : SM S E S := fun s => Ok (s, s).
Definition put (s : S) : SM S E unit := fun _ => Ok (tt, s).
Definition gets {A} (f : S -> A) : SM S E A := fun s => Ok (f s, s).
Definition modify (f : S -> S) : SM S E unit := fun s => Ok (tt, f s).

(** [for x in xs { body }] *)
Fixpoint for_each {X} (xs : list X) (body : X -> SM S E unit) : SM S E unit :=
  match xs with
  | [] => mret tt
  | x :: xs => body x;; for_each xs body
  end.
End monad.

(** ** Inversion of successful runs

    [OkInv m P]: a successful run of [m] from [s] to [s'] with value [a] gives
    [P s a s'].  Components register an instance for each of their operations
    and [inv_ok] uses them to take a handler's run apart. *)

Class OkInv {S E A} (m : SM S E A) (P : S -> A -> S -> Prop) : Prop :=
  ok_inv : forall s a s', m s = Ok (a, s') -> P s a s'.
#[global] Hint Mode OkInv + + + + - : typeclass_instances.

Section ok_inv.
Context {S E : Type}.

Lemma bind_ok {A B} (m : SM S E A) (f : A -> SM S E B) s b s' :
  (m ≫= f) s = Ok (b, s') <-> exists a s1, m s = Ok (a, s1) /\ f a s1 = Ok (b, s').
Proof.
  unfold mbind, SM_bind. split.
  - destruct (m s) as [[a s1]|e]; [eauto|discriminate].
  - intros (a & s1 & -> & H). exact H.
Qed.

Lemma bind_run {A B} (m : SM S E A) (f : A -> SM S E B) s a s1 :
  m s = Ok (a, s1) -> (m ≫= f) s = f a s1.
Proof. unfold mbind, SM_bind. by intros ->. Qed.

Lemma bind_err {A B} (m : SM S E A) (f : A -> SM S E B) s e :
  m s = Err e -> (m ≫= f) s = Err e.
Proof. unfold mbind, SM_bind. by intros ->. Qed.

#[global] Instance ret_inv {A} (a : A) : OkInv (S:=S) (E:=E) (mret a)
  (fun s a' s' => a' = a /\ s' = s).
Proof. intros s a' s' [= -> ->]. auto. Qed.

#[global] Instance fail_inv {A} (e : E) : OkInv (S:=S) (A:=A) (fail e)
  (fun _ _ _ => False).
Proof. intros s a s' [=]. Qed.

#[global] Instance require_inv b (e : E) : OkInv (S:=S) (require b e)
  (fun s a s' => b = true /\ s' = s).
Proof. intros s a s'. destruct b; intros [= _ ->]. auto. Qed.

#[global] Instance lift_inv {A} (r : Result E A) : OkInv (S:=S) (lift r)
  (fun s a s' => r = Ok a /\ s' = s).
Proof. intros s a s'. unfold lift. destruct r; intros [= -> ->]. auto. Qed.

#[global] Instance get_inv : OkInv (S:=S) (E:=E) get (fun s a s' => a = s /\ s' = s).
Proof. intros s a s' [= -> ->]. auto. Qed.

#[global] Instance put_inv (s0 : S) : OkInv (E:=E) (put s0) (fun _ _ s' => s' = s0).
Proof. intros s a s' [= _ ->]. auto. Qed.

#[global] Instance gets_inv {A} (f : S -> A) : OkInv (E:=E) (gets f)
  (fun s a s' => a = f s /\ s' = s).
Proof. intros s a s' [= -> ->]. auto. Qed.

#[global] Instance modify_inv (f : S -> S) : OkInv (E:=E) (modify f)
  (fun s _ s' => s' = f s).
Proof. intros s a s' [= _ ->]. auto. Qed.
End ok_inv.

(** One step of inversion on a hypothesis [m s = Ok (a, s')]. *)
Ltac inv_ok_step :=
  match goal with
  | H : (_ ≫= _) _ = Ok _ |- _ =>
      apply bind_ok in H;
      let a := fresh "v" in let s := fresh "w" in let H1 := fresh "Hrun" in
      destruct H as (a & s & H1 & H)
  | H : ?m ?s = Ok (?a, ?s') |- _ =>
      apply ok_inv in H; cbv beta in H
  | H : _ /\ _ |- _ => destruct H
  | H : exists _, _ |- _ => destruct H
  | H : False |- _ => destruct H
  | x : unit |- _ => destruct x
  | x : (_ * _)%type |- _ => destruct x
  | _ => progress simplify_eq
  end.
Ltac inv_ok := repeat inv_ok_step.

(** ** Preservation of a preorder on states by a computation

    A unary program logic for the monad: [preserves R m] says that every
    successful run of [m] goes from a state to an [R]-related one.  The rules
    below follow the structure of a handler, [solve_preserves] applies them. *)

Definition preserves {S E A} (R : relation S) (m : SM S E A) : Prop :=
  forall s a s', m s = Ok (a, s') -> R s s'.

Create HintDb preserves_db discriminated.

Section preserves.
Context {S E : Type} (R : relation S) `{!PreOrder R}.

Lemma preserves_ret {A} (a : A) : preserves (E:=E) R (mret a).
Proof. intros s a' s' [= _ ->]. reflexivity. Qed.

Lemma preserves_bind {A B} (m : SM S E A) (f : A -> SM S E B) :
  preserves R m -> (forall a, preserves R (f a)) -> preserves R (m ≫= f).
Proof.
  intros Hm Hf s b s' (a & s1 & H1 & H2)%bind_ok.
  transitivity s1; [eapply Hm|eapply Hf]; eassumption.
Qed.

Lemma preserves_fail {A} (e : E) : preserves R (fail (S:=S) (A:=A) e).
Proof. intros s a s' [=]. Qed.

Lemma preserves_require b (e : E) : preserves R (require b e).
Proof. intros s a s' H%ok_inv. destruct H as [_ ->]. reflexivity. Qed.

Lemma preserves_lift {A} (r : Result E A) : preserves R (lift r).
Proof. intros s a s' H%ok_inv. destruct H as [_ ->]. reflexivity. Qed.

Lemma preserves_get : preserves (E:=E) R get.
Proof. intros s a s' [= _ ->]. reflexivity. Qed.

Lemma preserves_gets {A} (f : S -> A) : preserves (E:=E) R (gets f).
Proof. intros s a s' [= _ ->]. reflexivity. Qed.

Lemma preserves_modify (f : S -> S) : (forall s, R s (f s)) -> preserves (E:=E) R (modify f).
Proof. intros Hf s a s' [= _ <-]. apply Hf. Qed.

Lemma preserves_for_each {X} (xs : list X) (body : X -> SM S E unit) :
  (forall x, x ∈ xs -> preserves R (body x)) -> preserves R (for_each xs body).
Proof.
  induction xs as [|x xs IH]; intros Hb; simpl.
  - apply preserves_ret.
  - apply preserves_bind; [apply Hb; left|]. intros _. apply IH.
    intros y Hy. apply Hb. by right.
Qed.

Lemma preserves_if {A} (b : bool) (m1 m2 : SM S E A) :
  (b = true -> preserves R m1) -> (b = false -> preserves R m2) ->
  preserves R (if b then m1 else m2).
Proof. destruct b; auto. Qed.
End preserves.

(** Walks through a handler; [tac] closes the leaves that are operations of a
    component. *)
Ltac preserves_step :=
  match goal with
  | |- PreOrder _ => apply _
  | |- preserves _ (mret _) => apply preserves_ret
  | |- preserves _ (_ ≫= _) => apply preserves_bind; [| |intros ?]
  | |- preserves _ (fail _) => apply preserves_fail
  | |- preserves _ (require _ _) => apply preserves_require
  | |- preserves _ (lift _) => apply preserves_lift
  | |- preserves _ get => apply preserves_get
  | |- preserves _ (gets _) => apply preserves_gets
  | |- preserves _ (for_each _ _) => apply preserves_for_each; [|intros ? ?]
  | |- preserves _ (match ?x with _ => _ end) => destruct x
  | |- preserves _ (let '_ := ?x in _) => destruct x
  end.
Ltac solve_preserves :=
  repeat (preserves_step || (progress (eauto with preserves_db typeclass_instances))).

(** A loop whose body only checks something of each element. *)
Lemma for_each_checks {S E X} (P : X -> Prop) (xs : list X) (body : X -> SM S E unit) s s' :
  (forall x s s', body x s = Ok (tt, s') -> s' = s /\ P x) ->
  for_each xs body s = Ok (tt, s') -> s' = s /\ Forall P xs.
Proof.
  intros Hbody. revert s. induction xs as [|x xs IH]; simpl; intros s Hr.
  - by injection Hr as <-.
  - apply bind_ok in Hr as ([] & s1 & Hx & Hr). apply Hbody in Hx as [-> Hx].
    apply IH in Hr as [-> Hr]. by repeat constructor.
Qed.

(** ** The errors a computation can end with

    [errs P m]: every error of [m] satisfies [P]; [solve_errs] follows the
    structure of [m] and is used with a [P] that excludes one error. *)

Definition errs {S E A} (P : E -> Prop) (m : SM S E A) : Prop := forall s e, m s = Err e -> P e.

Create HintDb errs_db discriminated.

Section errs.
Context {S E : Type} (P : E -> Prop).

Lemma bind_err_cases {A B} (m : SM S E A) (f : A -> SM S E B) s e :
  (m ≫= f) s = Err e -> m s = Err e \/ exists a s1, m s = Ok (a, s1) /\ f a s1 = Err e.
Proof. unfold mbind, SM_bind. destruct (m s) as [[a s1]|e']; intros H; simplify_eq; eauto. Qed.

Lemma errs_bind {A B} (m : SM S E A) (f : A -> SM S E B) :
  errs P m -> (forall a, errs P (f a)) -> errs P (m ≫= f).
Proof.
  intros Hm Hf s e [H|(a & s1 & _ & H)]%bind_err_cases; [by eapply Hm|by eapply Hf].
Qed.

Lemma errs_ret {A} (a : A) : errs P (mret (M:=SM S E) a).
Proof. intros s e [=]. Qed.
Lemma errs_fail {A} e : P e -> errs P (fail (S:=S) (A:=A) e).
Proof. intros H s e' [= <-]. done. Qed.
Lemma errs_require b e : P e -> errs P (require (S:=S) b e).
Proof. intros H s e'. destruct b; [intros [=]|by intros [= <-]]. Qed.
Lemma errs_lift_ok_or {A} (o : option A) e : P e -> errs P (lift (S:=S) (ok_or o e)).
Proof. intros H s e'. destruct o; [intros [=]|by intros [= <-]]. Qed.
Lemma errs_get : errs P (get (S:=S)).
Proof. intros s e [=]. Qed.
Lemma errs_gets {A} (f : S -> A) : errs P (gets f).
Proof. intros s e [=]. Qed.
Lemma errs_modify (f : S -> S) : errs P (modify f).
Proof. intros s e [=]. Qed.
End errs.

Ltac errs_step :=
  match goal with
  | |- errs _ (mret _) => apply errs_ret
  | |- errs _ (_ ≫= _) => apply errs_bind; [|intros ?]
  | |- errs _ (fail _) => apply errs_fail
  | |- errs _ (require _ _) => apply errs_require
  | |- errs _ (lift (ok_or _ _)) => apply errs_lift_ok_or
  | |- errs _ get => apply errs_get
  | |- errs _ (gets _) => apply errs_gets
  | |- errs _ (modify _) => apply errs_modify
  | |- errs _ (match ?x with _ => _ end) => destruct x
  | |- errs _ (let '_ := ?x in _) => destruct x
  | |- _ <> _ => discriminate
  end.
Ltac solve_errs := repeat (errs_step || (progress (eauto with errs_db))).

(** ** Lists of accounts

    [xs[2 * i], xs[2 * i + 1]] for [i in 0..xs.len() / 2]. *)
Fixpoint pairs {A} (xs : list A) : list (A * A) :=
  match xs with
  | x :: y :: xs => (x, y) :: pairs xs
  | _ => []
  end.

Lemma length_pairs {A} (xs : list A) : length (pairs xs) = (length xs / 2)%nat.
Proof.
  assert (H : forall n (ys : list A), (length ys <= n)%nat -> length (pairs ys) = (length ys / 2)%nat).
  { induction n as [|n IH]; intros [|x [|y ys]] Hn; simpl in Hn; try done; try lia.
    change (S (length (pairs ys)) = ((2 + length ys) / 2)%nat).
    rewrite IH by lia. replace (2 + length ys)%nat with (length ys + 1 * 2)%nat by lia.
    rewrite Nat.div_add by done. lia. }
  by apply (H (length xs)).
Qed.

Lemma not_elem_of_pair {A} (x a b : A) : x ∉ [a; b] -> x <> a /\ x <> b.
Proof. rewrite !not_elem_of_cons. tauto. Qed.

Lemma forallb_map {A B} (f : B -> bool) (g : A -> B) xs :
  forallb f (map g xs) = forallb (fun x => f (g x)) xs.
Proof. induction xs as [|x xs IH]; simpl; [done|by rewrite IH]. Qed.

Lemma forallb_equal {A} (f g : A -> bool) xs : (forall x, f x = g x) -> forallb f xs = forallb g xs.
Proof. intros H. induction xs as [|x xs IH]; simpl; [done|by rewrite H, IH]. Qed.

(** ** Machine integers

    A [u64] is a [Z] in [0, 2^64); arithmetic is written with the checks the
    source makes ([checked_add] ...), [saturating_sub] saturates at 0. *)

Definition U8_MAX : Z := 255.
Definition U16_MAX : Z := 65535.
Definition U64_MAX : Z := 2 ^ 64 - 1.
Definition U128_MAX : Z := 2 ^ 128 - 1.
Definition I64_MIN : Z := - 2 ^ 63.
Definition I64_MAX : Z := 2 ^ 63 - 1.

Definition u8_ok (x : Z) : Prop := 0 <= x <= U8_MAX.
Definition u64_ok (x : Z) : Prop := 0 <= x <= U64_MAX.
Definition u128_ok (x : Z) : Prop := 0 <= x <= U128_MAX.
Definition i64_ok (x : Z) : Prop := I64_MIN <= x <= I64_MAX.

Definition checked (max : Z) (x : Z) : option Z :=
  if (0 <=? x) && (x <=? max) then Some x else None.

Definition checked_add_u64 (x y : Z) : option Z := checked U64_MAX (x + y).
Definition checked_sub_u64 (x y : Z) : option Z := checked U64_MAX (x - y).
Definition checked_mul_u128 (x y : Z) : option Z := checked U128_MAX (x * y).
Definition checked_sub_i64 (x y : Z) : option Z :=
  let d := x - y in if (I64_MIN <=? d) && (d <=? I64_MAX) then Some d else None.
Definition saturating_sub_u64 (x y : Z) : Z := Z.max 0 (x - y).

Lemma checked_Some max x y : checked max x = Some y <-> y = x /\ 0 <= x <= max.
Proof.
  unfold checked. destruct (_ && _) eqn:H; split; [intros [= <-]|intros [-> ?]| |]; try done.
  - apply andb_true_iff in H. lia.
  - intros [-> ?]. apply andb_false_iff in H. lia.
Qed.

Lemma checked_None max x : checked max x = None <-> ~ (0 <= x <= max).
Proof.
  unfold checked. destruct (_ && _) eqn:H; split; try done.
  - apply andb_true_iff in H. lia.
  - apply andb_false_iff in H. lia.
Qed.

Lemma checked_in max x : 0 <= x <= max -> checked max x = Some x.
Proof. intros H. by apply checked_Some. Qed.

Lemma checked_sub_i64_Some x y d :
  checked_sub_i64 x y = Some d <-> d = x - y /\ i64_ok (x - y).
Proof.
  unfold checked_sub_i64, i64_ok. destruct (_ && _) eqn:H.
  - apply andb_true_iff in H. split; [intros [= <-]|intros [-> ?]]; [lia|done].
  - apply andb_false_iff in H. split; [done|lia].
Qed.

Lemma map_err_Ok {E F A} (f : E -> F) (r : Result E A) a : map_err f r = Ok a <-> r = Ok a.
Proof. destruct r; simpl; split; congruence. Qed.

(** Turns boolean tests and checked arithmetic in the hypotheses into [Z] facts. *)
Ltac zify_checks :=
  repeat match goal with
  | H : (_ && _) = true |- _ => apply andb_true_iff in H; destruct H
  | H : negb _ = true |- _ => apply negb_true_iff in H
  | H : negb _ = false |- _ => apply negb_false_iff in H
  | H : (_ <? _) = true |- _ => apply Z.ltb_lt in H
  | H : (_ <? _) = false |- _ => apply Z.ltb_ge in H
  | H : (_ <=? _) = true |- _ => apply Z.leb_le in H
  | H : (_ <=? _) = false |- _ => apply Z.leb_gt in H
  | H : (_ >? _) = true |- _ => rewrite Z.gtb_ltb in H
  | H : (_ >=? _) = true |- _ => rewrite Z.geb_leb in H
  | H : (_ =? _) = true |- _ => apply Z.eqb_eq in H
  | H : (_ =? _) = false |- _ => apply Z.eqb_neq in H
  | H : N.eqb _ _ = true |- _ => apply N.eqb_eq in H
  | H : N.eqb _ _ = false |- _ => apply N.eqb_neq in H
  | H : bool_decide _ = true |- _ => apply bool_decide_eq_true in H
  | H : bool_decide _ = false |- _ => apply bool_decide_eq_false in H
  | H : ok_or ?o _ = Ok _ |- _ =>
      let E := fresh "Hsome" in destruct o eqn:E; simpl in H; [|discriminate H]
  | H : Ok _ = Ok _ |- _ => progress simplify_eq
  | H : map_err _ _ = Ok _ |- _ => apply map_err_Ok in H
  | H : checked_add_u64 _ _ = Some _ |- _ => apply checked_Some in H; destruct H
  | H : checked_sub_u64 _ _ = Some _ |- _ => apply checked_Some in H; destruct H
  | H : checked_mul_u128 _ _ = Some _ |- _ => apply checked_Some in H; destruct H
  | H : checked_sub_i64 _ _ = Some _ |- _ => apply checked_sub_i64_Some in H; destruct H
  end; subst.

(** ** Sums over a finite map *)

Section sum_map.
Context {K A : Type} `{Countable K} (f : K -> A -> Z).

Definition sum_map (m : gmap K A) : Z := map_fold (fun k a acc => f k a + acc) 0 m.

Lemma sum_map_empty : sum_map ∅ = 0.
Proof. apply map_fold_empty. Qed.

Lemma sum_map_insert_None k a m : m !! k = None -> sum_map (<[k:=a]> m) = f k a + sum_map m.
Proof. intros Hk. unfold sum_map. rewrite map_fold_insert_L; [lia|intros; lia|done]. Qed.

Lemma sum_map_delete k a m : m !! k = Some a -> sum_map m = f k a + sum_map (delete k m).
Proof.
  intros Hk. rewrite <- (insert_delete_id m k a Hk) at 1.
  apply sum_map_insert_None, lookup_delete_eq.
Qed.

Lemma sum_map_insert k a m :
  sum_map (<[k:=a]> m) =
    f k a + sum_map m - match m !! k with Some b => f k b | None => 0 end.
Proof.
  destruct (m !! k) as [b|] eqn:Hk.
  - rewrite <- insert_delete_eq, sum_map_insert_None by apply lookup_delete_eq.
    rewrite (sum_map_delete k b m Hk). lia.
  - rewrite sum_map_insert_None by done. lia.
Qed.

(** The contribution of a key, 0 when it is absent. *)
Definition contribution (k : K) (m : gmap K A) : Z :=
  match m !! k with Some a => f k a | None => 0 end.

Lemma sum_map_ext m m' :
  (forall k, contribution k m = contribution k m') -> sum_map m = sum_map m'.
Proof.
  revert m. induction m' as [|k a m' Hk IH] using map_ind; intros m Hm.
  - rewrite sum_map_empty.
    induction m as [|k a m Hk IH] using map_ind; [apply sum_map_empty|].
    rewrite sum_map_insert_None by done. rewrite IH.
    + pose proof (Hm k) as E. unfold contribution in E.
      rewrite lookup_insert_eq, lookup_empty in E. lia.
    + intros j. pose proof (Hm j) as E. unfold contribution in *. rewrite lookup_empty in *.
      destruct (decide (k = j)) as [<-|]; [by rewrite Hk|by rewrite lookup_insert_ne in E].
  - rewrite sum_map_insert_None by done. pose proof (Hm k) as E. unfold contribution in E.
    rewrite lookup_insert_eq in E. rewrite <- E.
    assert (Hd : sum_map (delete k m) = sum_map m').
    { apply IH. intros j. pose proof (Hm j) as Ej. unfold contribution in *.
      destruct (decide (k = j)) as [<-|Hne]; [by rewrite lookup_delete_eq, Hk|].
      by rewrite lookup_delete_ne, lookup_insert_ne in * by done. }
    destruct (m !! k) as [b|] eqn:Hb.
    + by rewrite (sum_map_delete k b m Hb), Hd.
    + by rewrite delete_id in Hd by done.
Qed.

Lemma sum_map_nonneg m : (forall k a, m !! k = Some a -> 0 <= f k a) -> 0 <= sum_map m.
Proof.
  induction m as [|k a m Hk IH] using map_ind; intros Hf.
  - rewrite sum_map_empty. lia.
  - rewrite sum_map_insert_None by done.
    pose proof (Hf k a (lookup_insert_eq _ _ _)).
    enough (0 <= sum_map m) by lia.
    apply IH. intros k' a' Hk'. apply (Hf k' a').
    rewrite lookup_insert_ne; [done|congruence].
Qed.

Lemma sum_map_ge m k a :
  (forall k a, m !! k = Some a -> 0 <= f k a) -> m !! k = Some a -> f k a <= sum_map m.
Proof.
  intros Hf Hk. rewrite (sum_map_delete k a m Hk).
  enough (0 <= sum_map (delete k m)) by lia.
  apply sum_map_nonneg. intros k' a' Hk'. apply (Hf k' a').
  by apply lookup_delete_Some in Hk' as [_ ?].
Qed.
End sum_map.
