(* ===== verification/Bitmask.v ===== *)
(** * Bitmask: the bit-mask primitives of [common/src/bitmask.rs]

    A mask is a list of bytes ([[u8; N]], each byte a [Z] in [0, 255]); a
    position is a [u16].  [set_bits] and [clear_bits] mutate the mask in place
    and stop at the first position past its capacity, so they return the mutated
    mask with the result of the call.  The abstract value of a mask is the set
    of its positions that are on, [mask_set]; the three operations refine union,
    difference and membership. *)

From S2P Require Import Prelude.

Definition MASK_CHUNK_BITS : Z := 8.

Definition capacity (mask : list Z) : Z := Z.of_nat (length mask) * MASK_CHUNK_BITS.

Definition locate (mask_len : Z) (position : Z) : Result Z (Z * Z) :=
  let i := position in
  if i <? mask_len * MASK_CHUNK_BITS
  then Ok (i / MASK_CHUNK_BITS, i mod MASK_CHUNK_BITS)
  else Err position.

(** [mask[byte]], and [mask[byte] = b] on an index in range. *)
Definition byte_at (mask : list Z) (byte : Z) : Z := mask !!! Z.to_nat byte.
Definition put_byte (mask : list Z) (byte b : Z) : list Z := <[Z.to_nat byte := b]> mask.

(** [!x] on a [u8] *)
Definition not_u8 (x : Z) : Z := Z.lxor x U8_MAX.

Fixpoint set_bits (mask : list Z) (positions : list Z) : list Z * Result Z unit :=
  match positions with
  | [] => (mask, Ok tt)
  | position :: rest =>
      match locate (Z.of_nat (length mask)) position with
      | Ok (byte, bit) =>
          set_bits (put_byte mask byte (Z.lor (byte_at mask byte) (Z.shiftl 1 bit))) rest
      | Err e => (mask, Err e)
      end
  end.

Fixpoint clear_bits (mask : list Z) (positions : list Z) : list Z * Result Z unit :=
  match positions with
  | [] => (mask, Ok tt)
  | position :: rest =>
      match locate (Z.of_nat (length mask)) position with
      | Ok (byte, bit) =>
          clear_bits
            (put_byte mask byte (Z.land (byte_at mask byte) (not_u8 (Z.shiftl 1 bit)))) rest
      | Err e => (mask, Err e)
      end
  end.

Definition is_set (mask : list Z) (position : Z) : Result Z bool :=
  match locate (Z.of_nat (length mask)) position with
  | Ok (byte, bit) => Ok (Z.land (Z.shiftr (byte_at mask byte) bit) 1 =? 1)
  | Err e => Err e
  end.

(** ** The abstract value of a mask *)

Definition mask_ok (mask : list Z) : Prop := Forall u8_ok mask.

(** Bit [p] of the mask. *)
Definition bit (mask : list Z) (p : Z) : bool := Z.testbit (byte_at mask (p / 8)) (p mod 8).

(** The set of positions that are on. *)
Definition mask_set (mask : list Z) : gset Z :=
  list_to_set (filter (fun p => bit mask p = true) (seqZ 0 (capacity mask))).

(** The positions processed before the first one that is past the capacity. *)
Fixpoint in_range_prefix (cap : Z) (ps : list Z) : list Z :=
  match ps with
  | [] => []
  | p :: ps => if p <? cap then p :: in_range_prefix cap ps else []
  end.

(** The first position past the capacity. *)
Fixpoint first_out (cap : Z) (ps : list Z) : option Z :=
  match ps with
  | [] => None
  | p :: ps => if p <? cap then first_out cap ps else Some p
  end.

Definition call_result (o : option Z) : Result Z unit :=
  match o with Some p => Err p | None => Ok tt end.

(** ** Lemmas *)

Lemma locate_ok mask p byte b :
  0 <= p -> locate (Z.of_nat (length mask)) p = Ok (byte, b) ->
  byte = p / 8 /\ b = p mod 8 /\ (Z.to_nat byte < length mask)%nat /\ 0 <= b < 8 /\ p < capacity mask.
Proof.
  unfold locate, capacity, MASK_CHUNK_BITS. intros Hp H.
  destruct (_ <? _) eqn:E; [|discriminate]. zify_checks.
  pose proof (Z.mod_pos_bound p 8). pose proof (Z.div_pos p 8).
  assert (p / 8 < Z.of_nat (length mask)) by (apply Z.div_lt_upper_bound; lia).
  repeat split; lia.
Qed.

Lemma locate_err mask p : capacity mask <= p -> locate (Z.of_nat (length mask)) p = Err p.
Proof.
  unfold locate, capacity, MASK_CHUNK_BITS. intros.
  destruct (_ <? _) eqn:E; [zify_checks; lia|done].
Qed.

Lemma locate_in mask p :
  0 <= p < capacity mask -> locate (Z.of_nat (length mask)) p = Ok (p / 8, p mod 8).
Proof.
  unfold locate, capacity, MASK_CHUNK_BITS. intros [? ?].
  destruct (_ <? _) eqn:E; [done|zify_checks; lia].
Qed.

Lemma capacity_put_byte mask i b : capacity (put_byte mask i b) = capacity mask.
Proof. unfold capacity, put_byte. by rewrite length_insert. Qed.

Lemma byte_at_put_byte mask i j b :
  0 <= i -> 0 <= j -> (Z.to_nat i < length mask)%nat ->
  byte_at (put_byte mask i b) j = if i =? j then b else byte_at mask j.
Proof.
  intros Hi Hj Hlen. unfold byte_at, put_byte.
  destruct (i =? j) eqn:E; zify_checks.
  - by apply list_lookup_total_insert_eq.
  - apply list_lookup_total_insert_ne. lia.
Qed.

Lemma byte_at_ok mask i : mask_ok mask -> u8_ok (byte_at mask i).
Proof.
  intros Hm. unfold byte_at. rewrite list_lookup_total_alt.
  destruct (mask !! _) as [b|] eqn:E; simpl; [|by vm_compute].
  by eapply (proj1 (Forall_lookup _ _) Hm).
Qed.

Lemma testbit_shiftl_1 b j : 0 <= b -> 0 <= j -> Z.testbit (Z.shiftl 1 b) j = (b =? j).
Proof.
  intros Hb Hj. rewrite Z.shiftl_1_l.
  destruct (b =? j) eqn:E; zify_checks.
  - by apply Z.pow2_bits_true.
  - by apply Z.pow2_bits_false.
Qed.

Lemma u8_testbit_high x j : u8_ok x -> 8 <= j -> Z.testbit x j = false.
Proof.
  intros [H0 H1] Hj. unfold U8_MAX in H1.
  destruct (decide (x = 0)) as [->|]; [apply Z.bits_0|].
  apply Z.bits_above_log2; [lia|].
  enough (Z.log2 x < 8) by lia. apply Z.log2_lt_pow2; lia.
Qed.

Lemma u8_of_testbits x : 0 <= x -> (forall j, 8 <= j -> Z.testbit x j = false) -> u8_ok x.
Proof.
  intros Hx H. split; [done|]. unfold U8_MAX.
  destruct (decide (x <= 255)) as [|Hgt]; [done|exfalso].
  assert (8 <= Z.log2 x) by (apply Z.log2_le_pow2; lia).
  pose proof (Z.bit_log2 x ltac:(lia)) as Hb. rewrite H in Hb by done. discriminate.
Qed.

Lemma testbit_not_u8 x j : 0 <= j < 8 -> Z.testbit (not_u8 x) j = negb (Z.testbit x j).
Proof.
  intros Hj. unfold not_u8, U8_MAX. rewrite Z.lxor_spec.
  assert (Z.testbit 255 j = true) as ->.
  { change 255 with (Z.ones 8). apply Z.ones_spec_low. lia. }
  apply xorb_true_r.
Qed.

Lemma u8_lor x y : u8_ok x -> u8_ok y -> u8_ok (Z.lor x y).
Proof.
  intros Hx Hy. apply u8_of_testbits; [apply Z.lor_nonneg; by destruct Hx, Hy|].
  intros j Hj. by rewrite Z.lor_spec, !u8_testbit_high.
Qed.

Lemma u8_land x y : u8_ok x -> u8_ok (Z.land x y).
Proof.
  intros Hx. apply u8_of_testbits; [apply Z.land_nonneg; left; apply Hx|].
  intros j Hj. by rewrite Z.land_spec, u8_testbit_high.
Qed.

Lemma u8_shiftl_1 b : 0 <= b < 8 -> u8_ok (Z.shiftl 1 b).
Proof.
  intros Hb. rewrite Z.shiftl_1_l. unfold u8_ok, U8_MAX.
  assert (2 ^ b <= 2 ^ 7) by (apply Z.pow_le_mono_r; lia).
  pose proof (Z.pow_pos_nonneg 2 b). lia.
Qed.

Lemma mask_ok_put_byte mask i b : mask_ok mask -> u8_ok b -> mask_ok (put_byte mask i b).
Proof. intros. by apply Forall_insert. Qed.

(** ** One step of each loop, on the bits *)

Lemma div_mod_eqb p q : 0 <= p -> 0 <= q ->
  (q =? p) = (p / 8 =? q / 8) && (p mod 8 =? q mod 8).
Proof.
  intros Hp Hq. pose proof (Z.div_mod p 8). pose proof (Z.div_mod q 8).
  destruct (q =? p) eqn:E; zify_checks.
  - by rewrite !Z.eqb_refl.
  - destruct (_ && _) eqn:F; [zify_checks; lia|done].
Qed.

Lemma bit_put_byte mask p q b :
  0 <= p < capacity mask -> 0 <= q ->
  bit (put_byte mask (p / 8) b) q =
    if p / 8 =? q / 8 then Z.testbit b (q mod 8) else bit mask q.
Proof.
  intros Hp Hq. unfold bit, capacity, MASK_CHUNK_BITS in *.
  assert (p / 8 < Z.of_nat (length mask)) by (apply Z.div_lt_upper_bound; lia).
  pose proof (Z.div_pos p 8). pose proof (Z.div_pos q 8).
  rewrite byte_at_put_byte by lia. by destruct (_ =? _).
Qed.

Lemma bit_set_one mask p q : 0 <= p < capacity mask -> 0 <= q ->
  bit (put_byte mask (p / 8) (Z.lor (byte_at mask (p / 8)) (Z.shiftl 1 (p mod 8)))) q =
    bit mask q || (q =? p).
Proof.
  intros Hp Hq. rewrite bit_put_byte by done. pose proof (Z.mod_pos_bound q 8).
  pose proof (Z.mod_pos_bound p 8).
  rewrite (div_mod_eqb p q) by lia. destruct (_ =? _) eqn:E; simpl; zify_checks.
  - rewrite Z.lor_spec, testbit_shiftl_1 by lia. unfold bit. by rewrite E.
  - by rewrite orb_false_r.
Qed.

Lemma bit_clear_one mask p q : 0 <= p < capacity mask -> 0 <= q ->
  bit (put_byte mask (p / 8) (Z.land (byte_at mask (p / 8)) (not_u8 (Z.shiftl 1 (p mod 8))))) q =
    bit mask q && negb (q =? p).
Proof.
  intros Hp Hq. rewrite bit_put_byte by done. pose proof (Z.mod_pos_bound q 8).
  pose proof (Z.mod_pos_bound p 8).
  rewrite (div_mod_eqb p q) by lia. destruct (_ =? _) eqn:E; simpl; zify_checks.
  - rewrite Z.land_spec, testbit_not_u8, testbit_shiftl_1 by lia. unfold bit. by rewrite E.
  - by rewrite andb_true_r.
Qed.

Lemma set_bits_bits mask ps : Forall (Z.le 0) ps ->
  let '(mask', r) := set_bits mask ps in
  length mask' = length mask /\
  r = call_result (first_out (capacity mask) ps) /\
  forall q, 0 <= q ->
    bit mask' q = bit mask q || bool_decide (q ∈ in_range_prefix (capacity mask) ps).
Proof.
  intros Hps. revert mask. induction Hps as [|p ps Hp _ IH]; intros mask; simpl.
  { repeat split; intros. by rewrite orb_false_r. }
  destruct (p <? capacity mask) eqn:E; zify_checks.
  - rewrite locate_in by lia.
    set (m1 := put_byte _ _ _). specialize (IH m1).
    destruct (set_bits m1 ps) as [mask' r]. destruct IH as (Hlen & -> & Hbit).
    assert (Hcap : capacity m1 = capacity mask) by apply capacity_put_byte.
    rewrite Hcap in *. split_and!; [|done|].
    + rewrite Hlen. apply length_insert.
    + intros q Hq. rewrite Hbit by done. unfold m1.
      rewrite bit_set_one by lia. rewrite <- orb_assoc. f_equal.
      destruct (q =? p) eqn:F; zify_checks; simpl.
      * symmetry. apply bool_decide_eq_true. left.
      * apply bool_decide_ext. rewrite elem_of_cons. tauto.
  - rewrite locate_err by done. repeat split; intros. by rewrite orb_false_r.
Qed.

Lemma clear_bits_bits mask ps : Forall (Z.le 0) ps ->
  let '(mask', r) := clear_bits mask ps in
  length mask' = length mask /\
  r = call_result (first_out (capacity mask) ps) /\
  forall q, 0 <= q ->
    bit mask' q = bit mask q && negb (bool_decide (q ∈ in_range_prefix (capacity mask) ps)).
Proof.
  intros Hps. revert mask. induction Hps as [|p ps Hp _ IH]; intros mask; simpl.
  { repeat split; intros. by rewrite andb_true_r. }
  destruct (p <? capacity mask) eqn:E; zify_checks.
  - rewrite locate_in by lia.
    set (m1 := put_byte _ _ _). specialize (IH m1).
    destruct (clear_bits m1 ps) as [mask' r]. destruct IH as (Hlen & -> & Hbit).
    assert (Hcap : capacity m1 = capacity mask) by apply capacity_put_byte.
    rewrite Hcap in *. split_and!; [|done|].
    + rewrite Hlen. apply length_insert.
    + intros q Hq. rewrite Hbit by done. unfold m1.
      rewrite bit_clear_one by lia. rewrite <- andb_assoc. f_equal.
      destruct (q =? p) eqn:F; zify_checks; simpl.
      * symmetry. apply negb_false_iff, bool_decide_eq_true. left.
      * f_equal. apply bool_decide_ext. rewrite elem_of_cons. tauto.
  - rewrite locate_err by done. repeat split; intros. by rewrite andb_true_r.
Qed.

Lemma set_bits_mask_ok mask ps :
  Forall (Z.le 0) ps -> mask_ok mask -> mask_ok (set_bits mask ps).1.
Proof.
  intros Hps. revert mask. induction Hps as [|p ps Hp _ IH]; intros mask Hm; simpl; [done|].
  destruct (locate _ p) as [[byte b]|e] eqn:E; [|done].
  apply locate_ok in E as (-> & -> & _ & Hb & _); [|done].
  apply IH, mask_ok_put_byte; [done|].
  apply u8_lor; [by apply byte_at_ok|by apply u8_shiftl_1].
Qed.

Lemma clear_bits_mask_ok mask ps :
  Forall (Z.le 0) ps -> mask_ok mask -> mask_ok (clear_bits mask ps).1.
Proof.
  intros Hps. revert mask. induction Hps as [|p ps Hp _ IH]; intros mask Hm; simpl; [done|].
  destruct (locate _ p) as [[byte b]|e] eqn:E; [|done].
  apply IH, mask_ok_put_byte; [done|]. by apply u8_land, byte_at_ok.
Qed.

Lemma elem_of_mask_set mask p :
  p ∈ mask_set mask <-> 0 <= p < capacity mask /\ bit mask p = true.
Proof.
  unfold mask_set. rewrite elem_of_list_to_set, list_elem_of_filter, elem_of_seqZ.
  rewrite Z.add_0_l. tauto.
Qed.

Lemma elem_of_in_range_prefix cap ps p : p ∈ in_range_prefix cap ps -> p < cap /\ p ∈ ps.
Proof.
  induction ps as [|x ps IH]; simpl; [by intros ?%elem_of_nil|].
  destruct (x <? cap) eqn:E; [|by intros ?%elem_of_nil]. zify_checks.
  rewrite elem_of_cons. intros [->|H]; [split; [done|left]|].
  destruct (IH H). split; [done|by right].
Qed.

Lemma first_out_None cap ps :
  first_out cap ps = None <-> Forall (fun p => p < cap) ps.
Proof.
  induction ps as [|x ps IH]; simpl; [by split|].
  destruct (x <? cap) eqn:E; zify_checks; rewrite Forall_cons, ?IH; [tauto|].
  split; [done|lia].
Qed.

Lemma in_range_prefix_all cap ps :
  Forall (fun p => p < cap) ps -> in_range_prefix cap ps = ps.
Proof.
  induction 1 as [|x ps Hx _ IH]; simpl; [done|].
  destruct (x <? cap) eqn:E; zify_checks; [by rewrite IH|lia].
Qed.

(** ** The refinement of sets of positions *)

Lemma is_set_mask_set mask p :
  0 <= p -> is_set mask p = if p <? capacity mask then Ok (bool_decide (p ∈ mask_set mask)) else Err p.
Proof.
  intros Hp. unfold is_set. destruct (p <? capacity mask) eqn:E; zify_checks.
  - rewrite locate_in by lia. f_equal.
    assert (bool_decide (p ∈ mask_set mask) = bit mask p) as ->.
    { destruct (bit mask p) eqn:B.
      - apply bool_decide_eq_true, elem_of_mask_set. split; [lia|done].
      - apply bool_decide_eq_false. rewrite elem_of_mask_set. intros [_ ?]. congruence. }
    unfold bit. set (b := byte_at _ _). pose proof (Z.mod_pos_bound p 8).
    change 1 with (Z.ones 1) at 1. rewrite Z.land_ones by lia. change (2 ^ 1) with 2.
    rewrite Z.shiftr_div_pow2, <- Z.testbit_spec' by lia.
    by destruct (Z.testbit b (p mod 8)).
  - by rewrite locate_err.
Qed.

Lemma mask_set_ext mask mask' (X : gset Z) :
  length mask' = length mask ->
  (forall q, 0 <= q < capacity mask -> bit mask' q = true <-> q ∈ X) ->
  (forall q, q ∈ X -> 0 <= q < capacity mask) ->
  mask_set mask' = X.
Proof.
  intros Hlen Hbit HX. apply set_eq. intros q. rewrite elem_of_mask_set.
  unfold capacity. rewrite Hlen. fold (capacity mask).
  split; [intros [Hq H]; by apply Hbit|].
  intros H. pose proof (HX q H). split; [done|by apply Hbit].
Qed.

Lemma mask_set_after_set mask ps : Forall (Z.le 0) ps ->
  mask_set (set_bits mask ps).1 =
    mask_set mask ∪ list_to_set (in_range_prefix (capacity mask) ps).
Proof.
  intros Hps. pose proof (set_bits_bits mask ps Hps) as H.
  destruct (set_bits mask ps) as [mask' r]. destruct H as (Hlen & _ & Hbit).
  apply (mask_set_ext mask mask'); simpl; [done| |].
  - intros q Hq. rewrite Hbit, orb_true_iff, bool_decide_eq_true by lia.
    rewrite elem_of_union, elem_of_mask_set, elem_of_list_to_set. tauto.
  - intros q. rewrite elem_of_union, elem_of_mask_set, elem_of_list_to_set.
    intros [[? _]|H]; [done|]. apply elem_of_in_range_prefix in H as [? H].
    pose proof (proj1 (Forall_forall _ _) Hps q H). simpl in *. lia.
Qed.

Lemma mask_set_after_clear mask ps : Forall (Z.le 0) ps ->
  mask_set (clear_bits mask ps).1 =
    mask_set mask ∖ list_to_set (in_range_prefix (capacity mask) ps).
Proof.
  intros Hps. pose proof (clear_bits_bits mask ps Hps) as H.
  destruct (clear_bits mask ps) as [mask' r]. destruct H as (Hlen & _ & Hbit).
  apply (mask_set_ext mask mask'); simpl; [done| |].
  - intros q Hq. rewrite Hbit, andb_true_iff, negb_true_iff, bool_decide_eq_false by lia.
    rewrite elem_of_difference, elem_of_mask_set, elem_of_list_to_set. tauto.
  - intros q. rewrite elem_of_difference, elem_of_mask_set. by intros [[? _] _].
Qed.

Lemma set_bits_length mask ps : Forall (Z.le 0) ps -> length (set_bits mask ps).1 = length mask.
Proof.
  intros Hps. pose proof (set_bits_bits mask ps Hps) as H.
  destruct (set_bits mask ps). by destruct H.
Qed.

Lemma clear_bits_length mask ps :
  Forall (Z.le 0) ps -> length (clear_bits mask ps).1 = length mask.
Proof.
  intros Hps. pose proof (clear_bits_bits mask ps Hps) as H.
  destruct (clear_bits mask ps). by destruct H.
Qed.

Lemma set_bits_result mask ps :
  Forall (Z.le 0) ps -> (set_bits mask ps).2 = call_result (first_out (capacity mask) ps).
Proof.
  intros Hps. pose proof (set_bits_bits mask ps Hps) as H.
  destruct (set_bits mask ps). by destruct H as (_ & ? & _).
Qed.

Lemma clear_bits_result mask ps :
  Forall (Z.le 0) ps -> (clear_bits mask ps).2 = call_result (first_out (capacity mask) ps).
Proof.
  intros Hps. pose proof (clear_bits_bits mask ps Hps) as H.
  destruct (clear_bits mask ps). by destruct H as (_ & ? & _).
Qed.

Lemma call_result_Ok cap ps :
  call_result (first_out cap ps) = Ok tt -> Forall (fun p => p < cap) ps.
Proof. intros H. apply first_out_None. by destruct (first_out cap ps). Qed.

(** A call that succeeds had all its positions in range. *)
Lemma set_bits_Ok mask mask' ps :
  mask_ok mask -> Forall (fun p => 0 <= p <= U16_MAX) ps -> set_bits mask ps = (mask', Ok tt) ->
  Forall (fun p => p < capacity mask) ps /\ mask_set mask' = mask_set mask ∪ list_to_set ps /\
  length mask' = length mask /\ mask_ok mask'.
Proof.
  intros Hok Hps E. assert (H0 : Forall (Z.le 0) ps) by (eapply Forall_impl; [exact Hps|simpl; lia]).
  pose proof (set_bits_result mask ps H0) as Hr. pose proof (mask_set_after_set mask ps H0) as Hs.
  pose proof (set_bits_length mask ps H0) as Hlen. pose proof (set_bits_mask_ok mask ps H0 Hok) as Hok'.
  rewrite E in *. simpl in *. symmetry in Hr. apply call_result_Ok in Hr.
  rewrite (in_range_prefix_all _ _ Hr) in Hs. done.
Qed.

Lemma clear_bits_Ok mask mask' ps :
  mask_ok mask -> Forall (fun p => 0 <= p <= U16_MAX) ps -> clear_bits mask ps = (mask', Ok tt) ->
  Forall (fun p => p < capacity mask) ps /\ mask_set mask' = mask_set mask ∖ list_to_set ps /\
  length mask' = length mask /\ mask_ok mask'.
Proof.
  intros Hok Hps E. assert (H0 : Forall (Z.le 0) ps) by (eapply Forall_impl; [exact Hps|simpl; lia]).
  pose proof (clear_bits_result mask ps H0) as Hr. pose proof (mask_set_after_clear mask ps H0) as Hs.
  pose proof (clear_bits_length mask ps H0) as Hlen. pose proof (clear_bits_mask_ok mask ps H0 Hok) as Hok'.
  rewrite E in *. simpl in *. symmetry in Hr. apply call_result_Ok in Hr.
  rewrite (in_range_prefix_all _ _ Hr) in Hs. done.
Qed.

Lemma set_bits_refines_union mask ps : Forall (Z.le 0) ps ->
  mask_set (set_bits mask ps).1 =
    mask_set mask ∪ list_to_set (in_range_prefix (capacity mask) ps) /\
  (set_bits mask ps).2 = call_result (first_out (capacity mask) ps) /\
  length (set_bits mask ps).1 = length mask /\
  (mask_ok mask -> mask_ok (set_bits mask ps).1).
Proof.
  intros Hps. split_and!; [by apply mask_set_after_set|by apply set_bits_result|
    by apply set_bits_length|by apply set_bits_mask_ok].
Qed.

Lemma clear_bits_refines_difference mask ps : Forall (Z.le 0) ps ->
  mask_set (clear_bits mask ps).1 =
    mask_set mask ∖ list_to_set (in_range_prefix (capacity mask) ps) /\
  (clear_bits mask ps).2 = call_result (first_out (capacity mask) ps) /\
  length (clear_bits mask ps).1 = length mask /\
  (mask_ok mask -> mask_ok (clear_bits mask ps).1).
Proof.
  intros Hps. split_and!; [by apply mask_set_after_clear|by apply clear_bits_result|
    by apply clear_bits_length|by apply clear_bits_mask_ok].
Qed.

(** C38: A mask is a finite set of positions: [set_bits] is the union,
    [clear_bits] the difference, [is_set] the membership test.  An update takes the
    positions listed before the first one that is past the capacity; it fails with
    that position, if there is one, and leaves the mask as it is from that point on;
    the mask keeps its length and its bytes.  [is_set] fails with the position itself
    exactly when it is past the capacity. *)
Theorem bitmask_refines_position_set mask ps p (Hps : Forall (Z.le 0) ps) (Hp : 0 <= p) :
  let taken : gset Z := list_to_set (in_range_prefix (capacity mask) ps) in
  let result := call_result (first_out (capacity mask) ps) in
  let kept mask' := length mask' = length mask /\ (mask_ok mask -> mask_ok mask') in
  (mask_set (set_bits mask ps).1 = mask_set mask ∪ taken /\ (set_bits mask ps).2 = result /\
   kept (set_bits mask ps).1) /\
  (mask_set (clear_bits mask ps).1 = mask_set mask ∖ taken /\ (clear_bits mask ps).2 = result /\
   kept (clear_bits mask ps).1) /\
  is_set mask p = if p <? capacity mask then Ok (bool_decide (p ∈ mask_set mask)) else Err p.
Proof.
  split; [by apply set_bits_refines_union|]. split; [by apply clear_bits_refines_difference|].
  by apply is_set_mask_set.
Qed.

Lemma bitmask_refines_position_set_witness :
  (set_bits [255; 0] [0; 9; 40; 3]).1 = [255; 2] /\ (set_bits [255; 0] [0; 9; 40; 3]).2 = Err 40 /\
  (clear_bits [255; 0] [0; 9; 40; 3]).1 = [254; 0] /\ is_set [255; 0] 16 = Err 16 /\
  mask_set (set_bits [255; 0] [0; 9; 40; 3]).1 = mask_set [255; 0] ∪ list_to_set [0; 9].
Proof.
  split_and!; [reflexivity..|].
  apply (bitmask_refines_position_set [255; 0] [0; 9; 40; 3] 16); [repeat constructor; lia|lia].
Defined.
