(* ===== verification/ProgramIds.v ===== *)
(** * ProgramIds: public keys and the program ids of [common/src/program_ids.rs]

    A public key is the number its 32 bytes spell, an [N].  The ids are decoded
    from the base-58 literals of the [pubkey!] macro.  The derivation of program
    addresses is a parameter of the development ([Runtime.SolanaRuntime]), and
    its collision resistance is stated in [Runtime.RuntimeLaws]: keys are not
    bounded by 2^256 there, as no derivation can be injective into 32 bytes. *)

From S2P Require Import Prelude.
From Stdlib Require Import Ascii.

Abbreviation Pubkey := N (only parsing).

Definition base58_alphabet : string :=
  "123456789ABCDEFGHJKLMNPQRSTUVWXYZabcdefghijkmnopqrstuvwxyz".

Fixpoint index_of (c : ascii) (s : string) (i : N) : option N :=
  match s with
  | EmptyString => None
  | String d s => if Ascii.eqb c d then Some i else index_of c s (N.succ i)
  end.

Fixpoint base58 (s : string) (acc : N) : option N :=
  match s with
  | EmptyString => Some acc
  | String c s =>
      match index_of c base58_alphabet 0%N with
      | Some d => base58 s (58 * acc + d)%N
      | None => None
      end
  end.

(** [pubkey!(s)] *)
Definition pubkey (s : string) : Pubkey := default 0%N (base58 s 0%N).

Definition DEPLOY_PROGRAM_ID : Pubkey := Eval vm_compute in pubkey "HCe5Um7ThFBzDSyn256EPQvyr6jy6E66ydzZ5hMta3Tq".
Definition DEACTIVATE_PROGRAM_ID : Pubkey := Eval vm_compute in pubkey "H2iRjVVKsKQMAnJKqiTfW2LGvT1G9tDqQ81DzRjxfX7V".
Definition MINT_PROGRAM_ID : Pubkey := Eval vm_compute in pubkey "BgVv7zYbf3L4ECwaeNoNqD6unKWvQtgTwRJ2Dma7iSHQ".
Definition OPERATIONS_PROGRAM_ID : Pubkey := Eval vm_compute in pubkey "BHDyg8PeUyVBpmkcjYLdnt3VCmYf4wp8Xeu6TXREiLKp".
Definition FREEZE_PROGRAM_ID : Pubkey := Eval vm_compute in pubkey "8L1kqDvAYC9dQXNNNnZbABtRbHGjzoxSgAPzbQZmwmSd".
Definition METADATA_UPDATE_PROGRAM_ID : Pubkey := Eval vm_compute in pubkey "iShebeGRBZYSBMQYGAg8DbLnbaW2eDvX1Zt8EG9G1ZV".
Definition PAUSE_PROGRAM_ID : Pubkey := Eval vm_compute in pubkey "5j3F89fmVVusjwy9z3Rv5wLaVj4ovhwctQ7TRBsxNghq".
Definition TRANSFER_CONTROL_PROGRAM_ID : Pubkey := Eval vm_compute in pubkey "3h92PdZJB7TuCzp6iPDtrJm2k8V7fn5ETYNwCYiYy9Eo".
Definition TRANSFER_PROGRAM_ID : Pubkey := Eval vm_compute in pubkey "Fa5VLqopKp6cokXJreYeNNmUG8F9AaE4CUBnGQvtdq7Q".
Definition TRANSFER_HOOK_PROGRAM_ID : Pubkey := Eval vm_compute in pubkey "2qjsucJfrjP93FCwnYjc9EjYzYS8u31eWHhQo1jR9pcg".
Definition SNAPSHOT_PROGRAM_ID : Pubkey := Eval vm_compute in pubkey "hgUtrpstViwxutrkoVXwQh3GQC18wHAmuAvYFTNiV2M".
Definition BOND_PROGRAM_ID : Pubkey := Eval vm_compute in pubkey "8opYXiWzWBrUEr5vtcvaX1ybzYaMKrndxkW1U9Patk46".
Definition COUPON_PROGRAM_ID : Pubkey := Eval vm_compute in pubkey "CGQMgamBMtJ97CCMwVD9v5vAYVzFsXLy8beN8Ej6t3FK".
Definition TREASURY_PROGRAM_ID : Pubkey := Eval vm_compute in pubkey "G71RRNtr2PLZ9Tbmp9CKnxghf3aMoasUwLGPb2u7BytA".
Definition FACTORY_PROGRAM_ID : Pubkey := Eval vm_compute in pubkey "FEY9E77nH7R1gLGNxkhYKchJpB6MgpMrWMhkNXrNhzR5".
Definition ACCESS_CONTROL_PROGRAM_ID : Pubkey := Eval vm_compute in pubkey "GpyjQqBWux3JYqxKCXFrDbWZmhFWBJWVaVivkBW2DL2w".
Definition CAP_PROGRAM_ID : Pubkey := Eval vm_compute in pubkey "64THHYmfoHeWxbZQYq8yRsQJYydfd7yPa6MzNgebiJLm".
Definition DOCUMENT_PROGRAM_ID : Pubkey := Eval vm_compute in pubkey "DzYjHw2JUBT8RdNqT8P5soRxJhmL6obibRUs5sMJ2Khi".
Definition HOLD_PROGRAM_ID : Pubkey := Eval vm_compute in pubkey "J8iq5Qz8tXLswZBbUFHuJukf3jpwEXLGVpvFoPZb2qY3".
Definition NOMINAL_VALUE_PROGRAM_ID : Pubkey := Eval vm_compute in pubkey "DJSxxL9WJkag9gCifqQs5EBD4uow9beP8CyDaZDj2rLL".

(** The programs outside the workspace that its accounts name. *)
Definition SYSTEM_PROGRAM_ID : Pubkey := Eval vm_compute in pubkey "11111111111111111111111111111111".
Definition TOKEN_PROGRAM_ID : Pubkey := Eval vm_compute in pubkey "TokenkegQfeZyiNwAJbNbGKPFXCWuBvf9Ss623VQ5DA".
Definition TOKEN_2022_PROGRAM_ID : Pubkey := Eval vm_compute in pubkey "TokenzQdBNbLqP5VEhdkAS6EPFLC1PHnBqCXEpPxuEb".

Definition program_ids : list Pubkey :=
  [DEPLOY_PROGRAM_ID; DEACTIVATE_PROGRAM_ID; MINT_PROGRAM_ID; OPERATIONS_PROGRAM_ID;
   FREEZE_PROGRAM_ID; METADATA_UPDATE_PROGRAM_ID; PAUSE_PROGRAM_ID; TRANSFER_CONTROL_PROGRAM_ID;
   TRANSFER_PROGRAM_ID; TRANSFER_HOOK_PROGRAM_ID; SNAPSHOT_PROGRAM_ID; BOND_PROGRAM_ID;
   COUPON_PROGRAM_ID; TREASURY_PROGRAM_ID; FACTORY_PROGRAM_ID; ACCESS_CONTROL_PROGRAM_ID;
   CAP_PROGRAM_ID; DOCUMENT_PROGRAM_ID; HOLD_PROGRAM_ID; NOMINAL_VALUE_PROGRAM_ID].

Lemma program_ids_NoDup : NoDup (SYSTEM_PROGRAM_ID :: TOKEN_PROGRAM_ID :: TOKEN_2022_PROGRAM_ID :: program_ids).
Proof. apply (bool_decide_unpack _). vm_compute. exact I. Qed.

(** Distinct programs. *)
Ltac program_ne := solve [vm_compute; let H := fresh in intros H; discriminate H].
#[export] Hint Extern 1 (_ <> _ :> N) => program_ne : preserves_db.
