(* ===== verification/Errors.v ===== *)
(** * Errors: the error codes of every program (the [errors.rs] files)

    One inductive type per [#[error_code]] enumeration, with its constructors,
    in a module named after the program since the sources reuse names; [Error]
    is their sum with the errors of the framework and of the runtime that the
    sources let through. *)

From S2P Require Import Prelude.

Module CommonError.
Inductive CommonError : Set :=
| MintPaused | Deactivated | FunctionalityOutOfBounds | FunctionalityNotSupportedError
| InvalidAssetConfigurationData | InvalidHoldPositionData | AssetClassVersionNotFinalized
| RoleOutOfBounds | MissingRole | ControlListPdaMismatch | InsufficientSpendableBalance
| HoldPositionPdaMismatch | InvalidMerkleProof.
End CommonError.

Module FreezeError.
Inductive ErrorCode : Set :=
| Unauthorized | AccountFrozen | InsufficientUnfrozenBalance | EmptyBatch
| InvalidRemainingAccounts | FreezeStatePdaMismatch | AccountNotFrozen
| AccountNotPartiallyFrozen | InvalidFreezeAmount.
End FreezeError.

Module HoldError.
Inductive ErrorCode : Set :=
| ZeroAmount | ExpirationInThePast | HoldIdMismatch | InsufficientAvailableBalance
| NotTheEscrow | HoldNotActive | HoldExpired | HoldNotExpired | AmountExceedsHold
| DestinationMismatch | HeldAmountUnderflow.
End HoldError.

Module TransferControlError.
Inductive TransferControlError : Set := NotWhitelisted | Blacklisted.
End TransferControlError.

Module TransferHookError.
Inductive TransferHookError : Set := InvalidAccountSize | NotTransferring.
End TransferHookError.

Module OperationsError.
Inductive OperationsError : Set :=
| EmptyBatch | InvalidRemainingAccounts | UnauthorizedHoldAuthority.
End OperationsError.

Module TransferError.
Inductive TransferError : Set := EmptyBatch | InvalidRemainingAccounts | BatchAmountOverflow.
End TransferError.

Module MintError.
Inductive MintError : Set := EmptyBatch | InvalidRemainingAccounts | AmountOverflow.
End MintError.

Module CapError.
Inductive ErrorCode : Set :=
| MaxSupplyTooLow | MaxSupplyBelowTotalSupply | MaxSupplyExceeded | MaxSupplyNotSet.
End CapError.

Module FactoryError.
Inductive ErrorCode : Set :=
| NotManager | NotPendingManager | FactoryPaused | FactoryNotPaused | NotOwner
| NotPendingOwner | InvalidVersion | VersionNotDraft | FunctionalityOutOfBounds | Overflow.
End FactoryError.

Module AccessControlError.
Inductive AccessControlError : Set := RoleOutOfBounds | Unauthorized.
End AccessControlError.

Module SnapshotError.
Inductive ErrorCode : Set := Unauthorized | SnapshotCounterOverflow.
End SnapshotError.

Module CouponError.
Inductive ErrorCode : Set :=
| InvalidCouponId | InvalidCouponPeriod | InvalidPaymentDate | InconsistentRateOverride
| CouponCounterOverflow.
End CouponError.

Module TreasuryError.
Inductive ErrorCode : Set :=
| NegativeElapsedTime | AmountOverflow | CouponNotMature | ClaimsInProgress.
End TreasuryError.

Module NominalValueError.
Inductive ErrorCode : Set :=
| InvalidTimestamp | EffectiveDatetimeNotAfterCurrent | EffectiveDatetimeNotInPast
| EffectiveDatetimeMismatch.
End NominalValueError.

Module DocumentError.
Inductive ErrorCode : Set := EmptyUri.
End DocumentError.

Module DeployError.
Inductive ErrorCode : Set := MintAuthorityMustBeSigner | InvalidMintAccountSize.
End DeployError.

Module MetadataUpdateError.
Inductive ErrorCode : Set := MetadataAuthorityMustBeSigner.
End MetadataUpdateError.

Module PauseError.
Inductive PauseError : Set := AlreadyPaused | NotPaused.
End PauseError.

(** The errors of Anchor's account checks that the sources rely on. *)
Inductive AnchorError : Set :=
| ConstraintSeeds | ConstraintAddress | ConstraintSigner | ConstraintTokenMint
| ConstraintTokenOwner | ConstraintTokenTokenProgram | ConstraintMintTokenProgram | ConstraintRaw | AccountNotEnoughKeys | AccountNotSigner
| AccountNotInitialized | AccountOwnedByWrongProgram | AccountDiscriminatorNotFound
| AccountDiscriminatorMismatch | AccountDiscriminatorAlreadySet | InvalidProgramId.

(** Errors of the runtime and of the programs outside the workspace. *)
Inductive RuntimeError : Set :=
| AccountAlreadyInUse | ExternalAccountDataModified | InsufficientFunds | MissingRequiredSignature | InvalidSeeds
| InvalidAccountData | ArithmeticOverflow | IndexOutOfBounds | ExternalProgram (code : Z).

Inductive Error : Set :=
| ECommon (e : CommonError.CommonError)
| EFreeze (e : FreezeError.ErrorCode)
| EHold (e : HoldError.ErrorCode)
| ETransferControl (e : TransferControlError.TransferControlError)
| ETransferHook (e : TransferHookError.TransferHookError)
| EOperations (e : OperationsError.OperationsError)
| ETransfer (e : TransferError.TransferError)
| EMint (e : MintError.MintError)
| ECap (e : CapError.ErrorCode)
| EFactory (e : FactoryError.ErrorCode)
| EAccessControl (e : AccessControlError.AccessControlError)
| ESnapshot (e : SnapshotError.ErrorCode)
| ECoupon (e : CouponError.ErrorCode)
| ETreasury (e : TreasuryError.ErrorCode)
| ENominalValue (e : NominalValueError.ErrorCode)
| EDocument (e : DocumentError.ErrorCode)
| EDeploy (e : DeployError.ErrorCode)
| EAnchor (e : AnchorError)
| ERuntime (e : RuntimeError).
