(* ===== verification/State.v ===== *)
(** * State: the on-chain accounts of the workspace

    The account structs of the programs ([state.rs], [common/src/state]), the
    part of the Token-2022 mint and token account that the sources read, the
    contents of an account ([AccountData], one constructor per discriminator),
    the events and the world a transaction runs on. *)

From S2P Require Import Prelude.
From S2P Require Import ProgramIds.

(** ** Account structs *)

Record AssetConfiguration : Set := mkAssetConfiguration {
  ac_asset_class_config_id : Z;
  ac_asset_class_version_id : Z;
  ac_bump : Z }.

Definition FUNCTIONALITIES_BITS_MASK : Z := 8192.
Definition FUNCTIONALITIES_BYTES_MASK : Z := FUNCTIONALITIES_BITS_MASK / 8.
Definition ASSET_CLASS_VERSION_STATE_DRAFT : Z := 0.
Definition ASSET_CLASS_VERSION_STATE_FINALIZED : Z := 1.

Record AssetClassVersion : Set := mkAssetClassVersion {
  acv_config_id : Z;
  acv_version : Z;
  acv_state : Z;
  acv_bump : Z;
  acv_mask : list Z }.

Definition ROLES_BITS_MASK : Z := 8192.
Definition ROLES_BYTES_MASK : Z := ROLES_BITS_MASK / 8.

Record Roles : Set := mkRoles { r_bump : Z; r_mask : list Z }.

Record FreezeState : Set := mkFreezeState {
  fs_fully_frozen : bool;
  fs_frozen_balance : Z;
  fs_bump : Z }.

Inductive TransferMode : Set := Whitelist | Blacklist.

Record TransferControlMode : Set := mkTransferControlMode { tcm_mode : TransferMode; tcm_bump : Z }.
Record ControlListStatus : Set := mkControlListStatus { cls_bump : Z }.
Record DeactivateStatus : Set := mkDeactivateStatus { ds_bump : Z }.

Inductive HoldStatus : Set := Active | Expired | Closed.

Record HoldPosition : Set := mkHoldPosition {
  hp_mint : Pubkey;
  hp_token_account : Pubkey;
  hp_held_amount : Z;
  hp_hold_count : Z;
  hp_bump : Z }.

Record Hold : Set := mkHold {
  h_mint : Pubkey;
  h_token_account : Pubkey;
  h_hold_id : Z;
  h_escrow : Pubkey;
  h_destination : option Pubkey;
  h_initial_amount : Z;
  h_current_amount : Z;
  h_created_at : Z;
  h_expiration : Z;
  h_status : HoldStatus;
  h_bump : Z }.

Record MaxSupply : Set := mkMaxSupply { ms_bump : Z; ms_max_supply : Z }.

Record Factory : Set := mkFactory { f_manager : Pubkey; f_pause : bool; f_bump : Z }.
Record FactoryPendingManager : Set := mkFactoryPendingManager {
  fpm_pending_manager : Pubkey; fpm_bump : Z }.
Record AssetClassOwnership : Set := mkAssetClassOwnership {
  aco_owner : Pubkey; aco_latest_version : Z; aco_bump : Z }.
Record AssetClassPendingOwner : Set := mkAssetClassPendingOwner {
  acpo_pending_owner : Pubkey; acpo_bump : Z }.

Record SnapshotCounter : Set := mkSnapshotCounter { sc_bump : Z; sc_count : Z }.
Record SnapshotMerkleRoot : Set := mkSnapshotMerkleRoot { smr_bump : Z; smr_merkle_root : list Z }.

Record CouponCounter : Set := mkCouponCounter { cc_bump : Z; cc_count : Z }.
Record Coupon : Set := mkCoupon {
  c_bump : Z;
  c_snapshot_id : Z;
  c_period_start_date : Z;
  c_period_end_date : Z;
  c_payment_date : Z;
  c_interest_rate_override : option Z;
  c_interest_rate_override_decimals : option Z }.

Inductive DayCountConvention : Set := Actual360 | Actual365.

Record BondTerms : Set := mkBondTerms {
  bt_bump : Z;
  bt_interest_rate : Z;
  bt_interest_rate_decimals : Z;
  bt_par_value : Z;
  bt_par_value_decimals : Z;
  bt_minimum_denomination : Z;
  bt_issuance_date : Z;
  bt_day_count_convention : DayCountConvention }.

Record TreasuryConfig : Set := mkTreasuryConfig {
  tc_bump : Z;
  tc_payment_mint : Pubkey;
  tc_payment_mint_decimals : Z;
  tc_locked_for_coupon_id : Z }.
Record CouponPaidMarker : Set := mkCouponPaidMarker { cpm_bump : Z; cpm_amount : Z }.

Inductive NominalValuePublishType : Set := Unit | Total.
Record NominalValue : Set := mkNominalValue {
  nv_bump : Z;
  nv_nominal_value_currency : list Z;
  nv_nominal_value_publish_type : NominalValuePublishType;
  nv_nominal_value_decimals : Z;
  nv_nominal_value : Z;
  nv_effective_datetime : Z }.

Record Document : Set := mkDocument {
  d_mint : Pubkey;
  d_name : list Z;
  d_uri : string;
  d_document_hash : list Z;
  d_bump : Z }.

(** ** Token-2022 accounts

    The fields of the base state and of the extensions that the sources read or
    set ([base.amount], [base.supply], [base.decimals], [PausableConfig::paused],
    [TransferHookAccount::transferring], the authorities, the token metadata);
    an absent extension, and an authority that is not set, is [None]. *)

Record TokenMetadata : Set := mkTokenMetadata {
  md_update_authority : option Pubkey;
  md_mint : Pubkey;
  md_name : string;
  md_symbol : string;
  md_uri : string;
  md_additional_metadata : list (string * string) }.

Record MintAuthorities : Set := mkMintAuthorities {
  au_mint : option Pubkey;
  au_freeze : option Pubkey;
  au_permanent_delegate : option Pubkey;
  au_permissioned_burn : option Pubkey;
  au_pausable : option Pubkey;
  au_transfer_hook : option Pubkey;
  au_metadata_pointer : option Pubkey;
  au_metadata_address : option Pubkey }.

Record MintState : Set := mkMintState {
  m_supply : Z;
  m_decimals : Z;
  m_paused : option bool;
  m_transfer_hook : option Pubkey;
  m_authorities : MintAuthorities;
  m_metadata : option TokenMetadata;
  m_data_len : Z }.

Record TokenState : Set := mkTokenState {
  t_mint : Pubkey;
  t_owner : Pubkey;
  t_amount : Z;
  t_transferring : option bool;
  t_data_len : Z }.

(** The extensions initialised on a mint account before the mint itself: each is [None] until its
    instruction ran. *)
Record MintSetup : Set := mkMintSetup {
  su_metadata_pointer : option (option Pubkey * option Pubkey);
  su_permanent_delegate : option Pubkey;
  su_permissioned_burn : option Pubkey;
  su_pausable : option Pubkey;
  su_transfer_hook : option (option Pubkey * option Pubkey);
  su_len : Z }.

(** ** The accounts a transfer hook asks for

    [ExtraAccountMeta] and its [Seed]s, as the library [spl_tlv_account_resolution]
    has them. *)

Inductive MetaSeed : Set :=
| Literal (bytes : string)
| AccountKey (index : Z)
| SeedAccountData (account_index data_index length : Z).

Inductive ExtraAccountMeta : Set :=
| MetaPubkey (k : Pubkey) (is_signer is_writable : bool)
| MetaExternalPda (program_index : Z) (seeds : list MetaSeed) (is_signer is_writable : bool).

(** ** Account contents

    [DZeroed n] is an account allocated to [n] zero bytes: it has data and no
    discriminator yet (or no more, after [pda_utils::close_pda]).  [DResized d n]
    is an account of contents [d] cut or zero-extended to [n] bytes, which the
    sources always overwrite before they read it again. *)

Inductive AccountData : Set :=
| DEmpty
| DZeroed (len : Z)
| DMintSetup (s : MintSetup)
| DMint (m : MintState)
| DToken (t : TokenState)
| DAssetConfiguration (x : AssetConfiguration)
| DAssetClassVersion (x : AssetClassVersion)
| DRoles (x : Roles)
| DFreezeState (x : FreezeState)
| DTransferControlMode (x : TransferControlMode)
| DControlListStatus (x : ControlListStatus)
| DDeactivateStatus (x : DeactivateStatus)
| DHoldPosition (x : HoldPosition)
| DHold (x : Hold)
| DMaxSupply (x : MaxSupply)
| DFactory (x : Factory)
| DFactoryPendingManager (x : FactoryPendingManager)
| DAssetClassOwnership (x : AssetClassOwnership)
| DAssetClassPendingOwner (x : AssetClassPendingOwner)
| DSnapshotCounter (x : SnapshotCounter)
| DSnapshotMerkleRoot (x : SnapshotMerkleRoot)
| DCouponCounter (x : CouponCounter)
| DCoupon (x : Coupon)
| DBondTerms (x : BondTerms)
| DTreasuryConfig (x : TreasuryConfig)
| DCouponPaidMarker (x : CouponPaidMarker)
| DNominalValue (x : NominalValue)
| DDocument (x : Document)
| DExtraAccountMetas (metas : list ExtraAccountMeta)
| DResized (d : AccountData) (len : Z)
| DOther (bytes : list Z).

(** [data_is_empty()] *)
Definition data_is_empty (d : AccountData) : bool :=
  match d with
  | DEmpty => true
  | DZeroed n | DResized _ n => n =? 0
  | DOther [] => true
  | _ => false
  end.

Record Account : Set := mkAccount { acc_owner : Pubkey; acc_data : AccountData }.

(** An address nothing was ever written to belongs to the system program and is empty. *)
Definition no_account : Account := mkAccount SYSTEM_PROGRAM_ID DEmpty.

(** ** Events ([events.rs]) *)

Inductive FreezeEvent : Set :=
| AccountFrozen (mint account operator : Pubkey)
| AccountUnfrozen (mint account operator : Pubkey)
| AccountPartiallyFrozen (mint account : Pubkey) (frozen_balance : Z) (operator : Pubkey)
| AccountPartialFreezeRemoved (mint account operator : Pubkey).

Inductive HoldEvent : Set :=
| HoldCreated (mint token_account : Pubkey) (hold_id : Z) (escrow : Pubkey)
    (destination : option Pubkey) (amount expiration : Z)
| ControllerHoldCreated (mint token_account : Pubkey) (hold_id : Z) (controller escrow : Pubkey)
    (destination : option Pubkey) (amount expiration : Z)
| HoldExecuted (mint token_account : Pubkey) (hold_id : Z) (escrow destination : Pubkey)
    (amount remaining_amount : Z)
| HoldReleased (mint token_account : Pubkey) (hold_id : Z) (escrow : Pubkey)
    (amount remaining_amount : Z)
| HoldReclaimed (mint token_account : Pubkey) (hold_id : Z) (caller : Pubkey) (amount : Z).

Inductive OperationsEvent : Set :=
| ControllerRedemption (mint controller from : Pubkey) (value : Z)
| ControllerTransferred (mint controller from to : Pubkey) (value : Z).

Inductive FactoryEvent : Set :=
| FactoryInitialized (manager : Pubkey)
| AssetClassCreated (config_id : Z) (owner manager : Pubkey)
| AssetClassVersionInitialized (config_id version : Z) (owner : Pubkey)
| AssetClassVersionFunctionalitiesEnabled (config_id version : Z) (functionalities : list Z)
    (owner : Pubkey)
| AssetClassVersionFinalized (config_id version : Z) (owner : Pubkey).

Inductive AccessControlEvent : Set :=
| RolesGranted (mint account operator : Pubkey) (roles : list Z)
| RolesRevoked (mint account operator : Pubkey) (roles : list Z).

Inductive TransferControlEvent : Set :=
| TransferControlModeSet (mint operator : Pubkey) (mode : TransferMode)
| AccountAddedToControlList (mint account operator : Pubkey)
| AccountRemovedFromControlList (mint account operator : Pubkey).

Inductive MintEvent : Set :=
| Issued (mint operator to : Pubkey) (value : Z).

Inductive CapEvent : Set :=
| MaxSupplySet (mint operator : Pubkey) (max_supply : Z).

Inductive PauseEvent : Set :=
| Paused (mint operator : Pubkey)
| Unpaused (mint operator : Pubkey).

Inductive DeactivateEvent : Set :=
| Deactivated (mint operator : Pubkey).

Inductive SnapshotEvent : Set :=
| SnapshotTriggered (mint : Pubkey) (snapshot_id : Z) (merkle_root : list Z).

Inductive CouponEvent : Set :=
| CouponCreated (mint : Pubkey) (coupon_id period_start_date period_end_date payment_date : Z)
    (interest_rate_override interest_rate_override_decimals : option Z)
| CouponRateSet (mint : Pubkey) (coupon_id : Z)
    (interest_rate_override interest_rate_override_decimals : option Z).

Inductive TreasuryEvent : Set :=
| CouponPaid (mint : Pubkey) (coupon_id : Z) (holder_token_account payment_mint : Pubkey)
    (amount : Z) (payer : Pubkey)
| PaymentTokenSet (mint payment_mint : Pubkey).

Inductive BondEvent : Set :=
| BondTermsUpdated (mint operator : Pubkey) (interest_rate interest_rate_decimals par_value
    par_value_decimals minimum_denomination issuance_date : Z)
    (day_count_convention : DayCountConvention).

Inductive NominalValueEvent : Set :=
| NominalValueInitialized (mint operator : Pubkey) (nominal_value_decimals : Z)
    (nominal_value_currency : list Z) (nominal_value_publish_type : NominalValuePublishType)
| NominalValuePublished (mint operator : Pubkey) (nominal_value effective_datetime : Z)
| NominalValueRepublished (mint operator : Pubkey) (nominal_value effective_datetime : Z).

Inductive DocumentEvent : Set :=
| DocumentUpdated (mint operator : Pubkey) (name : list Z) (uri : string) (document_hash : list Z)
| DocumentRemoved (mint operator : Pubkey) (name : list Z) (uri : string) (document_hash : list Z).

Inductive MetadataEvent : Set :=
| MetadataFieldUpdated (mint operator : Pubkey) (key value : string)
| MetadataFieldRemoved (mint operator : Pubkey) (key : string).

Inductive DeployEvent : Set :=
| MintDeployed (mint deployer : Pubkey) (decimals : Z) (name symbol uri : string) (isin : option string)
    (asset_class_config_id asset_class_version_id : Z).

Inductive Event : Set :=
| EvFreeze (e : FreezeEvent)
| EvHold (e : HoldEvent)
| EvOperations (e : OperationsEvent)
| EvFactory (e : FactoryEvent)
| EvAccessControl (e : AccessControlEvent)
| EvTransferControl (e : TransferControlEvent)
| EvMint (e : MintEvent)
| EvCap (e : CapEvent)
| EvPause (e : PauseEvent)
| EvDeactivate (e : DeactivateEvent)
| EvSnapshot (e : SnapshotEvent)
| EvCoupon (e : CouponEvent)
| EvTreasury (e : TreasuryEvent)
| EvBond (e : BondEvent)
| EvNominalValue (e : NominalValueEvent)
| EvDocument (e : DocumentEvent)
| EvMetadata (e : MetadataEvent)
| EvDeploy (e : DeployEvent).

(** ** The world

    The columns of the account database: the lamports of each address, and the
    owner and data of each account; the cluster clock; the events emitted, the
    last one first. *)

Record World : Set := mkWorld {
  w_lamports : gmap Pubkey Z;
  w_accounts : gmap Pubkey Account;
  w_now : Z;
  w_events : list Event }.

Definition account (w : World) (k : Pubkey) : Account := default no_account (w_accounts w !! k).
Definition owner_of (w : World) (k : Pubkey) : Pubkey := acc_owner (account w k).
Definition data_of (w : World) (k : Pubkey) : AccountData := acc_data (account w k).
Definition lamports_of (w : World) (k : Pubkey) : Z := default 0 (w_lamports w !! k).

Definition set_account (k : Pubkey) (a : Account) (w : World) : World :=
  mkWorld (w_lamports w) (<[k := a]> (w_accounts w)) (w_now w) (w_events w).
Definition set_lamports (k : Pubkey) (n : Z) (w : World) : World :=
  mkWorld (<[k := n]> (w_lamports w)) (w_accounts w) (w_now w) (w_events w).
Definition add_event (e : Event) (w : World) : World :=
  mkWorld (w_lamports w) (w_accounts w) (w_now w) (e :: w_events w).

(** Writing the data of an account does not change its owner. *)
Definition set_data (k : Pubkey) (d : AccountData) (w : World) : World :=
  set_account k (mkAccount (owner_of w k) d) w.

Lemma account_set_account k a j w :
  account (set_account k a w) j = if decide (k = j) then a else account w j.
Proof.
  unfold account, set_account; simpl. rewrite lookup_insert. by case_decide.
Qed.

Lemma account_set_account_eq k a w : account (set_account k a w) k = a.
Proof. rewrite account_set_account. by case_decide. Qed.

Lemma account_set_account_ne k a j w : k <> j -> account (set_account k a w) j = account w j.
Proof. intros. rewrite account_set_account. by case_decide. Qed.

Lemma account_set_data k d j w :
  account (set_data k d w) j = if decide (k = j) then mkAccount (owner_of w k) d else account w j.
Proof. apply account_set_account. Qed.

Lemma account_set_lamports k n j w : account (set_lamports k n w) j = account w j.
Proof. done. Qed.

Lemma account_add_event e j w : account (add_event e w) j = account w j.
Proof. done. Qed.

Create Rewrite HintDb account_db.
#[export] Hint Rewrite account_set_account account_set_data account_set_lamports
  account_add_event : account_db.
