(* ===== verification/Runtime.v ===== *)
(** * Runtime: the Solana runtime a handler runs on, and the account checks

    The derivation of program addresses, rent and the system program are not
    part of the repository: they are the operations of the class
    [SolanaRuntime], and what the programs rely on is stated in [RuntimeLaws].
    The second half is the class of the account types ([Account<T>],
    [AccountLoader<T>]): program, discriminator, size and data of each; Anchor.v
    has the checks. *)

From S2P Require Import Prelude.
From S2P Require Import ProgramIds.
From S2P Require Import Errors.
From S2P Require Import State.

Abbreviation M := (SM World Error).

Definition anchor_error {A} (e : AnchorError) : M A := fail (EAnchor e).

(** ** Program addresses *)

(** A component of a seed list.  The run-time concatenates the bytes of the
    components; here they are kept apart. *)
Inductive Seed : Set :=
| SLit (s : string)
| SKey (k : Pubkey)
| SU64 (n : Z)
| SBytes (bs : list Z)
| SBump (b : Z).

#[export] Instance Seed_eq_dec : EqDecision Seed.
Proof. solve_decision. Defined.

#[export] Instance Seed_countable : Countable Seed.
Proof.
  refine (inj_countable'
    (fun s => match s with
      | SLit s => inl (inl s) | SKey k => inl (inr k) | SU64 n => inr (inl (inl n))
      | SBytes bs => inr (inl (inr bs)) | SBump b => inr (inr b) end)
    (fun x => match x with
      | inl (inl s) => SLit s | inl (inr k) => SKey k | inr (inl (inl n)) => SU64 n
      | inr (inl (inr bs)) => SBytes bs | inr (inr b) => SBump b end) _).
  by intros [].
Defined.

Definition move_lamports (from to : Pubkey) (n : Z) (w : World) : World :=
  let w1 := set_lamports from (lamports_of w from - n) w in
  set_lamports to (lamports_of w1 to + n) w1.

Class SolanaRuntime : Type := {
  (** [Pubkey::find_program_address]: the address and its canonical bump *)
  find_program_address : list Seed -> Pubkey -> Pubkey * Z;
  (** [Pubkey::create_program_address], the bump being the last seed *)
  create_program_address : list Seed -> Pubkey -> option Pubkey;
  (** [Rent::minimum_balance] *)
  minimum_balance : Z -> Z;
  (** the instructions of the system program, given the signers of the call;
      [sys_assign] does nothing when [owner] already owns the account *)
  sys_create_account (payer new : Pubkey) (lamports space : Z) (owner : Pubkey)
    (signers : list Pubkey) : M unit;
  sys_assign (key owner : Pubkey) (signers : list Pubkey) : M unit;
  sys_transfer (from to : Pubkey) (lamports : Z) (signers : list Pubkey) : M unit;
  (** the account creation of Anchor's [init] *)
  anchor_create_account (payer new : Pubkey) (space : Z) (owner : Pubkey)
    (signers : list Pubkey) : M unit }.

(** A system account that holds no data: the only kind an account can be created at. *)
Definition fresh (w : World) (k : Pubkey) : Prop :=
  owner_of w k = SYSTEM_PROGRAM_ID /\ data_is_empty (data_of w k) = true.

(** The runtime changes the owner of an account of zeroed data only. *)
Definition all_zero (d : AccountData) : bool :=
  match d with
  | DEmpty | DZeroed _ => true
  | DOther bs => forallb (Z.eqb 0) bs
  | _ => false
  end.

Class RuntimeLaws {Rt : SolanaRuntime} : Prop := {
  find_create seeds program k bump :
    find_program_address seeds program = (k, bump) ->
    create_program_address (seeds ++ [SBump bump]) program = Some k;
  create_inj seeds seeds' program program' k :
    create_program_address seeds program = Some k ->
    create_program_address seeds' program' = Some k ->
    seeds = seeds' /\ program = program';
  minimum_balance_nonneg n : 0 <= minimum_balance n;
  minimum_balance_mono n n' : n <= n' -> minimum_balance n <= minimum_balance n';
  sys_create_account_ok payer new n space owner signers w w' :
    sys_create_account payer new n space owner signers w = Ok (tt, w') ->
    payer ∈ signers /\ new ∈ signers /\ payer <> new /\ fresh w new /\
    lamports_of w new = 0 /\ 0 <= n <= lamports_of w payer /\
    w' = set_account new (mkAccount owner (DZeroed space)) (move_lamports payer new n w);
  sys_assign_ok key owner signers w w' :
    sys_assign key owner signers w = Ok (tt, w') ->
    (owner_of w key = owner /\ w' = w) \/
    (key ∈ signers /\ owner_of w key = SYSTEM_PROGRAM_ID /\ all_zero (data_of w key) = true /\
     w' = set_account key (mkAccount owner (data_of w key)) w);
  sys_transfer_ok from to n signers w w' :
    sys_transfer from to n signers w = Ok (tt, w') ->
    from ∈ signers /\ 0 <= n <= lamports_of w from /\ w' = move_lamports from to n w;
  (** lamports are taken from a system account without data *)
  sys_transfer_from from to n signers w w' :
    sys_transfer from to n signers w = Ok (tt, w') -> fresh w from;
  anchor_create_account_ok payer new space owner signers w w' :
    anchor_create_account payer new space owner signers w = Ok (tt, w') ->
    fresh w new /\ exists n, 0 <= n <= lamports_of w payer /\
    w' = set_account new (mkAccount owner (DZeroed space)) (move_lamports payer new n w) }.

(** ** Account types: [Account<T>], [AccountLoader<T>] *)

Class AccountType (T : Type) : Type := {
  at_program : Pubkey;                     (** [T::owner()] *)
  at_data : T -> AccountData;              (** [T]'s discriminator and fields *)
  at_of_data : AccountData -> option T;    (** [T::try_deserialize] *)
  at_of_data_Some d t : at_of_data d = Some t <-> d = at_data t;
  at_space : Z;                            (** [T::DISCRIMINATOR.len() + T::INIT_SPACE] *)
  at_zero : T                              (** the fields of a zeroed account *) }.

Ltac account_type_law :=
  let d := fresh in let t := fresh in
  intros d t; destruct d; split; first [by intros [= ->] | by intros [=]].

Definition zero_mask (n : Z) : list Z := replicate (Z.to_nat n) 0.

#[export] Instance AssetConfiguration_account : AccountType AssetConfiguration := {|
  at_program := DEPLOY_PROGRAM_ID; at_data := DAssetConfiguration; at_space := 25;
  at_of_data d := match d with DAssetConfiguration x => Some x | _ => None end;
  at_of_data_Some := ltac:(account_type_law);
  at_zero := mkAssetConfiguration 0 0 0 |}.
#[export] Instance AssetClassVersion_account : AccountType AssetClassVersion := {|
  at_program := FACTORY_PROGRAM_ID; at_data := DAssetClassVersion; at_space := 1056;
  at_of_data d := match d with DAssetClassVersion x => Some x | _ => None end;
  at_of_data_Some := ltac:(account_type_law);
  at_zero := mkAssetClassVersion 0 0 0 0 (zero_mask FUNCTIONALITIES_BYTES_MASK) |}.
#[export] Instance Roles_account : AccountType Roles := {|
  at_program := ACCESS_CONTROL_PROGRAM_ID; at_data := DRoles; at_space := 1040;
  at_of_data d := match d with DRoles x => Some x | _ => None end;
  at_of_data_Some := ltac:(account_type_law);
  at_zero := mkRoles 0 (zero_mask ROLES_BYTES_MASK) |}.
#[export] Instance FreezeState_account : AccountType FreezeState := {|
  at_program := FREEZE_PROGRAM_ID; at_data := DFreezeState; at_space := 18;
  at_of_data d := match d with DFreezeState x => Some x | _ => None end;
  at_of_data_Some := ltac:(account_type_law);
  at_zero := mkFreezeState false 0 0 |}.
#[export] Instance TransferControlMode_account : AccountType TransferControlMode := {|
  at_program := TRANSFER_CONTROL_PROGRAM_ID; at_data := DTransferControlMode; at_space := 10;
  at_of_data d := match d with DTransferControlMode x => Some x | _ => None end;
  at_of_data_Some := ltac:(account_type_law);
  at_zero := mkTransferControlMode Whitelist 0 |}.
#[export] Instance ControlListStatus_account : AccountType ControlListStatus := {|
  at_program := TRANSFER_CONTROL_PROGRAM_ID; at_data := DControlListStatus; at_space := 9;
  at_of_data d := match d with DControlListStatus x => Some x | _ => None end;
  at_of_data_Some := ltac:(account_type_law);
  at_zero := mkControlListStatus 0 |}.
#[export] Instance DeactivateStatus_account : AccountType DeactivateStatus := {|
  at_program := DEACTIVATE_PROGRAM_ID; at_data := DDeactivateStatus; at_space := 9;
  at_of_data d := match d with DDeactivateStatus x => Some x | _ => None end;
  at_of_data_Some := ltac:(account_type_law);
  at_zero := mkDeactivateStatus 0 |}.
#[export] Instance HoldPosition_account : AccountType HoldPosition := {|
  at_program := HOLD_PROGRAM_ID; at_data := DHoldPosition; at_space := 89;
  at_of_data d := match d with DHoldPosition x => Some x | _ => None end;
  at_of_data_Some := ltac:(account_type_law);
  at_zero := mkHoldPosition 0 0 0 0 0 |}.
#[export] Instance Hold_account : AccountType Hold := {|
  at_program := HOLD_PROGRAM_ID; at_data := DHold; at_space := 179;
  at_of_data d := match d with DHold x => Some x | _ => None end;
  at_of_data_Some := ltac:(account_type_law);
  at_zero := mkHold 0 0 0 0 None 0 0 0 0 Active 0 |}.
#[export] Instance MaxSupply_account : AccountType MaxSupply := {|
  at_program := CAP_PROGRAM_ID; at_data := DMaxSupply; at_space := 17;
  at_of_data d := match d with DMaxSupply x => Some x | _ => None end;
  at_of_data_Some := ltac:(account_type_law);
  at_zero := mkMaxSupply 0 0 |}.
#[export] Instance Factory_account : AccountType Factory := {|
  at_program := FACTORY_PROGRAM_ID; at_data := DFactory; at_space := 42;
  at_of_data d := match d with DFactory x => Some x | _ => None end;
  at_of_data_Some := ltac:(account_type_law);
  at_zero := mkFactory 0 false 0 |}.
#[export] Instance FactoryPendingManager_account : AccountType FactoryPendingManager := {|
  at_program := FACTORY_PROGRAM_ID; at_data := DFactoryPendingManager; at_space := 41;
  at_of_data d := match d with DFactoryPendingManager x => Some x | _ => None end;
  at_of_data_Some := ltac:(account_type_law);
  at_zero := mkFactoryPendingManager 0 0 |}.
#[export] Instance AssetClassOwnership_account : AccountType AssetClassOwnership := {|
  at_program := FACTORY_PROGRAM_ID; at_data := DAssetClassOwnership; at_space := 49;
  at_of_data d := match d with DAssetClassOwnership x => Some x | _ => None end;
  at_of_data_Some := ltac:(account_type_law);
  at_zero := mkAssetClassOwnership 0 0 0 |}.
#[export] Instance AssetClassPendingOwner_account : AccountType AssetClassPendingOwner := {|
  at_program := FACTORY_PROGRAM_ID; at_data := DAssetClassPendingOwner; at_space := 41;
  at_of_data d := match d with DAssetClassPendingOwner x => Some x | _ => None end;
  at_of_data_Some := ltac:(account_type_law);
  at_zero := mkAssetClassPendingOwner 0 0 |}.
#[export] Instance SnapshotCounter_account : AccountType SnapshotCounter := {|
  at_program := SNAPSHOT_PROGRAM_ID; at_data := DSnapshotCounter; at_space := 17;
  at_of_data d := match d with DSnapshotCounter x => Some x | _ => None end;
  at_of_data_Some := ltac:(account_type_law);
  at_zero := mkSnapshotCounter 0 0 |}.
#[export] Instance SnapshotMerkleRoot_account : AccountType SnapshotMerkleRoot := {|
  at_program := SNAPSHOT_PROGRAM_ID; at_data := DSnapshotMerkleRoot; at_space := 41;
  at_of_data d := match d with DSnapshotMerkleRoot x => Some x | _ => None end;
  at_of_data_Some := ltac:(account_type_law);
  at_zero := mkSnapshotMerkleRoot 0 (zero_mask 32) |}.
#[export] Instance CouponCounter_account : AccountType CouponCounter := {|
  at_program := COUPON_PROGRAM_ID; at_data := DCouponCounter; at_space := 17;
  at_of_data d := match d with DCouponCounter x => Some x | _ => None end;
  at_of_data_Some := ltac:(account_type_law);
  at_zero := mkCouponCounter 0 0 |}.
#[export] Instance Coupon_account : AccountType Coupon := {|
  at_program := COUPON_PROGRAM_ID; at_data := DCoupon; at_space := 52;
  at_of_data d := match d with DCoupon x => Some x | _ => None end;
  at_of_data_Some := ltac:(account_type_law);
  at_zero := mkCoupon 0 0 0 0 0 None None |}.
#[export] Instance BondTerms_account : AccountType BondTerms := {|
  at_program := BOND_PROGRAM_ID; at_data := DBondTerms; at_space := 44;
  at_of_data d := match d with DBondTerms x => Some x | _ => None end;
  at_of_data_Some := ltac:(account_type_law);
  at_zero := mkBondTerms 0 0 0 0 0 0 0 Actual360 |}.
#[export] Instance TreasuryConfig_account : AccountType TreasuryConfig := {|
  at_program := TREASURY_PROGRAM_ID; at_data := DTreasuryConfig; at_space := 50;
  at_of_data d := match d with DTreasuryConfig x => Some x | _ => None end;
  at_of_data_Some := ltac:(account_type_law);
  at_zero := mkTreasuryConfig 0 0 0 0 |}.
#[export] Instance CouponPaidMarker_account : AccountType CouponPaidMarker := {|
  at_program := TREASURY_PROGRAM_ID; at_data := DCouponPaidMarker; at_space := 17;
  at_of_data d := match d with DCouponPaidMarker x => Some x | _ => None end;
  at_of_data_Some := ltac:(account_type_law);
  at_zero := mkCouponPaidMarker 0 0 |}.
#[export] Instance NominalValue_account : AccountType NominalValue := {|
  at_program := NOMINAL_VALUE_PROGRAM_ID; at_data := DNominalValue; at_space := 38;
  at_of_data d := match d with DNominalValue x => Some x | _ => None end;
  at_of_data_Some := ltac:(account_type_law);
  at_zero := mkNominalValue 0 (zero_mask 3) Unit 0 0 0 |}.
(** A document has no fixed size and Anchor never creates one: the space is that of an empty [uri]. *)
#[export] Instance Document_account : AccountType Document := {|
  at_program := DOCUMENT_PROGRAM_ID; at_data := DDocument; at_space := 109;
  at_of_data d := match d with DDocument x => Some x | _ => None end;
  at_of_data_Some := ltac:(account_type_law);
  at_zero := mkDocument 0 (zero_mask 32) EmptyString (zero_mask 32) 0 |}.

(** The number of bytes [try_serialize] writes, for the types the sources serialize by hand. *)
Class BorshSize (T : Type) : Type := borsh_size : T -> Z.
#[export] Instance FreezeState_size : BorshSize FreezeState := fun _ => 18.
#[export] Instance Document_size : BorshSize Document := fun d => 8 + (32 + 32 + 32 + 1) + 4 + Z.of_nat (String.length (d_uri d)).
