(* ===== verification/Anchor.v ===== *)
(** * Anchor: the account attributes of the sources

    [account_try_from] is [Account::<T>::try_from], used by the sources both
    through a field of type [Account<T>] and explicitly; [loader_load] and
    [loader_load_init] are the methods of [AccountLoader<T>]; [seeds_check] is
    [seeds = [..], bump], [seeds_bump_check] is [seeds = [..], bump = b];
    [account_init], [account_init_if_needed] and [account_close] are the
    attributes [init], [init_if_needed] and [close]; [account_exit] writes a
    deserialised copy back at the end of the instruction. *)

From S2P Require Import Prelude.
From S2P Require Import ProgramIds.
From S2P Require Import Errors.
From S2P Require Import State.
From S2P Require Import Runtime.

(** [Account<T>] at [k]: owned by [T]'s program, with [T]'s discriminator. *)
Definition stored {T} `{AccountType T} (w : World) (k : Pubkey) (t : T) : Prop :=
  account w k = mkAccount at_program (at_data t).

Definition discriminator_error (d : AccountData) : AnchorError :=
  match d with
  | DEmpty => AccountDiscriminatorNotFound
  | DZeroed n | DResized _ n => if n <? 8 then AccountDiscriminatorNotFound else AccountDiscriminatorMismatch
  | DOther bs =>
      if Z.of_nat (length bs) <? 8 then AccountDiscriminatorNotFound
      else AccountDiscriminatorMismatch
  | _ => AccountDiscriminatorMismatch
  end.

Definition account_try_from (T : Type) `{AccountType T} (k : Pubkey) : M T :=
  w ← get;
  require (negb (N.eqb (owner_of w k) SYSTEM_PROGRAM_ID && (lamports_of w k =? 0)))
    (EAnchor AccountNotInitialized);;
  require (N.eqb (owner_of w k) at_program) (EAnchor AccountOwnedByWrongProgram);;
  lift (ok_or (at_of_data (data_of w k)) (EAnchor (discriminator_error (data_of w k)))).

Definition loader_load (T : Type) `{AccountType T} (k : Pubkey) : M T :=
  w ← get;
  require (N.eqb (owner_of w k) at_program) (EAnchor AccountOwnedByWrongProgram);;
  lift (ok_or (at_of_data (data_of w k)) (EAnchor (discriminator_error (data_of w k)))).

(** Succeeds on an account whose discriminator is still zero. *)
Definition loader_load_init (T : Type) `{AccountType T} (k : Pubkey) : M T :=
  w ← get;
  match data_of w k with
  | DZeroed _ => mret at_zero
  | _ => anchor_error AccountDiscriminatorAlreadySet
  end.

(** The runtime lets a program change the data of the accounts it owns only. *)
Definition write_data (program k : Pubkey) (d : AccountData) : M unit :=
  w ← get;
  require (N.eqb (owner_of w k) program) (ERuntime ExternalAccountDataModified);;
  modify (set_data k d).

Definition account_exit {T} `{AccountType T} (k : Pubkey) (t : T) : M unit :=
  write_data at_program k (at_data t).

Definition signer (signers : list Pubkey) (k : Pubkey) : M unit :=
  require (bool_decide (k ∈ signers)) (EAnchor AccountNotSigner).

Definition check_address (k address : Pubkey) : M unit :=
  require (N.eqb k address) (EAnchor ConstraintAddress).

(** [Program<T>] *)
Definition check_program (k program : Pubkey) : M unit :=
  require (N.eqb k program) (EAnchor InvalidProgramId).

Section with_runtime.
Context `{Rt : SolanaRuntime}.

Definition pda (seeds : list Seed) (program : Pubkey) : Pubkey :=
  (find_program_address seeds program).1.
Definition pda_bump (seeds : list Seed) (program : Pubkey) : Z :=
  (find_program_address seeds program).2.

Definition seeds_check (k : Pubkey) (seeds : list Seed) (program : Pubkey) : M Z :=
  require (N.eqb k (pda seeds program)) (EAnchor ConstraintSeeds);;
  mret (pda_bump seeds program).

Definition seeds_bump_check (k : Pubkey) (seeds : list Seed) (program : Pubkey) (bump : Z) :
    M unit :=
  require (bool_decide (create_program_address (seeds ++ [SBump bump]) program = Some k))
    (EAnchor ConstraintSeeds).

Definition account_init (T : Type) `{AccountType T} (payer k : Pubkey) (signers : list Pubkey) :
    M T :=
  anchor_create_account payer k at_space at_program (k :: signers);;
  mret at_zero.

Definition account_init_if_needed (T : Type) `{AccountType T} (payer k : Pubkey)
    (signers : list Pubkey) : M T :=
  w ← get;
  if N.eqb (owner_of w k) SYSTEM_PROGRAM_ID then account_init T payer k signers
  else account_try_from T k.

(** [init] / [init_if_needed] on an [AccountLoader<T>]: the data is left as it is. *)
Definition loader_init (T : Type) `{AccountType T} (payer k : Pubkey) (signers : list Pubkey) :
    M unit :=
  anchor_create_account payer k at_space at_program (k :: signers).

Definition loader_init_if_needed (T : Type) `{AccountType T} (payer k : Pubkey)
    (signers : list Pubkey) : M unit :=
  w ← get;
  if N.eqb (owner_of w k) SYSTEM_PROGRAM_ID then loader_init T payer k signers
  else loader_load T k;; mret tt.

(** The address a program signs for in [invoke_signed] with [seeds] (bump included). *)
Definition pda_signer (seeds : list Seed) (program : Pubkey) : M Pubkey :=
  lift (ok_or (create_program_address seeds program) (ERuntime InvalidSeeds)).
End with_runtime.

(** [close = dest], and [Account::close], in a program. *)
Definition account_close (program k dest : Pubkey) : M unit :=
  w ← get;
  require (N.eqb (owner_of w k) program) (ERuntime ExternalAccountDataModified);;
  total ← lift (ok_or (checked_add_u64 (lamports_of w dest) (lamports_of w k))
                      (ERuntime ArithmeticOverflow));
  modify (set_lamports dest total);;
  modify (set_lamports k 0);;
  modify (set_account k no_account).

(** [emit_cpi!(e)] *)
Definition emit_cpi (e : Event) : M unit := modify (add_event e).

(** ** Token interface accounts *)

Definition is_token_program (p : Pubkey) : bool :=
  N.eqb p TOKEN_PROGRAM_ID || N.eqb p TOKEN_2022_PROGRAM_ID.

(** [InterfaceAccount<Mint>] / [InterfaceAccount<TokenAccount>]: the owner is returned for the
    [token_program] constraint. *)
Definition interface_mint (k : Pubkey) : M (MintState * Pubkey) :=
  w ← get;
  require (is_token_program (owner_of w k)) (EAnchor AccountOwnedByWrongProgram);;
  match data_of w k with
  | DMint m => mret (m, owner_of w k)
  | _ => fail (ERuntime InvalidAccountData)
  end.

Definition interface_token (k : Pubkey) : M (TokenState * Pubkey) :=
  w ← get;
  require (is_token_program (owner_of w k)) (EAnchor AccountOwnedByWrongProgram);;
  match data_of w k with
  | DToken t => mret (t, owner_of w k)
  | _ => fail (ERuntime InvalidAccountData)
  end.

(** [token::mint], [token::authority] (when given) and [token::token_program] *)
Definition token_constraint (token : TokenState * Pubkey) (mint : Pubkey)
    (authority : option Pubkey) (token_program : Pubkey) : M unit :=
  (match authority with
   | Some authority => require (N.eqb (t_owner token.1) authority) (EAnchor ConstraintTokenOwner)
   | None => mret tt
   end);;
  require (N.eqb (t_mint token.1) mint) (EAnchor ConstraintTokenMint);;
  require (N.eqb token.2 token_program) (EAnchor ConstraintTokenTokenProgram).

(** [mint::token_program] *)
Definition mint_constraint (mint : MintState * Pubkey) (token_program : Pubkey) : M unit :=
  require (N.eqb mint.2 token_program) (EAnchor ConstraintMintTokenProgram).

(** [StateWithExtensions::<T>::unpack]: reads the data whatever program owns the account. *)
Definition unpack_mint (k : Pubkey) : M MintState :=
  w ← get;
  match data_of w k with DMint m => mret m | _ => fail (ERuntime InvalidAccountData) end.

Definition unpack_token (k : Pubkey) (e : Error) : M TokenState :=
  w ← get;
  match data_of w k with DToken t => mret t | _ => fail e end.

(** ** Inversion of the checks *)

Section inversion.
Context {T : Type} `{AccountType T}.

#[global] Instance account_try_from_inv k :
  OkInv (account_try_from T k) (fun w t w' => stored w k t /\ w' = w).
Proof.
  intros w t w' Hr. unfold account_try_from in Hr. inv_ok. zify_checks.
  split; [|done]. apply at_of_data_Some in Hsome.
  unfold stored, owner_of, data_of in *. destruct (account w k); simpl in *; congruence.
Qed.

#[global] Instance loader_load_inv k :
  OkInv (loader_load T k) (fun w t w' => stored w k t /\ w' = w).
Proof.
  intros w t w' Hr. unfold loader_load in Hr. inv_ok. zify_checks.
  split; [|done]. apply at_of_data_Some in Hsome.
  unfold stored, owner_of, data_of in *. destruct (account w k); simpl in *; congruence.
Qed.

#[global] Instance loader_load_init_inv k :
  OkInv (loader_load_init T k)
    (fun w t w' => (exists n, data_of w k = DZeroed n) /\ t = at_zero /\ w' = w).
Proof.
  intros w t w' Hr. unfold loader_load_init in Hr. inv_ok.
  destruct (data_of _ k) eqn:E; inv_ok; eauto.
Qed.

End inversion.

#[global] Instance write_data_inv program k d :
  OkInv (write_data program k d) (fun w _ w' => owner_of w k = program /\ w' = set_data k d w).
Proof. intros w [] w' Hr. unfold write_data in Hr. inv_ok. by zify_checks. Qed.

#[global] Instance account_exit_inv {T} `{AccountType T} k (t : T) :
  OkInv (account_exit k t) (fun w _ w' => owner_of w k = at_program /\
    w' = set_account k (mkAccount at_program (at_data t)) w).
Proof.
  intros w [] w' Hr. unfold account_exit in Hr. inv_ok.
  split; [done|]. unfold set_data. congruence.
Qed.

#[global] Instance signer_inv signers k :
  OkInv (signer signers k) (fun w _ w' => k ∈ signers /\ w' = w).
Proof. intros w t w' Hr. unfold signer in Hr. inv_ok. by zify_checks. Qed.

#[global] Instance check_address_inv k a :
  OkInv (check_address k a) (fun w _ w' => k = a /\ w' = w).
Proof. intros w t w' Hr. unfold check_address in Hr. inv_ok. by zify_checks. Qed.

#[global] Instance check_program_inv k p :
  OkInv (check_program k p) (fun w _ w' => k = p /\ w' = w).
Proof. intros w t w' Hr. unfold check_program in Hr. inv_ok. by zify_checks. Qed.

#[global] Instance emit_cpi_inv e : OkInv (emit_cpi e) (fun w _ w' => w' = add_event e w).
Proof. intros w [] w' Hr. unfold emit_cpi in Hr. by inv_ok. Qed.

#[global] Instance account_close_inv program k dest :
  OkInv (account_close program k dest) (fun w _ w' => owner_of w k = program /\ exists n,
    w' = set_account k no_account (set_lamports k 0 (set_lamports dest n w))).
Proof. intros w [] w' Hr. unfold account_close in Hr. inv_ok. zify_checks. eauto. Qed.

#[global] Instance interface_mint_inv k :
  OkInv (interface_mint k) (fun w a w' =>
    account w k = mkAccount a.2 (DMint a.1) /\ is_token_program a.2 = true /\ w' = w).
Proof.
  intros w [m o] w' Hr. unfold interface_mint in Hr. inv_ok.
  destruct (data_of _ k) eqn:E; inv_ok. simpl. split_and!; [|done|done].
  unfold data_of, owner_of in *. destruct (account _ k); simpl in *; congruence.
Qed.

#[global] Instance interface_token_inv k :
  OkInv (interface_token k) (fun w a w' =>
    account w k = mkAccount a.2 (DToken a.1) /\ is_token_program a.2 = true /\ w' = w).
Proof.
  intros w [m o] w' Hr. unfold interface_token in Hr. inv_ok.
  destruct (data_of _ k) eqn:E; inv_ok. simpl. split_and!; [|done|done].
  unfold data_of, owner_of in *. destruct (account _ k); simpl in *; congruence.
Qed.

#[global] Instance token_constraint_inv t mint o p :
  OkInv (token_constraint t mint o p) (fun w _ w' =>
    w' = w /\ t_mint t.1 = mint /\ t.2 = p /\ forall k, o = Some k -> t_owner t.1 = k).
Proof.
  intros w [] w' Hr. unfold token_constraint in Hr. destruct o as [k|]; inv_ok; zify_checks;
    split_and!; try done; intros ? [= <-]; done.
Qed.

#[global] Instance mint_constraint_inv m p :
  OkInv (mint_constraint m p) (fun w _ w' => w' = w /\ m.2 = p).
Proof. intros w [] w' Hr. unfold mint_constraint in Hr. inv_ok. by zify_checks. Qed.

#[global] Instance unpack_mint_inv k :
  OkInv (unpack_mint k) (fun w m w' => data_of w k = DMint m /\ w' = w).
Proof.
  intros w m w' Hr. unfold unpack_mint in Hr. inv_ok. destruct (data_of _ k); inv_ok. done.
Qed.

#[global] Instance unpack_token_inv k e :
  OkInv (unpack_token k e) (fun w t w' => data_of w k = DToken t /\ w' = w).
Proof.
  intros w m w' Hr. unfold unpack_token in Hr. inv_ok. destruct (data_of _ k); inv_ok. done.
Qed.

(** ** Program addresses of a seed list *)

Section addresses.
Context `{Rt : SolanaRuntime} `{Laws : !RuntimeLaws}.

(** [k] is an address of [seeds] under [program], for some bump. *)
Definition pda_at (seeds : list Seed) (program k : Pubkey) : Prop :=
  exists bump, create_program_address (seeds ++ [SBump bump]) program = Some k.

Lemma pda_at_pda seeds program : pda_at seeds program (pda seeds program).
Proof.
  exists (pda_bump seeds program). apply find_create. unfold pda, pda_bump.
  by destruct (find_program_address seeds program).
Qed.

Lemma pda_at_inj seeds seeds' program program' k :
  pda_at seeds program k -> pda_at seeds' program' k -> seeds = seeds' /\ program = program'.
Proof.
  intros [b Hb] [b' Hb']. destruct (create_inj _ _ _ _ _ Hb Hb') as [E ->].
  by apply app_inj_tail in E as [-> _].
Qed.

Lemma pda_at_unique seeds seeds' program program' k :
  pda_at seeds program k -> k = pda seeds' program' -> seeds = seeds' /\ program = program'.
Proof. intros H ->. eapply pda_at_inj; [exact H|apply pda_at_pda]. Qed.

Lemma pda_inj seeds seeds' program program' :
  pda seeds program = pda seeds' program' -> seeds = seeds' /\ program = program'.
Proof. intros E. eapply pda_at_inj; [apply pda_at_pda|]. rewrite E. apply pda_at_pda. Qed.

#[global] Instance seeds_check_inv k seeds program :
  OkInv (seeds_check k seeds program) (fun w b w' =>
    k = pda seeds program /\ b = pda_bump seeds program /\ w' = w).
Proof. intros w b w' Hr. unfold seeds_check in Hr. inv_ok. by zify_checks. Qed.

#[global] Instance seeds_bump_check_inv k seeds program bump :
  OkInv (seeds_bump_check k seeds program bump) (fun w _ w' =>
    pda_at seeds program k /\ w' = w).
Proof.
  intros w [] w' Hr. unfold seeds_bump_check in Hr. inv_ok. zify_checks.
  split; [by exists bump|done].
Qed.

#[global] Instance pda_signer_inv seeds program :
  OkInv (pda_signer seeds program) (fun w k w' =>
    create_program_address seeds program = Some k /\ w' = w).
Proof. intros w k w' Hr. unfold pda_signer in Hr. inv_ok. by zify_checks. Qed.

#[global] Instance account_init_inv {T} `{AccountType T} payer k signers :
  OkInv (account_init T payer k signers) (fun w t w' =>
    fresh w k /\ t = at_zero /\ exists n,
    w' = set_account k (mkAccount at_program (DZeroed at_space)) (move_lamports payer k n w)).
Proof.
  intros w t w' Hr. unfold account_init in Hr. apply bind_ok in Hr as ([] & w1 & Hc & Hr).
  apply anchor_create_account_ok in Hc. inv_ok. eauto.
Qed.

#[global] Instance loader_init_inv {T} `{AccountType T} payer k signers :
  OkInv (loader_init T payer k signers) (fun w t w' =>
    fresh w k /\ exists n,
    w' = set_account k (mkAccount at_program (DZeroed at_space)) (move_lamports payer k n w)).
Proof.
  intros w [] w' Hc. unfold loader_init in Hc. apply anchor_create_account_ok in Hc.
  destruct Hc as (? & n & _ & ->). eauto.
Qed.

#[global] Instance account_init_if_needed_inv {T} `{AccountType T} payer k signers :
  OkInv (account_init_if_needed T payer k signers) (fun w t w' =>
    (fresh w k /\ t = at_zero /\ exists n,
     w' = set_account k (mkAccount at_program (DZeroed at_space)) (move_lamports payer k n w)) \/
    (owner_of w k <> SYSTEM_PROGRAM_ID /\ stored w k t /\ w' = w)).
Proof.
  intros w t w' Hr. unfold account_init_if_needed in Hr. inv_ok.
  destruct (N.eqb _ _) eqn:E; zify_checks; inv_ok; eauto 10.
Qed.

#[global] Instance loader_init_if_needed_inv {T} `{AccountType T} payer k signers :
  OkInv (loader_init_if_needed T payer k signers) (fun w _ w' =>
    (fresh w k /\ exists n,
     w' = set_account k (mkAccount at_program (DZeroed at_space)) (move_lamports payer k n w)) \/
    (owner_of w k <> SYSTEM_PROGRAM_ID /\ (exists t : T, stored w k t) /\ w' = w)).
Proof.
  intros w [] w' Hr. unfold loader_init_if_needed in Hr. inv_ok.
  destruct (N.eqb _ _) eqn:E; zify_checks; inv_ok; eauto 10.
Qed.
End addresses.
