(* ===== verification/Frame.v ===== *)
(** * Frame: what an instruction leaves untouched

    [writes_only p] relates a world to the worlds a program [p] can leave behind:
    the only accounts that differ are owned by [p] or by the system program
    before and after, and hold new data of [p]'s types at most.  The clock never
    moves during an instruction.
    Lamports and events are not part of the frame. *)

From S2P Require Import Prelude.
From S2P Require Import ProgramIds.
From S2P Require Import Errors.
From S2P Require Import State.
From S2P Require Import Runtime.
From S2P Require Import Anchor.

Definition ours (p : Pubkey) (w : World) (k : Pubkey) : Prop := owner_of w k = p \/ owner_of w k = SYSTEM_PROGRAM_ID.

(** The program whose type the data is, when it is readable. *)
Definition data_program (d : AccountData) : option Pubkey :=
  match d with
  | DEmpty | DZeroed _ | DResized _ _ | DOther _ => None
  | DMintSetup _ | DMint _ | DToken _ => Some TOKEN_2022_PROGRAM_ID
  | DAssetConfiguration _ => Some (at_program (T:=AssetConfiguration))
  | DAssetClassVersion _ => Some (at_program (T:=AssetClassVersion))
  | DRoles _ => Some (at_program (T:=Roles))
  | DFreezeState _ => Some (at_program (T:=FreezeState))
  | DTransferControlMode _ => Some (at_program (T:=TransferControlMode))
  | DControlListStatus _ => Some (at_program (T:=ControlListStatus))
  | DDeactivateStatus _ => Some (at_program (T:=DeactivateStatus))
  | DHoldPosition _ => Some (at_program (T:=HoldPosition))
  | DHold _ => Some (at_program (T:=Hold))
  | DMaxSupply _ => Some (at_program (T:=MaxSupply))
  | DFactory _ => Some (at_program (T:=Factory))
  | DFactoryPendingManager _ => Some (at_program (T:=FactoryPendingManager))
  | DAssetClassOwnership _ => Some (at_program (T:=AssetClassOwnership))
  | DAssetClassPendingOwner _ => Some (at_program (T:=AssetClassPendingOwner))
  | DSnapshotCounter _ => Some (at_program (T:=SnapshotCounter))
  | DSnapshotMerkleRoot _ => Some (at_program (T:=SnapshotMerkleRoot))
  | DCouponCounter _ => Some (at_program (T:=CouponCounter))
  | DCoupon _ => Some (at_program (T:=Coupon))
  | DBondTerms _ => Some (at_program (T:=BondTerms))
  | DTreasuryConfig _ => Some (at_program (T:=TreasuryConfig))
  | DCouponPaidMarker _ => Some (at_program (T:=CouponPaidMarker))
  | DNominalValue _ => Some (at_program (T:=NominalValue))
  | DDocument _ => Some (at_program (T:=Document))
  | DExtraAccountMetas _ => Some TRANSFER_HOOK_PROGRAM_ID
  end.

Definition written_by (p : Pubkey) (d : AccountData) : bool :=
  match data_program d with Some q => N.eqb q p | None => true end.

Definition writes_only (p : Pubkey) (w w' : World) : Prop :=
  w_now w' = w_now w /\
  forall k, account w' k = account w k \/
    (ours p w k /\ ours p w' k /\
     (data_of w' k = data_of w k \/ written_by p (data_of w' k) = true)).

#[export] Instance writes_only_preorder p : PreOrder (writes_only p).
Proof.
  split; [by split; [|auto]|].
  intros w1 w2 w3 [N1 H1] [N2 H2]. split; [congruence|]. intros k.
  unfold ours, owner_of, data_of in *.
  destruct (H1 k) as [E1|(A1 & B1 & C1)], (H2 k) as [E2|(A2 & B2 & C2)].
  - left. congruence.
  - right. by rewrite <- E1.
  - right. by rewrite E2.
  - right. split_and!; [done|done|]. destruct C2 as [E|C2]; [rewrite E; done|by right].
Qed.

(** ** Consequences *)

Section consequences.
Context {T : Type} `{AccountType T}.

Lemma stored_owner w k (t : T) : stored w k t -> owner_of w k = at_program.
Proof. unfold stored, owner_of. by intros ->. Qed.

Lemma stored_data w k (t : T) : stored w k t -> data_of w k = at_data t.
Proof. unfold stored, data_of. by intros ->. Qed.

Lemma stored_inj w k (t t' : T) : stored w k t -> stored w k t' -> t = t'.
Proof.
  intros H1%stored_data H2%stored_data. rewrite H1 in H2.
  assert (E : at_of_data (at_data t') = Some t) by (apply at_of_data_Some; congruence).
  assert (E' : at_of_data (at_data t') = Some t') by by apply at_of_data_Some.
  congruence.
Qed.

Lemma stored_not_fresh w k (t : T) :
  at_program <> SYSTEM_PROGRAM_ID -> stored w k t -> ~ fresh w k.
Proof. intros Hp Hs [E _]. rewrite (stored_owner _ _ _ Hs) in E. done. Qed.

Lemma stored_set_account w k a k' (t : T) :
  stored (set_account k a w) k' t <->
  (k = k' /\ a = mkAccount at_program (at_data t)) \/ (k <> k' /\ stored w k' t).
Proof.
  unfold stored. rewrite account_set_account.
  destruct (decide (k = k')); [split; [by left|by intros [[_ ?]|[? _]]]|].
  split; [by right|by intros [[? _]|[_ ?]]].
Qed.

(** The [T] stored at [k], if there is one. *)
Definition view (w : World) (k : Pubkey) : option T :=
  if N.eqb (owner_of w k) at_program then at_of_data (data_of w k) else None.

Lemma view_Some w k t : view w k = Some t <-> stored w k t.
Proof.
  unfold view, stored, owner_of, data_of.
  destruct (account w k) as [o d]; simpl. destruct (N.eqb_spec o at_program) as [->|Hne].
  - rewrite at_of_data_Some. split; congruence.
  - split; [done|]. intros [= ? ?]. done.
Qed.

Lemma view_account w w' k : account w' k = account w k -> view w' k = view w k.
Proof. unfold view, owner_of, data_of. by intros ->. Qed.

Lemma view_fresh w k : at_program <> SYSTEM_PROGRAM_ID -> fresh w k -> view w k = None.
Proof.
  intros Hp [Ho _]. unfold view. rewrite Ho.
  by rewrite (proj2 (N.eqb_neq _ _) (not_eq_sym Hp)).
Qed.

(** A program cannot touch the accounts of another one. *)
Lemma writes_only_stored p w w' k (t : T) :
  at_program <> p -> at_program <> SYSTEM_PROGRAM_ID -> writes_only p w w' ->
  stored w' k t <-> stored w k t.
Proof.
  intros Hp Hs [_ Hw]. destruct (Hw k) as [E|(Ho & Ho' & _)].
  - unfold stored. by rewrite E.
  - split; intros Hst.
    + destruct Ho' as [E|E]; rewrite (stored_owner _ _ _ Hst) in E; done.
    + destruct Ho as [E|E]; rewrite (stored_owner _ _ _ Hst) in E; done.
Qed.
End consequences.
Arguments view T {_} w k.

Lemma fresh_ne w k j : fresh w k -> owner_of w j <> SYSTEM_PROGRAM_ID -> j <> k.
Proof. intros [Ho _] Hj ->. done. Qed.

Lemma fresh_empty w k : fresh w k -> data_is_empty (data_of w k) = true.
Proof. by intros [_ ?]. Qed.

Lemma writes_only_account p w w' k :
  writes_only p w w' -> owner_of w k <> p -> owner_of w k <> SYSTEM_PROGRAM_ID ->
  account w' k = account w k.
Proof.
  intros [_ Hw] Hp Hs. destruct (Hw k) as [E|[[E|E] _]]; done.
Qed.

Lemma writes_only_account' p w w' k :
  writes_only p w w' -> owner_of w' k <> p -> owner_of w' k <> SYSTEM_PROGRAM_ID ->
  account w' k = account w k.
Proof.
  intros [_ Hw] Hp Hs. destruct (Hw k) as [E|(_ & [E|E] & _)]; done.
Qed.

Lemma writes_only_same_accounts p w w' :
  w_accounts w' = w_accounts w -> w_now w' = w_now w -> writes_only p w w'.
Proof. intros E N. split; [done|]. intros k. left. unfold account. by rewrite E. Qed.

Lemma writes_only_set_account p w k a :
  ours p w k -> acc_owner a = p \/ a = no_account ->
  acc_data a = data_of w k \/ written_by p (acc_data a) = true ->
  writes_only p w (set_account k a w).
Proof.
  intros Ho Ha Hd. split; [done|]. intros j.
  destruct (decide (k = j)) as [<-|]; [right|left; by rewrite account_set_account_ne].
  unfold ours, owner_of in *. unfold data_of at 1 3. rewrite account_set_account_eq.
  split_and!; [done| |done]. destruct Ha as [E| ->]; [by left|by right].
Qed.

Lemma account_move_lamports from to n w j : account (move_lamports from to n w) j = account w j.
Proof. done. Qed.
#[export] Hint Rewrite account_move_lamports : account_db.

(** ** Readers: operations that leave the world as it is *)

Section readers.
Context (R : relation World) `{!PreOrder R}.

Lemma preserves_reader {A} (m : M A) :
  (forall w a w', m w = Ok (a, w') -> w' = w) -> preserves R m.
Proof. intros H w a w' Hr. rewrite (H _ _ _ Hr). reflexivity. Qed.

Lemma preserves_account_try_from {T} `{AccountType T} k : preserves R (account_try_from T k).
Proof. apply preserves_reader. intros. by inv_ok. Qed.
Lemma preserves_loader_load {T} `{AccountType T} k : preserves R (loader_load T k).
Proof. apply preserves_reader. intros. by inv_ok. Qed.
Lemma preserves_loader_load_init {T} `{AccountType T} k : preserves R (loader_load_init T k).
Proof. apply preserves_reader. intros. by inv_ok. Qed.
Lemma preserves_signer signers k : preserves R (signer signers k).
Proof. apply preserves_reader. intros. by inv_ok. Qed.
Lemma preserves_check_address k a : preserves R (check_address k a).
Proof. apply preserves_reader. intros. by inv_ok. Qed.
Lemma preserves_check_program k p : preserves R (check_program k p).
Proof. apply preserves_reader. intros. by inv_ok. Qed.
Lemma preserves_interface_mint k : preserves R (interface_mint k).
Proof. apply preserves_reader. intros. by inv_ok. Qed.
Lemma preserves_interface_token k : preserves R (interface_token k).
Proof. apply preserves_reader. intros. by inv_ok. Qed.
Lemma preserves_unpack_mint k : preserves R (unpack_mint k).
Proof. apply preserves_reader. intros. by inv_ok. Qed.
Lemma preserves_unpack_token k e : preserves R (unpack_token k e).
Proof. apply preserves_reader. intros. by inv_ok. Qed.
Lemma preserves_seeds_check `{Rt : SolanaRuntime} k seeds p : preserves R (seeds_check k seeds p).
Proof.
  apply preserves_reader. intros w b w' Hr. unfold seeds_check in Hr. by inv_ok.
Qed.
Lemma preserves_seeds_bump_check `{Rt : SolanaRuntime} k seeds p b :
  preserves R (seeds_bump_check k seeds p b).
Proof.
  apply preserves_reader. intros w [] w' Hr. unfold seeds_bump_check in Hr. by inv_ok.
Qed.
Lemma preserves_pda_signer `{Rt : SolanaRuntime} seeds p : preserves R (pda_signer seeds p).
Proof. apply preserves_lift, _. Qed.
End readers.

#[export] Hint Resolve preserves_account_try_from preserves_loader_load preserves_loader_load_init
  preserves_signer preserves_check_address preserves_check_program preserves_interface_mint preserves_interface_token
  preserves_unpack_mint preserves_unpack_token preserves_seeds_check preserves_seeds_bump_check
  preserves_pda_signer : preserves_db.

(** ** What the creation of accounts leaves *)

Section created.
Context `{Rt : SolanaRuntime} `{Laws : !RuntimeLaws}.

Lemma init_if_needed_value {T} `{AccountType T} payer k signers w t w' :
  at_program <> SYSTEM_PROGRAM_ID ->
  account_init_if_needed T payer k signers w = Ok (t, w') ->
  t = default at_zero (view T w k) /\ (forall j, j <> k -> account w' j = account w j) /\
  w_now w' = w_now w.
Proof.
  intros Hp Hr. apply ok_inv in Hr as [(Hf & -> & n & ->)|(_ & Hs & ->)].
  - rewrite view_fresh by done. split_and!; [done| |done].
    intros j Hj. by rewrite account_set_account_ne by done.
  - apply view_Some in Hs. by rewrite Hs.
Qed.

Lemma init_fresh {T} `{AccountType T} payer k signers w t w' :
  account_init T payer k signers w = Ok (t, w') ->
  fresh w k /\ (forall j, j <> k -> account w' j = account w j) /\ w_now w' = w_now w.
Proof.
  intros (Hf & _ & n & ->)%ok_inv. split_and!; [done| |done].
  intros j Hj. by rewrite account_set_account_ne by done.
Qed.
End created.

(** ** Writers *)

Section writers.
Context `{Rt : SolanaRuntime} `{Laws : !RuntimeLaws}.

Lemma preserves_write_data p k d q :
  q = p -> written_by p d = true -> preserves (writes_only p) (write_data q k d).
Proof.
  intros -> Hd w [] w' Hr. inv_ok.
  apply writes_only_set_account; [by left|by left|by right].
Qed.

Lemma preserves_account_exit p {T} `{AccountType T} k (t : T) :
  at_program = p -> written_by p (at_data t) = true -> preserves (writes_only p) (account_exit k t).
Proof. intros E Hd. by apply preserves_write_data. Qed.

Lemma preserves_emit_cpi p e : preserves (writes_only p) (emit_cpi e).
Proof. intros w [] w' Hr. inv_ok. by apply writes_only_same_accounts. Qed.

Lemma preserves_account_close p k dest q :
  q = p -> preserves (writes_only p) (account_close q k dest).
Proof.
  intros -> w [] w' Hr. inv_ok.
  apply (writes_only_set_account _ (set_lamports k 0 (set_lamports dest _ w)));
    [by left|by right|by right].
Qed.

Lemma writes_only_create p payer k n w space :
  fresh w k ->
  writes_only p w (set_account k (mkAccount p (DZeroed space)) (move_lamports payer k n w)).
Proof.
  intros Hf. apply (writes_only_set_account _ (move_lamports payer k n w)); [right; apply Hf|by left|by right].
Qed.

Lemma preserves_account_init p {T} `{AccountType T} payer k signers :
  at_program = p -> preserves (writes_only p) (account_init T payer k signers).
Proof. intros <- w t w' Hr. inv_ok. by apply writes_only_create. Qed.

Lemma preserves_loader_init p {T} `{AccountType T} payer k signers :
  at_program = p -> preserves (writes_only p) (loader_init T payer k signers).
Proof. intros <- w t w' Hr. inv_ok. by apply writes_only_create. Qed.

Lemma preserves_account_init_if_needed p {T} `{AccountType T} payer k signers :
  at_program = p -> preserves (writes_only p) (account_init_if_needed T payer k signers).
Proof.
  intros <- w t w' Hr. apply ok_inv in Hr as [(? & ? & n & ->)|(? & ? & ->)];
    [by apply writes_only_create|reflexivity].
Qed.

Lemma preserves_loader_init_if_needed p {T} `{AccountType T} payer k signers :
  at_program = p -> preserves (writes_only p) (loader_init_if_needed T payer k signers).
Proof.
  intros <- w t w' Hr. apply ok_inv in Hr as [(? & n & ->)|(? & ? & ->)];
    [by apply writes_only_create|reflexivity].
Qed.
End writers.

#[export] Hint Resolve preserves_write_data preserves_account_exit preserves_emit_cpi
  preserves_account_close preserves_account_init preserves_loader_init
  preserves_account_init_if_needed preserves_loader_init_if_needed : preserves_db.
#[export] Hint Extern 1 (at_program = _) => reflexivity : preserves_db.
#[export] Hint Extern 1 (_ = _ :> N) => reflexivity : preserves_db.
#[export] Hint Extern 1 (written_by _ _ = true) => reflexivity : preserves_db.
