(* ===== verification/Reference.v ===== *)
(** * Reference: a concrete runtime

    An executable instance of [SolanaRuntime] that satisfies [RuntimeLaws]: it
    shows that the laws can hold and lets the handlers run on sample worlds.
    Addresses are the (injective) encodings of their seeds. *)

From S2P Require Import Prelude.
From S2P Require Import ProgramIds.
From S2P Require Import Errors.
From S2P Require Import State.
From S2P Require Import Runtime.
From S2P Require Import Anchor.

Definition ref_create_program_address (seeds : list Seed) (program : Pubkey) : option Pubkey :=
  Some (Npos (encode (seeds, program))).

Definition ref_find_program_address (seeds : list Seed) (program : Pubkey) : Pubkey * Z :=
  (Npos (encode (seeds ++ [SBump 255], program)), 255).

Definition ref_minimum_balance (n : Z) : Z := (128 + Z.max 0 n) * 6960.

Definition is_fresh (w : World) (k : Pubkey) : bool :=
  N.eqb (owner_of w k) SYSTEM_PROGRAM_ID && data_is_empty (data_of w k).

Definition ref_create_account (payer new : Pubkey) (lamports space : Z) (owner : Pubkey)
    (signers : list Pubkey) : M unit :=
  w ← get;
  require (bool_decide (payer ∈ signers) && bool_decide (new ∈ signers))
    (ERuntime MissingRequiredSignature);;
  require (negb (N.eqb payer new)) (ERuntime AccountAlreadyInUse);;
  require (is_fresh w new && (lamports_of w new =? 0)) (ERuntime AccountAlreadyInUse);;
  require ((0 <=? lamports) && (lamports <=? lamports_of w payer)) (ERuntime InsufficientFunds);;
  modify (fun w => set_account new (mkAccount owner (DZeroed space)) (move_lamports payer new lamports w)).

Definition ref_assign (key owner : Pubkey) (signers : list Pubkey) : M unit :=
  w ← get;
  if N.eqb (owner_of w key) owner then mret tt else
  require (bool_decide (key ∈ signers)) (ERuntime MissingRequiredSignature);;
  require (N.eqb (owner_of w key) SYSTEM_PROGRAM_ID && all_zero (data_of w key))
    (ERuntime ExternalAccountDataModified);;
  modify (fun w => set_account key (mkAccount owner (data_of w key)) w).

Definition ref_transfer (from to : Pubkey) (n : Z) (signers : list Pubkey) : M unit :=
  w ← get;
  require (bool_decide (from ∈ signers)) (ERuntime MissingRequiredSignature);;
  require (is_fresh w from) (ERuntime InvalidAccountData);;
  require ((0 <=? n) && (n <=? lamports_of w from)) (ERuntime InsufficientFunds);;
  modify (move_lamports from to n).

(** Anchor tops up the rent of an address that already holds lamports. *)
Definition ref_anchor_create_account (payer new : Pubkey) (space : Z) (owner : Pubkey)
    (signers : list Pubkey) : M unit :=
  w ← get;
  require (bool_decide (payer ∈ signers)) (ERuntime MissingRequiredSignature);;
  require (is_fresh w new) (ERuntime AccountAlreadyInUse);;
  let n := Z.max 0 (ref_minimum_balance space - lamports_of w new) in
  require (n <=? lamports_of w payer) (ERuntime InsufficientFunds);;
  modify (fun w => set_account new (mkAccount owner (DZeroed space)) (move_lamports payer new n w)).

#[export] Instance reference_runtime : SolanaRuntime := {|
  find_program_address := ref_find_program_address;
  create_program_address := ref_create_program_address;
  minimum_balance := ref_minimum_balance;
  sys_create_account := ref_create_account;
  sys_assign := ref_assign;
  sys_transfer := ref_transfer;
  anchor_create_account := ref_anchor_create_account |}.

Lemma is_fresh_ok w k : is_fresh w k = true <-> fresh w k.
Proof. unfold is_fresh, fresh. rewrite andb_true_iff, N.eqb_eq. done. Qed.

#[export] Instance reference_laws : RuntimeLaws.
Proof.
  split; simpl.
  - unfold ref_find_program_address, ref_create_program_address. intros ???? [= <- <-]. done.
  - unfold ref_create_program_address. intros ????? [= <-] [= E]. by apply encode_inj in E as [= -> ->].
  - unfold ref_minimum_balance. lia.
  - intros n n' Hn. unfold ref_minimum_balance. lia.
  - intros * Hr. unfold ref_create_account in Hr. inv_ok. zify_checks.
    rewrite is_fresh_ok in *. done.
  - intros * Hr. unfold ref_assign in Hr. inv_ok.
    destruct (N.eqb _ _) eqn:E; inv_ok; zify_checks; auto 10.
  - intros * Hr. unfold ref_transfer in Hr. inv_ok. zify_checks. done.
  - intros * Hr. unfold ref_transfer in Hr. inv_ok. by rewrite <- is_fresh_ok.
  - intros * Hr. unfold ref_anchor_create_account in Hr. inv_ok. zify_checks.
    rewrite is_fresh_ok in *. split; [done|]. eexists. split; [|reflexivity]. lia.
Qed.
