(* ===== verification/PdaSeeds.v ===== *)
(** * PdaSeeds: the seed lists of [common/src/pda_seeds.rs] *)

From S2P Require Import Prelude.
From S2P Require Import ProgramIds.
From S2P Require Import Errors.
From S2P Require Import State.
From S2P Require Import Runtime.

#[local] Open Scope string_scope.

Definition ASSET_CONFIGURATION : string := "asset_configuration".
Definition asset_configuration_seeds (mint : Pubkey) : list Seed := [SLit ASSET_CONFIGURATION; SKey mint].
Definition TEMP_MINT_AUTHORITY_SEED : string := "temp_mint_authority".
Definition temp_mint_authority_seeds (mint : Pubkey) : list Seed :=
  [SLit TEMP_MINT_AUTHORITY_SEED; SKey mint].

Definition MINT_AUTHORITY : string := "mint_authority".
Definition mint_authority_seeds (mint : Pubkey) : list Seed := [SLit MINT_AUTHORITY; SKey mint].

Definition METADATA_UPDATE_AUTHORITY : string := "metadata_update_authority".
Definition metadata_update_authority_seeds (mint : Pubkey) : list Seed :=
  [SLit METADATA_UPDATE_AUTHORITY; SKey mint].

Definition FREEZE_STATE : string := "freeze_state".
Definition freeze_state_seeds (mint account : Pubkey) : list Seed :=
  [SLit FREEZE_STATE; SKey mint; SKey account].

Definition PERMANENT_DELEGATE : string := "permanent_delegate".
Definition PERMISSIONED_BURN : string := "permissioned_burn".
Definition permanent_delegate_seeds (mint : Pubkey) : list Seed := [SLit PERMANENT_DELEGATE; SKey mint].
Definition permissioned_burn_seeds (mint : Pubkey) : list Seed := [SLit PERMISSIONED_BURN; SKey mint].

Definition PAUSABLE_AUTHORITY : string := "pausable_authority".
Definition pausable_authority_seeds (mint : Pubkey) : list Seed := [SLit PAUSABLE_AUTHORITY; SKey mint].

Definition DEACTIVATE : string := "deactivate".
Definition deactivate_seeds (mint : Pubkey) : list Seed := [SLit DEACTIVATE; SKey mint].

Definition TRANSFER_CONTROL_MODE : string := "transfer_control_mode".
Definition CONTROL_LIST : string := "control_list".
Definition transfer_control_mode_seeds (mint : Pubkey) : list Seed :=
  [SLit TRANSFER_CONTROL_MODE; SKey mint].
Definition control_list_seeds (mint account : Pubkey) : list Seed :=
  [SLit CONTROL_LIST; SKey mint; SKey account].

Definition TRANSFER_HOOK_AUTHORITY : string := "transfer_hook_authority".
Definition transfer_hook_authority_seeds (mint : Pubkey) : list Seed := [SLit TRANSFER_HOOK_AUTHORITY; SKey mint].
Definition EXTRA_ACCOUNT_METAS : string := "extra-account-metas".
Definition extra_account_metas_seeds (mint : Pubkey) : list Seed := [SLit EXTRA_ACCOUNT_METAS; SKey mint].

Definition SNAPSHOT_COUNTER : string := "snapshot_counter".
Definition SNAPSHOT_MERKLE_ROOT : string := "snapshot_merkle_root".
Definition snapshot_counter_seeds (mint : Pubkey) : list Seed := [SLit SNAPSHOT_COUNTER; SKey mint].
Definition snapshot_merkle_root_seeds (mint : Pubkey) (snapshot_id : Z) : list Seed :=
  [SLit SNAPSHOT_MERKLE_ROOT; SKey mint; SU64 snapshot_id].

Definition BOND_TERMS : string := "bond_terms".
Definition bond_terms_seeds (mint : Pubkey) : list Seed := [SLit BOND_TERMS; SKey mint].

Definition COUPON_AUTHORITY : string := "coupon_authority".
Definition COUPON_COUNTER : string := "coupon_counter".
Definition COUPON : string := "coupon".
Definition coupon_authority_seeds (mint : Pubkey) : list Seed := [SLit COUPON_AUTHORITY; SKey mint].
Definition coupon_counter_seeds (mint : Pubkey) : list Seed := [SLit COUPON_COUNTER; SKey mint].
Definition coupon_seeds (mint : Pubkey) (coupon_id : Z) : list Seed :=
  [SLit COUPON; SKey mint; SU64 coupon_id].

Definition TREASURY_CONFIG : string := "treasury_config".
Definition TREASURY_AUTHORITY : string := "treasury_authority".
Definition COUPON_PAID : string := "coupon_paid".
Definition treasury_config_seeds (mint : Pubkey) : list Seed := [SLit TREASURY_CONFIG; SKey mint].
Definition treasury_authority_seeds (mint : Pubkey) : list Seed := [SLit TREASURY_AUTHORITY; SKey mint].
Definition coupon_paid_seeds (mint : Pubkey) (coupon_id : Z) (account : Pubkey) : list Seed :=
  [SLit COUPON_PAID; SKey mint; SU64 coupon_id; SKey account].

Definition FACTORY : string := "factory".
Definition FACTORY_PENDING_MANAGER : string := "factory_pending_manager".
Definition ASSET_CLASS_OWNERSHIP : string := "asset_class_ownership".
Definition ASSET_CLASS_PENDING_OWNER : string := "asset_class_pending_owner".
Definition ASSET_CLASS_VERSION : string := "asset_class_version".
Definition factory_seeds : list Seed := [SLit FACTORY].
Definition factory_pending_manager_seeds : list Seed := [SLit FACTORY_PENDING_MANAGER].
Definition asset_class_ownership_seeds (config_id : Z) : list Seed :=
  [SLit ASSET_CLASS_OWNERSHIP; SU64 config_id].
Definition asset_class_pending_owner_seeds (config_id : Z) : list Seed :=
  [SLit ASSET_CLASS_PENDING_OWNER; SU64 config_id].
Definition asset_class_version_seeds (config_id version : Z) : list Seed :=
  [SLit ASSET_CLASS_VERSION; SU64 config_id; SU64 version].

Definition ROLES : string := "roles".
Definition roles_seeds (mint account : Pubkey) : list Seed := [SLit ROLES; SKey mint; SKey account].

Definition MAX_SUPPLY : string := "max_supply".
Definition max_supply_seeds (mint : Pubkey) : list Seed := [SLit MAX_SUPPLY; SKey mint].

Definition HOLD_POSITION : string := "hold_position".
Definition HOLD : string := "hold".
Definition HOLD_AUTHORITY : string := "hold_authority".
Definition hold_position_seeds (mint token_account : Pubkey) : list Seed :=
  [SLit HOLD_POSITION; SKey mint; SKey token_account].
Definition hold_seeds (mint token_account : Pubkey) (hold_id : Z) : list Seed :=
  [SLit HOLD; SKey mint; SKey token_account; SU64 hold_id].
Definition hold_authority_seeds (mint : Pubkey) : list Seed := [SLit HOLD_AUTHORITY; SKey mint].

Definition DOCUMENT : string := "document".
Definition document_seeds (mint : Pubkey) (name : list Z) : list Seed := [SLit DOCUMENT; SKey mint; SBytes name].

Definition NOMINAL_VALUE : string := "nominal_value".
Definition nominal_value_seeds (mint : Pubkey) : list Seed := [SLit NOMINAL_VALUE; SKey mint].
