(* ===== verification/PdaUtils.v ===== *)
(** * PdaUtils: creation, resizing and closing of accounts by hand ([common/src/pda_utils.rs])

    The batch instructions receive their accounts through [remaining_accounts],
    where no Anchor attribute applies, and manage them with these helpers.  The
    program that runs is an argument ([program]), since only the owner of an
    account may change its data. *)

From S2P Require Import Prelude.
From S2P Require Import ProgramIds.
From S2P Require Import Errors.
From S2P Require Import State.
From S2P Require Import Runtime.
From S2P Require Import Anchor.
From S2P Require Import Frame.
From S2P Require Import PdaSeeds.

Section definitions.
Context `{Rt : SolanaRuntime}.

Definition is_caller_pda (caller : Pubkey) (program_seeds : list Seed) (program_id : Pubkey) : bool :=
  N.eqb (pda program_seeds program_id) caller.

Definition build_pda_signer_seeds (seeds : list Seed) (bump : Z) : list Seed :=
  seeds ++ [SBump bump].

(** [data_len()] *)
Definition data_len (d : AccountData) : Z :=
  match d with
  | DEmpty => 0
  | DZeroed n | DResized _ n => n
  | DMintSetup s => su_len s
  | DMint m => m_data_len m
  | DToken t => t_data_len t
  | DAssetConfiguration _ => at_space (T:=AssetConfiguration)
  | DAssetClassVersion _ => at_space (T:=AssetClassVersion)
  | DRoles _ => at_space (T:=Roles)
  | DFreezeState _ => at_space (T:=FreezeState)
  | DTransferControlMode _ => at_space (T:=TransferControlMode)
  | DControlListStatus _ => at_space (T:=ControlListStatus)
  | DDeactivateStatus _ => at_space (T:=DeactivateStatus)
  | DHoldPosition _ => at_space (T:=HoldPosition)
  | DHold _ => at_space (T:=Hold)
  | DMaxSupply _ => at_space (T:=MaxSupply)
  | DFactory _ => at_space (T:=Factory)
  | DFactoryPendingManager _ => at_space (T:=FactoryPendingManager)
  | DAssetClassOwnership _ => at_space (T:=AssetClassOwnership)
  | DAssetClassPendingOwner _ => at_space (T:=AssetClassPendingOwner)
  | DSnapshotCounter _ => at_space (T:=SnapshotCounter)
  | DSnapshotMerkleRoot _ => at_space (T:=SnapshotMerkleRoot)
  | DCouponCounter _ => at_space (T:=CouponCounter)
  | DCoupon _ => at_space (T:=Coupon)
  | DBondTerms _ => at_space (T:=BondTerms)
  | DTreasuryConfig _ => at_space (T:=TreasuryConfig)
  | DCouponPaidMarker _ => at_space (T:=CouponPaidMarker)
  | DNominalValue _ => at_space (T:=NominalValue)
  | DDocument x => borsh_size x
  | DExtraAccountMetas metas => 8 + 4 + 4 + 35 * Z.of_nat (length metas)
  | DOther bs => Z.of_nat (length bs)
  end.

(** [AccountInfo::resize] *)
Definition resized (d : AccountData) (n : Z) : AccountData :=
  match d with
  | DEmpty | DZeroed _ => DZeroed n
  | _ => DResized d n
  end.

Definition resize_pda (program : Pubkey) (signers : list Pubkey) (payer pda : Pubkey)
    (new_space : Z) : M unit :=
  w ← get;
  if new_space =? data_len (data_of w pda) then mret tt else
  let new_minimum_lamports := minimum_balance new_space in
  let current_lamports := lamports_of w pda in
  let rent_deficit := saturating_sub_u64 new_minimum_lamports current_lamports in
  (if 0 <? rent_deficit then sys_transfer payer pda rent_deficit signers
   else
     let refund := saturating_sub_u64 current_lamports new_minimum_lamports in
     if 0 <? refund then
       modify (set_lamports pda (current_lamports - refund));;
       w1 ← get;
       total ← lift (ok_or (checked_add_u64 (lamports_of w1 payer) refund)
                           (ERuntime ArithmeticOverflow));
       modify (set_lamports payer total)
     else mret tt);;
  w2 ← get;
  write_data program pda (resized (data_of w2 pda) new_space).

Definition create_or_adopt_pda (signers : list Pubkey) (payer pda program_id : Pubkey)
    (space : Z) (signer_seeds : list Seed) : M unit :=
  w ← get;
  let rent_exempt_lamports := minimum_balance space in
  let current_lamports := lamports_of w pda in
  if current_lamports =? 0 then
    s ← pda_signer signer_seeds program_id;
    sys_create_account payer pda rent_exempt_lamports space program_id (s :: signers)
  else
    s ← pda_signer signer_seeds program_id;
    sys_assign pda program_id (s :: signers);;
    resize_pda program_id signers payer pda space.

Definition close_pda (program pda authority : Pubkey) : M unit :=
  w ← get;
  let lamports := lamports_of w pda in
  modify (set_lamports pda 0);;
  w1 ← get;
  total ← lift (ok_or (checked_add_u64 (lamports_of w1 authority) lamports)
                      (ERuntime ArithmeticOverflow));
  modify (set_lamports authority total);;
  write_data program pda (DZeroed (data_len (data_of w pda))).

Definition serialize_pda {T} `{AccountType T} `{BorshSize T} (pda : Pubkey) (value : T) : M unit :=
  w ← get;
  require (borsh_size value <=? data_len (data_of w pda)) (ERuntime InvalidAccountData);;
  write_data at_program pda (at_data value).
End definitions.

(** ** Lamports are conserved *)

Definition total_lamports (w : World) : Z := sum_map (fun _ n => n) (w_lamports w).

Lemma total_set_lamports k n w :
  total_lamports (set_lamports k n w) = total_lamports w + n - lamports_of w k.
Proof.
  unfold total_lamports, set_lamports, lamports_of; simpl. rewrite sum_map_insert.
  destruct (w_lamports w !! k); simpl; lia.
Qed.

Lemma total_set_account k a w : total_lamports (set_account k a w) = total_lamports w.
Proof. done. Qed.

Lemma total_move_lamports from to n w : total_lamports (move_lamports from to n w) = total_lamports w.
Proof. unfold move_lamports. rewrite !total_set_lamports. lia. Qed.

Lemma lamports_set_lamports k n j w :
  lamports_of (set_lamports k n w) j = if decide (k = j) then n else lamports_of w j.
Proof. unfold lamports_of, set_lamports; simpl. rewrite lookup_insert. by case_decide. Qed.

Lemma lamports_set_account k a w j : lamports_of (set_account k a w) j = lamports_of w j.
Proof. done. Qed.

Lemma lamports_move_lamports_to from to n w :
  from <> to -> lamports_of (move_lamports from to n w) to = lamports_of w to + n.
Proof.
  intros Hne. unfold move_lamports. rewrite !lamports_set_lamports.
  by rewrite decide_True, decide_False by done.
Qed.

Lemma data_of_set_data k d w : data_of (set_data k d w) k = d.
Proof. unfold data_of. rewrite account_set_data. by case_decide. Qed.

Lemma owner_of_set_data k d j w : owner_of (set_data k d w) j = owner_of w j.
Proof. unfold owner_of. rewrite account_set_data. case_decide; by subst. Qed.

Section lemmas.
Context `{Rt : SolanaRuntime} `{Laws : !RuntimeLaws}.

#[export] Instance serialize_pda_inv {T} `{AccountType T} `{BorshSize T} k (t : T) :
  OkInv (serialize_pda k t) (fun w _ w' => owner_of w k = at_program /\
    borsh_size t <= data_len (data_of w k) /\
    w' = set_account k (mkAccount at_program (at_data t)) w).
Proof.
  intros w [] w' Hr. unfold serialize_pda in Hr. inv_ok. zify_checks.
  split_and!; [done|done|]. unfold set_data. congruence.
Qed.

#[export] Instance close_pda_inv program k authority :
  OkInv (close_pda program k authority) (fun w _ w' => owner_of w k = program /\
    total_lamports w' = total_lamports w /\
    (k <> authority -> lamports_of w' k = 0) /\
    exists n, w' = set_account k (mkAccount program (DZeroed (data_len (data_of w k))))
      (set_lamports authority n (set_lamports k 0 w))).
Proof.
  intros w [] w' Hr. unfold close_pda in Hr. inv_ok. zify_checks.
  change (owner_of (set_lamports _ _ _) k) with (owner_of w k).
  split_and!; [done| | |].
  - unfold set_data. rewrite total_set_account, !total_set_lamports. lia.
  - intros Hne. unfold set_data. rewrite lamports_set_account, !lamports_set_lamports.
    by rewrite decide_False, decide_True by done.
  - eexists. reflexivity.
Qed.

Lemma assigned_empty k program signers w w' :
  data_of w k = DEmpty -> sys_assign k program signers w = Ok (tt, w') ->
  account w' k = mkAccount program DEmpty /\
  (forall j, j <> k -> account w' j = account w j) /\ w_lamports w' = w_lamports w.
Proof.
  intros Hd [[Ho ->]|(_ & _ & _ & ->)]%sys_assign_ok.
  - split_and!; [|done..]. unfold owner_of, data_of in *. destruct (account w k); simpl in *; congruence.
  - rewrite account_set_account_eq, Hd. split_and!; [done| |done].
    intros j Hj. by rewrite account_set_account_ne.
Qed.

(** The lamports side of [resize_pda]: [k] ends up with the rent of [space] bytes. *)
Definition rent_settled (payer k : Pubkey) (space : Z) (w w' : World) : Prop :=
  lamports_of w' k = minimum_balance space /\
  total_lamports w' = total_lamports w /\ w_now w' = w_now w /\
  (forall j, account w' j = account w j) /\
  (forall j, j <> k -> j <> payer -> lamports_of w' j = lamports_of w j).

Lemma rent_settled_move payer k n space w :
  k <> payer -> lamports_of w k + n = minimum_balance space ->
  rent_settled payer k space w (move_lamports payer k n w).
Proof.
  intros Hne Hn. split_and!; [by rewrite lamports_move_lamports_to| |done|done|].
  - apply total_move_lamports.
  - intros j H1 H2. unfold move_lamports. rewrite !lamports_set_lamports.
    by rewrite !decide_False by done.
Qed.

Lemma rent_settled_refund payer k space w :
  k <> payer ->
  rent_settled payer k space w
    (set_lamports payer (lamports_of w payer + (lamports_of w k - minimum_balance space))
       (set_lamports k (minimum_balance space) w)).
Proof.
  intros Hne. split_and!; [| |done|done|].
  - rewrite !lamports_set_lamports. by rewrite decide_False, decide_True by done.
  - rewrite !total_set_lamports, lamports_set_lamports, decide_False by done. lia.
  - intros j H1 H2. rewrite !lamports_set_lamports. by rewrite !decide_False by done.
Qed.

(** Whatever lamports were sent to [k] beforehand, a change of size settles its rent. *)
Lemma resize_pda_ok program signers payer k space w w' :
  k <> payer -> resize_pda program signers payer k space w = Ok (tt, w') ->
  data_len (data_of w k) <> space ->
  exists w1, rent_settled payer k space w w1 /\ owner_of w k = program /\
    w' = set_data k (resized (data_of w k) space) w1.
Proof.
  intros Hne Hr Hlen. unfold resize_pda in Hr. inv_ok.
  destruct (space =? _) eqn:Hsp; zify_checks; [done|]. inv_ok.
  unfold saturating_sub_u64 in *. pose proof (minimum_balance_nonneg space).
  assert (Hsettled : forall w1, rent_settled payer k space w w1 ->
    owner_of w k = owner_of w1 k /\ data_of w k = data_of w1 k).
  { intros w1 (_ & _ & _ & Ha & _). unfold owner_of, data_of. by rewrite Ha. }
  destruct (0 <? Z.max 0 (minimum_balance space - _)) eqn:Hd; zify_checks.
  - apply sys_transfer_ok in Hrun as (_ & Hn & ->).
    eexists. split; [apply rent_settled_move; [done|]|split; [|reflexivity]]; [lia|done].
  - destruct (0 <? Z.max 0 (lamports_of w k - _)) eqn:Hd'; zify_checks; inv_ok; zify_checks.
    + rewrite !lamports_set_lamports, (decide_False (P := k = payer)) by done.
      rewrite Z.max_r by lia.
      replace (lamports_of w k - (lamports_of w k - minimum_balance space))
        with (minimum_balance space) by lia.
      eexists. split; [by apply rent_settled_refund|split; reflexivity].
    + exists w. split; [|split; reflexivity]. split_and!; [lia|done..].
Qed.

Lemma preserves_serialize_pda p {T} `{AccountType T} `{BorshSize T} k (t : T) :
  at_program = p -> written_by p (at_data t) = true -> preserves (writes_only p) (serialize_pda k t).
Proof. intros E Hd. unfold serialize_pda. solve_preserves. Qed.

Lemma preserves_close_pda p k authority : preserves (writes_only p) (close_pda p k authority).
Proof.
  intros w [] w' Hr. inv_ok.
  apply (writes_only_set_account _ (set_lamports authority _ (set_lamports k 0 w)));
    [by left|by left|by right].
Qed.

Lemma preserves_sys_transfer p from to n signers :
  preserves (writes_only p) (sys_transfer from to n signers).
Proof. intros w [] w' (_ & _ & ->)%sys_transfer_ok. by apply writes_only_same_accounts. Qed.

Lemma preserves_modify_lamports p k f :
  preserves (writes_only p) (modify (E:=Error) (fun w => set_lamports k (f w) w)).
Proof. apply preserves_modify. intros w. by apply writes_only_same_accounts. Qed.

Lemma written_by_resized p d n : written_by p (resized d n) = true.
Proof. by destruct d. Qed.
#[local] Hint Resolve written_by_resized : preserves_db.

Lemma preserves_resize_pda p signers payer k n :
  preserves (writes_only p) (resize_pda p signers payer k n).
Proof.
  unfold resize_pda.
  repeat (preserves_step || apply preserves_sys_transfer || by eauto with preserves_db
          || refine (preserves_modify_lamports p _ (fun _ => _))).
Qed.

Lemma preserves_create_or_adopt_pda p signers payer k n seeds :
  preserves (writes_only p) (create_or_adopt_pda signers payer k p n seeds).
Proof.
  unfold create_or_adopt_pda. apply preserves_bind; [apply _|apply preserves_get, _|].
  intros w0. apply preserves_if; intros _;
    (apply preserves_bind; [apply _|apply preserves_pda_signer, _|intros s]).
  - intros w [] w' (_ & _ & _ & Hf & _ & _ & ->)%sys_create_account_ok.
    by apply writes_only_create.
  - apply preserves_bind; [apply _| |intros _; apply preserves_resize_pda].
    intros w [] w' [[_ ->]|(_ & Ho & _ & ->)]%sys_assign_ok; [reflexivity|].
    apply writes_only_set_account; [by right|by left|by left].
Qed.
End lemmas.

(** ** Creation leaves no readable data behind *)

Definition unreadable (d : AccountData) : bool :=
  match d with DZeroed _ | DResized _ _ => true | _ => false end.

Definition scratches (k : Pubkey) (w w' : World) : Prop :=
  forall j, data_of w' j = data_of w j \/ (j = k /\ unreadable (data_of w' j) = true).

#[export] Instance scratches_preorder k : PreOrder (scratches k).
Proof.
  split; [by left|]. intros w1 w2 w3 H1 H2 j.
  destruct (H2 j) as [E|E]; [rewrite E; apply H1|by right].
Qed.

Section scratch.
Context `{Rt : SolanaRuntime} `{Laws : !RuntimeLaws}.

Lemma scratches_set_data k d w : unreadable d = true -> scratches k w (set_data k d w).
Proof.
  intros Hd j. destruct (decide (j = k)) as [->|Hne]; [right|left].
  - by rewrite data_of_set_data.
  - unfold data_of. by rewrite account_set_data, decide_False by done.
Qed.

Lemma scratches_resized k n w w' :
  scratches k w (set_data k (resized (data_of w' k) n) w).
Proof. apply scratches_set_data. by destruct (data_of w' k). Qed.

Lemma resize_pda_scratches p k n signers payer :
  preserves (scratches k) (resize_pda p signers payer k n).
Proof.
  assert (Hl : forall (f : World -> World), (forall w j, account (f w) j = account w j) ->
    preserves (scratches k) (modify (E:=Error) f)).
  { intros f Hf. apply preserves_modify. intros w j. left. unfold data_of. by rewrite Hf. }
  unfold resize_pda. repeat first [preserves_step | apply Hl; done].
  - intros w [] w' (_ & _ & ->)%sys_transfer_ok. by left.
  - intros w [] w' Hr. inv_ok. apply scratches_resized.
Qed.

Lemma create_or_adopt_pda_scratches p signers payer k n seeds :
  preserves (scratches k) (create_or_adopt_pda signers payer k p n seeds).
Proof.
  unfold create_or_adopt_pda. repeat first [preserves_step | apply resize_pda_scratches].
  - apply preserves_pda_signer, _.
  - intros w [] w' (_ & _ & _ & _ & _ & _ & ->)%sys_create_account_ok j.
    destruct (decide (j = k)) as [->|Hne]; [right|left]; unfold data_of.
    + by rewrite account_set_account_eq.
    + by rewrite account_set_account_ne by done.
  - apply preserves_pda_signer, _.
  - intros w [] w' [[_ ->]|(_ & _ & _ & ->)]%sys_assign_ok j; left; [done|].
    unfold data_of. rewrite account_set_account. case_decide; by subst.
Qed.
End scratch.

(** ** Creation and resizing touch one account *)

Definition elsewhere (k : Pubkey) (w w' : World) : Prop :=
  forall j, j <> k -> account w' j = account w j.

#[export] Instance elsewhere_preorder k : PreOrder (elsewhere k).
Proof. split; [by intros w j|]. intros w1 w2 w3 H1 H2 j Hj. rewrite H2, H1 by done. done. Qed.

Lemma elsewhere_set_account k a w : elsewhere k w (set_account k a w).
Proof. intros j Hj. by rewrite account_set_account_ne by (by apply not_eq_sym). Qed.

Section elsewhere.
Context `{Rt : SolanaRuntime} `{Laws : !RuntimeLaws}.

Lemma resize_pda_elsewhere p k n signers payer : preserves (elsewhere k) (resize_pda p signers payer k n).
Proof.
  assert (Hl : forall (f : World -> World), (forall w j, account (f w) j = account w j) ->
    preserves (elsewhere k) (modify (E:=Error) f)).
  { intros f Hf. apply preserves_modify. intros w j _. apply Hf. }
  unfold resize_pda. repeat first [preserves_step | apply Hl; done].
  - intros w [] w' (_ & _ & ->)%sys_transfer_ok. by intros j.
  - intros w [] w' Hr. inv_ok. apply elsewhere_set_account.
Qed.

Lemma create_or_adopt_pda_elsewhere p signers payer k n seeds :
  preserves (elsewhere k) (create_or_adopt_pda signers payer k p n seeds).
Proof.
  unfold create_or_adopt_pda. repeat first [preserves_step | apply resize_pda_elsewhere].
  - apply preserves_pda_signer, _.
  - intros w [] w' (_ & _ & _ & _ & _ & _ & ->)%sys_create_account_ok j Hj.
    by rewrite account_set_account_ne by (by apply not_eq_sym).
  - apply preserves_pda_signer, _.
  - intros w [] w' [[_ ->]|(_ & _ & _ & ->)]%sys_assign_ok; [reflexivity|apply elsewhere_set_account].
Qed.
End elsewhere.

#[export] Hint Resolve preserves_serialize_pda preserves_close_pda preserves_resize_pda
  preserves_create_or_adopt_pda : preserves_db.

Section theorems.
Context `{Rt : SolanaRuntime} `{Laws : !RuntimeLaws}.

(** C37: [create_or_adopt_pda] on an address that holds no data
    leaves an account owned by the program, of [space] zero bytes and exactly rent-exempt,
    whether the address had no lamports (one [create_account]) or lamports sent to it
    beforehand, less or more than the rent (assign, then top up or refund the payer); lamports
    are conserved and no other account changes. *)
Theorem create_or_adopt_pda_settles signers payer k program space seeds w w' :
  k <> payer -> 0 < space -> data_of w k = DEmpty ->
  create_or_adopt_pda signers payer k program space seeds w = Ok (tt, w') ->
  account w' k = mkAccount program (DZeroed space) /\
  lamports_of w' k = minimum_balance space /\
  total_lamports w' = total_lamports w /\
  (forall j, j <> k -> account w' j = account w j) /\
  (forall j, j <> k -> j <> payer -> lamports_of w' j = lamports_of w j).
Proof.
  intros Hne Hsp Hd Hr. unfold create_or_adopt_pda in Hr.
  apply bind_ok in Hr as (w0 & w1 & [-> ->]%ok_inv & Hr).
  destruct (_ =? 0) eqn:Hl; zify_checks;
    apply bind_ok in Hr as (s & w1 & [_ ->]%ok_inv & Hr).
  - apply sys_create_account_ok in Hr as (_ & _ & _ & _ & _ & _ & ->).
    destruct (rent_settled_move payer k (minimum_balance space) space w)
      as (H1 & H2 & _ & H3 & H4); [done|lia|].
    rewrite account_set_account_eq. split_and!; [done..| |done].
    intros j Hj. by rewrite account_set_account_ne by done.
  - apply bind_ok in Hr as ([] & w1 & Has & Hr).
    assert (Ha : account w1 k = mkAccount program DEmpty /\
                (forall j, j <> k -> account w1 j = account w j) /\
                w_lamports w1 = w_lamports w) by by eapply assigned_empty.
    destruct Ha as (Ha & Hj & Hlam). unfold lamports_of, total_lamports in *.
    rewrite <- Hlam.
    apply resize_pda_ok in Hr as (w2 & (H1 & H2 & _ & H3 & H4) & Ho & ->);
      [|done|unfold data_of; rewrite Ha; simpl; lia].
    unfold data_of in *. rewrite Ha. split_and!; [| |done| |].
    + unfold set_data. rewrite account_set_account_eq. unfold owner_of. by rewrite H3, Ha.
    + done.
    + intros j Hjk. unfold set_data. rewrite account_set_account_ne by done.
      by rewrite H3, Hj by done.
    + done.
Qed.
End theorems.
