(* ===== verification/Merkle.v ===== *)
(** * Merkle: balance proofs against a snapshot root ([common/src/merkle.rs])

    The hash [keccak::hashv] is a parameter of the section: a function from the
    concatenated bytes to 32 bytes.  The reference is the tree of the holders'
    (account, balance) pairs that the off-chain side builds with the sorted-pair
    convention of [verify_balance_proof]. *)

From S2P Require Import Prelude.
From S2P Require Import ProgramIds.

Abbreviation Hash := (list Z).

(** [n] bytes of [x], least significant first. *)
Fixpoint le_bytes (n : nat) (x : Z) : list Z :=
  match n with
  | O => []
  | S n => x mod 256 :: le_bytes n (x / 256)
  end.

(** [account.as_ref()] and [balance.to_le_bytes()] *)
Definition key_bytes (k : Pubkey) : list Z := reverse (le_bytes 32 (Z.of_N k)).
Definition u64_bytes (x : Z) : list Z := le_bytes 8 x.

(** [<=] on byte arrays: lexicographic. *)
Fixpoint bytes_leb (a b : list Z) : bool :=
  match a, b with
  | [], _ => true
  | _ :: _, [] => false
  | x :: a, y :: b => if x <? y then true else if x =? y then bytes_leb a b else false
  end.

Record LeafData : Set := mkLeafData { account : Pubkey; amount : Z }.

Section merkle.
Variable hashv : list (list Z) -> Hash.

Definition leaf_hash (account : Pubkey) (balance : Z) : Hash :=
  hashv [key_bytes account; u64_bytes balance].

Definition hash (l : LeafData) : Hash := leaf_hash (account l) (amount l).

Definition parent_of (computed sibling : Hash) : Hash :=
  if bytes_leb computed sibling then hashv [computed; sibling] else hashv [sibling; computed].

Definition verify_balance_proof (proof : list Hash) (root : Hash) (account : Pubkey)
    (balance : Z) : bool :=
  bool_decide (fold_left parent_of proof (leaf_hash account balance) = root).
End merkle.

(** ** The tree of a snapshot *)

Inductive tree : Set :=
| Leaf (l : LeafData)
| Node (l r : tree).

Fixpoint leaves (t : tree) : list LeafData :=
  match t with
  | Leaf l => [l]
  | Node l r => leaves l ++ leaves r
  end.

Section tree.
Variable hashv : list (list Z) -> Hash.

Fixpoint root (t : tree) : Hash :=
  match t with
  | Leaf l => hash hashv l
  | Node l r => parent_of hashv (root l) (root r)
  end.

(** The proofs of each leaf: the roots of the siblings, from the leaf up. *)
Fixpoint proofs (t : tree) : list (LeafData * list Hash) :=
  match t with
  | Leaf l => [(l, [])]
  | Node l r =>
      ((fun p => (p.1, p.2 ++ [root r])) <$> proofs l) ++
      ((fun p => (p.1, p.2 ++ [root l])) <$> proofs r)
  end.

(** The bytes hashed to compute a root and to check a proof. *)
Definition sorted_pair (a b : Hash) : list Z :=
  if bytes_leb a b then a ++ b else b ++ a.
Definition leaf_preimage (l : LeafData) : list Z := key_bytes (account l) ++ u64_bytes (amount l).

Fixpoint tree_preimages (t : tree) : list (list Z) :=
  match t with
  | Leaf l => [leaf_preimage l]
  | Node l r => sorted_pair (root l) (root r) :: tree_preimages l ++ tree_preimages r
  end.

Fixpoint proof_preimages (computed : Hash) (proof : list Hash) : list (list Z) :=
  match proof with
  | [] => []
  | s :: proof => sorted_pair computed s :: proof_preimages (parent_of hashv computed s) proof
  end.
End tree.

(** No two of the given inputs collide. *)
Definition no_collision (hashv : list (list Z) -> Hash) (inputs : list (list Z)) : Prop :=
  forall x y, x ∈ inputs -> y ∈ inputs -> hashv [x] = hashv [y] -> x = y.

Lemma no_collision_mono hashv xs ys :
  no_collision hashv xs -> (forall x, x ∈ ys -> x ∈ xs) -> no_collision hashv ys.
Proof. intros H Hs x y Hx Hy. apply H; by apply Hs. Qed.

(** ** Bytes *)

Lemma le_bytes_length n x : length (le_bytes n x) = n.
Proof. revert x. induction n as [|n IH]; intros x; simpl; [done|by rewrite IH]. Qed.

Lemma le_bytes_inj n x y :
  0 <= x < 256 ^ Z.of_nat n -> 0 <= y < 256 ^ Z.of_nat n -> le_bytes n x = le_bytes n y -> x = y.
Proof.
  revert x y. induction n as [|n IH]; intros x y Hx Hy.
  - change (256 ^ Z.of_nat 0) with 1 in *. lia.
  - rewrite Nat2Z.inj_succ, Z.pow_succ_r in Hx, Hy by lia. simpl. intros [= Hm Hr].
    apply IH in Hr; [| |]; try (split; [apply Z.div_pos|apply Z.div_lt_upper_bound]; lia).
    rewrite (Z.div_mod x 256), (Z.div_mod y 256) by lia. congruence.
Qed.

Lemma bytes_leb_total a b : bytes_leb a b = false -> bytes_leb b a = true.
Proof.
  revert b. induction a as [|x a IH]; intros [|y b]; simpl; try done.
  destruct (Z.ltb_spec x y), (Z.ltb_spec y x), (Z.eqb_spec x y), (Z.eqb_spec y x);
    try done; try lia. apply IH.
Qed.

Lemma bytes_leb_antisym a b : bytes_leb a b = true -> bytes_leb b a = true -> a = b.
Proof.
  revert b. induction a as [|x a IH]; intros [|y b]; simpl; try done.
  destruct (Z.ltb_spec x y), (Z.ltb_spec y x), (Z.eqb_spec x y), (Z.eqb_spec y x);
    try done; try lia. intros H1 H2. subst. f_equal. by apply IH.
Qed.

Lemma sorted_pair_comm a b : sorted_pair a b = sorted_pair b a.
Proof.
  unfold sorted_pair. destruct (bytes_leb a b) eqn:H1, (bytes_leb b a) eqn:H2; try done.
  - by rewrite (bytes_leb_antisym a b).
  - apply bytes_leb_total in H1. congruence.
Qed.

Lemma sorted_pair_length a b : length (sorted_pair a b) = (length a + length b)%nat.
Proof. unfold sorted_pair. case_match; rewrite length_app; lia. Qed.

Lemma sorted_pair_inj a b c d n :
  length a = n -> length b = n -> length c = n -> length d = n ->
  sorted_pair a b = sorted_pair c d -> a = c \/ a = d.
Proof.
  intros Ha Hb Hc Hd. unfold sorted_pair.
  repeat case_match; intros E; apply app_inj_1 in E as [-> ->]; auto; congruence.
Qed.

Definition leaf_ok (l : LeafData) : Prop := Z.of_N (account l) < 2 ^ 256 /\ u64_ok (amount l).

Lemma leaf_preimage_length l : length (leaf_preimage l) = 40%nat.
Proof.
  unfold leaf_preimage, key_bytes, u64_bytes.
  by rewrite length_app, length_reverse, !le_bytes_length.
Qed.

Lemma leaf_preimage_inj l l' :
  leaf_ok l -> leaf_ok l' -> leaf_preimage l = leaf_preimage l' -> l = l'.
Proof.
  unfold leaf_ok, u64_ok, U64_MAX, leaf_preimage, key_bytes, u64_bytes.
  intros [Ha Hm] [Ha' Hm'] E.
  apply app_inj_1 in E as [Ek Em]; [|by rewrite !length_reverse, !le_bytes_length].
  apply (inj reverse) in Ek.
  apply le_bytes_inj in Ek; [| |]; try (change (256 ^ Z.of_nat 32) with (2 ^ 256); lia).
  apply le_bytes_inj in Em; [| |]; try (change (256 ^ Z.of_nat 8) with (2 ^ 64); lia).
  destruct l, l'; simpl in *. f_equal; lia.
Qed.

(** ** Completeness and soundness of the check *)

Section correctness.
Variable hashv : list (list Z) -> Hash.
(** [hashv] hashes the concatenation of its arguments to 32 bytes. *)
Hypothesis hashv_concat : forall a b, hashv [a; b] = hashv [a ++ b].
Hypothesis hashv_length : forall x, length (hashv x) = 32%nat.

Lemma parent_of_sorted a b : parent_of hashv a b = hashv [sorted_pair a b].
Proof. unfold parent_of, sorted_pair. case_match; apply hashv_concat. Qed.

Lemma parent_of_comm a b : parent_of hashv a b = parent_of hashv b a.
Proof. by rewrite !parent_of_sorted, sorted_pair_comm. Qed.

Lemma leaf_hash_preimage l : hash hashv l = hashv [leaf_preimage l].
Proof. apply hashv_concat. Qed.

Lemma root_length t : length (root hashv t) = 32%nat.
Proof. destruct t; simpl; [|rewrite parent_of_sorted]; apply hashv_length. Qed.

Lemma fold_parent_app computed proof s :
  fold_left (parent_of hashv) (proof ++ [s]) computed =
    parent_of hashv (fold_left (parent_of hashv) proof computed) s.
Proof. by rewrite fold_left_app. Qed.

Lemma proofs_fold t l proof :
  (l, proof) ∈ proofs hashv t ->
  fold_left (parent_of hashv) proof (hash hashv l) = root hashv t.
Proof.
  revert l proof. induction t as [l0|t1 IH1 t2 IH2]; intros l proof; simpl.
  - rewrite list_elem_of_singleton. by intros [= -> ->].
  - rewrite elem_of_app. intros [Hin|Hin];
      apply list_elem_of_fmap in Hin as ([l1 p1] & [= -> ->] & Hin);
      simpl; rewrite fold_parent_app.
    + by rewrite (IH1 _ _ Hin).
    + rewrite (IH2 _ _ Hin). apply parent_of_comm.
Qed.

Lemma proof_preimages_app computed proof s :
  proof_preimages hashv computed (proof ++ [s]) =
    proof_preimages hashv computed proof ++
    [sorted_pair (fold_left (parent_of hashv) proof computed) s].
Proof.
  revert computed. induction proof as [|x proof IH]; intros c; simpl; [done|by rewrite IH].
Qed.

Lemma fold_parent_length l proof :
  length (fold_left (parent_of hashv) proof (hash hashv l)) = 32%nat.
Proof.
  induction proof as [|s proof _] using rev_ind; simpl.
  - rewrite leaf_hash_preimage. apply hashv_length.
  - rewrite fold_parent_app, parent_of_sorted. apply hashv_length.
Qed.

(** A chain of hashes from a leaf that ends in the root of a tree starts at a leaf of it. *)
Lemma fold_parent_in_leaves l proof t :
  leaf_ok l -> Forall leaf_ok (leaves t) -> Forall (fun s => length s = 32%nat) proof ->
  no_collision hashv
    (leaf_preimage l :: proof_preimages hashv (hash hashv l) proof ++ tree_preimages hashv t) ->
  fold_left (parent_of hashv) proof (hash hashv l) = root hashv t -> l ∈ leaves t.
Proof.
  intros Hl. revert t. induction proof as [|s proof IH] using rev_ind; intros t Ht Hp Hnc E;
    destruct t as [l'|t1 t2]; simpl in *.
  - rewrite !leaf_hash_preimage in E. apply Hnc in E; [|set_solver..].
    apply leaf_preimage_inj in E; [|done|by inversion Ht]. set_solver.
  - rewrite leaf_hash_preimage, parent_of_sorted in E. apply Hnc in E; [|set_solver..].
    apply (f_equal length) in E.
    rewrite leaf_preimage_length, sorted_pair_length, !root_length in E. lia.
  - rewrite fold_parent_app, parent_of_sorted, (leaf_hash_preimage l') in E.
    rewrite proof_preimages_app in Hnc.
    apply Hnc in E; [|set_solver..]. apply (f_equal length) in E.
    apply Forall_app in Hp as [_ Hs]. inversion Hs.
    rewrite leaf_preimage_length, sorted_pair_length, fold_parent_length in E. lia.
  - rewrite fold_parent_app, !parent_of_sorted in E. rewrite proof_preimages_app in Hnc.
    apply Hnc in E; [|set_solver..].
    apply Forall_app in Hp as [Hp Hs]. apply Forall_app in Ht as [Ht1 Ht2].
    apply elem_of_app.
    apply (sorted_pair_inj _ _ _ _ 32) in E as [E|E];
      [left; apply IH|right; apply IH|..]; try done;
      try (eapply no_collision_mono; [exact Hnc|];
           intros x; rewrite ?elem_of_cons, ?elem_of_app, ?elem_of_cons, ?elem_of_app; tauto).
    all: auto using fold_parent_length, root_length. by inversion Hs.
Qed.
End correctness.

(** The proof built for a holder: the siblings from the leaf up. *)
Lemma balance_proof_complete hashv t l proof
    (hashv_concat : forall a b, hashv [a; b] = hashv [a ++ b]) :
  (l, proof) ∈ proofs hashv t ->
  verify_balance_proof hashv proof (root hashv t) (account l) (amount l) = true.
Proof.
  intros Hin. unfold verify_balance_proof. apply bool_decide_eq_true.
  by apply (proofs_fold hashv hashv_concat) in Hin.
Qed.

(** Leaf preimages (40 bytes) and node preimages (64 bytes) cannot be confused. *)
Lemma balance_proof_sound hashv t l proof
    (hashv_concat : forall a b, hashv [a; b] = hashv [a ++ b])
    (hashv_length : forall x, length (hashv x) = 32%nat) :
  leaf_ok l -> Forall leaf_ok (leaves t) -> Forall (fun s => length s = 32%nat) proof ->
  no_collision hashv
    (leaf_preimage l :: proof_preimages hashv (hash hashv l) proof ++ tree_preimages hashv t) ->
  verify_balance_proof hashv proof (root hashv t) (account l) (amount l) = true -> l ∈ leaves t.
Proof.
  intros Hl Ht Hp Hnc Hv. apply bool_decide_eq_true in Hv.
  by eapply fold_parent_in_leaves.
Qed.

Lemma proofs_leaves hashv t : (proofs hashv t).*1 = leaves t.
Proof. induction t as [l|l IHl r IHr]; simpl; [done|]. rewrite fmap_app, <- !list_fmap_compose. by rewrite <- IHl, <- IHr. Qed.

(** C36: the proofs accepted against the root of a snapshot tree are those of
    its leaves.  Every holder of the tree has a proof that is accepted, whatever the hash function;
    and unless two of the byte strings that were hashed collide, an (account, balance) pair accepted
    with any proof is a leaf: leaf preimages (40 bytes) and node preimages (64 bytes) cannot be
    confused, so neither an inner node passes for a leaf nor a leaf for an inner node. *)
Theorem balance_proofs_are_the_leaves hashv t l
    (hashv_concat : forall a b, hashv [a; b] = hashv [a ++ b])
    (hashv_length : forall x, length (hashv x) = 32%nat) :
  (l ∈ leaves t -> exists proof, (l, proof) ∈ proofs hashv t /\
     verify_balance_proof hashv proof (root hashv t) (account l) (amount l) = true) /\
  forall proof, leaf_ok l -> Forall leaf_ok (leaves t) -> Forall (fun s => length s = 32%nat) proof ->
    no_collision hashv (leaf_preimage l :: proof_preimages hashv (hash hashv l) proof ++ tree_preimages hashv t) ->
    verify_balance_proof hashv proof (root hashv t) (account l) (amount l) = true -> l ∈ leaves t.
Proof.
  split; [|intros proof; by apply balance_proof_sound].
  rewrite <- (proofs_leaves hashv t). intros ([l' proof] & -> & Hp)%list_elem_of_fmap.
  exists proof. split; [done|by apply balance_proof_complete].
Qed.

(** ** Witnesses *)

(** A 32-byte checksum, good enough for the few strings below. *)
Definition checksum (parts : list (list Z)) : Hash :=
  le_bytes 32 (fold_left (fun acc b => (acc * 1000003 + b + 1) mod 2 ^ 256) (concat parts) 7).

Lemma checksum_concat a b : checksum [a; b] = checksum [a ++ b].
Proof. unfold checksum. simpl. by rewrite !app_nil_r. Qed.

Definition sample_tree : tree :=
  Node (Node (Leaf (mkLeafData 1 10)) (Leaf (mkLeafData 2 20))) (Leaf (mkLeafData 3 30)).
Definition sample_proof : list Hash :=
  [hash checksum (mkLeafData 1 10); hash checksum (mkLeafData 3 30)].

Definition no_collision_b (hashv : list (list Z) -> Hash) (inputs : list (list Z)) : bool :=
  forallb (fun x => forallb (fun y =>
    bool_decide (x = y) || negb (bool_decide (hashv [x] = hashv [y]))) inputs) inputs.

Lemma no_collision_b_ok hashv inputs : no_collision_b hashv inputs = true -> no_collision hashv inputs.
Proof.
  unfold no_collision_b. rewrite forallb_forall.
  intros H x y Hx Hy E. specialize (H x (proj1 (list_elem_of_In _ _) Hx)).
  rewrite forallb_forall in H. specialize (H y (proj1 (list_elem_of_In _ _) Hy)).
  apply orb_true_iff in H as [H|H]; [by apply bool_decide_eq_true in H|].
  apply negb_true_iff, bool_decide_eq_false in H. done.
Qed.

Lemma sample_no_collision : no_collision checksum
  (leaf_preimage (mkLeafData 2 20) :: proof_preimages checksum (hash checksum (mkLeafData 2 20)) sample_proof ++
   tree_preimages checksum sample_tree).
Proof. apply no_collision_b_ok. vm_compute. reflexivity. Qed.

Lemma sample_proof_accepted :
  verify_balance_proof checksum sample_proof (root checksum sample_tree) 2 20 = true.
Proof. vm_compute. reflexivity. Qed.

Lemma sample_leaves_ok : leaf_ok (mkLeafData 2 20) /\ Forall leaf_ok (leaves sample_tree).
Proof.
  split; [split; vm_compute; [reflexivity|split; discriminate]|].
  repeat constructor; vm_compute; try reflexivity; discriminate.
Qed.

Lemma sample_proof_lengths : Forall (fun s => length s = 32%nat) sample_proof.
Proof. repeat constructor. Qed.

Lemma balance_proofs_are_the_leaves_witness :
  (exists proof, (mkLeafData 2 20, proof) ∈ proofs checksum sample_tree /\
     verify_balance_proof checksum proof (root checksum sample_tree) 2 20 = true) /\
  mkLeafData 2 20 ∈ leaves sample_tree.
Proof.
  destruct (balance_proofs_are_the_leaves checksum sample_tree (mkLeafData 2 20) checksum_concat
    (fun x => le_bytes_length 32 _)) as [Hc Hs].
  split; [apply Hc; right; left|]. exact (Hs sample_proof (proj1 sample_leaves_ok) (proj2 sample_leaves_ok)
    sample_proof_lengths sample_no_collision sample_proof_accepted).
Defined.
