(* ===== verification/Layout.v ===== *)
(** * Layout: the bytes of accounts ([common/src/state])

    Accounts are serialized by Borsh behind an 8-byte discriminator: the fields
    in order, integers little-endian, addresses as 32 bytes.  The mirrors of
    [AssetConfiguration] and [HoldPosition] in the [common] crate are deserialized
    by hand; two programs read bytes of accounts at fixed offsets.  The bytes of
    the other accounts are not modelled: [BorshLayout] stands for the layout of
    all of them and [BorshLaws] for the parts the programs rely on. *)

From S2P Require Import Prelude.
From S2P Require Import Merkle.
From S2P Require Import ProgramIds.
From S2P Require Import Errors.
From S2P Require Import State.

(** ** Borsh *)

(** A value and the bytes after it; [None] when there are too few. *)
Definition Reader (A : Type) : Type := list Z -> option (A * list Z).

Definition read_bytes (n : nat) : Reader (list Z) := fun bs =>
  if (length bs <? n)%nat then None else Some (take n bs, drop n bs).

(** [u64::from_le_bytes] *)
Fixpoint of_le_bytes (bs : list Z) : Z :=
  match bs with [] => 0 | b :: bs => b + 256 * of_le_bytes bs end.

(** The address of 32 bytes. *)
Definition of_key_bytes (bs : list Z) : Pubkey := Z.to_N (of_le_bytes (reverse bs)).

Definition read_u8 : Reader Z := fun bs => '(x, bs) ← read_bytes 1 bs; Some (of_le_bytes x, bs).
Definition read_u64 : Reader Z := fun bs => '(x, bs) ← read_bytes 8 bs; Some (of_le_bytes x, bs).
Definition read_key : Reader Pubkey := fun bs => '(x, bs) ← read_bytes 32 bs; Some (of_key_bytes x, bs).

Definition AssetConfiguration_serialize (c : AssetConfiguration) : list Z :=
  u64_bytes (ac_asset_class_config_id c) ++ u64_bytes (ac_asset_class_version_id c) ++ [ac_bump c].
Definition AssetConfiguration_deserialize : Reader AssetConfiguration := fun bs =>
  '(config_id, bs) ← read_u64 bs; '(version_id, bs) ← read_u64 bs; '(bump, bs) ← read_u8 bs;
  Some (mkAssetConfiguration config_id version_id bump, bs).

Definition HoldPosition_serialize (p : HoldPosition) : list Z :=
  key_bytes (hp_mint p) ++ key_bytes (hp_token_account p) ++ u64_bytes (hp_held_amount p) ++
  u64_bytes (hp_hold_count p) ++ [hp_bump p].
Definition HoldPosition_deserialize : Reader HoldPosition := fun bs =>
  '(mint, bs) ← read_key bs; '(token_account, bs) ← read_key bs; '(held_amount, bs) ← read_u64 bs;
  '(hold_count, bs) ← read_u64 bs; '(bump, bs) ← read_u8 bs;
  Some (mkHoldPosition mint token_account held_amount hold_count bump, bs).

(** ** The mirrors of [common] *)

Definition AssetConfiguration_DISCRIMINATOR : list Z := [15; 79; 132; 40; 8; 129; 114; 149].
Definition HoldPosition_DISCRIMINATOR : list Z := [126; 32; 74; 45; 205; 98; 8; 28].

Definition AssetConfiguration_try_deserialize_unchecked (buf : list Z) : Result Error AssetConfiguration :=
  match AssetConfiguration_deserialize (drop (length AssetConfiguration_DISCRIMINATOR) buf) with
  | Some (c, _) => Ok c
  | None => Err (ECommon CommonError.InvalidAssetConfigurationData)
  end.

Definition AssetConfiguration_try_deserialize (buf : list Z) : Result Error AssetConfiguration :=
  if (length buf <? length AssetConfiguration_DISCRIMINATOR)%nat then
    Err (EAnchor AccountDiscriminatorNotFound)
  else if bool_decide (take (length AssetConfiguration_DISCRIMINATOR) buf <> AssetConfiguration_DISCRIMINATOR) then
    Err (EAnchor AccountDiscriminatorMismatch)
  else AssetConfiguration_try_deserialize_unchecked buf.

Definition HoldPosition_try_deserialize_unchecked (buf : list Z) : Result Error HoldPosition :=
  match HoldPosition_deserialize (drop (length HoldPosition_DISCRIMINATOR) buf) with
  | Some (p, _) => Ok p
  | None => Err (ECommon CommonError.InvalidHoldPositionData)
  end.

Definition HoldPosition_try_deserialize (buf : list Z) : Result Error HoldPosition :=
  if (length buf <? length HoldPosition_DISCRIMINATOR)%nat then
    Err (EAnchor AccountDiscriminatorNotFound)
  else if bool_decide (take (length HoldPosition_DISCRIMINATOR) buf <> HoldPosition_DISCRIMINATOR) then
    Err (EAnchor AccountDiscriminatorMismatch)
  else HoldPosition_try_deserialize_unchecked buf.

Definition ASSET_CLASS_CONFIG_ID_OFFSET : Z := Z.of_nat (length AssetConfiguration_DISCRIMINATOR).
Definition ASSET_CLASS_VERSION_ID_OFFSET : Z := ASSET_CLASS_CONFIG_ID_OFFSET + 8.

(** [discriminators_eq]: the loop over the index, with fuel. *)
Fixpoint discriminators_loop (fuel : nat) (a b : list Z) (i : nat) : option bool :=
  match fuel with
  | O => None
  | S fuel =>
      if (i <? length a)%nat then
        match a !! i, b !! i with
        | Some x, Some y => if x =? y then discriminators_loop fuel a b (i + 1) else Some false
        | _, _ => None
        end
      else Some true
  end.

Definition discriminators_eq (fuel : nat) (a b : list Z) : option bool :=
  if negb (length a =? length b)%nat then Some false else discriminators_loop fuel a b 0.

(** ** The layout of all accounts *)

Class BorshLayout : Type := { account_bytes : AccountData -> list Z }.

Class BorshLaws {Bl : BorshLayout} : Prop := {
  account_bytes_coupon_counter c : exists discriminator, length discriminator = 8%nat /\
    account_bytes (DCouponCounter c) = discriminator ++ [cc_bump c] ++ u64_bytes (cc_count c);
  account_bytes_asset_configuration c :
    account_bytes (DAssetConfiguration c) = AssetConfiguration_DISCRIMINATOR ++ AssetConfiguration_serialize c;
  account_bytes_empty d : data_is_empty d = true -> account_bytes d = [] }.

#[export] Instance reference_layout : BorshLayout := {|
  account_bytes d := match d with
    | DCouponCounter c => replicate 8 0 ++ [cc_bump c] ++ u64_bytes (cc_count c)
    | DAssetConfiguration c => AssetConfiguration_DISCRIMINATOR ++ AssetConfiguration_serialize c
    | _ => []
    end |}.

#[export] Instance reference_layout_laws : BorshLaws.
Proof. split; [intros c; by exists (replicate 8 0)|done|intros d; by destruct d]. Qed.

(** ** Round trips of the integers *)

Lemma of_le_bytes_le_bytes n x : 0 <= x < 256 ^ Z.of_nat n -> of_le_bytes (le_bytes n x) = x.
Proof.
  revert x. induction n as [|n IH]; intros x Hx; cbn [of_le_bytes le_bytes].
  - simpl in Hx. lia.
  - rewrite Nat2Z.inj_succ, Z.pow_succ_r in Hx by lia.
    rewrite IH; [pose proof (Z.div_mod x 256); lia|].
    split; [apply Z.div_pos; lia|apply Z.div_lt_upper_bound; lia].
Qed.

Lemma le_bytes_of_le_bytes bs :
  Forall u8_ok bs -> le_bytes (length bs) (of_le_bytes bs) = bs /\ 0 <= of_le_bytes bs < 256 ^ Z.of_nat (length bs).
Proof.
  induction bs as [|b bs IH]; intros Hb; cbn [of_le_bytes le_bytes length]; [split; [done|simpl; lia]|].
  apply Forall_cons in Hb as [Hb Hbs]. destruct (IH Hbs) as [E Hr]. unfold u8_ok, U8_MAX in Hb.
  rewrite (Z.mul_comm 256), Z.mod_add, Z.div_add, Z.mod_small, Z.div_small by lia. rewrite Z.add_0_l, E.
  split; [done|]. rewrite Nat2Z.inj_succ, Z.pow_succ_r by lia. lia.
Qed.

(** ** Round trips of the readers *)

(** [read] parses what [write] prints, and nothing else. *)
Record parses {A} (ok : A -> Prop) (write : A -> list Z) (read : Reader A) : Prop := {
  parses_write a rest : ok a -> read (write a ++ rest) = Some (a, rest);
  parses_read bs a rest : Forall u8_ok bs -> read bs = Some (a, rest) ->
    bs = write a ++ rest /\ ok a /\ Forall u8_ok rest }.

Lemma read_bytes_inv n bs x rest :
  Forall u8_ok bs -> read_bytes n bs = Some (x, rest) ->
  bs = x ++ rest /\ length x = n /\ Forall u8_ok x /\ Forall u8_ok rest.
Proof.
  intros Hb. unfold read_bytes. destruct (Nat.ltb_spec (length bs) n); [done|]. intros [= <- <-].
  rewrite take_drop, length_take_le by lia. by repeat split; [apply Forall_take|apply Forall_drop].
Qed.

Lemma read_bytes_app bs rest : read_bytes (length bs) (bs ++ rest) = Some (bs, rest).
Proof.
  unfold read_bytes. rewrite length_app. destruct (Nat.ltb_spec (length bs + length rest) (length bs)); [lia|].
  by rewrite take_app_length, drop_app_length.
Qed.

Lemma read_u8_parses : parses u8_ok (fun x => [x]) read_u8.
Proof.
  split.
  - intros x rest _. unfold read_u8. rewrite (read_bytes_app [x]). cbn. by rewrite Z.add_0_r.
  - intros bs a rest Hb. unfold read_u8. destruct (read_bytes 1 bs) as [[x r]|] eqn:E; [|done].
    intros [= <- <-]. apply read_bytes_inv in E as (-> & Hl & Hx & Hr); [|done].
    destruct x as [|y [|]]; [done| |done]. apply Forall_cons in Hx as [Hy _]. cbn. by rewrite Z.add_0_r.
Qed.

Lemma read_u64_parses : parses u64_ok u64_bytes read_u64.
Proof.
  split.
  - intros x rest Hx. unfold read_u64, u64_bytes. rewrite <- (le_bytes_length 8 x) at 1.
    rewrite read_bytes_app. cbn [mbind option_bind]. by rewrite of_le_bytes_le_bytes by (unfold u64_ok, U64_MAX in Hx; lia).
  - intros bs a rest Hb. unfold read_u64. destruct (read_bytes 8 bs) as [[x r]|] eqn:E; [|done].
    cbn [mbind option_bind]. intros [= <- <-]. apply read_bytes_inv in E as (-> & Hl & Hx & Hr); [|done].
    destruct (le_bytes_of_le_bytes x Hx) as [Ex Hlt]. rewrite Hl in Ex, Hlt. unfold u64_bytes. rewrite Ex.
    split; [done|]. split; [|done]. unfold u64_ok, U64_MAX. lia.
Qed.

Definition key_ok (k : Pubkey) : Prop := (k < 2 ^ 256)%N.

Lemma read_key_parses : parses key_ok key_bytes read_key.
Proof.
  split.
  - intros k rest Hk. unfold read_key, key_bytes, of_key_bytes, key_ok in *.
    replace 32%nat with (length (reverse (le_bytes 32 (Z.of_N k)))) at 1
      by (by rewrite length_reverse, le_bytes_length).
    rewrite read_bytes_app. cbn [mbind option_bind]. rewrite reverse_involutive, of_le_bytes_le_bytes, N2Z.id; [done|].
    change (256 ^ Z.of_nat 32) with (2 ^ 256). lia.
  - intros bs k rest Hb. unfold read_key. destruct (read_bytes 32 bs) as [[x r]|] eqn:E; [|done].
    cbn [mbind option_bind]. intros [= <- <-]. apply read_bytes_inv in E as (-> & Hl & Hx & Hr); [|done].
    destruct (le_bytes_of_le_bytes (reverse x)) as [Ex Hlt]; [by apply Forall_reverse|].
    rewrite length_reverse, Hl in Ex, Hlt. unfold of_key_bytes, key_bytes, key_ok.
    rewrite Z2N.id, Ex, reverse_involutive by lia. split; [done|]. split; [|done].
    change (256 ^ Z.of_nat 32) with (2 ^ 256) in Hlt. lia.
Qed.

Definition asset_configuration_ok (c : AssetConfiguration) : Prop :=
  u64_ok (ac_asset_class_config_id c) /\ u64_ok (ac_asset_class_version_id c) /\ u8_ok (ac_bump c).
Definition hold_position_ok (p : HoldPosition) : Prop :=
  key_ok (hp_mint p) /\ key_ok (hp_token_account p) /\ u64_ok (hp_held_amount p) /\ u64_ok (hp_hold_count p) /\
  u8_ok (hp_bump p).

(** Runs the readers over what was written. *)
Ltac parse_writes :=
  repeat match goal with
  | |- context [read_u64 (u64_bytes _ ++ _)] => rewrite (parses_write _ _ _ read_u64_parses) by done; cbn [mbind option_bind]
  | |- context [read_key (key_bytes _ ++ _)] => rewrite (parses_write _ _ _ read_key_parses) by done; cbn [mbind option_bind]
  | |- context [read_u8 ([_] ++ _)] => rewrite (parses_write _ _ _ read_u8_parses) by done; cbn [mbind option_bind]
  end.

(** Takes the readers of a successful run apart. *)
Ltac parse_reads H :=
  repeat match type of H with
  | context [read_u64 ?b] => let E := fresh "E" in destruct (read_u64 b) as [[? ?]|] eqn:E; [|discriminate H];
      apply (parses_read _ _ _ read_u64_parses) in E as (? & ? & ?); [|done]; cbn [mbind option_bind] in H
  | context [read_key ?b] => let E := fresh "E" in destruct (read_key b) as [[? ?]|] eqn:E; [|discriminate H];
      apply (parses_read _ _ _ read_key_parses) in E as (? & ? & ?); [|done]; cbn [mbind option_bind] in H
  | context [read_u8 ?b] => let E := fresh "E" in destruct (read_u8 b) as [[? ?]|] eqn:E; [|discriminate H];
      apply (parses_read _ _ _ read_u8_parses) in E as (? & ? & ?); [|done]; cbn [mbind option_bind] in H
  end.

Lemma asset_configuration_parses :
  parses asset_configuration_ok AssetConfiguration_serialize AssetConfiguration_deserialize.
Proof.
  split.
  - intros [i v b] rest (? & ? & ?). unfold AssetConfiguration_serialize, AssetConfiguration_deserialize.
    cbn [ac_asset_class_config_id ac_asset_class_version_id ac_bump] in *.
    rewrite <- !app_assoc. parse_writes. done.
  - intros bs c rest Hb Hr. unfold AssetConfiguration_deserialize in Hr. parse_reads Hr. simplify_eq.
    unfold AssetConfiguration_serialize, asset_configuration_ok.
    cbn [ac_asset_class_config_id ac_asset_class_version_id ac_bump]. rewrite <- !app_assoc. done.
Qed.

Lemma hold_position_parses : parses hold_position_ok HoldPosition_serialize HoldPosition_deserialize.
Proof.
  split.
  - intros [m t h n b] rest (? & ? & ? & ? & ?). unfold HoldPosition_serialize, HoldPosition_deserialize.
    cbn [hp_mint hp_token_account hp_held_amount hp_hold_count hp_bump] in *.
    rewrite <- !app_assoc. parse_writes. done.
  - intros bs c rest Hb Hr. unfold HoldPosition_deserialize in Hr. parse_reads Hr. simplify_eq.
    unfold HoldPosition_serialize, hold_position_ok.
    cbn [hp_mint hp_token_account hp_held_amount hp_hold_count hp_bump]. rewrite <- !app_assoc. done.
Qed.

(** What the hand-written deserialization of a mirror promises: it reads back what the owning
    program wrote, accepts nothing else, and tells the three ways to fail apart. *)
Record mirrors {A} (ok : A -> Prop) (write : A -> list Z) (discriminator : list Z) (e : CommonError.CommonError)
    (read : list Z -> Result Error A) : Prop := {
  mirrors_reads_back a rest : ok a -> read (discriminator ++ write a ++ rest) = Ok a;
  mirrors_only buf a : Forall u8_ok buf -> read buf = Ok a ->
    ok a /\ exists rest, buf = discriminator ++ write a ++ rest;
  mirrors_not_found buf : read buf = Err (EAnchor AccountDiscriminatorNotFound) <-> (length buf < 8)%nat;
  mirrors_mismatch buf : read buf = Err (EAnchor AccountDiscriminatorMismatch) <->
    (8 <= length buf)%nat /\ take 8 buf <> discriminator;
  mirrors_error buf e' : read buf = Err e' ->
    e' = EAnchor AccountDiscriminatorNotFound \/ e' = EAnchor AccountDiscriminatorMismatch \/ e' = ECommon e }.

Section mirror.
Context {A : Type} (ok : A -> Prop) (write : A -> list Z) (de : Reader A) (disc : list Z) (e : CommonError.CommonError).
Context (Hp : parses ok write de) (Hd : length disc = 8%nat).

Definition mirror_read (buf : list Z) : Result Error A :=
  if (length buf <? length disc)%nat then Err (EAnchor AccountDiscriminatorNotFound)
  else if bool_decide (take (length disc) buf <> disc) then Err (EAnchor AccountDiscriminatorMismatch)
  else match de (drop (length disc) buf) with Some (a, _) => Ok a | None => Err (ECommon e) end.

Lemma mirror_read_mirrors : mirrors ok write disc e mirror_read.
Proof.
  split; unfold mirror_read.
  - intros a rest Ha. rewrite length_app. destruct (Nat.ltb_spec (length disc + length (write a ++ rest)) (length disc)); [lia|].
    rewrite take_app_length, drop_app_length, bool_decide_eq_false_2 by (intros []; done).
    by rewrite (parses_write _ _ _ Hp).
  - intros buf a Hb. destruct (_ <? _)%nat; [done|]. case_bool_decide as Ht; [done|].
    destruct (de _) as [[a' rest]|] eqn:E; [|done]. intros [= <-].
    apply (parses_read _ _ _ Hp) in E as (E & Ha & _); [|by apply Forall_drop].
    split; [done|]. exists rest. rewrite <- E. rewrite <- Ht at 1. by rewrite take_drop.
  - intros buf. rewrite Hd. destruct (Nat.ltb_spec (length buf) 8); [done|].
    split; [|lia]. case_bool_decide; [done|]. by destruct (de _) as [[]|].
  - intros buf. rewrite Hd. destruct (Nat.ltb_spec (length buf) 8); [split; [done|lia]|].
    case_bool_decide as Ht; [done|]. split; [by destruct (de _) as [[]|]|]. by intros [_ ?].
  - intros buf e'. destruct (_ <? _)%nat; [intros [= <-]; auto|]. case_bool_decide; [intros [= <-]; auto|].
    destruct (de _) as [[]|]; [done|]. intros [= <-]. auto.
Qed.
End mirror.

(** C39: the copies of [AssetConfiguration] and
    [HoldPosition] in the [common] crate read the accounts of the deploy and hold
    programs faithfully.  Deserializing what those programs serialized (the
    discriminator and the fields, whatever bytes follow) gives back the same
    fields; bytes that deserialize to a value are the discriminator and the
    serialization of that value, whose integers are in range; a buffer of fewer
    than 8 bytes, one with another discriminator and one too short for the fields
    are refused with the three errors the code has for them. *)
Theorem mirrors_round_trip :
  mirrors asset_configuration_ok AssetConfiguration_serialize AssetConfiguration_DISCRIMINATOR
    CommonError.InvalidAssetConfigurationData AssetConfiguration_try_deserialize /\
  mirrors hold_position_ok HoldPosition_serialize HoldPosition_DISCRIMINATOR
    CommonError.InvalidHoldPositionData HoldPosition_try_deserialize.
Proof.
  split.
  - exact (mirror_read_mirrors _ _ _ AssetConfiguration_DISCRIMINATOR _ asset_configuration_parses eq_refl).
  - exact (mirror_read_mirrors _ _ _ HoldPosition_DISCRIMINATOR _ hold_position_parses eq_refl).
Qed.

(** The identifiers of the asset class, at the offsets the transfer hook reads. *)
Lemma asset_configuration_offsets `{BlLaws : BorshLaws} c :
  asset_configuration_ok c ->
  of_le_bytes (take 8 (drop (Z.to_nat ASSET_CLASS_CONFIG_ID_OFFSET) (account_bytes (DAssetConfiguration c)))) =
    ac_asset_class_config_id c /\
  of_le_bytes (take 8 (drop (Z.to_nat ASSET_CLASS_VERSION_ID_OFFSET) (account_bytes (DAssetConfiguration c)))) =
    ac_asset_class_version_id c.
Proof.
  intros (Hi & Hv & _). rewrite account_bytes_asset_configuration. unfold AssetConfiguration_serialize.
  assert (Hlen : forall x, length (u64_bytes x) = 8%nat) by (intros; apply le_bytes_length).
  unfold u64_ok, U64_MAX in *. split.
  - rewrite drop_app_length' by done. rewrite take_app_length' by done.
    apply of_le_bytes_le_bytes. change (256 ^ Z.of_nat 8) with (2 ^ 64). lia.
  - rewrite app_assoc, drop_app_length' by (rewrite length_app, Hlen; done). rewrite take_app_length' by done.
    apply of_le_bytes_le_bytes. change (256 ^ Z.of_nat 8) with (2 ^ 64). lia.
Qed.

(** ** The comparison of discriminators *)

Lemma discriminators_loop_spec a b : length a = length b -> forall k i, (length a - i < k)%nat ->
  discriminators_loop k a b i = Some (bool_decide (drop i a = drop i b)).
Proof.
  intros Hl k. induction k as [|k IH]; intros i Hk; [lia|]. simpl.
  destruct (Nat.ltb_spec i (length a)) as [Hi|Hi].
  - destruct (lookup_lt_is_Some_2 a i Hi) as [x Hx], (lookup_lt_is_Some_2 b i ltac:(lia)) as [y Hy].
    rewrite Hx, Hy, (drop_S a x i Hx), (drop_S b y i Hy). destruct (Z.eqb_spec x y) as [->|Hne].
    + rewrite IH by lia. f_equal. rewrite Nat.add_1_r. apply bool_decide_ext. split; congruence.
    + rewrite bool_decide_eq_false_2; [done|congruence].
  - rewrite !drop_ge by lia. by rewrite bool_decide_eq_true_2.
Qed.

(** C40: the loop that compares discriminators
    ends and decides equality.  With one more round than there are bytes in the
    first argument it always returns, never reads past the end of either slice,
    and its result is whether the two slices are the same bytes. *)
Theorem discriminators_eq_terminates fuel a b :
  (length a < fuel)%nat -> discriminators_eq fuel a b = Some (bool_decide (a = b)).
Proof.
  intros Hf. unfold discriminators_eq. destruct (Nat.eqb_spec (length a) (length b)) as [Hl|Hl]; simpl.
  - rewrite discriminators_loop_spec by (done || lia). by rewrite !drop_0.
  - rewrite bool_decide_eq_false_2; [done|congruence].
Qed.

Lemma discriminators_eq_terminates_witness :
  discriminators_eq 9 AssetConfiguration_DISCRIMINATOR HoldPosition_DISCRIMINATOR = Some false.
Proof.
  rewrite (discriminators_eq_terminates 9 AssetConfiguration_DISCRIMINATOR HoldPosition_DISCRIMINATOR);
    [by rewrite bool_decide_eq_false_2|simpl; lia].
Defined.
