(* ===== verification/Common.v ===== *)
(** * Common: the guards shared by every program ([common/src/lib.rs]), the identifiers of
    functionalities and roles, and the account constraints that recur in the
    [#[derive(Accounts)]] structs. *)

From S2P Require Import Prelude.
From S2P Require Import ProgramIds.
From S2P Require Import Bitmask.
From S2P Require Import Errors.
From S2P Require Import State.
From S2P Require Import Runtime.
From S2P Require Import Anchor.
From S2P Require Import Frame.
From S2P Require Import PdaSeeds.
From S2P Require Import Merkle.

(** ** [functionalities.rs] *)

Definition BOND_UPDATE_BOND_TERMS : Z := 0.
Definition COUPON_CREATE_COUPON : Z := 1.
Definition COUPON_SET_COUPON_RATE : Z := 2.
Definition DEACTIVATE_DEACTIVATE : Z := 3.
Definition FREEZE_FREEZE_ACCOUNT : Z := 4.
Definition FREEZE_UNFREEZE_ACCOUNT : Z := 5.
Definition FREEZE_PARTIALLY_FREEZE_ACCOUNT : Z := 6.
Definition FREEZE_REMOVE_PARTIAL_FREEZE : Z := 7.
Definition METADATA_UPDATE_UPDATE_METADATA_FIELD : Z := 8.
Definition METADATA_UPDATE_REMOVE_METADATA_FIELD : Z := 9.
Definition MINT_MINT : Z := 10.
Definition OPERATIONS_BURN : Z := 11.
Definition PAUSE_PAUSE : Z := 12.
Definition PAUSE_UNPAUSE : Z := 13.
Definition TRANSFER_CONTROL_INITIALIZE : Z := 14.
Definition TRANSFER_CONTROL_ADD_TO_CONTROL_LIST : Z := 15.
Definition TRANSFER_CONTROL_REMOVE_FROM_CONTROL_LIST : Z := 16.
Definition TRANSFER_HOOK_EXECUTE : Z := 17.
Definition TREASURY_SET_PAYMENT_TOKEN : Z := 18.
Definition TREASURY_PAY_COUPON : Z := 19.
Definition ACCESS_CONTROL_GRANT_ROLES : Z := 20.
Definition ACCESS_CONTROL_REVOKE_ROLES : Z := 21.
Definition CAP_MAX_SUPPLY : Z := 22.
Definition OPERATIONS_CONTROLLER_TRANSFER : Z := 23.
Definition DOCUMENT_SET_DOCUMENT : Z := 24.
Definition DOCUMENT_REMOVE_DOCUMENT : Z := 25.
Definition HOLD_CREATE_HOLD : Z := 26.
Definition NOMINAL_VALUE_INITIALIZE : Z := 27.
Definition NOMINAL_VALUE_PUBLISH : Z := 28.
Definition NOMINAL_VALUE_REPUBLISH : Z := 29.

(** ** [roles.rs] *)

Definition ROLE_ADMIN : Z := 0.
Definition ROLE_CONTROLLER : Z := 1.
Definition ROLE_CONTROL_LIST : Z := 2.
Definition ROLE_CORPORATE_ACTION : Z := 3.
Definition ROLE_ISSUER : Z := 4.
Definition ROLE_TREASURER : Z := 5.
Definition ROLE_PAUSER : Z := 6.
Definition ROLE_FREEZE_MANAGER : Z := 7.
Definition ROLE_DEACTIVATE : Z := 8.
Definition ROLE_CUSTOM_DATA_MANAGER : Z := 9.
Definition ROLE_CAP : Z := 10.
Definition ROLE_DOCUMENT_MANAGER : Z := 11.
Definition ROLE_NOMINAL_VALUE : Z := 12.

(** ** Guards *)

Definition require_active (deactivate_pda : Pubkey) : M unit :=
  w ← get;
  require (data_is_empty (data_of w deactivate_pda)) (ECommon CommonError.Deactivated).

Definition require_not_paused (mint_account : Pubkey) : M unit :=
  mint_state ← unpack_mint mint_account;
  paused ← lift (ok_or (m_paused mint_state) (ERuntime InvalidAccountData));
  require (negb paused) (ECommon CommonError.MintPaused).

Definition is_functionality_enabled (asset_class_version : AssetClassVersion)
    (functionality : Z) : Result Error bool :=
  if acv_state asset_class_version =? ASSET_CLASS_VERSION_STATE_FINALIZED then
    map_err (fun _ => ECommon CommonError.FunctionalityOutOfBounds)
      (is_set (acv_mask asset_class_version) functionality)
  else Err (ECommon CommonError.AssetClassVersionNotFinalized).

Definition require_functionality (asset_class_version : AssetClassVersion) (functionality : Z) :
    M unit :=
  enabled ← lift (is_functionality_enabled asset_class_version functionality);
  require enabled (ECommon CommonError.FunctionalityNotSupportedError).

Definition require_role (roles_pda : Roles) (role : Z) : M unit :=
  enabled ← lift (map_err (fun _ => ECommon CommonError.RoleOutOfBounds) (is_set (r_mask roles_pda) role));
  require enabled (ECommon CommonError.MissingRole).

(** The guards most instructions start with, in this order: the caller's role, the mint not
    paused, the mint not deactivated, the functionality enabled. *)
Definition operation_guards (authority_roles_pda mint deactivate_pda asset_class_version_pda : Pubkey)
    (role functionality : Z) : M unit :=
  roles ← loader_load Roles authority_roles_pda;
  require_role roles role;;
  require_not_paused mint;;
  require_active deactivate_pda;;
  version ← loader_load AssetClassVersion asset_class_version_pda;
  require_functionality version functionality.

(** What they establish. *)
Definition operation_allowed (w : World)
    (authority_roles_pda mint deactivate_pda asset_class_version_pda : Pubkey)
    (role functionality : Z) : Prop :=
  (exists roles, stored w authority_roles_pda roles /\ is_set (r_mask roles) role = Ok true) /\
  (exists ms, data_of w mint = DMint ms /\ m_paused ms = Some false) /\
  data_is_empty (data_of w deactivate_pda) = true /\
  exists version, stored w asset_class_version_pda version /\
    acv_state version = ASSET_CLASS_VERSION_STATE_FINALIZED /\
    is_set (acv_mask version) functionality = Ok true.

(** [bitmask::set_bits(&mut mask, positions).map_err(|_| e)?] *)
Definition bits_or (e : Error) (r : list Z * Result Z unit) : M (list Z) :=
  lift (match r with (mask, Ok _) => Ok mask | (_, Err _) => Err e end).

Definition require_balance_proof (hashv : list (list Z) -> Hash) (proof : list Hash) (root : Hash)
    (account : Pubkey) (balance : Z) : M unit :=
  require (verify_balance_proof hashv proof root account balance)
    (ECommon CommonError.InvalidMerkleProof).

Definition held_amount (hold_position_pda : Pubkey) : M Z :=
  w ← get;
  if data_is_empty (data_of w hold_position_pda) then mret 0
  else p ← account_try_from HoldPosition hold_position_pda; mret (hp_held_amount p).

Definition require_hold_covered (token_account hold_position_pda : Pubkey) (amount : Z) : M unit :=
  token_state ← unpack_token token_account (ECommon CommonError.InsufficientSpendableBalance);
  held ← held_amount hold_position_pda;
  required ← lift (ok_or (checked_add_u64 held amount)
                     (ECommon CommonError.InsufficientSpendableBalance));
  require (required <=? t_amount token_state) (ECommon CommonError.InsufficientSpendableBalance).

Section with_runtime.
Context `{Rt : SolanaRuntime}.

Definition verify_control_list_pda (control_list_pda destination mint : Pubkey) : M unit :=
  require (N.eqb control_list_pda (pda (control_list_seeds mint destination) TRANSFER_CONTROL_PROGRAM_ID))
    (ECommon CommonError.ControlListPdaMismatch).

Definition require_hold_covered_unverified_pda (token_account hold_position_pda mint : Pubkey)
    (amount : Z) : M unit :=
  require (N.eqb hold_position_pda (pda (hold_position_seeds mint token_account) HOLD_PROGRAM_ID))
    (ECommon CommonError.HoldPositionPdaMismatch);;
  require_hold_covered token_account hold_position_pda amount.

(** ** Recurring account constraints *)

Definition asset_configuration_constraint (k mint : Pubkey) (asset_configuration : AssetConfiguration) :
    M unit :=
  seeds_bump_check k (asset_configuration_seeds mint) DEPLOY_PROGRAM_ID (ac_bump asset_configuration).

Definition asset_class_version_constraint (k : Pubkey) (asset_configuration : AssetConfiguration) : M unit :=
  asset_class_version ← loader_load AssetClassVersion k;
  seeds_bump_check k
    (asset_class_version_seeds (ac_asset_class_config_id asset_configuration)
       (ac_asset_class_version_id asset_configuration))
    FACTORY_PROGRAM_ID (acv_bump asset_class_version).

Definition roles_constraint (k mint authority : Pubkey) : M unit :=
  roles ← loader_load Roles k;
  seeds_bump_check k (roles_seeds mint authority) ACCESS_CONTROL_PROGRAM_ID (r_bump roles).

Definition deactivate_constraint (k mint : Pubkey) : M unit :=
  seeds_check k (deactivate_seeds mint) DEACTIVATE_PROGRAM_ID;; mret tt.

Definition hold_position_constraint (k mint token_account : Pubkey) : M unit :=
  seeds_check k (hold_position_seeds mint token_account) HOLD_PROGRAM_ID;; mret tt.
End with_runtime.

(** ** [hook_accounts.rs] *)

Definition HOOK_FORWARDED_ACCOUNT_COUNT : nat := 16.

Record HookAccounts : Set := mkHookAccounts {
  ha_extra_account_meta_list : Pubkey;
  ha_transfer_hook_program : Pubkey;
  ha_deploy_program : Pubkey;
  ha_asset_configuration_pda : Pubkey;
  ha_factory_program : Pubkey;
  ha_asset_class_version_pda : Pubkey;
  ha_deactivate_program : Pubkey;
  ha_deactivate_pda : Pubkey;
  ha_transfer_control_program : Pubkey;
  ha_transfer_control_mode_pda : Pubkey;
  ha_source_control_list_pda : Pubkey;
  ha_destination_control_list_pda : Pubkey;
  ha_freeze_program : Pubkey;
  ha_source_freeze_state_pda : Pubkey;
  ha_hold_program : Pubkey;
  ha_source_hold_position_pda : Pubkey }.

Definition ordered (h : HookAccounts) : list Pubkey :=
  [ ha_extra_account_meta_list h; ha_transfer_hook_program h; ha_deploy_program h;
    ha_asset_configuration_pda h; ha_factory_program h; ha_asset_class_version_pda h;
    ha_deactivate_program h; ha_deactivate_pda h; ha_transfer_control_program h;
    ha_transfer_control_mode_pda h; ha_source_control_list_pda h;
    ha_destination_control_list_pda h; ha_freeze_program h; ha_source_freeze_state_pda h;
    ha_hold_program h; ha_source_hold_position_pda h ].

(** ** What the guards establish *)

(** The bit of [functionality] is set in a finalized version. *)
Definition functionality_enabled (v : AssetClassVersion) (functionality : Z) : Prop :=
  acv_state v = ASSET_CLASS_VERSION_STATE_FINALIZED /\ is_set (acv_mask v) functionality = Ok true.

Definition has_role (r : Roles) (role : Z) : Prop := is_set (r_mask r) role = Ok true.

(** The lien on a token account, read from its hold position. *)
Definition lien (w : World) (hold_position_pda : Pubkey) : Z :=
  match data_of w hold_position_pda with DHoldPosition p => hp_held_amount p | _ => 0 end.

(** The mask of an account that was just created: no bit. *)
Lemma mask_set_zero n : mask_set (zero_mask n) = ∅.
Proof.
  apply set_eq. intros p. rewrite elem_of_mask_set. split; [|set_solver].
  intros [[Hp Hc] Hb]. exfalso. unfold capacity, MASK_CHUNK_BITS in Hc.
  pose proof (Z.div_lt_upper_bound p 8 (Z.of_nat (length (zero_mask n)))).
  pose proof (Z.div_pos p 8). unfold bit, byte_at, zero_mask in *.
  rewrite length_replicate in *. rewrite (list_lookup_total_correct _ _ 0) in Hb.
  - by rewrite Z.testbit_0_l in Hb.
  - apply lookup_replicate_2. lia.
Qed.

Lemma mask_ok_zero n : mask_ok (zero_mask n).
Proof. apply Forall_replicate. unfold u8_ok, U8_MAX. lia. Qed.

#[export] Instance require_active_inv k :
  OkInv (require_active k) (fun w _ w' => data_is_empty (data_of w k) = true /\ w' = w).
Proof. intros w [] w' Hr. unfold require_active in Hr. by inv_ok. Qed.

#[export] Instance require_not_paused_inv k :
  OkInv (require_not_paused k) (fun w _ w' =>
    (exists m, data_of w k = DMint m /\ m_paused m = Some false) /\ w' = w).
Proof.
  intros w [] w' Hr. unfold require_not_paused in Hr. inv_ok. zify_checks. eauto.
Qed.

#[export] Instance require_functionality_inv v f :
  OkInv (require_functionality v f) (fun w _ w' => functionality_enabled v f /\ w' = w).
Proof.
  intros w [] w' Hr. unfold require_functionality, is_functionality_enabled in Hr. inv_ok.
  destruct (_ =? _) eqn:E; [|done]. by zify_checks.
Qed.

#[export] Instance require_role_inv r role :
  OkInv (require_role r role) (fun w _ w' => has_role r role /\ w' = w).
Proof.
  intros w [] w' Hr. unfold require_role in Hr. inv_ok. by zify_checks.
Qed.

#[export] Instance bits_or_inv e r : OkInv (bits_or e r) (fun w mask w' => w' = w /\ r = (mask, Ok tt)).
Proof.
  intros w mask w' Hr. unfold bits_or, lift in Hr. destruct r as [m [[]|]]; simplify_eq. done.
Qed.

#[export] Instance held_amount_inv k :
  OkInv (held_amount k) (fun w n w' => n = lien w k /\ w' = w).
Proof.
  intros w n w' Hr. unfold held_amount in Hr. inv_ok.
  destruct (data_is_empty _) eqn:E; inv_ok; unfold lien.
  - by destruct (data_of _ k).
  - match goal with Hs : stored _ _ _ |- _ => apply stored_data in Hs; by rewrite Hs end.
Qed.

#[export] Instance require_hold_covered_inv t k amount :
  OkInv (require_hold_covered t k amount) (fun w _ w' =>
    (exists s, data_of w t = DToken s /\ lien w k + amount <= t_amount s) /\ w' = w).
Proof.
  intros w [] w' Hr. unfold require_hold_covered in Hr. inv_ok. zify_checks.
  eauto.
Qed.

#[export] Instance operation_guards_inv r m d v role f :
  OkInv (operation_guards r m d v role f) (fun w _ w' =>
    w' = w /\ operation_allowed w r m d v role f).
Proof.
  intros w [] w' Hr. unfold operation_guards in Hr. inv_ok. unfold functionality_enabled in *.
  unfold operation_allowed. split_and!; eauto.
Qed.

Section inversion.
Context `{Rt : SolanaRuntime} `{Laws : !RuntimeLaws}.

#[export] Instance verify_control_list_pda_inv k dest mint :
  OkInv (verify_control_list_pda k dest mint) (fun w _ w' =>
    k = pda (control_list_seeds mint dest) TRANSFER_CONTROL_PROGRAM_ID /\ w' = w).
Proof. intros w [] w' Hr. unfold verify_control_list_pda in Hr. inv_ok. by zify_checks. Qed.

#[export] Instance require_hold_covered_unverified_pda_inv t k mint amount :
  OkInv (require_hold_covered_unverified_pda t k mint amount) (fun w _ w' =>
    k = pda (hold_position_seeds mint t) HOLD_PROGRAM_ID /\
    (exists s, data_of w t = DToken s /\ lien w k + amount <= t_amount s) /\ w' = w).
Proof.
  intros w [] w' Hr. unfold require_hold_covered_unverified_pda in Hr. inv_ok. zify_checks. eauto.
Qed.

#[export] Instance asset_configuration_constraint_inv k mint c :
  OkInv (asset_configuration_constraint k mint c) (fun w _ w' =>
    pda_at (asset_configuration_seeds mint) DEPLOY_PROGRAM_ID k /\ w' = w).
Proof. intros w [] w' Hr. unfold asset_configuration_constraint in Hr. by inv_ok. Qed.

#[export] Instance asset_class_version_constraint_inv k c :
  OkInv (asset_class_version_constraint k c) (fun w _ w' =>
    pda_at (asset_class_version_seeds (ac_asset_class_config_id c) (ac_asset_class_version_id c))
      FACTORY_PROGRAM_ID k /\ w' = w).
Proof. intros w [] w' Hr. unfold asset_class_version_constraint in Hr. by inv_ok. Qed.

#[export] Instance roles_constraint_inv k mint authority :
  OkInv (roles_constraint k mint authority) (fun w _ w' =>
    pda_at (roles_seeds mint authority) ACCESS_CONTROL_PROGRAM_ID k /\ w' = w).
Proof. intros w [] w' Hr. unfold roles_constraint in Hr. by inv_ok. Qed.

#[export] Instance deactivate_constraint_inv k mint :
  OkInv (deactivate_constraint k mint) (fun w _ w' =>
    k = pda (deactivate_seeds mint) DEACTIVATE_PROGRAM_ID /\ w' = w).
Proof. intros w [] w' Hr. unfold deactivate_constraint in Hr. by inv_ok. Qed.

#[export] Instance hold_position_constraint_inv k mint t :
  OkInv (hold_position_constraint k mint t) (fun w _ w' =>
    k = pda (hold_position_seeds mint t) HOLD_PROGRAM_ID /\ w' = w).
Proof. intros w [] w' Hr. unfold hold_position_constraint in Hr. by inv_ok. Qed.
End inversion.

(** The guards passed after the account [k] was created: they held before. *)
Lemma operation_allowed_created w w1 k n rk m dk vk role f :
  0 < n -> data_of w1 k = DZeroed n -> (forall j, j <> k -> State.account w1 j = State.account w j) ->
  operation_allowed w1 rk m dk vk role f -> operation_allowed w rk m dk vk role f.
Proof.
  intros Hn Hk Hj ((r & Hr & Hb) & (ms & Hm & Hp) & Hd & v & Hv & Hf).
  assert (Hne : forall j, data_is_empty (data_of w1 j) = true \/
      (forall z, data_of w1 j <> DZeroed z) -> State.account w j = State.account w1 j).
  { intros j Hd'. symmetry. apply Hj. intros ->. rewrite Hk in Hd'. simpl in Hd'.
    destruct Hd' as [E%Z.eqb_eq|E]; [lia|by eapply E]. }
  unfold operation_allowed, stored, data_of in *. split_and!.
  - exists r. rewrite Hne; [done|right]. unfold data_of. by rewrite Hr.
  - exists ms. rewrite Hne; [done|right]. unfold data_of. by rewrite Hm.
  - rewrite Hne; [done|by left].
  - exists v. rewrite Hne; [done|right]. unfold data_of. by rewrite Hv.
Qed.

Section actors.
Context `{Rt : SolanaRuntime}.

(** [authority] signed and holds [role] on [mint]. *)
Definition holder_of (w : World) (signers : list Pubkey) (mint authority : Pubkey) (role : Z) : Prop :=
  authority ∈ signers /\ exists k (r : Roles),
    pda_at (roles_seeds mint authority) ACCESS_CONTROL_PROGRAM_ID k /\ stored w k r /\ has_role r role.

(** The mint was not deactivated. *)
Definition active_mint (w : World) (mint : Pubkey) : Prop :=
  data_is_empty (data_of w (pda (deactivate_seeds mint) DEACTIVATE_PROGRAM_ID)) = true.

(** The mint is not paused. *)
Definition running (w : World) (mint : Pubkey) : Prop :=
  exists m, data_of w mint = DMint m /\ m_paused m = Some false.

Lemma allowed_actor w signers rk mint authority dk vk role f :
  authority ∈ signers -> pda_at (roles_seeds mint authority) ACCESS_CONTROL_PROGRAM_ID rk ->
  dk = pda (deactivate_seeds mint) DEACTIVATE_PROGRAM_ID -> operation_allowed w rk mint dk vk role f ->
  holder_of w signers mint authority role /\ running w mint /\ active_mint w mint.
Proof.
  intros Hs Hk -> ((r & Hr & Hb) & Hm & Hd & _). split; [|by split].
  split; [done|]. by exists rk, r.
Qed.
End actors.
