(* ===== verification/Sample.v ===== *)
(** * Sample: a deployed mint on the reference runtime

    A small world on which the handlers run: a mint with its asset
    configuration, a finalized asset class version with every functionality, an
    administrator with every role, and two token accounts. *)

From S2P Require Import Prelude.
From S2P Require Import ProgramIds.
From S2P Require Import Bitmask.
From S2P Require Import Errors.
From S2P Require Import State.
From S2P Require Import Runtime.
From S2P Require Import Anchor.
From S2P Require Import Reference.
From S2P Require Import PdaSeeds.
From S2P Require Import Common.

(** ** Running an instruction *)

Definition run_world (m : M unit) (w : World) : World :=
  match m w with Ok (_, w') => w' | Err _ => w end.

Lemma run_ok (m : M unit) w : is_ok (m w) = true -> m w = Ok (tt, run_world m w).
Proof. unfold run_world. by destruct (m w) as [[[] w']|e]. Qed.

(** No account holds data of type [T]. *)
Definition holds_no (T : Type) `{AccountType T} (w : World) : bool :=
  forallb (fun ka => negb (bool_decide (is_Some (at_of_data (T:=T) (acc_data ka.2)))))
    (map_to_list (w_accounts w)).

Lemma holds_no_ok (T : Type) `{AccountType T} w k t :
  at_of_data (T:=T) DEmpty = None -> holds_no T w = true -> at_of_data (data_of w k) <> Some t.
Proof.
  unfold holds_no, data_of, account. intros He Hw Ht. rewrite forallb_forall in Hw.
  destruct (w_accounts w !! k) as [a|] eqn:E; simpl in *; [|congruence].
  specialize (Hw (k, a)). apply elem_of_map_to_list, list_elem_of_In in E.
  apply Hw, negb_true_iff, bool_decide_eq_false in E. simpl in E. rewrite Ht in E. eauto.
Qed.

(** The accounts of type [T] are among [ks]. *)
Definition only_at (T : Type) `{AccountType T} (ks : list Pubkey) (w : World) : bool :=
  forallb (fun ka => negb (bool_decide (is_Some (at_of_data (T:=T) (acc_data ka.2)))) ||
    existsb (N.eqb ka.1) ks) (map_to_list (w_accounts w)).

Lemma only_at_ok (T : Type) `{AccountType T} ks w k t :
  at_of_data (T:=T) DEmpty = None -> only_at T ks w = true -> at_of_data (data_of w k) = Some t ->
  k ∈ ks.
Proof.
  unfold only_at, data_of, account. intros He Hw Ht. rewrite forallb_forall in Hw.
  destruct (w_accounts w !! k) as [a|] eqn:E; simpl in *; [|congruence].
  specialize (Hw (k, a)). apply elem_of_map_to_list, list_elem_of_In in E.
  apply Hw, orb_true_iff in E as [E|E]; simpl in E.
  - apply negb_true_iff, bool_decide_eq_false in E. rewrite Ht in E. exfalso. eauto.
  - apply existsb_exists in E as (j & Hj & ->%N.eqb_eq). by apply list_elem_of_In.
Qed.

(** ** The world *)

Definition MINT : Pubkey := 500.
Definition ADMIN : Pubkey := 1001.
Definition ALICE : Pubkey := 1002.
Definition BOB : Pubkey := 1003.
Definition TOKEN_A : Pubkey := 2001.
Definition TOKEN_B : Pubkey := 2002.

Definition full_mask : list Z := replicate 1024 255.
Definition ref_pda (seeds : list Seed) (program : Pubkey) : Pubkey := pda seeds program.

Definition SAMPLE_CONFIG : Pubkey := Eval vm_compute in ref_pda (asset_configuration_seeds MINT) DEPLOY_PROGRAM_ID.
Definition SAMPLE_VERSION : Pubkey := Eval vm_compute in ref_pda (asset_class_version_seeds 1 1) FACTORY_PROGRAM_ID.
Definition SAMPLE_ROLES : Pubkey := Eval vm_compute in ref_pda (roles_seeds MINT ADMIN) ACCESS_CONTROL_PROGRAM_ID.
Definition SAMPLE_DEACTIVATE : Pubkey := Eval vm_compute in ref_pda (deactivate_seeds MINT) DEACTIVATE_PROGRAM_ID.

Definition no_authorities : MintAuthorities := mkMintAuthorities None None None None None None None None.
Definition sample_metadata : TokenMetadata := mkTokenMetadata None MINT "Bond" "BND" "ipfs://b" [("isin", "ES01"); ("desk", "7")].
Definition sample_mint : MintState :=
  mkMintState 1000 2 (Some false) (Some TRANSFER_HOOK_PROGRAM_ID) no_authorities (Some sample_metadata) 500.
Definition sample_token (owner : Pubkey) (amount : Z) : TokenState :=
  mkTokenState MINT owner amount (Some false) 200.

Definition sample_world : World := {|
  w_lamports := <[ADMIN := 10 ^ 12]> (<[ALICE := 10 ^ 12]> (<[BOB := 10 ^ 12]> ∅));
  w_accounts :=
    <[SAMPLE_CONFIG := mkAccount DEPLOY_PROGRAM_ID (DAssetConfiguration (mkAssetConfiguration 1 1 255))]>
    (<[SAMPLE_VERSION := mkAccount FACTORY_PROGRAM_ID
         (DAssetClassVersion (mkAssetClassVersion 1 1 ASSET_CLASS_VERSION_STATE_FINALIZED 255 full_mask))]>
    (<[SAMPLE_ROLES := mkAccount ACCESS_CONTROL_PROGRAM_ID (DRoles (mkRoles 255 full_mask))]>
    (<[MINT := mkAccount TOKEN_2022_PROGRAM_ID (DMint sample_mint)]>
    (<[TOKEN_A := mkAccount TOKEN_2022_PROGRAM_ID (DToken (sample_token ALICE 700))]>
    (<[TOKEN_B := mkAccount TOKEN_2022_PROGRAM_ID (DToken (sample_token BOB 300))]> ∅)))));
  w_now := 1000000;
  w_events := [] |}.
