(* ===== verification/Freeze.v ===== *)
(** * Freeze: the freeze program ([programs/freeze])

    The state of a frozen token account is one [FreezeState] account at the PDA
    of (mint, token account), created by the first freeze and closed when
    nothing is left frozen.  The eight instructions are the handlers below; the
    theorems relate them to a map from PDAs to freeze statuses. *)

From S2P Require Import Prelude.
From S2P Require Import ProgramIds.
From S2P Require Import Bitmask.
From S2P Require Import Errors.
From S2P Require Import State.
From S2P Require Import Runtime.
From S2P Require Import Anchor.
From S2P Require Import Frame.
From S2P Require Import PdaSeeds.
From S2P Require Import PdaUtils.
From S2P Require Import Common.

(** ** [state.rs] *)

Definition is_partially_frozen (s : FreezeState) : bool := 0 <? fs_frozen_balance s.
Definition is_empty (s : FreezeState) : bool := negb (fs_fully_frozen s) && negb (is_partially_frozen s).

Definition load_freeze_state (freeze_state_pda : Pubkey) : M (option FreezeState) :=
  w ← get;
  if data_is_empty (data_of w freeze_state_pda) then mret None
  else s ← account_try_from FreezeState freeze_state_pda; mret (Some s).

(** ** [lib.rs] *)

Record FreezeStatus : Set := mkFreezeStatus { fully_frozen : bool; frozen_balance : Z }.
Definition default_status : FreezeStatus := mkFreezeStatus false 0.

Definition freeze_status (freeze_state_pda : Pubkey) : M FreezeStatus :=
  s ← load_freeze_state freeze_state_pda;
  mret (match s with
        | Some state => mkFreezeStatus (fs_fully_frozen state) (fs_frozen_balance state)
        | None => default_status
        end).

Definition require_unfrozen_account (freeze_state_pda : Pubkey) : M unit :=
  status ← freeze_status freeze_state_pda;
  require (negb (fully_frozen status)) (EFreeze FreezeError.AccountFrozen).

Definition token_balance (token_account : Pubkey) : M Z :=
  token_state ← unpack_token token_account (EFreeze FreezeError.InsufficientUnfrozenBalance);
  mret (t_amount token_state).

Definition require_unfrozen_balance (amount : Z) (token_account freeze_state_pda : Pubkey) : M unit :=
  balance ← token_balance token_account;
  status ← freeze_status freeze_state_pda;
  let available := saturating_sub_u64 balance (frozen_balance status) in
  require (amount <=? available) (EFreeze FreezeError.InsufficientUnfrozenBalance).

Definition require_locked_balance_covered (token_account : Pubkey) (total_locked : Z) : M unit :=
  balance ← token_balance token_account;
  require (total_locked <=? balance) (EFreeze FreezeError.InsufficientUnfrozenBalance).

Definition require_frozen_balance_covered (token_account freeze_state_pda : Pubkey) : M unit :=
  status ← freeze_status freeze_state_pda;
  require_locked_balance_covered token_account (frozen_balance status).

(** ** Accounts of the instructions *)

(** [FreezeAccount], [FreezeAccountPartial], [UnfreezeAccount], [UnfreezeAccountPartial] *)
Record FreezeAccount : Set := mkFreezeAccount {
  fa_authority : Pubkey;
  fa_authority_roles_pda : Pubkey;
  fa_asset_configuration_pda : Pubkey;
  fa_mint : Pubkey;
  fa_account : Pubkey;
  fa_deactivate_pda : Pubkey;
  fa_freeze_state_pda : Pubkey;
  fa_asset_class_version_pda : Pubkey }.

(** The four batch structs; the token accounts and their PDAs come as [remaining_accounts]. *)
Record BatchFreezeAccount : Set := mkBatchFreezeAccount {
  bf_authority : Pubkey;
  bf_authority_roles_pda : Pubkey;
  bf_asset_configuration_pda : Pubkey;
  bf_mint : Pubkey;
  bf_deactivate_pda : Pubkey;
  bf_asset_class_version_pda : Pubkey }.

Section instructions.
Context `{Rt : SolanaRuntime}.

(** Fields are read first, then the PDA is created when it does not exist, then the
    constraints of the other fields are checked, each in declaration order.  The bump of the freeze state is
    [ctx.bumps.freeze_state_pda]. *)
Definition FreezeAccount_try_accounts (signers : list Pubkey) (a : FreezeAccount) :
    M (FreezeState * Z) :=
  signer signers (fa_authority a);;
  loader_load Roles (fa_authority_roles_pda a);;
  asset_configuration ← account_try_from AssetConfiguration (fa_asset_configuration_pda a);
  loader_load AssetClassVersion (fa_asset_class_version_pda a);;
  bump ← seeds_check (fa_freeze_state_pda a) (freeze_state_seeds (fa_mint a) (fa_account a))
           FREEZE_PROGRAM_ID;
  freeze_state ← account_init_if_needed FreezeState (fa_authority a) (fa_freeze_state_pda a) signers;
  roles_constraint (fa_authority_roles_pda a) (fa_mint a) (fa_authority a);;
  asset_configuration_constraint (fa_asset_configuration_pda a) (fa_mint a) asset_configuration;;
  deactivate_constraint (fa_deactivate_pda a) (fa_mint a);;
  asset_class_version_constraint (fa_asset_class_version_pda a) asset_configuration;;
  mret (freeze_state, bump).

Definition FreezeAccountPartial_try_accounts := FreezeAccount_try_accounts.

Definition UnfreezeAccount_try_accounts (signers : list Pubkey) (a : FreezeAccount) : M FreezeState :=
  signer signers (fa_authority a);;
  loader_load Roles (fa_authority_roles_pda a);;
  asset_configuration ← account_try_from AssetConfiguration (fa_asset_configuration_pda a);
  freeze_state ← account_try_from FreezeState (fa_freeze_state_pda a);
  loader_load AssetClassVersion (fa_asset_class_version_pda a);;
  roles_constraint (fa_authority_roles_pda a) (fa_mint a) (fa_authority a);;
  asset_configuration_constraint (fa_asset_configuration_pda a) (fa_mint a) asset_configuration;;
  deactivate_constraint (fa_deactivate_pda a) (fa_mint a);;
  seeds_bump_check (fa_freeze_state_pda a) (freeze_state_seeds (fa_mint a) (fa_account a))
    FREEZE_PROGRAM_ID (fs_bump freeze_state);;
  asset_class_version_constraint (fa_asset_class_version_pda a) asset_configuration;;
  mret freeze_state.

Definition UnfreezeAccountPartial_try_accounts := UnfreezeAccount_try_accounts.

Definition BatchFreezeAccount_try_accounts (signers : list Pubkey) (a : BatchFreezeAccount) : M unit :=
  signer signers (bf_authority a);;
  loader_load Roles (bf_authority_roles_pda a);;
  asset_configuration ← account_try_from AssetConfiguration (bf_asset_configuration_pda a);
  loader_load AssetClassVersion (bf_asset_class_version_pda a);;
  roles_constraint (bf_authority_roles_pda a) (bf_mint a) (bf_authority a);;
  asset_configuration_constraint (bf_asset_configuration_pda a) (bf_mint a) asset_configuration;;
  deactivate_constraint (bf_deactivate_pda a) (bf_mint a);;
  asset_class_version_constraint (bf_asset_class_version_pda a) asset_configuration.

Definition BatchFreezeAccountPartial_try_accounts := BatchFreezeAccount_try_accounts.
Definition BatchUnfreezeAccount_try_accounts := BatchFreezeAccount_try_accounts.
Definition BatchUnfreezeAccountPartial_try_accounts := BatchFreezeAccount_try_accounts.

Definition account_guards (a : FreezeAccount) (functionality : Z) : M unit :=
  operation_guards (fa_authority_roles_pda a) (fa_mint a) (fa_deactivate_pda a)
    (fa_asset_class_version_pda a) ROLE_FREEZE_MANAGER functionality.
Definition batch_guards (a : BatchFreezeAccount) (functionality : Z) : M unit :=
  operation_guards (bf_authority_roles_pda a) (bf_mint a) (bf_deactivate_pda a)
    (bf_asset_class_version_pda a) ROLE_FREEZE_MANAGER functionality.

Definition set_fully_frozen (b : bool) (s : FreezeState) : FreezeState :=
  mkFreezeState b (fs_frozen_balance s) (fs_bump s).
Definition set_frozen_balance (n : Z) (s : FreezeState) : FreezeState :=
  mkFreezeState (fs_fully_frozen s) n (fs_bump s).
Definition set_bump (b : Z) (s : FreezeState) : FreezeState :=
  mkFreezeState (fs_fully_frozen s) (fs_frozen_balance s) b.

(** ** Handlers *)

Definition freeze_account (signers : list Pubkey) (a : FreezeAccount) : M unit :=
  '(freeze_state, bump) ← FreezeAccount_try_accounts signers a;
  account_guards a FREEZE_FREEZE_ACCOUNT;;
  require (negb (fs_fully_frozen freeze_state)) (EFreeze FreezeError.AccountFrozen);;
  let freeze_state := set_bump bump (set_fully_frozen true freeze_state) in
  emit_cpi (EvFreeze (AccountFrozen (fa_mint a) (fa_account a) (fa_authority a)));;
  account_exit (fa_freeze_state_pda a) freeze_state.

Definition freeze_account_partial (signers : list Pubkey) (a : FreezeAccount) (balance : Z) : M unit :=
  '(freeze_state, bump) ← FreezeAccountPartial_try_accounts signers a;
  account_guards a FREEZE_PARTIALLY_FREEZE_ACCOUNT;;
  require (0 <? balance) (EFreeze FreezeError.InvalidFreezeAmount);;
  let freeze_state := set_bump bump (set_frozen_balance balance freeze_state) in
  emit_cpi (EvFreeze (AccountPartiallyFrozen (fa_mint a) (fa_account a) balance (fa_authority a)));;
  account_exit (fa_freeze_state_pda a) freeze_state.

(** [if freeze_state.is_empty() { freeze_state.close(authority)? }], then the write-back, which
    Anchor skips for a closed account. *)
Definition unfreeze_account (signers : list Pubkey) (a : FreezeAccount) : M unit :=
  freeze_state ← UnfreezeAccount_try_accounts signers a;
  account_guards a FREEZE_UNFREEZE_ACCOUNT;;
  require (fs_fully_frozen freeze_state) (EFreeze FreezeError.AccountNotFrozen);;
  let freeze_state := set_fully_frozen false freeze_state in
  let closed := is_empty freeze_state in
  (if closed then account_close FREEZE_PROGRAM_ID (fa_freeze_state_pda a) (fa_authority a)
   else mret tt);;
  emit_cpi (EvFreeze (AccountUnfrozen (fa_mint a) (fa_account a) (fa_authority a)));;
  (if closed then mret tt else account_exit (fa_freeze_state_pda a) freeze_state).

Definition unfreeze_account_partial (signers : list Pubkey) (a : FreezeAccount) : M unit :=
  freeze_state ← UnfreezeAccountPartial_try_accounts signers a;
  account_guards a FREEZE_REMOVE_PARTIAL_FREEZE;;
  require (is_partially_frozen freeze_state) (EFreeze FreezeError.AccountNotPartiallyFrozen);;
  let freeze_state := set_frozen_balance 0 freeze_state in
  let closed := is_empty freeze_state in
  (if closed then account_close FREEZE_PROGRAM_ID (fa_freeze_state_pda a) (fa_authority a)
   else mret tt);;
  emit_cpi (EvFreeze (AccountPartialFreezeRemoved (fa_mint a) (fa_account a) (fa_authority a)));;
  (if closed then mret tt else account_exit (fa_freeze_state_pda a) freeze_state).

(** The state at [freeze_state_pda], created when it does not exist. *)
Definition load_or_create (signers : list Pubkey) (authority mint account freeze_state_pda : Pubkey) :
    M FreezeState :=
  let seeds := freeze_state_seeds mint account in
  require (N.eqb freeze_state_pda (pda seeds FREEZE_PROGRAM_ID))
    (EFreeze FreezeError.FreezeStatePdaMismatch);;
  let bump := pda_bump seeds FREEZE_PROGRAM_ID in
  existing ← load_freeze_state freeze_state_pda;
  match existing with
  | Some existing => mret existing
  | None =>
      create_or_adopt_pda signers authority freeze_state_pda FREEZE_PROGRAM_ID
        (at_space (T:=FreezeState)) (build_pda_signer_seeds seeds bump);;
      mret (mkFreezeState false 0 bump)
  end.

Definition batch_freeze_account (signers : list Pubkey) (a : BatchFreezeAccount)
    (remaining_accounts : list Pubkey) : M unit :=
  BatchFreezeAccount_try_accounts signers a;;
  require (negb (bool_decide (remaining_accounts = []))) (EFreeze FreezeError.EmptyBatch);;
  require (Nat.even (length remaining_accounts)) (EFreeze FreezeError.InvalidRemainingAccounts);;
  batch_guards a FREEZE_FREEZE_ACCOUNT;;
  for_each (pairs remaining_accounts) (fun '(account, freeze_state_pda) =>
    freeze_state ← load_or_create signers (bf_authority a) (bf_mint a) account freeze_state_pda;
    require (negb (fs_fully_frozen freeze_state)) (EFreeze FreezeError.AccountFrozen);;
    serialize_pda freeze_state_pda (set_fully_frozen true freeze_state);;
    emit_cpi (EvFreeze (AccountFrozen (bf_mint a) account (bf_authority a)))).

Definition batch_freeze_account_partial (signers : list Pubkey) (a : BatchFreezeAccount)
    (remaining_accounts : list Pubkey) (balances : list Z) : M unit :=
  BatchFreezeAccountPartial_try_accounts signers a;;
  require (negb (bool_decide (balances = []))) (EFreeze FreezeError.EmptyBatch);;
  require (forallb (fun balance => 0 <? balance) balances) (EFreeze FreezeError.InvalidFreezeAmount);;
  require (bool_decide (length remaining_accounts = length balances * 2)%nat)
    (EFreeze FreezeError.InvalidRemainingAccounts);;
  batch_guards a FREEZE_PARTIALLY_FREEZE_ACCOUNT;;
  for_each (zip balances (pairs remaining_accounts)) (fun '(balance, (account, freeze_state_pda)) =>
    freeze_state ← load_or_create signers (bf_authority a) (bf_mint a) account freeze_state_pda;
    serialize_pda freeze_state_pda (set_frozen_balance balance freeze_state);;
    emit_cpi (EvFreeze (AccountPartiallyFrozen (bf_mint a) account balance (bf_authority a)))).

(** The state at [freeze_state_pda]; [e] when there is none. *)
Definition load_frozen (mint account freeze_state_pda : Pubkey) (e : FreezeError.ErrorCode) :
    M FreezeState :=
  require (N.eqb freeze_state_pda (pda (freeze_state_seeds mint account) FREEZE_PROGRAM_ID))
    (EFreeze FreezeError.FreezeStatePdaMismatch);;
  existing ← load_freeze_state freeze_state_pda;
  lift (ok_or existing (EFreeze e)).

Definition close_or_serialize (authority freeze_state_pda : Pubkey) (freeze_state : FreezeState) : M unit :=
  if is_empty freeze_state then close_pda FREEZE_PROGRAM_ID freeze_state_pda authority
  else serialize_pda freeze_state_pda freeze_state.

Definition batch_unfreeze_account (signers : list Pubkey) (a : BatchFreezeAccount)
    (remaining_accounts : list Pubkey) : M unit :=
  BatchUnfreezeAccount_try_accounts signers a;;
  require (negb (bool_decide (remaining_accounts = []))) (EFreeze FreezeError.EmptyBatch);;
  require (Nat.even (length remaining_accounts)) (EFreeze FreezeError.InvalidRemainingAccounts);;
  batch_guards a FREEZE_UNFREEZE_ACCOUNT;;
  for_each (pairs remaining_accounts) (fun '(account, freeze_state_pda) =>
    freeze_state ← load_frozen (bf_mint a) account freeze_state_pda FreezeError.AccountNotFrozen;
    require (fs_fully_frozen freeze_state) (EFreeze FreezeError.AccountNotFrozen);;
    close_or_serialize (bf_authority a) freeze_state_pda (set_fully_frozen false freeze_state);;
    emit_cpi (EvFreeze (AccountUnfrozen (bf_mint a) account (bf_authority a)))).

Definition batch_unfreeze_account_partial (signers : list Pubkey) (a : BatchFreezeAccount)
    (remaining_accounts : list Pubkey) : M unit :=
  BatchUnfreezeAccountPartial_try_accounts signers a;;
  require (negb (bool_decide (remaining_accounts = []))) (EFreeze FreezeError.EmptyBatch);;
  require (Nat.even (length remaining_accounts)) (EFreeze FreezeError.InvalidRemainingAccounts);;
  batch_guards a FREEZE_REMOVE_PARTIAL_FREEZE;;
  for_each (pairs remaining_accounts) (fun '(account, freeze_state_pda) =>
    freeze_state ← load_frozen (bf_mint a) account freeze_state_pda
                     FreezeError.AccountNotPartiallyFrozen;
    require (is_partially_frozen freeze_state) (EFreeze FreezeError.AccountNotPartiallyFrozen);;
    close_or_serialize (bf_authority a) freeze_state_pda (set_frozen_balance 0 freeze_state);;
    emit_cpi (EvFreeze (AccountPartialFreezeRemoved (bf_mint a) account (bf_authority a)))).
End instructions.

(** ** The program: the instructions of [lib.rs] *)

Inductive FreezeInstruction : Set :=
| IxFreezeAccount (a : FreezeAccount)
| IxBatchFreezeAccount (a : BatchFreezeAccount) (remaining_accounts : list Pubkey)
| IxUnfreezeAccount (a : FreezeAccount)
| IxBatchUnfreezeAccount (a : BatchFreezeAccount) (remaining_accounts : list Pubkey)
| IxFreezeAccountPartial (a : FreezeAccount) (balance : Z)
| IxBatchFreezeAccountPartial (a : BatchFreezeAccount) (remaining_accounts : list Pubkey)
    (balances : list Z)
| IxUnfreezeAccountPartial (a : FreezeAccount)
| IxBatchUnfreezeAccountPartial (a : BatchFreezeAccount) (remaining_accounts : list Pubkey).

Definition freeze `{Rt : SolanaRuntime} (signers : list Pubkey) (ix : FreezeInstruction) : M unit :=
  match ix with
  | IxFreezeAccount a => freeze_account signers a
  | IxBatchFreezeAccount a r => batch_freeze_account signers a r
  | IxUnfreezeAccount a => unfreeze_account signers a
  | IxBatchUnfreezeAccount a r => batch_unfreeze_account signers a r
  | IxFreezeAccountPartial a n => freeze_account_partial signers a n
  | IxBatchFreezeAccountPartial a r ns => batch_freeze_account_partial signers a r ns
  | IxUnfreezeAccountPartial a => unfreeze_account_partial signers a
  | IxBatchUnfreezeAccountPartial a r => batch_unfreeze_account_partial signers a r
  end.
