(* ===== verification/FreezeProofs.v ===== *)
(** * FreezeProofs: the freeze program refines a map of freeze statuses

    [statuses] reads the map from (mint, token account) to freeze statuses out of
    a world; each operation of the abstract map has a precondition and an effect
    on one entry.  Every instruction, batches
    included, is a sequence of abstract operations. *)

From S2P Require Import Prelude.
From S2P Require Import ProgramIds.
From S2P Require Import Bitmask.
From S2P Require Import Errors.
From S2P Require Import State.
From S2P Require Import Runtime.
From S2P Require Import Anchor.
From S2P Require Import Frame.
From S2P Require Import PdaSeeds.
From S2P Require Import PdaUtils.
From S2P Require Import Common.
From S2P Require Import Reference.
From S2P Require Import Sample.
From S2P Require Import Freeze.

(** ** The abstract map *)

Definition freeze_state_of (w : World) (k : Pubkey) : option FreezeState :=
  at_of_data (T:=FreezeState) (data_of w k).

Definition status (w : World) (k : Pubkey) : FreezeStatus :=
  match freeze_state_of w k with
  | Some s => mkFreezeStatus (fs_fully_frozen s) (fs_frozen_balance s)
  | None => default_status
  end.

Inductive FreezeOp : Set := OpFreeze | OpUnfreeze | OpFreezePartial (n : Z) | OpUnfreezePartial.

Definition op_pre (op : FreezeOp) (s : FreezeStatus) : Prop :=
  match op with
  | OpFreeze => fully_frozen s = false
  | OpUnfreeze => fully_frozen s = true
  | OpFreezePartial n => 0 < n
  | OpUnfreezePartial => 0 < frozen_balance s
  end.

Definition op_post (op : FreezeOp) (s : FreezeStatus) : FreezeStatus :=
  match op with
  | OpFreeze => mkFreezeStatus true (frozen_balance s)
  | OpUnfreeze => mkFreezeStatus false (frozen_balance s)
  | OpFreezePartial n => mkFreezeStatus (fully_frozen s) n
  | OpUnfreezePartial => mkFreezeStatus (fully_frozen s) 0
  end.

(** The entries are those of the token accounts of the mints. *)
Definition Entry : Type := Pubkey * Pubkey.

Definition abs_step (t : Entry) (op : FreezeOp) (m m' : Entry -> FreezeStatus) : Prop :=
  op_pre op (m t) /\ m' t = op_post op (m t) /\ forall j, j <> t -> m' j = m j.

Fixpoint abs_run (ops : list (Entry * FreezeOp)) (m m' : Entry -> FreezeStatus) : Prop :=
  match ops with
  | [] => forall t, m' t = m t
  | (t, op) :: ops => exists m1, abs_step t op m m1 /\ abs_run ops m1 m'
  end.

(** What an instruction does to the map; the token accounts of a batch come in pairs with their PDAs. *)
Definition freeze_ops (ix : FreezeInstruction) : list (Entry * FreezeOp) :=
  match ix with
  | IxFreezeAccount a => [((fa_mint a, fa_account a), OpFreeze)]
  | IxBatchFreezeAccount a r => (fun p => ((bf_mint a, p.1), OpFreeze)) <$> pairs r
  | IxUnfreezeAccount a => [((fa_mint a, fa_account a), OpUnfreeze)]
  | IxBatchUnfreezeAccount a r => (fun p => ((bf_mint a, p.1), OpUnfreeze)) <$> pairs r
  | IxFreezeAccountPartial a n => [((fa_mint a, fa_account a), OpFreezePartial n)]
  | IxBatchFreezeAccountPartial a r ns =>
      (fun p => ((bf_mint a, p.2.1), OpFreezePartial p.1)) <$> zip ns (pairs r)
  | IxUnfreezeAccountPartial a => [((fa_mint a, fa_account a), OpUnfreezePartial)]
  | IxBatchUnfreezeAccountPartial a r => (fun p => ((bf_mint a, p.1), OpUnfreezePartial)) <$> pairs r
  end.

(** The mint an instruction is about, and who orders it. *)
Definition freeze_mint (ix : FreezeInstruction) : Pubkey :=
  match ix with
  | IxFreezeAccount a | IxUnfreezeAccount a | IxFreezeAccountPartial a _ | IxUnfreezeAccountPartial a => fa_mint a
  | IxBatchFreezeAccount a _ | IxBatchUnfreezeAccount a _ | IxBatchFreezeAccountPartial a _ _
  | IxBatchUnfreezeAccountPartial a _ => bf_mint a
  end.
Definition freeze_actor (ix : FreezeInstruction) : Pubkey :=
  match ix with
  | IxFreezeAccount a | IxUnfreezeAccount a | IxFreezeAccountPartial a _ | IxUnfreezeAccountPartial a =>
      fa_authority a
  | IxBatchFreezeAccount a _ | IxBatchUnfreezeAccount a _ | IxBatchFreezeAccountPartial a _ _
  | IxBatchUnfreezeAccountPartial a _ => bf_authority a
  end.

(** The amounts of an instruction are [u64]. *)
Definition freeze_args_ok (ix : FreezeInstruction) : Prop :=
  match ix with
  | IxFreezeAccountPartial _ n => u64_ok n
  | IxBatchFreezeAccountPartial _ _ ns => Forall u64_ok ns
  | _ => True
  end.

Section invariant.
Context `{Rt : SolanaRuntime}.

Definition freeze_pda (mint token : Pubkey) : Pubkey :=
  pda (freeze_state_seeds mint token) FREEZE_PROGRAM_ID.

(** The statuses of the token accounts of the mints, read at their PDAs. *)
Definition statuses (w : World) (t : Entry) : FreezeStatus := status w (freeze_pda t.1 t.2).

(** Every freeze state sits at the canonical PDA of a token account, and records something. *)
Definition freeze_inv (w : World) : Prop :=
  forall k s, freeze_state_of w k = Some s ->
    u64_ok (fs_frozen_balance s) /\ is_empty s = false /\ exists mint account, k = freeze_pda mint account.

(** A freeze manager of the mint signed, and the mint is in operation. *)
Definition freeze_allowed (signers : list Pubkey) (mint authority : Pubkey) (w : World) : Prop :=
  holder_of w signers mint authority ROLE_FREEZE_MANAGER /\ running w mint /\ active_mint w mint.
End invariant.

(** ** Updates of one account *)

Lemma freeze_state_of_set_account k a w j :
  freeze_state_of (set_account k a w) j =
    if decide (k = j) then at_of_data (T:=FreezeState) (acc_data a) else freeze_state_of w j.
Proof. unfold freeze_state_of, data_of. rewrite account_set_account. by case_decide. Qed.

Lemma freeze_state_of_accounts w w' j :
  account w' j = account w j -> freeze_state_of w' j = freeze_state_of w j.
Proof. unfold freeze_state_of, data_of. by intros ->. Qed.

Section updates.
Context `{Rt : SolanaRuntime} `{Laws : !RuntimeLaws}.

(** [w'] is [w] with the freeze state of [k] set to [o], as far as freeze states go. *)
Definition updated (k : Pubkey) (o : option FreezeState) (w w' : World) : Prop :=
  freeze_state_of w' k = o /\ forall j, j <> k -> freeze_state_of w' j = freeze_state_of w j.

Lemma updated_set_account k a w :
  updated k (at_of_data (T:=FreezeState) (acc_data a)) w (set_account k a w).
Proof.
  split; [|intros j Hj]; rewrite freeze_state_of_set_account; by case_decide.
Qed.

Lemma updated_trans k o1 o2 w1 w2 w3 :
  updated k o1 w1 w2 -> updated k o2 w2 w3 -> updated k o2 w1 w3.
Proof. intros [_ H1] [H2 H3]. split; [done|]. intros j Hj. by rewrite H3, H1. Qed.

Lemma freeze_pda_inj t t' : freeze_pda t.1 t.2 = freeze_pda t'.1 t'.2 -> t = t'.
Proof. destruct t, t'. intros [[= -> ->] _]%pda_inj. done. Qed.

(** A freeze state found at an address derived from the seeds is at the canonical one. *)
Lemma freeze_canonical mint account k s w :
  freeze_inv w -> freeze_state_of w k = Some s ->
  pda_at (freeze_state_seeds mint account) FREEZE_PROGRAM_ID k -> k = freeze_pda mint account.
Proof.
  intros Hinv Hs Hk. destruct (Hinv _ _ Hs) as (_ & _ & m & x & ->).
  destruct (pda_at_inj _ _ _ _ _ Hk (pda_at_pda _ _)) as [[= -> ->] _]. done.
Qed.

(** An operation on the entry of [t] that respects the invariant. *)
Definition stepped (t : Entry) (op : FreezeOp) (w w' : World) : Prop :=
  abs_step t op (statuses w) (statuses w') /\ freeze_inv w'.

Lemma stepped_update t op o w w' :
  freeze_inv w -> updated (freeze_pda t.1 t.2) o w w' -> op_pre op (statuses w t) ->
  statuses w' t = op_post op (statuses w t) ->
  (forall s, o = Some s -> u64_ok (fs_frozen_balance s) /\ is_empty s = false) ->
  stepped t op w w'.
Proof.
  intros Hinv [Hk Hj] Hpre Hpost Ho. split; [split_and!; [done|done|]|].
  - intros j Hne. unfold statuses, status. rewrite Hj; [done|]. by intros ?%freeze_pda_inj.
  - intros j s Hs. destruct (decide (j = freeze_pda t.1 t.2)) as [->|Hne].
    + destruct (Ho s) as [? ?]; [congruence|]. split_and!; eauto.
    + apply (Hinv j). by rewrite <- Hj.
Qed.

Lemma status_Some w k s :
  freeze_state_of w k = Some s -> status w k = mkFreezeStatus (fs_fully_frozen s) (fs_frozen_balance s).
Proof. unfold status. by intros ->. Qed.
Lemma status_None w k : freeze_state_of w k = None -> status w k = default_status.
Proof. unfold status. by intros ->. Qed.

Lemma stored_freeze_state w k (s : FreezeState) : stored w k s -> freeze_state_of w k = Some s.
Proof. intros H%stored_data. unfold freeze_state_of. by rewrite H. Qed.

Lemma empty_freeze_state w k : data_is_empty (data_of w k) = true -> freeze_state_of w k = None.
Proof. unfold freeze_state_of. by destruct (data_of w k). Qed.

(** [s] is the state found or created at [k]: what [w] records of [k]. *)
Definition found (w : World) (k : Pubkey) (s : FreezeState) : Prop :=
  status w k = mkFreezeStatus (fs_fully_frozen s) (fs_frozen_balance s).

Lemma is_empty_false s : is_empty s = false <-> fs_fully_frozen s = true \/ 0 < fs_frozen_balance s.
Proof.
  unfold is_empty, is_partially_frozen. destruct (fs_fully_frozen s), (Z.ltb_spec 0 (fs_frozen_balance s));
    simpl; split; try done; intuition lia.
Qed.

Lemma is_empty_status s :
  is_empty s = true -> u64_ok (fs_frozen_balance s) ->
  default_status = mkFreezeStatus (fs_fully_frozen s) (fs_frozen_balance s).
Proof.
  unfold is_empty, is_partially_frozen, u64_ok, default_status.
  destruct (fs_fully_frozen s), (Z.ltb_spec 0 (fs_frozen_balance s)); try done.
  intros _ ?. f_equal. lia.
Qed.

Lemma found_ok w k s : freeze_inv w -> found w k s -> u64_ok (fs_frozen_balance s).
Proof.
  unfold found, status. intros Hinv. destruct (freeze_state_of w k) as [s0|] eqn:E; intros [= H1 H2].
  - apply Hinv in E as [E _]. congruence.
  - unfold u64_ok, U64_MAX. rewrite <- H2. lia.
Qed.
End updates.

(** ** The steps of the handlers *)

Section handlers.
Context `{Rt : SolanaRuntime} `{Laws : !RuntimeLaws}.

Definition same_states (w w' : World) : Prop :=
  forall j, freeze_state_of w' j = freeze_state_of w j.

Lemma same_states_create payer k n space w :
  fresh w k ->
  same_states w (set_account k (mkAccount FREEZE_PROGRAM_ID (DZeroed space)) (move_lamports payer k n w)).
Proof.
  intros [_ Hf] j. rewrite freeze_state_of_set_account. case_decide; [subst|done].
  by rewrite empty_freeze_state.
Qed.

(** What reading or creating the state of [t] gives. *)
Definition opened (t : Entry) (s : FreezeState) (w w' : World) : Prop :=
  same_states w w' /\ found w (freeze_pda t.1 t.2) s.

Lemma opened_step t op s s' w w1 w' :
  freeze_inv w -> opened t s w w1 ->
  op_pre op (mkFreezeStatus (fs_fully_frozen s) (fs_frozen_balance s)) ->
  mkFreezeStatus (fs_fully_frozen s') (fs_frozen_balance s') =
    op_post op (mkFreezeStatus (fs_fully_frozen s) (fs_frozen_balance s)) ->
  u64_ok (fs_frozen_balance s') ->
  updated (freeze_pda t.1 t.2) (if is_empty s' then None else Some s') w1 w' -> stepped t op w w'.
Proof.
  intros Hinv [Hsame Hf] Hpre Hpost Hok [Hu1 Hu2].
  assert (Hu : updated (freeze_pda t.1 t.2) (if is_empty s' then None else Some s') w w').
  { split; [done|]. intros j Hj. by rewrite Hu2, Hsame. }
  unfold found in Hf. eapply stepped_update; [done|exact Hu|unfold statuses; by rewrite Hf| |].
  - unfold statuses. rewrite Hf, <- Hpost. destruct (is_empty s') eqn:E.
    + rewrite (status_None _ _ Hu1). by apply is_empty_status.
    + by rewrite (status_Some _ _ _ Hu1).
  - intros s0 Hs0. destruct (is_empty s') eqn:E; [done|]. by simplify_eq.
Qed.

Lemma opened_init payer t n w :
  fresh w (freeze_pda t.1 t.2) ->
  opened t (at_zero (T:=FreezeState)) w
    (set_account (freeze_pda t.1 t.2) (mkAccount FREEZE_PROGRAM_ID (DZeroed (at_space (T:=FreezeState))))
      (move_lamports payer (freeze_pda t.1 t.2) n w)).
Proof.
  intros Hf. split; [by apply same_states_create|].
  unfold found. rewrite status_None; [done|]. apply empty_freeze_state, Hf.
Qed.

Lemma opened_stored t s w : stored w (freeze_pda t.1 t.2) s -> opened t s w w.
Proof. intros Hs. split; [done|]. by apply status_Some, stored_freeze_state. Qed.

#[export] Instance account_guards_inv a f :
  OkInv (account_guards a f) (fun w _ w' => w' = w /\
    operation_allowed w (fa_authority_roles_pda a) (fa_mint a) (fa_deactivate_pda a)
      (fa_asset_class_version_pda a) ROLE_FREEZE_MANAGER f).
Proof. apply operation_guards_inv. Qed.

#[export] Instance batch_guards_inv a f :
  OkInv (batch_guards a f) (fun w _ w' => w' = w /\
    operation_allowed w (bf_authority_roles_pda a) (bf_mint a) (bf_deactivate_pda a)
      (bf_asset_class_version_pda a) ROLE_FREEZE_MANAGER f).
Proof. apply operation_guards_inv. Qed.

(** What the accounts of an instruction on one token account establish: the entry was read, and the
    guards passed afterwards held before. *)
Definition entry_read (signers : list Pubkey) (a : FreezeAccount) (s : FreezeState) (w w' : World) : Prop :=
  opened (fa_mint a, fa_account a) s w w' /\
  forall vk f, operation_allowed w' (fa_authority_roles_pda a) (fa_mint a) (fa_deactivate_pda a) vk
    ROLE_FREEZE_MANAGER f -> freeze_allowed signers (fa_mint a) (fa_authority a) w.

#[export] Instance FreezeAccount_try_accounts_inv signers a :
  OkInv (FreezeAccount_try_accounts signers a) (fun w sb w' =>
    fa_freeze_state_pda a = freeze_pda (fa_mint a) (fa_account a) /\ entry_read signers a sb.1 w w').
Proof.
  intros w [s b] w' Hr. unfold FreezeAccount_try_accounts in Hr. inv_ok.
  rename select (_ \/ _) into Hinit. rename select (fa_freeze_state_pda a = _) into Hk.
  fold (freeze_pda (fa_mint a) (fa_account a)) in Hk. split; [done|]. rewrite Hk in *. unfold entry_read.
  destruct Hinit as [(Hf & -> & n & ->)|(_ & Hs & ->)]; (split; [|intros vk f Ha]).
  - exact (opened_init (fa_authority a) (fa_mint a, fa_account a) n w Hf).
  - eapply allowed_actor; [eassumption..|].
    refine (operation_allowed_created _ _ (freeze_pda (fa_mint a) (fa_account a)) (at_space (T:=FreezeState))
      _ _ _ _ _ _ _ _ _ Ha); [reflexivity|unfold data_of; by rewrite account_set_account_eq|].
    intros j Hj. by rewrite account_set_account_ne by (by apply not_eq_sym).
  - by apply opened_stored.
  - by eapply allowed_actor.
Qed.

#[export] Instance UnfreezeAccount_try_accounts_inv signers a :
  OkInv (UnfreezeAccount_try_accounts signers a) (fun w s w' =>
    freeze_inv w -> fa_freeze_state_pda a = freeze_pda (fa_mint a) (fa_account a) /\ entry_read signers a s w w').
Proof.
  intros w s w' Hr Hinv. unfold UnfreezeAccount_try_accounts in Hr. inv_ok.
  match goal with Hs : stored _ (fa_freeze_state_pda a) _, Hk : pda_at (freeze_state_seeds _ _) _ _ |- _ =>
    pose proof (freeze_canonical _ _ _ _ _ Hinv (stored_freeze_state _ _ _ Hs) Hk) as E end.
  split; [done|]. split; [apply opened_stored; simpl; by rewrite <- E|]. intros vk f Ha. by eapply allowed_actor.
Qed.

#[export] Instance BatchFreezeAccount_try_accounts_inv signers a :
  OkInv (BatchFreezeAccount_try_accounts signers a) (fun w s w' =>
    w' = w /\ forall vk f, operation_allowed w (bf_authority_roles_pda a) (bf_mint a) (bf_deactivate_pda a) vk
      ROLE_FREEZE_MANAGER f -> freeze_allowed signers (bf_mint a) (bf_authority a) w).
Proof.
  intros w [] w' Hr. unfold BatchFreezeAccount_try_accounts in Hr. inv_ok. split; [done|].
  intros vk f Ha. by eapply allowed_actor.
Qed.

#[export] Instance load_freeze_state_inv k :
  OkInv (load_freeze_state k) (fun w o w' => w' = w /\
    match o with Some s => stored w k s | None => data_is_empty (data_of w k) = true end).
Proof.
  intros w o w' Hr. unfold load_freeze_state in Hr. inv_ok.
  destruct (data_is_empty _) eqn:E; by inv_ok.
Qed.

Lemma scratches_same_states k w w' :
  freeze_state_of w k = None -> scratches k w w' -> same_states w w'.
Proof.
  intros Hk Hs j. destruct (Hs j) as [E|[-> E]]; unfold freeze_state_of in *.
  - by rewrite E.
  - rewrite Hk. by destruct (data_of w' k).
Qed.

#[export] Instance load_or_create_inv signers authority mint account k :
  OkInv (load_or_create signers authority mint account k) (fun w s w' =>
    k = freeze_pda mint account /\ opened (mint, account) s w w').
Proof.
  intros w s w' Hr. unfold load_or_create in Hr. inv_ok. zify_checks. split; [done|].
  case_match; inv_ok.
  - by apply opened_stored.
  - rename select (data_is_empty _ = true) into He. apply empty_freeze_state in He.
    rename select (create_or_adopt_pda _ _ _ _ _ _ _ = _) into Hc.
    apply create_or_adopt_pda_scratches in Hc.
    split; [by eapply scratches_same_states|by apply status_None].
Qed.

#[export] Instance load_frozen_inv mint account k e :
  OkInv (load_frozen mint account k e) (fun w s w' =>
    k = freeze_pda mint account /\ opened (mint, account) s w w' /\ w' = w).
Proof.
  intros w s w' Hr. unfold load_frozen in Hr. inv_ok. zify_checks. inv_ok.
  split_and!; [done| |done]. by apply opened_stored.
Qed.

Lemma updated_write k a o w w0 :
  (forall j, account w0 j = account w j) -> o = at_of_data (T:=FreezeState) (acc_data a) ->
  updated k o w (set_account k a w0).
Proof.
  intros Ha ->. destruct (updated_set_account k a w0) as [H1 H2]. split; [done|].
  intros j Hj. rewrite H2 by done. by apply freeze_state_of_accounts.
Qed.

#[export] Instance close_or_serialize_inv authority k s :
  OkInv (close_or_serialize authority k s) (fun w _ w' =>
    updated k (if is_empty s then None else Some s) w w').
Proof.
  intros w [] w' Hr. unfold close_or_serialize in Hr. destruct (is_empty s).
  - apply ok_inv in Hr as (_ & _ & _ & n & ->).
    by apply updated_write.
  - apply ok_inv in Hr as (_ & _ & ->). by apply updated_write.
Qed.
End handlers.

Section steps.
Context `{Rt : SolanaRuntime} `{Laws : !RuntimeLaws}.

Lemma freeze_account_step signers a w w' :
  freeze_inv w -> freeze_account signers a w = Ok (tt, w') ->
  freeze_allowed signers (fa_mint a) (fa_authority a) w /\ stepped (fa_mint a, fa_account a) OpFreeze w w'.
Proof.
  intros Hinv Hr. unfold freeze_account in Hr.
  apply bind_ok in Hr as ([s b] & w1 & (Ek & Ho & Hg)%ok_inv & Hr). rewrite Ek in Hr. inv_ok. zify_checks.
  split; [by eapply Hg|].
  eapply (opened_step _ OpFreeze _ (set_bump _ (set_fully_frozen true _)));
    [done|exact Ho|done|done| |by apply updated_write].
  simpl. eapply found_ok; [exact Hinv|apply Ho].
Qed.

Lemma freeze_account_partial_step signers a n w w' :
  u64_ok n -> freeze_inv w -> freeze_account_partial signers a n w = Ok (tt, w') ->
  freeze_allowed signers (fa_mint a) (fa_authority a) w /\
  stepped (fa_mint a, fa_account a) (OpFreezePartial n) w w'.
Proof.
  intros Hn Hinv Hr. unfold freeze_account_partial, FreezeAccountPartial_try_accounts in Hr.
  apply bind_ok in Hr as ([s b] & w1 & (Ek & Ho & Hg)%ok_inv & Hr). rewrite Ek in Hr. inv_ok. zify_checks.
  split; [by eapply Hg|].
  eapply (opened_step _ (OpFreezePartial n) _ (set_bump _ (set_frozen_balance n _)));
    [done|exact Ho|done|done|done|].
  replace (is_empty _) with false; [by apply updated_write|].
  symmetry. apply is_empty_false. by right.
Qed.

Lemma unfreeze_account_step signers a w w' :
  freeze_inv w -> unfreeze_account signers a w = Ok (tt, w') ->
  freeze_allowed signers (fa_mint a) (fa_authority a) w /\ stepped (fa_mint a, fa_account a) OpUnfreeze w w'.
Proof.
  intros Hinv Hr. unfold unfreeze_account in Hr.
  apply bind_ok in Hr as (s & w1 & Ht%ok_inv & Hr). destruct (Ht Hinv) as (Ek & Ho & Hg).
  rewrite Ek in Hr. inv_ok. zify_checks. split; [by eapply Hg|].
  eapply (opened_step _ OpUnfreeze _ (set_fully_frozen false _)); [done|exact Ho|done|done| |].
  - simpl. eapply found_ok; [exact Hinv|apply Ho].
  - destruct (is_empty _); inv_ok; by apply updated_write.
Qed.

Lemma unfreeze_account_partial_step signers a w w' :
  freeze_inv w -> unfreeze_account_partial signers a w = Ok (tt, w') ->
  freeze_allowed signers (fa_mint a) (fa_authority a) w /\
  stepped (fa_mint a, fa_account a) OpUnfreezePartial w w'.
Proof.
  intros Hinv Hr. unfold unfreeze_account_partial, UnfreezeAccountPartial_try_accounts in Hr.
  apply bind_ok in Hr as (s & w1 & Ht%ok_inv & Hr). destruct (Ht Hinv) as (Ek & Ho & Hg).
  rewrite Ek in Hr. inv_ok. split; [by eapply Hg|].
  rename select (is_partially_frozen _ = true) into Hp. apply Z.ltb_lt in Hp.
  eapply (opened_step _ OpUnfreezePartial _ (set_frozen_balance 0 _)); [done|exact Ho|done|done|done|].
  destruct (is_empty _); inv_ok; by apply updated_write.
Qed.

(** A batch takes the steps of its elements in order. *)
Lemma for_each_steps {X} (f : X -> Entry * FreezeOp) (body : X -> M unit) xs w w' :
  (forall x w w', x ∈ xs -> freeze_inv w -> body x w = Ok (tt, w') ->
     stepped (f x).1 (f x).2 w w') ->
  freeze_inv w -> for_each xs body w = Ok (tt, w') ->
  abs_run (f <$> xs) (statuses w) (statuses w') /\ freeze_inv w'.
Proof.
  revert w. induction xs as [|x xs IH]; intros w Hb Hinv Hr; simpl in *.
  - inv_ok. done.
  - apply bind_ok in Hr as ([] & w1 & H1 & Hr).
    destruct (Hb x w w1) as [Hs Hinv1]; [left|done|done|].
    destruct (IH w1) as [Hrun Hinv']; [|done|done|].
    { intros y v v' Hy. apply Hb. by right. }
    split; [|done]. destruct (f x) as [t op]. eauto.
Qed.

Lemma single_step t op w w' :
  stepped t op w w' -> abs_run [(t, op)] (statuses w) (statuses w') /\ freeze_inv w'.
Proof. intros [H1 H2]. split; [|done]. simpl. eauto. Qed.

(** What the theorem says of an instruction. *)
Definition freeze_ran (signers : list Pubkey) (ix : FreezeInstruction) (w w' : World) : Prop :=
  freeze_allowed signers (freeze_mint ix) (freeze_actor ix) w /\
  abs_run (freeze_ops ix) (statuses w) (statuses w') /\ freeze_inv w'.

Lemma batch_freeze_account_run signers a r w w' :
  freeze_inv w -> batch_freeze_account signers a r w = Ok (tt, w') ->
  freeze_ran signers (IxBatchFreezeAccount a r) w w'.
Proof.
  intros Hinv Hr. unfold batch_freeze_account in Hr. inv_ok. split; [by eauto|].
  eapply for_each_steps; [|exact Hinv|eassumption].
  intros [acc k] v v' _ Hv Hstep. inv_ok. zify_checks. rename select (opened _ _ _ _) into Ho.
  eapply (opened_step _ OpFreeze _ (set_fully_frozen true _));
    [done|exact Ho|done|done| |by apply updated_write].
  simpl. eapply found_ok; [exact Hv|apply Ho].
Qed.

Lemma batch_freeze_account_partial_run signers a r ns w w' :
  Forall u64_ok ns -> freeze_inv w -> batch_freeze_account_partial signers a r ns w = Ok (tt, w') ->
  freeze_ran signers (IxBatchFreezeAccountPartial a r ns) w w'.
Proof.
  intros Hns Hinv Hr. unfold batch_freeze_account_partial, BatchFreezeAccountPartial_try_accounts in Hr.
  inv_ok. split; [by eauto|]. rename select (forallb _ ns = true) into Hpos. rewrite forallb_forall in Hpos.
  eapply for_each_steps; [|exact Hinv|eassumption].
  intros [n [acc k]] v v' Hin Hv Hstep. inv_ok. zify_checks. rename select (opened _ _ _ _) into Ho.
  apply elem_of_zip_l in Hin. rewrite Forall_forall in Hns.
  assert (Hn : 0 < n) by (apply Z.ltb_lt, Hpos; by apply list_elem_of_In).
  eapply (opened_step _ (OpFreezePartial n) _ (set_frozen_balance n _));
    [done|exact Ho|done|done|by apply Hns|].
  replace (is_empty _) with false; [by apply updated_write|].
  symmetry. apply is_empty_false. by right.
Qed.

Lemma updated_add_event k o w w' e : updated k o w w' -> updated k o w (add_event e w').
Proof. done. Qed.

Lemma batch_unfreeze_account_run signers a r w w' :
  freeze_inv w -> batch_unfreeze_account signers a r w = Ok (tt, w') ->
  freeze_ran signers (IxBatchUnfreezeAccount a r) w w'.
Proof.
  intros Hinv Hr. unfold batch_unfreeze_account, BatchUnfreezeAccount_try_accounts in Hr. inv_ok.
  split; [by eauto|]. eapply for_each_steps; [|exact Hinv|eassumption].
  intros [acc k] v v' _ Hv Hstep. inv_ok. rename select (opened _ _ _ _) into Ho.
  eapply (opened_step _ OpUnfreeze _ (set_fully_frozen false _));
    [done|exact Ho|done|done| |by apply updated_add_event].
  simpl. eapply found_ok; [exact Hv|apply Ho].
Qed.

Lemma batch_unfreeze_account_partial_run signers a r w w' :
  freeze_inv w -> batch_unfreeze_account_partial signers a r w = Ok (tt, w') ->
  freeze_ran signers (IxBatchUnfreezeAccountPartial a r) w w'.
Proof.
  intros Hinv Hr.
  unfold batch_unfreeze_account_partial, BatchUnfreezeAccountPartial_try_accounts in Hr. inv_ok.
  split; [by eauto|]. eapply for_each_steps; [|exact Hinv|eassumption].
  intros [acc k] v v' _ Hv Hstep. inv_ok. rename select (opened _ _ _ _) into Ho.
  rename select (is_partially_frozen _ = true) into Hp. apply Z.ltb_lt in Hp.
  eapply (opened_step _ OpUnfreezePartial _ (set_frozen_balance 0 _));
    [done|exact Ho|done|done|done|by apply updated_add_event].
Qed.

Lemma single_ran signers ix t op w w' :
  freeze_ops ix = [(t, op)] ->
  freeze_allowed signers (freeze_mint ix) (freeze_actor ix) w /\ stepped t op w w' ->
  freeze_ran signers ix w w'.
Proof. intros E [Ha Hs]. split; [done|]. rewrite E. by apply single_step. Qed.

Lemma freeze_run signers ix w w' :
  freeze_args_ok ix -> freeze_inv w -> freeze signers ix w = Ok (tt, w') -> freeze_ran signers ix w w'.
Proof.
  intros Hok Hinv Hr. destruct ix; simpl in Hok, Hr.
  - eapply single_ran; [done|by apply freeze_account_step].
  - by eapply batch_freeze_account_run.
  - eapply single_ran; [done|by apply unfreeze_account_step].
  - by eapply batch_unfreeze_account_run.
  - eapply single_ran; [done|by apply freeze_account_partial_step].
  - by eapply batch_freeze_account_partial_run.
  - eapply single_ran; [done|by apply unfreeze_account_partial_step].
  - by eapply batch_unfreeze_account_partial_run.
Qed.
End steps.

(** ** Theorems *)

Lemma freeze_preserves_freeze_inv `{Laws : RuntimeLaws} signers ix w w' :
  freeze_args_ok ix -> freeze_inv w -> freeze signers ix w = Ok (tt, w') -> freeze_inv w'.
Proof. intros Hok Hinv Hr. by apply (freeze_run signers ix w w'). Qed.

(** C30: Every successful instruction of the freeze program, single or
    batch, is ordered by a freeze manager of its mint, which is neither paused nor deactivated, and is
    exactly the sequence of abstract operations it stands for on the map from the token accounts of
    the mints to freeze statuses: the entries are those of the mint and the token accounts the
    instruction names, whatever state accounts were passed; each operation's precondition held when
    its turn came (not yet frozen, frozen, a positive amount, partially frozen), its entry changed as
    specified, and no other entry did, across creation and closing of the state accounts.
    They keep the program's account invariant: every freeze state sits at the canonical PDA of some
    (mint, token account), its balance is a u64, and it records something: an account with nothing
    left frozen has been closed. *)
Theorem freeze_refines_status_map `{Laws : RuntimeLaws} signers ix w w' :
  freeze_args_ok ix -> freeze_inv w -> freeze signers ix w = Ok (tt, w') ->
  freeze_allowed signers (freeze_mint ix) (freeze_actor ix) w /\
  abs_run (freeze_ops ix) (statuses w) (statuses w') /\ freeze_inv w'.
Proof. apply freeze_run. Qed.

Definition sample_freeze_pda (t : Pubkey) : Pubkey := freeze_pda MINT t.
Definition sample_freeze_account (t : Pubkey) : FreezeAccount :=
  mkFreezeAccount ADMIN SAMPLE_ROLES SAMPLE_CONFIG MINT t SAMPLE_DEACTIVATE (sample_freeze_pda t)
    SAMPLE_VERSION.
Definition sample_batch_freeze : BatchFreezeAccount :=
  mkBatchFreezeAccount ADMIN SAMPLE_ROLES SAMPLE_CONFIG MINT SAMPLE_DEACTIVATE SAMPLE_VERSION.

Lemma sample_freeze_inv : freeze_inv sample_world.
Proof.
  intros k s Hs. exfalso. revert Hs. apply holds_no_ok; [reflexivity|]. vm_compute. reflexivity.
Qed.

Definition sample_batch_ix : FreezeInstruction :=
  IxBatchFreezeAccountPartial sample_batch_freeze
    [TOKEN_A; sample_freeze_pda TOKEN_A; TOKEN_B; sample_freeze_pda TOKEN_B] [100; 200].

Lemma freeze_refines_status_map_witness :
  let w := run_world (freeze [ADMIN] sample_batch_ix) sample_world in
  freeze_allowed [ADMIN] MINT ADMIN sample_world /\
  abs_run [((MINT, TOKEN_A), OpFreezePartial 100); ((MINT, TOKEN_B), OpFreezePartial 200)]
    (statuses sample_world) (statuses w) /\ freeze_inv w.
Proof.
  apply (freeze_refines_status_map [ADMIN] sample_batch_ix).
  - repeat constructor; discriminate.
  - apply sample_freeze_inv.
  - apply run_ok. vm_compute. reflexivity.
Defined.
