(* ===== verification/TransferControl.v ===== *)
(** * TransferControl: the transfer-control program ([programs/transfer-control])

    A mint may have one mode account, written once: whitelist or blacklist.
    Each listed token account has a marker account, created and closed by the
    list instructions; only its existence matters. *)

From S2P Require Import Prelude.
From S2P Require Import ProgramIds.
From S2P Require Import Bitmask.
From S2P Require Import Errors.
From S2P Require Import State.
From S2P Require Import Runtime.
From S2P Require Import Anchor.
From S2P Require Import Frame.
From S2P Require Import PdaSeeds.
From S2P Require Import PdaUtils.
From S2P Require Import Common.
From S2P Require Import Reference.
From S2P Require Import Sample.

(** ** [lib.rs]: the checks made on a transfer *)

Definition verify_control_list_membership (control_list_pda : Pubkey) : M unit :=
  w ← get;
  require (negb (data_is_empty (data_of w control_list_pda)))
    (ETransferControl TransferControlError.NotWhitelisted).

Definition verify_transfer_control_mode (transfer_control_mode_pda : Pubkey)
    (control_list_pdas : list Pubkey) : M unit :=
  w ← get;
  if data_is_empty (data_of w transfer_control_mode_pda) then mret tt else
  transfer_control_mode ← account_try_from TransferControlMode transfer_control_mode_pda;
  match tcm_mode transfer_control_mode with
  | Whitelist => for_each control_list_pdas verify_control_list_membership
  | Blacklist =>
      for_each control_list_pdas (fun control_list_pda =>
        w ← get;
        require (data_is_empty (data_of w control_list_pda))
          (ETransferControl TransferControlError.Blacklisted))
  end.

(** ** Instructions *)

Record SetMode : Set := mkSetMode {
  sm_authority : Pubkey;
  sm_authority_roles_pda : Pubkey;
  sm_asset_configuration_pda : Pubkey;
  sm_mint : Pubkey;
  sm_deactivate_pda : Pubkey;
  sm_transfer_control_mode_pda : Pubkey;
  sm_asset_class_version_pda : Pubkey }.

(** [AddToControlList] and [RemoveFromControlList] *)
Record AddToControlList : Set := mkAddToControlList {
  cl_authority : Pubkey;
  cl_authority_roles_pda : Pubkey;
  cl_asset_configuration_pda : Pubkey;
  cl_mint : Pubkey;
  cl_account : Pubkey;
  cl_deactivate_pda : Pubkey;
  cl_control_list_pda : Pubkey;
  cl_asset_class_version_pda : Pubkey }.

Section instructions.
Context `{Rt : SolanaRuntime}.

Definition SetMode_try_accounts (signers : list Pubkey) (a : SetMode) : M (TransferControlMode * Z) :=
  signer signers (sm_authority a);;
  loader_load Roles (sm_authority_roles_pda a);;
  asset_configuration ← account_try_from AssetConfiguration (sm_asset_configuration_pda a);
  loader_load AssetClassVersion (sm_asset_class_version_pda a);;
  bump ← seeds_check (sm_transfer_control_mode_pda a) (transfer_control_mode_seeds (sm_mint a))
           TRANSFER_CONTROL_PROGRAM_ID;
  mode ← account_init TransferControlMode (sm_authority a) (sm_transfer_control_mode_pda a) signers;
  roles_constraint (sm_authority_roles_pda a) (sm_mint a) (sm_authority a);;
  asset_configuration_constraint (sm_asset_configuration_pda a) (sm_mint a) asset_configuration;;
  deactivate_constraint (sm_deactivate_pda a) (sm_mint a);;
  asset_class_version_constraint (sm_asset_class_version_pda a) asset_configuration;;
  mret (mode, bump).

Definition initialize (signers : list Pubkey) (a : SetMode) (mode : TransferMode) : M unit :=
  '(_, bump) ← SetMode_try_accounts signers a;
  operation_guards (sm_authority_roles_pda a) (sm_mint a) (sm_deactivate_pda a)
    (sm_asset_class_version_pda a) ROLE_CONTROL_LIST TRANSFER_CONTROL_INITIALIZE;;
  let transfer_control_mode := mkTransferControlMode mode bump in
  emit_cpi (EvTransferControl (TransferControlModeSet (sm_mint a) (sm_authority a) mode));;
  account_exit (sm_transfer_control_mode_pda a) transfer_control_mode.

Definition AddToControlList_try_accounts (signers : list Pubkey) (a : AddToControlList) :
    M (ControlListStatus * Z) :=
  signer signers (cl_authority a);;
  loader_load Roles (cl_authority_roles_pda a);;
  asset_configuration ← account_try_from AssetConfiguration (cl_asset_configuration_pda a);
  loader_load AssetClassVersion (cl_asset_class_version_pda a);;
  bump ← seeds_check (cl_control_list_pda a) (control_list_seeds (cl_mint a) (cl_account a))
           TRANSFER_CONTROL_PROGRAM_ID;
  status ← account_init_if_needed ControlListStatus (cl_authority a) (cl_control_list_pda a) signers;
  roles_constraint (cl_authority_roles_pda a) (cl_mint a) (cl_authority a);;
  asset_configuration_constraint (cl_asset_configuration_pda a) (cl_mint a) asset_configuration;;
  deactivate_constraint (cl_deactivate_pda a) (cl_mint a);;
  asset_class_version_constraint (cl_asset_class_version_pda a) asset_configuration;;
  mret (status, bump).

Definition add_to_control_list (signers : list Pubkey) (a : AddToControlList) : M unit :=
  '(_, bump) ← AddToControlList_try_accounts signers a;
  operation_guards (cl_authority_roles_pda a) (cl_mint a) (cl_deactivate_pda a)
    (cl_asset_class_version_pda a) ROLE_CONTROL_LIST TRANSFER_CONTROL_ADD_TO_CONTROL_LIST;;
  let control_list := mkControlListStatus bump in
  emit_cpi (EvTransferControl
    (AccountAddedToControlList (cl_mint a) (cl_account a) (cl_authority a)));;
  account_exit (cl_control_list_pda a) control_list.

Definition RemoveFromControlList_try_accounts (signers : list Pubkey) (a : AddToControlList) :
    M ControlListStatus :=
  signer signers (cl_authority a);;
  loader_load Roles (cl_authority_roles_pda a);;
  asset_configuration ← account_try_from AssetConfiguration (cl_asset_configuration_pda a);
  status ← account_try_from ControlListStatus (cl_control_list_pda a);
  loader_load AssetClassVersion (cl_asset_class_version_pda a);;
  roles_constraint (cl_authority_roles_pda a) (cl_mint a) (cl_authority a);;
  asset_configuration_constraint (cl_asset_configuration_pda a) (cl_mint a) asset_configuration;;
  deactivate_constraint (cl_deactivate_pda a) (cl_mint a);;
  seeds_check (cl_control_list_pda a) (control_list_seeds (cl_mint a) (cl_account a))
    TRANSFER_CONTROL_PROGRAM_ID;;
  asset_class_version_constraint (cl_asset_class_version_pda a) asset_configuration;;
  mret status.

(** The marker is closed by [close = authority] at the end of the instruction. *)
Definition remove_from_control_list (signers : list Pubkey) (a : AddToControlList) : M unit :=
  RemoveFromControlList_try_accounts signers a;;
  operation_guards (cl_authority_roles_pda a) (cl_mint a) (cl_deactivate_pda a)
    (cl_asset_class_version_pda a) ROLE_CONTROL_LIST TRANSFER_CONTROL_REMOVE_FROM_CONTROL_LIST;;
  emit_cpi (EvTransferControl
    (AccountRemovedFromControlList (cl_mint a) (cl_account a) (cl_authority a)));;
  account_close TRANSFER_CONTROL_PROGRAM_ID (cl_control_list_pda a) (cl_authority a).
End instructions.

Inductive TransferControlInstruction : Set :=
| IxInitialize (a : SetMode) (mode : TransferMode)
| IxAddToControlList (a : AddToControlList)
| IxRemoveFromControlList (a : AddToControlList).

Definition transfer_control `{Rt : SolanaRuntime} (signers : list Pubkey)
    (ix : TransferControlInstruction) : M unit :=
  match ix with
  | IxInitialize a mode => initialize signers a mode
  | IxAddToControlList a => add_to_control_list signers a
  | IxRemoveFromControlList a => remove_from_control_list signers a
  end.

(** ** The check decides compliance *)

Definition listed (w : World) (control_list_pda : Pubkey) : bool :=
  negb (data_is_empty (data_of w control_list_pda)).

(** The verdict of the control list on a set of markers. *)
Definition verdict (mode : option TransferMode) (listings : list bool) :
    Result TransferControlError.TransferControlError unit :=
  match mode with
  | None => Ok tt
  | Some Whitelist =>
      if forallb id listings then Ok tt else Err TransferControlError.NotWhitelisted
  | Some Blacklist =>
      if forallb negb listings then Ok tt else Err TransferControlError.Blacklisted
  end.

(** The mode a world records, when the account at the mode PDA is one of the program's. *)
Definition mode_at (w : World) (mode_pda : Pubkey) (mode : option TransferMode) : Prop :=
  match mode with
  | None => data_is_empty (data_of w mode_pda) = true
  | Some m => exists bump, stored w mode_pda (mkTransferControlMode m bump)
  end.

Lemma for_each_require {X} (p : X -> World -> bool) (e : Error) xs w :
  for_each xs (fun x => w ← get; require (p x w) e) w =
    if forallb (fun x => p x w) xs then Ok (tt, w) else Err e.
Proof.
  induction xs as [|x xs IH]; [done|]. cbn [for_each forallb].
  unfold mbind at 1, SM_bind at 1, mbind at 1, SM_bind at 1, get at 1, require at 1.
  destruct (p x w); [exact IH|done].
Qed.

Lemma account_try_from_stored {T} `{AccountType T} w k (t : T) :
  at_program <> SYSTEM_PROGRAM_ID -> stored w k t -> account_try_from T k w = Ok (t, w).
Proof.
  unfold stored, account_try_from, mbind, SM_bind, get, require, owner_of, data_of, lift.
  intros Hp ->. simpl. rewrite (proj2 (N.eqb_neq _ _) Hp). simpl.
  rewrite N.eqb_refl. simpl. rewrite (proj2 (at_of_data_Some _ t) eq_refl). done.
Qed.

Lemma verify_transfer_control_mode_spec w mode_pda mode markers :
  mode_at w mode_pda mode ->
  verify_transfer_control_mode mode_pda markers w =
    match verdict mode (map (listed w) markers) with
    | Ok _ => Ok (tt, w)
    | Err e => Err (ETransferControl e)
    end.
Proof.
  intros Hm. unfold verify_transfer_control_mode. erewrite bind_run by reflexivity. cbv beta.
  destruct mode as [m|]; simpl in Hm; [|by rewrite Hm].
  destruct Hm as [bump Hs]. rewrite (stored_data _ _ _ Hs). simpl.
  rewrite (bind_run _ _ _ (mkTransferControlMode m bump) w)
    by (apply account_try_from_stored; [program_ne|done]).
  destruct m; simpl.
  - unfold verify_control_list_membership.
    rewrite (for_each_require (fun x w => negb (data_is_empty (data_of w x)))).
    rewrite forallb_map. unfold id, listed. by case_match.
  - rewrite (for_each_require (fun x w => data_is_empty (data_of w x))).
    rewrite forallb_map. unfold listed.
    rewrite (forallb_equal (fun x => negb (negb (data_is_empty (data_of w x))))
      (fun x => data_is_empty (data_of w x))) by (intros; apply negb_involutive).
    by case_match.
Qed.

(** C31: The check made on every transfer gives exactly the verdict of
    the mint's mode on the markers it is handed: anything passes without a mode, every marker must
    exist in whitelist mode (NotWhitelisted otherwise), none in blacklist mode (Blacklisted
    otherwise). *)
Theorem transfer_control_decides w mode_pda mode markers :
  mode_at w mode_pda mode ->
  verify_transfer_control_mode mode_pda markers w =
    match verdict mode (map (listed w) markers) with
    | Ok _ => Ok (tt, w)
    | Err e => Err (ETransferControl e)
    end.
Proof. apply verify_transfer_control_mode_spec. Qed.

(** ** The instructions *)

Section specification.
Context `{Rt : SolanaRuntime}.

(** Where the mode of a mint and the marker of a token account of a mint are found. *)
Definition mode_address (mint : Pubkey) : Pubkey :=
  pda (transfer_control_mode_seeds mint) TRANSFER_CONTROL_PROGRAM_ID.
Definition list_address (mint account : Pubkey) : Pubkey :=
  pda (control_list_seeds mint account) TRANSFER_CONTROL_PROGRAM_ID.

Definition tc_mint (ix : TransferControlInstruction) : Pubkey :=
  match ix with IxInitialize a _ => sm_mint a | IxAddToControlList a | IxRemoveFromControlList a => cl_mint a end.
Definition tc_actor (ix : TransferControlInstruction) : Pubkey :=
  match ix with
  | IxInitialize a _ => sm_authority a
  | IxAddToControlList a | IxRemoveFromControlList a => cl_authority a
  end.

(** The address an instruction writes: the mode of its mint or the marker of its token account. *)
Definition tc_key (ix : TransferControlInstruction) : Pubkey :=
  match ix with
  | IxInitialize a _ => mode_address (sm_mint a)
  | IxAddToControlList a | IxRemoveFromControlList a => list_address (cl_mint a) (cl_account a)
  end.

Definition tc_effect (ix : TransferControlInstruction) (w w' : World) : Prop :=
  match ix with
  | IxInitialize a mode =>
      mode_at w (mode_address (sm_mint a)) None /\ mode_at w' (mode_address (sm_mint a)) (Some mode)
  | IxAddToControlList a => listed w' (list_address (cl_mint a) (cl_account a)) = true
  | IxRemoveFromControlList a =>
      listed w (list_address (cl_mint a) (cl_account a)) = true /\
      listed w' (list_address (cl_mint a) (cl_account a)) = false
  end.

(** A manager of the control list of the mint signed, and the mint is in operation. *)
Definition tc_allowed (ix : TransferControlInstruction) (signers : list Pubkey) (w : World) : Prop :=
  holder_of w signers (tc_mint ix) (tc_actor ix) ROLE_CONTROL_LIST /\ running w (tc_mint ix) /\
  active_mint w (tc_mint ix).
End specification.

Section steps.
Context `{Rt : SolanaRuntime} `{Laws : !RuntimeLaws}.

#[export] Instance SetMode_try_accounts_inv signers a :
  OkInv (SetMode_try_accounts signers a) (fun w sb w' =>
    sm_transfer_control_mode_pda a = pda (transfer_control_mode_seeds (sm_mint a)) TRANSFER_CONTROL_PROGRAM_ID /\
    sm_authority a ∈ signers /\
    fresh w (sm_transfer_control_mode_pda a) /\
    pda_at (roles_seeds (sm_mint a) (sm_authority a)) ACCESS_CONTROL_PROGRAM_ID (sm_authority_roles_pda a) /\
    sm_deactivate_pda a = pda (deactivate_seeds (sm_mint a)) DEACTIVATE_PROGRAM_ID /\
    data_of w' (sm_transfer_control_mode_pda a) = DZeroed (at_space (T:=TransferControlMode)) /\
    forall j, j <> sm_transfer_control_mode_pda a -> account w' j = account w j).
Proof.
  intros w [s b] w' Hr. unfold SetMode_try_accounts in Hr. inv_ok. split_and!; [done..| |].
  - unfold data_of. by rewrite account_set_account_eq.
  - intros j Hj. by rewrite account_set_account_ne by done.
Qed.

#[export] Instance AddToControlList_try_accounts_inv signers a :
  OkInv (AddToControlList_try_accounts signers a) (fun w sb w' =>
    cl_control_list_pda a = pda (control_list_seeds (cl_mint a) (cl_account a)) TRANSFER_CONTROL_PROGRAM_ID /\
    cl_authority a ∈ signers /\
    (fresh w (cl_control_list_pda a) /\
       data_of w' (cl_control_list_pda a) = DZeroed (at_space (T:=ControlListStatus)) \/
     (exists s : ControlListStatus, stored w (cl_control_list_pda a) s) /\ w' = w) /\
    pda_at (roles_seeds (cl_mint a) (cl_authority a)) ACCESS_CONTROL_PROGRAM_ID (cl_authority_roles_pda a) /\
    cl_deactivate_pda a = pda (deactivate_seeds (cl_mint a)) DEACTIVATE_PROGRAM_ID /\
    forall j, j <> cl_control_list_pda a -> account w' j = account w j).
Proof.
  intros w [s b] w' Hr. unfold AddToControlList_try_accounts in Hr. inv_ok.
  rename select (_ \/ _) into Hinit. destruct Hinit as [(? & ? & n & ->)|(_ & Hs & ->)];
    split_and!; eauto; [left|]; [|intros j Hj; by rewrite account_set_account_ne by done].
  split; [done|]. unfold data_of. by rewrite account_set_account_eq.
Qed.

#[export] Instance RemoveFromControlList_try_accounts_inv signers a :
  OkInv (RemoveFromControlList_try_accounts signers a) (fun w s w' =>
    cl_control_list_pda a = pda (control_list_seeds (cl_mint a) (cl_account a)) TRANSFER_CONTROL_PROGRAM_ID /\
    cl_authority a ∈ signers /\ stored w (cl_control_list_pda a) s /\
    pda_at (roles_seeds (cl_mint a) (cl_authority a)) ACCESS_CONTROL_PROGRAM_ID (cl_authority_roles_pda a) /\
    cl_deactivate_pda a = pda (deactivate_seeds (cl_mint a)) DEACTIVATE_PROGRAM_ID /\ w' = w).
Proof. intros w s w' Hr. unfold RemoveFromControlList_try_accounts in Hr. by inv_ok. Qed.

(** The guards an instruction evaluates after creating its account held before. *)
Lemma tc_allowed_created ix signers w w1 k n rk dk vk f :
  0 < n -> data_of w1 k = DZeroed n -> (forall j, j <> k -> account w1 j = account w j) ->
  tc_actor ix ∈ signers ->
  pda_at (roles_seeds (tc_mint ix) (tc_actor ix)) ACCESS_CONTROL_PROGRAM_ID rk ->
  dk = pda (deactivate_seeds (tc_mint ix)) DEACTIVATE_PROGRAM_ID ->
  operation_allowed w1 rk (tc_mint ix) dk vk ROLE_CONTROL_LIST f -> tc_allowed ix signers w.
Proof.
  intros Hn Hz Hj Hs Hk Hd Ha. eapply allowed_actor; [done..|]. by eapply operation_allowed_created.
Qed.

Lemma set_mode_step signers a mode w w' :
  initialize signers a mode w = Ok (tt, w') ->
  tc_allowed (IxInitialize a mode) signers w /\ tc_effect (IxInitialize a mode) w w' /\
  fresh w (tc_key (IxInitialize a mode)) /\
  forall j, j <> tc_key (IxInitialize a mode) -> account w' j = account w j.
Proof.
  intros Hr. unfold initialize in Hr.
  apply bind_ok in Hr as ([s b] & w1 & (Ek & Hs & Hf & Hk & Hd & Hz & Hj)%ok_inv & Hr). inv_ok.
  rename select (operation_allowed _ _ _ _ _ _ _) into Ha. simpl.
  fold (mode_address (sm_mint a)) in Ek. rewrite Ek in *. split_and!; [| | |done|].
  - eapply (tc_allowed_created (IxInitialize a mode)); [|exact Hz|exact Hj|done..]. reflexivity.
  - by apply fresh_empty.
  - eexists. apply stored_set_account. by left.
  - intros j Hne. rewrite account_set_account_ne by (by apply not_eq_sym). by apply Hj.
Qed.

Lemma add_to_control_list_step signers a w w' :
  add_to_control_list signers a w = Ok (tt, w') ->
  tc_allowed (IxAddToControlList a) signers w /\ tc_effect (IxAddToControlList a) w w' /\
  (fresh w (tc_key (IxAddToControlList a)) \/
   exists s : ControlListStatus, stored w (tc_key (IxAddToControlList a)) s) /\
  forall j, j <> tc_key (IxAddToControlList a) -> account w' j = account w j.
Proof.
  intros Hr. unfold add_to_control_list in Hr.
  apply bind_ok in Hr as ([s b] & w1 & (Ek & Hs & Hi & Hk & Hd & Hj)%ok_inv & Hr). inv_ok.
  rename select (operation_allowed _ _ _ _ _ _ _) into Ha. simpl.
  fold (list_address (cl_mint a) (cl_account a)) in Ek. rewrite Ek in *. split_and!.
  - destruct Hi as [[_ Hz]|[_ ->]]; [|by eapply allowed_actor].
    eapply (tc_allowed_created (IxAddToControlList a)); [|exact Hz|exact Hj|done..]. reflexivity.
  - unfold listed, data_of. by rewrite account_set_account_eq.
  - destruct Hi as [[? _]|[? _]]; auto.
  - intros j Hne. rewrite account_set_account_ne by (by apply not_eq_sym). by apply Hj.
Qed.

Lemma remove_from_control_list_step signers a w w' :
  remove_from_control_list signers a w = Ok (tt, w') ->
  tc_allowed (IxRemoveFromControlList a) signers w /\ tc_effect (IxRemoveFromControlList a) w w' /\
  (exists s : ControlListStatus, stored w (tc_key (IxRemoveFromControlList a)) s) /\
  forall j, j <> tc_key (IxRemoveFromControlList a) -> account w' j = account w j.
Proof.
  intros Hr. unfold remove_from_control_list in Hr.
  apply bind_ok in Hr as (s & w1 & (Ek & Hs & Hst & Hk & Hd & ->)%ok_inv & Hr). inv_ok.
  rename select (operation_allowed _ _ _ _ _ _ _) into Ha. simpl.
  fold (list_address (cl_mint a) (cl_account a)) in Ek. rewrite Ek in *. split_and!; [| | |by exists s|].
  - by eapply allowed_actor.
  - unfold listed. by rewrite (stored_data _ _ _ Hst).
  - unfold listed, data_of. by rewrite account_set_account_eq.
  - intros j Hne. by rewrite account_set_account_ne by (by apply not_eq_sym).
Qed.

Lemma transfer_control_step signers ix w w' :
  transfer_control signers ix w = Ok (tt, w') ->
  tc_allowed ix signers w /\ tc_effect ix w w' /\
  (fresh w (tc_key ix) \/ exists s : ControlListStatus, stored w (tc_key ix) s) /\
  forall j, j <> tc_key ix -> account w' j = account w j.
Proof.
  intros Hr. destruct ix; cbn [transfer_control] in Hr.
  - apply set_mode_step in Hr as (? & ? & ? & ?). auto.
  - by apply add_to_control_list_step.
  - apply remove_from_control_list_step in Hr as (? & ? & ? & ?). auto.
Qed.
End steps.

Lemma transfer_mode_is_final `{Laws : RuntimeLaws} signers ix w w' k (m : TransferControlMode) :
  transfer_control signers ix w = Ok (tt, w') -> stored w k m -> stored w' k m.
Proof.
  intros Hr Hs. destruct (transfer_control_step signers ix w w' Hr) as (_ & _ & Hkey & Hj).
  unfold stored in *. rewrite <- Hs. apply Hj. intros ->.
  destruct Hkey as [[_ He]|[s Hs']].
  - unfold data_of in He. by rewrite Hs in He.
  - unfold stored in Hs'. rewrite Hs in Hs'. discriminate.
Qed.

(** C32: Each instruction of the transfer-control program does
    its one change, at the canonical address of the mint and token account it names: [initialize] sets
    the mode of a mint that had none, [add_to_control_list] lists the account for the mint,
    [remove_from_control_list] unlists an account that was listed for it.  A signer with the
    control-list role on the mint orders it, while the mint is neither paused nor deactivated; the data
    and owner of every other account stay as they are, so that the other mints and accounts keep
    their modes and listings.  A mode is final: no instruction, whoever signs it, overwrites or
    closes an existing mode account. *)
Theorem transfer_control_maintains_list `{Laws : RuntimeLaws} signers ix w w' :
  transfer_control signers ix w = Ok (tt, w') ->
  tc_allowed ix signers w /\ tc_effect ix w w' /\
  (forall j, j <> tc_key ix -> account w' j = account w j) /\
  forall k (m : TransferControlMode), stored w k m -> stored w' k m.
Proof.
  intros Hr. destruct (transfer_control_step signers ix w w' Hr) as (? & ? & _ & ?). split_and!; [done..|].
  intros k m. by apply (transfer_mode_is_final signers ix).
Qed.

(** ** Witnesses *)

Definition sample_mode_pda : Pubkey := mode_address MINT.
Definition sample_list_pda (t : Pubkey) : Pubkey := list_address MINT t.
Definition sample_set_mode : TransferControlInstruction :=
  IxInitialize (mkSetMode ADMIN SAMPLE_ROLES SAMPLE_CONFIG MINT SAMPLE_DEACTIVATE sample_mode_pda
    SAMPLE_VERSION) Whitelist.
Definition sample_list_accounts (t : Pubkey) : AddToControlList :=
  mkAddToControlList ADMIN SAMPLE_ROLES SAMPLE_CONFIG MINT t SAMPLE_DEACTIVATE (sample_list_pda t)
    SAMPLE_VERSION.
Definition whitelist_world : World :=
  run_world (transfer_control [ADMIN] (IxAddToControlList (sample_list_accounts TOKEN_A)))
    (run_world (transfer_control [ADMIN] sample_set_mode) sample_world).

Lemma transfer_control_decides_witness :
  verify_transfer_control_mode sample_mode_pda [sample_list_pda TOKEN_A; sample_list_pda TOKEN_B]
    whitelist_world = Err (ETransferControl TransferControlError.NotWhitelisted).
Proof.
  apply (transfer_control_decides whitelist_world sample_mode_pda (Some Whitelist)
    [sample_list_pda TOKEN_A; sample_list_pda TOKEN_B]).
  exists 255. vm_compute. reflexivity.
Defined.

Lemma transfer_control_maintains_list_witness :
  let w' := run_world (transfer_control [ADMIN] (IxRemoveFromControlList (sample_list_accounts TOKEN_A)))
    whitelist_world in
  tc_allowed (IxRemoveFromControlList (sample_list_accounts TOKEN_A)) [ADMIN] whitelist_world /\
  (listed whitelist_world (sample_list_pda TOKEN_A) = true /\ listed w' (sample_list_pda TOKEN_A) = false) /\
  (forall j, j <> sample_list_pda TOKEN_A -> account w' j = account whitelist_world j) /\
  forall k (m : TransferControlMode), stored whitelist_world k m -> stored w' k m.
Proof.
  apply (transfer_control_maintains_list [ADMIN] (IxRemoveFromControlList (sample_list_accounts TOKEN_A))).
  apply run_ok. vm_compute. reflexivity.
Defined.
