(* ===== verification/Token.v ===== *)
(** * Token: the Token-2022 instructions the programs call

    Token-2022 is not part of the repository: its instructions are the
    operations of the class [Token2022], and what the programs rely on is stated
    in [TokenLaws].  A transfer of a mint with a transfer hook calls the hook
    program after the balances moved and while both accounts are marked as
    transferring; the call is a parameter ([hook]) so that the repository's own
    hook can be plugged in. *)

From S2P Require Import Prelude.
From S2P Require Import ProgramIds.
From S2P Require Import Errors.
From S2P Require Import State.
From S2P Require Import Runtime.
From S2P Require Import Anchor.
From S2P Require Import Frame.

(** The accounts and arguments of [transfer_checked]; [tx_extra] are the accounts appended for
    the hook. *)
Record TransferChecked : Set := mkTransferChecked {
  tx_source : Pubkey;
  tx_mint : Pubkey;
  tx_destination : Pubkey;
  tx_authority : Pubkey;
  tx_amount : Z;
  tx_decimals : Z;
  tx_extra : list Pubkey }.

(** A call of a hook program: its address, the accounts it gets, the amount. *)
Definition HookCall : Type := Pubkey -> list Pubkey -> Z -> M unit.

Class Token2022 : Type := {
  transfer_checked : HookCall -> TransferChecked -> list Pubkey -> M unit;
  (** [permissioned_burn account mint burn_authority authority amount signers] *)
  permissioned_burn : Pubkey -> Pubkey -> Pubkey -> Pubkey -> Z -> list Pubkey -> M unit;
  (** [mint_to mint destination authority amount signers] *)
  mint_to : Pubkey -> Pubkey -> Pubkey -> Z -> list Pubkey -> M unit;
  (** [set_paused mint authority paused signers]: the pause and resume instructions *)
  set_paused : Pubkey -> Pubkey -> bool -> list Pubkey -> M unit }.

(** ** The worlds they leave behind *)

Definition with_amount (n : Z) (t : TokenState) : TokenState :=
  mkTokenState (t_mint t) (t_owner t) n (t_transferring t) (t_data_len t).
Definition with_transferring (b : bool) (t : TokenState) : TokenState :=
  mkTokenState (t_mint t) (t_owner t) (t_amount t) (Some b) (t_data_len t).
Definition with_supply (n : Z) (m : MintState) : MintState :=
  mkMintState n (m_decimals m) (m_paused m) (m_transfer_hook m) (m_authorities m) (m_metadata m) (m_data_len m).
Definition with_paused (b : bool) (m : MintState) : MintState :=
  mkMintState (m_supply m) (m_decimals m) (Some b) (m_transfer_hook m) (m_authorities m) (m_metadata m) (m_data_len m).

Definition token_account (w : World) (k : Pubkey) (t : TokenState) : Prop :=
  account w k = mkAccount TOKEN_2022_PROGRAM_ID (DToken t).
Definition mint_account (w : World) (k : Pubkey) (m : MintState) : Prop :=
  account w k = mkAccount TOKEN_2022_PROGRAM_ID (DMint m).

Definition put_token (k : Pubkey) (t : TokenState) (w : World) : World :=
  set_account k (mkAccount TOKEN_2022_PROGRAM_ID (DToken t)) w.
Definition put_mint (k : Pubkey) (m : MintState) (w : World) : World :=
  set_account k (mkAccount TOKEN_2022_PROGRAM_ID (DMint m)) w.

(** The amount moved from [s] to [d], the two accounts marked with [transferring] if given. *)
Definition mark (o : option bool) (t : TokenState) : TokenState :=
  match o with Some b => with_transferring b t | None => t end.
Definition moved (ix : TransferChecked) (s d : TokenState) (transferring : option bool) (w : World) :
    World :=
  put_token (tx_destination ix) (mark transferring (with_amount (t_amount d + tx_amount ix) d))
    (put_token (tx_source ix) (mark transferring (with_amount (t_amount s - tx_amount ix) s)) w).

(** The marks removed after the hook ran in [w]. *)
Definition unmarked (ix : TransferChecked) (s d : TokenState) (w : World) : World :=
  moved ix s d (Some false) w.

Class TokenLaws {Tok : Token2022} : Prop := {
  transfer_checked_ok hook ix signers w w' :
    transfer_checked hook ix signers w = Ok (tt, w') ->
    exists s d m,
      token_account w (tx_source ix) s /\ token_account w (tx_destination ix) d /\
      mint_account w (tx_mint ix) m /\ t_mint s = tx_mint ix /\ t_mint d = tx_mint ix /\
      m_decimals m = tx_decimals ix /\ m_paused m <> Some true /\ tx_authority ix ∈ signers /\
      0 <= tx_amount ix <= t_amount s /\
      if N.eqb (tx_source ix) (tx_destination ix) then w' = w else
      t_amount d + tx_amount ix <= U64_MAX /\
      match m_transfer_hook m with
      | None => w' = moved ix s d None w
      | Some program => exists extra w1,
          hook program ([tx_source ix; tx_mint ix; tx_destination ix; tx_authority ix] ++ extra)
            (tx_amount ix) (moved ix s d (Some true) w) = Ok (tt, w1) /\
          (w_accounts w1 = w_accounts (moved ix s d (Some true) w) -> w' = unmarked ix s d w1)
      end;
  permissioned_burn_ok account mint burn_authority authority n signers w w' :
    permissioned_burn account mint burn_authority authority n signers w = Ok (tt, w') ->
    exists t m, token_account w account t /\ mint_account w mint m /\ t_mint t = mint /\
      burn_authority ∈ signers /\ authority ∈ signers /\ m_paused m <> Some true /\
      0 <= n <= t_amount t /\ n <= m_supply m /\
      w' = put_mint mint (with_supply (m_supply m - n) m)
             (put_token account (with_amount (t_amount t - n) t) w);
  mint_to_ok mint dest authority n signers w w' :
    mint_to mint dest authority n signers w = Ok (tt, w') ->
    exists t m, token_account w dest t /\ mint_account w mint m /\ t_mint t = mint /\
      authority ∈ signers /\ m_paused m <> Some true /\ 0 <= n /\
      m_supply m + n <= U64_MAX /\ t_amount t + n <= U64_MAX /\
      w' = put_mint mint (with_supply (m_supply m + n) m)
             (put_token dest (with_amount (t_amount t + n) t) w);
  set_paused_ok mint authority b signers w w' :
    set_paused mint authority b signers w = Ok (tt, w') ->
    exists m, mint_account w mint m /\ authority ∈ signers /\ m_paused m <> None /\
      w' = put_mint mint (with_paused b m) w }.

(** ** A reference implementation *)

Definition get_token (k : Pubkey) : M TokenState :=
  w ← get;
  match account w k with
  | mkAccount o (DToken t) =>
      if N.eqb o TOKEN_2022_PROGRAM_ID then mret t else fail (ERuntime InvalidAccountData)
  | _ => fail (ERuntime InvalidAccountData)
  end.

Definition get_mint (k : Pubkey) : M MintState :=
  w ← get;
  match account w k with
  | mkAccount o (DMint m) =>
      if N.eqb o TOKEN_2022_PROGRAM_ID then mret m else fail (ERuntime InvalidAccountData)
  | _ => fail (ERuntime InvalidAccountData)
  end.

Definition not_paused (m : MintState) : bool := negb (bool_decide (m_paused m = Some true)).
Definition external (code : Z) : Error := ERuntime (ExternalProgram code).

(** The reference hook accounts: the extra ones as they come, less the hook program. *)
Definition ref_transfer_checked (hook : HookCall) (ix : TransferChecked) (signers : list Pubkey) : M unit :=
  s ← get_token (tx_source ix);
  d ← get_token (tx_destination ix);
  m ← get_mint (tx_mint ix);
  require (N.eqb (t_mint s) (tx_mint ix) && N.eqb (t_mint d) (tx_mint ix)) (external 3);;
  require (m_decimals m =? tx_decimals ix) (external 18);;
  require (not_paused m) (external 67);;
  require (bool_decide (tx_authority ix ∈ signers)) (ERuntime MissingRequiredSignature);;
  require ((0 <=? tx_amount ix) && (tx_amount ix <=? t_amount s)) (external 1);;
  if N.eqb (tx_source ix) (tx_destination ix) then mret tt else
  require (t_amount d + tx_amount ix <=? U64_MAX) (external 14);;
  match m_transfer_hook m with
  | None => modify (moved ix s d None)
  | Some program =>
      modify (moved ix s d (Some true));;
      hook program ([tx_source ix; tx_mint ix; tx_destination ix; tx_authority ix] ++
        filter (fun k => k <> program) (tx_extra ix)) (tx_amount ix);;
      modify (unmarked ix s d)
  end.

Definition ref_permissioned_burn (account mint burn_authority authority : Pubkey) (n : Z)
    (signers : list Pubkey) : M unit :=
  t ← get_token account;
  m ← get_mint mint;
  require (N.eqb (t_mint t) mint) (external 3);;
  require (not_paused m) (external 67);;
  require (bool_decide (burn_authority ∈ signers) && bool_decide (authority ∈ signers))
    (ERuntime MissingRequiredSignature);;
  require ((0 <=? n) && (n <=? t_amount t) && (n <=? m_supply m)) (external 1);;
  modify (fun w => put_mint mint (with_supply (m_supply m - n) m)
                     (put_token account (with_amount (t_amount t - n) t) w)).

Definition ref_mint_to (mint dest authority : Pubkey) (n : Z) (signers : list Pubkey) : M unit :=
  t ← get_token dest;
  m ← get_mint mint;
  require (N.eqb (t_mint t) mint) (external 3);;
  require (not_paused m) (external 67);;
  require (bool_decide (authority ∈ signers)) (ERuntime MissingRequiredSignature);;
  require ((0 <=? n) && (m_supply m + n <=? U64_MAX) && (t_amount t + n <=? U64_MAX)) (external 14);;
  modify (fun w => put_mint mint (with_supply (m_supply m + n) m)
                     (put_token dest (with_amount (t_amount t + n) t) w)).

Definition ref_set_paused (mint authority : Pubkey) (b : bool) (signers : list Pubkey) : M unit :=
  m ← get_mint mint;
  require (bool_decide (authority ∈ signers)) (ERuntime MissingRequiredSignature);;
  require (bool_decide (m_paused m <> None)) (external 10);;
  modify (put_mint mint (with_paused b m)).

#[export] Instance reference_token : Token2022 := {|
  transfer_checked := ref_transfer_checked;
  permissioned_burn := ref_permissioned_burn;
  mint_to := ref_mint_to;
  set_paused := ref_set_paused |}.

#[export] Instance get_token_inv k :
  OkInv (get_token k) (fun w t w' => token_account w k t /\ w' = w).
Proof.
  intros w t w' Hr. unfold get_token in Hr. inv_ok.
  destruct (account _ k) as [o []] eqn:E; inv_ok. destruct (N.eqb _ _) eqn:Ho; inv_ok.
  zify_checks. done.
Qed.

#[export] Instance get_mint_inv k :
  OkInv (get_mint k) (fun w m w' => mint_account w k m /\ w' = w).
Proof.
  intros w t w' Hr. unfold get_mint in Hr. inv_ok.
  destruct (account _ k) as [o []] eqn:E; inv_ok. destruct (N.eqb _ _) eqn:Ho; inv_ok.
  zify_checks. done.
Qed.

#[export] Instance reference_token_laws : TokenLaws.
Proof.
  split; cbn [transfer_checked permissioned_burn mint_to set_paused reference_token].
  - intros * Hr. unfold ref_transfer_checked, not_paused in Hr. inv_ok. zify_checks.
    eexists _, _, _. do 9 (split; [eassumption || lia || done|]).
    destruct (N.eqb (tx_source ix) _) eqn:E; inv_ok; [done|]. zify_checks. split; [done|].
    destruct (m_transfer_hook _) as [p|]; inv_ok; [|done].
    eexists _, _. split; [eassumption|done].
  - intros * Hr. unfold ref_permissioned_burn, not_paused in Hr. inv_ok. zify_checks.
    eexists _, _. split_and!; eauto; try lia.
  - intros * Hr. unfold ref_mint_to, not_paused in Hr. inv_ok. zify_checks.
    eexists _, _. split_and!; eauto; try lia.
  - intros * Hr. unfold ref_set_paused in Hr. inv_ok. zify_checks. eauto.
Qed.
