(* ===== verification/TransferHook.v ===== *)
(** * TransferHook: the hook Token-2022 calls on every transfer ([programs/transfer-hook])

    [execute] gets the accounts of the transfer and those of the mint's
    ExtraAccountMetaList, positionally; it reads the compliance accounts of the
    source and destination and changes nothing. *)

From S2P Require Import Prelude.
From S2P Require Import ProgramIds.
From S2P Require Import Bitmask.
From S2P Require Import Errors.
From S2P Require Import State.
From S2P Require Import Runtime.
From S2P Require Import Anchor.
From S2P Require Import Frame.
From S2P Require Import PdaSeeds.
From S2P Require Import PdaUtils.
From S2P Require Import Common.
From S2P Require Import Reference.
From S2P Require Import Sample.
From S2P Require Import Freeze.
From S2P Require Import FreezeProofs.
From S2P Require Import TransferControl.
From S2P Require Import Token.

(** ** Accounts *)

Record Execute : Set := mkExecute {
  ex_source_token : Pubkey;
  ex_mint : Pubkey;
  ex_destination_token : Pubkey;
  ex_owner : Pubkey;
  ex_extra_account_meta_list : Pubkey;
  ex_deploy_program : Pubkey;
  ex_asset_configuration_pda : Pubkey;
  ex_factory_program : Pubkey;
  ex_asset_class_version_pda : Pubkey;
  ex_deactivate_program : Pubkey;
  ex_deactivate_pda : Pubkey;
  ex_transfer_control_program : Pubkey;
  ex_transfer_control_mode_pda : Pubkey;
  ex_source_control_list_pda : Pubkey;
  ex_destination_control_list_pda : Pubkey;
  ex_freeze_program : Pubkey;
  ex_source_freeze_state_pda : Pubkey;
  ex_hold_program : Pubkey;
  ex_source_hold_position_pda : Pubkey }.

(** The accounts of the struct taken in order from those of the instruction. *)
Definition execute_accounts (accounts : list Pubkey) : option Execute :=
  match accounts with
  | a0 :: a1 :: a2 :: a3 :: a4 :: a5 :: a6 :: a7 :: a8 :: a9 :: a10 :: a11 :: a12 :: a13 :: a14
      :: a15 :: a16 :: a17 :: a18 :: _ =>
      Some (mkExecute a0 a1 a2 a3 a4 a5 a6 a7 a8 a9 a10 a11 a12 a13 a14 a15 a16 a17 a18)
  | _ => None
  end.

Definition require_transferring (source_token : Pubkey) : M unit :=
  state ← unpack_token source_token (ETransferHook TransferHookError.NotTransferring);
  transferring ← lift (ok_or (t_transferring state) (ETransferHook TransferHookError.NotTransferring));
  require transferring (ETransferHook TransferHookError.NotTransferring).

Section instructions.
Context `{Rt : SolanaRuntime}.

Definition Execute_try_accounts (accounts : list Pubkey) : M Execute :=
  a ← lift (ok_or (execute_accounts accounts) (EAnchor AccountNotEnoughKeys));
  asset_configuration ← account_try_from AssetConfiguration (ex_asset_configuration_pda a);
  loader_load AssetClassVersion (ex_asset_class_version_pda a);;
  check_address (ex_deploy_program a) DEPLOY_PROGRAM_ID;;
  asset_configuration_constraint (ex_asset_configuration_pda a) (ex_mint a) asset_configuration;;
  check_address (ex_factory_program a) FACTORY_PROGRAM_ID;;
  asset_class_version_constraint (ex_asset_class_version_pda a) asset_configuration;;
  check_address (ex_deactivate_program a) DEACTIVATE_PROGRAM_ID;;
  deactivate_constraint (ex_deactivate_pda a) (ex_mint a);;
  check_address (ex_transfer_control_program a) TRANSFER_CONTROL_PROGRAM_ID;;
  seeds_check (ex_transfer_control_mode_pda a) (transfer_control_mode_seeds (ex_mint a))
    TRANSFER_CONTROL_PROGRAM_ID;;
  seeds_check (ex_source_control_list_pda a) (control_list_seeds (ex_mint a) (ex_source_token a))
    TRANSFER_CONTROL_PROGRAM_ID;;
  seeds_check (ex_destination_control_list_pda a)
    (control_list_seeds (ex_mint a) (ex_destination_token a)) TRANSFER_CONTROL_PROGRAM_ID;;
  check_address (ex_freeze_program a) FREEZE_PROGRAM_ID;;
  seeds_check (ex_source_freeze_state_pda a) (freeze_state_seeds (ex_mint a) (ex_source_token a))
    FREEZE_PROGRAM_ID;;
  check_address (ex_hold_program a) HOLD_PROGRAM_ID;;
  hold_position_constraint (ex_source_hold_position_pda a) (ex_mint a) (ex_source_token a);;
  mret a.

Definition execute (accounts : list Pubkey) (_amount : Z) : M unit :=
  a ← Execute_try_accounts accounts;
  require_transferring (ex_source_token a);;
  if is_caller_pda (ex_owner a) (permanent_delegate_seeds (ex_mint a)) OPERATIONS_PROGRAM_ID
  then mret tt else
  require_active (ex_deactivate_pda a);;
  verify_transfer_control_mode (ex_transfer_control_mode_pda a)
    [ex_source_control_list_pda a; ex_destination_control_list_pda a];;
  freeze_status ← freeze_status (ex_source_freeze_state_pda a);
  require (negb (fully_frozen freeze_status)) (EFreeze FreezeError.AccountFrozen);;
  held ← held_amount (ex_source_hold_position_pda a);
  total_locked ← lift (ok_or (checked_add_u64 (frozen_balance freeze_status) held)
                         (EFreeze FreezeError.InsufficientUnfrozenBalance));
  require_locked_balance_covered (ex_source_token a) total_locked;;
  version ← loader_load AssetClassVersion (ex_asset_class_version_pda a);
  require_functionality version TRANSFER_HOOK_EXECUTE.

(** The hook of the deployed mints; the hook programs of other mints are not part of the
    repository. *)
Definition hook_program (other : HookCall) : HookCall := fun program accounts amount =>
  if N.eqb program TRANSFER_HOOK_PROGRAM_ID then execute accounts amount
  else other program accounts amount.
End instructions.

(** ** What a successful hook has checked *)

(** The compliance conditions on a transfer from [source] to [destination], in the world [w] the
    hook sees, where the amount has already left the source. *)
Record compliant `{Rt : SolanaRuntime} (w : World) (mint source destination : Pubkey) : Prop := {
  compliant_active :
    data_is_empty (data_of w (pda (deactivate_seeds mint) DEACTIVATE_PROGRAM_ID)) = true;
  compliant_control : exists mode,
    mode_at w (pda (transfer_control_mode_seeds mint) TRANSFER_CONTROL_PROGRAM_ID) mode /\
    verdict mode
      [listed w (pda (control_list_seeds mint source) TRANSFER_CONTROL_PROGRAM_ID);
       listed w (pda (control_list_seeds mint destination) TRANSFER_CONTROL_PROGRAM_ID)] = Ok tt;
  compliant_not_frozen :
    fully_frozen (status w (pda (freeze_state_seeds mint source) FREEZE_PROGRAM_ID)) = false;
  compliant_balance : exists t, data_of w source = DToken t /\
    frozen_balance (status w (pda (freeze_state_seeds mint source) FREEZE_PROGRAM_ID)) +
      lien w (pda (hold_position_seeds mint source) HOLD_PROGRAM_ID) <= t_amount t;
  compliant_functionality : exists kc c kv v,
    pda_at (asset_configuration_seeds mint) DEPLOY_PROGRAM_ID kc /\ stored w kc c /\
    pda_at (asset_class_version_seeds (ac_asset_class_config_id c) (ac_asset_class_version_id c))
      FACTORY_PROGRAM_ID kv /\ stored w kv v /\ functionality_enabled v TRANSFER_HOOK_EXECUTE }.

Section inversion.
Context `{Rt : SolanaRuntime} `{Laws : !RuntimeLaws}.

#[export] Instance require_transferring_inv k :
  OkInv (require_transferring k) (fun w _ w' => w' = w /\
    exists t, data_of w k = DToken t /\ t_transferring t = Some true).
Proof.
  intros w [] w' Hr. unfold require_transferring in Hr. inv_ok. zify_checks. eauto.
Qed.

#[export] Instance verify_transfer_control_mode_inv k ks :
  OkInv (verify_transfer_control_mode k ks) (fun w _ w' => w' = w /\
    exists mode, mode_at w k mode /\ verdict mode (map (listed w) ks) = Ok tt).
Proof.
  intros w [] w' Hr.
  assert (Hm : exists mode, mode_at w k mode).
  { unfold verify_transfer_control_mode in Hr. inv_ok.
    destruct (data_is_empty _) eqn:E; [by exists None|]. inv_ok.
    rename select (stored _ _ _) into Hs. destruct v as [m b]. exists (Some m). eexists. exact Hs. }
  destruct Hm as [mode Hm]. rewrite (verify_transfer_control_mode_spec w k mode ks Hm) in Hr.
  destruct (verdict _ _) as [[]|] eqn:E; simplify_eq. eauto.
Qed.

#[export] Instance freeze_status_inv k :
  OkInv (freeze_status k) (fun w s w' => w' = w /\ s = status w k).
Proof.
  intros w s w' Hr. unfold freeze_status in Hr. inv_ok. case_match.
  - rename select (stored _ _ _) into Hs. split; [done|].
    symmetry. by apply status_Some, stored_freeze_state.
  - rename select (data_is_empty _ = true) into He. split; [done|].
    symmetry. by apply status_None, empty_freeze_state.
Qed.

#[export] Instance require_locked_balance_covered_inv k n :
  OkInv (require_locked_balance_covered k n) (fun w _ w' => w' = w /\
    exists t, data_of w k = DToken t /\ n <= t_amount t).
Proof.
  intros w [] w' Hr. unfold require_locked_balance_covered, token_balance in Hr. inv_ok. zify_checks.
  eauto.
Qed.

#[export] Instance Execute_try_accounts_inv accounts :
  OkInv (Execute_try_accounts accounts) (fun w a w' => w' = w /\
    execute_accounts accounts = Some a /\
    ex_deactivate_pda a = pda (deactivate_seeds (ex_mint a)) DEACTIVATE_PROGRAM_ID /\
    ex_transfer_control_mode_pda a = pda (transfer_control_mode_seeds (ex_mint a)) TRANSFER_CONTROL_PROGRAM_ID /\
    ex_source_control_list_pda a =
      pda (control_list_seeds (ex_mint a) (ex_source_token a)) TRANSFER_CONTROL_PROGRAM_ID /\
    ex_destination_control_list_pda a =
      pda (control_list_seeds (ex_mint a) (ex_destination_token a)) TRANSFER_CONTROL_PROGRAM_ID /\
    ex_source_freeze_state_pda a =
      pda (freeze_state_seeds (ex_mint a) (ex_source_token a)) FREEZE_PROGRAM_ID /\
    ex_source_hold_position_pda a =
      pda (hold_position_seeds (ex_mint a) (ex_source_token a)) HOLD_PROGRAM_ID /\
    exists c, pda_at (asset_configuration_seeds (ex_mint a)) DEPLOY_PROGRAM_ID (ex_asset_configuration_pda a) /\
      stored w (ex_asset_configuration_pda a) c /\
      pda_at (asset_class_version_seeds (ac_asset_class_config_id c) (ac_asset_class_version_id c))
        FACTORY_PROGRAM_ID (ex_asset_class_version_pda a)).
Proof.
  intros w a w' Hr. unfold Execute_try_accounts in Hr. inv_ok. zify_checks.
  split_and!; try done. eauto.
Qed.
End inversion.

Section execute.
Context `{Rt : SolanaRuntime} `{Laws : !RuntimeLaws}.

Definition permanent_delegate (mint : Pubkey) : Pubkey :=
  pda (permanent_delegate_seeds mint) OPERATIONS_PROGRAM_ID.

Lemma execute_ok source mint destination owner extra amount w w' :
  execute ([source; mint; destination; owner] ++ extra) amount w = Ok (tt, w') ->
  w' = w /\ (exists t, data_of w source = DToken t /\ t_transferring t = Some true) /\
  (owner = permanent_delegate mint \/ compliant w mint source destination).
Proof.
  intros Hr. unfold execute in Hr. inv_ok.
  rename select (execute_accounts _ = Some _) into Ha. rename v into a.
  assert (Hk : ex_source_token a = source /\ ex_mint a = mint /\
               ex_destination_token a = destination /\ ex_owner a = owner).
  { clear -Ha. do 15 (destruct extra as [|? extra]; [discriminate Ha|]). injection Ha as <-. done. }
  destruct Hk as (<- & <- & <- & <-).
  destruct (is_caller_pda _ _ _) eqn:E.
  { unfold is_caller_pda in E. zify_checks. inv_ok. split_and!; [done|eauto|by left]. }
  inv_ok. zify_checks. split_and!; [done|eauto|right].
  split; repeat match goal with Hk : ?f a = pda _ _ |- _ => rewrite <- Hk end; eauto 12.
Qed.
End execute.

(** C4: When the transfer hook lets a transfer pass, either its authority
    is the mint's permanent delegate (the operations program), or the transfer is compliant: the
    mint is not deactivated, the control list allows both accounts, the source is not frozen, the
    balance left covers the frozen amount plus the lien of the holds, and the asset class has the
    functionality.  All of this is read from the canonical accounts of the mint and the two token
    accounts, whatever accounts the caller supplied, and the hook changes nothing. *)
Theorem hook_enforces_compliance `{Laws : RuntimeLaws} source mint destination owner extra amount w w' :
  execute ([source; mint; destination; owner] ++ extra) amount w = Ok (tt, w') ->
  w' = w /\ (owner = permanent_delegate mint \/ compliant w mint source destination).
Proof. intros Hr. apply execute_ok in Hr as (? & _ & ?). done. Qed.

(** C35: Outside a Token-2022 transfer (the source account not marked as
    transferring) the hook fails, whatever its accounts. *)
Theorem hook_rejects_direct_calls `{Laws : RuntimeLaws} source extra amount w t :
  data_of w source = DToken t -> t_transferring t <> Some true ->
  is_ok (execute (source :: extra) amount w) = false.
Proof.
  intros Ht Hn. destruct (execute _ _ _) as [[[] w']|e] eqn:Hr; [|done].
  exfalso. unfold execute in Hr. inv_ok.
  rename select (execute_accounts _ = Some _) into Ha.
  assert (Hs : ex_source_token v = source).
  { clear -Ha. do 18 (destruct extra as [|? extra]; [discriminate Ha|]). by injection Ha as <-. }
  congruence.
Qed.
