(* ===== verification/Deployed.v ===== *)
(** * Deployed: transfers of the mints the repository deploys

    A deployed mint has its asset configuration and the repository's transfer
    hook.  What a transfer of such a mint does, whoever starts it. *)

From S2P Require Import Prelude.
From S2P Require Import ProgramIds.
From S2P Require Import Bitmask.
From S2P Require Import Errors.
From S2P Require Import State.
From S2P Require Import Runtime.
From S2P Require Import Anchor.
From S2P Require Import Frame.
From S2P Require Import PdaSeeds.
From S2P Require Import PdaUtils.
From S2P Require Import Common.
From S2P Require Import Freeze.
From S2P Require Import FreezeProofs.
From S2P Require Import TransferControl.
From S2P Require Import Token.
From S2P Require Import TransferHook.

Definition hooked (w : World) (mint : Pubkey) : Prop :=
  exists m, mint_account w mint m /\ m_transfer_hook m = Some TRANSFER_HOOK_PROGRAM_ID.

Lemma mint_account_inj w k m m' : mint_account w k m -> mint_account w k m' -> m = m'.
Proof. unfold mint_account. congruence. Qed.
Lemma token_account_inj w k t t' : token_account w k t -> token_account w k t' -> t = t'.
Proof. unfold token_account. congruence. Qed.

Section deployed.
Context `{Rt : SolanaRuntime} `{Laws : !RuntimeLaws} `{Tok : Token2022} `{TLaws : !TokenLaws}.

(** Every mint with an asset configuration has the repository's hook. *)
Definition config_inv (w : World) : Prop :=
  forall mint k (c : AssetConfiguration),
    pda_at (asset_configuration_seeds mint) DEPLOY_PROGRAM_ID k -> stored w k c -> hooked w mint.

(** The balances after a transfer. *)
Record transferred (source destination : Pubkey) (n : Z) (s d : TokenState) (w w' : World) : Prop := {
  tr_now : w_now w' = w_now w;
  tr_source : token_account w' source (with_transferring false (with_amount (t_amount s - n) s));
  tr_destination :
    token_account w' destination (with_transferring false (with_amount (t_amount d + n) d));
  tr_frame : forall j, j <> source -> j <> destination -> account w' j = account w j }.

(** In the world the hook sees, the amount has moved and both accounts are transferring. *)
Definition in_flight (ix : TransferChecked) (s d : TokenState) (w : World) : World :=
  moved ix s d (Some true) w.

Lemma transferred_unmarked ix s d w :
  tx_source ix <> tx_destination ix ->
  transferred (tx_source ix) (tx_destination ix) (tx_amount ix) s d w (unmarked ix s d (in_flight ix s d w)).
Proof.
  intros Hne. unfold unmarked, in_flight, moved, put_token, token_account, mark.
  split; [done|..]; unfold token_account.
  - by rewrite account_set_account_ne, account_set_account_eq by done.
  - by rewrite account_set_account_eq.
  - intros j H1 H2. by rewrite !account_set_account_ne by done.
Qed.

Lemma transfer_effect other ix signers w w' :
  hooked w (tx_mint ix) ->
  transfer_checked (hook_program other) ix signers w = Ok (tt, w') ->
  exists s d, token_account w (tx_source ix) s /\ token_account w (tx_destination ix) d /\
    t_mint s = tx_mint ix /\ t_mint d = tx_mint ix /\ tx_authority ix ∈ signers /\
    0 <= tx_amount ix <= t_amount s /\
    ((tx_source ix = tx_destination ix /\ w' = w) \/
     (tx_source ix <> tx_destination ix /\ transferred (tx_source ix) (tx_destination ix) (tx_amount ix) s d w w' /\
      (tx_authority ix = permanent_delegate (tx_mint ix) \/
       compliant (in_flight ix s d w) (tx_mint ix) (tx_source ix) (tx_destination ix)))).
Proof.
  intros (m & Hm & Hh) Hr.
  apply transfer_checked_ok in Hr as (s & d & m' & Hs & Hd & Hm' & Es & Ed & _ & _ & Ha & Hn & Hw).
  rewrite (mint_account_inj _ _ _ _ Hm' Hm), Hh in Hw.
  exists s, d. do 6 (split; [done|]).
  destruct (N.eqb_spec (tx_source ix) (tx_destination ix)) as [E|E]; [by left|right].
  destruct Hw as (_ & extra & w1 & Hr & Hw). unfold hook_program in Hr.
  rewrite N.eqb_refl in Hr. apply execute_ok in Hr as (-> & _ & Hc).
  rewrite (Hw eq_refl). split_and!; [done|by apply transferred_unmarked|done].
Qed.
End deployed.
