(* ===== verification/Operations.v ===== *)
(** * Operations: the operations program ([programs/operations])

    The program owns no account: it holds the authorities of the mints, the
    permanent delegate and the permissioned burner, and acts for controllers
    ([burn], [batch_burn], [controller_transfer]) and for the hold program
    ([hold_transfer]).  No transfer hook protects the liens on these paths, the
    handlers check them. *)

From S2P Require Import Prelude.
From S2P Require Import ProgramIds.
From S2P Require Import Bitmask.
From S2P Require Import Errors.
From S2P Require Import State.
From S2P Require Import Runtime.
From S2P Require Import Anchor.
From S2P Require Import Frame.
From S2P Require Import PdaSeeds.
From S2P Require Import PdaUtils.
From S2P Require Import Common.
From S2P Require Import Token.
From S2P Require Import TransferHook.

(** ** Accounts *)

Record BurnTokens : Set := mkBurnTokens {
  bu_payer : Pubkey;
  bu_authority : Pubkey;
  bu_asset_configuration_pda : Pubkey;
  bu_deactivate_pda : Pubkey;
  bu_mint : Pubkey;
  bu_token_account : Pubkey;
  bu_operations_authority : Pubkey;
  bu_permissioned_burn_authority : Pubkey;
  bu_token_account_hold_position_pda : Pubkey;
  bu_asset_class_version_pda : Pubkey;
  bu_token_2022_program : Pubkey;
  bu_authority_roles_pda : Pubkey }.

Record BatchBurnTokens : Set := mkBatchBurnTokens {
  bb_authority : Pubkey;
  bb_asset_configuration_pda : Pubkey;
  bb_deactivate_pda : Pubkey;
  bb_mint : Pubkey;
  bb_operations_authority : Pubkey;
  bb_permissioned_burn_authority : Pubkey;
  bb_asset_class_version_pda : Pubkey;
  bb_token_2022_program : Pubkey;
  bb_authority_roles_pda : Pubkey }.

Record ControllerTransfer : Set := mkControllerTransfer {
  ct_authority : Pubkey;
  ct_asset_configuration_pda : Pubkey;
  ct_deactivate_pda : Pubkey;
  ct_mint : Pubkey;
  ct_from : Pubkey;
  ct_to : Pubkey;
  ct_operations_authority : Pubkey;
  ct_extra_account_meta_list : Pubkey;
  ct_transfer_hook_program : Pubkey;
  ct_freeze_program : Pubkey;
  ct_deploy_program : Pubkey;
  ct_factory_program : Pubkey;
  ct_deactivate_program : Pubkey;
  ct_transfer_control_program : Pubkey;
  ct_transfer_control_mode_pda : Pubkey;
  ct_source_control_list_pda : Pubkey;
  ct_destination_control_list_pda : Pubkey;
  ct_source_freeze_state_pda : Pubkey;
  ct_hold_program : Pubkey;
  ct_source_hold_position_pda : Pubkey;
  ct_asset_class_version_pda : Pubkey;
  ct_token_2022_program : Pubkey;
  ct_authority_roles_pda : Pubkey }.

Record HoldTransfer : Set := mkHoldTransfer {
  ht_hold_authority : Pubkey;
  ht_mint : Pubkey;
  ht_from : Pubkey;
  ht_to : Pubkey;
  ht_operations_authority : Pubkey;
  ht_extra_account_meta_list : Pubkey;
  ht_transfer_hook_program : Pubkey;
  ht_deploy_program : Pubkey;
  ht_asset_configuration_pda : Pubkey;
  ht_factory_program : Pubkey;
  ht_asset_class_version_pda : Pubkey;
  ht_deactivate_program : Pubkey;
  ht_deactivate_pda : Pubkey;
  ht_transfer_control_program : Pubkey;
  ht_transfer_control_mode_pda : Pubkey;
  ht_source_control_list_pda : Pubkey;
  ht_destination_control_list_pda : Pubkey;
  ht_freeze_program : Pubkey;
  ht_source_freeze_state_pda : Pubkey;
  ht_hold_program : Pubkey;
  ht_source_hold_position_pda : Pubkey;
  ht_token_2022_program : Pubkey }.

Definition ct_hook_accounts (a : ControllerTransfer) : HookAccounts := {|
  ha_extra_account_meta_list := ct_extra_account_meta_list a;
  ha_transfer_hook_program := ct_transfer_hook_program a;
  ha_deploy_program := ct_deploy_program a;
  ha_asset_configuration_pda := ct_asset_configuration_pda a;
  ha_factory_program := ct_factory_program a;
  ha_asset_class_version_pda := ct_asset_class_version_pda a;
  ha_deactivate_program := ct_deactivate_program a;
  ha_deactivate_pda := ct_deactivate_pda a;
  ha_transfer_control_program := ct_transfer_control_program a;
  ha_transfer_control_mode_pda := ct_transfer_control_mode_pda a;
  ha_source_control_list_pda := ct_source_control_list_pda a;
  ha_destination_control_list_pda := ct_destination_control_list_pda a;
  ha_freeze_program := ct_freeze_program a;
  ha_source_freeze_state_pda := ct_source_freeze_state_pda a;
  ha_hold_program := ct_hold_program a;
  ha_source_hold_position_pda := ct_source_hold_position_pda a |}.

Definition ht_hook_accounts (a : HoldTransfer) : HookAccounts := {|
  ha_extra_account_meta_list := ht_extra_account_meta_list a;
  ha_transfer_hook_program := ht_transfer_hook_program a;
  ha_deploy_program := ht_deploy_program a;
  ha_asset_configuration_pda := ht_asset_configuration_pda a;
  ha_factory_program := ht_factory_program a;
  ha_asset_class_version_pda := ht_asset_class_version_pda a;
  ha_deactivate_program := ht_deactivate_program a;
  ha_deactivate_pda := ht_deactivate_pda a;
  ha_transfer_control_program := ht_transfer_control_program a;
  ha_transfer_control_mode_pda := ht_transfer_control_mode_pda a;
  ha_source_control_list_pda := ht_source_control_list_pda a;
  ha_destination_control_list_pda := ht_destination_control_list_pda a;
  ha_freeze_program := ht_freeze_program a;
  ha_source_freeze_state_pda := ht_source_freeze_state_pda a;
  ha_hold_program := ht_hold_program a;
  ha_source_hold_position_pda := ht_source_hold_position_pda a |}.

Section instructions.
Context `{Rt : SolanaRuntime} `{Tok : Token2022} (other : HookCall).

(** [bump] is [ctx.bumps]'s of the account the constraint checked. *)
Definition BurnTokens_try_accounts (signers : list Pubkey) (a : BurnTokens) : M (Z * Z) :=
  signer signers (bu_payer a);;
  signer signers (bu_authority a);;
  asset_configuration ← account_try_from AssetConfiguration (bu_asset_configuration_pda a);
  loader_load AssetClassVersion (bu_asset_class_version_pda a);;
  check_program (bu_token_2022_program a) TOKEN_2022_PROGRAM_ID;;
  loader_load Roles (bu_authority_roles_pda a);;
  asset_configuration_constraint (bu_asset_configuration_pda a) (bu_mint a) asset_configuration;;
  deactivate_constraint (bu_deactivate_pda a) (bu_mint a);;
  delegate_bump ← seeds_check (bu_operations_authority a) (permanent_delegate_seeds (bu_mint a))
                    OPERATIONS_PROGRAM_ID;
  burn_bump ← seeds_check (bu_permissioned_burn_authority a) (permissioned_burn_seeds (bu_mint a))
                OPERATIONS_PROGRAM_ID;
  hold_position_constraint (bu_token_account_hold_position_pda a) (bu_mint a) (bu_token_account a);;
  asset_class_version_constraint (bu_asset_class_version_pda a) asset_configuration;;
  roles_constraint (bu_authority_roles_pda a) (bu_mint a) (bu_authority a);;
  mret (delegate_bump, burn_bump).

Definition burn (signers : list Pubkey) (a : BurnTokens) (amount : Z) : M unit :=
  '(delegate_bump, burn_bump) ← BurnTokens_try_accounts signers a;
  roles ← loader_load Roles (bu_authority_roles_pda a);
  require_role roles ROLE_CONTROLLER;;
  require_active (bu_deactivate_pda a);;
  version ← loader_load AssetClassVersion (bu_asset_class_version_pda a);
  require_functionality version OPERATIONS_BURN;;
  require_hold_covered (bu_token_account a) (bu_token_account_hold_position_pda a) amount;;
  delegate ← pda_signer
    (build_pda_signer_seeds (permanent_delegate_seeds (bu_mint a)) delegate_bump) OPERATIONS_PROGRAM_ID;
  burner ← pda_signer
    (build_pda_signer_seeds (permissioned_burn_seeds (bu_mint a)) burn_bump) OPERATIONS_PROGRAM_ID;
  permissioned_burn (bu_token_account a) (bu_mint a) (bu_permissioned_burn_authority a)
    (bu_operations_authority a) amount [delegate; burner];;
  emit_cpi (EvOperations (ControllerRedemption (bu_mint a) (bu_authority a) (bu_token_account a) amount)).

Definition BatchBurnTokens_try_accounts (signers : list Pubkey) (a : BatchBurnTokens) : M (Z * Z) :=
  signer signers (bb_authority a);;
  asset_configuration ← account_try_from AssetConfiguration (bb_asset_configuration_pda a);
  loader_load AssetClassVersion (bb_asset_class_version_pda a);;
  check_program (bb_token_2022_program a) TOKEN_2022_PROGRAM_ID;;
  loader_load Roles (bb_authority_roles_pda a);;
  asset_configuration_constraint (bb_asset_configuration_pda a) (bb_mint a) asset_configuration;;
  deactivate_constraint (bb_deactivate_pda a) (bb_mint a);;
  delegate_bump ← seeds_check (bb_operations_authority a) (permanent_delegate_seeds (bb_mint a))
                    OPERATIONS_PROGRAM_ID;
  burn_bump ← seeds_check (bb_permissioned_burn_authority a) (permissioned_burn_seeds (bb_mint a))
                OPERATIONS_PROGRAM_ID;
  asset_class_version_constraint (bb_asset_class_version_pda a) asset_configuration;;
  roles_constraint (bb_authority_roles_pda a) (bb_mint a) (bb_authority a);;
  mret (delegate_bump, burn_bump).

Definition batch_burn (signers : list Pubkey) (a : BatchBurnTokens)
    (remaining_accounts : list Pubkey) (amounts : list Z) : M unit :=
  '(delegate_bump, burn_bump) ← BatchBurnTokens_try_accounts signers a;
  require (negb (bool_decide (amounts = []))) (EOperations OperationsError.EmptyBatch);;
  require (bool_decide (length remaining_accounts = length amounts * 2)%nat)
    (EOperations OperationsError.InvalidRemainingAccounts);;
  roles ← loader_load Roles (bb_authority_roles_pda a);
  require_role roles ROLE_CONTROLLER;;
  require_active (bb_deactivate_pda a);;
  version ← loader_load AssetClassVersion (bb_asset_class_version_pda a);
  require_functionality version OPERATIONS_BURN;;
  for_each (zip amounts (pairs remaining_accounts)) (fun '(amount, (destination, hold_position_pda)) =>
    require_hold_covered_unverified_pda destination hold_position_pda (bb_mint a) amount;;
    delegate ← pda_signer
      (build_pda_signer_seeds (permanent_delegate_seeds (bb_mint a)) delegate_bump)
      OPERATIONS_PROGRAM_ID;
    burner ← pda_signer
      (build_pda_signer_seeds (permissioned_burn_seeds (bb_mint a)) burn_bump) OPERATIONS_PROGRAM_ID;
    permissioned_burn destination (bb_mint a) (bb_permissioned_burn_authority a)
      (bb_operations_authority a) amount [delegate; burner];;
    emit_cpi (EvOperations (ControllerRedemption (bb_mint a) (bb_authority a) destination amount))).

Definition ControllerTransfer_try_accounts (signers : list Pubkey) (a : ControllerTransfer) : M Z :=
  signer signers (ct_authority a);;
  asset_configuration ← account_try_from AssetConfiguration (ct_asset_configuration_pda a);
  loader_load AssetClassVersion (ct_asset_class_version_pda a);;
  check_program (ct_token_2022_program a) TOKEN_2022_PROGRAM_ID;;
  loader_load Roles (ct_authority_roles_pda a);;
  asset_configuration_constraint (ct_asset_configuration_pda a) (ct_mint a) asset_configuration;;
  deactivate_constraint (ct_deactivate_pda a) (ct_mint a);;
  bump ← seeds_check (ct_operations_authority a) (permanent_delegate_seeds (ct_mint a))
           OPERATIONS_PROGRAM_ID;
  seeds_check (ct_extra_account_meta_list a) (extra_account_metas_seeds (ct_mint a))
    TRANSFER_HOOK_PROGRAM_ID;;
  check_address (ct_transfer_hook_program a) TRANSFER_HOOK_PROGRAM_ID;;
  check_address (ct_freeze_program a) FREEZE_PROGRAM_ID;;
  check_address (ct_deploy_program a) DEPLOY_PROGRAM_ID;;
  check_address (ct_factory_program a) FACTORY_PROGRAM_ID;;
  check_address (ct_deactivate_program a) DEACTIVATE_PROGRAM_ID;;
  check_address (ct_transfer_control_program a) TRANSFER_CONTROL_PROGRAM_ID;;
  seeds_check (ct_transfer_control_mode_pda a) (transfer_control_mode_seeds (ct_mint a))
    TRANSFER_CONTROL_PROGRAM_ID;;
  seeds_check (ct_source_control_list_pda a) (control_list_seeds (ct_mint a) (ct_from a))
    TRANSFER_CONTROL_PROGRAM_ID;;
  seeds_check (ct_destination_control_list_pda a) (control_list_seeds (ct_mint a) (ct_to a))
    TRANSFER_CONTROL_PROGRAM_ID;;
  seeds_check (ct_source_freeze_state_pda a) (freeze_state_seeds (ct_mint a) (ct_from a))
    FREEZE_PROGRAM_ID;;
  check_address (ct_hold_program a) HOLD_PROGRAM_ID;;
  hold_position_constraint (ct_source_hold_position_pda a) (ct_mint a) (ct_from a);;
  asset_class_version_constraint (ct_asset_class_version_pda a) asset_configuration;;
  roles_constraint (ct_authority_roles_pda a) (ct_mint a) (ct_authority a);;
  mret bump.

Definition controller_transfer (signers : list Pubkey) (a : ControllerTransfer) (amount : Z) : M unit :=
  bump ← ControllerTransfer_try_accounts signers a;
  roles ← loader_load Roles (ct_authority_roles_pda a);
  require_role roles ROLE_CONTROLLER;;
  require_active (ct_deactivate_pda a);;
  version ← loader_load AssetClassVersion (ct_asset_class_version_pda a);
  require_functionality version OPERATIONS_CONTROLLER_TRANSFER;;
  require_hold_covered (ct_from a) (ct_source_hold_position_pda a) amount;;
  mint_state ← unpack_mint (ct_mint a);
  delegate ← pda_signer
    (build_pda_signer_seeds (permanent_delegate_seeds (ct_mint a)) bump) OPERATIONS_PROGRAM_ID;
  transfer_checked (hook_program other) {|
    tx_source := ct_from a; tx_mint := ct_mint a; tx_destination := ct_to a;
    tx_authority := ct_operations_authority a; tx_amount := amount;
    tx_decimals := m_decimals mint_state;
    tx_extra := ordered (ct_hook_accounts a) |} [delegate];;
  emit_cpi (EvOperations
    (ControllerTransferred (ct_mint a) (ct_authority a) (ct_from a) (ct_to a) amount)).

Definition HoldTransfer_try_accounts (signers : list Pubkey) (a : HoldTransfer) : M Z :=
  signer signers (ht_hold_authority a);;
  asset_configuration ← account_try_from AssetConfiguration (ht_asset_configuration_pda a);
  loader_load AssetClassVersion (ht_asset_class_version_pda a);;
  check_program (ht_token_2022_program a) TOKEN_2022_PROGRAM_ID;;
  bump ← seeds_check (ht_operations_authority a) (permanent_delegate_seeds (ht_mint a))
           OPERATIONS_PROGRAM_ID;
  seeds_check (ht_extra_account_meta_list a) (extra_account_metas_seeds (ht_mint a))
    TRANSFER_HOOK_PROGRAM_ID;;
  check_address (ht_transfer_hook_program a) TRANSFER_HOOK_PROGRAM_ID;;
  check_address (ht_deploy_program a) DEPLOY_PROGRAM_ID;;
  asset_configuration_constraint (ht_asset_configuration_pda a) (ht_mint a) asset_configuration;;
  check_address (ht_factory_program a) FACTORY_PROGRAM_ID;;
  asset_class_version_constraint (ht_asset_class_version_pda a) asset_configuration;;
  check_address (ht_deactivate_program a) DEACTIVATE_PROGRAM_ID;;
  deactivate_constraint (ht_deactivate_pda a) (ht_mint a);;
  check_address (ht_transfer_control_program a) TRANSFER_CONTROL_PROGRAM_ID;;
  seeds_check (ht_transfer_control_mode_pda a) (transfer_control_mode_seeds (ht_mint a))
    TRANSFER_CONTROL_PROGRAM_ID;;
  seeds_check (ht_source_control_list_pda a) (control_list_seeds (ht_mint a) (ht_from a))
    TRANSFER_CONTROL_PROGRAM_ID;;
  seeds_check (ht_destination_control_list_pda a) (control_list_seeds (ht_mint a) (ht_to a))
    TRANSFER_CONTROL_PROGRAM_ID;;
  check_address (ht_freeze_program a) FREEZE_PROGRAM_ID;;
  seeds_check (ht_source_freeze_state_pda a) (freeze_state_seeds (ht_mint a) (ht_from a))
    FREEZE_PROGRAM_ID;;
  check_address (ht_hold_program a) HOLD_PROGRAM_ID;;
  hold_position_constraint (ht_source_hold_position_pda a) (ht_mint a) (ht_from a);;
  mret bump.

Definition hold_transfer (signers : list Pubkey) (a : HoldTransfer) (amount : Z) : M unit :=
  bump ← HoldTransfer_try_accounts signers a;
  require (is_caller_pda (ht_hold_authority a) (hold_authority_seeds (ht_mint a)) HOLD_PROGRAM_ID)
    (EOperations OperationsError.UnauthorizedHoldAuthority);;
  mint_state ← unpack_mint (ht_mint a);
  delegate ← pda_signer
    (build_pda_signer_seeds (permanent_delegate_seeds (ht_mint a)) bump) OPERATIONS_PROGRAM_ID;
  transfer_checked (hook_program other) {|
    tx_source := ht_from a; tx_mint := ht_mint a; tx_destination := ht_to a;
    tx_authority := ht_operations_authority a; tx_amount := amount;
    tx_decimals := m_decimals mint_state;
    tx_extra := ordered (ht_hook_accounts a) |} [delegate].
End instructions.

Inductive OperationsInstruction : Set :=
| IxBurn (a : BurnTokens) (amount : Z)
| IxBatchBurn (a : BatchBurnTokens) (remaining_accounts : list Pubkey) (amounts : list Z)
| IxControllerTransfer (a : ControllerTransfer) (amount : Z)
| IxHoldTransfer (a : HoldTransfer) (amount : Z).

Definition operations `{Rt : SolanaRuntime} `{Tok : Token2022} (other : HookCall)
    (signers : list Pubkey) (ix : OperationsInstruction) : M unit :=
  match ix with
  | IxBurn a n => burn signers a n
  | IxBatchBurn a r ns => batch_burn signers a r ns
  | IxControllerTransfer a n => controller_transfer other signers a n
  | IxHoldTransfer a n => hold_transfer other signers a n
  end.
