(* ===== verification/OperationsProofs.v ===== *)
(** * OperationsProofs: burns and forced transfers respect the liens *)

From S2P Require Import Prelude.
From S2P Require Import ProgramIds.
From S2P Require Import Bitmask.
From S2P Require Import Errors.
From S2P Require Import State.
From S2P Require Import Runtime.
From S2P Require Import Anchor.
From S2P Require Import Frame.
From S2P Require Import PdaSeeds.
From S2P Require Import PdaUtils.
From S2P Require Import Common.
From S2P Require Import Reference.
From S2P Require Import Sample.
From S2P Require Import Freeze.
From S2P Require Import FreezeProofs.
From S2P Require Import TransferControl.
From S2P Require Import Token.
From S2P Require Import TransferHook.
From S2P Require Import Deployed.
From S2P Require Import Operations.

Section effects.
Context `{Rt : SolanaRuntime} `{Laws : !RuntimeLaws} `{Tok : Token2022} `{TLaws : !TokenLaws}.

Definition position_pda (mint token : Pubkey) : Pubkey :=
  pda (hold_position_seeds mint token) HOLD_PROGRAM_ID.

(** [n] tokens of [account] are burnt. *)
Definition burnt (mint account : Pubkey) (n : Z) (w w' : World) : Prop :=
  exists t m, token_account w account t /\ mint_account w mint m /\ t_mint t = mint /\
    0 <= n /\ lien w (position_pda mint account) + n <= t_amount t /\ n <= m_supply m /\
    w_accounts w' = w_accounts (put_mint mint (with_supply (m_supply m - n) m)
      (put_token account (with_amount (t_amount t - n) t) w)) /\ w_now w' = w_now w.

(** The caller is a controller of an active mint with the functionality. *)
Definition controller_allowed (w : World) (signers : list Pubkey) (mint authority : Pubkey)
    (functionality : Z) : Prop :=
  authority ∈ signers /\
  data_is_empty (data_of w (pda (deactivate_seeds mint) DEACTIVATE_PROGRAM_ID)) = true /\
  (exists k r, pda_at (roles_seeds mint authority) ACCESS_CONTROL_PROGRAM_ID k /\
     stored w k r /\ has_role r ROLE_CONTROLLER) /\
  exists kc c kv v,
    pda_at (asset_configuration_seeds mint) DEPLOY_PROGRAM_ID kc /\ stored w kc c /\
    pda_at (asset_class_version_seeds (ac_asset_class_config_id c) (ac_asset_class_version_id c))
      FACTORY_PROGRAM_ID kv /\ stored w kv v /\ functionality_enabled v functionality.

Lemma burnt_token t_account mint burn_authority authority n signers w w' :
  permissioned_burn t_account mint burn_authority authority n signers w = Ok (tt, w') ->
  (exists s, data_of w t_account = DToken s /\ lien w (position_pda mint t_account) + n <= t_amount s) ->
  burnt mint t_account n w w'.
Proof.
  intros Hr (s & Hs & Hn).
  apply permissioned_burn_ok in Hr as (t & m & Ht & Hm & Em & _ & _ & _ & Hn' & Hsup & ->).
  unfold data_of, token_account in *. rewrite Ht in Hs. simpl in Hs. simplify_eq.
  exists s, m. split_and!; done || lia.
Qed.

Lemma burn_effect signers a n w w' :
  burn signers a n w = Ok (tt, w') ->
  controller_allowed w signers (bu_mint a) (bu_authority a) OPERATIONS_BURN /\
  burnt (bu_mint a) (bu_token_account a) n w w'.
Proof.
  intros Hr. unfold burn, BurnTokens_try_accounts in Hr. inv_ok. split.
  - split_and!; [done|congruence|eauto|]. eexists _, _, _, _. split_and!; eauto.
  - rename select (permissioned_burn _ _ _ _ _ _ _ = _) into Hb.
    rename select (bu_token_account_hold_position_pda a = _) into Ek. rewrite Ek in *.
    apply burnt_token in Hb; eauto.
Qed.

(** A batch burns in order. *)
Fixpoint burnt_all (mint : Pubkey) (xs : list (Z * Pubkey)) (w w' : World) : Prop :=
  match xs with
  | [] => w' = w
  | (n, account) :: xs => exists w1, burnt mint account n w w1 /\ burnt_all mint xs w1 w'
  end.

(** [n] tokens are moved without the consent of their owner. *)
Definition forced (mint from to : Pubkey) (n : Z) (w w' : World) : Prop :=
  exists s d, token_account w from s /\ token_account w to d /\ t_mint s = mint /\ t_mint d = mint /\
    0 <= n /\
    ((from = to /\ w_accounts w' = w_accounts w /\ w_now w' = w_now w) \/
     (from <> to /\ transferred from to n s d w w')).

Lemma batch_burn_effect signers a r ns w w' :
  batch_burn signers a r ns w = Ok (tt, w') ->
  controller_allowed w signers (bb_mint a) (bb_authority a) OPERATIONS_BURN /\
  length r = (length ns * 2)%nat /\
  burnt_all (bb_mint a) ((fun p => (p.1, p.2.1)) <$> zip ns (pairs r)) w w'.
Proof.
  intros Hr. unfold batch_burn, BatchBurnTokens_try_accounts in Hr. inv_ok. zify_checks. split_and!.
  - split_and!; [done|congruence|eauto|]. eexists _, _, _, _. split_and!; eauto.
  - done.
  - rename select (for_each _ _ _ = _) into Hf. revert Hf. clear - Laws TLaws.
    generalize (zip ns (pairs r)) as xs. intros xs. revert w.
    induction xs as [|[n [account hp]] xs IH]; intros w Hf; simpl in *; [by inv_ok|].
    apply bind_ok in Hf as ([] & w1 & Hb & Hf). exists w1. split; [|by apply IH].
    inv_ok. rename select (permissioned_burn _ _ _ _ _ _ _ = _) into Hb.
    apply burnt_token in Hb; eauto.
Qed.

Lemma controller_transfer_effect other signers a n w w' :
  config_inv w -> controller_transfer other signers a n w = Ok (tt, w') ->
  controller_allowed w signers (ct_mint a) (ct_authority a) OPERATIONS_CONTROLLER_TRANSFER /\
  exists s d, token_account w (ct_from a) s /\ token_account w (ct_to a) d /\
    t_mint s = ct_mint a /\ t_mint d = ct_mint a /\ 0 <= n /\
    lien w (position_pda (ct_mint a) (ct_from a)) + n <= t_amount s /\
    ((ct_from a = ct_to a /\ w_accounts w' = w_accounts w /\ w_now w' = w_now w) \/
     (ct_from a <> ct_to a /\ transferred (ct_from a) (ct_to a) n s d w w')).
Proof.
  intros Hc Hr. unfold controller_transfer, ControllerTransfer_try_accounts in Hr. inv_ok. split.
  - split_and!; [done|congruence|eauto|]. eexists _, _, _, _. split_and!; eauto.
  - rename select (transfer_checked _ _ _ _ = _) into Ht.
    apply transfer_effect in Ht; [|by eapply Hc].
    destruct Ht as (s & d & Hs & Hd & Es & Ed & _ & Hn & Hw). simpl in *.
    rename select (ct_source_hold_position_pda a = _) into Ek. rewrite Ek in *.
    exists s, d. split_and!; try done; [lia| |].
    + rename select (data_of _ (ct_from a) = _) into Hdata.
      unfold token_account, data_of in *. rewrite Hs in Hdata. simpl in Hdata. by simplify_eq.
    + destruct Hw as [[E ->]|(E & Htr & _)]; [by left|right; split; [done|]].
      destruct Htr. by split.
Qed.

Lemma hold_transfer_effect other signers a n w w' :
  config_inv w -> hold_transfer other signers a n w = Ok (tt, w') ->
  ht_hold_authority a = pda (hold_authority_seeds (ht_mint a)) HOLD_PROGRAM_ID /\
  ht_hold_authority a ∈ signers /\
  exists s d, token_account w (ht_from a) s /\ token_account w (ht_to a) d /\
    t_mint s = ht_mint a /\ t_mint d = ht_mint a /\ 0 <= n <= t_amount s /\
    ((ht_from a = ht_to a /\ w' = w) \/ (ht_from a <> ht_to a /\ transferred (ht_from a) (ht_to a) n s d w w')).
Proof.
  intros Hc Hr. unfold hold_transfer, HoldTransfer_try_accounts in Hr. inv_ok.
  rename select (is_caller_pda _ _ _ = true) into Hp. unfold is_caller_pda in Hp. zify_checks.
  apply transfer_effect in Hr; [|by eapply Hc].
  destruct Hr as (s & d & Hs & Hd & Es & Ed & _ & Hn & Hw). simpl in *.
  split_and!; [done|done|]. exists s, d. split_and!; try done; try lia.
  destruct Hw as [[E ->]|(E & Htr & _)]; [by left|right; split; [done|exact Htr]].
Qed.
(** What each instruction of the program promises. *)
Definition operation_promise (ix : OperationsInstruction) (signers : list Pubkey) (w w' : World) : Prop :=
  match ix with
  | IxBurn a n =>
      controller_allowed w signers (bu_mint a) (bu_authority a) OPERATIONS_BURN /\
      burnt (bu_mint a) (bu_token_account a) n w w'
  | IxBatchBurn a r ns =>
      controller_allowed w signers (bb_mint a) (bb_authority a) OPERATIONS_BURN /\
      length r = (length ns * 2)%nat /\
      burnt_all (bb_mint a) ((fun p => (p.1, p.2.1)) <$> zip ns (pairs r)) w w'
  | IxControllerTransfer a n =>
      controller_allowed w signers (ct_mint a) (ct_authority a) OPERATIONS_CONTROLLER_TRANSFER /\
      forced (ct_mint a) (ct_from a) (ct_to a) n w w' /\
      exists s, token_account w (ct_from a) s /\
        lien w (position_pda (ct_mint a) (ct_from a)) + n <= t_amount s
  | IxHoldTransfer a n =>
      pda (hold_authority_seeds (ht_mint a)) HOLD_PROGRAM_ID ∈ signers /\
      forced (ht_mint a) (ht_from a) (ht_to a) n w w'
  end.

Lemma operations_promise other signers ix w w' :
  config_inv w -> operations other signers ix w = Ok (tt, w') -> operation_promise ix signers w w'.
Proof.
  intros Hc Hr. destruct ix as [a n|a r ns|a n|a n]; simpl in *.
  - by apply burn_effect.
  - by apply batch_burn_effect.
  - apply controller_transfer_effect in Hr as [Ha (s & d & Hs & Hd & Es & Ed & Hn & Hl & Hw)]; [|done].
    split; [done|split; [|by exists s]].
    exists s, d. by split_and!.
  - apply hold_transfer_effect in Hr as (E & Ha & s & d & Hs & Hd & Es & Ed & Hn & Hw); [|done].
    rewrite E in Ha. split; [done|]. exists s, d. split_and!; try done; try lia.
    destruct Hw as [[? ->]|[? ?]]; [by left|by right].
Qed.
End effects.

(** C26: A burn, single or batch, is made by a controller of the mint, while the
    mint is active and its class has the functionality; it takes the amount from the token account
    and from the supply, never more than the holds on the account leave free, and changes nothing
    else.  A batch burns its amounts one after the other, one pair of accounts each. *)
Theorem burns_respect_holds `{Laws : RuntimeLaws} `{TLaws : TokenLaws} other signers ix w w' :
  match ix with IxBurn _ _ | IxBatchBurn _ _ _ => True | _ => False end ->
  config_inv w -> operations other signers ix w = Ok (tt, w') -> operation_promise ix signers w w'.
Proof. intros _. apply operations_promise. Qed.

(** C27: A transfer without the owner's consent is either made by a
    controller of the mint, while the mint is active, for no more than the holds on the source
    leave free, or by the hold program (its hold authority of the mint signs); it moves the amount
    between two accounts of the mint and changes nothing else. *)
Theorem forced_transfers_respect_holds `{Laws : RuntimeLaws} `{TLaws : TokenLaws} other signers ix w w' :
  match ix with IxControllerTransfer _ _ | IxHoldTransfer _ _ => True | _ => False end ->
  config_inv w -> operations other signers ix w = Ok (tt, w') -> operation_promise ix signers w w'.
Proof. intros _. apply operations_promise. Qed.
