(* ===== verification/Hold.v ===== *)
(** * Hold: the hold program ([programs/hold])

    A [HoldPosition] accumulates the amount held on one token account of a mint;
    each hold is a [Hold] account, numbered from 1 within its position.  Creation
    raises the position, execution, release and reclaim lower it with the hold. *)

From S2P Require Import Prelude.
From S2P Require Import ProgramIds.
From S2P Require Import Bitmask.
From S2P Require Import Errors.
From S2P Require Import State.
From S2P Require Import Runtime.
From S2P Require Import Anchor.
From S2P Require Import Frame.
From S2P Require Import PdaSeeds.
From S2P Require Import PdaUtils.
From S2P Require Import Common.
From S2P Require Import Freeze.
From S2P Require Import TransferControl.
From S2P Require Import Token.
From S2P Require Import TransferHook.
From S2P Require Import Operations.

(** ** [creation.rs] *)

Record NewHoldArgs : Set := mkNewHoldArgs {
  nh_hold_id : Z;
  nh_amount : Z;
  nh_expiration : Z;
  nh_escrow : Pubkey;
  nh_destination : option Pubkey }.

Record HoldTarget : Set := mkHoldTarget {
  tg_mint : Pubkey;
  tg_token_account : Pubkey;
  tg_balance : Z;
  tg_freeze_state_pda : Pubkey }.

(** The position and the hold are passed by [&mut]: their new values are returned. *)
Definition record_new_hold (target : HoldTarget) (position : HoldPosition) (position_bump : Z)
    (hold_bump : Z) (args : NewHoldArgs) : M (HoldPosition * Hold) :=
  freeze_status ← freeze_status (tg_freeze_state_pda target);
  require (negb (fully_frozen freeze_status)) (EFreeze FreezeError.AccountFrozen);;
  require (0 <? nh_amount args) (EHold HoldError.ZeroAmount);;
  now ← gets w_now;
  require (now <? nh_expiration args) (EHold HoldError.ExpirationInThePast);;
  expected_hold_id ← lift (ok_or (checked_add_u64 (hp_hold_count position) 1)
                             (EHold HoldError.HoldIdMismatch));
  require (nh_hold_id args =? expected_hold_id) (EHold HoldError.HoldIdMismatch);;
  let available :=
    saturating_sub_u64 (saturating_sub_u64 (tg_balance target) (frozen_balance freeze_status))
      (hp_held_amount position) in
  require (nh_amount args <=? available) (EHold HoldError.InsufficientAvailableBalance);;
  held_amount ← lift (ok_or (checked_add_u64 (hp_held_amount position) (nh_amount args))
                        (EHold HoldError.InsufficientAvailableBalance));
  mret (mkHoldPosition (tg_mint target) (tg_token_account target) held_amount expected_hold_id
          position_bump,
        {| h_mint := tg_mint target; h_token_account := tg_token_account target;
           h_hold_id := nh_hold_id args; h_escrow := nh_escrow args;
           h_destination := nh_destination args; h_initial_amount := nh_amount args;
           h_current_amount := nh_amount args; h_created_at := now;
           h_expiration := nh_expiration args; h_status := Active; h_bump := hold_bump |}).

(** ** Updates of the two accounts *)

Definition with_held (n : Z) (p : HoldPosition) : HoldPosition :=
  mkHoldPosition (hp_mint p) (hp_token_account p) n (hp_hold_count p) (hp_bump p).

Definition with_current (n : Z) (s : HoldStatus) (h : Hold) : Hold :=
  mkHold (h_mint h) (h_token_account h) (h_hold_id h) (h_escrow h) (h_destination h)
    (h_initial_amount h) n (h_created_at h) (h_expiration h) s (h_bump h).

Definition is_active (s : HoldStatus) : bool := match s with Active => true | _ => false end.

(** [hold.current_amount -= amount; if hold.current_amount == 0 { hold.status = Closed }] *)
Definition consume (amount : Z) (h : Hold) : M Hold :=
  current ← lift (ok_or (checked_sub_u64 (h_current_amount h) amount)
                    (EHold HoldError.AmountExceedsHold));
  mret (with_current current (if current =? 0 then Closed else h_status h) h).

(** [if let Some(pinned) = hold.destination { require_keys_eq!(..) }] *)
Definition require_destination (pinned : option Pubkey) (destination_key : Pubkey) : M unit :=
  match pinned with
  | Some pinned => require (N.eqb destination_key pinned) (EHold HoldError.DestinationMismatch)
  | None => mret tt
  end.

(** ** Accounts *)

Record CreateHold : Set := mkCreateHold {
  ch_payer : Pubkey;
  ch_authority : Pubkey;
  ch_asset_configuration_pda : Pubkey;
  ch_deactivate_pda : Pubkey;
  ch_mint : Pubkey;
  ch_token_account : Pubkey;
  ch_token_account_freeze_state_pda : Pubkey;
  ch_hold_position : Pubkey;
  ch_hold_record : Pubkey;
  ch_asset_class_version_pda : Pubkey;
  ch_token_program : Pubkey }.

(** [ControllerCreateHold] has the fields of [CreateHold] and the roles of the controller. *)
Record ControllerCreateHold : Set := mkControllerCreateHold {
  cch_accounts : CreateHold;
  cch_authority_roles_pda : Pubkey }.

Record ExecuteHold : Set := mkExecuteHold {
  eh_escrow : Pubkey;
  eh_asset_configuration_pda : Pubkey;
  eh_deactivate_pda : Pubkey;
  eh_mint : Pubkey;
  eh_source_token : Pubkey;
  eh_destination_token : Pubkey;
  eh_hold_position : Pubkey;
  eh_hold_record : Pubkey;
  eh_hold_authority : Pubkey;
  eh_operations_authority : Pubkey;
  eh_operations_program : Pubkey;
  eh_extra_account_meta_list : Pubkey;
  eh_transfer_hook_program : Pubkey;
  eh_deploy_program : Pubkey;
  eh_factory_program : Pubkey;
  eh_asset_class_version_pda : Pubkey;
  eh_deactivate_program : Pubkey;
  eh_transfer_control_program : Pubkey;
  eh_transfer_control_mode_pda : Pubkey;
  eh_source_control_list_pda : Pubkey;
  eh_destination_control_list_pda : Pubkey;
  eh_freeze_program : Pubkey;
  eh_source_freeze_state_pda : Pubkey;
  eh_hold_program : Pubkey;
  eh_token_2022_program : Pubkey }.

(** [ReleaseHold] ([rh_caller] is its [escrow]) and [ReclaimHold] *)
Record ReleaseHold : Set := mkReleaseHold {
  rh_caller : Pubkey;
  rh_mint : Pubkey;
  rh_asset_configuration_pda : Pubkey;
  rh_asset_class_version_pda : Pubkey;
  rh_token_account : Pubkey;
  rh_hold_position : Pubkey;
  rh_hold_record : Pubkey }.

Section instructions.
Context `{Rt : SolanaRuntime} `{Tok : Token2022} (other : HookCall).

(** What the two creation structs share; [authority] is the required owner of the token
    account, if any, and [roles] the role account of the caller, if any. *)
Definition create_try_accounts (signers : list Pubkey) (a : CreateHold) (hold_id : Z)
    (owner : option Pubkey) (roles : option Pubkey) :
    M (TokenState * (HoldPosition * Z) * Z) :=
  signer signers (ch_payer a);;
  signer signers (ch_authority a);;
  (match roles with Some k => loader_load Roles k;; mret tt | None => mret tt end);;
  asset_configuration ← account_try_from AssetConfiguration (ch_asset_configuration_pda a);
  interface_mint (ch_mint a);;
  token ← interface_token (ch_token_account a);
  loader_load AssetClassVersion (ch_asset_class_version_pda a);;
  require (is_token_program (ch_token_program a)) (EAnchor InvalidProgramId);;
  position_bump ← seeds_check (ch_hold_position a)
    (hold_position_seeds (ch_mint a) (ch_token_account a)) HOLD_PROGRAM_ID;
  position ← account_init_if_needed HoldPosition (ch_payer a) (ch_hold_position a) signers;
  hold_bump ← seeds_check (ch_hold_record a)
    (hold_seeds (ch_mint a) (ch_token_account a) hold_id) HOLD_PROGRAM_ID;
  account_init Hold (ch_payer a) (ch_hold_record a) signers;;
  (match roles with
   | Some k => roles_constraint k (ch_mint a) (ch_authority a)
   | None => mret tt
   end);;
  asset_configuration_constraint (ch_asset_configuration_pda a) (ch_mint a) asset_configuration;;
  deactivate_constraint (ch_deactivate_pda a) (ch_mint a);;
  token_constraint token (ch_mint a) owner (ch_token_program a);;
  seeds_check (ch_token_account_freeze_state_pda a)
    (freeze_state_seeds (ch_mint a) (ch_token_account a)) FREEZE_PROGRAM_ID;;
  asset_class_version_constraint (ch_asset_class_version_pda a) asset_configuration;;
  mret (token.1, (position, position_bump), hold_bump).

Definition CreateHold_try_accounts (signers : list Pubkey) (a : CreateHold) (hold_id : Z) :=
  create_try_accounts signers a hold_id (Some (ch_authority a)) None.

Definition ControllerCreateHold_try_accounts (signers : list Pubkey) (a : ControllerCreateHold)
    (hold_id : Z) :=
  create_try_accounts signers (cch_accounts a) hold_id None (Some (cch_authority_roles_pda a)).

Definition create_guards (a : CreateHold) : M unit :=
  require_not_paused (ch_mint a);;
  require_active (ch_deactivate_pda a);;
  version ← loader_load AssetClassVersion (ch_asset_class_version_pda a);
  require_functionality version HOLD_CREATE_HOLD.

Definition hold_target (a : CreateHold) (token : TokenState) : HoldTarget :=
  mkHoldTarget (ch_mint a) (ch_token_account a) (t_amount token)
    (ch_token_account_freeze_state_pda a).

Definition create_hold (signers : list Pubkey) (a : CreateHold) (hold_id amount expiration : Z)
    (escrow : Pubkey) (destination : option Pubkey) : M unit :=
  '(token, (position, position_bump), hold_bump) ← CreateHold_try_accounts signers a hold_id;
  create_guards a;;
  '(position, hold) ← record_new_hold (hold_target a token) position position_bump hold_bump
    (mkNewHoldArgs hold_id amount expiration escrow destination);
  emit_cpi (EvHold (HoldCreated (ch_mint a) (ch_token_account a) hold_id escrow destination amount
    expiration));;
  account_exit (ch_hold_position a) position;;
  account_exit (ch_hold_record a) hold.

Definition controller_create_hold (signers : list Pubkey) (a : ControllerCreateHold)
    (hold_id amount expiration : Z) (escrow : Pubkey) (destination : option Pubkey) : M unit :=
  '(token, (position, position_bump), hold_bump) ←
    ControllerCreateHold_try_accounts signers a hold_id;
  roles ← loader_load Roles (cch_authority_roles_pda a);
  require_role roles ROLE_CONTROLLER;;
  create_guards (cch_accounts a);;
  '(position, hold) ← record_new_hold (hold_target (cch_accounts a) token) position position_bump
    hold_bump (mkNewHoldArgs hold_id amount expiration escrow destination);
  emit_cpi (EvHold (ControllerHoldCreated (ch_mint (cch_accounts a))
    (ch_token_account (cch_accounts a)) hold_id (ch_authority (cch_accounts a)) escrow destination
    amount expiration));;
  account_exit (ch_hold_position (cch_accounts a)) position;;
  account_exit (ch_hold_record (cch_accounts a)) hold.

Definition ExecuteHold_try_accounts (signers : list Pubkey) (a : ExecuteHold) (hold_id : Z) :
    M (HoldPosition * Hold * Z) :=
  signer signers (eh_escrow a);;
  asset_configuration ← account_try_from AssetConfiguration (eh_asset_configuration_pda a);
  interface_mint (eh_mint a);;
  source ← interface_token (eh_source_token a);
  destination ← interface_token (eh_destination_token a);
  position ← account_try_from HoldPosition (eh_hold_position a);
  hold ← account_try_from Hold (eh_hold_record a);
  loader_load AssetClassVersion (eh_asset_class_version_pda a);;
  check_program (eh_token_2022_program a) TOKEN_2022_PROGRAM_ID;;
  asset_configuration_constraint (eh_asset_configuration_pda a) (eh_mint a) asset_configuration;;
  deactivate_constraint (eh_deactivate_pda a) (eh_mint a);;
  token_constraint source (eh_mint a) None (eh_token_2022_program a);;
  token_constraint destination (eh_mint a) None (eh_token_2022_program a);;
  seeds_bump_check (eh_hold_position a) (hold_position_seeds (eh_mint a) (eh_source_token a))
    HOLD_PROGRAM_ID (hp_bump position);;
  seeds_bump_check (eh_hold_record a) (hold_seeds (eh_mint a) (eh_source_token a) hold_id)
    HOLD_PROGRAM_ID (h_bump hold);;
  authority_bump ← seeds_check (eh_hold_authority a) (hold_authority_seeds (eh_mint a)) HOLD_PROGRAM_ID;
  seeds_check (eh_operations_authority a) (permanent_delegate_seeds (eh_mint a))
    OPERATIONS_PROGRAM_ID;;
  check_address (eh_operations_program a) OPERATIONS_PROGRAM_ID;;
  seeds_check (eh_extra_account_meta_list a) (extra_account_metas_seeds (eh_mint a))
    TRANSFER_HOOK_PROGRAM_ID;;
  check_address (eh_transfer_hook_program a) TRANSFER_HOOK_PROGRAM_ID;;
  check_address (eh_deploy_program a) DEPLOY_PROGRAM_ID;;
  check_address (eh_factory_program a) FACTORY_PROGRAM_ID;;
  asset_class_version_constraint (eh_asset_class_version_pda a) asset_configuration;;
  check_address (eh_deactivate_program a) DEACTIVATE_PROGRAM_ID;;
  check_address (eh_transfer_control_program a) TRANSFER_CONTROL_PROGRAM_ID;;
  seeds_check (eh_transfer_control_mode_pda a) (transfer_control_mode_seeds (eh_mint a))
    TRANSFER_CONTROL_PROGRAM_ID;;
  seeds_check (eh_source_control_list_pda a) (control_list_seeds (eh_mint a) (eh_source_token a))
    TRANSFER_CONTROL_PROGRAM_ID;;
  seeds_check (eh_destination_control_list_pda a)
    (control_list_seeds (eh_mint a) (eh_destination_token a)) TRANSFER_CONTROL_PROGRAM_ID;;
  check_address (eh_freeze_program a) FREEZE_PROGRAM_ID;;
  seeds_check (eh_source_freeze_state_pda a) (freeze_state_seeds (eh_mint a) (eh_source_token a))
    FREEZE_PROGRAM_ID;;
  check_address (eh_hold_program a) HOLD_PROGRAM_ID;;
  mret (position, hold, authority_bump).

Definition eh_hold_transfer (a : ExecuteHold) : HoldTransfer := {|
  ht_hold_authority := eh_hold_authority a;
  ht_mint := eh_mint a;
  ht_from := eh_source_token a;
  ht_to := eh_destination_token a;
  ht_operations_authority := eh_operations_authority a;
  ht_extra_account_meta_list := eh_extra_account_meta_list a;
  ht_transfer_hook_program := eh_transfer_hook_program a;
  ht_deploy_program := eh_deploy_program a;
  ht_asset_configuration_pda := eh_asset_configuration_pda a;
  ht_factory_program := eh_factory_program a;
  ht_asset_class_version_pda := eh_asset_class_version_pda a;
  ht_deactivate_program := eh_deactivate_program a;
  ht_deactivate_pda := eh_deactivate_pda a;
  ht_transfer_control_program := eh_transfer_control_program a;
  ht_transfer_control_mode_pda := eh_transfer_control_mode_pda a;
  ht_source_control_list_pda := eh_source_control_list_pda a;
  ht_destination_control_list_pda := eh_destination_control_list_pda a;
  ht_freeze_program := eh_freeze_program a;
  ht_source_freeze_state_pda := eh_source_freeze_state_pda a;
  ht_hold_program := eh_hold_program a;
  ht_source_hold_position_pda := eh_hold_position a;
  ht_token_2022_program := eh_token_2022_program a |}.

(** The position and the hold are written back after the transfer, at the end. *)
Definition execute_hold (signers : list Pubkey) (a : ExecuteHold) (hold_id amount : Z) : M unit :=
  '(position, hold, authority_bump) ← ExecuteHold_try_accounts signers a hold_id;
  require_not_paused (eh_mint a);;
  require_active (eh_deactivate_pda a);;
  version ← loader_load AssetClassVersion (eh_asset_class_version_pda a);
  require_functionality version HOLD_CREATE_HOLD;;
  require (N.eqb (eh_escrow a) (h_escrow hold)) (EHold HoldError.NotTheEscrow);;
  require (is_active (h_status hold)) (EHold HoldError.HoldNotActive);;
  now ← gets w_now;
  require (now <? h_expiration hold) (EHold HoldError.HoldExpired);;
  require (0 <? amount) (EHold HoldError.ZeroAmount);;
  require (amount <=? h_current_amount hold) (EHold HoldError.AmountExceedsHold);;
  require_destination (h_destination hold) (eh_destination_token a);;
  verify_transfer_control_mode (eh_transfer_control_mode_pda a)
    [eh_source_control_list_pda a; eh_destination_control_list_pda a];;
  freeze_status ← freeze_status (eh_source_freeze_state_pda a);
  require (negb (fully_frozen freeze_status)) (EFreeze FreezeError.AccountFrozen);;
  held_after ← lift (ok_or (checked_sub_u64 (hp_held_amount position) amount)
                       (EHold HoldError.HeldAmountUnderflow));
  total_locked ← lift (ok_or
    (locked ← checked_add_u64 (frozen_balance freeze_status) held_after; checked_add_u64 locked amount)
    (EHold HoldError.HeldAmountUnderflow));
  require_locked_balance_covered (eh_source_token a) total_locked;;
  let position := with_held held_after position in
  hold ← consume amount hold;
  let remaining_amount := h_current_amount hold in
  authority ← pda_signer
    (build_pda_signer_seeds (hold_authority_seeds (eh_mint a)) authority_bump) HOLD_PROGRAM_ID;
  hold_transfer other [authority] (eh_hold_transfer a) amount;;
  emit_cpi (EvHold (HoldExecuted (eh_mint a) (eh_source_token a) (h_hold_id hold) (eh_escrow a)
    (eh_destination_token a) amount remaining_amount));;
  account_exit (eh_hold_position a) position;;
  account_exit (eh_hold_record a) hold.

Definition ReleaseHold_try_accounts (signers : list Pubkey) (a : ReleaseHold) (hold_id : Z) :
    M (HoldPosition * Hold) :=
  signer signers (rh_caller a);;
  asset_configuration ← account_try_from AssetConfiguration (rh_asset_configuration_pda a);
  loader_load AssetClassVersion (rh_asset_class_version_pda a);;
  position ← account_try_from HoldPosition (rh_hold_position a);
  hold ← account_try_from Hold (rh_hold_record a);
  asset_configuration_constraint (rh_asset_configuration_pda a) (rh_mint a) asset_configuration;;
  asset_class_version_constraint (rh_asset_class_version_pda a) asset_configuration;;
  seeds_bump_check (rh_hold_position a) (hold_position_seeds (rh_mint a) (rh_token_account a))
    HOLD_PROGRAM_ID (hp_bump position);;
  seeds_bump_check (rh_hold_record a) (hold_seeds (rh_mint a) (rh_token_account a) hold_id)
    HOLD_PROGRAM_ID (h_bump hold);;
  mret (position, hold).

Definition ReclaimHold_try_accounts := ReleaseHold_try_accounts.

Definition release_hold (signers : list Pubkey) (a : ReleaseHold) (hold_id amount : Z) : M unit :=
  '(position, hold) ← ReleaseHold_try_accounts signers a hold_id;
  version ← loader_load AssetClassVersion (rh_asset_class_version_pda a);
  require_functionality version HOLD_CREATE_HOLD;;
  require (N.eqb (rh_caller a) (h_escrow hold)) (EHold HoldError.NotTheEscrow);;
  require (is_active (h_status hold)) (EHold HoldError.HoldNotActive);;
  require (0 <? amount) (EHold HoldError.ZeroAmount);;
  require (amount <=? h_current_amount hold) (EHold HoldError.AmountExceedsHold);;
  held ← lift (ok_or (checked_sub_u64 (hp_held_amount position) amount)
                 (EHold HoldError.HeldAmountUnderflow));
  let position := with_held held position in
  hold ← consume amount hold;
  emit_cpi (EvHold (HoldReleased (h_mint hold) (h_token_account hold) (h_hold_id hold)
    (h_escrow hold) amount (h_current_amount hold)));;
  account_exit (rh_hold_position a) position;;
  account_exit (rh_hold_record a) hold.

Definition reclaim_hold (signers : list Pubkey) (a : ReleaseHold) (hold_id : Z) : M unit :=
  '(position, hold) ← ReclaimHold_try_accounts signers a hold_id;
  version ← loader_load AssetClassVersion (rh_asset_class_version_pda a);
  require_functionality version HOLD_CREATE_HOLD;;
  require (is_active (h_status hold)) (EHold HoldError.HoldNotActive);;
  now ← gets w_now;
  require (h_expiration hold <=? now) (EHold HoldError.HoldNotExpired);;
  let amount := h_current_amount hold in
  held ← lift (ok_or (checked_sub_u64 (hp_held_amount position) amount)
                 (EHold HoldError.HeldAmountUnderflow));
  let position := with_held held position in
  let hold := with_current 0 Expired hold in
  emit_cpi (EvHold (HoldReclaimed (h_mint hold) (h_token_account hold) (h_hold_id hold)
    (rh_caller a) amount));;
  account_exit (rh_hold_position a) position;;
  account_exit (rh_hold_record a) hold.
End instructions.

Inductive HoldInstruction : Set :=
| IxCreateHold (a : CreateHold) (hold_id amount expiration : Z) (escrow : Pubkey)
    (destination : option Pubkey)
| IxControllerCreateHold (a : ControllerCreateHold) (hold_id amount expiration : Z)
    (escrow : Pubkey) (destination : option Pubkey)
| IxExecuteHold (a : ExecuteHold) (hold_id amount : Z)
| IxReleaseHold (a : ReleaseHold) (hold_id amount : Z)
| IxReclaimHold (a : ReleaseHold) (hold_id : Z).

Definition hold `{Rt : SolanaRuntime} `{Tok : Token2022} (other : HookCall)
    (signers : list Pubkey) (ix : HoldInstruction) : M unit :=
  match ix with
  | IxCreateHold a id n e escrow dest => create_hold signers a id n e escrow dest
  | IxControllerCreateHold a id n e escrow dest => controller_create_hold signers a id n e escrow dest
  | IxExecuteHold a id n => execute_hold other signers a id n
  | IxReleaseHold a id n => release_hold signers a id n
  | IxReclaimHold a id => reclaim_hold signers a id
  end.
