(* ===== verification/HoldProofs.v ===== *)
(** * HoldProofs: the life cycle of holds and the accounting of positions

    Every hold instruction is one transition of the state machine [transition];
    [hold_inv] is the accounting invariant of the program: each position records
    the sum of what is left of its holds. *)

From S2P Require Import Prelude.
From S2P Require Import ProgramIds.
From S2P Require Import Bitmask.
From S2P Require Import Errors.
From S2P Require Import State.
From S2P Require Import Runtime.
From S2P Require Import Anchor.
From S2P Require Import Frame.
From S2P Require Import PdaSeeds.
From S2P Require Import PdaUtils.
From S2P Require Import Common.
From S2P Require Import Freeze.
From S2P Require Import FreezeProofs.
From S2P Require Import TransferControl.
From S2P Require Import Token.
From S2P Require Import TransferHook.
From S2P Require Import Deployed.
From S2P Require Import Operations.
From S2P Require Import OperationsProofs.
From S2P Require Import Hold.

(** ** The state machine *)

Definition position_held (o : option HoldPosition) : Z :=
  match o with Some p => hp_held_amount p | None => 0 end.
Definition position_count (o : option HoldPosition) : Z :=
  match o with Some p => hp_hold_count p | None => 0 end.
Definition hold_current (o : option Hold) : Z :=
  match o with Some h => h_current_amount h | None => 0 end.

Inductive transition (now : Z) (mint token_account : Pubkey) (hold_id : Z) :
    option HoldPosition -> option Hold -> HoldPosition -> Hold -> Prop :=
| transition_create op n expiration escrow destination position_bump hold_bump :
    0 < n -> now < expiration -> hold_id = position_count op + 1 ->
    position_held op + n <= U64_MAX -> hold_id <= U64_MAX ->
    transition now mint token_account hold_id op None
      (mkHoldPosition mint token_account (position_held op + n) hold_id position_bump)
      (mkHold mint token_account hold_id escrow destination n n now expiration Active hold_bump)
| transition_consume p h n :
    h_status h = Active -> 0 < n <= h_current_amount h -> n <= hp_held_amount p ->
    transition now mint token_account hold_id (Some p) (Some h)
      (with_held (hp_held_amount p - n) p)
      (with_current (h_current_amount h - n)
        (if h_current_amount h - n =? 0 then Closed else Active) h)
| transition_reclaim p h :
    h_status h = Active -> h_expiration h <= now -> h_current_amount h <= hp_held_amount p ->
    transition now mint token_account hold_id (Some p) (Some h)
      (with_held (hp_held_amount p - h_current_amount h) p)
      (with_current 0 Expired h).

(** The accounts and identifiers of an instruction. *)
Definition ix_position (ix : HoldInstruction) : Pubkey :=
  match ix with
  | IxCreateHold a _ _ _ _ _ => ch_hold_position a
  | IxControllerCreateHold a _ _ _ _ _ => ch_hold_position (cch_accounts a)
  | IxExecuteHold a _ _ => eh_hold_position a
  | IxReleaseHold a _ _ | IxReclaimHold a _ => rh_hold_position a
  end.
Definition ix_hold (ix : HoldInstruction) : Pubkey :=
  match ix with
  | IxCreateHold a _ _ _ _ _ => ch_hold_record a
  | IxControllerCreateHold a _ _ _ _ _ => ch_hold_record (cch_accounts a)
  | IxExecuteHold a _ _ => eh_hold_record a
  | IxReleaseHold a _ _ | IxReclaimHold a _ => rh_hold_record a
  end.
Definition ix_hold_id (ix : HoldInstruction) : Z :=
  match ix with
  | IxCreateHold _ i _ _ _ _ | IxControllerCreateHold _ i _ _ _ _ => i
  | IxExecuteHold _ i _ | IxReleaseHold _ i _ | IxReclaimHold _ i => i
  end.
Definition ix_mint (ix : HoldInstruction) : Pubkey :=
  match ix with
  | IxCreateHold a _ _ _ _ _ => ch_mint a
  | IxControllerCreateHold a _ _ _ _ _ => ch_mint (cch_accounts a)
  | IxExecuteHold a _ _ => eh_mint a
  | IxReleaseHold a _ _ | IxReclaimHold a _ => rh_mint a
  end.
Definition ix_token (ix : HoldInstruction) : Pubkey :=
  match ix with
  | IxCreateHold a _ _ _ _ _ => ch_token_account a
  | IxControllerCreateHold a _ _ _ _ _ => ch_token_account (cch_accounts a)
  | IxExecuteHold a _ _ => eh_source_token a
  | IxReleaseHold a _ _ | IxReclaimHold a _ => rh_token_account a
  end.

(** ** The worlds an instruction leaves behind *)

(** The accounts of the hold program other than [ks] are untouched. *)
Definition holds_untouched (ks : list Pubkey) (w w' : World) : Prop :=
  forall j, j ∉ ks -> owner_of w j = HOLD_PROGRAM_ID \/ owner_of w' j = HOLD_PROGRAM_ID ->
    account w' j = account w j.

Lemma holds_untouched_writes p w w' ks :
  p <> HOLD_PROGRAM_ID -> writes_only p w w' -> holds_untouched ks w w'.
Proof.
  intros Hp [_ Hw] j _ Ho. destruct (Hw j) as [E|(H1 & H2 & _)]; [done|].
  exfalso. destruct Ho as [Ho|Ho]; [destruct H1 as [H1|H1]|destruct H2 as [H2|H2]];
    rewrite Ho in *; first [congruence | revert H1; program_ne | revert H2; program_ne].
Qed.

Section steps.
Context `{Rt : SolanaRuntime} `{Laws : !RuntimeLaws} `{Tok : Token2022} `{TLaws : !TokenLaws}.

Lemma position_hold_ne mint token mint' token' id kp kh :
  pda_at (hold_position_seeds mint token) HOLD_PROGRAM_ID kp ->
  pda_at (hold_seeds mint' token' id) HOLD_PROGRAM_ID kh -> kp <> kh.
Proof. intros Hp Hh ->. destruct (pda_at_inj _ _ _ _ _ Hp Hh) as [[=] _]. Qed.

(** What the accounts of a creation are. *)
Record creation (a : CreateHold) (hold_id : Z) (token : TokenState) (position : HoldPosition)
    (w w' : World) : Prop := {
  cr_position : ch_hold_position a =
    pda (hold_position_seeds (ch_mint a) (ch_token_account a)) HOLD_PROGRAM_ID;
  cr_record : ch_hold_record a =
    pda (hold_seeds (ch_mint a) (ch_token_account a) hold_id) HOLD_PROGRAM_ID;
  cr_value : position = default at_zero (view HoldPosition w (ch_hold_position a));
  cr_fresh : view Hold w (ch_hold_record a) = None;
  cr_frame : forall j, j <> ch_hold_position a -> j <> ch_hold_record a ->
    account w' j = account w j;
  cr_now : w_now w' = w_now w;
  cr_owner : owner_of w (ch_token_account a) = ch_token_program a;
  cr_token : data_of w (ch_token_account a) = DToken token /\
    is_token_program (ch_token_program a) = true /\ t_mint token = ch_mint a;
  cr_freeze : ch_token_account_freeze_state_pda a =
    pda (freeze_state_seeds (ch_mint a) (ch_token_account a)) FREEZE_PROGRAM_ID;
  cr_config : exists kc (c : AssetConfiguration),
    pda_at (asset_configuration_seeds (ch_mint a)) DEPLOY_PROGRAM_ID kc /\ stored w kc c }.

#[global] Instance create_try_accounts_inv signers a id o roles :
  OkInv (create_try_accounts signers a id o roles) (fun w r w' =>
    creation a id r.1.1 r.1.2.1 w w' /\ ch_authority a ∈ signers /\
    (forall k, o = Some k -> t_owner r.1.1 = k)).
Proof.
  intros w r w' Hr. unfold create_try_accounts in Hr.
  apply bind_ok in Hr as (? & ? & [? ->]%ok_inv & Hr).
  apply bind_ok in Hr as (? & ? & [? ->]%ok_inv & Hr).
  apply bind_ok in Hr as ([] & w1 & Hroles & Hr).
  assert (w1 = w) as -> by (destruct roles; by inv_ok). clear Hroles.
  apply bind_ok in Hr as (c & ? & [Hc ->]%ok_inv & Hr).
  apply bind_ok in Hr as (m & ? & (Hm & _ & ->)%ok_inv & Hr).
  apply bind_ok in Hr as (t & ? & (Ht & Htp & ->)%ok_inv & Hr).
  apply bind_ok in Hr as (? & ? & [_ ->]%ok_inv & Hr).
  apply bind_ok in Hr as (? & ? & [Htp' ->]%ok_inv & Hr).
  apply bind_ok in Hr as (b1 & ? & (Hkp & _ & ->)%ok_inv & Hr).
  apply bind_ok in Hr as (p & w1 & Hp & Hr).
  apply bind_ok in Hr as (b2 & ? & (Hkh & _ & ->)%ok_inv & Hr).
  apply bind_ok in Hr as (h & w2 & Hh & Hr).
  apply init_if_needed_value in Hp as (-> & Hj1 & Hn1); [|program_ne].
  apply init_fresh in Hh as (Hf & Hj2 & Hn2).
  assert (Hne : ch_hold_record a <> ch_hold_position a).
  { apply not_eq_sym. eapply position_hold_ne; [rewrite Hkp|rewrite Hkh]; apply pda_at_pda. }
  apply bind_ok in Hr as ([] & w3 & Hroles & Hr).
  assert (w3 = w2) as -> by (destruct roles; by inv_ok). clear Hroles.
  inv_ok. simpl. split_and!; [|done|done].
  split; simpl; try done.
  - apply view_fresh; [program_ne|]. unfold fresh, owner_of, data_of in *. by rewrite <- Hj1.
  - intros j H1 H2. by rewrite Hj2, Hj1.
  - congruence.
  - unfold owner_of. rewrite Ht. done.
  - unfold data_of. rewrite Ht. done.
  - eauto.
Qed.

#[global] Instance record_new_hold_inv t p pb hb args :
  OkInv (record_new_hold t p pb hb args) (fun w r w' => w' = w /\
    fully_frozen (status w (tg_freeze_state_pda t)) = false /\
    0 < nh_amount args /\ w_now w < nh_expiration args /\
    nh_hold_id args = hp_hold_count p + 1 /\ nh_hold_id args <= U64_MAX /\
    hp_held_amount p + nh_amount args <= U64_MAX /\
    nh_amount args <= Z.max 0 (Z.max 0 (tg_balance t -
      frozen_balance (status w (tg_freeze_state_pda t))) - hp_held_amount p) /\
    r = (mkHoldPosition (tg_mint t) (tg_token_account t) (hp_held_amount p + nh_amount args)
           (nh_hold_id args) pb,
         mkHold (tg_mint t) (tg_token_account t) (nh_hold_id args) (nh_escrow args)
           (nh_destination args) (nh_amount args) (nh_amount args) (w_now w) (nh_expiration args)
           Active hb)).
Proof.
  intros w r w' Hr. unfold record_new_hold in Hr. inv_ok. zify_checks.
  unfold saturating_sub_u64 in *. split_and!; try done; lia || congruence.
Qed.

#[global] Instance consume_inv n h :
  OkInv (consume n h) (fun w h' w' => w' = w /\ n <= h_current_amount h /\
    h' = with_current (h_current_amount h - n)
           (if h_current_amount h - n =? 0 then Closed else h_status h) h).
Proof. intros w h' w' Hr. unfold consume in Hr. inv_ok. zify_checks. split_and!; done || lia. Qed.

#[global] Instance require_destination_inv o k :
  OkInv (require_destination o k) (fun w _ w' => w' = w /\ forall pinned, o = Some pinned -> pinned = k).
Proof.
  intros w [] w' Hr. unfold require_destination in Hr. destruct o; inv_ok; zify_checks;
    split_and!; try done; by intros ? [= <-].
Qed.

#[global] Instance ReleaseHold_try_accounts_inv signers a id :
  OkInv (ReleaseHold_try_accounts signers a id) (fun w r w' => w' = w /\ rh_caller a ∈ signers /\
    stored w (rh_hold_position a) r.1 /\ stored w (rh_hold_record a) r.2 /\
    pda_at (hold_position_seeds (rh_mint a) (rh_token_account a)) HOLD_PROGRAM_ID (rh_hold_position a) /\
    pda_at (hold_seeds (rh_mint a) (rh_token_account a) id) HOLD_PROGRAM_ID (rh_hold_record a)).
Proof. intros w r w' Hr. unfold ReleaseHold_try_accounts in Hr. inv_ok. split_and!; done. Qed.

#[global] Instance ExecuteHold_try_accounts_inv signers a id :
  OkInv (ExecuteHold_try_accounts signers a id) (fun w r w' => w' = w /\ eh_escrow a ∈ signers /\
    stored w (eh_hold_position a) r.1.1 /\ stored w (eh_hold_record a) r.1.2 /\
    pda_at (hold_position_seeds (eh_mint a) (eh_source_token a)) HOLD_PROGRAM_ID (eh_hold_position a) /\
    pda_at (hold_seeds (eh_mint a) (eh_source_token a) id) HOLD_PROGRAM_ID (eh_hold_record a)).
Proof. intros w r w' Hr. unfold ExecuteHold_try_accounts in Hr. inv_ok. split_and!; done. Qed.

(** ** One transition per instruction *)

Record stepped_at (kp kh mint token : Pubkey) (id : Z) (w w' : World) : Prop := {
  sh_position : pda_at (hold_position_seeds mint token) HOLD_PROGRAM_ID kp;
  sh_hold : pda_at (hold_seeds mint token id) HOLD_PROGRAM_ID kh;
  sh_new_position : view HoldPosition w kp = None ->
    kp = pda (hold_position_seeds mint token) HOLD_PROGRAM_ID;
  sh_new_hold : view Hold w kh = None -> kh = pda (hold_seeds mint token id) HOLD_PROGRAM_ID;
  sh_transition : exists p' h',
    transition (w_now w) mint token id (view HoldPosition w kp) (view Hold w kh) p' h' /\
    stored w' kp p' /\ stored w' kh h';
  sh_frame : holds_untouched [kp; kh] w w';
  sh_now : w_now w' = w_now w }.

Definition stepped_hold (ix : HoldInstruction) : World -> World -> Prop :=
  stepped_at (ix_position ix) (ix_hold ix) (ix_mint ix) (ix_token ix) (ix_hold_id ix).

Lemma written_back kp kh (p : HoldPosition) (h : Hold) w :
  kp <> kh ->
  stored (set_account kh (mkAccount HOLD_PROGRAM_ID (DHold h))
    (set_account kp (mkAccount HOLD_PROGRAM_ID (DHoldPosition p)) w)) kp p /\
  stored (set_account kh (mkAccount HOLD_PROGRAM_ID (DHold h))
    (set_account kp (mkAccount HOLD_PROGRAM_ID (DHoldPosition p)) w)) kh h /\
  forall j, j <> kp -> j <> kh ->
    account (set_account kh (mkAccount HOLD_PROGRAM_ID (DHold h))
      (set_account kp (mkAccount HOLD_PROGRAM_ID (DHoldPosition p)) w)) j = account w j.
Proof.
  intros Hne. unfold stored. rewrite account_set_account_eq, account_set_account_ne by done.
  rewrite account_set_account_eq. do 2 (split; [done|]). intros j H1 H2.
  by rewrite !account_set_account_ne by done.
Qed.

Lemma untouched_accounts ks w w' :
  (forall j, j ∉ ks -> account w' j = account w j) -> holds_untouched ks w w'.
Proof. intros H j Hj _. by apply H. Qed.

Lemma creation_step a token position pb hb args e w w0 p h :
  creation a (nh_hold_id args) token position w w0 ->
  record_new_hold (hold_target a token) position pb hb args w0 = Ok ((p, h), w0) ->
  stepped_at (ch_hold_position a) (ch_hold_record a) (ch_mint a) (ch_token_account a)
    (nh_hold_id args) w
    (set_account (ch_hold_record a) (mkAccount HOLD_PROGRAM_ID (DHold h))
      (set_account (ch_hold_position a) (mkAccount HOLD_PROGRAM_ID (DHoldPosition p))
        (add_event e w0))).
Proof.
  intros Hc (_ & _ & Hn & He & Hi & Hi' & Hh & _ & [= -> ->])%ok_inv. simpl.
  assert (Hp : pda_at (hold_position_seeds (ch_mint a) (ch_token_account a)) HOLD_PROGRAM_ID
                 (ch_hold_position a)) by (rewrite (cr_position _ _ _ _ _ _ Hc); apply pda_at_pda).
  assert (Hr : pda_at (hold_seeds (ch_mint a) (ch_token_account a) (nh_hold_id args)) HOLD_PROGRAM_ID
                 (ch_hold_record a)) by (rewrite (cr_record _ _ _ _ _ _ Hc); apply pda_at_pda).
  assert (Hne := position_hold_ne _ _ _ _ _ _ _ Hp Hr).
  destruct (written_back (ch_hold_position a) (ch_hold_record a)
    (mkHoldPosition (ch_mint a) (ch_token_account a) (hp_held_amount position + nh_amount args)
       (nh_hold_id args) pb)
    (mkHold (ch_mint a) (ch_token_account a) (nh_hold_id args) (nh_escrow args)
           (nh_destination args) (nh_amount args) (nh_amount args) (w_now w0) (nh_expiration args)
           Active hb) (add_event e w0) Hne) as (H1 & H2 & H3).
  split; [exact Hp|exact Hr| | | | |].
  - intros _. apply (cr_position _ _ _ _ _ _ Hc).
  - intros _. apply (cr_record _ _ _ _ _ _ Hc).
  - eexists _, _. split; [|split; [exact H1|exact H2]].
    rewrite (cr_fresh _ _ _ _ _ _ Hc), (cr_now _ _ _ _ _ _ Hc) in *.
    pose proof (cr_value _ _ _ _ _ _ Hc) as Hv.
    assert (E : hp_held_amount position = position_held (view HoldPosition w (ch_hold_position a)) /\
                hp_hold_count position = position_count (view HoldPosition w (ch_hold_position a))).
    { rewrite Hv. by destruct (view HoldPosition w (ch_hold_position a)). }
    destruct E as [E1 E2]. rewrite E1, E2 in *. by apply transition_create.
  - apply untouched_accounts. intros j [Hj1 Hj2]%not_elem_of_pair. rewrite H3 by done.
    by apply (cr_frame _ _ _ _ _ _ Hc).
  - simpl. apply (cr_now _ _ _ _ _ _ Hc).
Qed.

Lemma update_step kp kh mint token id w w1 (p p' : HoldPosition) (h h' : Hold) :
  pda_at (hold_position_seeds mint token) HOLD_PROGRAM_ID kp ->
  pda_at (hold_seeds mint token id) HOLD_PROGRAM_ID kh ->
  stored w kp p -> stored w kh h ->
  transition (w_now w) mint token id (Some p) (Some h) p' h' ->
  holds_untouched [] w w1 -> w_now w1 = w_now w ->
  stepped_at kp kh mint token id w
    (set_account kh (mkAccount HOLD_PROGRAM_ID (DHold h'))
      (set_account kp (mkAccount HOLD_PROGRAM_ID (DHoldPosition p')) w1)).
Proof.
  intros Hp Hh Sp Sh Ht Hu Hn. assert (Hne := position_hold_ne _ _ _ _ _ _ _ Hp Hh).
  destruct (written_back kp kh p' h' w1 Hne) as (H1 & H2 & H3).
  apply view_Some in Sp, Sh. split; [done|done|by rewrite Sp|by rewrite Sh| | |done].
  - eexists _, _. split; [|split; [exact H1|exact H2]]. by rewrite Sp, Sh.
  - intros j [Hj1 Hj2]%not_elem_of_pair Ho. rewrite H3 by done. apply Hu; [by apply not_elem_of_nil|].
    unfold owner_of in *. by rewrite H3 in Ho.
Qed.

Lemma token_write_untouched k t o w :
  token_account w k o -> holds_untouched [] w (put_token k t w).
Proof.
  intros Ht j _ Ho. unfold put_token, token_account, owner_of in *.
  rewrite account_set_account in *. case_decide; [subst|done].
  rewrite Ht in Ho. simpl in Ho. exfalso. destruct Ho as [Ho|Ho]; revert Ho; program_ne.
Qed.

Lemma transferred_untouched src dst n s d w w' :
  token_account w src s -> token_account w dst d -> transferred src dst n s d w w' ->
  holds_untouched [] w w'.
Proof.
  intros Hs Hd [_ H1 H2 H3] j _ Ho. unfold token_account, owner_of in *.
  destruct (decide (j = src)) as [->|]; [|destruct (decide (j = dst)) as [->|]; [|by apply H3]];
    exfalso; (rewrite Hs, H1 in Ho || rewrite Hd, H2 in Ho); simpl in Ho;
    destruct Ho as [Ho|Ho]; revert Ho; program_ne.
Qed.

#[global] Instance create_guards_inv a :
  OkInv (create_guards a) (fun w _ w' => w' = w /\
    (exists ms, data_of w (ch_mint a) = DMint ms /\ m_paused ms = Some false) /\
    data_is_empty (data_of w (ch_deactivate_pda a)) = true /\
    exists v, stored w (ch_asset_class_version_pda a) v /\ functionality_enabled v HOLD_CREATE_HOLD).
Proof. intros w [] w' Hr. unfold create_guards in Hr. inv_ok. split_and!; eauto. Qed.

(** A creation by either instruction: its accounts, its record and the world left. *)
Definition created (a : CreateHold) (id n e : Z) (escrow : Pubkey) (dest : option Pubkey)
    (w w' : World) : Prop :=
  exists token position pb hb w0 p h ev,
    creation a id token position w w0 /\
    record_new_hold (hold_target a token) position pb hb (mkNewHoldArgs id n e escrow dest) w0 =
      Ok ((p, h), w0) /\
    w' = set_account (ch_hold_record a) (mkAccount HOLD_PROGRAM_ID (DHold h))
      (set_account (ch_hold_position a) (mkAccount HOLD_PROGRAM_ID (DHoldPosition p))
        (add_event ev w0)).

Lemma create_hold_created signers a id n e escrow dest w w' :
  create_hold signers a id n e escrow dest w = Ok (tt, w') -> created a id n e escrow dest w w'.
Proof.
  intros Hr. unfold create_hold, CreateHold_try_accounts in Hr.
  apply bind_ok in Hr as ([[token [p pb]] hb] & w0 & (Hc & _ & _)%ok_inv & Hr).
  apply bind_ok in Hr as ([] & ? & (-> & _)%ok_inv & Hr).
  apply bind_ok in Hr as ([p' h'] & w1 & Hn & Hr).
  assert (w1 = w0) as -> by (by apply ok_inv in Hn as [-> _]).
  apply bind_ok in Hr as ([] & ? & ->%ok_inv & Hr).
  apply bind_ok in Hr as ([] & ? & [_ ->]%ok_inv & Hr). apply ok_inv in Hr as [_ ->].
  do 8 eexists. split_and!; [exact Hc|exact Hn|reflexivity].
Qed.

Lemma controller_create_hold_created signers a id n e escrow dest w w' :
  controller_create_hold signers a id n e escrow dest w = Ok (tt, w') ->
  created (cch_accounts a) id n e escrow dest w w'.
Proof.
  intros Hr. unfold controller_create_hold, ControllerCreateHold_try_accounts in Hr.
  apply bind_ok in Hr as ([[token [p pb]] hb] & w0 & (Hc & _ & _)%ok_inv & Hr).
  apply bind_ok in Hr as (r & ? & [_ ->]%ok_inv & Hr).
  apply bind_ok in Hr as ([] & ? & [_ ->]%ok_inv & Hr).
  apply bind_ok in Hr as ([] & ? & (-> & _)%ok_inv & Hr).
  apply bind_ok in Hr as ([p' h'] & w1 & Hn & Hr).
  assert (w1 = w0) as -> by (by apply ok_inv in Hn as [-> _]).
  apply bind_ok in Hr as ([] & ? & ->%ok_inv & Hr).
  apply bind_ok in Hr as ([] & ? & [_ ->]%ok_inv & Hr). apply ok_inv in Hr as [_ ->].
  do 8 eexists. split_and!; [exact Hc|exact Hn|reflexivity].
Qed.

Lemma created_step a id n e escrow dest w w' :
  created a id n e escrow dest w w' ->
  stepped_at (ch_hold_position a) (ch_hold_record a) (ch_mint a) (ch_token_account a) id w w'.
Proof.
  intros (token & p & pb & hb & w0 & p' & h' & ev & Hc & Hn & ->).
  exact (creation_step a token p pb hb (mkNewHoldArgs id n e escrow dest) ev w w0 p' h' Hc Hn).
Qed.

Lemma is_active_true s : is_active s = true -> s = Active.
Proof. by destruct s. Qed.

(** What an execution does besides its transition. *)
Record execution (a : ExecuteHold) (n : Z) (w w1 : World) : Prop := {
  ex_transfer : exists s d, token_account w (eh_source_token a) s /\
    token_account w (eh_destination_token a) d /\
    t_mint s = eh_mint a /\ t_mint d = eh_mint a /\ 0 <= n <= t_amount s /\
    ((eh_source_token a = eh_destination_token a /\ w1 = w) \/
     (eh_source_token a <> eh_destination_token a /\
      transferred (eh_source_token a) (eh_destination_token a) n s d w w1)) }.

Lemma execute_hold_executed other signers a id n w w' :
  config_inv w -> execute_hold other signers a id n w = Ok (tt, w') ->
  exists p h w1 ev, execution a n w w1 /\ stored w (eh_hold_position a) p /\
    stored w (eh_hold_record a) h /\
    pda_at (hold_position_seeds (eh_mint a) (eh_source_token a)) HOLD_PROGRAM_ID (eh_hold_position a) /\
    pda_at (hold_seeds (eh_mint a) (eh_source_token a) id) HOLD_PROGRAM_ID (eh_hold_record a) /\
    eh_escrow a ∈ signers /\ eh_escrow a = h_escrow h /\ w_now w < h_expiration h /\
    h_status h = Active /\ 0 < n <= h_current_amount h /\ n <= hp_held_amount p /\
    (forall k, h_destination h = Some k -> k = eh_destination_token a) /\
    w' = set_account (eh_hold_record a) (mkAccount HOLD_PROGRAM_ID (DHold
           (with_current (h_current_amount h - n)
             (if h_current_amount h - n =? 0 then Closed else Active) h)))
          (set_account (eh_hold_position a) (mkAccount HOLD_PROGRAM_ID (DHoldPosition
             (with_held (hp_held_amount p - n) p))) (add_event ev w1)).
Proof.
  intros Hcfg Hr. unfold execute_hold in Hr.
  apply bind_ok in Hr as ([[p h] b] & ? & (-> & He & Hp & Hh & Hkp & Hkh)%ok_inv & Hr).
  simpl in Hp, Hh. inv_ok. zify_checks.
  rename select (hold_transfer _ _ _ _ _ = _) into Ht.
  apply hold_transfer_effect in Ht as (_ & _ & Ht); [|done]. simpl in Ht.
  rename select (is_active _ = true) into Ha. apply is_active_true in Ha.
  rewrite Ha in *. exists p, h. do 2 eexists.
  split_and!; try done; try lia.
Qed.

Lemma execution_untouched a n w w1 : execution a n w w1 -> holds_untouched [] w w1 /\ w_now w1 = w_now w.
Proof.
  intros [(s & d & Hs & Hd & _ & _ & _ & [[_ ->]|[_ Ht]])].
  - by split.
  - split; [exact (transferred_untouched _ _ _ _ _ _ _ Hs Hd Ht)|apply Ht].
Qed.

Lemma execute_hold_step other signers a id n w w' :
  config_inv w -> execute_hold other signers a id n w = Ok (tt, w') ->
  stepped_at (eh_hold_position a) (eh_hold_record a) (eh_mint a) (eh_source_token a) id w w'.
Proof.
  intros Hcfg Hr. destruct (execute_hold_executed _ _ _ _ _ _ _ Hcfg Hr)
    as (p & h & w1 & ev & He & Hp & Hh & Hkp & Hkh & _ & _ & _ & Ha & Hn & Hle & _ & ->).
  apply execution_untouched in He as [Hu Hnow].
  eapply update_step; [done|done|exact Hp|exact Hh|by apply transition_consume| |done].
  exact Hu.
Qed.

Lemma release_hold_step signers a id n w w' :
  release_hold signers a id n w = Ok (tt, w') ->
  stepped_at (rh_hold_position a) (rh_hold_record a) (rh_mint a) (rh_token_account a) id w w'.
Proof.
  intros Hr. unfold release_hold in Hr.
  apply bind_ok in Hr as ([p h] & ? & (-> & _ & Hp & Hh & Hkp & Hkh)%ok_inv & Hr).
  inv_ok. zify_checks. simpl in *. rename select (is_active _ = true) into Ha.
  apply is_active_true in Ha. rewrite Ha in *.
  eapply (update_step _ _ _ _ _ w (add_event _ w) p (with_held _ p) h (with_current _ _ h));
    [done|done|done|done|apply transition_consume; [done|lia|lia]|done|done].
Qed.

Lemma reclaim_hold_step signers a id w w' :
  reclaim_hold signers a id w = Ok (tt, w') ->
  stepped_at (rh_hold_position a) (rh_hold_record a) (rh_mint a) (rh_token_account a) id w w'.
Proof.
  intros Hr. unfold reclaim_hold, ReclaimHold_try_accounts in Hr.
  apply bind_ok in Hr as ([p h] & ? & (-> & _ & Hp & Hh & Hkp & Hkh)%ok_inv & Hr).
  inv_ok. zify_checks. simpl in *. rename select (is_active _ = true) into Ha.
  apply is_active_true in Ha.
  eapply (update_step _ _ _ _ _ w (add_event _ w) p (with_held _ p) h (with_current _ _ h));
    [done|done|done|done|apply transition_reclaim; [done|lia|lia]|done|done].
Qed.

Lemma hold_step other signers ix w w' :
  config_inv w -> hold other signers ix w = Ok (tt, w') -> stepped_hold ix w w'.
Proof.
  intros Hcfg Hr. destruct ix; simpl in *; unfold stepped_hold; simpl.
  - by eapply created_step, create_hold_created.
  - by eapply created_step, controller_create_hold_created.
  - by eapply execute_hold_step.
  - by eapply release_hold_step.
  - by eapply reclaim_hold_step.
Qed.
End steps.

(** C8: Every successful instruction of the hold program is one transition
    of the life cycle of one hold: a creation (the next id, not expired, the position raised by the
    amount), a consumption by execution or release (of an active hold, at most what is left, closed
    exactly when nothing is left) or an expiry (of an active hold past its date, which frees all
    that is left).  The two accounts written are the position and the hold at the PDAs of the mint,
    the token account and the hold id; no other account of the program changes. *)
Theorem hold_is_one_transition `{Laws : RuntimeLaws} `{TLaws : TokenLaws} other signers ix w w' :
  config_inv w -> hold other signers ix w = Ok (tt, w') -> stepped_hold ix w w'.
Proof. apply hold_step. Qed.
