(* ===== verification/HoldInvariant.v ===== *)
(** * HoldInvariant: every position records what is left of its holds

    [hold_inv] relates the positions and the holds stored in a world; every
    instruction of the hold program keeps it, and no other program can break
    it.  In such worlds releasing and reclaiming never underflow. *)

From S2P Require Import Prelude.
From S2P Require Import ProgramIds.
From S2P Require Import Bitmask.
From S2P Require Import Errors.
From S2P Require Import State.
From S2P Require Import Runtime.
From S2P Require Import Anchor.
From S2P Require Import Frame.
From S2P Require Import PdaSeeds.
From S2P Require Import PdaUtils.
From S2P Require Import Common.
From S2P Require Import Freeze.
From S2P Require Import FreezeProofs.
From S2P Require Import TransferControl.
From S2P Require Import Token.
From S2P Require Import TransferHook.
From S2P Require Import Deployed.
From S2P Require Import Operations.
From S2P Require Import OperationsProofs.
From S2P Require Import Hold.
From S2P Require Import HoldProofs.

(** ** The sum of the holds of a token account *)

Definition belongs (mint token : Pubkey) (h : Hold) : bool :=
  N.eqb (h_mint h) mint && N.eqb (h_token_account h) token.

Definition hold_share (mint token : Pubkey) (o : option Hold) : Z :=
  match o with Some h => if belongs mint token h then h_current_amount h else 0 | None => 0 end.

Definition account_hold (a : Account) : option Hold :=
  if N.eqb (acc_owner a) HOLD_PROGRAM_ID then at_of_data (T:=Hold) (acc_data a) else None.

Definition held_sum (mint token : Pubkey) (w : World) : Z :=
  sum_map (fun _ a => hold_share mint token (account_hold a)) (w_accounts w).

Lemma account_hold_view w k : account_hold (account w k) = view Hold w k.
Proof. done. Qed.

Lemma held_sum_contribution mint token w k :
  contribution (fun _ a => hold_share mint token (account_hold a)) k (w_accounts w) =
    hold_share mint token (view Hold w k).
Proof.
  rewrite <- account_hold_view. unfold contribution, account. by destruct (w_accounts w !! k).
Qed.

Lemma held_sum_ext mint token w w' :
  (forall k, hold_share mint token (view Hold w k) = hold_share mint token (view Hold w' k)) ->
  held_sum mint token w = held_sum mint token w'.
Proof. intros H. apply sum_map_ext. intros k. by rewrite !held_sum_contribution. Qed.

Lemma held_sum_set_account mint token k a w :
  held_sum mint token (set_account k a w) =
    held_sum mint token w + hold_share mint token (account_hold a) -
      hold_share mint token (view Hold w k).
Proof.
  unfold held_sum, set_account. simpl. rewrite sum_map_insert, <- held_sum_contribution.
  unfold contribution. lia.
Qed.

Section invariant.
Context `{Rt : SolanaRuntime}.

Record position_ok (w : World) (k : Pubkey) (p : HoldPosition) : Prop := {
  po_pda : k = pda (hold_position_seeds (hp_mint p) (hp_token_account p)) HOLD_PROGRAM_ID;
  po_held : u64_ok (hp_held_amount p);
  po_count : u64_ok (hp_hold_count p);
  po_sum : hp_held_amount p = held_sum (hp_mint p) (hp_token_account p) w }.

Record hold_ok (w : World) (k : Pubkey) (h : Hold) : Prop := {
  ho_pda : k = pda (hold_seeds (h_mint h) (h_token_account h) (h_hold_id h)) HOLD_PROGRAM_ID;
  ho_amounts : 0 <= h_current_amount h <= h_initial_amount h /\ h_initial_amount h <= U64_MAX;
  ho_status : h_status h = Active <-> 0 < h_current_amount h;
  ho_position : exists p,
    stored w (pda (hold_position_seeds (h_mint h) (h_token_account h)) HOLD_PROGRAM_ID) p /\
    1 <= h_hold_id h <= hp_hold_count p }.

Definition hold_inv (w : World) : Prop :=
  (forall k p, stored w k p -> position_ok w k p) /\ (forall k h, stored w k h -> hold_ok w k h).
End invariant.

(** ** Preservation *)

Section preservation.
Context `{Rt : SolanaRuntime} `{Laws : !RuntimeLaws}.

Lemma stored_position_not_hold w k (p : HoldPosition) : stored w k p -> view Hold w k = None.
Proof. unfold stored, view, owner_of, data_of. intros ->. reflexivity. Qed.

Lemma stored_hold_not_position w k (h : Hold) (p : HoldPosition) : stored w k h -> stored w k p -> False.
Proof. unfold stored. intros ->. discriminate. Qed.

Lemma view_untouched {T} `{AccountType T} ks w w' j :
  at_program = HOLD_PROGRAM_ID -> holds_untouched ks w w' -> j ∉ ks -> view T w' j = view T w j.
Proof.
  intros Hp Hu Hj. destruct (decide (owner_of w j = HOLD_PROGRAM_ID \/ owner_of w' j = HOLD_PROGRAM_ID))
    as [Ho|Ho]; [by apply view_account, Hu|].
  unfold view. rewrite Hp. destruct (N.eqb_spec (owner_of w' j) HOLD_PROGRAM_ID) as [E|_],
    (N.eqb_spec (owner_of w j) HOLD_PROGRAM_ID) as [E'|_]; tauto.
Qed.

(** What a transition does to the amounts and identities. *)
Lemma transition_facts now mint token id op oh p' h' :
  transition now mint token id op oh p' h' ->
  (forall p, op = Some p -> hp_mint p = mint /\ hp_token_account p = token /\
     u64_ok (hp_held_amount p) /\ u64_ok (hp_hold_count p)) ->
  (forall h, oh = Some h -> h_mint h = mint /\ h_token_account h = token /\ h_hold_id h = id /\
     0 <= h_current_amount h <= h_initial_amount h /\ h_initial_amount h <= U64_MAX) ->
  hp_mint p' = mint /\ hp_token_account p' = token /\ h_mint h' = mint /\
  h_token_account h' = token /\ h_hold_id h' = id /\
  hp_held_amount p' - position_held op = h_current_amount h' - hold_current oh /\
  u64_ok (hp_held_amount p') /\ u64_ok (hp_hold_count p') /\
  position_count op <= hp_hold_count p' /\
  (oh = None -> 1 <= id <= hp_hold_count p') /\
  0 <= h_current_amount h' <= h_initial_amount h' /\ h_initial_amount h' <= U64_MAX /\
  (h_status h' = Active <-> 0 < h_current_amount h').
Proof.
  unfold u64_ok. intros Ht Hp Hh.
  destruct Ht as [op n e esc dest pb hb Hn He Hid Hle Hmax|p h n Ha Hn Hle|p h Ha He Hle]; simpl.
  - assert (0 <= position_held op <= U64_MAX /\ 0 <= position_count op <= U64_MAX) as [? ?].
    { destruct op as [p|]; simpl; [by destruct (Hp p eq_refl) as (_ & _ & ? & ?)|unfold U64_MAX; lia]. }
    split_and!; try done; lia || (intros; lia).
  - destruct (Hp p eq_refl) as (? & ? & ? & ?), (Hh h eq_refl) as (? & ? & ? & ?).
    destruct (Z.eqb_spec (h_current_amount h - n) 0); split_and!; try done; try lia; split; done || lia.
  - destruct (Hp p eq_refl) as (? & ? & ? & ?), (Hh h eq_refl) as (? & ? & ? & ?).
    split_and!; try done; try lia; split; done || lia.
Qed.

(** Sums after a step: only the position of the instruction changes. *)
Lemma held_sum_step kp kh mint token id w w' (p' : HoldPosition) (h' : Hold) :
  stepped_at kp kh mint token id w w' -> hold_inv w -> stored w' kp p' -> stored w' kh h' ->
  h_mint h' = mint -> h_token_account h' = token ->
  (forall h, view Hold w kh = Some h -> h_mint h = mint /\ h_token_account h = token) ->
  forall m t, held_sum m t w' = held_sum m t w +
    if N.eqb mint m && N.eqb token t then h_current_amount h' - hold_current (view Hold w kh) else 0.
Proof.
  intros [Hkp Hkh _ _ _ Hu _] Hinv Sp Sh Em Et Hold_same m t.
  assert (Hne : kp <> kh) by (eapply position_hold_ne; eassumption).
  rewrite (held_sum_ext m t w' (set_account kh (account w' kh) w)).
  - rewrite held_sum_set_account, account_hold_view.
    rewrite (proj2 (view_Some w' kh h') Sh). simpl.
    destruct (view Hold w kh) as [h|] eqn:E; simpl; unfold belongs; rewrite Em, Et.
    + destruct (Hold_same h eq_refl) as [-> ->]. case_match; lia.
    + case_match; lia.
  - intros j. destruct (decide (j = kh)) as [->|Hj].
    { f_equal. symmetry. apply view_account, account_set_account_eq. }
    rewrite (view_account w (set_account kh _ w) j) by (by apply account_set_account_ne).
    destruct (decide (j = kp)) as [->|Hj']; [|f_equal; eapply view_untouched; [reflexivity|exact Hu|]].
    + rewrite (stored_position_not_hold _ _ _ Sp).
      destruct (view Hold w kp) as [h|] eqn:E; [|done]. exfalso.
      apply view_Some in E. apply Hinv in E as [E _ _ _].
      destruct (pda_at_unique _ _ _ _ _ Hkp E) as [[=] _].
    + rewrite !not_elem_of_cons. split_and!; [done|done|apply not_elem_of_nil].
Qed.

(** What is left of a hold is part of the sum. *)
Lemma held_sum_ge mint token w k h :
  hold_inv w -> view Hold w k = Some h -> hold_share mint token (Some h) <= held_sum mint token w.
Proof.
  intros [_ Hh] Hk.
  assert (Hpos : forall j, 0 <= hold_share mint token (view Hold w j)).
  { intros j. destruct (view Hold w j) as [h'|] eqn:E; simpl; [|done].
    apply view_Some, Hh in E as [_ [? _] _ _]. case_match; lia. }
  unfold held_sum. destruct (w_accounts w !! k) as [a|] eqn:E.
  - rewrite <- Hk, <- account_hold_view. unfold account. rewrite E. simpl.
    apply (sum_map_ge (fun _ a => hold_share mint token (account_hold a)) _ k a); [|done].
    intros j b Hj. specialize (Hpos j). rewrite <- account_hold_view in Hpos.
    unfold account in Hpos. by rewrite Hj in Hpos.
  - rewrite <- account_hold_view in Hk. unfold account in Hk. by rewrite E in Hk.
Qed.

Lemma no_holds_no_sum mint token w :
  hold_inv w -> view HoldPosition w (pda (hold_position_seeds mint token) HOLD_PROGRAM_ID) = None ->
  held_sum mint token w = 0.
Proof.
  intros Hinv Hv. change 0 with (held_sum mint token (mkWorld ∅ ∅ 0 [])).
  apply held_sum_ext. intros k. change (view Hold (mkWorld ∅ ∅ 0 []) k) with (@None Hold).
  destruct (view Hold w k) as [h|] eqn:E; [|done]. simpl.
  destruct (belongs mint token h) eqn:Hb; [|done]. exfalso.
  unfold belongs in Hb. zify_checks. apply view_Some in E.
  destruct (proj2 Hinv k h E) as [_ _ _ (p & Hp & _)]. apply view_Some in Hp. congruence.
Qed.

(** What a step does to the position and the hold of the instruction. *)
Record step_summary (kp kh mint token : Pubkey) (id : Z) (w w' : World) (p' : HoldPosition)
    (h' : Hold) : Prop := {
  ss_kp : kp = pda (hold_position_seeds mint token) HOLD_PROGRAM_ID;
  ss_kh : kh = pda (hold_seeds mint token id) HOLD_PROGRAM_ID;
  ss_position : stored w' kp p';
  ss_hold : stored w' kh h';
  ss_position_id : hp_mint p' = mint /\ hp_token_account p' = token;
  ss_hold_id : h_mint h' = mint /\ h_token_account h' = token /\ h_hold_id h' = id;
  ss_held : u64_ok (hp_held_amount p');
  ss_count : u64_ok (hp_hold_count p');
  ss_delta : hp_held_amount p' - position_held (view HoldPosition w kp) =
    h_current_amount h' - hold_current (view Hold w kh);
  ss_count_grows : position_count (view HoldPosition w kp) <= hp_hold_count p';
  ss_new_id : view Hold w kh = None -> 1 <= id <= hp_hold_count p';
  ss_old : forall h, view Hold w kh = Some h ->
    h_mint h = mint /\ h_token_account h = token /\ h_hold_id h = id;
  ss_amounts : 0 <= h_current_amount h' <= h_initial_amount h' /\ h_initial_amount h' <= U64_MAX;
  ss_status : h_status h' = Active <-> 0 < h_current_amount h' }.

Lemma step_summarised kp kh mint token id w w' :
  stepped_at kp kh mint token id w w' -> hold_inv w ->
  exists p' h', step_summary kp kh mint token id w w' p' h'.
Proof.
  intros [Hkp Hkh Cp Ch (p' & h' & Ht & Sp & Sh) _ _] Hinv.
  assert (Ekp : kp = pda (hold_position_seeds mint token) HOLD_PROGRAM_ID /\
    forall p, view HoldPosition w kp = Some p ->
    hp_mint p = mint /\ hp_token_account p = token /\ u64_ok (hp_held_amount p) /\
    u64_ok (hp_hold_count p)).
  { destruct (view HoldPosition w kp) as [p|] eqn:E; [|by split; [apply Cp|]].
    apply view_Some, Hinv in E as [E ? ? _].
    destruct (pda_at_unique _ _ _ _ _ Hkp E) as [[= -> ->] _]. split; [done|]. by intros ? [= <-]. }
  assert (Ekh : kh = pda (hold_seeds mint token id) HOLD_PROGRAM_ID /\
    forall h, view Hold w kh = Some h ->
    h_mint h = mint /\ h_token_account h = token /\ h_hold_id h = id /\
    0 <= h_current_amount h <= h_initial_amount h /\ h_initial_amount h <= U64_MAX).
  { destruct (view Hold w kh) as [h|] eqn:E; [|by split; [apply Ch|]].
    apply view_Some, Hinv in E as [E ? _ _].
    destruct (pda_at_unique _ _ _ _ _ Hkh E) as [[= -> -> ->] _]. split; [done|]. by intros ? [= <-]. }
  destruct Ekp as [Ekp Fp], Ekh as [Ekh Fh].
  destruct (transition_facts _ _ _ _ _ _ _ _ Ht Fp Fh)
    as (Pm & Pt & Hm & Htk & Hid & Hd & Hph & Hpc & Hcnt & Hnew & Ham & Hmx & Hst).
  exists p', h'. split; try done.
  intros h E. by destruct (Fh h E) as (? & ? & ? & _).
Qed.

Lemma not_in_pair (k kp kh : Pubkey) : k <> kp -> k <> kh -> k ∉ [kp; kh].
Proof. intros. rewrite !not_elem_of_cons. split_and!; [done|done|apply not_elem_of_nil]. Qed.

Lemma positions_step kp kh mint token id w w' p' h' :
  stepped_at kp kh mint token id w w' -> hold_inv w ->
  step_summary kp kh mint token id w w' p' h' ->
  forall k (p : HoldPosition), stored w' k p -> position_ok w' k p.
Proof.
  intros Hstep Hinv [Ekp Ekh Sp Sh [Pm Pt] (Hm & Htk & Hid) Hph Hpc Hd Hcnt _ Fh _ _] k p Sk.
  pose proof (sh_frame _ _ _ _ _ _ _ Hstep) as Hu.
  assert (Hsum := held_sum_step _ _ _ _ _ _ _ _ _ Hstep Hinv Sp Sh Hm Htk
    (fun h E => conj (proj1 (Fh h E)) (proj1 (proj2 (Fh h E))))).
  destruct (decide (k = kp)) as [->|Hk].
  - rewrite (stored_inj _ _ _ _ Sk Sp). split; [by rewrite Pm, Pt|done|done|].
    rewrite Pm, Pt, Hsum, !N.eqb_refl. simpl.
    assert (position_held (view HoldPosition w kp) = held_sum mint token w); [|lia].
    destruct (view HoldPosition w kp) as [p0|] eqn:E.
    + apply view_Some, Hinv in E as [E _ _ Es]. rewrite Ekp in E. apply pda_inj in E as [[= -> ->] _].
      exact Es.
    + symmetry. apply no_holds_no_sum; [done|]. by rewrite <- Ekp.
  - assert (Hkh' : k <> kh) by (intros ->; by eapply stored_hold_not_position).
    apply view_Some in Sk.
    rewrite (view_untouched [kp; kh] w) in Sk; [|reflexivity|exact Hu|by apply not_in_pair].
    apply view_Some, Hinv in Sk as [E ? ? Es]. split; [done|done|done|].
    rewrite Es, Hsum. case_match; [|lia]. zify_checks. congruence.
Qed.

Lemma holds_step kp kh mint token id w w' p' h' :
  stepped_at kp kh mint token id w w' -> hold_inv w ->
  step_summary kp kh mint token id w w' p' h' ->
  forall k (h : Hold), stored w' k h -> hold_ok w' k h.
Proof.
  intros Hstep Hinv [Ekp Ekh Sp Sh _ (Hm & Htk & Hid) _ _ _ Hcnt Hnew Fh Ham Hst] k h Sk.
  pose proof (sh_frame _ _ _ _ _ _ _ Hstep) as Hu.
  destruct (decide (k = kh)) as [->|Hk].
  - rewrite (stored_inj _ _ _ _ Sk Sh). split; [by rewrite Hm, Htk, Hid|done|done|].
    exists p'. rewrite Hm, Htk, Hid, <- Ekp. split; [done|].
    destruct (view Hold w kh) as [h0|] eqn:E; [|by apply Hnew].
    destruct (Fh h0 eq_refl) as (Em0 & Et0 & Ei0).
    apply view_Some, Hinv in E as [_ _ _ (p0 & Sp0 & Hid0)].
    rewrite Em0, Et0, <- Ekp in Sp0. apply view_Some in Sp0. rewrite Sp0 in Hcnt. simpl in Hcnt. lia.
  - assert (Hkp' : k <> kp) by (intros ->; by eapply stored_hold_not_position).
    apply view_Some in Sk.
    rewrite (view_untouched [kp; kh] w) in Sk; [|reflexivity|exact Hu|by apply not_in_pair].
    apply view_Some, Hinv in Sk as [E ? ? (p0 & Sp0 & Hid0)]. split; [done|done|done|].
    set (k0 := pda (hold_position_seeds (h_mint h) (h_token_account h)) HOLD_PROGRAM_ID) in *.
    destruct (decide (k0 = kp)) as [Ek0|Hk0].
    + exists p'. rewrite Ek0 in *. split; [done|].
      apply view_Some in Sp0. rewrite Sp0 in Hcnt. simpl in Hcnt. lia.
    + exists p0. split; [|done]. apply view_Some. apply view_Some in Sp0.
      rewrite (view_untouched [kp; kh] w); [done|reflexivity|exact Hu|].
      apply not_in_pair; [done|]. intros E0. rewrite Ekh in E0. destruct (pda_inj _ _ _ _ E0) as [[=] _].
Qed.

Lemma hold_inv_step kp kh mint token id w w' :
  stepped_at kp kh mint token id w w' -> hold_inv w -> hold_inv w'.
Proof.
  intros Hstep Hinv. destruct (step_summarised _ _ _ _ _ _ _ Hstep Hinv) as (p' & h' & Hs).
  split; [by eapply positions_step|by eapply holds_step].
Qed.

(** What does not touch the accounts of the program keeps the invariant. *)
Lemma hold_inv_untouched w w' : holds_untouched [] w w' -> hold_inv w -> hold_inv w'.
Proof.
  intros Hu [Hp Hh].
  assert (Hv : forall {T} `{AccountType T}, at_program = HOLD_PROGRAM_ID ->
    forall k, view T w' k = view T w k).
  { intros T HT E k. eapply view_untouched; [done|exact Hu|apply not_elem_of_nil]. }
  assert (Hs : forall m t, held_sum m t w' = held_sum m t w).
  { intros m t. apply held_sum_ext. intros k. by rewrite Hv. }
  split.
  - intros k p Sk. apply view_Some in Sk. rewrite Hv in Sk by done. apply view_Some, Hp in Sk as [? ? ? E].
    split; [done..|]. by rewrite Hs.
  - intros k h Sk. apply view_Some in Sk. rewrite Hv in Sk by done.
    apply view_Some, Hh in Sk as [? ? ? (p & Sp & ?)]. split; [done..|]. exists p. split; [|done].
    apply view_Some. rewrite Hv by done. by apply view_Some.
Qed.
End preservation.

(** C7: The instructions of the hold program keep its accounts consistent:
    each position sits at its PDA and its held amount is the sum of what is left of the holds of
    its token account; each hold sits at its PDA, is numbered within its position's count, keeps
    0 <= current <= initial amount and is active exactly while something is left. *)
Theorem hold_keeps_accounting `{Laws : RuntimeLaws} `{TLaws : TokenLaws} other signers ix w w' :
  config_inv w -> hold_inv w -> hold other signers ix w = Ok (tt, w') -> hold_inv w'.
Proof. intros Hc Hinv Hr. eapply hold_inv_step; [by eapply hold_step|done]. Qed.
