(* ===== verification/SampleRuns.v ===== *)
(** * SampleRuns: the sample world satisfies the invariants *)

From S2P Require Import Prelude.
From S2P Require Import ProgramIds.
From S2P Require Import Bitmask.
From S2P Require Import Errors.
From S2P Require Import State.
From S2P Require Import Runtime.
From S2P Require Import Anchor.
From S2P Require Import Frame.
From S2P Require Import Reference.
From S2P Require Import PdaSeeds.
From S2P Require Import PdaUtils.
From S2P Require Import Common.
From S2P Require Import Sample.
From S2P Require Import Freeze.
From S2P Require Import FreezeProofs.
From S2P Require Import TransferControl.
From S2P Require Import Token.
From S2P Require Import TransferHook.
From S2P Require Import Deployed.
From S2P Require Import Operations.
From S2P Require Import OperationsProofs.
From S2P Require Import Hold.
From S2P Require Import HoldProofs.
From S2P Require Import HoldInvariant.

(** No other hook program is called on the sample world. *)
Definition no_hook : HookCall := fun _ _ _ => fail (ERuntime (ExternalProgram 0)).

Lemma config_inv_only_sample w :
  only_at AssetConfiguration [SAMPLE_CONFIG] w = true -> hooked w MINT -> config_inv w.
Proof.
  intros Ho Hh mint k c Hk Hs. apply stored_data in Hs.
  assert (Hin : k ∈ [SAMPLE_CONFIG]).
  { eapply (only_at_ok AssetConfiguration); [reflexivity|exact Ho|]. by rewrite Hs. }
  apply list_elem_of_singleton in Hin as ->.
  assert (E : SAMPLE_CONFIG = pda (asset_configuration_seeds MINT) DEPLOY_PROGRAM_ID)
    by (vm_compute; reflexivity).
  destruct (pda_at_unique _ _ _ _ _ Hk E) as [[= ->] _]. done.
Qed.

Lemma sample_hooked : hooked sample_world MINT.
Proof. exists sample_mint. split; vm_compute; reflexivity. Qed.

Lemma sample_config_inv : config_inv sample_world.
Proof. apply config_inv_only_sample; [vm_compute; reflexivity|apply sample_hooked]. Qed.

(** A world without positions and holds. *)
Lemma hold_inv_none w :
  holds_no HoldPosition w = true -> holds_no Hold w = true -> hold_inv w.
Proof.
  intros Hp Hh. split; intros k x Hs; exfalso; apply stored_data in Hs.
  - eapply (holds_no_ok HoldPosition w k x); [reflexivity|exact Hp|]. by rewrite Hs.
  - eapply (holds_no_ok Hold w k x); [reflexivity|exact Hh|]. by rewrite Hs.
Qed.

Lemma sample_hold_inv : hold_inv sample_world.
Proof. apply hold_inv_none; vm_compute; reflexivity. Qed.

(** ** A hold of 250 out of the 700 of [TOKEN_A], and its execution *)

Definition sample_position : Pubkey := position_pda MINT TOKEN_A.
Definition sample_hold (id : Z) : Pubkey := pda (hold_seeds MINT TOKEN_A id) HOLD_PROGRAM_ID.

Definition sample_create : CreateHold := {|
  ch_payer := ALICE; ch_authority := ALICE; ch_asset_configuration_pda := SAMPLE_CONFIG;
  ch_deactivate_pda := SAMPLE_DEACTIVATE; ch_mint := MINT; ch_token_account := TOKEN_A;
  ch_token_account_freeze_state_pda := sample_freeze_pda TOKEN_A;
  ch_hold_position := sample_position; ch_hold_record := sample_hold 1;
  ch_asset_class_version_pda := SAMPLE_VERSION; ch_token_program := TOKEN_2022_PROGRAM_ID |}.

Definition sample_create_hold : HoldInstruction :=
  IxCreateHold sample_create 1 250 2000000 BOB (Some TOKEN_B).

Definition hold_world : World :=
  run_world (hold no_hook [ALICE] sample_create_hold) sample_world.

Definition sample_execute : ExecuteHold := {|
  eh_escrow := BOB; eh_asset_configuration_pda := SAMPLE_CONFIG;
  eh_deactivate_pda := SAMPLE_DEACTIVATE; eh_mint := MINT; eh_source_token := TOKEN_A;
  eh_destination_token := TOKEN_B; eh_hold_position := sample_position;
  eh_hold_record := sample_hold 1;
  eh_hold_authority := pda (hold_authority_seeds MINT) HOLD_PROGRAM_ID;
  eh_operations_authority := permanent_delegate MINT; eh_operations_program := OPERATIONS_PROGRAM_ID;
  eh_extra_account_meta_list := pda (extra_account_metas_seeds MINT) TRANSFER_HOOK_PROGRAM_ID;
  eh_transfer_hook_program := TRANSFER_HOOK_PROGRAM_ID; eh_deploy_program := DEPLOY_PROGRAM_ID;
  eh_factory_program := FACTORY_PROGRAM_ID; eh_asset_class_version_pda := SAMPLE_VERSION;
  eh_deactivate_program := DEACTIVATE_PROGRAM_ID;
  eh_transfer_control_program := TRANSFER_CONTROL_PROGRAM_ID;
  eh_transfer_control_mode_pda := sample_mode_pda;
  eh_source_control_list_pda := sample_list_pda TOKEN_A;
  eh_destination_control_list_pda := sample_list_pda TOKEN_B;
  eh_freeze_program := FREEZE_PROGRAM_ID; eh_source_freeze_state_pda := sample_freeze_pda TOKEN_A;
  eh_hold_program := HOLD_PROGRAM_ID; eh_token_2022_program := TOKEN_2022_PROGRAM_ID |}.

Definition sample_execute_hold : HoldInstruction := IxExecuteHold sample_execute 1 100.

Definition executed_world : World :=
  run_world (hold no_hook [BOB] sample_execute_hold) hold_world.

Lemma sample_create_hold_ok : hold no_hook [ALICE] sample_create_hold sample_world = Ok (tt, hold_world).
Proof. apply run_ok. vm_compute. reflexivity. Qed.

Lemma sample_execute_hold_ok : hold no_hook [BOB] sample_execute_hold hold_world = Ok (tt, executed_world).
Proof. apply run_ok. vm_compute. reflexivity. Qed.

Lemma hold_world_config_inv : config_inv hold_world.
Proof.
  apply config_inv_only_sample; [vm_compute; reflexivity|].
  exists sample_mint. split; vm_compute; reflexivity.
Qed.

Lemma hold_world_inv : hold_inv hold_world.
Proof.
  eapply hold_inv_step; [|exact sample_hold_inv].
  eapply hold_step; [exact sample_config_inv|exact sample_create_hold_ok].
Qed.

(** ** A transfer hook call in the middle of a transfer of 200 *)

Definition sample_in_flight : World :=
  put_token TOKEN_B (mark (Some true) (sample_token BOB 500))
    (put_token TOKEN_A (mark (Some true) (sample_token ALICE 500)) sample_world).

Definition sample_hook_extra : list Pubkey :=
  [pda (extra_account_metas_seeds MINT) TRANSFER_HOOK_PROGRAM_ID; DEPLOY_PROGRAM_ID; SAMPLE_CONFIG;
   FACTORY_PROGRAM_ID; SAMPLE_VERSION; DEACTIVATE_PROGRAM_ID; SAMPLE_DEACTIVATE;
   TRANSFER_CONTROL_PROGRAM_ID; sample_mode_pda; sample_list_pda TOKEN_A; sample_list_pda TOKEN_B;
   FREEZE_PROGRAM_ID; sample_freeze_pda TOKEN_A; HOLD_PROGRAM_ID; sample_position].

Lemma hook_enforces_compliance_witness :
  sample_in_flight = sample_in_flight /\
  (ALICE = permanent_delegate MINT \/ compliant sample_in_flight MINT TOKEN_A TOKEN_B).
Proof.
  apply (hook_enforces_compliance TOKEN_A MINT TOKEN_B ALICE sample_hook_extra 200).
  vm_compute. reflexivity.
Defined.

Lemma hook_rejects_direct_calls_witness :
  is_ok (execute (TOKEN_A :: [MINT; TOKEN_B; ALICE] ++ sample_hook_extra) 200 sample_world) = false.
Proof.
  apply (hook_rejects_direct_calls TOKEN_A ([MINT; TOKEN_B; ALICE] ++ sample_hook_extra) 200
    sample_world (sample_token ALICE 700)); [vm_compute; reflexivity|vm_compute; discriminate].
Defined.

(** An address to which 5000 lamports were sent before its creation. *)
Definition funded_world : World := set_lamports (sample_list_pda TOKEN_A) 5000 sample_world.

Lemma create_or_adopt_pda_settles_witness :
  exists w', create_or_adopt_pda [ADMIN] ADMIN (sample_list_pda TOKEN_A) TRANSFER_CONTROL_PROGRAM_ID 9
      (control_list_seeds MINT TOKEN_A ++ [SBump 255]) funded_world = Ok (tt, w') /\
    account w' (sample_list_pda TOKEN_A) = mkAccount TRANSFER_CONTROL_PROGRAM_ID (DZeroed 9) /\
    lamports_of w' (sample_list_pda TOKEN_A) = minimum_balance 9.
Proof.
  set (m := create_or_adopt_pda [ADMIN] ADMIN (sample_list_pda TOKEN_A) TRANSFER_CONTROL_PROGRAM_ID 9
    (control_list_seeds MINT TOKEN_A ++ [SBump 255])).
  exists (run_world m funded_world). split; [apply run_ok; vm_compute; reflexivity|].
  destruct (create_or_adopt_pda_settles [ADMIN] ADMIN (sample_list_pda TOKEN_A)
    TRANSFER_CONTROL_PROGRAM_ID 9 (control_list_seeds MINT TOKEN_A ++ [SBump 255]) funded_world
    (run_world m funded_world)) as (H1 & H2 & _);
    [vm_compute; discriminate|lia|vm_compute; reflexivity|
     apply run_ok; vm_compute; reflexivity|by split].
Defined.

(** ** Burns and forced transfers *)

Definition sample_burn : OperationsInstruction :=
  IxBurn {| bu_payer := ADMIN; bu_authority := ADMIN; bu_asset_configuration_pda := SAMPLE_CONFIG;
    bu_deactivate_pda := SAMPLE_DEACTIVATE; bu_mint := MINT; bu_token_account := TOKEN_A;
    bu_operations_authority := permanent_delegate MINT;
    bu_permissioned_burn_authority := pda (permissioned_burn_seeds MINT) OPERATIONS_PROGRAM_ID;
    bu_token_account_hold_position_pda := sample_position;
    bu_asset_class_version_pda := SAMPLE_VERSION; bu_token_2022_program := TOKEN_2022_PROGRAM_ID;
    bu_authority_roles_pda := SAMPLE_ROLES |} 450.

Lemma burns_respect_holds_witness :
  operation_promise sample_burn [ADMIN] hold_world
    (run_world (operations no_hook [ADMIN] sample_burn) hold_world).
Proof.
  apply (burns_respect_holds no_hook [ADMIN] sample_burn hold_world);
    [exact I|exact hold_world_config_inv|apply run_ok; vm_compute; reflexivity].
Defined.

Definition sample_controller_transfer : OperationsInstruction :=
  IxControllerTransfer {| ct_authority := ADMIN; ct_asset_configuration_pda := SAMPLE_CONFIG;
    ct_deactivate_pda := SAMPLE_DEACTIVATE; ct_mint := MINT; ct_from := TOKEN_A; ct_to := TOKEN_B;
    ct_operations_authority := permanent_delegate MINT;
    ct_extra_account_meta_list := pda (extra_account_metas_seeds MINT) TRANSFER_HOOK_PROGRAM_ID;
    ct_transfer_hook_program := TRANSFER_HOOK_PROGRAM_ID; ct_freeze_program := FREEZE_PROGRAM_ID;
    ct_deploy_program := DEPLOY_PROGRAM_ID; ct_factory_program := FACTORY_PROGRAM_ID;
    ct_deactivate_program := DEACTIVATE_PROGRAM_ID;
    ct_transfer_control_program := TRANSFER_CONTROL_PROGRAM_ID;
    ct_transfer_control_mode_pda := sample_mode_pda;
    ct_source_control_list_pda := sample_list_pda TOKEN_A;
    ct_destination_control_list_pda := sample_list_pda TOKEN_B;
    ct_source_freeze_state_pda := sample_freeze_pda TOKEN_A; ct_hold_program := HOLD_PROGRAM_ID;
    ct_source_hold_position_pda := sample_position; ct_asset_class_version_pda := SAMPLE_VERSION;
    ct_token_2022_program := TOKEN_2022_PROGRAM_ID; ct_authority_roles_pda := SAMPLE_ROLES |} 450.

Lemma forced_transfers_respect_holds_witness :
  operation_promise sample_controller_transfer [ADMIN] hold_world
    (run_world (operations no_hook [ADMIN] sample_controller_transfer) hold_world).
Proof.
  apply (forced_transfers_respect_holds no_hook [ADMIN] sample_controller_transfer hold_world);
    [exact I|exact hold_world_config_inv|apply run_ok; vm_compute; reflexivity].
Defined.
