(* ===== verification/HoldTheorems.v ===== *)
(** * HoldTheorems: what the hold program guarantees *)

From S2P Require Import Prelude.
From S2P Require Import ProgramIds.
From S2P Require Import Bitmask.
From S2P Require Import Errors.
From S2P Require Import State.
From S2P Require Import Runtime.
From S2P Require Import Anchor.
From S2P Require Import Frame.
From S2P Require Import Reference.
From S2P Require Import PdaSeeds.
From S2P Require Import PdaUtils.
From S2P Require Import Common.
From S2P Require Import Sample.
From S2P Require Import Freeze.
From S2P Require Import FreezeProofs.
From S2P Require Import TransferControl.
From S2P Require Import Token.
From S2P Require Import TransferHook.
From S2P Require Import Deployed.
From S2P Require Import Operations.
From S2P Require Import OperationsProofs.
From S2P Require Import Hold.
From S2P Require Import HoldProofs.
From S2P Require Import HoldInvariant.
From S2P Require Import SampleRuns.

Lemma hold_is_one_transition_witness :
  stepped_hold sample_create_hold sample_world hold_world /\ stepped_hold sample_execute_hold hold_world executed_world.
Proof.
  split.
  - apply (hold_is_one_transition no_hook [ALICE]); [exact sample_config_inv|exact sample_create_hold_ok].
  - apply (hold_is_one_transition no_hook [BOB]); [exact hold_world_config_inv|exact sample_execute_hold_ok].
Defined.

Lemma hold_keeps_accounting_witness : hold_inv executed_world.
Proof.
  apply (hold_keeps_accounting no_hook [BOB] sample_execute_hold hold_world);
    [exact hold_world_config_inv| |exact sample_execute_hold_ok].
  apply (hold_keeps_accounting no_hook [ALICE] sample_create_hold sample_world);
    [exact sample_config_inv|exact sample_hold_inv|exact sample_create_hold_ok].
Defined.

(** ** Underflow *)

Definition no_underflow (e : Error) : Prop := e <> EHold HoldError.HeldAmountUnderflow.

#[local] Hint Extern 1 (no_underflow _) => unfold no_underflow; discriminate : errs_db.

Section underflow.
Context `{Rt : SolanaRuntime} `{Laws : !RuntimeLaws}.

Lemma errs_account_try_from {T} `{AccountType T} k : errs no_underflow (account_try_from T k).
Proof. unfold account_try_from. solve_errs. Qed.
Lemma errs_loader_load {T} `{AccountType T} k : errs no_underflow (loader_load T k).
Proof. unfold loader_load. solve_errs. Qed.
Lemma errs_seeds_bump_check k seeds p b : errs no_underflow (seeds_bump_check k seeds p b).
Proof. unfold seeds_bump_check. solve_errs. Qed.
Lemma errs_account_exit {T} `{AccountType T} k (t : T) : errs no_underflow (account_exit k t).
Proof. unfold account_exit, write_data. solve_errs. Qed.
Lemma errs_emit_cpi e : errs no_underflow (emit_cpi e).
Proof. unfold emit_cpi. solve_errs. Qed.
Lemma errs_consume n h : errs no_underflow (consume n h).
Proof. unfold consume. solve_errs. Qed.
Lemma errs_require_functionality v f : errs no_underflow (require_functionality v f).
Proof.
  unfold require_functionality. apply errs_bind; [|intros; solve_errs].
  intros s e. unfold lift, is_functionality_enabled.
  destruct (_ =? _); [destruct (is_set _ _); simpl|]; by intros [= <-].
Qed.

#[local] Hint Resolve errs_account_try_from errs_loader_load errs_seeds_bump_check errs_account_exit
  errs_emit_cpi errs_consume errs_require_functionality : errs_db.

Lemma errs_ReleaseHold_try_accounts signers a id :
  errs no_underflow (ReleaseHold_try_accounts signers a id).
Proof.
  unfold ReleaseHold_try_accounts, signer, asset_configuration_constraint,
    asset_class_version_constraint. solve_errs.
Qed.

(** A hold never exceeds its position. *)
Lemma hold_covered mint token id kp kh w (p : HoldPosition) (h : Hold) :
  hold_inv w ->
  pda_at (hold_position_seeds mint token) HOLD_PROGRAM_ID kp ->
  pda_at (hold_seeds mint token id) HOLD_PROGRAM_ID kh ->
  stored w kp p -> stored w kh h -> 0 <= h_current_amount h <= hp_held_amount p /\ hp_held_amount p <= U64_MAX.
Proof.
  intros Hinv Hkp Hkh Sp Sh. destruct (proj1 Hinv _ _ Sp) as [Ep [_ Hmax] _ Es].
  destruct (proj2 Hinv _ _ Sh) as [Eh Ha _ _].
  destruct (pda_at_unique _ _ _ _ _ Hkp Ep) as [[= E1 E2] _]. rewrite <- E1, <- E2 in Es.
  destruct (pda_at_unique _ _ _ _ _ Hkh Eh) as [[= Em Et _] _].
  split; [|done]. split; [lia|]. rewrite Es.
  replace (h_current_amount h) with (hold_share mint token (Some h))
    by (simpl; unfold belongs; by rewrite <- Em, <- Et, !N.eqb_refl).
  eapply held_sum_ge; [exact Hinv|by apply view_Some].
Qed.

Lemma checked_sub_covered n m e s :
  0 <= n <= m -> m <= U64_MAX ->
  lift (S:=World) (E:=Error) (ok_or (checked_sub_u64 m n) e) s = Ok (m - n, s).
Proof. intros H1 H2. unfold checked_sub_u64. by rewrite checked_in by lia. Qed.

Lemma release_never_underflows signers a id n w :
  hold_inv w -> release_hold signers a id n w <> Err (EHold HoldError.HeldAmountUnderflow).
Proof.
  intros Hinv Hr. unfold release_hold in Hr.
  apply bind_err_cases in Hr as [Hr|([p h] & w0 & (-> & _ & Hp & Hh & Hkp & Hkh)%ok_inv & Hr)];
    [by apply errs_ReleaseHold_try_accounts in Hr|]. simpl in Hp, Hh.
  destruct (hold_covered _ _ _ _ _ _ _ _ Hinv Hkp Hkh Hp Hh) as [Hle Hmax].
  apply bind_err_cases in Hr as [Hr|(v & w0 & [_ ->]%ok_inv & Hr)]; [by apply errs_loader_load in Hr|].
  apply bind_err_cases in Hr as [Hr|([] & w0 & [_ ->]%ok_inv & Hr)];
    [by apply errs_require_functionality in Hr|].
  do 2 (apply bind_err_cases in Hr as [Hr|([] & w0 & [_ ->]%ok_inv & Hr)];
    [by apply (errs_require no_underflow) in Hr|]).
  apply bind_err_cases in Hr as [Hr|([] & w0 & [Hn ->]%ok_inv & Hr)];
    [by apply (errs_require no_underflow) in Hr|].
  apply bind_err_cases in Hr as [Hr|([] & w0 & [Hn' ->]%ok_inv & Hr)];
    [by apply (errs_require no_underflow) in Hr|].
  zify_checks. rewrite (bind_run _ _ _ _ _ (checked_sub_covered n (hp_held_amount p) _ w
    ltac:(lia) Hmax)) in Hr.
  revert Hr. match goal with |- ?m w = _ -> _ => assert (He : errs no_underflow m) by solve_errs end.
  intros Hr. by apply He in Hr.
Qed.

Lemma reclaim_never_underflows signers a id w :
  hold_inv w -> reclaim_hold signers a id w <> Err (EHold HoldError.HeldAmountUnderflow).
Proof.
  intros Hinv Hr. unfold reclaim_hold, ReclaimHold_try_accounts in Hr.
  apply bind_err_cases in Hr as [Hr|([p h] & w0 & (-> & _ & Hp & Hh & Hkp & Hkh)%ok_inv & Hr)];
    [by apply errs_ReleaseHold_try_accounts in Hr|]. simpl in Hp, Hh.
  destruct (hold_covered _ _ _ _ _ _ _ _ Hinv Hkp Hkh Hp Hh) as [Hle Hmax].
  apply bind_err_cases in Hr as [Hr|(v & w0 & [_ ->]%ok_inv & Hr)]; [by apply errs_loader_load in Hr|].
  apply bind_err_cases in Hr as [Hr|([] & w0 & [_ ->]%ok_inv & Hr)];
    [by apply errs_require_functionality in Hr|].
  apply bind_err_cases in Hr as [Hr|([] & w0 & [_ ->]%ok_inv & Hr)];
    [by apply (errs_require no_underflow) in Hr|].
  apply bind_err_cases in Hr as [Hr|(now & w0 & [_ ->]%ok_inv & Hr)]; [done|].
  apply bind_err_cases in Hr as [Hr|([] & w0 & [_ ->]%ok_inv & Hr)];
    [by apply (errs_require no_underflow) in Hr|].
  rewrite (bind_run _ _ _ _ _ (checked_sub_covered (h_current_amount h) (hp_held_amount p) _ w
    Hle Hmax)) in Hr.
  revert Hr. match goal with |- ?m w = _ -> _ => assert (He : errs no_underflow m) by solve_errs end.
  intros Hr. by apply He in Hr.
Qed.
End underflow.

(** C12: As long as the accounts are consistent, releasing a
    part of a hold and reclaiming an expired hold never fail with [HeldAmountUnderflow]: the checked
    subtractions from the position always succeed, so that no hold can be stuck. *)
Theorem release_and_reclaim_never_underflow `{Laws : RuntimeLaws} signers a id w :
  hold_inv w ->
  (forall n e, release_hold signers a id n w = Err e -> no_underflow e) /\
  (forall e, reclaim_hold signers a id w = Err e -> no_underflow e).
Proof.
  intros Hinv. split; [intros n e Hr ->|intros e Hr ->].
  - by apply release_never_underflows in Hr.
  - by apply reclaim_never_underflows in Hr.
Qed.

Definition sample_release : ReleaseHold := {|
  rh_caller := BOB; rh_mint := MINT; rh_asset_configuration_pda := SAMPLE_CONFIG;
  rh_asset_class_version_pda := SAMPLE_VERSION; rh_token_account := TOKEN_A;
  rh_hold_position := sample_position; rh_hold_record := sample_hold 1 |}.

(** The whole hold can be released, and released more than once it fails otherwise. *)
Lemma release_and_reclaim_never_underflow_witness :
  is_ok (release_hold [BOB] sample_release 1 250 hold_world) = true /\
  no_underflow (EHold HoldError.AmountExceedsHold) /\
  release_hold [BOB] sample_release 1 251 hold_world = Err (EHold HoldError.AmountExceedsHold).
Proof.
  split; [vm_compute; reflexivity|]. split; [|vm_compute; reflexivity].
  apply (proj1 (release_and_reclaim_never_underflow [BOB] sample_release 1 hold_world hold_world_inv) 251).
  vm_compute. reflexivity.
Defined.

(** ** Who may do what, and how much *)

Section actors.
Context `{Rt : SolanaRuntime} `{Laws : !RuntimeLaws} `{Tok : Token2022} `{TLaws : !TokenLaws}.

Definition hold_pda (mint token : Pubkey) (id : Z) : Pubkey := pda (hold_seeds mint token id) HOLD_PROGRAM_ID.

(** The hold [id] of a token account of a mint, at its canonical address. *)
Definition hold_of (w : World) (mint token : Pubkey) (id : Z) (h : Hold) : Prop :=
  stored w (hold_pda mint token id) h /\ h_mint h = mint /\ h_token_account h = token /\ h_hold_id h = id.

(** The amount is free of the freezes and holds on the account: the status is read at the PDA of the
    mint and the token account, and so is the position. *)
Definition reservable (a : CreateHold) (n : Z) (w : World) (t : TokenState) : Prop :=
  data_of w (ch_token_account a) = DToken t /\ t_mint t = ch_mint a /\
  fully_frozen (status w (freeze_pda (ch_mint a) (ch_token_account a))) = false /\
  frozen_balance (status w (freeze_pda (ch_mint a) (ch_token_account a))) +
    position_held (view HoldPosition w (position_pda (ch_mint a) (ch_token_account a))) + n <= t_amount t.

Definition hold_allowed (ix : HoldInstruction) (signers : list Pubkey) (w : World) : Prop :=
  match ix with
  | IxCreateHold a _ n e _ _ => exists t, reservable a n w t /\ 0 < n /\ w_now w < e /\ t_owner t ∈ signers
  | IxControllerCreateHold a _ n e _ _ => exists t k r, 0 < n /\ w_now w < e /\
      reservable (cch_accounts a) n w t /\ ch_authority (cch_accounts a) ∈ signers /\
      pda_at (roles_seeds (ch_mint (cch_accounts a)) (ch_authority (cch_accounts a)))
        ACCESS_CONTROL_PROGRAM_ID k /\ stored w k r /\ has_role r ROLE_CONTROLLER
  | IxExecuteHold a id n => exists h, hold_of w (eh_mint a) (eh_source_token a) id h /\
      h_escrow h ∈ signers /\ w_now w < h_expiration h /\ 0 < n <= h_current_amount h /\
      forall k, h_destination h = Some k -> k = eh_destination_token a
  | IxReleaseHold a id n => exists h, hold_of w (rh_mint a) (rh_token_account a) id h /\
      h_escrow h ∈ signers /\ 0 < n <= h_current_amount h
  | IxReclaimHold a id => exists h, hold_of w (rh_mint a) (rh_token_account a) id h /\ h_expiration h <= w_now w
  end.

(** A hold found at an address derived from the seeds is the one of the seeds, at the canonical address. *)
Lemma hold_canonical w k mint token id (h : Hold) :
  hold_inv w -> stored w k h -> pda_at (hold_seeds mint token id) HOLD_PROGRAM_ID k -> hold_of w mint token id h.
Proof.
  intros Hinv Hh Hk. destruct (proj2 Hinv _ _ Hh) as [Ek _ _ _].
  destruct (pda_at_unique _ _ _ _ _ Hk Ek) as [[= -> -> ->] _]. by rewrite Ek in Hh.
Qed.

Lemma status_account w w' k : account w' k = account w k -> status w' k = status w k.
Proof.
  intros E. unfold status, freeze_state_of, stored, owner_of, data_of. by rewrite E.
Qed.

Lemma created_reservable a id n e escrow dest w w' :
  hold_inv w -> created a id n e escrow dest w w' ->
  0 < n /\ w_now w < e /\ forall t, data_of w (ch_token_account a) = DToken t -> reservable a n w t.
Proof.
  intros Hinv (token & p & pb & hb & w0 & p' & h' & ev & Hc & Hr & _).
  apply ok_inv in Hr as (_ & Hf & Hn & He & _ & _ & _ & Hle & _). simpl in *.
  pose proof (cr_freeze _ _ _ _ _ _ Hc) as Ef. pose proof (cr_token _ _ _ _ _ _ Hc) as (Ht & _ & Em).
  assert (Es : status w0 (ch_token_account_freeze_state_pda a) =
               status w (ch_token_account_freeze_state_pda a)).
  { apply status_account, (cr_frame _ _ _ _ _ _ Hc).
    - rewrite Ef, (cr_position _ _ _ _ _ _ Hc). intros [[=] _]%pda_inj.
    - rewrite Ef, (cr_record _ _ _ _ _ _ Hc). intros [[=] _]%pda_inj. }
  rewrite (cr_now _ _ _ _ _ _ Hc) in He. do 2 (split; [done|]).
  rewrite Es, Ef in *. intros t Ht'. assert (t = token) as -> by congruence.
  unfold reservable, freeze_pda, position_pda. rewrite <- (cr_position _ _ _ _ _ _ Hc).
  split_and!; try done. rewrite (cr_value _ _ _ _ _ _ Hc) in Hle.
  destruct (view HoldPosition w (ch_hold_position a)) as [q|] eqn:E; simpl in *; [|lia].
  apply view_Some, (proj1 Hinv) in E as [_ [? _] _ _]. lia.
Qed.

Lemma create_hold_owner signers a id n e escrow dest w w' :
  create_hold signers a id n e escrow dest w = Ok (tt, w') ->
  exists t, data_of w (ch_token_account a) = DToken t /\ t_owner t ∈ signers.
Proof.
  intros Hr. unfold create_hold, CreateHold_try_accounts in Hr.
  apply bind_ok in Hr as ([[token [p pb]] hb] & w0 & (Hc & Hs & Ho)%ok_inv & _).
  simpl in *. exists token. split; [apply (cr_token _ _ _ _ _ _ Hc)|]. by rewrite (Ho _ eq_refl).
Qed.

Lemma controller_create_hold_controller signers a id n e escrow dest w w' :
  controller_create_hold signers a id n e escrow dest w = Ok (tt, w') ->
  exists t k r, data_of w (ch_token_account (cch_accounts a)) = DToken t /\
    ch_authority (cch_accounts a) ∈ signers /\
    pda_at (roles_seeds (ch_mint (cch_accounts a)) (ch_authority (cch_accounts a)))
      ACCESS_CONTROL_PROGRAM_ID k /\ stored w k r /\ has_role r ROLE_CONTROLLER.
Proof.
  intros Hr. unfold controller_create_hold, ControllerCreateHold_try_accounts in Hr.
  apply bind_ok in Hr as ([[token [p pb]] hb] & w0 & Hacc & Hr).
  pose proof Hacc as (Hc & Hs & _)%ok_inv. simpl in *.
  apply bind_ok in Hr as (r & ? & [Hr0 ->]%ok_inv & Hr).
  apply bind_ok in Hr as ([] & ? & [Hrole ->]%ok_inv & Hr).
  set (c := cch_accounts a) in *. set (k := cch_authority_roles_pda a) in *.
  assert (Hk : pda_at (roles_seeds (ch_mint c) (ch_authority c)) ACCESS_CONTROL_PROGRAM_ID k).
  { clear Hr. unfold create_try_accounts in Hacc. by inv_ok. }
  exists token, k, r. split_and!; [apply (cr_token _ _ _ _ _ _ Hc)|done|done| |done].
  apply view_Some. apply view_Some in Hr0. rewrite <- Hr0. symmetry.
  apply view_account, (cr_frame _ _ _ _ _ _ Hc).
  - intros E. rewrite E, (cr_position _ _ _ _ _ _ Hc) in Hk.
    destruct (pda_at_inj _ _ _ _ _ Hk (pda_at_pda _ _)) as [[=] _].
  - intros E. rewrite E, (cr_record _ _ _ _ _ _ Hc) in Hk.
    destruct (pda_at_inj _ _ _ _ _ Hk (pda_at_pda _ _)) as [[=] _].
Qed.
End actors.

(** C9: Who may do what with holds: a hold is created by the owner of the token
    account, or by a controller of the mint, with a date to come, on an account that is not frozen and
    for an amount that the freezes and the other holds of that account leave free; executed by its
    escrow, before its expiration, towards the pinned destination if there is one; released by its
    escrow; reclaimed by anyone once expired.  No more than what is left of the hold can be executed
    or released.  The hold is the one of the mint, token account and id the instruction names, the
    position and the freeze state those of the mint and the token account, read at their canonical
    addresses: which accounts the caller passes does not matter. *)
Theorem hold_actors `{Laws : RuntimeLaws} `{TLaws : TokenLaws} other signers ix w w' :
  config_inv w -> hold_inv w -> hold other signers ix w = Ok (tt, w') -> hold_allowed ix signers w.
Proof.
  intros Hcfg Hinv Hr. destruct ix; simpl in Hr |- *.
  - destruct (create_hold_owner _ _ _ _ _ _ _ _ _ Hr) as (t & Ht & Ho). exists t.
    apply create_hold_created, created_reservable in Hr as (? & ? & Hres); [|done]. split_and!; auto.
  - destruct (controller_create_hold_controller _ _ _ _ _ _ _ _ _ Hr) as (t & k & r & Ht & H).
    exists t, k, r. apply controller_create_hold_created, created_reservable in Hr as (? & ? & Hres); [|done].
    do 2 (split; [done|]). split; [by apply Hres|exact H].
  - destruct (execute_hold_executed _ _ _ _ _ _ _ Hcfg Hr)
      as (p & h & w1 & ev & _ & _ & Hh & _ & Hk & He & E & Hnow & _ & Hn & _ & Hd & _).
    rewrite E in He. exists h. split_and!; [by eapply hold_canonical|done|done|lia|lia|done].
  - unfold release_hold in Hr. apply bind_ok in Hr as ([p h] & ? & (-> & Hs & _ & Hh & _ & Hk)%ok_inv & Hr).
    exists h. inv_ok. zify_checks. simpl in *. split_and!; [by eapply hold_canonical|congruence|lia|done].
  - unfold reclaim_hold, ReclaimHold_try_accounts in Hr.
    apply bind_ok in Hr as ([p h] & ? & (-> & Hs & _ & Hh & _ & Hk)%ok_inv & Hr).
    exists h. inv_ok. zify_checks. simpl in *. split; [by eapply hold_canonical|done].
Qed.

Lemma hold_actors_witness :
  hold_allowed sample_create_hold [ALICE] sample_world /\ hold_allowed sample_execute_hold [BOB] hold_world.
Proof.
  split.
  - apply (hold_actors no_hook [ALICE] sample_create_hold sample_world hold_world);
      [exact sample_config_inv|exact sample_hold_inv|exact sample_create_hold_ok].
  - apply (hold_actors no_hook [BOB] sample_execute_hold hold_world executed_world);
      [exact hold_world_config_inv|exact hold_world_inv|exact sample_execute_hold_ok].
Defined.
