(* ===== verification/Frames.v ===== *)
(** * Frames: the accounts each program can write

    Every instruction writes only accounts of its own program, besides what the
    token program does for it; [solve_preserves] proves it from the structure of
    the handlers. *)

From S2P Require Import Prelude.
From S2P Require Import ProgramIds.
From S2P Require Import Bitmask.
From S2P Require Import Errors.
From S2P Require Import State.
From S2P Require Import Runtime.
From S2P Require Import Anchor.
From S2P Require Import Frame.
From S2P Require Import Reference.
From S2P Require Import PdaSeeds.
From S2P Require Import PdaUtils.
From S2P Require Import Common.
From S2P Require Import Sample.
From S2P Require Import Freeze.
From S2P Require Import FreezeProofs.
From S2P Require Import TransferControl.
From S2P Require Import Token.
From S2P Require Import TransferHook.
From S2P Require Import Deployed.
From S2P Require Import Operations.
From S2P Require Import OperationsProofs.
From S2P Require Import Hold.
From S2P Require Import HoldProofs.
From S2P Require Import HoldInvariant.
From S2P Require Import SampleRuns.
From S2P Require Import HoldTheorems.

(** What only reads: the inversion of its success says so. *)
Ltac solve_reader :=
  match goal with
  | |- preserves ?R _ => apply (preserves_reader R); intros; solve [by inv_ok]
  end.
#[export] Hint Extern 9 (preserves _ (require_active _)) => solve_reader : preserves_db.
#[export] Hint Extern 9 (preserves _ (require_not_paused _)) => solve_reader : preserves_db.
#[export] Hint Extern 9 (preserves _ (require_functionality _ _)) => solve_reader : preserves_db.
#[export] Hint Extern 9 (preserves _ (require_role _ _)) => solve_reader : preserves_db.
#[export] Hint Extern 9 (preserves _ (held_amount _)) => solve_reader : preserves_db.
#[export] Hint Extern 9 (preserves _ (operation_guards _ _ _ _ _ _)) => solve_reader : preserves_db.
#[export] Hint Extern 9 (preserves _ (account_guards _ _)) => solve_reader : preserves_db.
#[export] Hint Extern 9 (preserves _ (batch_guards _ _)) => solve_reader : preserves_db.
#[export] Hint Extern 9 (preserves _ (asset_configuration_constraint _ _ _)) => solve_reader : preserves_db.
#[export] Hint Extern 9 (preserves _ (asset_class_version_constraint _ _)) => solve_reader : preserves_db.
#[export] Hint Extern 9 (preserves _ (roles_constraint _ _ _)) => solve_reader : preserves_db.
#[export] Hint Extern 9 (preserves _ (deactivate_constraint _ _)) => solve_reader : preserves_db.
#[export] Hint Extern 9 (preserves _ (hold_position_constraint _ _ _)) => solve_reader : preserves_db.
#[export] Hint Extern 9 (preserves _ (token_constraint _ _ _ _)) => solve_reader : preserves_db.
#[export] Hint Extern 9 (preserves _ (mint_constraint _ _)) => solve_reader : preserves_db.
#[export] Hint Extern 9 (preserves _ (freeze_status _)) => solve_reader : preserves_db.
#[export] Hint Extern 9 (preserves _ (load_freeze_state _)) => solve_reader : preserves_db.

Section frames.
Context `{Rt : SolanaRuntime} `{Laws : !RuntimeLaws}.

Lemma freeze_writes signers ix : preserves (writes_only FREEZE_PROGRAM_ID) (freeze signers ix).
Proof.
  destruct ix; simpl; unfold freeze_account, freeze_account_partial, unfreeze_account,
    unfreeze_account_partial, FreezeAccountPartial_try_accounts, UnfreezeAccountPartial_try_accounts,
    FreezeAccount_try_accounts, UnfreezeAccount_try_accounts, batch_freeze_account,
    batch_freeze_account_partial, batch_unfreeze_account, batch_unfreeze_account_partial,
    BatchFreezeAccountPartial_try_accounts, BatchUnfreezeAccountPartial_try_accounts,
    BatchUnfreezeAccount_try_accounts, BatchFreezeAccount_try_accounts, load_or_create, load_frozen,
    close_or_serialize; solve_preserves.
Qed.

Lemma transfer_control_writes signers ix :
  preserves (writes_only TRANSFER_CONTROL_PROGRAM_ID) (transfer_control signers ix).
Proof.
  destruct ix; simpl; unfold initialize, add_to_control_list, remove_from_control_list,
    SetMode_try_accounts, AddToControlList_try_accounts, RemoveFromControlList_try_accounts;
    solve_preserves.
Qed.

Lemma create_hold_writes signers a id n e escrow dest :
  preserves (writes_only HOLD_PROGRAM_ID) (create_hold signers a id n e escrow dest).
Proof.
  unfold create_hold, CreateHold_try_accounts, create_try_accounts, create_guards, record_new_hold.
  solve_preserves.
Qed.

Lemma controller_create_hold_writes signers a id n e escrow dest :
  preserves (writes_only HOLD_PROGRAM_ID) (controller_create_hold signers a id n e escrow dest).
Proof.
  unfold controller_create_hold, ControllerCreateHold_try_accounts, create_try_accounts,
    create_guards, record_new_hold. solve_preserves.
Qed.

Lemma release_hold_writes signers a id n :
  preserves (writes_only HOLD_PROGRAM_ID) (release_hold signers a id n).
Proof. unfold release_hold, ReleaseHold_try_accounts, consume. solve_preserves. Qed.

Lemma reclaim_hold_writes signers a id :
  preserves (writes_only HOLD_PROGRAM_ID) (reclaim_hold signers a id).
Proof. unfold reclaim_hold, ReclaimHold_try_accounts, ReleaseHold_try_accounts. solve_preserves. Qed.
End frames.
