(* ===== verification/System.v ===== *)
(** * System: the programs together

    [step] interleaves the instructions of the freeze, transfer-control,
    operations and hold programs with user transfers and with whatever else the
    chain does ([env_step]).  [system_inv] is kept by every step: in every world
    reached, the balance of a token account covers its active holds. *)

From S2P Require Import Prelude.
From S2P Require Import ProgramIds.
From S2P Require Import Bitmask.
From S2P Require Import Errors.
From S2P Require Import State.
From S2P Require Import Runtime.
From S2P Require Import Anchor.
From S2P Require Import Frame.
From S2P Require Import Reference.
From S2P Require Import PdaSeeds.
From S2P Require Import PdaUtils.
From S2P Require Import Common.
From S2P Require Import Sample.
From S2P Require Import Freeze.
From S2P Require Import FreezeProofs.
From S2P Require Import TransferControl.
From S2P Require Import Token.
From S2P Require Import TransferHook.
From S2P Require Import Deployed.
From S2P Require Import Operations.
From S2P Require Import OperationsProofs.
From S2P Require Import Hold.
From S2P Require Import HoldProofs.
From S2P Require Import HoldInvariant.
From S2P Require Import SampleRuns.
From S2P Require Import HoldTheorems.
From S2P Require Import Frames.

(** ** What a step leaves as it is *)

(** The accounts of the token programs stay those of the token programs, mints keep their hook, and
    no asset configuration or freeze state appears. *)
Record token_quiet (w w' : World) : Prop := {
  tq_hooked : forall mint, hooked w' mint <-> hooked w mint;
  tq_tokens : forall k, is_token_program (owner_of w' k) = true ->
    account w' k = account w k \/ owner_of w' k = TOKEN_2022_PROGRAM_ID;
  tq_classic : forall k, owner_of w k = TOKEN_PROGRAM_ID -> account w' k = account w k;
  tq_configs : forall k (c : AssetConfiguration), stored w' k c -> stored w k c }.

#[export] Instance token_quiet_preorder : PreOrder token_quiet.
Proof.
  split; [by split; auto|]. intros w1 w2 w3 [H1 T1 S1 C1] [H2 T2 S2 C2]. split.
  - intros mint. by rewrite H2.
  - intros k Ho. destruct (T2 k Ho) as [E|E]; [|by right]. unfold owner_of in *. rewrite E in *.
    by apply T1.
  - intros k Hk. rewrite <- (S1 k Hk). apply S2. unfold owner_of in *. by rewrite S1.
  - intros k c Hs. by apply C1, C2.
Qed.

(** No freeze state appears. *)
Definition no_new_freeze (w w' : World) : Prop :=
  forall k s, freeze_state_of w' k = Some s -> freeze_state_of w k = Some s.

(** Token accounts keep their balances, except [source]. *)
Definition keeps_balances (source : Pubkey) (w w' : World) : Prop :=
  forall k t, k <> source -> token_account w k t ->
    exists t', token_account w' k t' /\ t_mint t' = t_mint t /\ t_amount t <= t_amount t'.

#[export] Instance keeps_balances_preorder source : PreOrder (keeps_balances source).
Proof.
  split; [by intros w k t _ Hk; exists t|].
  intros w1 w2 w3 H1 H2 k t Hs Hk. destruct (H1 k t Hs Hk) as (t2 & Hk2 & E2 & L2).
  destruct (H2 k t2 Hs Hk2) as (t3 & Hk3 & E3 & L3). exists t3. split_and!; [done|congruence|lia].
Qed.

Section quiet.
Context `{Rt : SolanaRuntime} `{Laws : !RuntimeLaws} `{Tok : Token2022} `{TLaws : !TokenLaws}.

(** The programs that own neither tokens nor asset configurations. *)
Definition bystander (p : Pubkey) : Prop :=
  p <> TOKEN_PROGRAM_ID /\ p <> TOKEN_2022_PROGRAM_ID /\ p <> DEPLOY_PROGRAM_ID.

Lemma is_token_program_or p :
  is_token_program p = true <-> p = TOKEN_PROGRAM_ID \/ p = TOKEN_2022_PROGRAM_ID.
Proof. unfold is_token_program. rewrite orb_true_iff, !N.eqb_eq. done. Qed.

Lemma writes_only_tokens p w w' k :
  bystander p -> writes_only p w w' ->
  is_token_program (owner_of w k) = true \/ is_token_program (owner_of w' k) = true ->
  account w' k = account w k.
Proof.
  intros (H1 & H2 & _) Hw. rewrite !is_token_program_or.
  intros [[E|E]|[E|E]]; [eapply writes_only_account|eapply writes_only_account|
    eapply writes_only_account'|eapply writes_only_account']; try exact Hw; rewrite E;
    (by apply not_eq_sym) || program_ne.
Qed.

Lemma token_account_owner w k t : token_account w k t -> is_token_program (owner_of w k) = true.
Proof. unfold token_account, owner_of. by intros ->. Qed.
Lemma mint_account_owner w k m : mint_account w k m -> is_token_program (owner_of w k) = true.
Proof. unfold mint_account, owner_of. by intros ->. Qed.

Lemma writes_only_quiet p w w' : bystander p -> writes_only p w w' -> token_quiet w w'.
Proof.
  intros Hp Hw. assert (Ht := writes_only_tokens p w w'). split.
  - intros mint. split; intros (m & Hm & Hh); exists m; (split; [|done]);
      pose proof (mint_account_owner _ _ _ Hm); unfold mint_account in *; rewrite <- Hm;
      [symmetry|]; apply Ht; auto.
  - intros k Ho. left. apply Ht; auto.
  - intros k Ho. apply Ht; [done|done|]. left. by rewrite Ho.
  - intros k c Hs. apply (writes_only_stored p w w') in Hs; [done| |program_ne|done].
    intros E. by apply Hp.
Qed.

Lemma writes_only_balances p w w' source : bystander p -> writes_only p w w' -> keeps_balances source w w'.
Proof.
  intros Hp Hw k t _ Hk. exists t. split; [|done]. pose proof (token_account_owner _ _ _ Hk).
  unfold token_account in *. rewrite <- Hk. eapply writes_only_tokens; eauto.
Qed.

Lemma writes_only_freeze p w w' : p <> FREEZE_PROGRAM_ID -> writes_only p w w' -> no_new_freeze w w'.
Proof.
  intros Hp [_ Hw] k s Hs. unfold freeze_state_of in *. destruct (Hw k) as [E|(_ & _ & [E|E])].
  - unfold data_of in *. by rewrite <- E.
  - by rewrite <- E.
  - destruct (data_of w' k); try done. apply N.eqb_eq in E. exfalso. apply Hp. by rewrite <- E.
Qed.

(** Updates of token and mint accounts that keep their identity. *)
Lemma put_token_quiet k t t' w :
  token_account w k t -> token_quiet w (put_token k t' w).
Proof.
  intros Hk. unfold put_token, token_account in *. split.
  - intros mint. unfold hooked, mint_account. rewrite account_set_account. case_decide; [subst|done].
    rewrite Hk. split; intros (m & [=] & _).
  - intros j _. unfold owner_of. rewrite account_set_account. case_decide; [by right|by left].
  - intros j. unfold owner_of. rewrite account_set_account. case_decide; [subst; rewrite Hk; program_ne|done].
  - intros j c. unfold stored. rewrite account_set_account. case_decide; [discriminate|done].
Qed.

Lemma put_mint_quiet k m m' w :
  mint_account w k m -> m_transfer_hook m' = m_transfer_hook m -> token_quiet w (put_mint k m' w).
Proof.
  intros Hk Hh. unfold put_mint, mint_account in *. split.
  - intros mint. unfold hooked, mint_account. rewrite account_set_account. case_decide; [subst|done].
    rewrite Hk. split; intros (m0 & [= <-] & E); eexists; (split; [reflexivity|]); congruence.
  - intros j _. unfold owner_of. rewrite account_set_account. case_decide; [by right|by left].
  - intros j. unfold owner_of. rewrite account_set_account. case_decide; [subst; rewrite Hk; program_ne|done].
  - intros j c. unfold stored. rewrite account_set_account. case_decide; [discriminate|done].
Qed.
End quiet.

(** ** Token movements *)

(** What the instructions of the token program keep, [source] being debited. *)
Record moves (source : Pubkey) (w w' : World) : Prop := {
  mv_quiet : token_quiet w w';
  mv_balances : keeps_balances source w w';
  mv_freeze : no_new_freeze w w';
  mv_holds : holds_untouched [] w w' }.

Lemma holds_untouched_trans w1 w2 w3 :
  holds_untouched [] w1 w2 -> holds_untouched [] w2 w3 -> holds_untouched [] w1 w3.
Proof.
  intros H1 H2 j Hj Ho. destruct Ho as [Ho|Ho].
  - assert (E : account w2 j = account w1 j) by (apply H1; auto). rewrite <- E. apply H2; [done|].
    left. unfold owner_of in *. by rewrite E.
  - assert (E : account w3 j = account w2 j) by (apply H2; auto). rewrite E. apply H1; [done|].
    right. unfold owner_of in *. by rewrite <- E.
Qed.

#[export] Instance moves_preorder source : PreOrder (moves source).
Proof.
  split.
  - intros w. split; [reflexivity|reflexivity|by intros k s|by intros j].
  - intros w1 w2 w3 [] []. split; [by etransitivity|by etransitivity| |by eapply holds_untouched_trans].
    intros k s Hs. auto.
Qed.

Lemma moves_accounts source w w' : (forall k, account w' k = account w k) -> moves source w w'.
Proof.
  intros E. split; [split| | |].
  - intros mint. unfold hooked, mint_account. by rewrite E.
  - intros k _. by left.
  - intros k _. apply E.
  - intros k c. unfold stored. by rewrite E.
  - intros k t _ Hk. exists t. unfold token_account in *. by rewrite E.
  - intros k s. unfold freeze_state_of, data_of. by rewrite E.
  - intros j _ _. apply E.
Qed.

Section movements.
Context `{Rt : SolanaRuntime} `{Laws : !RuntimeLaws} `{Tok : Token2022} `{TLaws : !TokenLaws}.

Lemma put_token_moves source k t t' w :
  token_account w k t -> (k = source \/ (t_mint t' = t_mint t /\ t_amount t <= t_amount t')) ->
  moves source w (put_token k t' w).
Proof.
  intros Hk Hs. split; [by eapply put_token_quiet| | |by eapply token_write_untouched].
  - intros j u Hj Hu. unfold put_token, token_account in *. rewrite account_set_account.
    case_decide as E; [subst j|by exists u]. destruct Hs as [->|[Em El]]; [done|].
    exists t'. assert (u = t) as -> by congruence. done.
  - intros j s. unfold put_token. rewrite freeze_state_of_set_account. by case_decide.
Qed.

Lemma put_mint_moves source k m m' w :
  mint_account w k m -> m_transfer_hook m' = m_transfer_hook m -> moves source w (put_mint k m' w).
Proof.
  intros Hk Hh. split; [by eapply put_mint_quiet| | |].
  - intros j t _ Ht. exists t. unfold put_mint, token_account, mint_account in *.
    rewrite account_set_account. case_decide; [congruence|done].
  - intros j s. unfold put_mint. rewrite freeze_state_of_set_account. by case_decide.
  - intros j _ Ho. unfold put_mint, mint_account, owner_of in *. rewrite account_set_account in *.
    case_decide; [subst|done]. rewrite Hk in Ho. simpl in Ho.
    exfalso. destruct Ho as [Ho|Ho]; revert Ho; program_ne.
Qed.

Lemma transferred_moves src dst n s d w w' :
  src <> dst -> 0 <= n -> token_account w src s -> token_account w dst d ->
  transferred src dst n s d w w' -> moves src w w'.
Proof.
  intros Hne Hn Hs Hd [_ H1 H2 H3].
  set (w1 := put_token src (with_transferring false (with_amount (t_amount s - n) s)) w).
  set (w2 := put_token dst (with_transferring false (with_amount (t_amount d + n) d)) w1).
  assert (Hd1 : token_account w1 dst d).
  { unfold w1, put_token, token_account. by rewrite account_set_account_ne. }
  transitivity w1; [eapply put_token_moves; [exact Hs|by left]|].
  transitivity w2; [eapply put_token_moves; [exact Hd1|right; simpl; split; [done|lia]]|].
  apply moves_accounts. intros k. unfold w2, w1, put_token. rewrite !account_set_account.
  unfold token_account in *. repeat case_decide; subst; auto.
Qed.

Lemma burnt_moves mint k n w w' : burnt mint k n w w' -> moves k w w'.
Proof.
  intros (t & m & Ht & Hm & _ & _ & _ & _ & E & _).
  transitivity (put_token k (with_amount (t_amount t - n) t) w);
    [eapply put_token_moves; [exact Ht|by left]|].
  etransitivity; [|apply moves_accounts; intros j; unfold account; rewrite E; reflexivity].
  eapply (put_mint_moves _ _ m); [|reflexivity]. unfold put_token, mint_account, token_account in *.
  rewrite account_set_account_ne; [exact Hm|]. intros ->. congruence.
Qed.
End movements.

(** ** The invariant of the system *)

Section invariant.
Context `{Rt : SolanaRuntime} `{Laws : !RuntimeLaws} `{Tok : Token2022} `{TLaws : !TokenLaws}.

(** The token account of a position holds what the position reserves. *)
Definition covered (w : World) (p : HoldPosition) : Prop :=
  0 < hp_held_amount p ->
  exists t, token_account w (hp_token_account p) t /\ t_mint t = hp_mint p /\
    hp_held_amount p <= t_amount t.

Definition lien_inv (w : World) : Prop :=
  forall k p, stored w k p -> hooked w (hp_mint p) /\ covered w p.

(** Token accounts of the deployed mints belong to Token-2022. *)
Definition token_inv (w : World) : Prop :=
  forall k t, is_token_program (owner_of w k) = true -> data_of w k = DToken t ->
    hooked w (t_mint t) -> owner_of w k = TOKEN_2022_PROGRAM_ID.

(** The mint of a token account of the classic program is one of the classic program, which closes none. *)
Definition classic_inv (w : World) : Prop :=
  forall k t, owner_of w k = TOKEN_PROGRAM_ID -> data_of w k = DToken t -> owner_of w (t_mint t) = TOKEN_PROGRAM_ID.

Record system_inv (w : World) : Prop := {
  si_config : config_inv w;
  si_hold : hold_inv w;
  si_freeze : freeze_inv w;
  si_token : token_inv w;
  si_classic : classic_inv w;
  si_lien : lien_inv w }.

Lemma freeze_inv_mono w w' : no_new_freeze w w' -> freeze_inv w -> freeze_inv w'.
Proof. intros H Hf k s Hs. by apply (Hf k), H. Qed.

Lemma config_inv_quiet w w' : token_quiet w w' -> config_inv w -> config_inv w'.
Proof. intros [Hh _ _ Hc] H mint k c Hk Hs. apply Hh. eapply H; [exact Hk|by apply Hc]. Qed.

Lemma token_inv_quiet w w' : token_quiet w w' -> token_inv w -> token_inv w'.
Proof.
  intros [Hh Ht _ _] H k t Ho Hd Hm. destruct (Ht k Ho) as [E|E]; [|done].
  unfold owner_of, data_of in *. rewrite E in *. apply (H k t); [done|done|by apply Hh].
Qed.

Lemma classic_inv_quiet w w' : token_quiet w w' -> classic_inv w -> classic_inv w'.
Proof.
  intros [_ Ht Hs _] H k t Ho Hd. destruct (Ht k) as [E|E]; [by rewrite Ho| |rewrite Ho in E; revert E; program_ne].
  assert (Hm : owner_of w (t_mint t) = TOKEN_PROGRAM_ID).
  { apply (H k); unfold owner_of, data_of in *; congruence. }
  unfold owner_of in *. by rewrite (Hs _ Hm).
Qed.

Lemma positions_untouched w w' k (p : HoldPosition) :
  holds_untouched [] w w' -> stored w' k p -> stored w k p.
Proof.
  intros Hu Hs. apply view_Some. apply view_Some in Hs. rewrite <- Hs. symmetry.
  eapply view_untouched; [done|exact Hu|apply not_elem_of_nil].
Qed.

Lemma covered_kept w w' source p :
  keeps_balances source w w' -> hp_token_account p <> source -> covered w p -> covered w' p.
Proof.
  intros Hb Hne Hc Hp. destruct (Hc Hp) as (t & Ht & Em & Hl).
  destruct (Hb _ _ Hne Ht) as (t' & Ht' & Em' & Hl'). exists t'. split_and!; [done|congruence|lia].
Qed.

(** After a debit of [source], only the position of [source] has to be looked at. *)
Lemma covered_debit mint source w w' s :
  system_inv w -> keeps_balances source w w' -> token_account w source s -> t_mint s = mint ->
  forall k p, k <> position_pda mint source -> stored w k p -> covered w' p.
Proof.
  intros [_ Hh _ _ _ Hl] Hb Hs Em k p Hk Hp Hpos. destruct (Hl k p Hp) as [_ Hc].
  destruct (decide (hp_token_account p = source)) as [E|Hne]; [|by eapply covered_kept].
  exfalso. destruct (Hc Hpos) as (t & Ht & Emt & _). rewrite E in Ht.
  rewrite (token_account_inj _ _ _ _ Ht Hs), Em in Emt. apply Hk.
  rewrite (po_pda _ _ _ (proj1 Hh k p Hp)), E, <- Emt. done.
Qed.

Lemma system_inv_moves w w' :
  system_inv w -> token_quiet w w' -> holds_untouched [] w w' -> freeze_inv w' ->
  (forall k p, stored w k p -> covered w p -> covered w' p) -> system_inv w'.
Proof.
  intros [Hc Hh Hf Ht Hs Hl] Hq Hu Hf' Hcov. split; [by eapply config_inv_quiet|by eapply hold_inv_untouched|
    done|by eapply token_inv_quiet|by eapply classic_inv_quiet|].
  intros k p Hp. apply (positions_untouched w) in Hp; [|done]. destruct (Hl k p Hp) as [Hm Hcp].
  split; [by apply (tq_hooked _ _ Hq)|by eapply Hcov].
Qed.

Lemma system_inv_debit mint source s w w' :
  system_inv w -> moves source w w' -> token_account w source s -> t_mint s = mint ->
  (forall p, stored w (position_pda mint source) p -> covered w' p) -> system_inv w'.
Proof.
  intros Hinv [Hq Hb Hf Hu] Hs Em Hp. eapply system_inv_moves; [done|done|done| |].
  - eapply freeze_inv_mono; [done|apply Hinv].
  - intros k p Hk _. destruct (decide (k = position_pda mint source)) as [->|Hne]; [by apply Hp|].
    by eapply covered_debit.
Qed.

Lemma system_inv_bystander p w w' :
  system_inv w -> bystander p -> p <> HOLD_PROGRAM_ID -> writes_only p w w' -> freeze_inv w' ->
  system_inv w'.
Proof.
  intros Hinv Hp Hh Hw Hf. apply (system_inv_moves w); [done| | |done|].
  - by eapply writes_only_quiet.
  - by eapply holds_untouched_writes.
  - intros k q _ Hc. destruct (decide (hp_token_account q = 0%N)).
    + eapply (covered_kept _ _ 1%N); [by eapply writes_only_balances| |done]. congruence.
    + eapply (covered_kept _ _ 0%N); [by eapply writes_only_balances|done|done].
Qed.
End invariant.

(** ** Steps of the token side *)

Section token_steps.
Context `{Rt : SolanaRuntime} `{Laws : !RuntimeLaws} `{Tok : Token2022} `{TLaws : !TokenLaws}.

Lemma lien_stored w k (p : HoldPosition) : stored w k p -> lien w k = hp_held_amount p.
Proof. intros H%stored_data. unfold lien. by rewrite H. Qed.

Lemma position_token w mint source (p : HoldPosition) :
  hold_inv w -> stored w (position_pda mint source) p -> hp_mint p = mint /\ hp_token_account p = source.
Proof.
  intros Hh Hp. pose proof (po_pda _ _ _ (proj1 Hh _ _ Hp)) as E.
  apply pda_inj in E as [[= -> ->] _]. done.
Qed.

(** A position is covered by a balance that covers its lien. *)
Lemma covered_lien w w' mint source t p :
  hold_inv w -> stored w (position_pda mint source) p -> token_account w' source t ->
  t_mint t = mint -> lien w (position_pda mint source) <= t_amount t -> covered w' p.
Proof.
  intros Hh Hp Ht Em Hl _. destruct (position_token _ _ _ _ Hh Hp) as [<- <-].
  rewrite (lien_stored _ _ _ Hp) in Hl. by exists t.
Qed.

Lemma system_inv_burnt mint k n w w' : system_inv w -> burnt mint k n w w' -> system_inv w'.
Proof.
  intros Hinv Hb. pose proof (burnt_moves _ _ _ _ _ Hb) as Hm.
  destruct Hb as (t & m & Ht & Hmt & Em & Hn & Hl & _ & E & _).
  eapply system_inv_debit; [done|exact Hm|exact Ht|exact Em|]. intros p Hp.
  eapply (covered_lien _ _ _ _ (with_amount (t_amount t - n) t)); [apply Hinv|exact Hp| |done|simpl; lia].
  unfold token_account, account in *. rewrite E. unfold put_mint, put_token.
  change (account (set_account mint (mkAccount TOKEN_2022_PROGRAM_ID (DMint (with_supply (m_supply m - n) m)))
    (set_account k (mkAccount TOKEN_2022_PROGRAM_ID (DToken (with_amount (t_amount t - n) t))) w)) k =
    mkAccount TOKEN_2022_PROGRAM_ID (DToken (with_amount (t_amount t - n) t))).
  rewrite account_set_account_ne, account_set_account_eq; [done|].
  intros ->. unfold mint_account, account in Hmt. congruence.
Qed.

Lemma system_inv_burnt_all mint xs w w' : system_inv w -> burnt_all mint xs w w' -> system_inv w'.
Proof.
  revert w. induction xs as [|[n k] xs IH]; simpl; intros w Hinv Hb; [by rewrite Hb|].
  destruct Hb as (w1 & Hb & Hb'). eapply IH; [by eapply system_inv_burnt|exact Hb'].
Qed.

Lemma system_inv_accounts w w' : (forall k, account w' k = account w k) -> system_inv w -> system_inv w'.
Proof.
  intros E Hinv. destruct (moves_accounts 0%N _ _ E) as [Hq _ Hf Hu].
  apply (system_inv_moves w); [done|done|done|eapply freeze_inv_mono; [done|apply Hinv]|].
  intros k p _ Hc Hpos. destruct (Hc Hpos) as (t & Ht & H). exists t. unfold token_account in *. by rewrite E.
Qed.

Lemma system_inv_transferred mint src dst n s d w w' :
  system_inv w -> src <> dst -> 0 <= n -> token_account w src s -> token_account w dst d ->
  t_mint s = mint -> lien w (position_pda mint src) + n <= t_amount s ->
  transferred src dst n s d w w' -> system_inv w'.
Proof.
  intros Hinv Hne Hn Hs Hd Em Hl Ht. eapply system_inv_debit; [done| |exact Hs|exact Em|].
  { exact (transferred_moves _ _ _ _ _ _ _ Hne Hn Hs Hd Ht). }
  intros p Hp. destruct Ht as [_ Hs' _ _].
  eapply covered_lien; [apply Hinv|exact Hp|exact Hs'|done|simpl; lia].
Qed.

(** The signers of a transaction are users: no one has the private key of a PDA. *)
Definition users (signers : list Pubkey) : Prop := forall seeds program, pda seeds program ∉ signers.

Lemma system_inv_operations other signers ix w w' :
  system_inv w -> users signers -> operations other signers ix w = Ok (tt, w') -> system_inv w'.
Proof.
  intros Hinv Hu Hr. apply operations_promise in Hr; [|apply Hinv]. destruct ix; simpl in Hr.
  - destruct Hr as [_ Hb]. by eapply system_inv_burnt.
  - destruct Hr as (_ & _ & Hb). by eapply system_inv_burnt_all.
  - destruct Hr as (_ & (s & d & Hs & Hd & Es & Ed & Hn & Hw) & s' & Hs' & Hl).
    rewrite (token_account_inj _ _ _ _ Hs' Hs) in Hl.
    destruct Hw as [(_ & E & _)|[Hne Ht]].
    + apply (system_inv_accounts w); [|done]. intros k. unfold account. by rewrite E.
    + eapply system_inv_transferred; [exact Hinv|exact Hne|exact Hn|exact Hs|exact Hd|exact Es|exact Hl|exact Ht].
  - destruct Hr as [Hp _]. by destruct (Hu _ _ Hp).
Qed.
End token_steps.

Section transfer_step.
Context `{Rt : SolanaRuntime} `{Laws : !RuntimeLaws} `{Tok : Token2022} `{TLaws : !TokenLaws}.

(** What the hook sees of the source while the amount is in flight. *)
Lemma in_flight_accounts ix s d w k :
  tx_source ix <> tx_destination ix ->
  token_account w (tx_source ix) s -> token_account w (tx_destination ix) d ->
  data_of (in_flight ix s d w) (tx_source ix) =
    DToken (mark (Some true) (with_amount (t_amount s - tx_amount ix) s)) /\
  (forall p : HoldPosition, stored w k p -> stored (in_flight ix s d w) k p) /\
  no_new_freeze w (in_flight ix s d w).
Proof.
  intros Hne Hs Hd. unfold in_flight, moved, put_token, token_account in *. split_and!.
  - unfold data_of. by rewrite account_set_account_ne, account_set_account_eq by done.
  - intros p Hp. unfold stored in *. rewrite !account_set_account.
    case_decide as E1; [rewrite <- E1, Hd in Hp; discriminate Hp|].
    case_decide as E2; [rewrite <- E2, Hs in Hp; discriminate Hp|done].
  - intros j x. rewrite !freeze_state_of_set_account. by repeat case_decide.
Qed.

(** A compliant transfer leaves the lien of the source covered. *)
Lemma compliant_lien ix s d w (p : HoldPosition) :
  freeze_inv w -> tx_source ix <> tx_destination ix ->
  token_account w (tx_source ix) s -> token_account w (tx_destination ix) d ->
  stored w (position_pda (tx_mint ix) (tx_source ix)) p ->
  compliant (in_flight ix s d w) (tx_mint ix) (tx_source ix) (tx_destination ix) ->
  lien w (position_pda (tx_mint ix) (tx_source ix)) + tx_amount ix <= t_amount s.
Proof.
  intros Hf Hne Hs Hd Hp [_ _ _ (t & Ht & Hl) _].
  destruct (in_flight_accounts ix s d w (position_pda (tx_mint ix) (tx_source ix)) Hne Hs Hd)
    as (Es & Hpos & Hnf).
  rewrite Es in Ht. injection Ht as <-. simpl in Hl.
  fold (position_pda (tx_mint ix) (tx_source ix)) in Hl.
  rewrite (lien_stored _ _ _ (Hpos p Hp)) in Hl. rewrite (lien_stored _ _ _ Hp).
  assert (Hb : 0 <= frozen_balance (status (in_flight ix s d w)
    (pda (freeze_state_seeds (tx_mint ix) (tx_source ix)) FREEZE_PROGRAM_ID))).
  { unfold status. destruct (freeze_state_of (in_flight ix s d w) _) as [x|] eqn:E; [|done].
    apply Hnf, Hf in E as [[? _] _]. done. }
  destruct s; simpl in *. lia.
Qed.

Lemma system_inv_transfer other ix signers w w' :
  system_inv w -> users signers -> hooked w (tx_mint ix) ->
  transfer_checked (hook_program other) ix signers w = Ok (tt, w') -> system_inv w'.
Proof.
  intros Hinv Hu Hh Hr. apply transfer_effect in Hr; [|done].
  destruct Hr as (s & d & Hs & Hd & Es & Ed & Ha & Hn & [[_ ->]|(Hne & Ht & Hc)]); [done|].
  destruct Hc as [Hp|Hc]; [rewrite Hp in Ha; by destruct (Hu _ _ Ha)|].
  pose proof (transferred_moves _ _ _ _ _ _ _ Hne (proj1 Hn) Hs Hd Ht) as Hm.
  eapply system_inv_debit; [done|exact Hm|exact Hs|exact Es|]. intros p Hp. destruct Ht as [_ Hs' _ _].
  eapply covered_lien; [apply Hinv|exact Hp|exact Hs'|done|]. simpl.
  pose proof (compliant_lien ix s d w p (si_freeze _ Hinv) Hne Hs Hd Hp Hc). lia.
Qed.
End transfer_step.

(** ** Steps of the hold program *)

Section hold_steps.
Context `{Rt : SolanaRuntime} `{Laws : !RuntimeLaws} `{Tok : Token2022} `{TLaws : !TokenLaws}.

Lemma system_inv_hold kp kh mint token id w w' (p' : HoldPosition) :
  system_inv w -> stepped_at kp kh mint token id w w' -> token_quiet w w' -> no_new_freeze w w' ->
  hooked w mint -> stored w' kp p' -> covered w' p' ->
  (forall k p, k <> kp -> stored w k p -> covered w' p) -> system_inv w'.
Proof.
  intros [Hc Hh Hf Ht Hcl Hl] Hs Hq Hnf Hm Hp' Hcp' Hcov.
  split; [by eapply config_inv_quiet|by eapply hold_inv_step|by eapply freeze_inv_mono|
    by eapply token_inv_quiet|by eapply classic_inv_quiet|].
  intros k p Hp. destruct (decide (k = kp)) as [->|Hne].
  - rewrite (stored_inj _ _ _ _ Hp Hp') in *. split; [|done]. apply (tq_hooked _ _ Hq).
    destruct (step_summarised _ _ _ _ _ _ _ Hs Hh) as (q & h & Hsum).
    rewrite (stored_inj _ _ _ _ Hp' (ss_position _ _ _ _ _ _ _ _ _ Hsum)).
    by rewrite (proj1 (ss_position_id _ _ _ _ _ _ _ _ _ Hsum)).
  - assert (Hne' : k <> kh).
    { intros ->. destruct Hs as [_ _ _ _ (q & h & _ & _ & Hh') _ _].
      by eapply stored_hold_not_position. }
    apply view_Some in Hp. rewrite (view_untouched [kp; kh] w) in Hp;
      [|done|by apply (sh_frame _ _ _ _ _ _ _ Hs)|by apply not_in_pair].
    apply view_Some in Hp. split; [|by eapply Hcov]. apply (tq_hooked _ _ Hq). by apply (Hl k).
Qed.

Lemma hold_bystander : bystander HOLD_PROGRAM_ID.
Proof. split_and!; program_ne. Qed.

(** Instructions that only write accounts of the hold program. *)
Lemma system_inv_hold_writes kp kh mint token id w w' (p' : HoldPosition) :
  system_inv w -> stepped_at kp kh mint token id w w' -> writes_only HOLD_PROGRAM_ID w w' ->
  hooked w mint -> stored w' kp p' -> covered w p' -> system_inv w'.
Proof.
  intros Hinv Hs Hw Hm Hp' Hc. pose proof hold_bystander as Hb.
  assert (Hkeep : forall p, covered w p -> covered w' p).
  { intros p Hcp. destruct (decide (hp_token_account p = 0%N)).
    - eapply (covered_kept _ _ 1%N); [by eapply writes_only_balances| |done]. congruence.
    - eapply (covered_kept _ _ 0%N); [by eapply writes_only_balances|done|done]. }
  eapply system_inv_hold; [done|done|by eapply writes_only_quiet|eapply writes_only_freeze;
    [|exact Hw]; program_ne|done|exact Hp'|by apply Hkeep|].
  intros k p _ Hp. apply Hkeep. by apply (si_lien _ Hinv k).
Qed.
End hold_steps.

Section hold_instructions.
Context `{Rt : SolanaRuntime} `{Laws : !RuntimeLaws} `{Tok : Token2022} `{TLaws : !TokenLaws}.

Lemma config_hooked w mint kc (c : AssetConfiguration) :
  config_inv w -> pda_at (asset_configuration_seeds mint) DEPLOY_PROGRAM_ID kc -> stored w kc c ->
  hooked w mint.
Proof. intros H. apply H. Qed.

Lemma token_account_intro w k t :
  token_inv w -> is_token_program (owner_of w k) = true -> data_of w k = DToken t ->
  hooked w (t_mint t) -> token_account w k t.
Proof.
  intros H Ho Hd Hm. pose proof (H k t Ho Hd Hm) as E. unfold token_account, owner_of, data_of in *.
  destruct (account w k); simpl in *; congruence.
Qed.

Lemma created_covered a id n e escrow dest w w' :
  system_inv w -> created a id n e escrow dest w w' ->
  hooked w (ch_mint a) /\
  exists p' : HoldPosition, stored w' (ch_hold_position a) p' /\ covered w p'.
Proof.
  intros Hinv Hcr. pose proof (created_reservable _ _ _ _ _ _ _ _ (si_hold _ Hinv) Hcr) as (_ & _ & Hres).
  pose proof Hcr as (token & p & pb & hb & w0 & p' & h' & ev & Hc & Hr & ->).
  apply ok_inv in Hr as (_ & _ & Hn & _ & _ & _ & _ & _ & [= -> ->]). simpl in *.
  destruct (cr_config _ _ _ _ _ _ Hc) as (kc & c & Hkc & Hsc).
  assert (Hh : hooked w (ch_mint a)) by (eapply config_hooked; [apply Hinv|exact Hkc|exact Hsc]).
  destruct (cr_token _ _ _ _ _ _ Hc) as (Hd & Htp & Em). split; [done|].
  assert (Hne : ch_hold_position a <> ch_hold_record a).
  { eapply position_hold_ne; [rewrite (cr_position _ _ _ _ _ _ Hc)|rewrite (cr_record _ _ _ _ _ _ Hc)];
      apply pda_at_pda. }
  eexists. split.
  { unfold stored. rewrite account_set_account_ne by (by apply not_eq_sym).
    apply account_set_account_eq. }
  intros _. simpl. destruct (Hres token Hd) as (_ & _ & _ & Hl). unfold position_pda in Hl.
  rewrite <- (cr_position _ _ _ _ _ _ Hc) in Hl. exists token. split_and!; [|done|].
  - apply token_account_intro; [apply Hinv| |done|by rewrite Em].
    by rewrite (cr_owner _ _ _ _ _ _ Hc).
  - rewrite (cr_value _ _ _ _ _ _ Hc). assert (Hz : 0 <= frozen_balance (status w
      (freeze_pda (ch_mint a) (ch_token_account a)))).
    { unfold status. destruct (freeze_state_of w _) as [x|] eqn:E; [|done].
      apply (si_freeze _ Hinv) in E as [[? _] _]. done. }
    destruct (view HoldPosition w (ch_hold_position a)); simpl in *; lia.
Qed.

(** Releases and reclaims lower a stored position. *)
Lemma transition_lowers now mint token id (p p' : HoldPosition) h h' :
  transition now mint token id (Some p) (Some h) p' h' -> 0 <= h_current_amount h ->
  exists n, 0 <= n /\ p' = with_held (hp_held_amount p - n) p.
Proof. intros Ht Hc. inversion Ht; subst; eexists; (split; [|reflexivity]); lia. Qed.

Lemma system_inv_lowered kp kh mint token id w w' (p : HoldPosition) (h : Hold) :
  system_inv w -> stepped_at kp kh mint token id w w' -> writes_only HOLD_PROGRAM_ID w w' ->
  stored w kp p -> stored w kh h -> system_inv w'.
Proof.
  intros Hinv Hs Hw Hp Hh. pose proof Hs as [Hkp _ _ _ (p' & h' & Ht & Sp & _) _ _].
  pose proof (proj1 (si_hold _ Hinv) _ _ Hp) as [Ekp _ _ _].
  destruct (pda_at_unique _ _ _ _ _ Hkp Ekp) as [[= Em Et] _].
  destruct (si_lien _ Hinv _ _ Hp) as [Hm Hc].
  rewrite (proj2 (view_Some w kp p) Hp), (proj2 (view_Some w kh h) Hh) in Ht.
  apply transition_lowers in Ht as (n & Hn & ->); [|by apply (proj2 (si_hold _ Hinv) _ _ Hh)].
  eapply system_inv_hold_writes; [done|exact Hs|done|by rewrite Em|exact Sp|].
  intros Hpos. simpl in *. destruct Hc as (t & Htk & Emt & Hl); [lia|].
  exists t. split_and!; [done|done|lia].
Qed.
End hold_instructions.

Section execute_step.
Context `{Rt : SolanaRuntime} `{Laws : !RuntimeLaws} `{Tok : Token2022} `{TLaws : !TokenLaws}.

Lemma covered_writes w w' p :
  writes_only HOLD_PROGRAM_ID w w' -> covered w p -> covered w' p.
Proof.
  intros Hw Hc. pose proof hold_bystander as Hb. destruct (decide (hp_token_account p = 0%N)).
  - eapply (covered_kept _ _ 1%N); [by eapply writes_only_balances| |done]. congruence.
  - eapply (covered_kept _ _ 0%N); [by eapply writes_only_balances|done|done].
Qed.

(** Writing both accounts back after the transfer. *)
Lemma write_back_only kp kh (p : HoldPosition) (h : Hold) ev w :
  owner_of w kp = HOLD_PROGRAM_ID -> owner_of w kh = HOLD_PROGRAM_ID -> kp <> kh ->
  writes_only HOLD_PROGRAM_ID w
    (set_account kh (mkAccount HOLD_PROGRAM_ID (DHold h))
      (set_account kp (mkAccount HOLD_PROGRAM_ID (DHoldPosition p)) (add_event ev w))).
Proof.
  intros Hp Hh Hne. etransitivity; [|apply writes_only_set_account].
  - apply (writes_only_set_account _ (add_event ev w)); [by left|by left|by right].
  - left. unfold owner_of. rewrite account_set_account_ne by done. exact Hh.
  - by left.
  - by right.
Qed.

Lemma execution_moves a n w w1 :
  execution a n w w1 -> moves (eh_source_token a) w w1.
Proof.
  intros [(s & d & Hs & Hd & _ & _ & Hn & [[_ ->]|[Hne Ht]])]; [reflexivity|].
  exact (transferred_moves _ _ _ _ _ _ _ Hne (proj1 Hn) Hs Hd Ht).
Qed.

(** The balance left covers what is left of the position. *)
Lemma execution_covered a n w w1 (p : HoldPosition) :
  execution a n w w1 -> covered w p -> 0 < n ->
  hp_mint p = eh_mint a -> hp_token_account p = eh_source_token a ->
  covered w1 (with_held (hp_held_amount p - n) p).
Proof.
  intros [(s & d & Hs & Hd & Es & _ & Hn & Hw)] Hc Hpos Em Et Hp. simpl in *.
  destruct Hc as (t & Ht & Emt & Hl); [lia|]. rewrite Et in *.
  rewrite (token_account_inj _ _ _ _ Ht Hs) in *.
  destruct Hw as [[_ ->]|[Hne [_ Hs' _ _]]].
  - exists s. split_and!; [done|congruence|lia].
  - eexists. split; [exact Hs'|]. simpl. split; [congruence|lia].
Qed.

Lemma system_inv_execute other signers a id n w w' :
  system_inv w -> execute_hold other signers a id n w = Ok (tt, w') -> system_inv w'.
Proof.
  intros Hinv Hr. pose proof (execute_hold_step _ _ _ _ _ _ _ (si_config _ Hinv) Hr) as Hst.
  destruct (execute_hold_executed _ _ _ _ _ _ _ (si_config _ Hinv) Hr)
    as (p & h & w1 & ev & He & Hp & Hh & Hkp & Hkh & _ & _ & _ & _ & Hn & Hle & _ & ->).
  assert (Hne : eh_hold_position a <> eh_hold_record a) by (by eapply position_hold_ne).
  pose proof (execution_moves _ _ _ _ He) as [Hq Hb Hnf Hu].
  assert (Hsame : account w1 (eh_hold_position a) = account w (eh_hold_position a) /\
                  account w1 (eh_hold_record a) = account w (eh_hold_record a)).
  { split; (apply Hu; [apply not_elem_of_nil|left; unfold owner_of]); by rewrite ?Hp, ?Hh. }
  destruct Hsame as [Ep Eh].
  match goal with |- system_inv ?w2 =>
    assert (Hw : writes_only HOLD_PROGRAM_ID w1 w2) end.
  { apply write_back_only; [unfold owner_of; by rewrite Ep, Hp|unfold owner_of; by rewrite Eh, Hh|done]. }
  destruct (si_lien _ Hinv _ _ Hp) as [Hm Hc].
  pose proof (po_pda _ _ _ (proj1 (si_hold _ Hinv) _ _ Hp)) as Epda.
  assert (Hid : hp_mint p = eh_mint a /\ hp_token_account p = eh_source_token a).
  { rewrite Epda in Hkp. by destruct (pda_at_unique _ _ _ _ _ Hkp eq_refl) as [[= -> ->] _]. }
  destruct Hid as [Em Et]. rewrite Em in Hm.
  eapply system_inv_hold; [done|exact Hst| | |exact Hm| |eapply covered_writes; [exact Hw|]|].
  - etransitivity; [exact Hq|]. by eapply writes_only_quiet; [apply hold_bystander|exact Hw].
  - intros k s Hs. apply Hnf. eapply writes_only_freeze; [|exact Hw|exact Hs]. program_ne.
  - unfold stored. rewrite account_set_account_ne, account_set_account_eq by done. reflexivity.
  - eapply execution_covered; [exact He|exact Hc|lia|exact Em|exact Et].
  - intros k q Hk Hs. eapply covered_writes; [exact Hw|]. destruct He as [(s & d & Hsrc & _ & Es & _)].
    eapply covered_debit; [done|exact Hb|exact Hsrc|exact Es| |exact Hs].
    unfold position_pda. by rewrite <- Em, <- Et, <- Epda.
Qed.

Lemma system_inv_hold_instruction other signers ix w w' :
  system_inv w -> hold other signers ix w = Ok (tt, w') -> system_inv w'.
Proof.
  intros Hinv Hr. pose proof (hold_step _ _ _ _ _ (si_config _ Hinv) Hr) as Hs.
  destruct ix as [a id n e escrow dest|a id n e escrow dest|a id n|a id n|a id]; simpl in Hr.
  - destruct (created_covered _ _ _ _ _ _ _ _ Hinv (create_hold_created _ _ _ _ _ _ _ _ _ Hr))
      as (Hm & p' & Hp & Hc).
    apply create_hold_writes in Hr. by eapply system_inv_hold_writes.
  - destruct (created_covered _ _ _ _ _ _ _ _ Hinv (controller_create_hold_created _ _ _ _ _ _ _ _ _ Hr))
      as (Hm & p' & Hp & Hc).
    apply controller_create_hold_writes in Hr. by eapply system_inv_hold_writes.
  - by eapply system_inv_execute.
  - pose proof Hr as Hw%release_hold_writes. unfold release_hold in Hr.
    apply bind_ok in Hr as ([p h] & ? & (-> & _ & Hp & Hh & _)%ok_inv & _).
    by eapply system_inv_lowered.
  - pose proof Hr as Hw%reclaim_hold_writes. unfold reclaim_hold, ReclaimHold_try_accounts in Hr.
    apply bind_ok in Hr as ([p h] & ? & (-> & _ & Hp & Hh & _)%ok_inv & _).
    by eapply system_inv_lowered.
Qed.
End execute_step.

(** ** Steps and reachable worlds *)

Section steps.
Context `{Rt : SolanaRuntime} `{Laws : !RuntimeLaws} `{Tok : Token2022} `{TLaws : !TokenLaws}.

(** What else happens on the chain: the other programs, the clock.  The programs of the workspace
    that are not steps below are shown to be such steps, or quieter, in Ledger.v.
    Only the hold and freeze programs write their accounts; a mint keeps its transfer hook; a mint
    gets its asset configuration with its hook; and the balance of an account of a deployed mint
    decreases by the transfers and burns above only, since Token-2022 refuses ordinary burns of a
    mint with a permissioned burn authority and the closing of an account that is not empty. *)
Record env_step (w w' : World) : Prop := {
  es_holds : holds_untouched [] w w';
  es_freeze : no_new_freeze w w';
  es_hooked : forall mint, hooked w mint -> hooked w' mint;
  es_configs : forall mint k (c : AssetConfiguration),
    pda_at (asset_configuration_seeds mint) DEPLOY_PROGRAM_ID k -> stored w' k c ->
    stored w k c \/ hooked w' mint;
  es_balances : forall k t, token_account w k t -> hooked w (t_mint t) -> 0 < t_amount t ->
    exists t', token_account w' k t' /\ t_mint t' = t_mint t /\ t_amount t <= t_amount t';
  es_tokens : token_inv w';
  es_classic : classic_inv w' }.

Inductive step (other : HookCall) (w w' : World) : Prop :=
| step_freeze signers ix :
    freeze_args_ok ix -> freeze signers ix w = Ok (tt, w') -> step other w w'
| step_transfer_control signers ix :
    transfer_control signers ix w = Ok (tt, w') -> step other w w'
| step_operations signers ix :
    users signers -> operations other signers ix w = Ok (tt, w') -> step other w w'
| step_hold signers ix :
    hold other signers ix w = Ok (tt, w') -> step other w w'
| step_transfer signers ix :
    users signers -> hooked w (tx_mint ix) ->
    transfer_checked (hook_program other) ix signers w = Ok (tt, w') -> step other w w'
| step_env : env_step w w' -> step other w w'.

(** Before anything is deployed. *)
Definition genesis (w : World) : Prop :=
  (forall k, owner_of w k <> HOLD_PROGRAM_ID /\ owner_of w k <> DEPLOY_PROGRAM_ID) /\
  (forall k, freeze_state_of w k = None) /\ token_inv w /\ classic_inv w.

Lemma system_inv_genesis w : genesis w -> system_inv w.
Proof.
  intros (Ho & Hf & Ht & Hcl). split; [|split| |done|done|].
  - intros mint k c _ Hs%stored_owner. by destruct (proj2 (Ho k)).
  - intros k p Hs%stored_owner. by destruct (proj1 (Ho k)).
  - intros k h Hs%stored_owner. by destruct (proj1 (Ho k)).
  - intros k s Hs. rewrite Hf in Hs. done.
  - intros k p Hs%stored_owner. by destruct (proj1 (Ho k)).
Qed.

Lemma system_inv_env w w' : system_inv w -> env_step w w' -> system_inv w'.
Proof.
  intros [Hc Hh Hf Ht _ Hl] [Eh Ef Em Ec Eb Et Es]. split;
    [|by eapply hold_inv_untouched|by eapply freeze_inv_mono|done|done|].
  - intros mint k c Hk Hs. destruct (Ec mint k c Hk Hs) as [Hs'|]; [|done].
    by eapply Em, Hc.
  - intros k p Hs. apply (positions_untouched w) in Hs; [|done]. destruct (Hl k p Hs) as [Hm Hcov].
    split; [by apply Em|]. intros Hp. destruct (Hcov Hp) as (t & Htk & Emt & Hle).
    destruct (Eb _ t Htk) as (t' & Htk' & Emt' & Hle'); [by rewrite Emt|lia|].
    exists t'. split_and!; [done|congruence|lia].
Qed.

Lemma freeze_bystander : bystander FREEZE_PROGRAM_ID.
Proof. split_and!; program_ne. Qed.
Lemma transfer_control_bystander : bystander TRANSFER_CONTROL_PROGRAM_ID.
Proof. split_and!; program_ne. Qed.

Lemma system_inv_step other w w' : system_inv w -> step other w w' -> system_inv w'.
Proof.
  intros Hinv [signers ix Hok Hr|signers ix Hr|signers ix Hu Hr|signers ix Hr|signers ix Hu Hm Hr|He].
  - eapply (system_inv_bystander FREEZE_PROGRAM_ID w);
      [done|apply freeze_bystander|program_ne|by eapply freeze_writes|].
    eapply freeze_run; [exact Hok|apply Hinv|exact Hr].
  - eapply (system_inv_bystander TRANSFER_CONTROL_PROGRAM_ID w);
      [done|apply transfer_control_bystander|program_ne|by eapply transfer_control_writes|].
    eapply freeze_inv_mono; [|apply Hinv].
    eapply writes_only_freeze; [|by eapply transfer_control_writes]. program_ne.
  - by eapply system_inv_operations.
  - by eapply system_inv_hold_instruction.
  - by eapply system_inv_transfer.
  - by eapply system_inv_env.
Qed.

Lemma reachable_system_inv other w0 w : genesis w0 -> rtc (step other) w0 w -> system_inv w.
Proof.
  intros Hg%system_inv_genesis Hr. induction Hr as [w|w w1 w2 Hs _ IH]; [done|].
  by eapply IH, system_inv_step.
Qed.

(** The sum of the holds of a token account is the one its position records. *)
Lemma held_sum_position w mint token :
  hold_inv w -> 0 < held_sum mint token w ->
  exists p : HoldPosition, stored w (position_pda mint token) p /\ hp_mint p = mint /\
    hp_token_account p = token /\ hp_held_amount p = held_sum mint token w.
Proof.
  intros Hh Hpos. destruct (view HoldPosition w (position_pda mint token)) as [p|] eqn:E.
  - apply view_Some in E. exists p. destruct (position_token _ _ _ _ Hh E) as [Em Et].
    split_and!; [done|done|done|]. rewrite <- Em, <- Et. by apply (proj1 Hh _ _ E).
  - rewrite (no_holds_no_sum _ _ _ Hh E) in Hpos. done.
Qed.
End steps.

(** One step. *)
Lemma system_keeps_invariant `{Laws : RuntimeLaws} `{TLaws : TokenLaws} other w w' :
  system_inv w -> step other w w' -> system_inv w'.
Proof. apply system_inv_step. Qed.

(** Any number of steps. *)
Lemma holds_always_covered `{Laws : RuntimeLaws} `{TLaws : TokenLaws} other w0 w mint token :
  genesis w0 -> rtc (step other) w0 w -> 0 < held_sum mint token w ->
  exists t, token_account w token t /\ t_mint t = mint /\ held_sum mint token w <= t_amount t.
Proof.
  intros Hg Hr Hpos. pose proof (reachable_system_inv _ _ _ Hg Hr) as Hinv.
  destruct (held_sum_position _ _ _ (si_hold _ Hinv) Hpos) as (p & Hp & <- & <- & E).
  rewrite <- E in *. by apply (si_lien _ Hinv _ _ Hp).
Qed.

(** ** A run of the system *)

Definition genesis_world : World := {|
  w_lamports := w_lamports sample_world; w_accounts := ∅; w_now := 0; w_events := [] |}.

Lemma genesis_world_ok : genesis genesis_world.
Proof.
  split_and!; [|done| |].
  - intros k. change (owner_of genesis_world k) with SYSTEM_PROGRAM_ID. split; program_ne.
  - intros k t _ [=].
  - intros k t _ [=].
Qed.

Lemma accounts_all (f : Account -> bool) w k :
  f no_account = true -> forallb (fun ka => f ka.2) (map_to_list (w_accounts w)) = true ->
  f (account w k) = true.
Proof.
  intros H0 Hall. unfold account. destruct (w_accounts w !! k) as [a|] eqn:E; [|done]. simpl.
  rewrite forallb_forall in Hall. specialize (Hall (k, a)).
  by apply elem_of_map_to_list, list_elem_of_In, Hall in E.
Qed.

(** The token accounts of the world belong to Token-2022. *)
Definition token_2022_only (a : Account) : bool :=
  match acc_data a with DToken _ => N.eqb (acc_owner a) TOKEN_2022_PROGRAM_ID | _ => true end.

Lemma token_2022_only_ok w :
  forallb (fun ka => token_2022_only ka.2) (map_to_list (w_accounts w)) = true -> token_inv w /\ classic_inv w.
Proof.
  intros H. assert (Ho : forall k t, data_of w k = DToken t -> owner_of w k = TOKEN_2022_PROGRAM_ID);
    [|split; [intros k t _ Hd _; by eapply Ho|intros k t E Hd%Ho; rewrite E in Hd; revert Hd; program_ne]].
  intros k t Hd. pose proof (accounts_all token_2022_only w k eq_refl H) as Ha.
  unfold token_2022_only, owner_of, data_of in *. rewrite Hd in Ha. by apply N.eqb_eq in Ha.
Qed.

Lemma deployment_step : env_step genesis_world sample_world.
Proof.
  assert (Hown : forall k, owner_of sample_world k <> HOLD_PROGRAM_ID).
  { intros k. apply N.eqb_neq, negb_true_iff.
    apply (accounts_all (fun a => negb (N.eqb (acc_owner a) HOLD_PROGRAM_ID)));
      vm_compute; reflexivity. }
  split.
  - intros j _ [Ho|Ho]; [|by destruct (Hown j)].
    change (owner_of genesis_world j) with SYSTEM_PROGRAM_ID in Ho. revert Ho. program_ne.
  - intros k s Hs. exfalso. revert Hs. apply (holds_no_ok FreezeState); [done|vm_compute; reflexivity].
  - intros mint (m & Hm & _). discriminate Hm.
  - intros mint k c Hk Hs. right. by eapply sample_config_inv.
  - intros k t Ht. discriminate Ht.
  - apply token_2022_only_ok. vm_compute. reflexivity.
  - apply token_2022_only_ok. vm_compute. reflexivity.
Qed.

Lemma sample_reachable : rtc (step no_hook) genesis_world executed_world.
Proof.
  eapply rtc_l; [apply step_env, deployment_step|].
  eapply rtc_l; [eapply step_hold, sample_create_hold_ok|].
  eapply rtc_l; [eapply step_hold, sample_execute_hold_ok|apply rtc_refl].
Qed.

Lemma hold_world_system_inv : system_inv hold_world.
Proof.
  apply (reachable_system_inv no_hook genesis_world); [apply genesis_world_ok|].
  eapply rtc_l; [apply step_env, deployment_step|].
  eapply rtc_l; [eapply step_hold, sample_create_hold_ok|apply rtc_refl].
Qed.
