(* ===== verification/AccessControl.v ===== *)
(** * AccessControl: the access-control program ([programs/access-control])

    A [Roles] account per mint and account holds the mask of the account's roles.
    The instructions refine a map from (mint, account) to sets of roles:
    [initialize] gives the administrator's role at deployment, [grant_roles] and
    [revoke_roles] are union and difference, done by administrators only. *)

From S2P Require Import Prelude.
From S2P Require Import Bitmask.
From S2P Require Import ProgramIds.
From S2P Require Import Errors.
From S2P Require Import State.
From S2P Require Import Runtime.
From S2P Require Import Anchor.
From S2P Require Import Frame.
From S2P Require Import Reference.
From S2P Require Import PdaSeeds.
From S2P Require Import PdaUtils.
From S2P Require Import Common.
From S2P Require Import Sample.

(** ** Accounts *)

Record Initialize : Set := mkInitialize {
  in_payer : Pubkey;
  in_temp_mint_authority : Pubkey;
  in_account : Pubkey;
  in_mint : Pubkey;
  in_roles_pda : Pubkey }.

(** [GrantRoles]; [RevokeRoles] has the same fields but [payer]. *)
Record GrantRoles : Set := mkGrantRoles {
  gr_payer : Pubkey;
  gr_authority : Pubkey;
  gr_asset_configuration_pda : Pubkey;
  gr_authority_roles_pda : Pubkey;
  gr_account : Pubkey;
  gr_deactivate_pda : Pubkey;
  gr_mint : Pubkey;
  gr_roles_pda : Pubkey;
  gr_asset_class_version_pda : Pubkey }.

Section instructions.
Context `{Rt : SolanaRuntime}.

(** The roles account is created once the other fields were read. *)
Definition Initialize_try_accounts (signers : list Pubkey) (a : Initialize) : M Z :=
  signer signers (in_payer a);;
  signer signers (in_temp_mint_authority a);;
  signer signers (in_account a);;
  bump ← seeds_check (in_roles_pda a) (roles_seeds (in_mint a) (in_account a)) ACCESS_CONTROL_PROGRAM_ID;
  loader_init Roles (in_payer a) (in_roles_pda a) signers;;
  mret bump.

Definition initialize (signers : list Pubkey) (a : Initialize) : M unit :=
  bump ← Initialize_try_accounts signers a;
  require (is_caller_pda (in_temp_mint_authority a) (temp_mint_authority_seeds (in_mint a)) DEPLOY_PROGRAM_ID)
    (EAccessControl AccessControlError.Unauthorized);;
  roles_account ← loader_load_init Roles (in_roles_pda a);
  mask ← bits_or (EAccessControl AccessControlError.RoleOutOfBounds)
    (set_bits (r_mask roles_account) [ROLE_ADMIN]);
  emit_cpi (EvAccessControl (RolesGranted (in_mint a) (in_account a) (in_account a) [ROLE_ADMIN]));;
  account_exit (in_roles_pda a) (mkRoles bump mask).

Definition GrantRoles_try_accounts (signers : list Pubkey) (a : GrantRoles) : M Z :=
  signer signers (gr_payer a);;
  signer signers (gr_authority a);;
  asset_configuration ← account_try_from AssetConfiguration (gr_asset_configuration_pda a);
  loader_load Roles (gr_authority_roles_pda a);;
  loader_load AssetClassVersion (gr_asset_class_version_pda a);;
  bump ← seeds_check (gr_roles_pda a) (roles_seeds (gr_mint a) (gr_account a)) ACCESS_CONTROL_PROGRAM_ID;
  loader_init_if_needed Roles (gr_payer a) (gr_roles_pda a) signers;;
  asset_configuration_constraint (gr_asset_configuration_pda a) (gr_mint a) asset_configuration;;
  roles_constraint (gr_authority_roles_pda a) (gr_mint a) (gr_authority a);;
  deactivate_constraint (gr_deactivate_pda a) (gr_mint a);;
  asset_class_version_constraint (gr_asset_class_version_pda a) asset_configuration;;
  mret bump.

(** [match roles_pda.load_init() { Ok(r) => { r.bump = bump; r } Err(_) => roles_pda.load_mut()? }] *)
Definition load_init_or_load (k : Pubkey) (bump : Z) : M Roles := fun w =>
  match loader_load_init Roles k w with
  | Ok (roles_account, w') => Ok (mkRoles bump (r_mask roles_account), w')
  | Err _ => loader_load Roles k w
  end.

Definition roles_guards (a : GrantRoles) (functionality : Z) : M unit :=
  operation_guards (gr_authority_roles_pda a) (gr_mint a) (gr_deactivate_pda a)
    (gr_asset_class_version_pda a) ROLE_ADMIN functionality.

Definition grant_roles (signers : list Pubkey) (a : GrantRoles) (roles : list Z) : M unit :=
  bump ← GrantRoles_try_accounts signers a;
  roles_guards a ACCESS_CONTROL_GRANT_ROLES;;
  roles_account ← load_init_or_load (gr_roles_pda a) bump;
  mask ← bits_or (EAccessControl AccessControlError.RoleOutOfBounds)
    (set_bits (r_mask roles_account) roles);
  emit_cpi (EvAccessControl (RolesGranted (gr_mint a) (gr_account a) (gr_authority a) roles));;
  account_exit (gr_roles_pda a) (mkRoles (r_bump roles_account) mask).

Definition RevokeRoles_try_accounts (signers : list Pubkey) (a : GrantRoles) : M unit :=
  signer signers (gr_authority a);;
  asset_configuration ← account_try_from AssetConfiguration (gr_asset_configuration_pda a);
  loader_load Roles (gr_authority_roles_pda a);;
  loader_load Roles (gr_roles_pda a);;
  loader_load AssetClassVersion (gr_asset_class_version_pda a);;
  asset_configuration_constraint (gr_asset_configuration_pda a) (gr_mint a) asset_configuration;;
  roles_constraint (gr_authority_roles_pda a) (gr_mint a) (gr_authority a);;
  deactivate_constraint (gr_deactivate_pda a) (gr_mint a);;
  roles_constraint (gr_roles_pda a) (gr_mint a) (gr_account a);;
  asset_class_version_constraint (gr_asset_class_version_pda a) asset_configuration.

Definition revoke_roles (signers : list Pubkey) (a : GrantRoles) (roles : list Z) : M unit :=
  RevokeRoles_try_accounts signers a;;
  roles_guards a ACCESS_CONTROL_REVOKE_ROLES;;
  roles_account ← loader_load Roles (gr_roles_pda a);
  mask ← bits_or (EAccessControl AccessControlError.RoleOutOfBounds)
    (clear_bits (r_mask roles_account) roles);
  emit_cpi (EvAccessControl (RolesRevoked (gr_mint a) (gr_account a) (gr_authority a) roles));;
  account_exit (gr_roles_pda a) (mkRoles (r_bump roles_account) mask).
End instructions.

Inductive AccessControlInstruction : Set :=
| IxInitializeRoles (a : Initialize)
| IxGrantRoles (a : GrantRoles) (roles : list Z)
| IxRevokeRoles (a : GrantRoles) (roles : list Z).

Definition access_control `{Rt : SolanaRuntime} (signers : list Pubkey)
    (ix : AccessControlInstruction) : M unit :=
  match ix with
  | IxInitializeRoles a => initialize signers a
  | IxGrantRoles a roles => grant_roles signers a roles
  | IxRevokeRoles a roles => revoke_roles signers a roles
  end.

(** ** The abstract map from (mint, account) to sets of roles *)

Definition roles_of (w : World) (k : Pubkey) : gset Z :=
  match view Roles w k with Some r => mask_set (r_mask r) | None => ∅ end.

(** The mint and the account whose roles an instruction is about. *)
Definition ac_target (ix : AccessControlInstruction) : Pubkey * Pubkey :=
  match ix with
  | IxInitializeRoles a => (in_mint a, in_account a)
  | IxGrantRoles a _ | IxRevokeRoles a _ => (gr_mint a, gr_account a)
  end.

(** What it does to their set. *)
Definition ac_post (ix : AccessControlInstruction) (s : gset Z) : gset Z :=
  match ix with
  | IxInitializeRoles _ => {[ ROLE_ADMIN ]}
  | IxGrantRoles _ roles => s ∪ list_to_set roles
  | IxRevokeRoles _ roles => s ∖ list_to_set roles
  end.

(** The roles of the call are [u16]. *)
Definition ac_args_ok (ix : AccessControlInstruction) : Prop :=
  match ix with
  | IxInitializeRoles _ => True
  | IxGrantRoles _ roles | IxRevokeRoles _ roles => Forall (fun r => 0 <= r <= U16_MAX) roles
  end.

Section specification.
Context `{Rt : SolanaRuntime}.

Definition roles_pda (mint account : Pubkey) : Pubkey :=
  pda (roles_seeds mint account) ACCESS_CONTROL_PROGRAM_ID.

(** The roles of the accounts of the mints, read at their PDAs. *)
Definition role_sets (w : World) (t : Pubkey * Pubkey) : gset Z := roles_of w (roles_pda t.1 t.2).

(** Roles accounts sit at their canonical PDA with a mask of 8192 bits. *)
Definition roles_inv (w : World) : Prop :=
  forall k r, stored w k r ->
    Z.of_nat (length (r_mask r)) = ROLES_BYTES_MASK /\ mask_ok (r_mask r) /\
    exists mint account, k = roles_pda mint account.

(** An administrator of the mint signed, and the mint is in operation. *)
Definition by_admin (w : World) (signers : list Pubkey) (mint authority : Pubkey) : Prop :=
  authority ∈ signers /\ ROLE_ADMIN ∈ role_sets w (mint, authority) /\ running w mint /\ active_mint w mint.

Definition ac_pre (ix : AccessControlInstruction) (signers : list Pubkey) (w : World) : Prop :=
  match ix with
  | IxInitializeRoles a =>
      pda (temp_mint_authority_seeds (in_mint a)) DEPLOY_PROGRAM_ID ∈ signers /\ in_account a ∈ signers /\
      fresh w (roles_pda (in_mint a) (in_account a))
  | IxGrantRoles a roles | IxRevokeRoles a roles =>
      by_admin w signers (gr_mint a) (gr_authority a) /\ Forall (fun r => r < ROLES_BITS_MASK) roles
  end.

(** The roles account [k] is the target's, and its set alone changes. *)
Definition ac_step (ix : AccessControlInstruction) (k : Pubkey) (signers : list Pubkey) (w w' : World) : Prop :=
  k = roles_pda (ac_target ix).1 (ac_target ix).2 /\ ac_pre ix signers w /\
  roles_of w' k = ac_post ix (roles_of w k) /\ roles_inv w' /\ forall j, j <> k -> account w' j = account w j.
End specification.

Section proofs.
Context `{Rt : SolanaRuntime} `{Laws : !RuntimeLaws}.

(** The mask a roles account starts from: its own, or zero when it was just created. *)
#[export] Instance load_init_or_load_inv k b :
  OkInv (load_init_or_load k b) (fun w r w' => w' = w /\
    (((exists n, data_of w k = DZeroed n) /\ r = mkRoles b (zero_mask ROLES_BYTES_MASK)) \/ stored w k r)).
Proof.
  intros w r w' Hr. unfold load_init_or_load in Hr.
  destruct (loader_load_init Roles k w) as [[r0 w0]|] eqn:E.
  - apply ok_inv in E as (Hz & -> & ->). simplify_eq. split; [done|left]. by split.
  - apply ok_inv in Hr as [Hs ->]. auto.
Qed.

Lemma roles_zero : mask_set (r_mask (at_zero (T:=Roles))) = ∅.
Proof. exact (mask_set_zero ROLES_BYTES_MASK). Qed.

Lemma roles_of_stored w k r : stored w k r -> roles_of w k = mask_set (r_mask r).
Proof. intros H%view_Some. unfold roles_of. by rewrite H. Qed.

Lemma roles_of_set_account k r w :
  roles_of (set_account k (mkAccount ACCESS_CONTROL_PROGRAM_ID (DRoles r)) w) k = mask_set (r_mask r).
Proof. apply roles_of_stored. unfold stored. by rewrite account_set_account_eq. Qed.

Lemma capacity_roles mask :
  Z.of_nat (length mask) = ROLES_BYTES_MASK -> capacity mask = ROLES_BITS_MASK.
Proof. unfold capacity. intros ->. reflexivity. Qed.

(** What the two bit operations do to the mask of a roles account. *)
Lemma set_bits_roles mask mask' ps :
  Z.of_nat (length mask) = ROLES_BYTES_MASK -> mask_ok mask -> Forall (fun r => 0 <= r <= U16_MAX) ps ->
  set_bits mask ps = (mask', Ok tt) ->
  Forall (fun r => r < ROLES_BITS_MASK) ps /\ mask_set mask' = mask_set mask ∪ list_to_set ps /\
  Z.of_nat (length mask') = ROLES_BYTES_MASK /\ mask_ok mask'.
Proof.
  intros Hl Hok Hps E. rewrite <- (capacity_roles _ Hl).
  destruct (set_bits_Ok _ _ _ Hok Hps E) as (? & ? & -> & ?). done.
Qed.

Lemma clear_bits_roles mask mask' ps :
  Z.of_nat (length mask) = ROLES_BYTES_MASK -> mask_ok mask -> Forall (fun r => 0 <= r <= U16_MAX) ps ->
  clear_bits mask ps = (mask', Ok tt) ->
  Forall (fun r => r < ROLES_BITS_MASK) ps /\ mask_set mask' = mask_set mask ∖ list_to_set ps /\
  Z.of_nat (length mask') = ROLES_BYTES_MASK /\ mask_ok mask'.
Proof.
  intros Hl Hok Hps E. rewrite <- (capacity_roles _ Hl).
  destruct (clear_bits_Ok _ _ _ Hok Hps E) as (? & ? & -> & ?). done.
Qed.
End proofs.

Section steps.
Context `{Rt : SolanaRuntime} `{Laws : !RuntimeLaws}.

#[export] Instance GrantRoles_try_accounts_inv signers a :
  OkInv (GrantRoles_try_accounts signers a) (fun w _ w' =>
    gr_roles_pda a = pda (roles_seeds (gr_mint a) (gr_account a)) ACCESS_CONTROL_PROGRAM_ID /\
    gr_authority a ∈ signers /\
    pda_at (roles_seeds (gr_mint a) (gr_authority a)) ACCESS_CONTROL_PROGRAM_ID (gr_authority_roles_pda a) /\
    gr_deactivate_pda a = pda (deactivate_seeds (gr_mint a)) DEACTIVATE_PROGRAM_ID /\
    (exists r0 : Roles, stored w (gr_authority_roles_pda a) r0) /\
    ((fresh w (gr_roles_pda a) /\ account w' (gr_roles_pda a) =
        mkAccount ACCESS_CONTROL_PROGRAM_ID (DZeroed (at_space (T:=Roles)))) \/
     (exists r : Roles, stored w (gr_roles_pda a) r) /\ w' = w) /\
    forall j, j <> gr_roles_pda a -> account w' j = account w j).
Proof.
  intros w b w' Hr. unfold GrantRoles_try_accounts in Hr. inv_ok.
  rename select (_ \/ _) into Hinit. destruct Hinit as [(? & n & ->)|(_ & Hs & ->)].
  - do 4 (split; [done|]). split; [eauto|]. split.
    + left. by rewrite account_set_account_eq.
    + intros j Hj. by rewrite account_set_account_ne by done.
  - split_and!; eauto.
Qed.

#[export] Instance RevokeRoles_try_accounts_inv signers a :
  OkInv (RevokeRoles_try_accounts signers a) (fun w _ w' => w' = w /\
    pda_at (roles_seeds (gr_mint a) (gr_account a)) ACCESS_CONTROL_PROGRAM_ID (gr_roles_pda a) /\
    gr_authority a ∈ signers /\
    pda_at (roles_seeds (gr_mint a) (gr_authority a)) ACCESS_CONTROL_PROGRAM_ID (gr_authority_roles_pda a) /\
    gr_deactivate_pda a = pda (deactivate_seeds (gr_mint a)) DEACTIVATE_PROGRAM_ID).
Proof. intros w [] w' Hr. unfold RevokeRoles_try_accounts in Hr. by inv_ok. Qed.

#[export] Instance roles_guards_inv a f :
  OkInv (roles_guards a f) (fun w _ w' => w' = w /\
    operation_allowed w (gr_authority_roles_pda a) (gr_mint a) (gr_deactivate_pda a)
      (gr_asset_class_version_pda a) ROLE_ADMIN f).
Proof. apply operation_guards_inv. Qed.

(** The roles account [k] gets the mask of [r], the others are those of [w]. *)
Lemma roles_written k r w w1 :
  (forall j, j <> k -> account w1 j = account w j) ->
  Z.of_nat (length (r_mask r)) = ROLES_BYTES_MASK -> mask_ok (r_mask r) ->
  (exists mint account, k = roles_pda mint account) -> roles_inv w ->
  roles_inv (set_account k (mkAccount ACCESS_CONTROL_PROGRAM_ID (DRoles r)) w1) /\
  forall j, j <> k ->
    account (set_account k (mkAccount ACCESS_CONTROL_PROGRAM_ID (DRoles r)) w1) j = account w j.
Proof.
  intros Hj Hl Hok Hk Hinv. split.
  - intros j r' Hs. unfold stored in Hs. rewrite account_set_account in Hs. case_decide.
    + subst. injection Hs as <-. done.
    + apply (Hinv j). unfold stored. rewrite <- Hj by (by apply not_eq_sym). exact Hs.
  - intros j Hne. by rewrite account_set_account_ne, Hj.
Qed.

(** A roles account of the program found at an address derived from the seeds is the canonical one. *)
Lemma roles_canonical mint account k (r : Roles) w :
  roles_inv w -> stored w k r -> pda_at (roles_seeds mint account) ACCESS_CONTROL_PROGRAM_ID k ->
  k = roles_pda mint account.
Proof.
  intros Hinv Hr Hk. destruct (Hinv _ _ Hr) as (_ & _ & m & x & ->).
  destruct (pda_at_inj _ _ _ _ _ Hk (pda_at_pda _ _)) as [[= -> ->] _]. done.
Qed.

(** What the guards of an instruction say of its authority. *)
Lemma admin_allowed signers mint authority rk dk vk f w :
  authority ∈ signers -> pda_at (roles_seeds mint authority) ACCESS_CONTROL_PROGRAM_ID rk ->
  dk = pda (deactivate_seeds mint) DEACTIVATE_PROGRAM_ID -> roles_inv w ->
  operation_allowed w rk mint dk vk ROLE_ADMIN f -> by_admin w signers mint authority.
Proof.
  intros Hs Hk Hd Hinv Ha. destruct (allowed_actor _ _ _ _ _ _ _ _ _ Hs Hk Hd Ha) as (_ & Hrun & Hact).
  destruct Ha as ((r & Hr & Hb) & _). do 1 (split; [done|]). split; [|done]. unfold role_sets. simpl.
  rewrite <- (roles_canonical _ _ _ _ _ Hinv Hr Hk), (roles_of_stored _ _ _ Hr).
  destruct (Hinv _ _ Hr) as (Hl & _ & _). rewrite is_set_mask_set in Hb by (unfold ROLE_ADMIN; lia).
  destruct (_ <? _); [|done]. injection Hb as Hb. by apply bool_decide_eq_true in Hb.
Qed.

(** The account [initialize] leaves at the address of the deployer. *)
Lemma initialize_effect signers a w w' :
  initialize signers a w = Ok (tt, w') ->
  pda (temp_mint_authority_seeds (in_mint a)) DEPLOY_PROGRAM_ID ∈ signers /\ in_account a ∈ signers /\
  fresh w (in_roles_pda a) /\
  in_roles_pda a = pda (roles_seeds (in_mint a) (in_account a)) ACCESS_CONTROL_PROGRAM_ID /\
  exists r w1, w' = set_account (in_roles_pda a) (mkAccount ACCESS_CONTROL_PROGRAM_ID (DRoles r)) w1 /\
    mask_set (r_mask r) = {[ ROLE_ADMIN ]} /\ Z.of_nat (length (r_mask r)) = ROLES_BYTES_MASK /\ mask_ok (r_mask r) /\
    (forall j, j <> in_roles_pda a -> account w1 j = account w j) /\
    exists n, forall k, lamports_of w1 k = lamports_of (move_lamports (in_payer a) (in_roles_pda a) n w) k.
Proof.
  intros Hr. unfold initialize, Initialize_try_accounts in Hr. inv_ok.
  rename select (is_caller_pda _ _ _ = true) into Hc. unfold is_caller_pda in Hc. zify_checks. rewrite Hc.
  rename select (set_bits _ _ = _) into Hb.
  apply set_bits_roles in Hb as (_ & Hs & Hl & Hok);
    [|vm_compute; reflexivity|apply mask_ok_zero|repeat constructor; unfold ROLE_ADMIN, U16_MAX; lia].
  do 4 (split; [assumption|]). eexists (mkRoles _ _), _. split; [reflexivity|]. cbn [r_mask].
  rewrite Hs, roles_zero. split; [clear; set_solver|]. do 2 (split; [assumption|]). split.
  - intros j Hj. rewrite account_add_event, account_set_account_ne by exact (not_eq_sym Hj).
    reflexivity.
  - eexists. reflexivity.
Qed.

Lemma initialize_step signers a w w' :
  roles_inv w -> initialize signers a w = Ok (tt, w') ->
  ac_step (IxInitializeRoles a) (in_roles_pda a) signers w w'.
Proof.
  intros Hinv (Ht & Ha & Hf & Ek & r & w1 & -> & Hs & Hl & Hok & Hj & _)%initialize_effect.
  destruct (roles_written (in_roles_pda a) r w w1) as [Hinv' Hj']; [done..| |done|].
  - eauto.
  - split; [done|]. split; [|split; [|by split]]; [|by rewrite roles_of_set_account].
    split; [done|]. split; [done|]. unfold roles_pda. by rewrite <- Ek.
Qed.

(** The mask [grant_roles] changes: well formed, and the set of the account's roles. *)
Lemma mask_read w w1 k b n (r : Roles) :
  roles_inv w ->
  ((fresh w k /\ account w1 k = mkAccount ACCESS_CONTROL_PROGRAM_ID (DZeroed n)) \/
   (exists r0 : Roles, stored w k r0) /\ w1 = w) ->
  ((exists n, data_of w1 k = DZeroed n) /\ r = mkRoles b (zero_mask ROLES_BYTES_MASK)) \/ stored w1 k r ->
  Z.of_nat (length (r_mask r)) = ROLES_BYTES_MASK /\ mask_ok (r_mask r) /\ mask_set (r_mask r) = roles_of w k.
Proof.
  intros Hinv [[Hf Ea]|[[r0 H0] ->]] [[[m Em] ->]|Hs].
  - cbn [r_mask]. split_and!; [vm_compute; reflexivity|apply mask_ok_zero|].
    unfold roles_of. rewrite view_fresh by (program_ne || exact Hf). apply mask_set_zero.
  - unfold stored in Hs. rewrite Ea in Hs. discriminate Hs.
  - apply stored_data in H0. rewrite H0 in Em. discriminate Em.
  - destruct (Hinv _ _ Hs) as (Hl & Hok & _). by rewrite (roles_of_stored _ _ _ Hs).
Qed.

Lemma grant_roles_step signers a roles w w' :
  Forall (fun r => 0 <= r <= U16_MAX) roles -> roles_inv w ->
  grant_roles signers a roles w = Ok (tt, w') ->
  ac_step (IxGrantRoles a roles) (gr_roles_pda a) signers w w'.
Proof.
  intros Hargs Hinv Hr. unfold grant_roles in Hr.
  apply bind_ok in Hr as (bump & w1 & (Ek & Hs & Hk & Hd & [r0 H0] & Hinit & Hj)%ok_inv & Hr).
  apply bind_ok in Hr as ([] & ? & [-> Ha]%ok_inv & Hr).
  apply bind_ok in Hr as (r & ? & [-> Hread]%ok_inv & Hr).
  apply bind_ok in Hr as (mask & ? & [-> Hb]%ok_inv & Hr).
  apply bind_ok in Hr as ([] & ? & ->%ok_inv & [_ ->]%ok_inv).
  destruct (mask_read _ _ _ _ _ _ Hinv Hinit Hread) as (Hl0 & Hok0 & Es).
  destruct (set_bits_roles _ _ _ Hl0 Hok0 Hargs Hb) as (Hlt & Em & Hl & Hok).
  assert (Hallowed : by_admin w signers (gr_mint a) (gr_authority a)).
  { refine (admin_allowed _ _ _ _ _ _ _ _ Hs Hk Hd Hinv _). destruct Hinit as [[_ Hz]|[_ ->]]; [|exact Ha].
    refine (operation_allowed_created _ _ (gr_roles_pda a) (at_space (T:=Roles)) _ _ _ _ _ _ _ _ Hj Ha);
      [reflexivity|unfold data_of; by rewrite Hz]. }
  destruct (roles_written (gr_roles_pda a) (mkRoles (r_bump r) mask) w (add_event
    (EvAccessControl (RolesGranted (gr_mint a) (gr_account a) (gr_authority a) roles)) w1))
    as [Hinv' Hj']; [exact Hj|exact Hl|exact Hok| |exact Hinv|].
  { eauto. }
  split; [exact Ek|]. split; [|split; [|split; [exact Hinv'|exact Hj']]].
  - by split.
  - rewrite roles_of_set_account. cbn [r_mask]. by rewrite Em, Es.
Qed.

Lemma revoke_roles_step signers a roles w w' :
  Forall (fun r => 0 <= r <= U16_MAX) roles -> roles_inv w ->
  revoke_roles signers a roles w = Ok (tt, w') ->
  ac_step (IxRevokeRoles a roles) (gr_roles_pda a) signers w w'.
Proof.
  intros Hargs Hinv Hr. unfold revoke_roles in Hr.
  apply bind_ok in Hr as ([] & ? & (-> & Hkey & Hs & Hk & Hd)%ok_inv & Hr).
  apply bind_ok in Hr as ([] & ? & [-> Ha]%ok_inv & Hr).
  apply bind_ok in Hr as (r & ? & [Hread ->]%ok_inv & Hr).
  apply bind_ok in Hr as (mask & ? & [-> Hb]%ok_inv & Hr).
  apply bind_ok in Hr as ([] & ? & ->%ok_inv & [_ ->]%ok_inv).
  destruct (Hinv _ _ Hread) as (Hl0 & Hok0 & _).
  pose proof (roles_canonical _ _ _ _ _ Hinv Hread Hkey) as Ek.
  pose proof (admin_allowed _ _ _ _ _ _ _ _ Hs Hk Hd Hinv Ha) as Hallowed.
  destruct (clear_bits_roles _ _ _ Hl0 Hok0 Hargs Hb) as (Hlt & Em & Hl & Hok).
  destruct (roles_written (gr_roles_pda a) (mkRoles (r_bump r) mask) w (add_event
    (EvAccessControl (RolesRevoked (gr_mint a) (gr_account a) (gr_authority a) roles)) w))
    as [Hinv' Hj']; [done|exact Hl|exact Hok|by eauto|exact Hinv|].
  split; [exact Ek|]. split; [|split; [|split; [exact Hinv'|exact Hj']]].
  - by split.
  - rewrite roles_of_set_account. cbn [r_mask]. by rewrite Em, (roles_of_stored _ _ _ Hread).
Qed.

Lemma access_control_step signers ix w w' :
  ac_args_ok ix -> roles_inv w -> access_control signers ix w = Ok (tt, w') ->
  exists k, ac_step ix k signers w w'.
Proof.
  intros Hargs Hinv Hr. destruct ix; simpl in Hr; eexists.
  - by apply initialize_step.
  - by apply grant_roles_step.
  - by apply revoke_roles_step.
Qed.

Lemma roles_pda_inj mint account mint' account' :
  roles_pda mint account = roles_pda mint' account' -> mint = mint' /\ account = account'.
Proof. intros [[= -> ->] _]%pda_inj. done. Qed.

(** The guard of every restricted instruction decides membership. *)
Lemma require_role_iff (r : Roles) role w :
  0 <= role < ROLES_BITS_MASK -> Z.of_nat (length (r_mask r)) = ROLES_BYTES_MASK ->
  require_role r role w =
    if decide (role ∈ mask_set (r_mask r)) then Ok (tt, w) else Err (ECommon CommonError.MissingRole).
Proof.
  intros Hrole Hl. unfold require_role, lift, mbind, SM_bind. rewrite is_set_mask_set by lia.
  rewrite (capacity_roles _ Hl). destruct (Z.ltb_spec role ROLES_BITS_MASK); [|lia]. simpl.
  unfold require. rewrite decide_bool_decide. by destruct (bool_decide _).
Qed.
End steps.

(** C28: Every instruction of the access-control program is an
    operation on the set of roles of the account of the mint it names, and on no other: at deployment
    the set becomes {administrator}, signed by the deploy program; an administrator's grant is a union
    and an administrator's revocation a difference with the roles of the call, all of them below the
    capacity, while the mint is neither paused nor deactivated.  The sets are read at the canonical PDA of the mint and the account, whatever roles
    account was passed: the roles of every other account, and of the same account for other mints,
    stay as they were.  Roles accounts stay well formed at their PDA; no other account changes. *)
Theorem access_control_refines_role_sets `{Laws : RuntimeLaws} signers ix w w' :
  ac_args_ok ix -> roles_inv w -> access_control signers ix w = Ok (tt, w') ->
  ac_pre ix signers w /\
  role_sets w' (ac_target ix) = ac_post ix (role_sets w (ac_target ix)) /\
  (forall t, t <> ac_target ix -> role_sets w' t = role_sets w t) /\
  roles_inv w' /\ forall j, j <> roles_pda (ac_target ix).1 (ac_target ix).2 -> account w' j = account w j.
Proof.
  intros Hargs Hinv Hr.
  destruct (access_control_step _ _ _ _ Hargs Hinv Hr) as (k & -> & Hpre & Hpost & Hinv' & Hj).
  split_and!; [done..| |done|done].
  intros [m x] Hne. unfold role_sets, roles_of. erewrite view_account; [reflexivity|].
  apply Hj. simpl. intros [E1 E2]%roles_pda_inj. apply Hne. destruct (ac_target ix). simpl in *. congruence.
Qed.

(** C29: After a grant of [role] to an account of a mint, the guard [require_role] lets the account
    pass: its roles account exists at the PDA of the mint and the account, and the guard succeeds on
    whatever roles account the seeds of the two admit.  After a revocation the guard fails with
    [MissingRole] there, for every role of the call. *)
Theorem grants_and_revocations_are_effective `{Laws : RuntimeLaws} signers a roles role w w' :
  Forall (fun x => 0 <= x <= U16_MAX) roles -> roles_inv w -> role ∈ roles ->
  (grant_roles signers a roles w = Ok (tt, w') ->
   (exists r : Roles, stored w' (roles_pda (gr_mint a) (gr_account a)) r) /\
   forall k (r : Roles), pda_at (roles_seeds (gr_mint a) (gr_account a)) ACCESS_CONTROL_PROGRAM_ID k ->
     stored w' k r -> require_role r role w' = Ok (tt, w')) /\
  (revoke_roles signers a roles w = Ok (tt, w') ->
   forall k (r : Roles), pda_at (roles_seeds (gr_mint a) (gr_account a)) ACCESS_CONTROL_PROGRAM_ID k ->
     stored w' k r -> require_role r role w' = Err (ECommon CommonError.MissingRole)).
Proof.
  intros Hargs Hinv Hin.
  assert (H0 : 0 <= role) by (rewrite Forall_forall in Hargs; by apply Hargs).
  assert (Hdec : forall k (r : Roles), roles_inv w' -> Forall (fun x => x < ROLES_BITS_MASK) roles ->
    pda_at (roles_seeds (gr_mint a) (gr_account a)) ACCESS_CONTROL_PROGRAM_ID k -> stored w' k r ->
    require_role r role w' = if decide (role ∈ roles_of w' (roles_pda (gr_mint a) (gr_account a)))
      then Ok (tt, w') else Err (ECommon CommonError.MissingRole)).
  { intros k r Hinv' Hlt Hk Hr. rewrite Forall_forall in Hlt.
    rewrite <- (roles_canonical _ _ _ _ _ Hinv' Hr Hk), (roles_of_stored _ _ _ Hr).
    apply require_role_iff; [by split; [|apply Hlt]|apply (Hinv' _ _ Hr)]. }
  apply (elem_of_list_to_set (C:=gset Z)) in Hin.
  split; intros Hrun.
  - apply grant_roles_step in Hrun as (-> & (_ & Hlt) & E & Hinv' & _); [|done..]. simpl in *.
    assert (Hrole : role ∈ roles_of w' (roles_pda (gr_mint a) (gr_account a))).
    { rewrite E. by apply elem_of_union_r. }
    split; [|intros k r Hk Hr; by rewrite (Hdec k r Hinv' Hlt Hk Hr), decide_True].
    unfold roles_of in Hrole. destruct (view _ _ _) as [r|] eqn:Ev; [|by apply elem_of_empty in Hrole].
    exists r. by apply view_Some.
  - apply revoke_roles_step in Hrun as (-> & (_ & Hlt) & E & Hinv' & _); [|done..]. simpl in *.
    intros k r Hk Hr. rewrite (Hdec k r Hinv' Hlt Hk Hr), E, decide_False; [done|].
    by intros [_ ?]%elem_of_difference.
Qed.

(** ** The administrator of the sample mint makes Bob an issuer, and takes it back *)

Definition sample_roles_accounts : GrantRoles := {|
  gr_payer := ADMIN; gr_authority := ADMIN; gr_asset_configuration_pda := SAMPLE_CONFIG;
  gr_authority_roles_pda := SAMPLE_ROLES; gr_account := BOB; gr_deactivate_pda := SAMPLE_DEACTIVATE;
  gr_mint := MINT; gr_roles_pda := pda (roles_seeds MINT BOB) ACCESS_CONTROL_PROGRAM_ID;
  gr_asset_class_version_pda := SAMPLE_VERSION |}.

Lemma sample_roles_inv : roles_inv sample_world.
Proof.
  intros k r Hs. pose proof (stored_data _ _ _ Hs) as Hd.
  assert (Hin : k ∈ [SAMPLE_ROLES]).
  { eapply (only_at_ok Roles _ sample_world _ r); [reflexivity|vm_compute; reflexivity|]. by rewrite Hd. }
  apply list_elem_of_singleton in Hin as ->.
  assert (E : data_of sample_world SAMPLE_ROLES = DRoles (mkRoles 255 full_mask)) by (vm_compute; reflexivity).
  rewrite E in Hd. injection Hd as <-. split_and!; [vm_compute; reflexivity| |].
  - apply Forall_replicate. unfold u8_ok, U8_MAX. lia.
  - exists MINT, ADMIN. vm_compute. reflexivity.
Qed.

Definition granted_world : World :=
  run_world (grant_roles [ADMIN] sample_roles_accounts [ROLE_ISSUER]) sample_world.

Lemma granted_world_ok :
  access_control [ADMIN] (IxGrantRoles sample_roles_accounts [ROLE_ISSUER]) sample_world = Ok (tt, granted_world).
Proof. apply run_ok. vm_compute. reflexivity. Qed.

Lemma sample_issuer_args : Forall (fun x => 0 <= x <= U16_MAX) [ROLE_ISSUER].
Proof. repeat constructor; unfold ROLE_ISSUER, U16_MAX; lia. Qed.

(** BOB gets the role, and ALICE's stay as they were. *)
Lemma access_control_refines_role_sets_witness :
  role_sets granted_world (MINT, BOB) = role_sets sample_world (MINT, BOB) ∪ list_to_set [ROLE_ISSUER] /\
  role_sets granted_world (MINT, ALICE) = role_sets sample_world (MINT, ALICE).
Proof.
  destruct (access_control_refines_role_sets [ADMIN] (IxGrantRoles sample_roles_accounts [ROLE_ISSUER])
    sample_world granted_world) as (_ & H1 & H2 & _);
    [exact sample_issuer_args|exact sample_roles_inv|exact granted_world_ok|].
  split; [exact H1|apply H2; discriminate].
Defined.

Definition revoked_world : World :=
  run_world (revoke_roles [ADMIN] sample_roles_accounts [ROLE_ISSUER]) granted_world.

Lemma revoked_world_ok :
  revoke_roles [ADMIN] sample_roles_accounts [ROLE_ISSUER] granted_world = Ok (tt, revoked_world).
Proof. apply run_ok. vm_compute. reflexivity. Qed.

Lemma granted_roles_inv : roles_inv granted_world.
Proof.
  destruct (access_control_step [ADMIN] (IxGrantRoles sample_roles_accounts [ROLE_ISSUER]) sample_world
    granted_world sample_issuer_args sample_roles_inv granted_world_ok) as (k & _ & _ & _ & Hinv & _).
  exact Hinv.
Qed.

Definition bob_roles (w : World) : Roles := default (at_zero (T:=Roles)) (view Roles w (roles_pda MINT BOB)).

Lemma grants_and_revocations_are_effective_witness :
  require_role (bob_roles granted_world) ROLE_ISSUER granted_world = Ok (tt, granted_world) /\
  require_role (bob_roles revoked_world) ROLE_ISSUER revoked_world = Err (ECommon CommonError.MissingRole).
Proof.
  split.
  - apply (grants_and_revocations_are_effective [ADMIN] sample_roles_accounts [ROLE_ISSUER] ROLE_ISSUER
      sample_world granted_world) with (k := roles_pda MINT BOB);
      [exact sample_issuer_args|exact sample_roles_inv|left|exact granted_world_ok|apply pda_at_pda|].
    unfold stored. vm_compute. reflexivity.
  - apply (grants_and_revocations_are_effective [ADMIN] sample_roles_accounts [ROLE_ISSUER] ROLE_ISSUER
      granted_world revoked_world) with (k := roles_pda MINT BOB);
      [exact sample_issuer_args|exact granted_roles_inv|left|exact revoked_world_ok|apply pda_at_pda|].
    unfold stored. vm_compute. reflexivity.
Defined.
