(* ===== verification/Cap.v ===== *)
(** * Cap: the cap program ([programs/cap])

    A [MaxSupply] account per mint bounds its total supply: set by
    [set_max_supply], enforced by [require_within_max_supply] in the mint program. *)

From S2P Require Import Prelude.
From S2P Require Import Bitmask.
From S2P Require Import ProgramIds.
From S2P Require Import Errors.
From S2P Require Import State.
From S2P Require Import Runtime.
From S2P Require Import Anchor.
From S2P Require Import Frame.
From S2P Require Import PdaSeeds.
From S2P Require Import PdaUtils.
From S2P Require Import Common.
From S2P Require Import Token.

Definition require_within_max_supply (mint_account max_supply_pda : Pubkey)
    (asset_class_version : AssetClassVersion) (amount_to_mint : Z) : M unit :=
  enabled ← lift (is_functionality_enabled asset_class_version CAP_MAX_SUPPLY);
  w ← get;
  if data_is_empty (data_of w max_supply_pda) then
    if enabled : bool then fail (ECap CapError.MaxSupplyNotSet) else mret tt
  else
  max_supply ← account_try_from MaxSupply max_supply_pda;
  mint_state ← unpack_mint mint_account;
  new_total_supply ← lift (ok_or (checked_add_u64 (m_supply mint_state) amount_to_mint)
                             (ECap CapError.MaxSupplyExceeded));
  require (new_total_supply <=? ms_max_supply max_supply) (ECap CapError.MaxSupplyExceeded).

Record SetMaxSupply : Set := mkSetMaxSupply {
  cs_payer : Pubkey;
  cs_authority : Pubkey;
  cs_authority_roles_pda : Pubkey;
  cs_asset_configuration_pda : Pubkey;
  cs_deactivate_pda : Pubkey;
  cs_mint : Pubkey;
  cs_max_supply_pda : Pubkey;
  cs_asset_class_version_pda : Pubkey }.

Section instructions.
Context `{Rt : SolanaRuntime}.

Definition SetMaxSupply_try_accounts (signers : list Pubkey) (a : SetMaxSupply) : M Z :=
  signer signers (cs_payer a);;
  signer signers (cs_authority a);;
  loader_load Roles (cs_authority_roles_pda a);;
  asset_configuration ← account_try_from AssetConfiguration (cs_asset_configuration_pda a);
  loader_load AssetClassVersion (cs_asset_class_version_pda a);;
  bump ← seeds_check (cs_max_supply_pda a) (max_supply_seeds (cs_mint a)) CAP_PROGRAM_ID;
  account_init_if_needed MaxSupply (cs_payer a) (cs_max_supply_pda a) signers;;
  roles_constraint (cs_authority_roles_pda a) (cs_mint a) (cs_authority a);;
  asset_configuration_constraint (cs_asset_configuration_pda a) (cs_mint a) asset_configuration;;
  deactivate_constraint (cs_deactivate_pda a) (cs_mint a);;
  asset_class_version_constraint (cs_asset_class_version_pda a) asset_configuration;;
  mret bump.

Definition set_max_supply (signers : list Pubkey) (a : SetMaxSupply) (max_supply : Z) : M unit :=
  bump ← SetMaxSupply_try_accounts signers a;
  operation_guards (cs_authority_roles_pda a) (cs_mint a) (cs_deactivate_pda a)
    (cs_asset_class_version_pda a) ROLE_CAP CAP_MAX_SUPPLY;;
  require (1 <=? max_supply) (ECap CapError.MaxSupplyTooLow);;
  mint_state ← unpack_mint (cs_mint a);
  require (m_supply mint_state <=? max_supply) (ECap CapError.MaxSupplyBelowTotalSupply);;
  emit_cpi (EvCap (MaxSupplySet (cs_mint a) (cs_authority a) max_supply));;
  account_exit (cs_max_supply_pda a) (mkMaxSupply bump max_supply).
End instructions.

(** ** What they establish *)

Section capped.
Context `{Rt : SolanaRuntime} `{Laws : !RuntimeLaws}.

Definition max_supply_pda_of (mint : Pubkey) : Pubkey := pda (max_supply_seeds mint) CAP_PROGRAM_ID.

(** The supply of [mint] is within its cap, when it has one. *)
Definition within_cap (w : World) (mint : Pubkey) : Prop :=
  forall (c : MaxSupply) m, stored w (max_supply_pda_of mint) c -> data_of w mint = DMint m ->
    m_supply m <= ms_max_supply c.

#[export] Instance require_within_max_supply_inv mint k v n :
  OkInv (require_within_max_supply mint k v n) (fun w _ w' => w' = w /\
    ((data_is_empty (data_of w k) = true /\ is_functionality_enabled v CAP_MAX_SUPPLY = Ok false) \/
     exists (c : MaxSupply) m, stored w k c /\ data_of w mint = DMint m /\ m_supply m + n <= ms_max_supply c)).
Proof.
  intros w [] w' Hr. unfold require_within_max_supply in Hr.
  apply bind_ok in Hr as (enabled & ? & He & Hr). unfold lift in He.
  destruct (is_functionality_enabled _ _) as [b|] eqn:Eb; simplify_eq.
  inv_ok. destruct (data_is_empty _) eqn:E.
  - destruct enabled; inv_ok. auto.
  - inv_ok. zify_checks. split; [done|right]. eauto.
Qed.

#[export] Instance SetMaxSupply_try_accounts_inv signers a :
  OkInv (SetMaxSupply_try_accounts signers a) (fun w _ w' =>
    cs_max_supply_pda a = max_supply_pda_of (cs_mint a) /\ cs_authority a ∈ signers /\
    pda_at (roles_seeds (cs_mint a) (cs_authority a)) ACCESS_CONTROL_PROGRAM_ID (cs_authority_roles_pda a) /\
    (fresh w (cs_max_supply_pda a) \/ exists c : MaxSupply, stored w (cs_max_supply_pda a) c) /\
    owner_of w' (cs_max_supply_pda a) = CAP_PROGRAM_ID /\
    (forall m, data_of w' (cs_max_supply_pda a) <> DMint m) /\
    forall j, j <> cs_max_supply_pda a -> account w' j = account w j).
Proof.
  intros w b w' Hr. unfold SetMaxSupply_try_accounts in Hr. inv_ok.
  rename select (_ \/ _) into Hinit. destruct Hinit as [(? & ? & n & ->)|(_ & Hs & ->)].
  - do 3 (split; [done|]). split; [by left|]. unfold owner_of, data_of.
    rewrite account_set_account_eq. split; [done|]. split; [intros m Hx; discriminate Hx|].
    intros j Hj. by rewrite account_set_account_ne by done.
  - do 3 (split; [done|]). split; [by right; eexists|].
    rewrite (stored_owner _ _ _ Hs), (stored_data _ _ _ Hs).
    split; [done|]. split; [intros m Hx; discriminate Hx|done].
Qed.

Lemma set_max_supply_effect signers a n w w' :
  set_max_supply signers a n w = Ok (tt, w') ->
  cs_max_supply_pda a = max_supply_pda_of (cs_mint a) /\ cs_authority a ∈ signers /\
  1 <= n /\ (exists m, data_of w (cs_mint a) = DMint m /\ m_supply m <= n) /\
  (exists b, stored w' (cs_max_supply_pda a) (mkMaxSupply b n)) /\
  (fresh w (cs_max_supply_pda a) \/ exists c : MaxSupply, stored w (cs_max_supply_pda a) c) /\
  forall j, j <> cs_max_supply_pda a -> account w' j = account w j.
Proof.
  intros Hr. unfold set_max_supply in Hr.
  apply bind_ok in Hr as (b & w1 & (Ek & Hs & _ & Hf & Ho & Hd & Hj)%ok_inv & Hr). inv_ok. zify_checks.
  rename select (data_of w1 (cs_mint a) = DMint _) into Hm.
  split_and!; [done|done|lia| | |done|].
  - eexists. split; [|eassumption]. unfold data_of in *. rewrite <- Hj; [exact Hm|].
    intros E. rewrite E in Hm. by eapply Hd.
  - exists b. unfold stored. by rewrite account_set_account_eq.
  - intros j Hne. rewrite account_set_account_ne by (by apply not_eq_sym). by apply Hj.
Qed.
End capped.
