(* ===== verification/Mint.v ===== *)
(** * Mint: the mint program ([programs/mint])

    New tokens are minted by an issuer, to accounts the control list allows, and
    never past the cap of the mint; [batch_mint] checks the cap once, on the total. *)

From S2P Require Import Prelude.
From S2P Require Import Bitmask.
From S2P Require Import ProgramIds.
From S2P Require Import Errors.
From S2P Require Import State.
From S2P Require Import Runtime.
From S2P Require Import Anchor.
From S2P Require Import Frame.
From S2P Require Import Reference.
From S2P Require Import PdaSeeds.
From S2P Require Import PdaUtils.
From S2P Require Import Common.
From S2P Require Import Sample.
From S2P Require Import Freeze.
From S2P Require Import FreezeProofs.
From S2P Require Import TransferControl.
From S2P Require Import Token.
From S2P Require Import TransferHook.
From S2P Require Import Cap.

Record MintTokens : Set := mkMintTokens {
  mt_authority : Pubkey;
  mt_asset_configuration_pda : Pubkey;
  mt_deactivate_pda : Pubkey;
  mt_mint : Pubkey;
  mt_mint_authority : Pubkey;
  mt_destination : Pubkey;
  mt_transfer_control_mode_pda : Pubkey;
  mt_destination_control_list_pda : Pubkey;
  mt_max_supply_pda : Pubkey;
  mt_asset_class_version_pda : Pubkey;
  mt_authority_roles_pda : Pubkey;
  mt_token_2022_program : Pubkey }.

Record BatchMintTokens : Set := mkBatchMintTokens {
  bm_authority : Pubkey;
  bm_asset_configuration_pda : Pubkey;
  bm_deactivate_pda : Pubkey;
  bm_mint : Pubkey;
  bm_mint_authority : Pubkey;
  bm_max_supply_pda : Pubkey;
  bm_transfer_control_mode_pda : Pubkey;
  bm_asset_class_version_pda : Pubkey;
  bm_token_2022_program : Pubkey;
  bm_authority_roles_pda : Pubkey }.

(** [amounts.iter().try_fold(0u64, |acc, amount| acc.checked_add(amount))] *)
Fixpoint try_fold_add (acc : Z) (amounts : list Z) : option Z :=
  match amounts with
  | [] => Some acc
  | amount :: amounts => acc ← checked_add_u64 acc amount; try_fold_add acc amounts
  end.

Section instructions.
Context `{Rt : SolanaRuntime} `{Tok : Token2022}.

Definition MintTokens_try_accounts (signers : list Pubkey) (a : MintTokens) : M Z :=
  signer signers (mt_authority a);;
  asset_configuration ← account_try_from AssetConfiguration (mt_asset_configuration_pda a);
  loader_load AssetClassVersion (mt_asset_class_version_pda a);;
  loader_load Roles (mt_authority_roles_pda a);;
  check_program (mt_token_2022_program a) TOKEN_2022_PROGRAM_ID;;
  asset_configuration_constraint (mt_asset_configuration_pda a) (mt_mint a) asset_configuration;;
  deactivate_constraint (mt_deactivate_pda a) (mt_mint a);;
  authority_bump ← seeds_check (mt_mint_authority a) (mint_authority_seeds (mt_mint a)) MINT_PROGRAM_ID;
  seeds_check (mt_transfer_control_mode_pda a) (transfer_control_mode_seeds (mt_mint a))
    TRANSFER_CONTROL_PROGRAM_ID;;
  seeds_check (mt_destination_control_list_pda a) (control_list_seeds (mt_mint a) (mt_destination a))
    TRANSFER_CONTROL_PROGRAM_ID;;
  seeds_check (mt_max_supply_pda a) (max_supply_seeds (mt_mint a)) CAP_PROGRAM_ID;;
  asset_class_version_constraint (mt_asset_class_version_pda a) asset_configuration;;
  roles_constraint (mt_authority_roles_pda a) (mt_mint a) (mt_authority a);;
  mret authority_bump.

Definition mint (signers : list Pubkey) (a : MintTokens) (amount : Z) : M unit :=
  authority_bump ← MintTokens_try_accounts signers a;
  roles ← loader_load Roles (mt_authority_roles_pda a);
  require_role roles ROLE_ISSUER;;
  require_active (mt_deactivate_pda a);;
  version ← loader_load AssetClassVersion (mt_asset_class_version_pda a);
  require_functionality version MINT_MINT;;
  verify_transfer_control_mode (mt_transfer_control_mode_pda a) [mt_destination_control_list_pda a];;
  version ← loader_load AssetClassVersion (mt_asset_class_version_pda a);
  require_within_max_supply (mt_mint a) (mt_max_supply_pda a) version amount;;
  authority ← pda_signer
    (build_pda_signer_seeds (mint_authority_seeds (mt_mint a)) authority_bump) MINT_PROGRAM_ID;
  mint_to (mt_mint a) (mt_destination a) (mt_mint_authority a) amount [authority];;
  emit_cpi (EvMint (Issued (mt_mint a) (mt_authority a) (mt_destination a) amount)).

Definition BatchMintTokens_try_accounts (signers : list Pubkey) (a : BatchMintTokens) : M Z :=
  signer signers (bm_authority a);;
  asset_configuration ← account_try_from AssetConfiguration (bm_asset_configuration_pda a);
  loader_load AssetClassVersion (bm_asset_class_version_pda a);;
  check_program (bm_token_2022_program a) TOKEN_2022_PROGRAM_ID;;
  loader_load Roles (bm_authority_roles_pda a);;
  asset_configuration_constraint (bm_asset_configuration_pda a) (bm_mint a) asset_configuration;;
  deactivate_constraint (bm_deactivate_pda a) (bm_mint a);;
  authority_bump ← seeds_check (bm_mint_authority a) (mint_authority_seeds (bm_mint a)) MINT_PROGRAM_ID;
  seeds_check (bm_max_supply_pda a) (max_supply_seeds (bm_mint a)) CAP_PROGRAM_ID;;
  seeds_check (bm_transfer_control_mode_pda a) (transfer_control_mode_seeds (bm_mint a))
    TRANSFER_CONTROL_PROGRAM_ID;;
  asset_class_version_constraint (bm_asset_class_version_pda a) asset_configuration;;
  roles_constraint (bm_authority_roles_pda a) (bm_mint a) (bm_authority a);;
  mret authority_bump.

(** The loop runs over the amounts and the (destination, control list) pairs together. *)
Definition batch_mint (signers : list Pubkey) (a : BatchMintTokens)
    (remaining_accounts : list Pubkey) (amounts : list Z) : M unit :=
  authority_bump ← BatchMintTokens_try_accounts signers a;
  require (negb (bool_decide (amounts = []))) (EMint MintError.EmptyBatch);;
  require (bool_decide (length remaining_accounts = length amounts * 2)%nat)
    (EMint MintError.InvalidRemainingAccounts);;
  roles ← loader_load Roles (bm_authority_roles_pda a);
  require_role roles ROLE_ISSUER;;
  require_active (bm_deactivate_pda a);;
  version ← loader_load AssetClassVersion (bm_asset_class_version_pda a);
  require_functionality version MINT_MINT;;
  batch_total ← lift (ok_or (try_fold_add 0 amounts) (EMint MintError.AmountOverflow));
  version ← loader_load AssetClassVersion (bm_asset_class_version_pda a);
  require_within_max_supply (bm_mint a) (bm_max_supply_pda a) version batch_total;;
  for_each (pairs remaining_accounts) (fun '(destination, control_list_pda) =>
    verify_control_list_pda control_list_pda destination (bm_mint a));;
  verify_transfer_control_mode (bm_transfer_control_mode_pda a) (snd <$> pairs remaining_accounts);;
  for_each (zip amounts (fst <$> pairs remaining_accounts)) (fun '(amount, destination) =>
    authority ← pda_signer
      (build_pda_signer_seeds (mint_authority_seeds (bm_mint a)) authority_bump) MINT_PROGRAM_ID;
    mint_to (bm_mint a) destination (bm_mint_authority a) amount [authority];;
    emit_cpi (EvMint (Issued (bm_mint a) (bm_authority a) destination amount))).
End instructions.

Inductive MintInstruction : Set :=
| IxMint (a : MintTokens) (amount : Z)
| IxBatchMint (a : BatchMintTokens) (remaining_accounts : list Pubkey) (amounts : list Z).

Definition mint_program `{Rt : SolanaRuntime} `{Tok : Token2022} (signers : list Pubkey)
    (ix : MintInstruction) : M unit :=
  match ix with
  | IxMint a n => mint signers a n
  | IxBatchMint a r ns => batch_mint signers a r ns
  end.
