(* ===== verification/MintProofs.v ===== *)
(** * MintProofs: issuance is authorised, controlled and capped *)

From S2P Require Import Prelude.
From S2P Require Import Bitmask.
From S2P Require Import ProgramIds.
From S2P Require Import Errors.
From S2P Require Import State.
From S2P Require Import Runtime.
From S2P Require Import Anchor.
From S2P Require Import Frame.
From S2P Require Import Reference.
From S2P Require Import PdaSeeds.
From S2P Require Import PdaUtils.
From S2P Require Import Common.
From S2P Require Import Sample.
From S2P Require Import Freeze.
From S2P Require Import FreezeProofs.
From S2P Require Import TransferControl.
From S2P Require Import Token.
From S2P Require Import TransferHook.
From S2P Require Import Deployed.
From S2P Require Import Operations.
From S2P Require Import OperationsProofs.
From S2P Require Import SampleRuns.
From S2P Require Import Cap.
From S2P Require Import Mint.

(** ** What an issuance does *)

Definition sum_list (ns : list Z) : Z := foldr Z.add 0 ns.

Lemma try_fold_add_sum acc ns total :
  try_fold_add acc ns = Some total -> total = acc + sum_list ns.
Proof.
  revert acc. induction ns as [|n ns IH]; simpl; intros acc H; [simplify_eq; lia|].
  destruct (checked_add_u64 acc n) as [x|] eqn:E; [|done]. simpl in H. zify_checks. apply IH in H. lia.
Qed.

Section effects.
Context `{Rt : SolanaRuntime} `{Laws : !RuntimeLaws} `{Tok : Token2022} `{TLaws : !TokenLaws}.

(** [n] tokens of [mint] are minted to [account]. *)
Definition minted (mint account : Pubkey) (n : Z) (w w' : World) : Prop :=
  exists t m, token_account w account t /\ mint_account w mint m /\ t_mint t = mint /\ 0 <= n /\
    m_supply m + n <= U64_MAX /\
    w_accounts w' = w_accounts (put_mint mint (with_supply (m_supply m + n) m)
      (put_token account (with_amount (t_amount t + n) t) w)) /\ w_now w' = w_now w.

Fixpoint minted_all (mint : Pubkey) (xs : list (Z * Pubkey)) (w w' : World) : Prop :=
  match xs with
  | [] => w' = w
  | (n, account) :: xs => exists w1, minted mint account n w w1 /\ minted_all mint xs w1 w'
  end.

(** An issuer of an active mint whose class lets it mint. *)
Definition issuer_allowed (w : World) (signers : list Pubkey) (mint authority : Pubkey) : Prop :=
  authority ∈ signers /\
  data_is_empty (data_of w (pda (deactivate_seeds mint) DEACTIVATE_PROGRAM_ID)) = true /\
  (exists k (r : Roles), pda_at (roles_seeds mint authority) ACCESS_CONTROL_PROGRAM_ID k /\
     stored w k r /\ has_role r ROLE_ISSUER) /\
  exists kc c kv v,
    pda_at (asset_configuration_seeds mint) DEPLOY_PROGRAM_ID kc /\ stored w kc c /\
    pda_at (asset_class_version_seeds (ac_asset_class_config_id c) (ac_asset_class_version_id c))
      FACTORY_PROGRAM_ID kv /\ stored w kv v /\ functionality_enabled v MINT_MINT.

(** The control list of the mint lets the accounts receive. *)
Definition may_receive (w : World) (mint : Pubkey) (accounts : list Pubkey) : Prop :=
  exists mode, mode_at w (pda (transfer_control_mode_seeds mint) TRANSFER_CONTROL_PROGRAM_ID) mode /\
    verdict mode ((fun k => listed w (pda (control_list_seeds mint k) TRANSFER_CONTROL_PROGRAM_ID)) <$> accounts)
      = Ok tt.

(** There is no cap, or [n] more tokens stay within it. *)
Definition room_for (w : World) (mint : Pubkey) (n : Z) : Prop :=
  data_is_empty (data_of w (max_supply_pda_of mint)) = true \/
  exists (c : MaxSupply) m, stored w (max_supply_pda_of mint) c /\ data_of w mint = DMint m /\
    m_supply m + n <= ms_max_supply c.

Definition issuance (ix : MintInstruction) (signers : list Pubkey) (w w' : World) : Prop :=
  match ix with
  | IxMint a n =>
      issuer_allowed w signers (mt_mint a) (mt_authority a) /\
      may_receive w (mt_mint a) [mt_destination a] /\ room_for w (mt_mint a) n /\
      minted (mt_mint a) (mt_destination a) n w w'
  | IxBatchMint a r ns =>
      issuer_allowed w signers (bm_mint a) (bm_authority a) /\ ns <> [] /\
      length r = (length ns * 2)%nat /\
      may_receive w (bm_mint a) (fst <$> pairs r) /\ room_for w (bm_mint a) (sum_list ns) /\
      minted_all (bm_mint a) (zip ns (fst <$> pairs r)) w w'
  end.

Lemma mint_issuance signers a n w w' :
  mint signers a n w = Ok (tt, w') -> issuance (IxMint a n) signers w w'.
Proof.
  intros Hr. unfold mint, MintTokens_try_accounts in Hr. inv_ok. simpl.
  split; [|split; [|split]].
  - split_and!; [done|congruence|eauto|].
    match goal with Hf : functionality_enabled ?v MINT_MINT |- _ => eexists _, _, _, v end.
    split_and!; eauto.
  - rename select (verdict _ _ = _) into Hv. simpl in Hv.
    rename select (mt_destination_control_list_pda a = _) into E. rewrite E in Hv.
    rename select (mode_at _ _ _) into Hm. rename select (mt_transfer_control_mode_pda a = _) into E'.
    rewrite E' in Hm. eexists. split; [exact Hm|exact Hv].
  - rename select (mt_max_supply_pda a = _) into E.
    rename select (_ \/ _) into Hc. rewrite E in Hc. destruct Hc as [[Hc _]|Hc]; [by left|by right].
  - rename select (mint_to _ _ _ _ _ _ = _) into Hm.
    apply mint_to_ok in Hm as (t & m & Ht & Hm & Em & _ & _ & Hn & Hs & _ & ->).
    exists t, m. by split_and!.
Qed.

Lemma control_lists_of mint r w w' :
  for_each (pairs r) (fun '(destination, control_list_pda) =>
    verify_control_list_pda control_list_pda destination mint) w = Ok (tt, w') ->
  w' = w /\ snd <$> pairs r =
    (fun k => pda (control_list_seeds mint k) TRANSFER_CONTROL_PROGRAM_ID) <$> (fst <$> pairs r).
Proof.
  intros Hr. apply (for_each_checks (fun p => p.2 = pda (control_list_seeds mint p.1) TRANSFER_CONTROL_PROGRAM_ID))
    in Hr as [-> Hall].
  - split; [done|]. rewrite <- list_fmap_compose. induction Hall as [|x xs Hx _ IH]; [done|].
    cbn. f_equal; [exact Hx|exact IH].
  - intros [d k] s s' (-> & ->)%ok_inv. done.
Qed.

Lemma batch_mint_issuance signers a r ns w w' :
  batch_mint signers a r ns w = Ok (tt, w') -> issuance (IxBatchMint a r ns) signers w w'.
Proof.
  intros Hr. unfold batch_mint, BatchMintTokens_try_accounts in Hr. inv_ok. zify_checks. simpl.
  rename select (try_fold_add _ _ = _) into Htot. apply try_fold_add_sum in Htot as ->.
  rewrite Z.add_0_l in *.
  repeat match goal with Hf : for_each (pairs r) _ _ = Ok _ |- _ =>
    apply control_lists_of in Hf as [-> Hlists] end.
  split; [|split; [done|split; [done|split; [|split]]]].
  - split_and!; [done|congruence|eauto|].
    match goal with Hf : functionality_enabled ?v MINT_MINT |- _ => eexists _, _, _, v end.
    split_and!; eauto.
  - rename select (verdict _ _ = _) into Hv. rewrite Hlists in Hv.
    rename select (mode_at _ _ _) into Hm. rename select (bm_transfer_control_mode_pda a = _) into E.
    rewrite E in Hm. eexists. split; [exact Hm|]. rewrite <- Hv. f_equal.
    symmetry. apply (map_map _ (listed w)).
  - rename select (bm_max_supply_pda a = _) into E.
    rename select (_ \/ _) into Hc. rewrite E in Hc. destruct Hc as [[Hc _]|Hc]; [by left|by right].
  - revert Hr. clear - Laws TLaws. generalize (zip ns (pairs r).*1) as xs. intros xs. revert w.
    induction xs as [|[n k] xs IH]; intros w Hr; simpl in *; [by inv_ok|].
    apply bind_ok in Hr as ([] & w1 & Hb & Hr). exists w1. split; [|by apply IH].
    inv_ok. rename select (mint_to _ _ _ _ _ _ = _) into Hm.
    apply mint_to_ok in Hm as (t & m & Ht & Hm & Em & _ & _ & Hn & Hs & _ & ->).
    exists t, m. by split_and!.
Qed.

Lemma mint_program_issuance signers ix w w' :
  mint_program signers ix w = Ok (tt, w') -> issuance ix signers w w'.
Proof. destruct ix; [apply mint_issuance|apply batch_mint_issuance]. Qed.

(** ** The cap *)

(** Every mint that has a cap is within it. *)
Definition cap_inv (w : World) : Prop := forall mint, within_cap w mint.

(** The supply of [mint] grew by [n]; no other supply and no cap changed. *)
Definition supply_grows (mint : Pubkey) (n : Z) (w w' : World) : Prop :=
  (forall k m', data_of w' k = DMint m' -> exists m, data_of w k = DMint m /\
     m_supply m' = m_supply m + if decide (k = mint) then n else 0) /\
  forall k (c : MaxSupply), stored w' k c -> stored w k c.

Lemma minted_grows mint k n w w' : minted mint k n w w' -> supply_grows mint n w w'.
Proof.
  intros (t & m & Ht & Hm & _ & _ & _ & E & _). unfold token_account, mint_account in *.
  assert (Ea : forall j, account w' j = account (put_mint mint (with_supply (m_supply m + n) m)
    (put_token k (with_amount (t_amount t + n) t) w)) j) by (intros j; unfold account; by rewrite E).
  unfold put_mint, put_token in Ea. split.
  - intros j m' Hd. unfold data_of in *. rewrite Ea, !account_set_account in Hd.
    repeat case_decide; subst; simpl in *; simplify_eq; try done.
    + exists m. rewrite Hm. done.
    + exists m'. split; [done|lia].
  - intros j c Hs. unfold stored in *. rewrite Ea, !account_set_account in Hs.
    repeat case_decide; try discriminate Hs. done.
Qed.

Lemma supply_grows_trans mint n1 n2 w1 w2 w3 :
  supply_grows mint n1 w1 w2 -> supply_grows mint n2 w2 w3 -> supply_grows mint (n1 + n2) w1 w3.
Proof.
  intros [S1 C1] [S2 C2]. split; [|auto]. intros k m3 H3.
  destruct (S2 k m3 H3) as (m2 & H2 & E2). destruct (S1 k m2 H2) as (m1 & H1 & E1).
  exists m1. split; [done|]. case_decide; lia.
Qed.

Lemma minted_all_grows mint xs w w' :
  minted_all mint xs w w' -> supply_grows mint (sum_list (fst <$> xs)) w w'.
Proof.
  revert w. induction xs as [|[n k] xs IH]; simpl; intros w Hr.
  - rewrite Hr. split; [|done]. intros k m Hm. exists m. split; [done|]. case_decide; lia.
  - destruct Hr as (w1 & H1 & H2). eapply supply_grows_trans; [by eapply minted_grows|by apply IH].
Qed.

Lemma supply_grows_capped mint n w w' :
  room_for w mint n -> supply_grows mint n w w' -> cap_inv w -> cap_inv w'.
Proof.
  intros Hroom [Hs Hc] Hinv k c m' Hk Hm'. apply Hc in Hk. destruct (Hs k m' Hm') as (m & Hm & E).
  pose proof (Hinv k c m Hk Hm) as Hle. case_decide; [subst k|lia].
  destruct Hroom as [He|(c' & m0 & Hc' & Hm0 & Hle')].
  - rewrite (stored_data _ _ _ Hk) in He. discriminate He.
  - rewrite (stored_inj _ _ _ _ Hk Hc'). assert (m = m0) as -> by congruence. lia.
Qed.

(** No supply and no cap grows. *)
Definition supply_shrinks (w w' : World) : Prop :=
  (forall k m', data_of w' k = DMint m' -> exists m, data_of w k = DMint m /\ m_supply m' <= m_supply m) /\
  forall k (c : MaxSupply), stored w' k c -> stored w k c.

#[export] Instance supply_shrinks_preorder : PreOrder supply_shrinks.
Proof.
  split; [intros w; split; [intros k m Hm; by exists m|done]|].
  intros w1 w2 w3 [S1 C1] [S2 C2]. split; [|auto].
  intros k m3 H3. destruct (S2 k m3 H3) as (m2 & H2 & L2). destruct (S1 k m2 H2) as (m1 & H1 & L1).
  exists m1. split; [done|lia].
Qed.

Lemma supply_shrinks_capped w w' : supply_shrinks w w' -> cap_inv w -> cap_inv w'.
Proof.
  intros [Hs Hc] Hinv k c m' Hk%Hc Hm'. destruct (Hs k m' Hm') as (m & Hm & Hle).
  pose proof (Hinv k c m Hk Hm). lia.
Qed.

Lemma supply_shrinks_accounts w w' : (forall k, account w' k = account w k) -> supply_shrinks w w'.
Proof.
  intros E. split.
  - intros k m. unfold data_of. rewrite E. intros Hm. by exists m.
  - intros k c. unfold stored. by rewrite E.
Qed.

Lemma put_token_shrinks k t t' w : token_account w k t -> supply_shrinks w (put_token k t' w).
Proof.
  intros Hk. unfold put_token. split.
  - intros j m. unfold data_of. rewrite account_set_account. case_decide; [intros [=]|].
    intros Hm. by exists m.
  - intros j c. unfold stored. rewrite account_set_account. case_decide; [intros [=]|done].
Qed.

Lemma put_mint_shrinks k m m' w :
  mint_account w k m -> m_supply m' <= m_supply m -> supply_shrinks w (put_mint k m' w).
Proof.
  intros Hk Hle. unfold put_mint, mint_account in *. split.
  - intros j m0. unfold data_of. rewrite account_set_account. case_decide; [subst|].
    + intros [= <-]. exists m. by rewrite Hk.
    + intros Hm. by exists m0.
  - intros j c. unfold stored. rewrite account_set_account. case_decide; [intros [=]|done].
Qed.

Lemma burnt_shrinks mint k n w w' : burnt mint k n w w' -> supply_shrinks w w'.
Proof.
  intros (t & m & Ht & Hm & _ & Hn & _ & _ & E & _).
  transitivity (put_token k (with_amount (t_amount t - n) t) w); [by eapply put_token_shrinks|].
  transitivity (put_mint mint (with_supply (m_supply m - n) m) (put_token k (with_amount (t_amount t - n) t) w));
    [|apply supply_shrinks_accounts; intros j; unfold account; by rewrite E].
  apply (put_mint_shrinks mint m); [|simpl; lia]. unfold mint_account, put_token, token_account in *.
  rewrite account_set_account_ne; [done|]. intros ->. congruence.
Qed.

Lemma forced_shrinks mint from to n w w' : forced mint from to n w w' -> supply_shrinks w w'.
Proof.
  intros (s & d & Hs & Hd & _ & _ & _ & [(_ & E & _)|[Hne [_ Es Ed Ej]]]).
  - apply supply_shrinks_accounts. intros k. unfold account. by rewrite E.
  - set (s' := with_transferring false (with_amount (t_amount s - n) s)) in *.
    set (d' := with_transferring false (with_amount (t_amount d + n) d)) in *.
    transitivity (put_token from s' w); [by eapply put_token_shrinks|].
    transitivity (put_token to d' (put_token from s' w)).
    + apply (put_token_shrinks to d). unfold put_token, token_account in *.
      by rewrite account_set_account_ne.
    + apply supply_shrinks_accounts. intros j. unfold put_token, token_account in *.
      rewrite !account_set_account. repeat case_decide; subst; auto.
Qed.

Lemma burnt_all_shrinks mint xs w w' : burnt_all mint xs w w' -> supply_shrinks w w'.
Proof.
  revert w. induction xs as [|[n k] xs IH]; simpl; intros w Hb; [by rewrite Hb|].
  destruct Hb as (w1 & H1 & H2). etransitivity; [by eapply burnt_shrinks|by apply IH].
Qed.

Lemma operations_shrinks other signers ix w w' :
  config_inv w -> operations other signers ix w = Ok (tt, w') -> supply_shrinks w w'.
Proof.
  intros Hc Hr. apply operations_promise in Hr; [|done]. destruct ix; simpl in Hr.
  - by eapply burnt_shrinks, Hr.
  - by eapply burnt_all_shrinks, Hr.
  - by eapply forced_shrinks, Hr.
  - by eapply forced_shrinks, Hr.
Qed.

Lemma set_max_supply_capped signers a n w w' :
  set_max_supply signers a n w = Ok (tt, w') -> cap_inv w -> cap_inv w'.
Proof.
  intros (Ek & _ & Hn & (m0 & Hm0 & Hle) & (b & Hb) & _ & Hj)%set_max_supply_effect Hinv k c m Hk Hm.
  assert (Hne : k <> cs_max_supply_pda a).
  { intros ->. rewrite (stored_data _ _ _ Hb) in Hm. discriminate Hm. }
  unfold data_of in Hm. rewrite Hj in Hm by done.
  destruct (decide (max_supply_pda_of k = cs_max_supply_pda a)) as [E|E].
  - rewrite E in Hk. rewrite (stored_inj _ _ _ _ Hk Hb). simpl.
    rewrite Ek in E. apply pda_inj in E as [[= ->] _]. unfold data_of in Hm0.
    assert (m = m0) as -> by congruence. done.
  - unfold stored in Hk. rewrite Hj in Hk by done. by apply (Hinv k c m).
Qed.

(** The instructions that touch supplies and caps. *)
Inductive supply_step (other : HookCall) (w w' : World) : Prop :=
| supply_cap signers a n : set_max_supply signers a n w = Ok (tt, w') -> supply_step other w w'
| supply_mint signers ix : mint_program signers ix w = Ok (tt, w') -> supply_step other w w'
| supply_operations signers ix :
    config_inv w -> operations other signers ix w = Ok (tt, w') -> supply_step other w w'.

Lemma supply_step_capped other w w' : supply_step other w w' -> cap_inv w -> cap_inv w'.
Proof.
  intros [signers a n Hr|signers ix Hr|signers ix Hc Hr].
  - by eapply set_max_supply_capped.
  - apply mint_program_issuance in Hr. destruct ix as [a n|a r ns]; simpl in Hr.
    + destruct Hr as (_ & _ & Hroom & Hm). eapply supply_grows_capped; [exact Hroom|by eapply minted_grows].
    + destruct Hr as (_ & _ & Hlen & _ & Hroom & Hm). eapply supply_grows_capped; [exact Hroom|].
      apply minted_all_grows in Hm. rewrite fst_zip in Hm; [exact Hm|].
      rewrite length_fmap, length_pairs, Hlen, Nat.div_mul by done. done.
  - by eapply supply_shrinks_capped, operations_shrinks.
Qed.
End effects.

(** C25: Minting, single or batch, is done by an issuer of the mint while it
    is active and its class allows it, to accounts that the control list admits, within the cap if
    there is one (a batch by its total); each destination and the supply get exactly the amounts. *)
Theorem issuance_is_controlled `{Laws : RuntimeLaws} `{TLaws : TokenLaws} signers ix w w' :
  mint_program signers ix w = Ok (tt, w') -> issuance ix signers w w'.
Proof. apply mint_program_issuance. Qed.

(** C24: Through any sequence of changes of caps, issuances, burns and forced
    transfers, the supply of every mint that has a cap stays within it. *)
Theorem cap_never_exceeded `{Laws : RuntimeLaws} `{TLaws : TokenLaws} other w w' :
  cap_inv w -> rtc (supply_step other) w w' -> cap_inv w'.
Proof.
  intros Hinv Hr. induction Hr as [w|w w1 w2 Hs _ IH]; [done|]. by eapply IH, supply_step_capped.
Qed.

(** ** The sample mint capped at 1200, then 150 tokens issued *)

Definition sample_cap : SetMaxSupply := {|
  cs_payer := ADMIN; cs_authority := ADMIN; cs_authority_roles_pda := SAMPLE_ROLES;
  cs_asset_configuration_pda := SAMPLE_CONFIG; cs_deactivate_pda := SAMPLE_DEACTIVATE;
  cs_mint := MINT; cs_max_supply_pda := max_supply_pda_of MINT;
  cs_asset_class_version_pda := SAMPLE_VERSION |}.

Definition capped_world : World := run_world (set_max_supply [ADMIN] sample_cap 1200) sample_world.

Definition sample_mint_ix : MintInstruction :=
  IxMint {| mt_authority := ADMIN; mt_asset_configuration_pda := SAMPLE_CONFIG;
    mt_deactivate_pda := SAMPLE_DEACTIVATE; mt_mint := MINT;
    mt_mint_authority := pda (mint_authority_seeds MINT) MINT_PROGRAM_ID; mt_destination := TOKEN_B;
    mt_transfer_control_mode_pda := sample_mode_pda;
    mt_destination_control_list_pda := sample_list_pda TOKEN_B;
    mt_max_supply_pda := max_supply_pda_of MINT; mt_asset_class_version_pda := SAMPLE_VERSION;
    mt_authority_roles_pda := SAMPLE_ROLES; mt_token_2022_program := TOKEN_2022_PROGRAM_ID |} 150.

Definition issued_world : World := run_world (mint_program [ADMIN] sample_mint_ix) capped_world.

Lemma capped_world_ok : set_max_supply [ADMIN] sample_cap 1200 sample_world = Ok (tt, capped_world).
Proof. apply run_ok. vm_compute. reflexivity. Qed.

Lemma issued_world_ok : mint_program [ADMIN] sample_mint_ix capped_world = Ok (tt, issued_world).
Proof. apply run_ok. vm_compute. reflexivity. Qed.

Lemma issuance_is_controlled_witness : issuance sample_mint_ix [ADMIN] capped_world issued_world.
Proof. apply (issuance_is_controlled [ADMIN] sample_mint_ix), issued_world_ok. Defined.

Lemma sample_cap_inv : cap_inv sample_world.
Proof.
  intros mint c m Hc _. exfalso. apply stored_data in Hc.
  eapply (holds_no_ok MaxSupply sample_world); [reflexivity|vm_compute; reflexivity|]. by rewrite Hc.
Qed.

Lemma cap_never_exceeded_witness : cap_inv issued_world.
Proof.
  apply (cap_never_exceeded no_hook sample_world); [exact sample_cap_inv|].
  eapply rtc_l; [exact (supply_cap _ _ _ _ _ _ capped_world_ok)|].
  eapply rtc_l; [exact (supply_mint _ _ _ _ _ issued_world_ok)|apply rtc_refl].
Defined.
