(* ===== verification/Snapshot.v ===== *)
(** * Snapshot: the snapshot program ([programs/snapshot])

    A snapshot of a mint is the Merkle root of its balances.  [take_snapshot]
    stores the root at a fresh address derived from the counter of the mint and
    steps the counter: the roots of a mint form an append-only list. *)

From S2P Require Import Prelude.
From S2P Require Import Merkle.
From S2P Require Import ProgramIds.
From S2P Require Import Errors.
From S2P Require Import State.
From S2P Require Import Runtime.
From S2P Require Import Anchor.
From S2P Require Import Frame.
From S2P Require Import PdaSeeds.
From S2P Require Import PdaUtils.

Record TakeSnapshot : Set := mkTakeSnapshot {
  ts_calling_authority : Pubkey;
  ts_payer : Pubkey;
  ts_mint : Pubkey;
  ts_snapshot_counter : Pubkey;
  ts_snapshot_merkle_root : Pubkey }.

Section instructions.
Context `{Rt : SolanaRuntime}.

Definition assert_take_snapshot_authorized_caller (mint_key caller : Pubkey) : M unit :=
  let expected := (find_program_address (coupon_authority_seeds mint_key) COUPON_PROGRAM_ID).1 in
  require (N.eqb expected caller) (ESnapshot SnapshotError.Unauthorized).

(** The address of the root is derived from the counter read just before. *)
Definition TakeSnapshot_try_accounts (signers : list Pubkey) (a : TakeSnapshot) :
    M (SnapshotCounter * Z * Z) :=
  signer signers (ts_calling_authority a);;
  signer signers (ts_payer a);;
  counter_bump ← seeds_check (ts_snapshot_counter a) (snapshot_counter_seeds (ts_mint a)) SNAPSHOT_PROGRAM_ID;
  counter ← account_init_if_needed SnapshotCounter (ts_payer a) (ts_snapshot_counter a) signers;
  merkle_bump ← seeds_check (ts_snapshot_merkle_root a)
    (snapshot_merkle_root_seeds (ts_mint a) (sc_count counter)) SNAPSHOT_PROGRAM_ID;
  account_init SnapshotMerkleRoot (ts_payer a) (ts_snapshot_merkle_root a) signers;;
  mret (counter, counter_bump, merkle_bump).

Definition take_snapshot (signers : list Pubkey) (a : TakeSnapshot) (merkle_root : Hash) : M unit :=
  '(counter, counter_bump, merkle_bump) ← TakeSnapshot_try_accounts signers a;
  assert_take_snapshot_authorized_caller (ts_mint a) (ts_calling_authority a);;
  let id := sc_count counter in
  let bump := if id =? 0 then counter_bump else sc_bump counter in
  count ← lift (ok_or (checked_add_u64 id 1) (ESnapshot SnapshotError.SnapshotCounterOverflow));
  emit_cpi (EvSnapshot (SnapshotTriggered (ts_mint a) id merkle_root));;
  account_exit (ts_snapshot_counter a) (mkSnapshotCounter bump count);;
  account_exit (ts_snapshot_merkle_root a) (mkSnapshotMerkleRoot merkle_bump merkle_root).
End instructions.

(** ** The log of roots of a mint *)

Section log.
Context `{Rt : SolanaRuntime}.

Definition snapshot_counter_pda (mint : Pubkey) : Pubkey :=
  pda (snapshot_counter_seeds mint) SNAPSHOT_PROGRAM_ID.
Definition snapshot_root_pda (mint : Pubkey) (id : Z) : Pubkey :=
  pda (snapshot_merkle_root_seeds mint id) SNAPSHOT_PROGRAM_ID.

(** The identifier of the next snapshot. *)
Definition next_snapshot (w : World) (mint : Pubkey) : Z :=
  match view SnapshotCounter w (snapshot_counter_pda mint) with Some c => sc_count c | None => 0 end.

Definition root_at (w : World) (mint : Pubkey) (id : Z) : option Hash :=
  smr_merkle_root <$> view SnapshotMerkleRoot w (snapshot_root_pda mint id).

(** The snapshots of [mint] are [roots], in the order they were taken. *)
Definition snapshot_log (w : World) (mint : Pubkey) (roots : list Hash) : Prop :=
  next_snapshot w mint = Z.of_nat (length roots) /\
  forall id, 0 <= id -> root_at w mint id = roots !! Z.to_nat id.
End log.

Section proofs.
Context `{Rt : SolanaRuntime} `{Laws : !RuntimeLaws}.

Lemma snapshot_root_pda_inj mint mint' id id' :
  snapshot_root_pda mint id = snapshot_root_pda mint' id' -> mint = mint' /\ id = id'.
Proof. intros E. by apply pda_inj in E as [[= -> ->] _]. Qed.

Lemma snapshot_counter_pda_inj mint mint' :
  snapshot_counter_pda mint = snapshot_counter_pda mint' -> mint = mint'.
Proof. intros E. by apply pda_inj in E as [[= ->] _]. Qed.

Lemma snapshot_pdas_ne mint mint' id : snapshot_counter_pda mint <> snapshot_root_pda mint' id.
Proof. intros E. apply pda_inj in E as [E _]. discriminate E. Qed.

(** What [take_snapshot] does: the counter steps and a root appears at a fresh address. *)
#[export] Instance take_snapshot_inv signers a root :
  OkInv (take_snapshot signers a root) (fun w _ w' =>
    let id := next_snapshot w (ts_mint a) in
    ts_calling_authority a = pda (coupon_authority_seeds (ts_mint a)) COUPON_PROGRAM_ID /\
    ts_calling_authority a ∈ signers /\
    ts_snapshot_counter a = snapshot_counter_pda (ts_mint a) /\
    ts_snapshot_merkle_root a = snapshot_root_pda (ts_mint a) id /\
    fresh w (snapshot_root_pda (ts_mint a) id) /\ 0 <= id + 1 <= U64_MAX /\
    (exists b, stored w' (snapshot_counter_pda (ts_mint a)) (mkSnapshotCounter b (id + 1))) /\
    (exists b, stored w' (snapshot_root_pda (ts_mint a) id) (mkSnapshotMerkleRoot b root)) /\
    w_now w' = w_now w /\
    forall j, j <> snapshot_counter_pda (ts_mint a) -> j <> snapshot_root_pda (ts_mint a) id ->
      account w' j = account w j).
Proof.
  intros w [] w' Hr. unfold take_snapshot in Hr.
  apply bind_ok in Hr as ([[c cb] mb] & w1 & Ht & Hr). unfold TakeSnapshot_try_accounts in Ht.
  apply bind_ok in Ht as (? & ? & [? ->]%ok_inv & Ht). apply bind_ok in Ht as (? & ? & [? ->]%ok_inv & Ht).
  apply bind_ok in Ht as (b1 & ? & (Hkc & _ & ->)%ok_inv & Ht).
  apply bind_ok in Ht as (c' & w0 & Hc & Ht).
  apply init_if_needed_value in Hc as (Ec & Hj1 & Hn1); [|program_ne].
  apply bind_ok in Ht as (b2 & ? & (Hkr & _ & ->)%ok_inv & Ht).
  apply bind_ok in Ht as (? & w2 & Hf & [E ->]%ok_inv). injection E as -> -> ->.
  apply init_fresh in Hf as (Hf & Hj2 & Hn2).
  assert (Eid : sc_count c' = next_snapshot w (ts_mint a)).
  { unfold next_snapshot. unfold snapshot_counter_pda. rewrite <- Hkc, Ec. by destruct (view _ _ _). }
  rewrite Eid in *. fold (snapshot_root_pda (ts_mint a) (next_snapshot w (ts_mint a))) in Hkr.
  fold (snapshot_counter_pda (ts_mint a)) in Hkc. unfold assert_take_snapshot_authorized_caller in Hr.
  pose proof (snapshot_pdas_ne (ts_mint a) (ts_mint a) (next_snapshot w (ts_mint a))) as Hne.
  inv_ok. zify_checks. rewrite Hkc, Hkr in *. split_and!; try done; try lia.
  - unfold fresh, owner_of, data_of in *. rewrite <- Hj1 by (by apply not_eq_sym). exact Hf.
  - eexists. unfold stored. rewrite account_set_account_ne, account_set_account_eq by (by apply not_eq_sym). reflexivity.
  - eexists. unfold stored. rewrite account_set_account_eq. reflexivity.
  - simpl. congruence.
  - intros j Hx Hy. rewrite !account_set_account_ne, account_add_event, Hj2, Hj1 by congruence. reflexivity.
Qed.

Lemma next_snapshot_account w w' mint :
  account w' (snapshot_counter_pda mint) = account w (snapshot_counter_pda mint) ->
  next_snapshot w' mint = next_snapshot w mint.
Proof. intros E. unfold next_snapshot. by rewrite (view_account _ _ _ E). Qed.

Lemma root_at_account w w' mint id :
  account w' (snapshot_root_pda mint id) = account w (snapshot_root_pda mint id) ->
  root_at w' mint id = root_at w mint id.
Proof. intros E. unfold root_at. by rewrite (view_account _ _ _ E). Qed.

Lemma snapshot_log_append signers a root w w' mint roots :
  take_snapshot signers a root w = Ok (tt, w') -> snapshot_log w mint roots ->
  snapshot_log w' mint (if decide (mint = ts_mint a) then roots ++ [root] else roots).
Proof.
  intros Hr [Hn Hl].
  apply ok_inv in Hr as (_ & _ & _ & _ & _ & Hid & [b Hc] & [b' Hroot] & _ & Hj).
  case_decide as E; [subst mint|].
  - rewrite Hn in *. split.
    + unfold next_snapshot. rewrite (proj2 (view_Some _ _ _) Hc), length_app. simpl. lia.
    + intros id H0. destruct (decide (id = Z.of_nat (length roots))) as [->|Hne].
      * unfold root_at. rewrite (proj2 (view_Some _ _ _) Hroot). simpl.
        rewrite lookup_app_r, Nat2Z.id, Nat.sub_diag by lia. done.
      * rewrite (root_at_account w).
        -- rewrite Hl by done. destruct (decide (id < Z.of_nat (length roots))).
           ++ by rewrite lookup_app_l by lia.
           ++ rewrite !lookup_ge_None_2; [done|rewrite length_app; simpl; lia|lia].
        -- apply Hj; [apply not_eq_sym, snapshot_pdas_ne|].
           by intros [_ ?]%snapshot_root_pda_inj.
  - split.
    + rewrite (next_snapshot_account w); [done|]. apply Hj; [|apply snapshot_pdas_ne].
      by intros ?%snapshot_counter_pda_inj.
    + intros id H0. rewrite (root_at_account w); [by apply Hl|].
      apply Hj; [apply not_eq_sym, snapshot_pdas_ne|]. by intros [? _]%snapshot_root_pda_inj.
Qed.
End proofs.
