(* ===== verification/Coupon.v ===== *)
(** * Coupon: the coupon program ([programs/coupon])

    [create_coupon] numbers the coupons of a mint from 1, takes the snapshot a
    coupon is paid against through a call of the snapshot program signed by the
    coupon authority, and records the period, the payment date and the rate;
    [set_coupon_rate] replaces the rate. *)

From S2P Require Import Prelude.
From S2P Require Import Merkle.
From S2P Require Import Bitmask.
From S2P Require Import ProgramIds.
From S2P Require Import Errors.
From S2P Require Import State.
From S2P Require Import Runtime.
From S2P Require Import Anchor.
From S2P Require Import Frame.
From S2P Require Import PdaSeeds.
From S2P Require Import PdaUtils.
From S2P Require Import Common.
From S2P Require Import Snapshot.

Record CreateCoupon : Set := mkCreateCoupon {
  cc_payer : Pubkey;
  cc_authority : Pubkey;
  cc_asset_configuration_pda : Pubkey;
  cc_deactivate_pda : Pubkey;
  cc_mint : Pubkey;
  cc_coupon_authority : Pubkey;
  cc_coupon_counter : Pubkey;
  cc_coupon : Pubkey;
  cc_snapshot_counter : Pubkey;
  cc_snapshot_merkle_root : Pubkey;
  cc_snapshot_program : Pubkey;
  cc_asset_class_version_pda : Pubkey;
  cc_authority_roles_pda : Pubkey }.

Record CreateCouponArgs : Set := mkCreateCouponArgs {
  ca_period_start_date : Z;
  ca_period_end_date : Z;
  ca_payment_date : Z;
  ca_coupon_id : Z;
  ca_interest_rate_override : option Z;
  ca_interest_rate_override_decimals : option Z;
  ca_merkle_root : Hash }.

Record SetCouponRate : Set := mkSetCouponRate {
  cr_authority : Pubkey;
  cr_asset_configuration_pda : Pubkey;
  cr_deactivate_pda : Pubkey;
  cr_mint : Pubkey;
  cr_coupon : Pubkey;
  cr_asset_class_version_pda : Pubkey;
  cr_authority_roles_pda : Pubkey }.

Definition is_some {A} (o : option A) : bool := match o with Some _ => true | None => false end.

(** [Coupon::set_interest_rate] *)
Definition set_interest_rate (c : Coupon) (rate decimals : option Z) : Result Error Coupon :=
  if eqb (is_some rate) (is_some decimals) then
    Ok (mkCoupon (c_bump c) (c_snapshot_id c) (c_period_start_date c) (c_period_end_date c)
          (c_payment_date c) rate decimals)
  else Err (ECoupon CouponError.InconsistentRateOverride).

Section instructions.
Context `{Rt : SolanaRuntime}.

Definition CreateCoupon_try_accounts (signers : list Pubkey) (a : CreateCoupon) (coupon_id : Z) :
    M (CouponCounter * Z * Z * Z) :=
  signer signers (cc_payer a);;
  signer signers (cc_authority a);;
  asset_configuration ← account_try_from AssetConfiguration (cc_asset_configuration_pda a);
  loader_load AssetClassVersion (cc_asset_class_version_pda a);;
  loader_load Roles (cc_authority_roles_pda a);;
  counter_bump ← seeds_check (cc_coupon_counter a) (coupon_counter_seeds (cc_mint a)) COUPON_PROGRAM_ID;
  counter ← account_init_if_needed CouponCounter (cc_payer a) (cc_coupon_counter a) signers;
  coupon_bump ← seeds_check (cc_coupon a) (coupon_seeds (cc_mint a) coupon_id) COUPON_PROGRAM_ID;
  account_init Coupon (cc_payer a) (cc_coupon a) signers;;
  asset_configuration_constraint (cc_asset_configuration_pda a) (cc_mint a) asset_configuration;;
  deactivate_constraint (cc_deactivate_pda a) (cc_mint a);;
  authority_bump ← seeds_check (cc_coupon_authority a) (coupon_authority_seeds (cc_mint a)) COUPON_PROGRAM_ID;
  seeds_check (cc_snapshot_counter a) (snapshot_counter_seeds (cc_mint a)) SNAPSHOT_PROGRAM_ID;;
  check_address (cc_snapshot_program a) SNAPSHOT_PROGRAM_ID;;
  asset_class_version_constraint (cc_asset_class_version_pda a) asset_configuration;;
  roles_constraint (cc_authority_roles_pda a) (cc_mint a) (cc_authority a);;
  mret (counter, counter_bump, coupon_bump, authority_bump).

(** The counter of [create_coupon] after it was stepped: its bump is recorded with the first
    coupon only. *)
Definition step_counter (counter : CouponCounter) (counter_bump : Z) : M CouponCounter :=
  if cc_count counter =? 0 then mret (mkCouponCounter counter_bump 1)
  else
    count ← lift (ok_or (checked_add_u64 (cc_count counter) 1) (ECoupon CouponError.CouponCounterOverflow));
    mret (mkCouponCounter (cc_bump counter) count).

(** The identifier [take_snapshot] is about to assign. *)
Definition read_snapshot_id (snapshot_counter : Pubkey) : M Z :=
  w ← get;
  if data_is_empty (data_of w snapshot_counter) then mret 0
  else counter ← account_try_from SnapshotCounter snapshot_counter; mret (sc_count counter).

Definition create_coupon (signers : list Pubkey) (a : CreateCoupon) (args : CreateCouponArgs) : M unit :=
  '(counter, counter_bump, coupon_bump, authority_bump) ←
    CreateCoupon_try_accounts signers a (ca_coupon_id args);
  operation_guards (cc_authority_roles_pda a) (cc_mint a) (cc_deactivate_pda a)
    (cc_asset_class_version_pda a) ROLE_CORPORATE_ACTION COUPON_CREATE_COUPON;;
  require (ca_period_start_date args <? ca_period_end_date args) (ECoupon CouponError.InvalidCouponPeriod);;
  require (ca_period_end_date args <? ca_payment_date args) (ECoupon CouponError.InvalidPaymentDate);;
  counter ← step_counter counter counter_bump;
  require (ca_coupon_id args =? cc_count counter) (ECoupon CouponError.InvalidCouponId);;
  snapshot_id ← read_snapshot_id (cc_snapshot_counter a);
  authority ← pda_signer
    (build_pda_signer_seeds (coupon_authority_seeds (cc_mint a)) authority_bump) COUPON_PROGRAM_ID;
  take_snapshot [authority; cc_payer a]
    (mkTakeSnapshot (cc_coupon_authority a) (cc_payer a) (cc_mint a) (cc_snapshot_counter a)
       (cc_snapshot_merkle_root a))
    (ca_merkle_root args);;
  coupon ← lift (set_interest_rate
    (mkCoupon coupon_bump snapshot_id (ca_period_start_date args) (ca_period_end_date args)
       (ca_payment_date args) None None)
    (ca_interest_rate_override args) (ca_interest_rate_override_decimals args));
  emit_cpi (EvCoupon (CouponCreated (cc_mint a) (ca_coupon_id args) (ca_period_start_date args)
    (ca_period_end_date args) (ca_payment_date args) (ca_interest_rate_override args)
    (ca_interest_rate_override_decimals args)));;
  account_exit (cc_coupon_counter a) counter;;
  account_exit (cc_coupon a) coupon.

Definition SetCouponRate_try_accounts (signers : list Pubkey) (a : SetCouponRate) (coupon_id : Z) :
    M Coupon :=
  signer signers (cr_authority a);;
  asset_configuration ← account_try_from AssetConfiguration (cr_asset_configuration_pda a);
  coupon ← account_try_from Coupon (cr_coupon a);
  loader_load AssetClassVersion (cr_asset_class_version_pda a);;
  loader_load Roles (cr_authority_roles_pda a);;
  asset_configuration_constraint (cr_asset_configuration_pda a) (cr_mint a) asset_configuration;;
  deactivate_constraint (cr_deactivate_pda a) (cr_mint a);;
  seeds_bump_check (cr_coupon a) (coupon_seeds (cr_mint a) coupon_id) COUPON_PROGRAM_ID (c_bump coupon);;
  asset_class_version_constraint (cr_asset_class_version_pda a) asset_configuration;;
  roles_constraint (cr_authority_roles_pda a) (cr_mint a) (cr_authority a);;
  mret coupon.

Definition set_coupon_rate (signers : list Pubkey) (a : SetCouponRate) (coupon_id : Z)
    (interest_rate interest_rate_decimals : option Z) : M unit :=
  coupon ← SetCouponRate_try_accounts signers a coupon_id;
  operation_guards (cr_authority_roles_pda a) (cr_mint a) (cr_deactivate_pda a)
    (cr_asset_class_version_pda a) ROLE_CORPORATE_ACTION COUPON_SET_COUPON_RATE;;
  coupon ← lift (set_interest_rate coupon interest_rate interest_rate_decimals);
  emit_cpi (EvCoupon (CouponRateSet (cr_mint a) coupon_id interest_rate interest_rate_decimals));;
  account_exit (cr_coupon a) coupon.
End instructions.

Inductive CouponInstruction : Set :=
| IxCreateCoupon (a : CreateCoupon) (args : CreateCouponArgs)
| IxSetCouponRate (a : SetCouponRate) (coupon_id : Z) (interest_rate interest_rate_decimals : option Z).

Definition coupon `{Rt : SolanaRuntime} (signers : list Pubkey) (ix : CouponInstruction) : M unit :=
  match ix with
  | IxCreateCoupon a args => create_coupon signers a args
  | IxSetCouponRate a id rate decimals => set_coupon_rate signers a id rate decimals
  end.
