(* ===== verification/CouponProofs.v ===== *)
(** * CouponProofs: the coupons of a mint are an append-only book

    The corporate actions of a mint are abstracted by its [Book]: the snapshot
    roots and the coupons, in order.  Every instruction of the coupon program is
    one transition of the book. *)

From S2P Require Import Prelude.
From S2P Require Import Merkle.
From S2P Require Import Bitmask.
From S2P Require Import ProgramIds.
From S2P Require Import Errors.
From S2P Require Import State.
From S2P Require Import Runtime.
From S2P Require Import Anchor.
From S2P Require Import Frame.
From S2P Require Import Reference.
From S2P Require Import PdaSeeds.
From S2P Require Import PdaUtils.
From S2P Require Import Common.
From S2P Require Import Sample.
From S2P Require Import Snapshot.
From S2P Require Import Coupon.

(** ** The book of a mint *)

Record Book : Set := mkBook { bk_snapshots : list Hash; bk_coupons : list Coupon }.

Definition with_rate (rate decimals : option Z) (c : Coupon) : Coupon :=
  mkCoupon (c_bump c) (c_snapshot_id c) (c_period_start_date c) (c_period_end_date c)
    (c_payment_date c) rate decimals.

(** A coupon paid against one of [n] snapshots. *)
Record coupon_ok (n : nat) (c : Coupon) : Prop := {
  ok_period : c_period_start_date c < c_period_end_date c < c_payment_date c;
  ok_rate : is_some (c_interest_rate_override c) = is_some (c_interest_rate_override_decimals c);
  ok_snapshot : 0 <= c_snapshot_id c < Z.of_nat n }.

Definition book_ok (b : Book) : Prop := Forall (coupon_ok (length (bk_snapshots b))) (bk_coupons b).

(** What an instruction does to the book of the mint it is called for. *)
Inductive book_step : CouponInstruction -> Book -> Book -> Prop :=
| BookCreate a args b c :
    ca_coupon_id args = Z.of_nat (length (bk_coupons b)) + 1 ->
    c_snapshot_id c = Z.of_nat (length (bk_snapshots b)) ->
    c_period_start_date c = ca_period_start_date args ->
    c_period_end_date c = ca_period_end_date args ->
    c_payment_date c = ca_payment_date args ->
    c_interest_rate_override c = ca_interest_rate_override args ->
    c_interest_rate_override_decimals c = ca_interest_rate_override_decimals args ->
    c_period_start_date c < c_period_end_date c < c_payment_date c ->
    is_some (c_interest_rate_override c) = is_some (c_interest_rate_override_decimals c) ->
    book_step (IxCreateCoupon a args) b
      (mkBook (bk_snapshots b ++ [ca_merkle_root args]) (bk_coupons b ++ [c]))
| BookSetRate a id rate decimals b c :
    1 <= id -> bk_coupons b !! Z.to_nat (id - 1) = Some c -> is_some rate = is_some decimals ->
    book_step (IxSetCouponRate a id rate decimals) b
      (mkBook (bk_snapshots b) (<[Z.to_nat (id - 1) := with_rate rate decimals c]> (bk_coupons b))).

Lemma book_step_ok ix b b' : book_step ix b b' -> book_ok b -> book_ok b'.
Proof.
  unfold book_ok. destruct 1; simpl; intros Hb.
  - rewrite length_app. simpl. apply Forall_app. split.
    + eapply Forall_impl; [exact Hb|]. intros c' [? ? ?]. split; [done|done|lia].
    + constructor; [|constructor]. split; [done|done|lia].
  - apply Forall_insert; [done|]. rewrite Forall_lookup in Hb.
    destruct (Hb _ _ H0) as [? ? ?]. by split.
Qed.

Definition book_mint (ix : CouponInstruction) : Pubkey :=
  match ix with IxCreateCoupon a _ => cc_mint a | IxSetCouponRate a _ _ _ => cr_mint a end.
Definition book_authority (ix : CouponInstruction) : Pubkey :=
  match ix with IxCreateCoupon a _ => cc_authority a | IxSetCouponRate a _ _ _ => cr_authority a end.

Section book.
Context `{Rt : SolanaRuntime}.

Definition coupon_counter_pda (mint : Pubkey) : Pubkey := pda (coupon_counter_seeds mint) COUPON_PROGRAM_ID.
Definition coupon_pda (mint : Pubkey) (id : Z) : Pubkey := pda (coupon_seeds mint id) COUPON_PROGRAM_ID.

Definition coupon_count (w : World) (mint : Pubkey) : Z :=
  match view CouponCounter w (coupon_counter_pda mint) with Some c => cc_count c | None => 0 end.

Definition coupon_at (w : World) (mint : Pubkey) (id : Z) : option Coupon :=
  view Coupon w (coupon_pda mint id).

(** The coupons of [mint] are [cs], numbered from 1. *)
Definition coupon_log (w : World) (mint : Pubkey) (cs : list Coupon) : Prop :=
  coupon_count w mint = Z.of_nat (length cs) /\
  forall id, coupon_at w mint id = if 1 <=? id then cs !! Z.to_nat (id - 1) else None.

Definition book (w : World) (mint : Pubkey) (b : Book) : Prop :=
  snapshot_log w mint (bk_snapshots b) /\ coupon_log w mint (bk_coupons b).

(** Coupons and roots are found at their canonical addresses only. *)
Definition canonical (w : World) : Prop :=
  (forall k (c : Coupon), stored w k c -> exists mint id, k = coupon_pda mint id) /\
  (forall k (r : SnapshotMerkleRoot), stored w k r -> exists mint id, k = snapshot_root_pda mint id).

(** [authority] signed and has the role for corporate actions on [mint]. *)
Definition corporate_actor (w : World) (signers : list Pubkey) (mint authority : Pubkey) : Prop :=
  authority ∈ signers /\ exists k (r : Roles),
    pda_at (roles_seeds mint authority) ACCESS_CONTROL_PROGRAM_ID k /\ stored w k r /\
    has_role r ROLE_CORPORATE_ACTION.
End book.

Section proofs.
Context `{Rt : SolanaRuntime} `{Laws : !RuntimeLaws}.

Lemma coupon_pda_inj mint mint' id id' :
  coupon_pda mint id = coupon_pda mint' id' -> mint = mint' /\ id = id'.
Proof. intros E. by apply pda_inj in E as [[= -> ->] _]. Qed.

Lemma coupon_counter_pda_inj mint mint' :
  coupon_counter_pda mint = coupon_counter_pda mint' -> mint = mint'.
Proof. intros E. by apply pda_inj in E as [[= ->] _]. Qed.

Lemma coupon_pdas_ne mint mint' id : coupon_counter_pda mint <> coupon_pda mint' id.
Proof. intros E. apply pda_inj in E as [E _]. discriminate E. Qed.

(** The accounts of two programs have different addresses. *)
Lemma pda_programs_ne seeds seeds' program program' k :
  pda_at seeds program k -> program <> program' -> k <> pda seeds' program'.
Proof. intros Hk Hne E. by destruct (pda_at_unique _ _ _ _ _ Hk E). Qed.

#[export] Instance CreateCoupon_try_accounts_inv signers a id :
  OkInv (CreateCoupon_try_accounts signers a id) (fun w r w' =>
    r.1.1.1 = default at_zero (view CouponCounter w (coupon_counter_pda (cc_mint a))) /\
    cc_coupon_counter a = coupon_counter_pda (cc_mint a) /\ cc_coupon a = coupon_pda (cc_mint a) id /\
    cc_snapshot_counter a = snapshot_counter_pda (cc_mint a) /\ cc_authority a ∈ signers /\
    pda_at (roles_seeds (cc_mint a) (cc_authority a)) ACCESS_CONTROL_PROGRAM_ID (cc_authority_roles_pda a) /\
    fresh w (coupon_pda (cc_mint a) id) /\ w_now w' = w_now w /\
    forall j, j <> coupon_counter_pda (cc_mint a) -> j <> coupon_pda (cc_mint a) id ->
      account w' j = account w j).
Proof.
  intros w r w' Hr. unfold CreateCoupon_try_accounts in Hr.
  apply bind_ok in Hr as (? & ? & [_ ->]%ok_inv & Hr). apply bind_ok in Hr as (? & ? & [Hs ->]%ok_inv & Hr).
  apply bind_ok in Hr as (c & ? & [_ ->]%ok_inv & Hr). apply bind_ok in Hr as (? & ? & [_ ->]%ok_inv & Hr).
  apply bind_ok in Hr as (? & ? & [_ ->]%ok_inv & Hr).
  apply bind_ok in Hr as (b1 & ? & (Hkc & _ & ->)%ok_inv & Hr).
  apply bind_ok in Hr as (cnt & w1 & Hc & Hr). apply bind_ok in Hr as (b2 & ? & (Hkk & _ & ->)%ok_inv & Hr).
  apply bind_ok in Hr as (c0 & w2 & Hf & Hr).
  apply init_if_needed_value in Hc as (Ec & Hj1 & Hn1); [|program_ne].
  apply init_fresh in Hf as (Hf & Hj2 & Hn2).
  fold (coupon_counter_pda (cc_mint a)) in Hkc. fold (coupon_pda (cc_mint a) id) in Hkk.
  rewrite Hkc, Hkk in *. inv_ok. simpl. split_and!; try done.
  - unfold fresh, owner_of, data_of in *. rewrite <- Hj1; [exact Hf|].
    apply not_eq_sym, coupon_pdas_ne.
  - congruence.
  - intros j Hx Hy. by rewrite Hj2, Hj1.
Qed.

#[export] Instance step_counter_inv c b :
  OkInv (step_counter c b) (fun w c' w' => w' = w /\ cc_count c' = cc_count c + 1).
Proof.
  intros w c' w' Hr. unfold step_counter in Hr. destruct (cc_count c =? 0) eqn:E; inv_ok; zify_checks;
    split; simpl; try done; lia.
Qed.

#[export] Instance read_snapshot_id_inv k :
  OkInv (read_snapshot_id k) (fun w n w' => w' = w /\
    n = match view SnapshotCounter w k with Some c => sc_count c | None => 0 end).
Proof.
  intros w n w' Hr. unfold read_snapshot_id in Hr. inv_ok. destruct (data_is_empty _) eqn:E; inv_ok.
  - split; [done|]. destruct (view SnapshotCounter _ k) as [c|] eqn:Ev; [|done].
    apply view_Some, stored_data in Ev. rewrite Ev in E. discriminate E.
  - match goal with Hs : stored _ _ _ |- _ => apply view_Some in Hs; by rewrite Hs end.
Qed.

Lemma set_interest_rate_Ok c rate decimals c' :
  set_interest_rate c rate decimals = Ok c' -> is_some rate = is_some decimals /\ c' = with_rate rate decimals c.
Proof. unfold set_interest_rate. destruct (eqb _ _) eqn:E; intros [= <-]. by apply eqb_prop in E. Qed.

(** A coupon is created: the snapshot is taken, the counter steps, the coupon appears. *)
Definition created (a : CreateCoupon) (args : CreateCouponArgs) (w w' : World) (c : Coupon) : Prop :=
  (exists w1 w2, w_now w1 = w_now w /\
    (forall j, j <> coupon_counter_pda (cc_mint a) -> j <> coupon_pda (cc_mint a) (ca_coupon_id args) ->
       account w1 j = account w j) /\
    (exists signers t, ts_mint t = cc_mint a /\ take_snapshot signers t (ca_merkle_root args) w1 = Ok (tt, w2)) /\
    forall j, j <> coupon_counter_pda (cc_mint a) -> j <> coupon_pda (cc_mint a) (ca_coupon_id args) ->
       account w' j = account w2 j) /\
  (exists b, stored w' (coupon_counter_pda (cc_mint a)) (mkCouponCounter b (coupon_count w (cc_mint a) + 1))) /\
  stored w' (coupon_pda (cc_mint a) (ca_coupon_id args)) c /\
  ca_coupon_id args = coupon_count w (cc_mint a) + 1 /\
  c_snapshot_id c = next_snapshot w (cc_mint a) /\
  exists b, c = mkCoupon b (next_snapshot w (cc_mint a)) (ca_period_start_date args)
    (ca_period_end_date args) (ca_payment_date args) (ca_interest_rate_override args)
    (ca_interest_rate_override_decimals args) /\
  c_period_start_date c < c_period_end_date c < c_payment_date c /\
  is_some (c_interest_rate_override c) = is_some (c_interest_rate_override_decimals c).

Lemma create_coupon_created signers a args w w' :
  create_coupon signers a args w = Ok (tt, w') ->
  corporate_actor w signers (cc_mint a) (cc_authority a) /\ exists c, created a args w w' c.
Proof.
  intros Hr. unfold create_coupon in Hr.
  apply bind_ok in Hr as ([[[cnt cb] b2] ab] & w1 & Ht & Hr).
  apply ok_inv in Ht as (Ec & Hkc & Hkk & Hks & Hs & Hk & Hf & Hn & Hj). simpl in Ec.
  apply bind_ok in Hr as ([] & ? & [-> (Hrole & _)]%ok_inv & Hr).
  apply bind_ok in Hr as ([] & ? & [Hd1 ->]%ok_inv & Hr).
  apply bind_ok in Hr as ([] & ? & [Hd2 ->]%ok_inv & Hr).
  apply bind_ok in Hr as (cnt' & ? & [-> Ecnt]%ok_inv & Hr).
  apply bind_ok in Hr as ([] & ? & [Hid ->]%ok_inv & Hr).
  apply bind_ok in Hr as (sid & ? & [-> Esid]%ok_inv & Hr).
  apply bind_ok in Hr as (au & ? & [_ ->]%ok_inv & Hr).
  apply bind_ok in Hr as ([] & w2 & Hsnap & Hr).
  apply bind_ok in Hr as (c & ? & [Hc ->]%ok_inv & Hr). apply set_interest_rate_Ok in Hc as [Hrate ->].
  apply bind_ok in Hr as ([] & ? & ->%ok_inv & Hr).
  apply bind_ok in Hr as ([] & ? & [_ ->]%ok_inv & [_ ->]%ok_inv).
  assert (Ecnt0 : cc_count cnt = coupon_count w (cc_mint a)).
  { unfold coupon_count. rewrite Ec. by destruct (view _ _ _). }
  assert (Esid' : sid = next_snapshot w (cc_mint a)).
  { rewrite Esid, Hks. apply (next_snapshot_account w w1). apply Hj; eapply pda_programs_ne;
      [apply pda_at_pda|program_ne|apply pda_at_pda|program_ne]. }
  pose proof (coupon_pdas_ne (cc_mint a) (cc_mint a) (ca_coupon_id args)) as Hne.
  rewrite Hkc, Hkk in *. zify_checks. split.
  - split; [done|]. destruct Hrole as (r & Hr & Hbit). exists (cc_authority_roles_pda a), r.
    split; [done|]. split; [|done]. unfold stored in *. rewrite <- Hj; [exact Hr| |];
      eapply pda_programs_ne; [exact Hk|program_ne|exact Hk|program_ne].
  - eexists. split; [exists w1, w2; split; [done|split; [exact Hj|split]]|].
    + do 2 eexists. split; [|exact Hsnap]. done.
    + intros j Hx Hy. rewrite !account_set_account_ne by congruence. apply account_add_event.
    + split; [|split; [unfold stored; apply account_set_account_eq|split_and!]]; try done; try lia.
      * exists (cc_bump cnt'). unfold stored.
        rewrite account_set_account_ne, account_set_account_eq by (by apply not_eq_sym).
        rewrite <- Ecnt0, <- Ecnt. by destruct cnt'.
      * exists b2. split; [by rewrite Esid'|done].
Qed.
End proofs.

Section refinement.
Context `{Rt : SolanaRuntime} `{Laws : !RuntimeLaws}.

Lemma snapshot_log_same w w' mint roots :
  (forall k, pda_at (snapshot_counter_seeds mint) SNAPSHOT_PROGRAM_ID k -> account w' k = account w k) ->
  (forall id k, pda_at (snapshot_merkle_root_seeds mint id) SNAPSHOT_PROGRAM_ID k -> account w' k = account w k) ->
  snapshot_log w mint roots -> snapshot_log w' mint roots.
Proof.
  intros Hc Hr [Hn Hl]. split.
  - rewrite (next_snapshot_account w); [done|]. apply Hc, pda_at_pda.
  - intros id H0. rewrite (root_at_account w); [by apply Hl|]. eapply Hr, pda_at_pda.
Qed.

(** Accounts outside the coupon program's own are as they were: the snapshots too. *)
Lemma snapshot_log_coupon_writes w w' mint mint' id roots :
  (forall j, j <> coupon_counter_pda mint' -> j <> coupon_pda mint' id -> account w' j = account w j) ->
  snapshot_log w mint roots -> snapshot_log w' mint roots.
Proof.
  intros Hj. apply snapshot_log_same; intros; apply Hj; eapply pda_programs_ne;
    first [eassumption|program_ne].
Qed.

Lemma created_snapshots a args w w' c mint roots :
  created a args w w' c -> snapshot_log w mint roots ->
  snapshot_log w' mint (if decide (mint = cc_mint a) then roots ++ [ca_merkle_root args] else roots).
Proof.
  intros [(w1 & w2 & _ & Hj1 & (s & t & Et & Hsnap) & Hj2) _] Hl.
  eapply snapshot_log_coupon_writes; [exact Hj2|]. rewrite <- Et. eapply snapshot_log_append; [exact Hsnap|].
  eapply snapshot_log_coupon_writes; [exact Hj1|exact Hl].
Qed.

(** Every account of the coupon program but the two of the call is as it was. *)
Lemma created_others a args w w' c j :
  created a args w w' c -> (exists seeds, pda_at seeds COUPON_PROGRAM_ID j) ->
  j <> coupon_counter_pda (cc_mint a) -> j <> coupon_pda (cc_mint a) (ca_coupon_id args) ->
  account w' j = account w j.
Proof.
  intros [(w1 & w2 & _ & Hj1 & (s & t & Et & Hsnap) & Hj2) _] [seeds Hp] Hx Hy.
  apply ok_inv in Hsnap as (_ & _ & _ & _ & _ & _ & _ & _ & _ & Hj).
  rewrite Hj2, Hj, Hj1 by done || (eapply pda_programs_ne; [exact Hp|program_ne]). reflexivity.
Qed.

Lemma coupon_at_account w w' mint id :
  account w' (coupon_pda mint id) = account w (coupon_pda mint id) ->
  coupon_at w' mint id = coupon_at w mint id.
Proof. intros E. unfold coupon_at. by rewrite (view_account _ _ _ E). Qed.

Lemma coupon_count_account w w' mint :
  account w' (coupon_counter_pda mint) = account w (coupon_counter_pda mint) ->
  coupon_count w' mint = coupon_count w mint.
Proof. intros E. unfold coupon_count. by rewrite (view_account _ _ _ E). Qed.

Lemma created_coupons a args w w' c mint cs :
  created a args w w' c -> coupon_log w mint cs ->
  coupon_log w' mint (if decide (mint = cc_mint a) then cs ++ [c] else cs).
Proof.
  intros Hc [Hn Hl]. pose proof Hc as (_ & [b Hcnt] & Hcoupon & Eid & _).
  assert (Hat : forall m id, m <> cc_mint a \/ id <> ca_coupon_id args -> coupon_at w' m id = coupon_at w m id).
  { intros m id Hne. apply coupon_at_account. eapply created_others; [exact Hc|eexists; apply pda_at_pda| |].
    - apply not_eq_sym, coupon_pdas_ne.
    - intros [-> ->]%coupon_pda_inj. by destruct Hne. }
  case_decide as E; [subst mint|].
  - rewrite Hn in *. split.
    + unfold coupon_count. rewrite (proj2 (view_Some _ _ _) Hcnt), length_app. simpl. lia.
    + intros id. destruct (decide (id = ca_coupon_id args)) as [->|Hne].
      * unfold coupon_at. rewrite (proj2 (view_Some _ _ _) Hcoupon), Eid.
        destruct (Z.leb_spec 1 (Z.of_nat (length cs) + 1)); [|lia].
        by rewrite lookup_app_r, Z.add_simpl_r, Nat2Z.id, Nat.sub_diag by lia.
      * rewrite Hat by auto. rewrite Hl. destruct (Z.leb_spec 1 id); [|done].
        destruct (decide (id - 1 < Z.of_nat (length cs))); [by rewrite lookup_app_l by lia|].
        rewrite !lookup_ge_None_2; [done|rewrite length_app; simpl; lia|lia].
  - split; [|intros id; rewrite Hat by auto; apply Hl].
    rewrite (coupon_count_account w); [done|]. eapply created_others; [exact Hc|eexists; apply pda_at_pda| |].
    + by intros ?%coupon_counter_pda_inj.
    + apply coupon_pdas_ne.
Qed.

(** An account that was created or changed holds a counter, a root or a coupon. *)
Lemma created_account a args w w' c k :
  created a args w w' c ->
  (k = coupon_pda (cc_mint a) (ca_coupon_id args) /\ stored w' k c) \/
  (exists n : CouponCounter, stored w' k n) \/ (exists n : SnapshotCounter, stored w' k n) \/
  (exists i (r : SnapshotMerkleRoot), k = snapshot_root_pda (cc_mint a) i /\ stored w' k r) \/
  account w' k = account w k.
Proof.
  intros [(w1 & w2 & _ & Hj1 & (s & t & Et & Hsnap) & Hj2) ([b Hcnt] & Hst & _)].
  destruct (decide (k = coupon_pda (cc_mint a) (ca_coupon_id args))) as [->|Hne]; [auto|].
  destruct (decide (k = coupon_counter_pda (cc_mint a))) as [->|Hne']; [right; left; eauto|].
  apply ok_inv in Hsnap as (_ & _ & _ & _ & _ & _ & [b1 H1] & [b2 H2] & _ & Hj). rewrite Et in *.
  destruct (decide (k = snapshot_counter_pda (cc_mint a))) as [->|Hs].
  { right; right; left. eexists. unfold stored in *. rewrite Hj2 by done. exact H1. }
  destruct (decide (k = snapshot_root_pda (cc_mint a) (next_snapshot w1 (cc_mint a)))) as [->|Hs'].
  { do 3 right. left. do 2 eexists. split; [done|]. unfold stored in *. rewrite Hj2 by done. exact H2. }
  do 4 right. by rewrite Hj2, Hj, Hj1.
Qed.

Lemma created_canonical a args w w' c : created a args w w' c -> canonical w -> canonical w'.
Proof.
  intros Hc [Hw Hw']. split; intros k x Hk;
    destruct (created_account _ _ _ _ _ k Hc) as [[E Hn]|[[n Hn]|[[n Hn]|[(i & r & E & Hn)|E]]]];
    unfold stored in *;
    try (rewrite Hn in Hk; discriminate Hk); try (rewrite E; by eexists _, _);
    rewrite E in Hk; eauto.
Qed.

(** A new rate: one coupon changes, its rate only. *)
Lemma set_coupon_rate_effect signers a id rate decimals w w' :
  set_coupon_rate signers a id rate decimals w = Ok (tt, w') -> canonical w ->
  corporate_actor w signers (cr_mint a) (cr_authority a) /\ is_some rate = is_some decimals /\
  exists c, coupon_at w (cr_mint a) id = Some c /\
    stored w' (coupon_pda (cr_mint a) id) (with_rate rate decimals c) /\
    forall j, j <> coupon_pda (cr_mint a) id -> account w' j = account w j.
Proof.
  intros Hr Hw. unfold set_coupon_rate, SetCouponRate_try_accounts in Hr. inv_ok.
  rename select (set_interest_rate _ _ _ = _) into Hc. apply set_interest_rate_Ok in Hc as [Hrate ->].
  rename select (operation_allowed _ _ _ _ _ _ _) into Ha. destruct Ha as [(r & Hr & Hbit) _].
  match goal with H : stored _ (cr_coupon a) ?x |- _ => rename x into c; rename H into Hcs end.
  assert (Ek : cr_coupon a = coupon_pda (cr_mint a) id).
  { destruct (proj1 Hw _ _ Hcs) as (m & i & Ek). match goal with H : pda_at (coupon_seeds _ _) _ _ |- _ =>
      destruct (pda_at_unique _ _ _ _ _ H Ek) as [[= E1 E2] _] end. congruence. }
  rewrite Ek in *. split; [|split; [done|exists c; split; [|split]]].
  - split; [done|]. eexists _, r. split_and!; eassumption.
  - by apply view_Some.
  - unfold stored. apply account_set_account_eq.
  - intros j Hj. rewrite account_set_account_ne by congruence. apply account_add_event.
Qed.

Lemma rate_set_coupons w w' mint mint' id c c' cs :
  coupon_at w mint id = Some c -> stored w' (coupon_pda mint id) c' ->
  (forall j, j <> coupon_pda mint id -> account w' j = account w j) -> coupon_log w mint' cs ->
  coupon_log w' mint' (if decide (mint' = mint) then <[Z.to_nat (id - 1) := c']> cs else cs) /\
  (mint' = mint -> 1 <= id /\ cs !! Z.to_nat (id - 1) = Some c).
Proof.
  intros Hc Hs Hj [Hn Hl].
  assert (Hn' : coupon_count w' mint' = coupon_count w mint').
  { apply coupon_count_account, Hj, coupon_pdas_ne. }
  case_decide as E; [subst mint'|].
  - rewrite Hl in Hc. destruct (Z.leb_spec 1 id) as [Hid|]; [|discriminate Hc].
    split; [|done]. split; [by rewrite Hn', length_insert|]. intros i.
    destruct (decide (i = id)) as [->|Hne].
    + unfold coupon_at. rewrite (proj2 (view_Some _ _ _) Hs). destruct (Z.leb_spec 1 id); [|lia].
      by rewrite list_lookup_insert_eq by (eapply lookup_lt_Some; exact Hc).
    + rewrite (coupon_at_account w) by (apply Hj; by intros [_ ?]%coupon_pda_inj).
      rewrite Hl. destruct (Z.leb_spec 1 i); [|done]. rewrite list_lookup_insert_ne; [done|lia].
  - split; [|done]. split; [by rewrite Hn'|]. intros i.
    rewrite (coupon_at_account w) by (apply Hj; by intros [? _]%coupon_pda_inj). apply Hl.
Qed.
End refinement.

(** C16: Every instruction of the coupon program is one transition of the
    book of the mint it is called for, and leaves the book of every other mint as it is: a
    coupon is created with the next number, ordered dates, a consistent rate and the snapshot
    taken by the same call; a new rate changes the rate of one existing coupon.  The caller has
    the role for corporate actions, and a book of well-formed coupons stays one. *)
Theorem coupons_refine_book `{Laws : RuntimeLaws} signers ix w w' mint b :
  canonical w -> book w mint b -> coupon signers ix w = Ok (tt, w') ->
  corporate_actor w signers (book_mint ix) (book_authority ix) /\ canonical w' /\
  exists b', book w' mint b' /\ (book_ok b -> book_ok b') /\
    (mint = book_mint ix -> book_step ix b b') /\ (mint <> book_mint ix -> b' = b).
Proof.
  intros Hw [Hs Hc] Hr. destruct ix as [a args|a id rate decimals]; simpl in *.
  - apply create_coupon_created in Hr as (Ha & c & Hcr). split; [done|].
    split; [by eapply created_canonical|].
    exists (mkBook (if decide (mint = cc_mint a) then bk_snapshots b ++ [ca_merkle_root args] else bk_snapshots b)
      (if decide (mint = cc_mint a) then bk_coupons b ++ [c] else bk_coupons b)).
    split; [split; [by eapply created_snapshots|by eapply created_coupons]|].
    case_decide as E; [|by destruct b]. subst mint.
    assert (Hstep : book_step (IxCreateCoupon a args) b
      (mkBook (bk_snapshots b ++ [ca_merkle_root args]) (bk_coupons b ++ [c]))).
    { destruct Hcr as (_ & _ & _ & Eid & Esid & b0 & -> & Hd & Hrate). simpl in *.
      destruct Hs as [Hn _], Hc as [Hm _]. apply BookCreate; simpl; try done; congruence. }
    split; [|by split]. by apply (book_step_ok _ _ _ Hstep).
  - apply set_coupon_rate_effect in Hr as (Ha & Hrate & c & Hat & Hst & Hj); [|done]. split; [done|].
    destruct (rate_set_coupons _ _ _ mint _ _ _ _ Hat Hst Hj Hc) as [Hlog Hin]. split.
    { destruct Hw as [Hw Hw']. split; intros k x Hk; unfold stored in *;
        destruct (decide (k = coupon_pda (cr_mint a) id)) as [->|Hne].
      - by exists (cr_mint a), id.
      - rewrite Hj in Hk by done. by apply (Hw k x).
      - rewrite Hst in Hk. discriminate Hk.
      - rewrite Hj in Hk by done. by apply (Hw' k x). }
    eexists (mkBook (bk_snapshots b) _). split; [split; [|exact Hlog]|].
    { eapply snapshot_log_coupon_writes; [|exact Hs]. intros j _ Hx. by apply Hj. }
    case_decide as E; [|by destruct b]. destruct (Hin E) as [Hid Hlk].
    pose proof (BookSetRate a id rate decimals b c Hid Hlk Hrate) as Hstep.
    split; [|by split]. by apply (book_step_ok _ _ _ Hstep).
Qed.

(** ** A first coupon of the sample mint *)

Definition coupon_accounts (id snapshot_id : Z) : CreateCoupon := {|
  cc_payer := ADMIN; cc_authority := ADMIN; cc_asset_configuration_pda := SAMPLE_CONFIG;
  cc_deactivate_pda := SAMPLE_DEACTIVATE; cc_mint := MINT;
  cc_coupon_authority := pda (coupon_authority_seeds MINT) COUPON_PROGRAM_ID;
  cc_coupon_counter := coupon_counter_pda MINT; cc_coupon := coupon_pda MINT id;
  cc_snapshot_counter := snapshot_counter_pda MINT;
  cc_snapshot_merkle_root := snapshot_root_pda MINT snapshot_id;
  cc_snapshot_program := SNAPSHOT_PROGRAM_ID; cc_asset_class_version_pda := SAMPLE_VERSION;
  cc_authority_roles_pda := SAMPLE_ROLES |}.

(** A period of 90 days, payable since the sample clock. *)
Definition coupon_args (id : Z) : CreateCouponArgs :=
  mkCreateCouponArgs (-7000000) 776000 900000 id None None (root checksum sample_tree).

Definition coupon_world : World := run_world (create_coupon [ADMIN] (coupon_accounts 1 0) (coupon_args 1)) sample_world.

Lemma coupon_world_ok : create_coupon [ADMIN] (coupon_accounts 1 0) (coupon_args 1) sample_world = Ok (tt, coupon_world).
Proof. apply run_ok. vm_compute. reflexivity. Qed.

Lemma view_none (T : Type) `{AccountType T} w k :
  at_of_data (T:=T) DEmpty = None -> holds_no T w = true -> view T w k = None.
Proof.
  intros He Hw. unfold view. destruct (N.eqb _ _); [|reflexivity]. destruct (at_of_data (data_of w k)) as [t|] eqn:E; [|reflexivity].
  by destruct (holds_no_ok T w k t He Hw).
Qed.

Lemma sample_book : book sample_world MINT (mkBook [] []).
Proof.
  assert (H1 : forall k, view SnapshotCounter sample_world k = None) by (intros; apply view_none; [reflexivity|vm_compute; reflexivity]).
  assert (H2 : forall k, view SnapshotMerkleRoot sample_world k = None) by (intros; apply view_none; [reflexivity|vm_compute; reflexivity]).
  assert (H3 : forall k, view CouponCounter sample_world k = None) by (intros; apply view_none; [reflexivity|vm_compute; reflexivity]).
  assert (H4 : forall k, view Coupon sample_world k = None) by (intros; apply view_none; [reflexivity|vm_compute; reflexivity]).
  split; split.
  - unfold next_snapshot. by rewrite H1.
  - intros id _. unfold root_at. by rewrite H2.
  - unfold coupon_count. by rewrite H3.
  - intros id. unfold coupon_at. rewrite H4. by case_match.
Qed.

Lemma sample_canonical : canonical sample_world.
Proof.
  split; intros k c Hk%view_Some;
    (rewrite view_none in Hk; [discriminate Hk|reflexivity|vm_compute; reflexivity]).
Qed.

Lemma coupons_refine_book_witness :
  exists b', book coupon_world MINT b' /\ (book_ok (mkBook [] []) -> book_ok b') /\
    (MINT = MINT -> book_step (IxCreateCoupon (coupon_accounts 1 0) (coupon_args 1)) (mkBook [] []) b') /\
    (MINT <> MINT -> b' = mkBook [] []).
Proof.
  apply (coupons_refine_book [ADMIN] (IxCreateCoupon (coupon_accounts 1 0) (coupon_args 1)) sample_world
    coupon_world MINT (mkBook [] [])); [exact sample_canonical|exact sample_book|exact coupon_world_ok].
Defined.
