(* ===== verification/Bond.v ===== *)
(** * Bond: the bond program ([programs/bond])

    One instruction, [update_bond_terms], which records the terms coupons are
    computed from. *)

From S2P Require Import Prelude.
From S2P Require Import Bitmask.
From S2P Require Import ProgramIds.
From S2P Require Import Errors.
From S2P Require Import State.
From S2P Require Import Runtime.
From S2P Require Import Anchor.
From S2P Require Import Frame.
From S2P Require Import PdaSeeds.
From S2P Require Import PdaUtils.
From S2P Require Import Common.

Record BondTermsArgs : Set := mkBondTermsArgs {
  ba_interest_rate : Z;
  ba_interest_rate_decimals : Z;
  ba_par_value : Z;
  ba_par_value_decimals : Z;
  ba_minimum_denomination : Z;
  ba_issuance_date : Z;
  ba_day_count_convention : DayCountConvention }.

Record UpdateBondTerms : Set := mkUpdateBondTerms {
  ub_payer : Pubkey;
  ub_authority : Pubkey;
  ub_authority_roles_pda : Pubkey;
  ub_asset_configuration_pda : Pubkey;
  ub_deactivate_pda : Pubkey;
  ub_mint : Pubkey;
  ub_bond_terms : Pubkey;
  ub_asset_class_version_pda : Pubkey }.

Section instructions.
Context `{Rt : SolanaRuntime}.

Definition UpdateBondTerms_try_accounts (signers : list Pubkey) (a : UpdateBondTerms) : M Z :=
  signer signers (ub_payer a);;
  signer signers (ub_authority a);;
  loader_load Roles (ub_authority_roles_pda a);;
  asset_configuration ← account_try_from AssetConfiguration (ub_asset_configuration_pda a);
  loader_load AssetClassVersion (ub_asset_class_version_pda a);;
  bump ← seeds_check (ub_bond_terms a) (bond_terms_seeds (ub_mint a)) BOND_PROGRAM_ID;
  account_init_if_needed BondTerms (ub_payer a) (ub_bond_terms a) signers;;
  roles_constraint (ub_authority_roles_pda a) (ub_mint a) (ub_authority a);;
  asset_configuration_constraint (ub_asset_configuration_pda a) (ub_mint a) asset_configuration;;
  deactivate_constraint (ub_deactivate_pda a) (ub_mint a);;
  asset_class_version_constraint (ub_asset_class_version_pda a) asset_configuration;;
  mret bump.

Definition update_bond_terms (signers : list Pubkey) (a : UpdateBondTerms) (args : BondTermsArgs) : M unit :=
  bump ← UpdateBondTerms_try_accounts signers a;
  operation_guards (ub_authority_roles_pda a) (ub_mint a) (ub_deactivate_pda a)
    (ub_asset_class_version_pda a) ROLE_CORPORATE_ACTION BOND_UPDATE_BOND_TERMS;;
  emit_cpi (EvBond (BondTermsUpdated (ub_mint a) (ub_authority a) (ba_interest_rate args)
    (ba_interest_rate_decimals args) (ba_par_value args) (ba_par_value_decimals args)
    (ba_minimum_denomination args) (ba_issuance_date args) (ba_day_count_convention args)));;
  account_exit (ub_bond_terms a)
    (mkBondTerms bump (ba_interest_rate args) (ba_interest_rate_decimals args) (ba_par_value args)
       (ba_par_value_decimals args) (ba_minimum_denomination args) (ba_issuance_date args)
       (ba_day_count_convention args)).
End instructions.
