(* ===== verification/Payout.v ===== *)
(** * Payout: the amount of a coupon ([treasury/src/instructions/pay_coupon.rs])

    The interest of a period on a balance, computed in [u128] with every step
    checked.  With the rate [R / 10^rd], the par value [P / 10^pd] of a token, the
    balance [B / 10^md] and [pm] decimals of the payment mint, the amount is the
    integer part of
      [R * B * P * elapsed * 10^pm / (days * 86400 * 10^(rd + md + pd))]. *)

From S2P Require Import Prelude.
From S2P Require Import Errors.
From S2P Require Import State.

Definition SECONDS_PER_DAY : Z := 86400.

(** [10u128.checked_pow(n)] *)
Definition checked_pow10 (n : Z) : option Z := checked U128_MAX (10 ^ n).

Definition day_count_days (bond : BondTerms) : Z :=
  match bt_day_count_convention bond with Actual360 => 360 | Actual365 => 365 end.

(** The override of the coupon when it has both parts, the rate of the bond otherwise. *)
Definition effective_rate (coupon : Coupon) (bond : BondTerms) : Z * Z :=
  match c_interest_rate_override coupon, c_interest_rate_override_decimals coupon with
  | Some rate, Some dec => (rate, dec)
  | _, _ => (bt_interest_rate bond, bt_interest_rate_decimals bond)
  end.

Definition overflow {A} (o : option A) : Result Error A := ok_or o (ETreasury TreasuryError.AmountOverflow).

Definition elapsed_seconds (coupon : Coupon) : Result Error Z :=
  match ok_or (checked_sub_i64 (c_period_end_date coupon) (c_period_start_date coupon))
          (ETreasury TreasuryError.NegativeElapsedTime) with
  | Ok elapsed => if 0 <? elapsed then Ok elapsed else Err (ETreasury TreasuryError.NegativeElapsedTime)
  | Err e => Err e
  end.

(** The numerator and denominator before the decimals, then the scaling by the power of ten. *)
Definition numerator (rate balance par elapsed : Z) : option Z :=
  v ← checked_mul_u128 rate balance; v ← checked_mul_u128 v par; checked_mul_u128 v elapsed.

Definition scaled (num den net_power : Z) : option (Z * Z) :=
  if 0 <=? net_power then
    mul ← checked_pow10 net_power; num ← checked_mul_u128 num mul; Some (num, den)
  else
    div ← checked_pow10 (- net_power); den ← checked_mul_u128 den div; Some (num, den).

(** [(num / den).try_into::<u64>()] *)
Definition quotient_u64 (num den : Z) : option Z := checked U64_MAX (num / den).

Definition coupon_amount (coupon : Coupon) (bond : BondTerms) (bond_mint_dec payment_mint_dec balance : Z) :
    Result Error Z :=
  match elapsed_seconds coupon with
  | Err e => Err e
  | Ok elapsed =>
      let '(rate, rate_dec) := effective_rate coupon bond in
      let net_power := payment_mint_dec - (rate_dec + bond_mint_dec + bt_par_value_decimals bond) in
      overflow (
        num ← numerator rate balance (bt_par_value bond) elapsed;
        den ← checked_mul_u128 (day_count_days bond) SECONDS_PER_DAY;
        '(num, den) ← scaled num den net_power;
        quotient_u64 num den)
  end.

(** ** The exact interest *)

(** The interest of [coupon] on [balance], a fraction of the smallest unit of the payment mint. *)
Definition interest_num (coupon : Coupon) (bond : BondTerms) (payment_mint_dec balance : Z) : Z :=
  (effective_rate coupon bond).1 * balance * bt_par_value bond *
    (c_period_end_date coupon - c_period_start_date coupon) * 10 ^ payment_mint_dec.
Definition interest_den (coupon : Coupon) (bond : BondTerms) (bond_mint_dec : Z) : Z :=
  day_count_days bond * SECONDS_PER_DAY *
    10 ^ ((effective_rate coupon bond).2 + bond_mint_dec + bt_par_value_decimals bond).

Definition interest (coupon : Coupon) (bond : BondTerms) (bond_mint_dec payment_mint_dec balance : Z) : Z :=
  interest_num coupon bond payment_mint_dec balance / interest_den coupon bond bond_mint_dec.

(** The fields are [u64] and [u8], as the types of the source say. *)
Record payout_args_ok (coupon : Coupon) (bond : BondTerms) (bond_mint_dec payment_mint_dec balance : Z) : Prop := {
  pa_rate : u64_ok (effective_rate coupon bond).1 /\ u8_ok (effective_rate coupon bond).2;
  pa_par : u64_ok (bt_par_value bond) /\ u8_ok (bt_par_value_decimals bond);
  pa_decs : u8_ok bond_mint_dec /\ u8_ok payment_mint_dec;
  pa_balance : u64_ok balance }.

(** What the [u128] computation has room for: the numerator and the powers of ten. *)
Definition fits (coupon : Coupon) (bond : BondTerms) (bond_mint_dec payment_mint_dec balance : Z) : Prop :=
  let net := payment_mint_dec -
    ((effective_rate coupon bond).2 + bond_mint_dec + bt_par_value_decimals bond) in
  let product := (effective_rate coupon bond).1 * balance * bt_par_value bond *
    (c_period_end_date coupon - c_period_start_date coupon) in
  product <= U128_MAX /\ 10 ^ Z.max 0 net <= U128_MAX /\ product * 10 ^ Z.max 0 net <= U128_MAX /\
  day_count_days bond * SECONDS_PER_DAY * 10 ^ Z.max 0 (- net) <= U128_MAX /\
  interest coupon bond bond_mint_dec payment_mint_dec balance <= U64_MAX.

#[export] Instance fits_dec coupon bond md pm b : Decision (fits coupon bond md pm b).
Proof. unfold fits. apply _. Defined.

Lemma elapsed_seconds_spec coupon :
  elapsed_seconds coupon =
    let e := c_period_end_date coupon - c_period_start_date coupon in
    if (0 <? e) && (e <=? I64_MAX) then Ok e else Err (ETreasury TreasuryError.NegativeElapsedTime).
Proof.
  unfold elapsed_seconds, checked_sub_i64. cbv zeta.
  set (e := c_period_end_date coupon - c_period_start_date coupon).
  destruct (Z.ltb_spec 0 e), (Z.leb_spec e I64_MAX), (Z.leb_spec I64_MIN e); simpl; try done;
    unfold I64_MIN in *; try lia; by destruct (Z.ltb_spec 0 e); try lia.
Qed.

Lemma checked_mul_u128_spec x y :
  0 <= x -> 0 <= y -> checked_mul_u128 x y = if x * y <=? U128_MAX then Some (x * y) else None.
Proof.
  intros Hx Hy. unfold checked_mul_u128, checked. destruct (Z.leb_spec 0 (x * y)); [done|nia].
Qed.

Lemma mul_le_cancel x y m : 0 <= x -> 1 <= y -> x * y <= m -> x <= m.
Proof. nia. Qed.

Lemma numerator_spec rate balance par elapsed :
  u64_ok rate -> u64_ok balance -> 0 <= par -> 1 <= elapsed ->
  numerator rate balance par elapsed =
    if rate * balance * par * elapsed <=? U128_MAX then Some (rate * balance * par * elapsed) else None.
Proof.
  unfold u64_ok, U64_MAX. intros Hr Hb Hp He. unfold numerator.
  assert (H1 : 0 <= rate * balance) by nia.
  assert (H1' : rate * balance <= U128_MAX) by (unfold U128_MAX; nia).
  assert (H2 : 0 <= rate * balance * par) by nia.
  rewrite checked_mul_u128_spec by lia. destruct (Z.leb_spec (rate * balance) U128_MAX); [|lia]. simpl.
  rewrite checked_mul_u128_spec by lia. destruct (Z.leb_spec (rate * balance * par) U128_MAX); simpl.
  - rewrite checked_mul_u128_spec by lia. done.
  - destruct (Z.leb_spec (rate * balance * par * elapsed) U128_MAX) as [Hle|]; [|done].
    apply mul_le_cancel in Hle; lia.
Qed.

Lemma pow10_pos n : 0 <= n -> 1 <= 10 ^ n.
Proof. intros Hn. pose proof (Z.pow_pos_nonneg 10 n). lia. Qed.

Lemma checked_pow10_spec n :
  0 <= n -> checked_pow10 n = if 10 ^ n <=? U128_MAX then Some (10 ^ n) else None.
Proof.
  intros Hn. pose proof (pow10_pos n Hn). unfold checked_pow10, checked.
  destruct (Z.leb_spec 0 (10 ^ n)); [done|lia].
Qed.

(** Scaling by the net power of ten: one side grows, the other one is left. *)
Lemma scaled_spec num den net :
  0 <= num <= U128_MAX -> 0 <= den <= U128_MAX ->
  scaled num den net =
    if decide (10 ^ Z.max 0 net <= U128_MAX /\ num * 10 ^ Z.max 0 net <= U128_MAX /\
               den * 10 ^ Z.max 0 (- net) <= U128_MAX /\ 10 ^ Z.max 0 (- net) <= U128_MAX)
    then Some (num * 10 ^ Z.max 0 net, den * 10 ^ Z.max 0 (- net)) else None.
Proof.
  intros Hn Hd. unfold scaled. destruct (Z.leb_spec 0 net).
  - rewrite (Z.max_r 0 net), (Z.max_l 0 (- net)), Z.pow_0_r, Z.mul_1_r by lia.
    pose proof (pow10_pos net H). rewrite checked_pow10_spec by done.
    destruct (Z.leb_spec (10 ^ net) U128_MAX); simpl.
    + rewrite checked_mul_u128_spec by lia. destruct (Z.leb_spec (num * 10 ^ net) U128_MAX); simpl;
        case_decide as Hc; try done; [destruct Hc; split_and!; solve [lia | unfold U128_MAX; lia]|lia].
    + case_decide; [lia|done].
  - rewrite (Z.max_l 0 net), (Z.max_r 0 (- net)), Z.pow_0_r, Z.mul_1_r by lia.
    pose proof (pow10_pos (- net) ltac:(lia)). rewrite checked_pow10_spec by lia.
    destruct (Z.leb_spec (10 ^ (- net)) U128_MAX); simpl.
    + rewrite checked_mul_u128_spec by lia. destruct (Z.leb_spec (den * 10 ^ (- net)) U128_MAX); simpl;
        case_decide as Hc; try done; [destruct Hc; split_and!; solve [lia | unfold U128_MAX; lia]|lia].
    + case_decide; [lia|done].
Qed.

Lemma day_count_pos bond : 0 < day_count_days bond * SECONDS_PER_DAY <= 31536000.
Proof. unfold day_count_days, SECONDS_PER_DAY. destruct (bt_day_count_convention bond); lia. Qed.

(** The net power of ten moves to the side where it is positive; the quotient is the same. *)
Lemma net_power_quotient p d pm s :
  0 <= pm -> 0 <= s -> 0 < d ->
  p * 10 ^ Z.max 0 (pm - s) / (d * 10 ^ Z.max 0 (- (pm - s))) = p * 10 ^ pm / (d * 10 ^ s).
Proof.
  intros Hpm Hs Hd. destruct (Z.le_ge_cases s pm).
  - rewrite (Z.max_r 0 (pm - s)), (Z.max_l 0 (- (pm - s))), Z.pow_0_r, Z.mul_1_r by lia.
    replace (10 ^ pm) with (10 ^ (pm - s) * 10 ^ s) by (rewrite <- Z.pow_add_r by lia; f_equal; lia).
    pose proof (pow10_pos s Hs). rewrite Z.mul_assoc, Z.div_mul_cancel_r by lia. done.
  - rewrite (Z.max_l 0 (pm - s)), (Z.max_r 0 (- (pm - s))), Z.pow_0_r, Z.mul_1_r by lia.
    replace (10 ^ s) with (10 ^ (- (pm - s)) * 10 ^ pm) by (rewrite <- Z.pow_add_r by lia; f_equal; lia).
    pose proof (pow10_pos pm Hpm). pose proof (pow10_pos (- (pm - s)) ltac:(lia)).
    rewrite Z.mul_assoc, Z.div_mul_cancel_r by nia. done.
Qed.

Section spec.
Context (c : Coupon) (b : BondTerms) (md pm bal : Z) (Hok : payout_args_ok c b md pm bal).

Lemma interest_nonneg :
  0 < c_period_end_date c - c_period_start_date c -> 0 <= interest c b md pm bal.
Proof.
  intros He. destruct Hok as [[Hr _] [Hp _] _ Hb]. unfold u64_ok in *.
  unfold interest, interest_num, interest_den. pose proof (day_count_pos b).
  apply Z.div_pos; [|apply Z.mul_pos_pos; [lia|]].
  - repeat apply Z.mul_nonneg_nonneg; try lia.
  - apply Z.pow_pos_nonneg; [lia|]. destruct Hok as [[_ ?] [_ ?] [? ?] _]. unfold u8_ok in *. lia.
Qed.

Lemma coupon_amount_spec :
  coupon_amount c b md pm bal =
    let e := c_period_end_date c - c_period_start_date c in
    if (0 <? e) && (e <=? I64_MAX) then
      if decide (fits c b md pm bal) then Ok (interest c b md pm bal)
      else Err (ETreasury TreasuryError.AmountOverflow)
    else Err (ETreasury TreasuryError.NegativeElapsedTime).
Proof.
  cbv zeta. unfold coupon_amount. rewrite elapsed_seconds_spec. cbv zeta.
  destruct (_ && _) eqn:He; [|done]. apply andb_true_iff in He as [He _]. apply Z.ltb_lt in He.
  pose proof (interest_nonneg He) as Hin. pose proof (day_count_pos b) as Hday. revert Hin.
  generalize (fits_dec c b md pm bal). intros D. revert D.
  destruct Hok as [[Hr Hrd] [Hp Hpd] [Hmd Hpm] Hb].
  unfold fits, interest, interest_num, interest_den. destruct (effective_rate c b) as [rate rd]. simpl in *.
  set (e := c_period_end_date c - c_period_start_date c) in *.
  set (s := rd + md + bt_par_value_decimals b). set (d := day_count_days b * SECONDS_PER_DAY) in *.
  unfold u8_ok, u64_ok in *. intros D Hin.
  assert (H0 : 0 <= rate * bal * bt_par_value b * e) by (repeat apply Z.mul_nonneg_nonneg; lia).
  revert D Hin. rewrite <- (net_power_quotient _ d pm s) by lia. intros D Hin.
  assert (Hnum : numerator rate bal (bt_par_value b) e =
    if rate * bal * bt_par_value b * e <=? U128_MAX then Some (rate * bal * bt_par_value b * e) else None).
  { apply numerator_spec; unfold u64_ok; lia. }
  assert (Hden : checked_mul_u128 (day_count_days b) SECONDS_PER_DAY = Some d).
  { apply checked_Some. split; [done|]. unfold d, U128_MAX in *. lia. }
  rewrite Hnum, Hden. destruct (Z.leb_spec (rate * bal * bt_par_value b * e) U128_MAX) as [Hle|Hgt]; simpl.
  2:{ rewrite decide_False; [done|]. intros [? _]. lia. }
  rewrite scaled_spec by (split; [lia|]; first [exact Hle|unfold U128_MAX; lia]).
  pose proof (pow10_pos (Z.max 0 (- (pm - s))) ltac:(lia)) as Hpow.
  case_decide as Hfit; simpl.
  - unfold quotient_u64, overflow, ok_or. destruct Hfit as (F1 & F2 & F3 & _).
    destruct (checked U64_MAX _) as [q|] eqn:E.
    + apply checked_Some in E as [-> [_ E]]. by rewrite decide_True.
    + apply checked_None in E. rewrite decide_False; [done|]. intros (_ & _ & _ & _ & ?). lia.
  - rewrite decide_False; [done|]. intros (_ & F1 & F2 & F3 & _). destruct Hfit. split_and!; try done.
    nia.
Qed.
End spec.

Section total.
Context (c : Coupon) (b : BondTerms) (md pm : Z).

Definition total (ns : list Z) : Z := foldr Z.add 0 ns.

Lemma interest_num_add x y :
  interest_num c b pm (x + y) = interest_num c b pm x + interest_num c b pm y.
Proof. unfold interest_num. lia. Qed.

(** The integer part of a sum: at most one unit more than the sum of the parts. *)
Lemma div_add_bounds x y d : 0 < d -> x / d + y / d <= (x + y) / d <= x / d + y / d + 1.
Proof.
  intros Hd. pose proof (Z.div_mod x d ltac:(lia)). pose proof (Z.div_mod y d ltac:(lia)).
  pose proof (Z.mod_pos_bound x d Hd). pose proof (Z.mod_pos_bound y d Hd).
  split; [apply Z.div_le_lower_bound; lia|].
  apply Z.lt_succ_r, Z.div_lt_upper_bound; lia.
Qed.

Lemma interest_den_pos bal : payout_args_ok c b md pm bal -> 0 < interest_den c b md.
Proof.
  intros [[_ ?] [_ ?] [? _] _]. unfold u8_ok in *. unfold interest_den.
  pose proof (day_count_pos b). apply Z.mul_pos_pos; [lia|]. apply Z.pow_pos_nonneg; lia.
Qed.

Lemma interest_total bals :
  0 < interest_den c b md ->
  total (interest c b md pm <$> bals) <= interest c b md pm (total bals)
    <= total (interest c b md pm <$> bals) + Z.max 0 (Z.of_nat (length bals) - 1).
Proof.
  intros Hd. induction bals as [|x bals IH]; cbn [total foldr fmap list_fmap].
  - assert (E : interest_num c b pm 0 = 0) by (unfold interest_num; lia).
    unfold interest. rewrite E, Z.div_0_l by lia. simpl. lia.
  - fold (total bals). fold (total (interest c b md pm <$> bals)). destruct bals as [|y bals].
    + cbn [total foldr fmap list_fmap length]. rewrite !Z.add_0_r. lia.
    + pose proof (div_add_bounds (interest_num c b pm x) (interest_num c b pm (total (y :: bals))) _ Hd) as Hb.
      rewrite <- interest_num_add in Hb. fold (interest c b md pm x) in Hb.
      fold (interest c b md pm (total (y :: bals))) (interest c b md pm (x + total (y :: bals))) in Hb.
      cbn [length] in *. unfold fmap in *. lia.
Qed.

Lemma payouts_are_interests bals amounts :
  Forall (payout_args_ok c b md pm) bals ->
  (fun bal => coupon_amount c b md pm bal) <$> bals = Ok <$> amounts ->
  amounts = interest c b md pm <$> bals.
Proof.
  revert amounts. induction bals as [|x bals IH]; intros [|y amounts] Hok E; try discriminate E; [done|].
  inversion_clear Hok as [|? ? Hx Hxs]. cbn in E. injection E as Ex E. rewrite (IH amounts Hxs E).
  rewrite coupon_amount_spec in Ex by done. cbv zeta in Ex.
  destruct (_ && _); [|done]. case_decide; [|done]. by injection Ex as <-.
Qed.
End total.

(** C15: The amount of a coupon is the integer part of the
    exact interest [R * B * P * elapsed * 10^pm / (days * 86400 * 10^(rd + md + pd))], whatever
    the decimals, whenever the [u128] numerator, the powers of ten and the [u64] result fit;
    otherwise the computation fails with [AmountOverflow], and with [NegativeElapsedTime] when
    the period is empty or longer than an [i64]. *)
Theorem coupon_amount_is_the_interest c b md pm bal :
  payout_args_ok c b md pm bal ->
  coupon_amount c b md pm bal =
    let e := c_period_end_date c - c_period_start_date c in
    if (0 <? e) && (e <=? I64_MAX) then
      if decide (fits c b md pm bal) then Ok (interest c b md pm bal)
      else Err (ETreasury TreasuryError.AmountOverflow)
    else Err (ETreasury TreasuryError.NegativeElapsedTime).
Proof. apply coupon_amount_spec. Qed.

(** C33: Paid to its holders one by one, a coupon never costs
    the treasury more than the interest on the sum of their balances, and rounding keeps less
    than one smallest unit of the payment mint per holder. *)
Theorem payouts_round_down c b md pm bals amounts :
  bals <> [] -> Forall (payout_args_ok c b md pm) bals ->
  (fun bal => coupon_amount c b md pm bal) <$> bals = Ok <$> amounts ->
  total amounts <= interest c b md pm (total bals) < total amounts + Z.of_nat (length bals).
Proof.
  intros Hne Hok E. rewrite (payouts_are_interests _ _ _ _ _ _ Hok E).
  destruct bals as [|x bals]; [done|].
  pose proof (interest_total c b md pm (x :: bals)) as Ht. simpl length in *.
  inversion Hok as [|? ? Hx]; subst. specialize (Ht (interest_den_pos _ _ _ _ _ Hx)). lia.
Qed.

(** ** A bond of par 1000.00 paying 5% *)

Definition sample_terms : BondTerms := mkBondTerms 255 5 2 100000 2 1 0 Actual360.
Definition sample_coupon : Coupon := mkCoupon 255 0 (-7000000) 776000 900000 None None.

Lemma sample_args bal : u64_ok bal -> payout_args_ok sample_coupon sample_terms 2 6 bal.
Proof. intros Hb. split; cbn; unfold u64_ok, u8_ok, U8_MAX, U64_MAX in *; lia. Qed.

Example sample_interest : interest sample_coupon sample_terms 2 6 20 = 2500000.
Proof. vm_compute. reflexivity. Qed.

Lemma coupon_amount_is_the_interest_witness :
  coupon_amount sample_coupon sample_terms 2 6 20 = Ok 2500000.
Proof.
  rewrite (coupon_amount_is_the_interest sample_coupon sample_terms 2 6 20).
  - vm_compute. reflexivity.
  - apply sample_args. unfold u64_ok, U64_MAX. lia.
Defined.

Lemma payouts_round_down_witness :
  total [1250000; 2500000; 3750000] <= interest sample_coupon sample_terms 2 6 (total [10; 20; 30])
    < total [1250000; 2500000; 3750000] + 3.
Proof.
  apply (payouts_round_down sample_coupon sample_terms 2 6 [10; 20; 30] [1250000; 2500000; 3750000]).
  - discriminate.
  - rewrite !Forall_cons. split_and!; try apply sample_args; [unfold u64_ok, U64_MAX; lia..|constructor].
  - vm_compute. reflexivity.
Defined.
