(* ===== verification/TokenInterface.v ===== *)
(** * TokenInterface: transfers through either token program

    [token_interface::transfer_checked] calls the classic token program or
    Token-2022.  Neither is part of the repository: the call is the operation of
    the class [TokenInterface], and what the treasury relies on is
    [TokenInterfaceLaws].  A Token-2022 mint may withhold a fee from what the
    destination receives; the source always pays the whole amount.  The laws do not
    say that the authority owns the source (it may be a delegate): whose funds move
    is decided by the constraints of the caller.  The call passes
    the four accounts only: Token-2022 refuses a mint with a transfer hook, whose
    program is not among them. *)

From S2P Require Import Prelude.
From S2P Require Import ProgramIds.
From S2P Require Import Errors.
From S2P Require Import State.
From S2P Require Import Runtime.
From S2P Require Import Anchor.
From S2P Require Import Token.

Record InterfaceTransfer : Set := mkInterfaceTransfer {
  it_program : Pubkey;
  it_from : Pubkey;
  it_mint : Pubkey;
  it_to : Pubkey;
  it_authority : Pubkey }.

Class TokenInterface : Type := {
  (** [interface_transfer_checked accounts amount decimals signers] *)
  interface_transfer_checked : InterfaceTransfer -> Z -> Z -> list Pubkey -> M unit }.

Definition put_interface_token (program k : Pubkey) (t : TokenState) (w : World) : World :=
  set_account k (mkAccount program (DToken t)) w.

Class TokenInterfaceLaws {Ti : TokenInterface} : Prop := {
  interface_transfer_ok ix n decimals signers w w' :
    interface_transfer_checked ix n decimals signers w = Ok (tt, w') ->
    exists s d m,
      account w (it_from ix) = mkAccount (it_program ix) (DToken s) /\
      account w (it_to ix) = mkAccount (it_program ix) (DToken d) /\
      account w (it_mint ix) = mkAccount (it_program ix) (DMint m) /\
      is_token_program (it_program ix) = true /\ t_mint s = it_mint ix /\ t_mint d = it_mint ix /\
      m_decimals m = decimals /\ it_authority ix ∈ signers /\ 0 <= n <= t_amount s /\
      w_now w' = w_now w /\
      (forall k, k <> it_from ix -> k <> it_to ix -> account w' k = account w k) /\
      if N.eqb (it_from ix) (it_to ix) then account w' (it_from ix) = account w (it_from ix) else
      m_transfer_hook m = None /\ exists received, 0 <= received <= n /\
        (it_program ix = TOKEN_PROGRAM_ID -> received = n) /\
        account w' (it_from ix) = mkAccount (it_program ix) (DToken (with_amount (t_amount s - n) s)) /\
        account w' (it_to ix) = mkAccount (it_program ix) (DToken (with_amount (t_amount d + received) d)) }.

(** ** A reference implementation: no fee *)

Definition get_interface_token (program k : Pubkey) : M TokenState :=
  t ← interface_token k;
  require (N.eqb t.2 program) (ERuntime InvalidAccountData);;
  mret t.1.

Definition ref_interface_transfer (ix : InterfaceTransfer) (n decimals : Z) (signers : list Pubkey) : M unit :=
  s ← get_interface_token (it_program ix) (it_from ix);
  d ← get_interface_token (it_program ix) (it_to ix);
  m ← interface_mint (it_mint ix);
  require (N.eqb m.2 (it_program ix)) (ERuntime InvalidAccountData);;
  require (N.eqb (t_mint s) (it_mint ix) && N.eqb (t_mint d) (it_mint ix)) (external 3);;
  require (m_decimals m.1 =? decimals) (external 18);;
  require (bool_decide (it_authority ix ∈ signers)) (ERuntime MissingRequiredSignature);;
  require ((0 <=? n) && (n <=? t_amount s)) (external 1);;
  if N.eqb (it_from ix) (it_to ix) then mret tt else
  require (t_amount d + n <=? U64_MAX) (external 14);;
  require (bool_decide (m_transfer_hook m.1 = None)) (external 0);;
  modify (fun w => put_interface_token (it_program ix) (it_to ix) (with_amount (t_amount d + n) d)
    (put_interface_token (it_program ix) (it_from ix) (with_amount (t_amount s - n) s) w)).

#[export] Instance reference_interface : TokenInterface := {|
  interface_transfer_checked := ref_interface_transfer |}.

#[export] Instance get_interface_token_inv p k :
  OkInv (get_interface_token p k) (fun w t w' =>
    account w k = mkAccount p (DToken t) /\ is_token_program p = true /\ w' = w).
Proof. intros w t w' Hr. unfold get_interface_token in Hr. inv_ok. zify_checks. done. Qed.

#[export] Instance reference_interface_laws : TokenInterfaceLaws.
Proof.
  split; cbn [interface_transfer_checked reference_interface]. intros * Hr.
  unfold ref_interface_transfer in Hr. inv_ok. zify_checks. simpl in *. subst.
  eexists _, _, _. do 9 (split; [eassumption || done || (split; assumption)|]).
  destruct (N.eqb _ _) eqn:E; inv_ok; zify_checks; [by split_and!|].
  split; [done|]. split.
  - intros k Hx Hy. unfold put_interface_token. by rewrite !account_set_account_ne by congruence.
  - split; [done|]. exists n. unfold put_interface_token. split; [done|]. split; [done|].
    rewrite account_set_account_ne, !account_set_account_eq by congruence. done.
Qed.
