(* ===== verification/Treasury.v ===== *)
(** * Treasury: the treasury program ([programs/treasury])

    [set_payment_token] chooses the mint coupons are paid in; [pay_coupon] pays
    the interest of a coupon to one holder of the snapshot of the coupon, once.
    The bytes of an account are the business of the Borsh crate: the only ones
    the program reads itself are those of the coupon counter
    ([Layout.BorshLayout]). *)

From S2P Require Import Prelude.
From S2P Require Import Merkle.
From S2P Require Import Layout.
From S2P Require Import Bitmask.
From S2P Require Import ProgramIds.
From S2P Require Import Errors.
From S2P Require Import State.
From S2P Require Import Runtime.
From S2P Require Import Anchor.
From S2P Require Import Frame.
From S2P Require Import PdaSeeds.
From S2P Require Import PdaUtils.
From S2P Require Import Common.
From S2P Require Import Payout.
From S2P Require Import Token.
From S2P Require Import TokenInterface.

Record SetPaymentToken : Set := mkSetPaymentToken {
  sp_payer : Pubkey;
  sp_authority : Pubkey;
  sp_asset_configuration_pda : Pubkey;
  sp_deactivate_pda : Pubkey;
  sp_mint : Pubkey;
  sp_treasury_config : Pubkey;
  sp_coupon_counter : Pubkey;
  sp_payment_mint : Pubkey;
  sp_asset_class_version_pda : Pubkey;
  sp_authority_roles_pda : Pubkey }.

Record PayCoupon : Set := mkPayCoupon {
  pc_payer : Pubkey;
  pc_authority : Pubkey;
  pc_asset_configuration_pda : Pubkey;
  pc_deactivate_pda : Pubkey;
  pc_mint : Pubkey;
  pc_treasury_config : Pubkey;
  pc_treasury_authority : Pubkey;
  pc_payment_mint : Pubkey;
  pc_treasury_token_account : Pubkey;
  pc_holder_payment_account : Pubkey;
  pc_bond_terms : Pubkey;
  pc_coupon : Pubkey;
  pc_snapshot_merkle_root : Pubkey;
  pc_coupon_paid : Pubkey;
  pc_asset_class_version_pda : Pubkey;
  pc_token_program : Pubkey;
  pc_authority_roles_pda : Pubkey }.

Definition pc_transfer (a : PayCoupon) : InterfaceTransfer := {|
  it_program := pc_token_program a;
  it_from := pc_treasury_token_account a;
  it_mint := pc_payment_mint a;
  it_to := pc_holder_payment_account a;
  it_authority := pc_treasury_authority a |}.

(** The accounts [pay_coupon] reads, deserialised, and the bumps it uses. *)
Record PayCouponAccounts : Set := mkPayCouponAccounts {
  pd_mint : MintState;
  pd_treasury_config : TreasuryConfig;
  pd_bond_terms : BondTerms;
  pd_coupon : Coupon;
  pd_snapshot_merkle_root : SnapshotMerkleRoot;
  pd_coupon_paid_bump : Z;
  pd_authority_bump : Z }.

Section instructions.
Context `{Rt : SolanaRuntime} `{Ti : TokenInterface} `{Bl : BorshLayout}.
Context (hashv : list (list Z) -> Hash).

Definition SetPaymentToken_try_accounts (signers : list Pubkey) (a : SetPaymentToken) :
    M (TreasuryConfig * Z * MintState) :=
  signer signers (sp_payer a);;
  signer signers (sp_authority a);;
  asset_configuration ← account_try_from AssetConfiguration (sp_asset_configuration_pda a);
  payment_mint ← interface_mint (sp_payment_mint a);
  loader_load AssetClassVersion (sp_asset_class_version_pda a);;
  loader_load Roles (sp_authority_roles_pda a);;
  bump ← seeds_check (sp_treasury_config a) (treasury_config_seeds (sp_mint a)) TREASURY_PROGRAM_ID;
  cfg ← account_init_if_needed TreasuryConfig (sp_payer a) (sp_treasury_config a) signers;
  asset_configuration_constraint (sp_asset_configuration_pda a) (sp_mint a) asset_configuration;;
  deactivate_constraint (sp_deactivate_pda a) (sp_mint a);;
  seeds_check (sp_coupon_counter a) (coupon_counter_seeds (sp_mint a)) COUPON_PROGRAM_ID;;
  asset_class_version_constraint (sp_asset_class_version_pda a) asset_configuration;;
  roles_constraint (sp_authority_roles_pda a) (sp_mint a) (sp_authority a);;
  mret (cfg, bump, payment_mint.1).

(** The claims guard: the count is read from bytes 9 to 17 of the counter, when it has them. *)
Definition claims_guard (coupon_counter : Pubkey) (locked_id : Z) : M unit :=
  if locked_id =? 0 then mret tt else
  w ← get;
  let counter_data := account_bytes (data_of w coupon_counter) in
  if (length counter_data <? 17)%nat then mret tt else
  let current_count := of_le_bytes (take 8 (drop 9 counter_data)) in
  require (locked_id <? current_count) (ETreasury TreasuryError.ClaimsInProgress).

Definition set_payment_token (signers : list Pubkey) (a : SetPaymentToken) : M unit :=
  '(cfg, bump, payment_mint) ← SetPaymentToken_try_accounts signers a;
  operation_guards (sp_authority_roles_pda a) (sp_mint a) (sp_deactivate_pda a)
    (sp_asset_class_version_pda a) ROLE_TREASURER TREASURY_SET_PAYMENT_TOKEN;;
  claims_guard (sp_coupon_counter a) (tc_locked_for_coupon_id cfg);;
  emit_cpi (EvTreasury (PaymentTokenSet (sp_mint a) (sp_payment_mint a)));;
  account_exit (sp_treasury_config a)
    (mkTreasuryConfig bump (sp_payment_mint a) (m_decimals payment_mint) (tc_locked_for_coupon_id cfg)).

Definition PayCoupon_try_accounts (signers : list Pubkey) (a : PayCoupon) (coupon_id : Z) (account : Pubkey) :
    M PayCouponAccounts :=
  signer signers (pc_payer a);;
  signer signers (pc_authority a);;
  asset_configuration ← account_try_from AssetConfiguration (pc_asset_configuration_pda a);
  mint ← interface_mint (pc_mint a);
  cfg ← account_try_from TreasuryConfig (pc_treasury_config a);
  payment_mint ← interface_mint (pc_payment_mint a);
  treasury_token_account ← interface_token (pc_treasury_token_account a);
  holder_payment_account ← interface_token (pc_holder_payment_account a);
  bond_terms ← account_try_from BondTerms (pc_bond_terms a);
  coupon ← account_try_from Coupon (pc_coupon a);
  snapshot_merkle_root ← account_try_from SnapshotMerkleRoot (pc_snapshot_merkle_root a);
  loader_load AssetClassVersion (pc_asset_class_version_pda a);;
  require (is_token_program (pc_token_program a)) (EAnchor InvalidProgramId);;
  loader_load Roles (pc_authority_roles_pda a);;
  coupon_paid_bump ← seeds_check (pc_coupon_paid a) (coupon_paid_seeds (pc_mint a) coupon_id account)
    TREASURY_PROGRAM_ID;
  account_init CouponPaidMarker (pc_payer a) (pc_coupon_paid a) signers;;
  asset_configuration_constraint (pc_asset_configuration_pda a) (pc_mint a) asset_configuration;;
  deactivate_constraint (pc_deactivate_pda a) (pc_mint a);;
  seeds_bump_check (pc_treasury_config a) (treasury_config_seeds (pc_mint a)) TREASURY_PROGRAM_ID (tc_bump cfg);;
  authority_bump ← seeds_check (pc_treasury_authority a) (treasury_authority_seeds (pc_mint a)) TREASURY_PROGRAM_ID;
  check_address (pc_payment_mint a) (tc_payment_mint cfg);;
  mint_constraint payment_mint (pc_token_program a);;
  token_constraint treasury_token_account (pc_payment_mint a) (Some (pc_treasury_authority a)) (pc_token_program a);;
  token_constraint holder_payment_account (pc_payment_mint a) None (pc_token_program a);;
  seeds_bump_check (pc_bond_terms a) (bond_terms_seeds (pc_mint a)) BOND_PROGRAM_ID (bt_bump bond_terms);;
  seeds_bump_check (pc_coupon a) (coupon_seeds (pc_mint a) coupon_id) COUPON_PROGRAM_ID (c_bump coupon);;
  seeds_bump_check (pc_snapshot_merkle_root a)
    (snapshot_merkle_root_seeds (pc_mint a) (c_snapshot_id coupon)) SNAPSHOT_PROGRAM_ID
    (smr_bump snapshot_merkle_root);;
  asset_class_version_constraint (pc_asset_class_version_pda a) asset_configuration;;
  roles_constraint (pc_authority_roles_pda a) (pc_mint a) (pc_authority a);;
  mret (mkPayCouponAccounts mint.1 cfg bond_terms coupon snapshot_merkle_root coupon_paid_bump authority_bump).

Definition pay_coupon (signers : list Pubkey) (a : PayCoupon) (coupon_id : Z) (account : Pubkey)
    (balance : Z) (merkle_proof : list Hash) : M unit :=
  d ← PayCoupon_try_accounts signers a coupon_id account;
  operation_guards (pc_authority_roles_pda a) (pc_mint a) (pc_deactivate_pda a)
    (pc_asset_class_version_pda a) ROLE_TREASURER TREASURY_PAY_COUPON;;
  now ← gets w_now;
  require (c_payment_date (pd_coupon d) <=? now) (ETreasury TreasuryError.CouponNotMature);;
  require_balance_proof hashv merkle_proof (smr_merkle_root (pd_snapshot_merkle_root d)) account balance;;
  amount ← lift (coupon_amount (pd_coupon d) (pd_bond_terms d) (m_decimals (pd_mint d))
    (tc_payment_mint_decimals (pd_treasury_config d)) balance);
  authority ← pda_signer
    (build_pda_signer_seeds (treasury_authority_seeds (pc_mint a)) (pd_authority_bump d)) TREASURY_PROGRAM_ID;
  interface_transfer_checked (pc_transfer a) amount (tc_payment_mint_decimals (pd_treasury_config d)) [authority];;
  emit_cpi (EvTreasury (CouponPaid (pc_mint a) coupon_id account (pc_payment_mint a) amount (pc_payer a)));;
  account_exit (pc_treasury_config a)
    (mkTreasuryConfig (tc_bump (pd_treasury_config d)) (tc_payment_mint (pd_treasury_config d))
       (tc_payment_mint_decimals (pd_treasury_config d)) coupon_id);;
  account_exit (pc_coupon_paid a) (mkCouponPaidMarker (pd_coupon_paid_bump d) amount).
End instructions.

Inductive TreasuryInstruction : Set :=
| IxSetPaymentToken (a : SetPaymentToken)
| IxPayCoupon (a : PayCoupon) (coupon_id : Z) (account : Pubkey) (balance : Z) (merkle_proof : list Hash).

Definition treasury `{Rt : SolanaRuntime} `{Ti : TokenInterface} `{Bl : BorshLayout}
    (hashv : list (list Z) -> Hash) (signers : list Pubkey) (ix : TreasuryInstruction) : M unit :=
  match ix with
  | IxSetPaymentToken a => set_payment_token signers a
  | IxPayCoupon a id account balance proof => pay_coupon hashv signers a id account balance proof
  end.
