(* ===== verification/TreasuryProofs.v ===== *)
(** * TreasuryProofs: coupons are paid once, to holders, in full *)

From S2P Require Import Prelude.
From S2P Require Import Merkle.
From S2P Require Import Layout.
From S2P Require Import Bitmask.
From S2P Require Import ProgramIds.
From S2P Require Import Errors.
From S2P Require Import State.
From S2P Require Import Runtime.
From S2P Require Import Anchor.
From S2P Require Import Frame.
From S2P Require Import Reference.
From S2P Require Import PdaSeeds.
From S2P Require Import PdaUtils.
From S2P Require Import Common.
From S2P Require Import Sample.
From S2P Require Import Snapshot.
From S2P Require Import Coupon.
From S2P Require Import CouponProofs.
From S2P Require Import Payout.
From S2P Require Import Token.
From S2P Require Import TokenInterface.
From S2P Require Import Treasury.

Section proofs.
Context `{Rt : SolanaRuntime} `{Laws : !RuntimeLaws} `{Ti : TokenInterface} `{TiLaws : !TokenInterfaceLaws}.
Context `{Bl : BorshLayout} (hashv : list (list Z) -> Hash).

Definition coupon_paid_pda (mint : Pubkey) (id : Z) (account : Pubkey) : Pubkey :=
  pda (coupon_paid_seeds mint id account) TREASURY_PROGRAM_ID.

(** [authority] signed and is a treasurer of an active mint that is not paused. *)
Definition treasurer (w : World) (signers : list Pubkey) (mint authority : Pubkey) : Prop :=
  authority ∈ signers /\
  (exists k (r : Roles), pda_at (roles_seeds mint authority) ACCESS_CONTROL_PROGRAM_ID k /\
     stored w k r /\ has_role r ROLE_TREASURER) /\
  data_is_empty (data_of w (pda (deactivate_seeds mint) DEACTIVATE_PROGRAM_ID)) = true /\
  exists m, data_of w mint = DMint m /\ m_paused m = Some false.

(** The signer of the payments of a mint: an address of the program. *)
Definition treasury_authority_pda (mint : Pubkey) : Pubkey :=
  pda (treasury_authority_seeds mint) TREASURY_PROGRAM_ID.

(** [n] units leave an account of the authority for the destination, both of the payment mint; a fee
    may be withheld from what is received. *)
Definition funds_moved (ix : InterfaceTransfer) (n : Z) (w w' : World) : Prop :=
  exists s d, account w (it_from ix) = mkAccount (it_program ix) (DToken s) /\
    account w (it_to ix) = mkAccount (it_program ix) (DToken d) /\
    t_owner s = it_authority ix /\ t_mint s = it_mint ix /\ t_mint d = it_mint ix /\ 0 <= n <= t_amount s /\
    if N.eqb (it_from ix) (it_to ix) then account w' (it_from ix) = account w (it_from ix) else
    exists received, 0 <= received <= n /\ (it_program ix = TOKEN_PROGRAM_ID -> received = n) /\
      account w' (it_from ix) = mkAccount (it_program ix) (DToken (with_amount (t_amount s - n) s)) /\
      account w' (it_to ix) = mkAccount (it_program ix) (DToken (with_amount (t_amount d + received) d)).

(** What a payment is. *)
Record payment (signers : list Pubkey) (a : PayCoupon) (coupon_id : Z) (account : Pubkey)
    (balance : Z) (proof : list Hash) (w w' : World) (c : Coupon) (b : BondTerms) (cfg : TreasuryConfig)
    (r : SnapshotMerkleRoot) (m : MintState) (n : Z) : Prop := {
  py_actor : treasurer w signers (pc_mint a) (pc_authority a);
  py_unpaid : fresh w (coupon_paid_pda (pc_mint a) coupon_id account);
  py_coupon : exists k, pda_at (coupon_seeds (pc_mint a) coupon_id) COUPON_PROGRAM_ID k /\ stored w k c;
  py_root : exists k, pda_at (snapshot_merkle_root_seeds (pc_mint a) (c_snapshot_id c)) SNAPSHOT_PROGRAM_ID k /\
    stored w k r;
  py_terms : exists k, pda_at (bond_terms_seeds (pc_mint a)) BOND_PROGRAM_ID k /\ stored w k b;
  py_config : pda_at (treasury_config_seeds (pc_mint a)) TREASURY_PROGRAM_ID (pc_treasury_config a) /\
    stored w (pc_treasury_config a) cfg /\ pc_payment_mint a = tc_payment_mint cfg;
  py_mint : data_of w (pc_mint a) = DMint m;
  py_mature : c_payment_date c <= w_now w;
  py_proved : verify_balance_proof hashv proof (smr_merkle_root r) account balance = true;
  py_amount : coupon_amount c b (m_decimals m) (tc_payment_mint_decimals cfg) balance = Ok n;
  py_payer : pc_treasury_authority a = treasury_authority_pda (pc_mint a);
  py_funds : funds_moved (pc_transfer a) n w w';
  py_marker : exists bump, stored w' (coupon_paid_pda (pc_mint a) coupon_id account) (mkCouponPaidMarker bump n);
  py_lock : stored w' (pc_treasury_config a)
    (mkTreasuryConfig (tc_bump cfg) (tc_payment_mint cfg) (tc_payment_mint_decimals cfg) coupon_id);
  py_now : w_now w' = w_now w;
  py_others : forall j, j <> pc_treasury_config a -> j <> coupon_paid_pda (pc_mint a) coupon_id account ->
    j <> pc_treasury_token_account a -> j <> pc_holder_payment_account a -> State.account w' j = State.account w j }.

Lemma token_program_ne program : is_token_program program = true ->
  program <> SYSTEM_PROGRAM_ID /\ program <> TREASURY_PROGRAM_ID.
Proof. unfold is_token_program. intros [->%N.eqb_eq| ->%N.eqb_eq]%orb_true_iff; split; program_ne. Qed.

(** A fresh address is not one of an account that exists. *)
#[export] Instance PayCoupon_try_accounts_inv signers a id acct :
  OkInv (PayCoupon_try_accounts signers a id acct) (fun w d w' =>
    let cfg := pd_treasury_config d in let paid := coupon_paid_pda (pc_mint a) id acct in
    (pc_authority a ∈ signers /\ pc_coupon_paid a = paid /\ fresh w paid) /\
    ((forall j, j <> paid -> account w' j = account w j) /\ w_now w' = w_now w) /\
    (exists o, account w (pc_mint a) = mkAccount o (DMint (pd_mint d)) /\ is_token_program o = true) /\
    (stored w (pc_treasury_config a) cfg /\
     pda_at (treasury_config_seeds (pc_mint a)) TREASURY_PROGRAM_ID (pc_treasury_config a) /\
     pc_payment_mint a = tc_payment_mint cfg) /\
    (stored w (pc_bond_terms a) (pd_bond_terms d) /\
     pda_at (bond_terms_seeds (pc_mint a)) BOND_PROGRAM_ID (pc_bond_terms a)) /\
    (stored w (pc_coupon a) (pd_coupon d) /\
     pda_at (coupon_seeds (pc_mint a) id) COUPON_PROGRAM_ID (pc_coupon a)) /\
    (stored w (pc_snapshot_merkle_root a) (pd_snapshot_merkle_root d) /\
     pda_at (snapshot_merkle_root_seeds (pc_mint a) (c_snapshot_id (pd_coupon d))) SNAPSHOT_PROGRAM_ID
       (pc_snapshot_merkle_root a)) /\
    pda_at (roles_seeds (pc_mint a) (pc_authority a)) ACCESS_CONTROL_PROGRAM_ID (pc_authority_roles_pda a) /\
    pc_deactivate_pda a = pda (deactivate_seeds (pc_mint a)) DEACTIVATE_PROGRAM_ID /\
    is_token_program (pc_token_program a) = true /\
    pc_treasury_authority a = treasury_authority_pda (pc_mint a) /\
    (exists o t, account w (pc_treasury_token_account a) = mkAccount o (DToken t) /\ is_token_program o = true /\
       t_owner t = pc_treasury_authority a) /\
    (exists o t, account w (pc_holder_payment_account a) = mkAccount o (DToken t) /\ is_token_program o = true)).
Proof.
  intros w d w' Hr. unfold PayCoupon_try_accounts in Hr.
  do 13 (let H := fresh "Hd" in apply bind_ok in Hr as (? & ? & H%ok_inv & Hr); cbv beta in H).
  repeat match goal with H : _ /\ _ |- _ => destruct H end; subst.
  apply bind_ok in Hr as ([] & ? & [_ ->]%ok_inv & Hr).
  apply bind_ok in Hr as (b & ? & (Hk & _ & ->)%ok_inv & Hr).
  apply bind_ok in Hr as (mk & w1 & Hf & Hr). apply init_fresh in Hf as (Hf & Hj & Hn).
  fold (coupon_paid_pda (pc_mint a) id acct) in Hk. rewrite Hk in *.
  inv_ok. simpl. split_and!; eauto. eexists _, _. split_and!; eauto.
Qed.

(** The guards of [pay_coupon], checked once the marker was created, held before. *)
Lemma treasurer_before signers mint authority deactivate roles version k w w1 m o f :
  authority ∈ signers -> fresh w k -> (exists seeds, k = pda seeds TREASURY_PROGRAM_ID) ->
  (forall j, j <> k -> account w1 j = account w j) ->
  account w mint = mkAccount o (DMint m) -> is_token_program o = true ->
  pda_at (roles_seeds mint authority) ACCESS_CONTROL_PROGRAM_ID roles ->
  deactivate = pda (deactivate_seeds mint) DEACTIVATE_PROGRAM_ID ->
  operation_allowed w1 roles mint deactivate version ROLE_TREASURER f ->
  treasurer w signers mint authority.
Proof.
  intros Hs Hf [seeds ->] Hj Hm Ho Hk -> ((r & Hr & Hbit) & (ms & Hms & Hp) & Hd & _).
  split; [done|]. split; [|split].
  - exists roles, r. split; [done|]. split; [|done]. unfold stored in *.
    rewrite <- Hj; [done|]. eapply pda_programs_ne; [exact Hk|program_ne].
  - unfold data_of in *. rewrite <- Hj; [done|]. eapply pda_programs_ne; [apply pda_at_pda|program_ne].
  - exists ms. split; [|done]. unfold data_of in *. rewrite <- Hj; [done|].
    apply (fresh_ne w _ _ Hf). unfold owner_of. rewrite Hm. by apply token_program_ne.
Qed.

Lemma token_account_ne w k o t : account w k = mkAccount o (DToken t) -> is_token_program o = true ->
  owner_of w k <> SYSTEM_PROGRAM_ID /\ forall (T : Type) `{AccountType T} (x : T) j,
    at_program = TREASURY_PROGRAM_ID -> stored w j x -> k <> j.
Proof.
  intros Hk Ho. destruct (token_program_ne _ Ho) as [Hs Ht]. split; [unfold owner_of; by rewrite Hk|].
  intros T ? x j Hp Hj ->. unfold stored in Hj. rewrite Hk, Hp in Hj. by injection Hj.
Qed.

Lemma pay_coupon_payment signers a id acct balance proof w w' :
  pay_coupon hashv signers a id acct balance proof w = Ok (tt, w') ->
  exists c b cfg r m n, payment signers a id acct balance proof w w' c b cfg r m n.
Proof.
  intros Hr. unfold pay_coupon in Hr.
  apply bind_ok in Hr as (d & w1 & Ht & Hr).
  apply ok_inv in Ht as ((Hs & Ek & Hf) & (Hj & Hn) & (o & Hm & Ho) & (Hcfg & Hcfgk & Epm) & [Hb Hbk] &
    [Hc Hck] & [Hroot Hrk] & Hk & Hde & Htp & Hau & (o1 & t1 & Hs1 & Ho1 & How) & (o2 & t2 & Hs2 & Ho2)).
  apply bind_ok in Hr as ([] & ? & [-> Ha]%ok_inv & Hr).
  apply bind_ok in Hr as (now & ? & [-> ->]%ok_inv & Hr).
  apply bind_ok in Hr as ([] & ? & [Hmat ->]%ok_inv & Hr).
  apply bind_ok in Hr as ([] & ? & [Hproof ->]%ok_inv & Hr).
  apply bind_ok in Hr as (n & ? & [Hamt ->]%ok_inv & Hr).
  apply bind_ok in Hr as (au & ? & [_ ->]%ok_inv & Hr).
  apply bind_ok in Hr as ([] & w2 & Hx & Hr). apply interface_transfer_ok in Hx
    as (s & dd & pm & Hsrc & Hdst & Hpm & _ & Ems & Emd & _ & _ & Hle & Hn2 & Hj2 & Hmove).
  apply bind_ok in Hr as ([] & ? & ->%ok_inv & Hr).
  apply bind_ok in Hr as ([] & ? & [_ ->]%ok_inv & [_ ->]%ok_inv).
  destruct (token_account_ne _ _ _ _ Hs1 Ho1) as [Hsys1 Hne1]. destruct (token_account_ne _ _ _ _ Hs2 Ho2) as [Hsys2 Hne2].
  apply (fresh_ne _ _ _ Hf) in Hsys1, Hsys2.
  specialize (Hne1 TreasuryConfig _ _ _ eq_refl Hcfg). specialize (Hne2 TreasuryConfig _ _ _ eq_refl Hcfg).
  rewrite Ek in *. set (paid := coupon_paid_pda (pc_mint a) id acct) in *.
  assert (Hpc : pc_treasury_config a <> paid).
  { apply (fresh_ne _ _ _ Hf). rewrite (stored_owner _ _ _ Hcfg). program_ne. }
  simpl in Hsrc, Hdst, Hj2, Hmove. rewrite Hj in Hsrc, Hdst by done. zify_checks.
  exists (pd_coupon d), (pd_bond_terms d), (pd_treasury_config d), (pd_snapshot_merkle_root d), (pd_mint d), n.
  split; eauto.
  - eapply treasurer_before; [done|exact Hf|by eexists|exact Hj|exact Hm|exact Ho|exact Hk|exact Hde|exact Ha].
  - unfold data_of. by rewrite Hm.
  - by rewrite <- Hn.
  - assert (t1 = s) as -> by congruence. exists s, dd. simpl. do 6 (split; [done|]).
    rewrite (Hj (pc_treasury_token_account a)) in Hmove by done.
    rewrite !account_set_account_ne, !account_add_event by congruence.
    destruct (N.eqb _ _); [done|]. by destruct Hmove as [_ ?].
  - eexists. unfold stored. rewrite account_set_account_eq. done.
  - unfold stored. rewrite account_set_account_ne, account_set_account_eq by congruence. done.
  - simpl. congruence.
  - intros j H1 H2 H3 H4. unfold paid in *. rewrite !account_set_account_ne, account_add_event, Hj2, Hj by congruence. done.
Qed.
End proofs.

(** ** Once *)

Section once.
Context `{Rt : SolanaRuntime} `{Laws : !RuntimeLaws} `{Ti : TokenInterface} `{TiLaws : !TokenInterfaceLaws}.
Context `{Bl : BorshLayout} (hashv : list (list Z) -> Hash).

(** What can happen on the chain: an instruction of the treasury, or anything else, which
    leaves the accounts of the treasury program as they are. *)
Inductive chain_step (w w' : World) : Prop :=
| StepTreasury signers ix : treasury hashv signers ix w = Ok (tt, w') -> chain_step w w'
| StepOther : (forall k, owner_of w k = TREASURY_PROGRAM_ID -> account w' k = account w k) -> chain_step w w'.

#[export] Instance SetPaymentToken_try_accounts_inv signers a :
  OkInv (SetPaymentToken_try_accounts signers a) (fun w r w' =>
    (sp_treasury_config a = pda (treasury_config_seeds (sp_mint a)) TREASURY_PROGRAM_ID /\
     sp_coupon_counter a = coupon_counter_pda (sp_mint a) /\ sp_authority a ∈ signers) /\
    (fresh w (sp_treasury_config a) /\ r.1.1 = at_zero \/ stored w (sp_treasury_config a) r.1.1) /\
    (exists o, account w (sp_payment_mint a) = mkAccount o (DMint r.2) /\ is_token_program o = true) /\
    forall j, j <> sp_treasury_config a -> account w' j = account w j).
Proof.
  intros w r w' Hr. unfold SetPaymentToken_try_accounts in Hr. inv_ok.
  rename select (_ \/ _) into Hi. simpl. destruct Hi as [(Hf & -> & ? & ->)|(_ & Hs & ->)].
  - split_and!; eauto. intros j Hj. by rewrite account_set_account_ne by congruence.
  - split_and!; eauto.
Qed.

#[export] Instance claims_guard_world k id :
  OkInv (claims_guard k id) (fun w _ w' => w' = w).
Proof.
  intros w [] w' Hr. unfold claims_guard in Hr. destruct (id =? 0); inv_ok; [done|].
  destruct (_ <? _)%nat; by inv_ok.
Qed.

Lemma set_payment_token_others signers a w w' :
  set_payment_token signers a w = Ok (tt, w') ->
  (fresh w (sp_treasury_config a) \/ exists cfg : TreasuryConfig, stored w (sp_treasury_config a) cfg) /\
  forall j, j <> sp_treasury_config a -> account w' j = account w j.
Proof.
  intros Hr. unfold set_payment_token in Hr.
  apply bind_ok in Hr as ([[cfg b] m] & w1 & (_ & Hc & _ & Hj)%ok_inv & Hr). inv_ok. split.
  - destruct Hc as [[? _]|?]; eauto.
  - intros j Hne. rewrite account_set_account_ne, account_add_event by congruence. by apply Hj.
Qed.

Lemma marker_step w w' k (x : CouponPaidMarker) : chain_step w w' -> stored w k x -> stored w' k x.
Proof.
  assert (Hsys : forall T `{AccountType T} (t : T) j, stored w j t -> fresh w j -> at_program <> SYSTEM_PROGRAM_ID -> False).
  { intros T ? t j Hs [Ho _] Hp. rewrite (stored_owner _ _ _ Hs) in Ho. done. }
  intros [signers [a|a id acct bal proof] Hr|Hoth] Hk; simpl in *.
  - apply set_payment_token_others in Hr as [Hc Hj]. unfold stored. rewrite Hj; [exact Hk|]. intros ->.
    destruct Hc as [Hf|[cfg Hs]]; [by apply (Hsys _ _ _ _ Hk Hf); program_ne|].
    unfold stored in *. rewrite Hk in Hs. discriminate Hs.
  - apply pay_coupon_payment in Hr as (c & b & cfg & r & m & n & [_ Hf _ _ _ [_ [Hcfg _]] _ _ _ _ _ Hx _ _ _ Hj]).
    destruct Hx as (s & d & H1 & H2 & _). unfold stored in *. simpl in *.
    rewrite Hj; [exact Hk|..]; intros ->.
    + rewrite Hk in Hcfg. discriminate Hcfg.
    + destruct Hf as [Hf _]. unfold owner_of in Hf. rewrite Hk in Hf. revert Hf. program_ne.
    + rewrite Hk in H1. discriminate H1.
    + rewrite Hk in H2. discriminate H2.
  - unfold stored in *. rewrite Hoth; [done|]. unfold owner_of. by rewrite Hk.
Qed.

Lemma marker_steps w w' k (x : CouponPaidMarker) : rtc chain_step w w' -> stored w k x -> stored w' k x.
Proof. induction 1 as [|w1 w2 w3 H1 _ IH]; [done|]. intros Hk. apply IH. by eapply marker_step. Qed.

Lemma paid_blocks signers a id acct balance proof w (x : CouponPaidMarker) :
  stored w (coupon_paid_pda (pc_mint a) id acct) x ->
  is_ok (pay_coupon hashv signers a id acct balance proof w) = false.
Proof.
  intros Hk. destruct (pay_coupon _ _ _ _ _ _ _ w) as [[[] w']|e] eqn:Hr; [|done].
  apply pay_coupon_payment in Hr as (c & b & cfg & r & m & n & [_ Hf _]).
  exfalso. refine (stored_not_fresh w _ x _ Hk Hf). program_ne.
Qed.
End once.

(** C13: Once a coupon was paid to a holder, no later payment of the
    same coupon to the same holder succeeds: whatever the balance, the proof, the signers and
    the accounts of the later call, and whatever happened on the chain in between. *)
Theorem coupon_paid_at_most_once `{Laws : RuntimeLaws} `{TiLaws : TokenInterfaceLaws} `{Bl : BorshLayout}
    hashv signers a id acct balance proof w w1 w2 signers' a' balance' proof' :
  pay_coupon hashv signers a id acct balance proof w = Ok (tt, w1) -> rtc (chain_step hashv) w1 w2 ->
  pc_mint a' = pc_mint a ->
  is_ok (pay_coupon hashv signers' a' id acct balance' proof' w2) = false.
Proof.
  intros Hr Hs E. apply pay_coupon_payment in Hr as (c & b & cfg & r & m & n & Hp).
  destruct Hp as [_ _ _ _ _ _ _ _ _ _ _ _ [bump Hm]].
  apply (paid_blocks hashv) with (x := mkCouponPaidMarker bump n). rewrite E. by eapply marker_steps.
Qed.

(** ** To a holder, in full *)

Section entitlement.
Context `{Rt : SolanaRuntime} `{Laws : !RuntimeLaws} `{Ti : TokenInterface} `{TiLaws : !TokenInterfaceLaws}.
Context `{Bl : BorshLayout} (hashv : list (list Z) -> Hash).

(** No two of the byte strings hashed to build [t] or to check the proof collide. *)
Definition collision_free (t : tree) (l : LeafData) (proof : list Hash) : Prop :=
  no_collision hashv (leaf_preimage l :: proof_preimages hashv (hash hashv l) proof ++ tree_preimages hashv t).

(** [account] held [balance] when the snapshot of root [r] was taken. *)
Definition held_at (r : Hash) (account : Pubkey) (balance : Z) (proof : list Hash) : Prop :=
  forall t, r = root hashv t -> Forall leaf_ok (leaves t) ->
    collision_free t (mkLeafData account balance) proof -> mkLeafData account balance ∈ leaves t.

Lemma proof_held r acct balance proof
    (hashv_concat : forall a b, hashv [a; b] = hashv [a ++ b])
    (hashv_length : forall x, length (hashv x) = 32%nat) :
  leaf_ok (mkLeafData acct balance) -> Forall (fun s => length s = 32%nat) proof ->
  verify_balance_proof hashv proof r acct balance = true -> held_at r acct balance proof.
Proof.
  intros Hl Hp Hv t -> Ht Hnc. apply bool_decide_eq_true in Hv. by eapply fold_parent_in_leaves.
Qed.

(** The accounts of a payment are the ones of the book. *)
Lemma payment_in_book signers a id acct balance proof w w' c bt cfg r m n bk :
  payment hashv signers a id acct balance proof w w' c bt cfg r m n ->
  canonical w -> book w (pc_mint a) bk -> book_ok bk ->
  1 <= id /\ bk_coupons bk !! Z.to_nat (id - 1) = Some c /\
  bk_snapshots bk !! Z.to_nat (c_snapshot_id c) = Some (smr_merkle_root r).
Proof.
  intros [_ _ (kc & Hkc & Hc) (kr & Hkr & Hr)] [Hcan Hcan'] [[_ Hs] [_ Hl]] Hok.
  destruct (Hcan _ _ Hc) as (m1 & i1 & E1). destruct (pda_at_unique _ _ _ _ _ Hkc E1) as [[= <- <-] _].
  destruct (Hcan' _ _ Hr) as (m2 & i2 & E2). destruct (pda_at_unique _ _ _ _ _ Hkr E2) as [[= <- <-] _].
  subst kc kr. specialize (Hl id). unfold coupon_at in Hl. rewrite (proj2 (view_Some _ _ _) Hc) in Hl.
  destruct (Z.leb_spec 1 id) as [Hid|]; [|discriminate Hl]. split; [done|]. split; [done|].
  symmetry in Hl. unfold book_ok in Hok. rewrite Forall_lookup in Hok. destruct (Hok _ _ Hl) as [_ _ [H0 _]].
  rewrite <- Hs by done. unfold root_at. by rewrite (proj2 (view_Some _ _ _) Hr).
Qed.
End entitlement.

(** C14: A successful [pay_coupon] is the payment of an existing,
    mature coupon of the mint, ordered by a treasurer, for a token account that held the claimed
    balance in the snapshot taken with that coupon (unless two of the hashed strings collide);
    the amount is the interest computed from the terms of the bond.  The funds are in the payment mint
    of the treasury configuration at the mint's PDA, and leave a token account owned by the treasury
    authority of the mint, an address only the program signs for; they go to the payment account the
    treasurer names, of the same payment mint, whose owner the program does not check.  The
    payment is recorded under the coupon and the token account it was made for. *)
Theorem payments_are_entitlements `{Laws : RuntimeLaws} `{TiLaws : TokenInterfaceLaws} `{Bl : BorshLayout}
    (hashv : list (list Z) -> Hash) signers a id acct balance proof w w' bk
    (hashv_concat : forall a b, hashv [a; b] = hashv [a ++ b])
    (hashv_length : forall x, length (hashv x) = 32%nat) :
  canonical w -> book w (pc_mint a) bk -> book_ok bk ->
  leaf_ok (mkLeafData acct balance) -> Forall (fun s => length s = 32%nat) proof ->
  pay_coupon hashv signers a id acct balance proof w = Ok (tt, w') ->
  treasurer w signers (pc_mint a) (pc_authority a) /\
  exists c r bt cfg m n,
    (1 <= id /\ bk_coupons bk !! Z.to_nat (id - 1) = Some c /\ c_payment_date c <= w_now w) /\
    (bk_snapshots bk !! Z.to_nat (c_snapshot_id c) = Some r /\ held_at hashv r acct balance proof) /\
    ((exists k, pda_at (treasury_config_seeds (pc_mint a)) TREASURY_PROGRAM_ID k /\ stored w k cfg) /\
     it_mint (pc_transfer a) = tc_payment_mint cfg) /\
    ((exists k, pda_at (bond_terms_seeds (pc_mint a)) BOND_PROGRAM_ID k /\ stored w k bt) /\
     data_of w (pc_mint a) = DMint m) /\
    coupon_amount c bt (m_decimals m) (tc_payment_mint_decimals cfg) balance = Ok n /\
    it_authority (pc_transfer a) = treasury_authority_pda (pc_mint a) /\ funds_moved (pc_transfer a) n w w' /\
    exists bump, stored w' (coupon_paid_pda (pc_mint a) id acct) (mkCouponPaidMarker bump n).
Proof.
  intros Hcan Hbook Hok Hl Hp Hr. apply pay_coupon_payment in Hr as (c & bt & cfg & r & m & n & Hpay).
  destruct (payment_in_book _ _ _ _ _ _ _ _ _ _ _ _ _ _ _ _ Hpay Hcan Hbook Hok) as (Hid & Hc & Hs).
  destruct Hpay. split; [done|].
  exists c, (smr_merkle_root r), bt, cfg, m, n. destruct py_config0 as (? & ? & ?).
  split_and!; try done; [by apply proof_held|by eauto].
Qed.

(** ** The lock of the payment mint *)

Section lock.
Context `{Rt : SolanaRuntime} `{Laws : !RuntimeLaws} `{Ti : TokenInterface} `{TiLaws : !TokenInterfaceLaws}.
Context `{Bl : BorshLayout} `{BlLaws : !BorshLaws} (hashv : list (list Z) -> Hash).

Definition treasury_config_pda (mint : Pubkey) : Pubkey := pda (treasury_config_seeds mint) TREASURY_PROGRAM_ID.

(** The coupon the payment mint is locked for, 0 when there is none. *)
Definition locked (w : World) (mint : Pubkey) : Z :=
  match view TreasuryConfig w (treasury_config_pda mint) with
  | Some cfg => tc_locked_for_coupon_id cfg | None => 0 end.

(** Configurations are found at their canonical addresses only. *)
Definition configs_canonical (w : World) : Prop :=
  forall k (cfg : TreasuryConfig), stored w k cfg -> exists mint, k = treasury_config_pda mint.

(** The counter of the coupons of a mint: absent, or a [u64]. *)
Definition counter_ok (w : World) (mint : Pubkey) : Prop :=
  data_is_empty (data_of w (coupon_counter_pda mint)) = true \/
  exists c, stored w (coupon_counter_pda mint) c /\ u64_ok (cc_count c).

(** The bytes read by hand are the count of the counter. *)
Lemma counter_bytes c : u64_ok (cc_count c) ->
  (length (account_bytes (DCouponCounter c)) <? 17)%nat = false /\
  of_le_bytes (take 8 (drop 9 (account_bytes (DCouponCounter c)))) = cc_count c.
Proof.
  intros Hc. destruct (account_bytes_coupon_counter c) as (disc & Hl & ->).
  assert (Hu : length (u64_bytes (cc_count c)) = 8%nat) by apply le_bytes_length. split.
  - apply Nat.ltb_ge. rewrite !length_app, Hl, Hu. simpl. lia.
  - rewrite app_assoc, drop_app_length' by (rewrite length_app, Hl; done).
    rewrite take_ge by lia. apply of_le_bytes_le_bytes. unfold u64_ok, U64_MAX in Hc. simpl. lia.
Qed.

Lemma claims_guard_spec w mint id :
  counter_ok w mint ->
  claims_guard (coupon_counter_pda mint) id w =
    if (id =? 0) || data_is_empty (data_of w (coupon_counter_pda mint)) || (id <? coupon_count w mint)
    then Ok (tt, w) else Err (ETreasury TreasuryError.ClaimsInProgress).
Proof.
  intros Hc. unfold claims_guard. destruct (id =? 0); [done|]. unfold mbind, SM_bind, get, orb at 1.
  destruct Hc as [He|(c & Hs & Hu)].
  - by rewrite He, (account_bytes_empty _ He).
  - destruct (counter_bytes c Hu) as [Hl Hv]. rewrite (stored_data _ _ _ Hs). cbn [at_data CouponCounter_account].
    rewrite Hl, Hv. unfold coupon_count. rewrite (proj2 (view_Some _ _ _) Hs). simpl.
    unfold require. by destruct (_ <? _).
Qed.

(** After a payment the lock is the coupon that was paid; the counter is as it was. *)
Lemma payment_locks signers a id acct balance proof w w' :
  configs_canonical w -> counter_ok w (pc_mint a) ->
  pay_coupon hashv signers a id acct balance proof w = Ok (tt, w') ->
  locked w' (pc_mint a) = id /\ account w' (coupon_counter_pda (pc_mint a)) = account w (coupon_counter_pda (pc_mint a)).
Proof.
  intros Hcan Hcnt Hr. apply pay_coupon_payment in Hr as (c & b & cfg & r & m & n & Hp).
  destruct Hp as [_ _ _ _ _ (Hk & Hcfg & _) _ _ _ _ _ (s & d & Hs & Hd & _) _ Hlock _ Hj].
  destruct (Hcan _ _ Hcfg) as (mint & E). destruct (pda_at_unique _ _ _ _ _ Hk E) as [[= <-] _].
  assert (Htok : forall k o t, account w k = mkAccount o (DToken t) -> coupon_counter_pda (pc_mint a) <> k).
  { intros k o t Ht <-. unfold counter_ok, data_of, stored in Hcnt. rewrite Ht in Hcnt.
    destruct Hcnt as [Hx|(x & Hx & _)]; discriminate Hx. }
  split.
  - unfold locked. rewrite <- E. by rewrite (proj2 (view_Some _ _ _) Hlock).
  - apply Hj; [rewrite E| |by eapply Htok|by eapply Htok];
      (eapply pda_programs_ne; [apply pda_at_pda|program_ne]).
Qed.

Lemma counter_ok_account w w' mint :
  account w' (coupon_counter_pda mint) = account w (coupon_counter_pda mint) ->
  counter_ok w mint -> counter_ok w' mint.
Proof. unfold counter_ok, data_of, stored. by intros ->. Qed.

(** A successful [set_payment_token] passed the guard for the recorded lock. *)
Lemma set_payment_token_guard signers a w w' :
  set_payment_token signers a w = Ok (tt, w') -> counter_ok w (sp_mint a) ->
  is_ok (claims_guard (coupon_counter_pda (sp_mint a)) (locked w (sp_mint a)) w) = true /\
  exists b o m, account w (sp_payment_mint a) = mkAccount o (DMint m) /\ is_token_program o = true /\
    stored w' (treasury_config_pda (sp_mint a))
      (mkTreasuryConfig b (sp_payment_mint a) (m_decimals m) (locked w (sp_mint a))).
Proof.
  intros Hr Hcnt. unfold set_payment_token in Hr.
  apply bind_ok in Hr as ([[cfg b] m] & w1 & ((Ek & Ec & _) & Hc & (o & Hm & Ho) & Hj)%ok_inv & Hr).
  apply bind_ok in Hr as ([] & ? & [-> _]%ok_inv & Hr).
  apply bind_ok in Hr as ([] & w2 & Hg & Hr). pose proof Hg as ->%ok_inv.
  assert (El : tc_locked_for_coupon_id cfg = locked w (sp_mint a)).
  { unfold locked. unfold treasury_config_pda. rewrite <- Ek. simpl in Hc. destruct Hc as [[Hf ->]|Hs].
    - rewrite view_fresh; [done|program_ne|done].
    - by rewrite (proj2 (view_Some _ _ _) Hs). }
  assert (Ecnt : account w1 (coupon_counter_pda (sp_mint a)) = account w (coupon_counter_pda (sp_mint a))).
  { apply Hj. rewrite Ek. eapply pda_programs_ne; [apply pda_at_pda|program_ne]. }
  rewrite Ec, El in Hg. rewrite claims_guard_spec in Hg |- * by eauto using counter_ok_account.
  unfold data_of in *. rewrite Ecnt, (coupon_count_account w w1) in Hg by done.
  split; [by destruct (_ || _)|]. inv_ok.
  exists b, o, m. split; [done|]. split; [done|]. unfold treasury_config_pda. rewrite <- Ek, <- El.
  unfold stored. apply account_set_account_eq.
Qed.
End lock.

(** C34: The payment mint is locked for the coupon that was paid
    last.  After the payment of the newest coupon no [set_payment_token] of the mint succeeds;
    after the payment of an older one the guard lets the payment mint be changed, although the
    newest coupon may be in distribution. *)
Theorem lock_follows_last_payment `{Laws : RuntimeLaws} `{TiLaws : TokenInterfaceLaws} `{BlLaws : BorshLaws}
    hashv signers a id acct balance proof w w' :
  configs_canonical w -> counter_ok w (pc_mint a) -> id <> 0 -> coupon_count w (pc_mint a) <> 0 ->
  pay_coupon hashv signers a id acct balance proof w = Ok (tt, w') ->
  claims_guard (coupon_counter_pda (pc_mint a)) (locked w' (pc_mint a)) w' =
    (if id <? coupon_count w (pc_mint a) then Ok (tt, w') else Err (ETreasury TreasuryError.ClaimsInProgress)) /\
  (coupon_count w (pc_mint a) <= id -> forall signers' a', sp_mint a' = pc_mint a ->
     is_ok (set_payment_token signers' a' w') = false).
Proof.
  intros Hcan Hcnt Hid Hn Hr. destruct (payment_locks hashv _ _ _ _ _ _ _ _ Hcan Hcnt Hr) as [El Ea].
  pose proof (counter_ok_account _ _ _ Ea Hcnt) as Hcnt'.
  assert (Hg : claims_guard (coupon_counter_pda (pc_mint a)) (locked w' (pc_mint a)) w' =
    if id <? coupon_count w (pc_mint a) then Ok (tt, w') else Err (ETreasury TreasuryError.ClaimsInProgress)).
  { rewrite claims_guard_spec, El, (coupon_count_account w w') by done.
    rewrite (proj2 (Z.eqb_neq id 0)) by done. destruct (data_is_empty _) eqn:E; [|done].
    exfalso. apply Hn. unfold coupon_count. destruct (view _ _ _) as [c|] eqn:Ev; [|done].
    apply view_Some, stored_data in Ev. unfold data_of in *. rewrite Ea, Ev in E. discriminate E. }
  split; [done|]. intros Hle signers' a' Em.
  destruct (set_payment_token signers' a' w') as [[[] w2]|e] eqn:Hs; [|done].
  apply set_payment_token_guard in Hs as [Hok _]; rewrite Em in *; [|done].
  rewrite Hg in Hok. destruct (Z.ltb_spec id (coupon_count w (pc_mint a))); [lia|discriminate Hok].
Qed.
