(* ===== verification/TreasuryRuns.v ===== *)
(** * TreasuryRuns: the sample mint pays its first coupon

    The bond terms are set, a payment mint is chosen, a coupon is created over
    the sample snapshot and paid to one of its holders: the theorems on the
    treasury applied to these runs. *)

From S2P Require Import Prelude.
From S2P Require Import Merkle.
From S2P Require Import Layout.
From S2P Require Import Bitmask.
From S2P Require Import ProgramIds.
From S2P Require Import Errors.
From S2P Require Import State.
From S2P Require Import Runtime.
From S2P Require Import Anchor.
From S2P Require Import Frame.
From S2P Require Import Reference.
From S2P Require Import PdaSeeds.
From S2P Require Import PdaUtils.
From S2P Require Import Common.
From S2P Require Import Sample.
From S2P Require Import Snapshot.
From S2P Require Import Coupon.
From S2P Require Import CouponProofs.
From S2P Require Import Bond.
From S2P Require Import Payout.
From S2P Require Import Token.
From S2P Require Import TokenInterface.
From S2P Require Import Treasury.
From S2P Require Import TreasuryProofs.

Definition USD : Pubkey := 600.
Definition TREASURY_USD : Pubkey := 601.
Definition HOLDER_USD : Pubkey := 602.
Definition TREASURY_AUTH : Pubkey := Eval vm_compute in ref_pda (treasury_authority_seeds MINT) TREASURY_PROGRAM_ID.

Definition usd_account (owner : Pubkey) (n : Z) : Account :=
  mkAccount TOKEN_PROGRAM_ID (DToken (mkTokenState USD owner n None 165)).

(** A classic payment mint with 6 decimals, and the accounts of the treasury and of a holder. *)
Definition with_payment_mint (w : World) : World :=
  set_account USD (mkAccount TOKEN_PROGRAM_ID (DMint (mkMintState (10 ^ 9) 6 None None no_authorities None 82)))
    (set_account TREASURY_USD (usd_account TREASURY_AUTH (10 ^ 9))
      (set_account HOLDER_USD (usd_account BOB 0) w)).

Definition bond_accounts : UpdateBondTerms := {|
  ub_payer := ADMIN; ub_authority := ADMIN; ub_authority_roles_pda := SAMPLE_ROLES;
  ub_asset_configuration_pda := SAMPLE_CONFIG; ub_deactivate_pda := SAMPLE_DEACTIVATE; ub_mint := MINT;
  ub_bond_terms := pda (bond_terms_seeds MINT) BOND_PROGRAM_ID;
  ub_asset_class_version_pda := SAMPLE_VERSION |}.
Definition bond_args : BondTermsArgs := mkBondTermsArgs 5 2 100000 2 1 0 Actual360.

Definition payment_token_accounts : SetPaymentToken := {|
  sp_payer := ADMIN; sp_authority := ADMIN; sp_asset_configuration_pda := SAMPLE_CONFIG;
  sp_deactivate_pda := SAMPLE_DEACTIVATE; sp_mint := MINT;
  sp_treasury_config := treasury_config_pda MINT; sp_coupon_counter := coupon_counter_pda MINT;
  sp_payment_mint := USD; sp_asset_class_version_pda := SAMPLE_VERSION;
  sp_authority_roles_pda := SAMPLE_ROLES |}.

Definition pay_accounts (id snapshot_id : Z) (holder : Pubkey) : PayCoupon := {|
  pc_payer := ADMIN; pc_authority := ADMIN; pc_asset_configuration_pda := SAMPLE_CONFIG;
  pc_deactivate_pda := SAMPLE_DEACTIVATE; pc_mint := MINT; pc_treasury_config := treasury_config_pda MINT;
  pc_treasury_authority := TREASURY_AUTH; pc_payment_mint := USD;
  pc_treasury_token_account := TREASURY_USD; pc_holder_payment_account := HOLDER_USD;
  pc_bond_terms := pda (bond_terms_seeds MINT) BOND_PROGRAM_ID; pc_coupon := coupon_pda MINT id;
  pc_snapshot_merkle_root := snapshot_root_pda MINT snapshot_id;
  pc_coupon_paid := coupon_paid_pda MINT id holder; pc_asset_class_version_pda := SAMPLE_VERSION;
  pc_token_program := TOKEN_PROGRAM_ID; pc_authority_roles_pda := SAMPLE_ROLES |}.

Definition pay (id snapshot_id : Z) : M unit :=
  pay_coupon checksum [ADMIN] (pay_accounts id snapshot_id 2) id 2 20 sample_proof.

(** The first coupon, ready to be paid, and paid. *)
Definition ready_world : World :=
  run_world (update_bond_terms [ADMIN] bond_accounts bond_args;; set_payment_token [ADMIN] payment_token_accounts)
    (with_payment_mint coupon_world).
Definition paid_world : World := run_world (pay 1 0) ready_world.

Lemma paid_world_ok : pay 1 0 ready_world = Ok (tt, paid_world).
Proof. apply run_ok. vm_compute. reflexivity. Qed.

Example holder_received : data_of paid_world HOLDER_USD = DToken (mkTokenState USD BOB 2500000 None 165).
Proof. vm_compute. reflexivity. Qed.

Lemma coupon_paid_at_most_once_witness :
  is_ok (pay_coupon checksum [ADMIN] (pay_accounts 1 0 2) 1 2 20 sample_proof paid_world) = false.
Proof.
  apply (coupon_paid_at_most_once checksum [ADMIN] (pay_accounts 1 0 2) 1 2 20 sample_proof ready_world
    paid_world paid_world [ADMIN] (pay_accounts 1 0 2) 20 sample_proof); [exact paid_world_ok|reflexivity|reflexivity].
Defined.

(** ** The theorems on the book of the sample mint *)

Definition first_coupon : Coupon := mkCoupon 255 0 (-7000000) 776000 900000 None None.
Definition ready_book : Book := mkBook [root checksum sample_tree] [first_coupon].

(** Nothing but [d] at [k] is of type [T]. *)
Lemma view_only (T : Type) `{AccountType T} ks w k :
  at_of_data (T:=T) DEmpty = None -> only_at T ks w = true -> k ∉ ks -> view T w k = None.
Proof.
  intros He Hw Hk. unfold view. destruct (N.eqb _ _); [|reflexivity].
  destruct (at_of_data (data_of w k)) as [t|] eqn:E; [|reflexivity].
  exfalso. apply Hk. exact (only_at_ok T ks w k t He Hw E).
Qed.

Ltac only_account ks :=
  apply (view_only _ ks); [reflexivity|vm_compute; reflexivity|]; apply not_elem_of_cons; split; [|apply not_elem_of_nil].

Lemma ready_world_book : book ready_world MINT ready_book.
Proof.
  split; split.
  - vm_compute. reflexivity.
  - intros id H0. destruct (decide (id = 0)) as [->|Hne]; [vm_compute; reflexivity|].
    unfold root_at. replace (view _ _ _) with (@None SnapshotMerkleRoot).
    + symmetry. apply lookup_ge_None_2. simpl. lia.
    + symmetry. only_account [snapshot_root_pda MINT 0]. by intros [_ ?]%snapshot_root_pda_inj.
  - vm_compute. reflexivity.
  - intros id. destruct (decide (id = 1)) as [->|Hne]; [vm_compute; reflexivity|].
    unfold coupon_at. replace (view _ _ _) with (@None Coupon).
    + destruct (Z.leb_spec 1 id); [|done]. symmetry. apply lookup_ge_None_2. simpl. lia.
    + symmetry. only_account [coupon_pda MINT 1]. by intros [_ ?]%coupon_pda_inj.
Qed.

Lemma only_canonical (T : Type) `{AccountType T} ks w k (t : T) :
  at_of_data (T:=T) DEmpty = None -> only_at T ks w = true -> stored w k t -> k ∈ ks.
Proof.
  intros He Hw Hk. eapply (only_at_ok T ks w k t He Hw). apply at_of_data_Some.
  by apply stored_data in Hk.
Qed.

Lemma ready_world_canonical : canonical ready_world.
Proof.
  split; intros k x Hk.
  - apply (only_canonical Coupon [coupon_pda MINT 1]) in Hk; [|reflexivity|vm_compute; reflexivity].
    apply list_elem_of_singleton in Hk as ->. by exists MINT, 1.
  - apply (only_canonical SnapshotMerkleRoot [snapshot_root_pda MINT 0]) in Hk; [|reflexivity|vm_compute; reflexivity].
    apply list_elem_of_singleton in Hk as ->. by exists MINT, 0.
Qed.

Lemma ready_book_ok : book_ok ready_book.
Proof. repeat constructor; simpl; lia. Qed.

Lemma ready_configs : configs_canonical ready_world.
Proof.
  intros k x Hk.
  apply (only_canonical TreasuryConfig [treasury_config_pda MINT]) in Hk; [|reflexivity|vm_compute; reflexivity].
  apply list_elem_of_singleton in Hk as ->. by exists MINT.
Qed.

Lemma payments_are_entitlements_witness :
  treasurer ready_world [ADMIN] MINT ADMIN /\
  exists n, funds_moved (pc_transfer (pay_accounts 1 0 2)) n ready_world paid_world.
Proof.
  edestruct (payments_are_entitlements checksum [ADMIN] (pay_accounts 1 0 2) 1 2 20 sample_proof
    ready_world paid_world ready_book checksum_concat)
    as (Ht & c & r & bt & cfg & m & n & _ & _ & _ & _ & _ & _ & Hf & _).
  - intros x. apply le_bytes_length.
  - exact ready_world_canonical.
  - exact ready_world_book.
  - exact ready_book_ok.
  - split; vm_compute; [reflexivity|split; discriminate].
  - unfold sample_proof. rewrite !Forall_cons. split_and!; [vm_compute; reflexivity..|constructor].
  - exact paid_world_ok.
  - split; [exact Ht|by exists n].
Defined.

Lemma ready_counter : counter_ok ready_world MINT.
Proof.
  right. exists (mkCouponCounter 255 1). split; [vm_compute; reflexivity|].
  vm_compute. split; discriminate.
Qed.

Lemma lock_follows_last_payment_witness :
  is_ok (set_payment_token [ADMIN] payment_token_accounts paid_world) = false.
Proof.
  eapply (lock_follows_last_payment checksum [ADMIN] (pay_accounts 1 0 2) 1 2 20 sample_proof ready_world paid_world);
    [exact ready_configs|exact ready_counter|lia|vm_compute; discriminate|exact paid_world_ok
    |vm_compute; discriminate|reflexivity].
Defined.

(** ** The lock comes off while a coupon is in distribution

    A second coupon is created and paid to one holder: the payment mint is
    locked.  Then the first coupon is paid to its holder, and the payment mint
    can be changed although the second coupon has more holders to pay. *)

Definition two_coupons_world : World :=
  run_world (create_coupon [ADMIN] (coupon_accounts 2 1) (coupon_args 2)) ready_world.
Definition newest_paid_world : World := run_world (pay 2 1) two_coupons_world.
Definition older_paid_world : World := run_world (pay 1 0) newest_paid_world.

Example newest_coupon_locks : is_ok (set_payment_token [ADMIN] payment_token_accounts newest_paid_world) = false.
Proof. vm_compute. reflexivity. Qed.

Example older_coupon_unlocks :
  pay 1 0 newest_paid_world = Ok (tt, older_paid_world) /\
  is_ok (set_payment_token [ADMIN] payment_token_accounts older_paid_world) = true.
Proof. split; [apply run_ok|]; vm_compute; reflexivity. Qed.
