(* ===== verification/Factory.v ===== *)
(** * Factory: the factory program ([programs/factory])

    The registry of asset classes: a manager, who can hand over his office,
    pause the factory and create asset classes; the owner of each class, who can
    hand it over and who drafts and finalizes its versions.  A version is a set
    of functionalities, which the other programs read once it is finalized. *)

From S2P Require Import Prelude.
From S2P Require Import Bitmask.
From S2P Require Import ProgramIds.
From S2P Require Import Errors.
From S2P Require Import State.
From S2P Require Import Runtime.
From S2P Require Import Anchor.
From S2P Require Import Frame.
From S2P Require Import PdaSeeds.
From S2P Require Import PdaUtils.
From S2P Require Import Common.

(** ** [helpers.rs] *)

Module helpers.
Definition require_paused (factory : Factory) : M unit :=
  require (f_pause factory) (EFactory FactoryError.FactoryNotPaused).

Definition require_not_paused (factory : Factory) : M unit :=
  require (negb (f_pause factory)) (EFactory FactoryError.FactoryPaused).

Definition verify_manager (factory : Factory) (signer : Pubkey) : M unit :=
  require (N.eqb signer (f_manager factory)) (EFactory FactoryError.NotManager).

Definition verify_pending_manager (pending_manager_factory : FactoryPendingManager) (signer : Pubkey) : M unit :=
  require (N.eqb signer (fpm_pending_manager pending_manager_factory)) (EFactory FactoryError.NotPendingManager).

Definition verify_owner (asset_class : AssetClassOwnership) (signer : Pubkey) : M unit :=
  require (N.eqb signer (aco_owner asset_class)) (EFactory FactoryError.NotOwner).

Definition verify_pending_owner (pending_owner : AssetClassPendingOwner) (signer : Pubkey) : M unit :=
  require (N.eqb signer (acpo_pending_owner pending_owner)) (EFactory FactoryError.NotPendingOwner).
End helpers.

(** ** Accounts of the instructions *)

Record Initialize : Set := mkInitialize { fi_payer : Pubkey; fi_manager : Pubkey; fi_factory : Pubkey }.

(** [NominateManager]; [CancelNomination] has the same fields, [AcceptNomination] has
    [pending_manager] for [current_manager]. *)
Record NominateManager : Set := mkNominateManager {
  nm_manager : Pubkey;
  nm_factory : Pubkey;
  nm_factory_pending_manager_pda : Pubkey }.

(** [Pause]; [Unpause] has the same fields. *)
Record Pause : Set := mkPause { fp_manager : Pubkey; fp_factory : Pubkey }.

Record CreateAssetClass : Set := mkCreateAssetClass {
  cac_manager : Pubkey;
  cac_factory : Pubkey;
  cac_asset_class_ownership_pda : Pubkey }.

(** [NominateAssetClassOwner]; [CancelAssetClassOwnership] has the same fields,
    [AcceptAssetClassOwnership] has [pending_owner] for [current_owner]. *)
Record NominateAssetClassOwner : Set := mkNominateAssetClassOwner {
  no_owner : Pubkey;
  no_factory : Pubkey;
  no_asset_class_ownership_pda : Pubkey;
  no_asset_class_pending_owner_pda : Pubkey }.

(** [InitAssetClassVersion]; the three other version instructions have the same fields. *)
Record InitAssetClassVersion : Set := mkInitAssetClassVersion {
  iv_owner : Pubkey;
  iv_factory : Pubkey;
  iv_asset_class_ownership_pda : Pubkey;
  iv_asset_class_version_pda : Pubkey }.

Section instructions.
Context `{Rt : SolanaRuntime}.

Definition factory_constraint (k : Pubkey) (factory : Factory) : M unit :=
  seeds_bump_check k factory_seeds FACTORY_PROGRAM_ID (f_bump factory).
Definition pending_manager_constraint (k : Pubkey) (pending : FactoryPendingManager) : M unit :=
  seeds_bump_check k factory_pending_manager_seeds FACTORY_PROGRAM_ID (fpm_bump pending).
Definition ownership_constraint (k : Pubkey) (config_id : Z) (ownership : AssetClassOwnership) : M unit :=
  seeds_bump_check k (asset_class_ownership_seeds config_id) FACTORY_PROGRAM_ID (aco_bump ownership).
Definition pending_owner_constraint (k : Pubkey) (config_id : Z) (pending : AssetClassPendingOwner) : M unit :=
  seeds_bump_check k (asset_class_pending_owner_seeds config_id) FACTORY_PROGRAM_ID (acpo_bump pending).
Definition version_constraint (k : Pubkey) (config_id version : Z) : M unit :=
  asset_class_version ← loader_load AssetClassVersion k;
  seeds_bump_check k (asset_class_version_seeds config_id version) FACTORY_PROGRAM_ID (acv_bump asset_class_version).

(** ** The manager *)

Definition initialize (signers : list Pubkey) (a : Initialize) : M unit :=
  signer signers (fi_payer a);;
  signer signers (fi_manager a);;
  bump ← seeds_check (fi_factory a) factory_seeds FACTORY_PROGRAM_ID;
  account_init Factory (fi_payer a) (fi_factory a) signers;;
  let factory := mkFactory (fi_manager a) false bump in
  emit_cpi (EvFactory (FactoryInitialized (fi_manager a)));;
  account_exit (fi_factory a) factory.

Definition nominate_manager (signers : list Pubkey) (a : NominateManager) (new_manager : Pubkey) : M unit :=
  signer signers (nm_manager a);;
  factory ← account_try_from Factory (nm_factory a);
  bump ← seeds_check (nm_factory_pending_manager_pda a) factory_pending_manager_seeds FACTORY_PROGRAM_ID;
  account_init_if_needed FactoryPendingManager (nm_manager a) (nm_factory_pending_manager_pda a) signers;;
  factory_constraint (nm_factory a) factory;;
  helpers.require_not_paused factory;;
  helpers.verify_manager factory (nm_manager a);;
  account_exit (nm_factory_pending_manager_pda a) (mkFactoryPendingManager new_manager bump).

(** The factory is written back before the nomination is closed. *)
Definition accept_nomination (signers : list Pubkey) (a : NominateManager) : M unit :=
  signer signers (nm_manager a);;
  factory ← account_try_from Factory (nm_factory a);
  pending ← account_try_from FactoryPendingManager (nm_factory_pending_manager_pda a);
  factory_constraint (nm_factory a) factory;;
  pending_manager_constraint (nm_factory_pending_manager_pda a) pending;;
  helpers.require_not_paused factory;;
  helpers.verify_pending_manager pending (nm_manager a);;
  account_exit (nm_factory a) (mkFactory (fpm_pending_manager pending) (f_pause factory) (f_bump factory));;
  account_close FACTORY_PROGRAM_ID (nm_factory_pending_manager_pda a) (nm_manager a).

Definition cancel_nomination (signers : list Pubkey) (a : NominateManager) : M unit :=
  signer signers (nm_manager a);;
  factory ← account_try_from Factory (nm_factory a);
  pending ← account_try_from FactoryPendingManager (nm_factory_pending_manager_pda a);
  factory_constraint (nm_factory a) factory;;
  pending_manager_constraint (nm_factory_pending_manager_pda a) pending;;
  helpers.require_not_paused factory;;
  helpers.verify_manager factory (nm_manager a);;
  account_close FACTORY_PROGRAM_ID (nm_factory_pending_manager_pda a) (nm_manager a).

Definition pause (signers : list Pubkey) (a : Pause) : M unit :=
  signer signers (fp_manager a);;
  factory ← account_try_from Factory (fp_factory a);
  factory_constraint (fp_factory a) factory;;
  helpers.require_not_paused factory;;
  helpers.verify_manager factory (fp_manager a);;
  account_exit (fp_factory a) (mkFactory (f_manager factory) true (f_bump factory)).

Definition unpause (signers : list Pubkey) (a : Pause) : M unit :=
  signer signers (fp_manager a);;
  factory ← account_try_from Factory (fp_factory a);
  factory_constraint (fp_factory a) factory;;
  helpers.require_paused factory;;
  helpers.verify_manager factory (fp_manager a);;
  account_exit (fp_factory a) (mkFactory (f_manager factory) false (f_bump factory)).

(** ** The asset classes and their owners *)

Definition create_asset_class (signers : list Pubkey) (a : CreateAssetClass) (config_id : Z) (owner : Pubkey) :
    M unit :=
  signer signers (cac_manager a);;
  factory ← account_try_from Factory (cac_factory a);
  bump ← seeds_check (cac_asset_class_ownership_pda a) (asset_class_ownership_seeds config_id) FACTORY_PROGRAM_ID;
  account_init AssetClassOwnership (cac_manager a) (cac_asset_class_ownership_pda a) signers;;
  factory_constraint (cac_factory a) factory;;
  helpers.require_not_paused factory;;
  helpers.verify_manager factory (cac_manager a);;
  emit_cpi (EvFactory (AssetClassCreated config_id owner (cac_manager a)));;
  account_exit (cac_asset_class_ownership_pda a) (mkAssetClassOwnership owner 0 bump).

Definition nominate_asset_class_owner (signers : list Pubkey) (a : NominateAssetClassOwner) (config_id : Z)
    (new_owner : Pubkey) : M unit :=
  signer signers (no_owner a);;
  factory ← account_try_from Factory (no_factory a);
  ownership ← account_try_from AssetClassOwnership (no_asset_class_ownership_pda a);
  bump ← seeds_check (no_asset_class_pending_owner_pda a) (asset_class_pending_owner_seeds config_id)
    FACTORY_PROGRAM_ID;
  account_init_if_needed AssetClassPendingOwner (no_owner a) (no_asset_class_pending_owner_pda a) signers;;
  factory_constraint (no_factory a) factory;;
  ownership_constraint (no_asset_class_ownership_pda a) config_id ownership;;
  helpers.require_not_paused factory;;
  helpers.verify_owner ownership (no_owner a);;
  account_exit (no_asset_class_pending_owner_pda a) (mkAssetClassPendingOwner new_owner bump).

Definition accept_asset_class_ownership (signers : list Pubkey) (a : NominateAssetClassOwner) (config_id : Z) :
    M unit :=
  signer signers (no_owner a);;
  factory ← account_try_from Factory (no_factory a);
  ownership ← account_try_from AssetClassOwnership (no_asset_class_ownership_pda a);
  pending ← account_try_from AssetClassPendingOwner (no_asset_class_pending_owner_pda a);
  factory_constraint (no_factory a) factory;;
  ownership_constraint (no_asset_class_ownership_pda a) config_id ownership;;
  pending_owner_constraint (no_asset_class_pending_owner_pda a) config_id pending;;
  helpers.require_not_paused factory;;
  helpers.verify_pending_owner pending (no_owner a);;
  account_exit (no_asset_class_ownership_pda a)
    (mkAssetClassOwnership (acpo_pending_owner pending) (aco_latest_version ownership) (aco_bump ownership));;
  account_close FACTORY_PROGRAM_ID (no_asset_class_pending_owner_pda a) (no_owner a).

Definition cancel_asset_class_ownership (signers : list Pubkey) (a : NominateAssetClassOwner) (config_id : Z) :
    M unit :=
  signer signers (no_owner a);;
  factory ← account_try_from Factory (no_factory a);
  ownership ← account_try_from AssetClassOwnership (no_asset_class_ownership_pda a);
  pending ← account_try_from AssetClassPendingOwner (no_asset_class_pending_owner_pda a);
  factory_constraint (no_factory a) factory;;
  ownership_constraint (no_asset_class_ownership_pda a) config_id ownership;;
  pending_owner_constraint (no_asset_class_pending_owner_pda a) config_id pending;;
  helpers.require_not_paused factory;;
  helpers.verify_owner ownership (no_owner a);;
  account_close FACTORY_PROGRAM_ID (no_asset_class_pending_owner_pda a) (no_owner a).

(** ** The versions of an asset class *)

Definition init_asset_class_version (signers : list Pubkey) (a : InitAssetClassVersion) (config_id version : Z) :
    M unit :=
  signer signers (iv_owner a);;
  factory ← account_try_from Factory (iv_factory a);
  ownership ← account_try_from AssetClassOwnership (iv_asset_class_ownership_pda a);
  bump ← seeds_check (iv_asset_class_version_pda a) (asset_class_version_seeds config_id version) FACTORY_PROGRAM_ID;
  loader_init AssetClassVersion (iv_owner a) (iv_asset_class_version_pda a) signers;;
  factory_constraint (iv_factory a) factory;;
  ownership_constraint (iv_asset_class_ownership_pda a) config_id ownership;;
  helpers.require_not_paused factory;;
  helpers.verify_owner ownership (iv_owner a);;
  expected_version ← lift (ok_or (checked_add_u64 (aco_latest_version ownership) 1) (EFactory FactoryError.Overflow));
  require (version =? expected_version) (EFactory FactoryError.InvalidVersion);;
  version_account ← loader_load_init AssetClassVersion (iv_asset_class_version_pda a);
  emit_cpi (EvFactory (AssetClassVersionInitialized config_id version (iv_owner a)));;
  account_exit (iv_asset_class_version_pda a)
    (mkAssetClassVersion config_id version ASSET_CLASS_VERSION_STATE_DRAFT bump (acv_mask version_account)).

(** What [enable], [disable] and [finalize] check before the version is read. *)
Definition version_try_accounts (signers : list Pubkey) (a : InitAssetClassVersion) (config_id version : Z) :
    M (Factory * AssetClassOwnership) :=
  signer signers (iv_owner a);;
  factory ← account_try_from Factory (iv_factory a);
  ownership ← account_try_from AssetClassOwnership (iv_asset_class_ownership_pda a);
  loader_load AssetClassVersion (iv_asset_class_version_pda a);;
  factory_constraint (iv_factory a) factory;;
  ownership_constraint (iv_asset_class_ownership_pda a) config_id ownership;;
  version_constraint (iv_asset_class_version_pda a) config_id version;;
  mret (factory, ownership).

Definition require_draft (v : AssetClassVersion) : M unit :=
  require (acv_state v =? ASSET_CLASS_VERSION_STATE_DRAFT) (EFactory FactoryError.VersionNotDraft).

Definition with_mask (mask : list Z) (v : AssetClassVersion) : AssetClassVersion :=
  mkAssetClassVersion (acv_config_id v) (acv_version v) (acv_state v) (acv_bump v) mask.

Definition enable_asset_class_version_functionalities (signers : list Pubkey) (a : InitAssetClassVersion)
    (config_id version : Z) (functionalities : list Z) : M unit :=
  '(factory, ownership) ← version_try_accounts signers a config_id version;
  helpers.require_not_paused factory;;
  helpers.verify_owner ownership (iv_owner a);;
  version_account ← loader_load AssetClassVersion (iv_asset_class_version_pda a);
  require_draft version_account;;
  mask ← bits_or (EFactory FactoryError.FunctionalityOutOfBounds)
    (set_bits (acv_mask version_account) functionalities);
  emit_cpi (EvFactory (AssetClassVersionFunctionalitiesEnabled config_id version functionalities (iv_owner a)));;
  account_exit (iv_asset_class_version_pda a) (with_mask mask version_account).

Definition disable_asset_class_version_functionalities (signers : list Pubkey) (a : InitAssetClassVersion)
    (config_id version : Z) (functionalities : list Z) : M unit :=
  '(factory, ownership) ← version_try_accounts signers a config_id version;
  helpers.require_not_paused factory;;
  helpers.verify_owner ownership (iv_owner a);;
  version_account ← loader_load AssetClassVersion (iv_asset_class_version_pda a);
  require_draft version_account;;
  mask ← bits_or (EFactory FactoryError.FunctionalityOutOfBounds)
    (clear_bits (acv_mask version_account) functionalities);
  account_exit (iv_asset_class_version_pda a) (with_mask mask version_account).

(** The version is written in place, the ownership when the instruction ends. *)
Definition finalize_asset_class_version (signers : list Pubkey) (a : InitAssetClassVersion)
    (config_id version : Z) : M unit :=
  '(factory, ownership) ← version_try_accounts signers a config_id version;
  helpers.require_not_paused factory;;
  helpers.verify_owner ownership (iv_owner a);;
  expected_version ← lift (ok_or (checked_add_u64 (aco_latest_version ownership) 1) (EFactory FactoryError.Overflow));
  version_account ← loader_load AssetClassVersion (iv_asset_class_version_pda a);
  require_draft version_account;;
  require (acv_version version_account =? expected_version) (EFactory FactoryError.InvalidVersion);;
  account_exit (iv_asset_class_version_pda a)
    (mkAssetClassVersion (acv_config_id version_account) (acv_version version_account)
       ASSET_CLASS_VERSION_STATE_FINALIZED (acv_bump version_account) (acv_mask version_account));;
  emit_cpi (EvFactory (AssetClassVersionFinalized config_id (acv_version version_account) (iv_owner a)));;
  account_exit (iv_asset_class_ownership_pda a)
    (mkAssetClassOwnership (aco_owner ownership) (acv_version version_account) (aco_bump ownership)).
End instructions.

Inductive FactoryInstruction : Set :=
| IxInitialize (a : Initialize)
| IxNominateManager (a : NominateManager) (new_manager : Pubkey)
| IxAcceptNomination (a : NominateManager)
| IxCancelNomination (a : NominateManager)
| IxPause (a : Pause)
| IxUnpause (a : Pause)
| IxCreateAssetClass (a : CreateAssetClass) (config_id : Z) (owner : Pubkey)
| IxNominateAssetClassOwner (a : NominateAssetClassOwner) (config_id : Z) (new_owner : Pubkey)
| IxAcceptAssetClassOwnership (a : NominateAssetClassOwner) (config_id : Z)
| IxCancelAssetClassOwnership (a : NominateAssetClassOwner) (config_id : Z)
| IxInitVersion (a : InitAssetClassVersion) (config_id version : Z)
| IxEnableFunctionalities (a : InitAssetClassVersion) (config_id version : Z) (functionalities : list Z)
| IxDisableFunctionalities (a : InitAssetClassVersion) (config_id version : Z) (functionalities : list Z)
| IxFinalizeVersion (a : InitAssetClassVersion) (config_id version : Z).

Definition factory `{Rt : SolanaRuntime} (signers : list Pubkey) (ix : FactoryInstruction) : M unit :=
  match ix with
  | IxInitialize a => initialize signers a
  | IxNominateManager a n => nominate_manager signers a n
  | IxAcceptNomination a => accept_nomination signers a
  | IxCancelNomination a => cancel_nomination signers a
  | IxPause a => pause signers a
  | IxUnpause a => unpause signers a
  | IxCreateAssetClass a c owner => create_asset_class signers a c owner
  | IxNominateAssetClassOwner a c n => nominate_asset_class_owner signers a c n
  | IxAcceptAssetClassOwnership a c => accept_asset_class_ownership signers a c
  | IxCancelAssetClassOwnership a c => cancel_asset_class_ownership signers a c
  | IxInitVersion a c v => init_asset_class_version signers a c v
  | IxEnableFunctionalities a c v fs => enable_asset_class_version_functionalities signers a c v fs
  | IxDisableFunctionalities a c v fs => disable_asset_class_version_functionalities signers a c v fs
  | IxFinalizeVersion a c v => finalize_asset_class_version signers a c v
  end.
