(* ===== verification/Registry.v ===== *)
(** * Registry: the abstract registry of asset classes

    What the factory program promises: a finite record, by key, of the manager,
    the nominee for his office, the owners of the classes and their nominees, and
    the versions.  [registry_step] is the specification of each instruction; the
    invariants of the registry are proved on it. *)

From S2P Require Import Prelude.
From S2P Require Import Bitmask.
From S2P Require Import ProgramIds.
From S2P Require Import Errors.
From S2P Require Import State.
From S2P Require Import Runtime.
From S2P Require Import Anchor.
From S2P Require Import Factory.

Inductive Key : Set :=
| KFactory
| KNominee
| KClass (config_id : Z)
| KHeir (config_id : Z)
| KVersion (config_id version : Z).

#[export] Instance Key_eq_dec : EqDecision Key.
Proof. solve_decision. Defined.

Inductive Entry : Set :=
| EFac (manager : Pubkey) (paused : bool)
| ENominee (nominee : Pubkey)
| EClass (owner : Pubkey) (latest_version : Z)
| EHeir (nominee : Pubkey)
| EVersion (config_id version state : Z) (functionalities : gset Z).

Definition Registry : Type := Key -> option Entry.

Definition upd (k : Key) (e : option Entry) (r : Registry) : Registry :=
  fun j => if decide (j = k) then e else r j.

Lemma upd_eq k e r : upd k e r k = e.
Proof. unfold upd. by rewrite decide_True. Qed.

Lemma upd_ne k e r j : j <> k -> upd k e r j = r j.
Proof. intros. unfold upd. by rewrite decide_False. Qed.

(** The manager of a factory that is not paused. *)
Definition active (r : Registry) : option Pubkey :=
  match r KFactory with Some (EFac manager false) => Some manager | _ => None end.

(** [k] signed. *)
Definition signed (signers : list Pubkey) (k : Pubkey) : option unit :=
  if decide (k ∈ signers) then Some tt else None.

(** The class [config_id], for its owner [k], in an active factory. *)
Definition owned (r : Registry) (signers : list Pubkey) (config_id : Z) (k : Pubkey) : option Z :=
  _ ← active r; signed signers k;;
  match r (KClass config_id) with
  | Some (EClass owner latest) => if decide (k = owner) then Some latest else None
  | _ => None
  end.

(** The functionalities of a draft. *)
Definition draft (r : Registry) (config_id version : Z) : option (Z * Z * gset Z) :=
  match r (KVersion config_id version) with
  | Some (EVersion c v state fs) =>
      if decide (state = ASSET_CLASS_VERSION_STATE_DRAFT) then Some (c, v, fs) else None
  | _ => None
  end.

Definition in_range (functionalities : list Z) : option unit :=
  if decide (Forall (fun f => f < FUNCTIONALITIES_BITS_MASK) functionalities) then Some tt else None.

Definition unused (r : Registry) (k : Key) : option unit :=
  match r k with None => Some tt | Some _ => None end.

(** What an instruction signed by [signers] makes of the registry; [None] when it is refused. *)
Definition registry_step (signers : list Pubkey) (ix : FactoryInstruction) (r : Registry) : option Registry :=
  match ix with
  | IxInitialize a =>
      signed signers (fi_manager a);; unused r KFactory;;
      Some (upd KFactory (Some (EFac (fi_manager a) false)) r)
  | IxNominateManager a n =>
      m ← active r; signed signers m;; Some (upd KNominee (Some (ENominee n)) r)
  | IxAcceptNomination a =>
      _ ← active r; signed signers (nm_manager a);;
      match r KNominee with
      | Some (ENominee n) => if decide (nm_manager a = n) then
          Some (upd KNominee None (upd KFactory (Some (EFac n false)) r)) else None
      | _ => None
      end
  | IxCancelNomination a => m ← active r; signed signers m;; Some (upd KNominee None r)
  | IxPause a => m ← active r; signed signers m;; Some (upd KFactory (Some (EFac m true)) r)
  | IxUnpause a =>
      match r KFactory with
      | Some (EFac m true) => signed signers m;; Some (upd KFactory (Some (EFac m false)) r)
      | _ => None
      end
  | IxCreateAssetClass a c owner =>
      m ← active r; signed signers m;; unused r (KClass c);; Some (upd (KClass c) (Some (EClass owner 0)) r)
  | IxNominateAssetClassOwner a c n =>
      _ ← owned r signers c (no_owner a); Some (upd (KHeir c) (Some (EHeir n)) r)
  | IxAcceptAssetClassOwnership a c =>
      _ ← active r; signed signers (no_owner a);;
      match r (KHeir c), r (KClass c) with
      | Some (EHeir n), Some (EClass _ latest) => if decide (no_owner a = n) then
          Some (upd (KHeir c) None (upd (KClass c) (Some (EClass n latest)) r)) else None
      | _, _ => None
      end
  | IxCancelAssetClassOwnership a c => _ ← owned r signers c (no_owner a); Some (upd (KHeir c) None r)
  | IxInitVersion a c v =>
      latest ← owned r signers c (iv_owner a); unused r (KVersion c v);;
      if decide (v = latest + 1 /\ 0 <= v <= U64_MAX) then
        Some (upd (KVersion c v) (Some (EVersion c v ASSET_CLASS_VERSION_STATE_DRAFT ∅)) r) else None
  | IxEnableFunctionalities a c v fs =>
      _ ← owned r signers c (iv_owner a); '(c', v', fs') ← draft r c v; in_range fs;;
      Some (upd (KVersion c v) (Some (EVersion c' v' ASSET_CLASS_VERSION_STATE_DRAFT (fs' ∪ list_to_set fs))) r)
  | IxDisableFunctionalities a c v fs =>
      _ ← owned r signers c (iv_owner a); '(c', v', fs') ← draft r c v; in_range fs;;
      Some (upd (KVersion c v) (Some (EVersion c' v' ASSET_CLASS_VERSION_STATE_DRAFT (fs' ∖ list_to_set fs))) r)
  | IxFinalizeVersion a c v =>
      latest ← owned r signers c (iv_owner a); '(c', v', fs') ← draft r c v;
      if decide (v' = latest + 1 /\ 0 <= v' <= U64_MAX) then
        Some (upd (KClass c) (Some (EClass (iv_owner a) v'))
          (upd (KVersion c v) (Some (EVersion c' v' ASSET_CLASS_VERSION_STATE_FINALIZED fs')) r))
      else None
  end.

(** ** Invariants of the registry *)

(** Entry of the version [v] of a class whose latest finalized version is [latest]. *)
Definition version_entry_ok (c v latest : Z) (e : option Entry) : Prop :=
  match e with
  | Some (EVersion c' v' state _) => c' = c /\ v' = v /\
      (state = ASSET_CLASS_VERSION_STATE_FINALIZED /\ 1 <= v <= latest \/
       state = ASSET_CLASS_VERSION_STATE_DRAFT /\ v = latest + 1)
  | Some _ => False
  | None => ~ 1 <= v <= latest
  end.

(** The versions of every class are numbered from 1: those up to the latest are finalized, the
    next one may be a draft, there are no others. *)
Definition history (r : Registry) : Prop :=
  forall c, match r (KClass c) with
    | Some (EClass _ latest) => 0 <= latest <= U64_MAX /\ forall v, version_entry_ok c v latest (r (KVersion c v))
    | Some _ => False
    | None => forall v, r (KVersion c v) = None
    end.

(** Inversion of [registry_step]: every check becomes a hypothesis. *)
Ltac step_case H :=
  repeat match type of H with
  | context [mbind _ _] => unfold mbind, option_bind in H
  | context [signed ?s ?k] => let Hs := fresh "Hsigned" in unfold signed in H; destruct (decide (k ∈ s)) as [Hs|Hs]; [|discriminate H]
  | context [owned ?r ?s ?c ?k] => let Ho := fresh "Howned" in destruct (owned r s c k) as [?latest|] eqn:Ho; [|discriminate H]
  | context [draft ?r ?c ?v] => let Hd := fresh "Hdraft" in destruct (draft r c v) as [[[?c' ?v'] ?fs']|] eqn:Hd; [|discriminate H]
  | context [active ?r] => let Ha := fresh "Hactive" in destruct (active r) as [?m|] eqn:Ha; [|discriminate H]
  | context [unused ?r ?k] => let Hu := fresh "Hunused" in destruct (unused r k) as [[]|] eqn:Hu; [|discriminate H]
  | context [in_range ?fs] => destruct (in_range fs) as [[]|]; [|discriminate H]
  | context [decide ?P] => let Hd := fresh "Hdec" in destruct (decide P) as [Hd|Hd]; [|discriminate H]
  | context [match ?r ?k with _ => _ end] => destruct (r k) as [[]|] eqn:?; try discriminate H
  | context [if ?b then _ else _] => destruct b; try discriminate H
  end; simplify_eq.

Lemma owned_Some r signers c k latest :
  owned r signers c k = Some latest ->
  is_Some (active r) /\ k ∈ signers /\ r (KClass c) = Some (EClass k latest).
Proof.
  unfold owned. intros H. step_case H. split; [by eexists|]. done.
Qed.

Lemma draft_Some r c v x :
  draft r c v = Some x ->
  r (KVersion c v) = Some (EVersion x.1.1 x.1.2 ASSET_CLASS_VERSION_STATE_DRAFT x.2).
Proof. unfold draft. intros H. step_case H. done. Qed.

Lemma unused_Some r k x : unused r k = Some x -> r k = None.
Proof. unfold unused. by destruct (r k). Qed.

Lemma active_Some r m : active r = Some m <-> r KFactory = Some (EFac m false).
Proof.
  unfold active. destruct (r KFactory) as [[mgr []| | | |]|]; split; congruence.
Qed.

Lemma draft_not_finalized r c v x c' v' fs :
  draft r c v = Some x ->
  r (KVersion c v) = Some (EVersion c' v' ASSET_CLASS_VERSION_STATE_FINALIZED fs) -> False.
Proof. intros Hd%draft_Some Hf. rewrite Hd in Hf. by injection Hf. Qed.

(** A finalized version never changes. *)
Lemma step_finalized signers ix r r' c v c' v' fs :
  registry_step signers ix r = Some r' ->
  r (KVersion c v) = Some (EVersion c' v' ASSET_CLASS_VERSION_STATE_FINALIZED fs) ->
  r' (KVersion c v) = r (KVersion c v).
Proof.
  intros H Hf.
  assert (Hup : forall c0 v0 e, (c0, v0) <> (c, v) -> upd (KVersion c0 v0) e r (KVersion c v) = r (KVersion c v)).
  { intros c0 v0 e Hne. apply upd_ne. congruence. }
  destruct ix; simpl in H; step_case H; rewrite ?upd_ne by discriminate; try done; apply Hup; intros [= -> ->].
  - apply unused_Some in Hunused. congruence.
  - by eapply draft_not_finalized.
  - by eapply draft_not_finalized.
  - by eapply draft_not_finalized.
Qed.

(** The manager changes only to a nominee who accepts. *)
Lemma step_manager signers ix r r' m p m' p' :
  registry_step signers ix r = Some r' -> r KFactory = Some (EFac m p) -> r' KFactory = Some (EFac m' p') ->
  m' = m \/ (exists a, ix = IxAcceptNomination a) /\ m' ∈ signers /\ r KNominee = Some (ENominee m').
Proof.
  intros H Hm Hm'. destruct ix; simpl in H; step_case H; try (left; congruence);
    rewrite ?upd_eq, ?upd_ne in Hm' by discriminate; try (left; congruence);
    repeat match goal with
    | Ha : active _ = Some _ |- _ => apply active_Some in Ha
    | Hu : unused _ _ = Some _ |- _ => apply unused_Some in Hu
    end; try (left; congruence).
  rewrite upd_eq in Hm'. simplify_eq. right. split; [by eexists|done].
Qed.

(** The owner of a class changes only to the nominee of the class, who accepts. *)
Lemma step_owner signers ix r r' c o l o' l' :
  registry_step signers ix r = Some r' -> r (KClass c) = Some (EClass o l) -> r' (KClass c) = Some (EClass o' l') ->
  o' = o \/ (exists a, ix = IxAcceptAssetClassOwnership a c) /\ o' ∈ signers /\ r (KHeir c) = Some (EHeir o').
Proof.
  intros H Hm Hm'. destruct ix; simpl in H; step_case H;
    repeat match goal with
    | Ho : owned _ _ _ _ = Some _ |- _ => apply owned_Some in Ho as (_ & _ & Ho)
    | Hu : unused _ _ = Some _ |- _ => apply unused_Some in Hu
    end;
    unfold upd in Hm'; repeat (case_decide; simplify_eq); auto.
  right. split; [by eexists|done].
Qed.

(** A paused factory refuses everything but the manager's [unpause]. *)
Lemma step_paused signers ix r r' m :
  registry_step signers ix r = Some r' -> r KFactory = Some (EFac m true) ->
  (exists a, ix = IxUnpause a) /\ m ∈ signers.
Proof.
  intros H Hm. assert (Ha : active r = None) by (unfold active; by rewrite Hm).
  destruct ix; simpl in H; unfold owned in H; rewrite ?Ha in H; try discriminate H.
  - step_case H. unfold unused in Hunused. rewrite Hm in Hunused. discriminate Hunused.
  - rewrite Hm in H. step_case H. split; [by eexists|done].
Qed.

(** ** The history of the versions *)

Definition class_history (r : Registry) (c : Z) : Prop :=
  match r (KClass c) with
  | Some (EClass _ latest) => 0 <= latest <= U64_MAX /\ forall v, version_entry_ok c v latest (r (KVersion c v))
  | Some _ => False
  | None => forall v, r (KVersion c v) = None
  end.

Lemma history_class r c : history r -> class_history r c.
Proof. intros H. exact (H c). Qed.

(** Only the class [c] and its versions change. *)
Lemma history_upd r r' c :
  (forall j, j <> c -> r' (KClass j) = r (KClass j) /\ forall v, r' (KVersion j v) = r (KVersion j v)) ->
  (class_history r c -> class_history r' c) -> history r -> history r'.
Proof.
  intros Hj Hc H j. destruct (decide (j = c)) as [->|Hne]; [exact (Hc (H c))|].
  destruct (Hj j Hne) as [E Ev]. pose proof (H j) as Hh. rewrite E. destruct (r (KClass j)) as [[]|]; try done.
  - destruct Hh as [? Hh]. split; [done|]. intros v. rewrite Ev. apply Hh.
  - intros v. by rewrite Ev.
Qed.

Lemma history_other r k e :
  (forall c, k <> KClass c) -> (forall c v, k <> KVersion c v) -> history r -> history (upd k e r).
Proof.
  intros H1 H2. apply (history_upd r _ 0).
  - intros j _. rewrite upd_ne by (by apply not_eq_sym). split; [done|]. intros v. by rewrite upd_ne by (by apply not_eq_sym).
  - unfold class_history. rewrite upd_ne by (by apply not_eq_sym).
    destruct (r (KClass 0)) as [[]|]; try done.
    + intros [? Hv]. split; [done|]. intros v. rewrite upd_ne by (by apply not_eq_sym). apply Hv.
    + intros Hv v. rewrite upd_ne by (by apply not_eq_sym). apply Hv.
Qed.

(** A class whose latest version stays the same. *)
Lemma history_owner r c o o' latest :
  r (KClass c) = Some (EClass o latest) -> history r -> history (upd (KClass c) (Some (EClass o' latest)) r).
Proof.
  intros E. apply (history_upd r _ c).
  - intros j Hne. rewrite upd_ne by congruence. split; [done|]. intros v. by rewrite upd_ne by discriminate.
  - unfold class_history. rewrite E, upd_eq. intros [? Hv]. split; [done|].
    intros v. rewrite upd_ne by discriminate. apply Hv.
Qed.

Lemma history_create r c owner :
  r (KClass c) = None -> history r -> history (upd (KClass c) (Some (EClass owner 0)) r).
Proof.
  intros E. apply (history_upd r _ c).
  - intros j Hne. rewrite upd_ne by congruence. split; [done|]. intros v. by rewrite upd_ne by discriminate.
  - unfold class_history. rewrite E, upd_eq. intros Hv. split; [unfold U64_MAX; lia|].
    intros v. rewrite upd_ne, Hv by discriminate. simpl. lia.
Qed.

(** A version that keeps its numbers and stays a draft, or a new one. *)
Lemma history_draft r c v o latest c' v' fs :
  r (KClass c) = Some (EClass o latest) -> c' = c -> v' = v -> v = latest + 1 -> history r ->
  history (upd (KVersion c v) (Some (EVersion c' v' ASSET_CLASS_VERSION_STATE_DRAFT fs)) r).
Proof.
  intros E -> -> Hv. apply (history_upd r _ c).
  - intros j Hne. rewrite upd_ne by discriminate. split; [done|]. intros x. by rewrite upd_ne by congruence.
  - unfold class_history. rewrite upd_ne by discriminate. rewrite E. intros [? Hh]. split; [done|].
    intros x. unfold upd. case_decide as Hd; [injection Hd as ->; simpl; auto|apply Hh].
Qed.

Lemma history_draft_entry r c v o latest x :
  history r -> r (KClass c) = Some (EClass o latest) -> draft r c v = Some x ->
  x.1.1 = c /\ x.1.2 = v /\ v = latest + 1 /\ 0 <= latest.
Proof.
  intros H%(fun H => history_class _ c H) E Hd%draft_Some. unfold class_history in H. rewrite E in H.
  destruct H as [? H]. specialize (H v). rewrite Hd in H. simpl in H.
  destruct H as (-> & -> & [[Hs _]|[_ ->]]); [discriminate Hs|lia].
Qed.

Lemma history_finalize r c v o o' latest fs :
  r (KClass c) = Some (EClass o latest) -> v = latest + 1 -> 0 <= v <= U64_MAX -> history r ->
  history (upd (KClass c) (Some (EClass o' v))
    (upd (KVersion c v) (Some (EVersion c v ASSET_CLASS_VERSION_STATE_FINALIZED fs)) r)).
Proof.
  intros E Hv Hb. apply (history_upd r _ c).
  - intros j Hne. rewrite !upd_ne by congruence. split; [done|]. intros x. by rewrite !upd_ne by congruence.
  - unfold class_history. rewrite E, upd_eq. intros [? Hh]. split; [done|]. intros x.
    rewrite upd_ne by discriminate. unfold upd. case_decide as Hd.
    + injection Hd as ->. simpl. split; [done|]. split; [done|]. left. split; [done|lia].
    + assert (x <> v) by congruence. specialize (Hh x). destruct (r (KVersion c x)) as [[]|]; simpl in *; try done.
      * destruct Hh as (-> & -> & [[-> ?]|[-> ?]]); [|lia]. split; [done|]. split; [done|]. left. split; [done|lia].
      * lia.
Qed.

Lemma step_history signers ix r r' : registry_step signers ix r = Some r' -> history r -> history r'.
Proof.
  intros H Hh. destruct ix; simpl in H; step_case H;
    try (by repeat apply history_other);
    try match goal with Ho : owned _ _ _ _ = Some _ |- _ => apply owned_Some in Ho as (_ & _ & Ho) end.
  - apply unused_Some in Hunused. by apply history_create.
  - apply history_other; [done|done|]. by eapply history_owner.
  - destruct Hdec as [-> _]. by eapply history_draft.
  - destruct (history_draft_entry _ _ _ _ _ _ Hh Howned Hdraft) as (? & ? & ? & _). by eapply history_draft.
  - destruct (history_draft_entry _ _ _ _ _ _ Hh Howned Hdraft) as (? & ? & ? & _). by eapply history_draft.
  - destruct (history_draft_entry _ _ _ _ _ _ Hh Howned Hdraft) as (Ec & Ev & ? & ?). simpl in Ec, Ev. subst.
    destruct Hdec. by eapply history_finalize.
Qed.
