(* ===== verification/FactoryProofs.v ===== *)
(** * FactoryProofs: the factory program implements the registry

    [registry w] reads the abstract registry off the accounts of the factory
    program; every instruction that succeeds is the step of the specification. *)

From S2P Require Import Prelude.
From S2P Require Import Bitmask.
From S2P Require Import ProgramIds.
From S2P Require Import Errors.
From S2P Require Import State.
From S2P Require Import Runtime.
From S2P Require Import Anchor.
From S2P Require Import Frame.
From S2P Require Import Reference.
From S2P Require Import PdaSeeds.
From S2P Require Import PdaUtils.
From S2P Require Import Common.
From S2P Require Import Sample.
From S2P Require Import Factory.
From S2P Require Import Registry.

(** ** The registry of a world *)

Definition key_seeds (k : Key) : list Seed :=
  match k with
  | KFactory => factory_seeds
  | KNominee => factory_pending_manager_seeds
  | KClass c => asset_class_ownership_seeds c
  | KHeir c => asset_class_pending_owner_seeds c
  | KVersion c v => asset_class_version_seeds c v
  end.

Definition entry_of (a : Account) : option Entry :=
  if N.eqb (acc_owner a) FACTORY_PROGRAM_ID then
    match acc_data a with
    | DFactory f => Some (EFac (f_manager f) (f_pause f))
    | DFactoryPendingManager p => Some (ENominee (fpm_pending_manager p))
    | DAssetClassOwnership o => Some (EClass (aco_owner o) (aco_latest_version o))
    | DAssetClassPendingOwner p => Some (EHeir (acpo_pending_owner p))
    | DAssetClassVersion v => Some (EVersion (acv_config_id v) (acv_version v) (acv_state v) (mask_set (acv_mask v)))
    | _ => None
    end
  else None.

(** The kind of entry found at a key. *)
Definition fits_key (k : Key) (e : Entry) : Prop :=
  match k, e with
  | KFactory, EFac _ _ | KNominee, ENominee _ | KClass _, EClass _ _ | KHeir _, EHeir _
  | KVersion _ _, EVersion _ _ _ _ => True
  | _, _ => False
  end.

(** The mask of a version has the capacity of the program and holds bytes. *)
Definition data_ok (d : AccountData) : Prop :=
  match d with
  | DAssetClassVersion v => Z.of_nat (length (acv_mask v)) = FUNCTIONALITIES_BYTES_MASK /\ mask_ok (acv_mask v)
  | _ => True
  end.

Section registry.
Context `{Rt : SolanaRuntime}.

Definition key_pda (k : Key) : Pubkey := pda (key_seeds k) FACTORY_PROGRAM_ID.

Definition registry (w : World) : Registry := fun k => entry_of (account w (key_pda k)).

(** Entries are found at their canonical addresses only, with well-formed masks. *)
Definition registry_wf (w : World) : Prop :=
  forall a e, entry_of (account w a) = Some e -> (exists k, a = key_pda k /\ fits_key k e) /\ data_ok (data_of w a).

(** The registry of [w] is [r]. *)
Definition reg_is (w : World) (r : Registry) : Prop := registry_wf w /\ forall k, registry w k = r k.
End registry.

Section proofs.
Context `{Rt : SolanaRuntime} `{Laws : !RuntimeLaws}.

Lemma key_seeds_inj k k' : key_seeds k = key_seeds k' -> k = k'.
Proof. destruct k, k'; intros [=]; congruence. Qed.

Lemma key_pda_inj k k' : key_pda k = key_pda k' -> k = k'.
Proof. intros E. apply pda_inj in E as [E _]. by apply key_seeds_inj. Qed.

Lemma reg_is_ext w r r' : reg_is w r -> (forall k, r k = r' k) -> reg_is w r'.
Proof. intros [Hw Hr] E. split; [done|]. intros k. by rewrite Hr. Qed.

(** Only the accounts matter. *)
Lemma reg_is_accounts w w' r : w_accounts w' = w_accounts w -> reg_is w r -> reg_is w' r.
Proof.
  intros E [Hw Hr]. assert (Ea : forall k, account w' k = account w k) by (intros k; unfold account; by rewrite E).
  split.
  - intros a e. unfold data_of. rewrite Ea. apply Hw.
  - intros k. unfold registry. rewrite Ea. apply Hr.
Qed.

(** Writing an account at a key updates the registry at that key. *)
Lemma reg_is_set k a w r :
  (forall e, entry_of a = Some e -> fits_key k e) -> data_ok (acc_data a) -> reg_is w r ->
  reg_is (set_account (key_pda k) a w) (upd k (entry_of a) r).
Proof.
  intros Hf Hd [Hw Hr]. split.
  - intros b e He. unfold data_of in *. rewrite account_set_account in *. case_decide as E.
    + subst b. split; [exists k; auto|done].
    + by apply Hw in He.
  - intros j. unfold registry, upd. rewrite account_set_account.
    destruct (decide (j = k)) as [->|Hne]; [by rewrite decide_True|].
    rewrite decide_False by (intros E%key_pda_inj; congruence). apply Hr.
Qed.

(** The same, for a world with the accounts of [w] and a registry given up to its values. *)
Lemma reg_is_write k a w w1 r r' :
  w_accounts w1 = w_accounts w -> (forall e, entry_of a = Some e -> fits_key k e) -> data_ok (acc_data a) ->
  reg_is w r -> (forall j, upd k (entry_of a) r j = r' j) -> reg_is (set_account (key_pda k) a w1) r'.
Proof.
  intros E Hf Hd Hr Hx. eapply reg_is_ext; [|exact Hx].
  apply reg_is_set; [done|done|]. by eapply reg_is_accounts.
Qed.

(** An account of the program at an address of the seeds of [k] is the entry of [k]. *)
Lemma reg_is_read w r k a e :
  reg_is w r -> pda_at (key_seeds k) FACTORY_PROGRAM_ID a -> entry_of (account w a) = Some e ->
  a = key_pda k /\ r k = Some e /\ data_ok (data_of w a).
Proof.
  intros [Hw Hr] Hk He. destruct (Hw a e He) as [(k' & -> & _) Hd].
  assert (k' = k) as ->.
  { destruct (pda_at_unique _ _ _ _ _ Hk eq_refl) as [E _]. symmetry. by apply key_seeds_inj. }
  split; [done|]. split; [|done]. by rewrite <- Hr.
Qed.

Lemma entry_zeroed p n : entry_of (mkAccount p (DZeroed n)) = None.
Proof. unfold entry_of. by destruct (N.eqb _ _). Qed.

Lemma fresh_unused w r k : reg_is w r -> fresh w (key_pda k) -> r k = None.
Proof.
  intros [_ Hr] [Ho _]. rewrite <- Hr. unfold registry, entry_of. unfold owner_of in Ho. by rewrite Ho.
Qed.

(** Creating an account at an unused key changes nothing. *)
Lemma reg_is_init w r k space w1 :
  reg_is w r -> fresh w (key_pda k) -> w_accounts w1 = w_accounts w ->
  reg_is (set_account (key_pda k) (mkAccount FACTORY_PROGRAM_ID (DZeroed space)) w1) r.
Proof.
  intros Hr Hf E. eapply reg_is_write; [exact E|by intros e|done|exact Hr|].
  intros j. unfold upd. case_decide as Hj; [|done]. subst j. by rewrite (fresh_unused _ _ _ Hr Hf).
Qed.

(** ** Reading the accounts of an instruction *)

Section reads.
Context (w : World) (r : Registry) (Hr : reg_is w r).

Lemma read_factory k (f : Factory) :
  stored w k f -> pda_at factory_seeds FACTORY_PROGRAM_ID k ->
  k = key_pda KFactory /\ r KFactory = Some (EFac (f_manager f) (f_pause f)).
Proof.
  intros Hs Hk. destruct (reg_is_read w r KFactory k (EFac (f_manager f) (f_pause f)) Hr Hk) as (? & ? & _);
    [|done]. by rewrite Hs.
Qed.

Lemma read_nominee k (p : FactoryPendingManager) :
  stored w k p -> pda_at factory_pending_manager_seeds FACTORY_PROGRAM_ID k ->
  k = key_pda KNominee /\ r KNominee = Some (ENominee (fpm_pending_manager p)).
Proof.
  intros Hs Hk. destruct (reg_is_read w r KNominee k (ENominee (fpm_pending_manager p)) Hr Hk) as (? & ? & _);
    [|done]. by rewrite Hs.
Qed.

Lemma read_class k c (o : AssetClassOwnership) :
  stored w k o -> pda_at (asset_class_ownership_seeds c) FACTORY_PROGRAM_ID k ->
  k = key_pda (KClass c) /\ r (KClass c) = Some (EClass (aco_owner o) (aco_latest_version o)).
Proof.
  intros Hs Hk. destruct (reg_is_read w r (KClass c) k (EClass (aco_owner o) (aco_latest_version o)) Hr Hk)
    as (? & ? & _); [|done]. by rewrite Hs.
Qed.

Lemma read_heir k c (p : AssetClassPendingOwner) :
  stored w k p -> pda_at (asset_class_pending_owner_seeds c) FACTORY_PROGRAM_ID k ->
  k = key_pda (KHeir c) /\ r (KHeir c) = Some (EHeir (acpo_pending_owner p)).
Proof.
  intros Hs Hk. destruct (reg_is_read w r (KHeir c) k (EHeir (acpo_pending_owner p)) Hr Hk) as (? & ? & _);
    [|done]. by rewrite Hs.
Qed.

Lemma read_version k c v (x : AssetClassVersion) :
  stored w k x -> pda_at (asset_class_version_seeds c v) FACTORY_PROGRAM_ID k ->
  k = key_pda (KVersion c v) /\
  r (KVersion c v) = Some (EVersion (acv_config_id x) (acv_version x) (acv_state x) (mask_set (acv_mask x))) /\
  Z.of_nat (length (acv_mask x)) = FUNCTIONALITIES_BYTES_MASK /\ mask_ok (acv_mask x).
Proof.
  intros Hs Hk. destruct (reg_is_read w r (KVersion c v) k
    (EVersion (acv_config_id x) (acv_version x) (acv_state x) (mask_set (acv_mask x))) Hr Hk) as (? & ? & Hd).
  - by rewrite Hs.
  - rewrite (stored_data _ _ _ Hs) in Hd. done.
Qed.
End reads.

Lemma active_intro r m : r KFactory = Some (EFac m false) -> active r = Some m.
Proof. apply active_Some. Qed.

Lemma signed_intro signers k : k ∈ signers -> signed signers k = Some tt.
Proof. intros. unfold signed. by rewrite decide_True. Qed.

Lemma unused_intro r k : r k = None -> unused r k = Some tt.
Proof. unfold unused. by intros ->. Qed.

Lemma owned_intro r signers c k m latest :
  r KFactory = Some (EFac m false) -> k ∈ signers -> r (KClass c) = Some (EClass k latest) ->
  owned r signers c k = Some latest.
Proof.
  intros Hf Hs Hc. unfold owned. rewrite (active_intro _ _ Hf). cbn. rewrite (signed_intro _ _ Hs). cbn.
  rewrite Hc. by rewrite decide_True.
Qed.

Lemma draft_intro r c v c' v' fs :
  r (KVersion c v) = Some (EVersion c' v' ASSET_CLASS_VERSION_STATE_DRAFT fs) -> draft r c v = Some (c', v', fs).
Proof. intros E. unfold draft. by rewrite E, decide_True. Qed.
End proofs.

(** What a refused step is compared with: the step of the specification. *)
Definition refines `{Rt : SolanaRuntime} (signers : list Pubkey) (ix : FactoryInstruction) (w' : World)
    (r : Registry) : Prop :=
  exists r', registry_step signers ix r = Some r' /\ reg_is w' r'.

Ltac inv_helpers H :=
  unfold helpers.require_paused, helpers.require_not_paused, helpers.verify_manager,
    helpers.verify_pending_manager, helpers.verify_owner, helpers.verify_pending_owner,
    factory_constraint, pending_manager_constraint, ownership_constraint, pending_owner_constraint in H;
  inv_ok; zify_checks.

(** Turns the accounts that were read into entries of the registry. *)
Ltac read_entries Hr :=
  repeat match goal with
  | Hs : stored ?w ?k ?f, Hk : pda_at factory_seeds _ ?k |- _ =>
      destruct (read_factory w _ Hr k f Hs Hk); clear Hk
  | Hs : stored ?w ?k ?f, Hk : pda_at factory_pending_manager_seeds _ ?k |- _ =>
      destruct (read_nominee w _ Hr k f Hs Hk); clear Hk
  | Hs : stored ?w ?k ?f, Hk : pda_at (asset_class_ownership_seeds ?c) _ ?k |- _ =>
      destruct (read_class w _ Hr k c f Hs Hk); clear Hk
  | Hs : stored ?w ?k ?f, Hk : pda_at (asset_class_pending_owner_seeds ?c) _ ?k |- _ =>
      destruct (read_heir w _ Hr k c f Hs Hk); clear Hk
  | H : negb (f_pause ?f) = true |- _ => apply negb_true_iff in H
  end;
  repeat match goal with
  | E : f_pause ?f = _ |- _ => rewrite ?E in *; clear E
  | E : ?k = aco_owner ?o, H : _ = Some (EClass (aco_owner ?o) _) |- _ => rewrite <- E in H
  end.

Section steps.
Context `{Rt : SolanaRuntime} `{Laws : !RuntimeLaws}.

Lemma initialize_factory_step signers a w w' r :
  reg_is w r -> initialize signers a w = Ok (tt, w') -> refines signers (IxInitialize a) w' r.
Proof.
  intros Hr Hrun. unfold initialize in Hrun. inv_helpers Hrun.
  rename select (fi_factory a = _) into Ek. change (fi_factory a = key_pda KFactory) in Ek. rewrite Ek in *.
  rename select (fresh _ _) into Hf. eexists. split.
  - simpl. rewrite (signed_intro _ (fi_manager a)) by done. simpl.
    rewrite (unused_intro _ KFactory) by (by eapply fresh_unused). reflexivity.
  - eapply reg_is_write; [|by intros e [= <-]|done|eapply reg_is_init; [exact Hr|exact Hf|]|]; reflexivity.
Qed.

(** Evaluates the step of the specification with the entries that were read. *)
Ltac spec_step :=
  unfold refines; eexists; split;
  [ simpl;
    repeat (first
      [ rewrite (active_intro _ _) by eassumption
      | rewrite (signed_intro _ _) by congruence
      | rewrite (unused_intro _ _) by (first [eassumption|by eapply fresh_unused])
      | erewrite owned_intro by eassumption
      | match goal with E : ?r ?k = Some _ |- context [match ?r ?k with _ => _ end] => rewrite E end
      | rewrite decide_True by (first [assumption|congruence|lia|done]) ]; simpl); reflexivity
  | ].

(** The final account is written at a key. *)
Ltac write_entry Hr :=
  repeat match goal with E : ?x = key_pda _ |- _ => rewrite E in *; clear E end;
  eapply reg_is_write; [reflexivity|by intros e [= <-]|done|exact Hr|intros j; reflexivity].

Lemma pause_step signers a w w' r :
  reg_is w r -> pause signers a w = Ok (tt, w') -> refines signers (IxPause a) w' r.
Proof.
  intros Hr Hrun. unfold pause in Hrun. inv_helpers Hrun. read_entries Hr. spec_step. write_entry Hr.
Qed.

Lemma unpause_step signers a w w' r :
  reg_is w r -> unpause signers a w = Ok (tt, w') -> refines signers (IxUnpause a) w' r.
Proof.
  intros Hr Hrun. unfold unpause in Hrun. inv_helpers Hrun. read_entries Hr. spec_step. write_entry Hr.
Qed.

Lemma cancel_nomination_step signers a w w' r :
  reg_is w r -> cancel_nomination signers a w = Ok (tt, w') -> refines signers (IxCancelNomination a) w' r.
Proof.
  intros Hr Hrun. unfold cancel_nomination in Hrun. inv_helpers Hrun. read_entries Hr. spec_step. write_entry Hr.
Qed.

Lemma cancel_ownership_step signers a c w w' r :
  reg_is w r -> cancel_asset_class_ownership signers a c w = Ok (tt, w') ->
  refines signers (IxCancelAssetClassOwnership a c) w' r.
Proof.
  intros Hr Hrun. unfold cancel_asset_class_ownership in Hrun. inv_helpers Hrun. read_entries Hr.
  spec_step. write_entry Hr.
Qed.

(** Two accounts are written, or one is written and one is closed. *)
Ltac write_entries Hr :=
  repeat match goal with E : ?x = key_pda _ |- _ => rewrite E in *; clear E end;
  eapply reg_is_write; [reflexivity|by intros e [= <-]|done
    |eapply reg_is_write; [reflexivity|by intros e [= <-]|done|exact Hr|intros j; reflexivity]
    |intros j; reflexivity].

Lemma accept_nomination_step signers a w w' r :
  reg_is w r -> accept_nomination signers a w = Ok (tt, w') -> refines signers (IxAcceptNomination a) w' r.
Proof.
  intros Hr Hrun. unfold accept_nomination in Hrun. inv_helpers Hrun. read_entries Hr.
  spec_step. write_entries Hr.
Qed.

Lemma accept_ownership_step signers a c w w' r :
  reg_is w r -> accept_asset_class_ownership signers a c w = Ok (tt, w') ->
  refines signers (IxAcceptAssetClassOwnership a c) w' r.
Proof.
  intros Hr Hrun. unfold accept_asset_class_ownership in Hrun. inv_helpers Hrun. read_entries Hr.
  spec_step. write_entries Hr.
Qed.

Lemma nominate_manager_step signers a n w w' r :
  reg_is w r -> nominate_manager signers a n w = Ok (tt, w') -> refines signers (IxNominateManager a n) w' r.
Proof.
  intros Hr Hrun. unfold nominate_manager in Hrun. inv_helpers Hrun.
  rename select (nm_factory_pending_manager_pda a = _) into Ek.
  change (nm_factory_pending_manager_pda a = key_pda KNominee) in Ek. rewrite Ek in *.
  read_entries Hr. rename select (_ \/ _) into Hi.
  assert (Hr' : reg_is w3 r) by (destruct Hi as [(Hf & _ & ? & ->)|(_ & _ & ->)]; [by eapply reg_is_init|exact Hr]).
  spec_step. write_entry Hr'.
Qed.

Lemma nominate_owner_step signers a c n w w' r :
  reg_is w r -> nominate_asset_class_owner signers a c n w = Ok (tt, w') ->
  refines signers (IxNominateAssetClassOwner a c n) w' r.
Proof.
  intros Hr Hrun. unfold nominate_asset_class_owner in Hrun. inv_helpers Hrun.
  rename select (no_asset_class_pending_owner_pda a = _) into Ek.
  change (no_asset_class_pending_owner_pda a = key_pda (KHeir c)) in Ek. rewrite Ek in *.
  read_entries Hr. rename select (_ \/ _) into Hi.
  match type of Hi with _ \/ (_ /\ _ /\ ?w3 = _) =>
    assert (Hr' : reg_is w3 r) by (destruct Hi as [(Hf & _ & ? & ->)|(_ & _ & ->)]; [by eapply reg_is_init|exact Hr]) end.
  spec_step. write_entry Hr'.
Qed.

Lemma create_class_step signers a c owner w w' r :
  reg_is w r -> create_asset_class signers a c owner w = Ok (tt, w') ->
  refines signers (IxCreateAssetClass a c owner) w' r.
Proof.
  intros Hr Hrun. unfold create_asset_class in Hrun. inv_helpers Hrun.
  rename select (cac_asset_class_ownership_pda a = _) into Ek.
  change (cac_asset_class_ownership_pda a = key_pda (KClass c)) in Ek. rewrite Ek in *.
  read_entries Hr. rename select (fresh _ _) into Hf. pose proof (fresh_unused _ _ _ Hr Hf) as Hu.
  spec_step. eapply reg_is_write; [|by intros e [= <-]|done|eapply reg_is_init; [exact Hr|exact Hf|]|]; reflexivity.
Qed.

Lemma entry_version v :
  entry_of (mkAccount FACTORY_PROGRAM_ID (DAssetClassVersion v)) =
    Some (EVersion (acv_config_id v) (acv_version v) (acv_state v) (mask_set (acv_mask v))).
Proof. reflexivity. Qed.

(** A version is written: the entry of its key is replaced. *)
Lemma reg_is_version w w1 r c n (v : AssetClassVersion) fs :
  w_accounts w1 = w_accounts w -> reg_is w r -> mask_set (acv_mask v) = fs ->
  Z.of_nat (length (acv_mask v)) = FUNCTIONALITIES_BYTES_MASK -> mask_ok (acv_mask v) ->
  reg_is (set_account (key_pda (KVersion c n)) (mkAccount FACTORY_PROGRAM_ID (DAssetClassVersion v)) w1)
    (upd (KVersion c n) (Some (EVersion (acv_config_id v) (acv_version v) (acv_state v) fs)) r).
Proof.
  intros E Hr <- Hl Hok. rewrite <- entry_version.
  eapply reg_is_write; [exact E| |by split|exact Hr|done]. intros e. rewrite entry_version. by intros [= <-].
Qed.

Lemma init_version_step signers a c v w w' r :
  reg_is w r -> init_asset_class_version signers a c v w = Ok (tt, w') -> refines signers (IxInitVersion a c v) w' r.
Proof.
  intros Hr Hrun. unfold init_asset_class_version in Hrun. inv_helpers Hrun.
  rename select (iv_asset_class_version_pda a = _) into Ek.
  match type of Ek with _ = pda (asset_class_version_seeds _ ?n) _ =>
    change (iv_asset_class_version_pda a = key_pda (KVersion c n)) in Ek end. rewrite Ek in *.
  read_entries Hr. rename select (fresh _ _) into Hf. pose proof (fresh_unused _ _ _ Hr Hf) as Hu.
  spec_step.
  eapply (reg_is_version _ _ _ _ _ (mkAssetClassVersion _ _ _ _ _));
    [reflexivity|eapply reg_is_init; [exact Hr|exact Hf|reflexivity]|exact (mask_set_zero _)
    |vm_compute; reflexivity|exact (mask_ok_zero _)].
Qed.

Lemma capacity_functionalities mask :
  Z.of_nat (length mask) = FUNCTIONALITIES_BYTES_MASK -> capacity mask = FUNCTIONALITIES_BITS_MASK.
Proof. unfold capacity. intros ->. reflexivity. Qed.

Lemma in_range_intro fs : Forall (fun f => f < FUNCTIONALITIES_BITS_MASK) fs -> in_range fs = Some tt.
Proof. intros. unfold in_range. by rewrite decide_True. Qed.

(** What the three instructions on an existing version read. *)
Lemma version_reads signers a c v w w' r B (k : Factory -> AssetClassOwnership -> M B) y :
  reg_is w r ->
  ('(factory, ownership) ← version_try_accounts signers a c v;
   helpers.require_not_paused factory;; helpers.verify_owner ownership (iv_owner a);; k factory ownership) w
    = Ok (y, w') ->
  exists f o, k f o w = Ok (y, w') /\ owned r signers c (iv_owner a) = Some (aco_latest_version o) /\
    aco_owner o = iv_owner a /\ iv_asset_class_ownership_pda a = key_pda (KClass c) /\
    forall z, stored w (iv_asset_class_version_pda a) z ->
      iv_asset_class_version_pda a = key_pda (KVersion c v) /\
      r (KVersion c v) = Some (EVersion (acv_config_id z) (acv_version z) (acv_state z) (mask_set (acv_mask z))) /\
      Z.of_nat (length (acv_mask z)) = FUNCTIONALITIES_BYTES_MASK /\ mask_ok (acv_mask z).
Proof.
  intros Hr Hrun. apply bind_ok in Hrun as ([f o] & w1 & Ht & Hrun).
  apply bind_ok in Hrun as ([] & w2 & Hp & Hrun). apply bind_ok in Hrun as ([] & w3 & Ho & Hrun).
  unfold version_try_accounts, version_constraint, helpers.require_not_paused, helpers.verify_owner in Ht, Hp, Ho.
  inv_helpers Ht. simpl in *. read_entries Hr. do 2 eexists. split; [eassumption|]. split; [by eapply owned_intro|]. do 2 (split; [done|]).
  intros z Hz. by eapply read_version.
Qed.

Lemma enable_step signers a c v fs w w' r :
  Forall (fun f => 0 <= f <= U16_MAX) fs -> reg_is w r ->
  enable_asset_class_version_functionalities signers a c v fs w = Ok (tt, w') ->
  refines signers (IxEnableFunctionalities a c v fs) w' r.
Proof.
  intros Hfs Hr Hrun. unfold enable_asset_class_version_functionalities in Hrun.
  eapply version_reads in Hrun as (f & o & Hrun & Ho & _ & _ & Hv); [|exact Hr].
  unfold require_draft in Hrun. inv_helpers Hrun.
  match goal with H : stored _ (iv_asset_class_version_pda a) ?y |- _ => destruct (Hv y H) as (Ek & Ev & Hl & Hok) end.
  rename select (set_bits _ _ = _) into Hb. apply (set_bits_Ok _ _ _ Hok Hfs) in Hb as (Hin & Em & Hl' & Hok').
  rewrite (capacity_functionalities _ Hl) in Hin. rename select (acv_state _ = _) into Hst. rewrite Hst in Ev.
  eexists. split; [cbn [registry_step]; rewrite Ho, (draft_intro _ _ _ _ _ _ Ev), (in_range_intro _ Hin);
    reflexivity|].
  rewrite Ek. rewrite <- Hst. apply (reg_is_version w _ _ _ _ (with_mask _ _)); [done|done|exact Em| |exact Hok'].
  simpl. by rewrite Hl'.
Qed.

Lemma disable_step signers a c v fs w w' r :
  Forall (fun f => 0 <= f <= U16_MAX) fs -> reg_is w r ->
  disable_asset_class_version_functionalities signers a c v fs w = Ok (tt, w') ->
  refines signers (IxDisableFunctionalities a c v fs) w' r.
Proof.
  intros Hfs Hr Hrun. unfold disable_asset_class_version_functionalities in Hrun.
  eapply version_reads in Hrun as (f & o & Hrun & Ho & _ & _ & Hv); [|exact Hr].
  unfold require_draft in Hrun. inv_helpers Hrun.
  match goal with H : stored _ (iv_asset_class_version_pda a) ?y |- _ => destruct (Hv y H) as (Ek & Ev & Hl & Hok) end.
  rename select (clear_bits _ _ = _) into Hb. apply (clear_bits_Ok _ _ _ Hok Hfs) in Hb as (Hin & Em & Hl' & Hok').
  rewrite (capacity_functionalities _ Hl) in Hin. rename select (acv_state _ = _) into Hst. rewrite Hst in Ev.
  eexists. split; [cbn [registry_step]; rewrite Ho, (draft_intro _ _ _ _ _ _ Ev), (in_range_intro _ Hin);
    reflexivity|].
  rewrite Ek. rewrite <- Hst. apply (reg_is_version w _ _ _ _ (with_mask _ _)); [done|done|exact Em| |exact Hok'].
  simpl. by rewrite Hl'.
Qed.

Lemma finalize_step signers a c v w w' r :
  reg_is w r -> finalize_asset_class_version signers a c v w = Ok (tt, w') ->
  refines signers (IxFinalizeVersion a c v) w' r.
Proof.
  intros Hr Hrun. unfold finalize_asset_class_version in Hrun.
  eapply version_reads in Hrun as (f & o & Hrun & Ho & Eo & Ec & Hv); [|exact Hr].
  unfold require_draft in Hrun. inv_helpers Hrun.
  match goal with H : stored _ (iv_asset_class_version_pda a) ?y |- _ => destruct (Hv y H) as (Ek & Ev & Hl & Hok) end.
  rename select (acv_state _ = _) into Hst. rewrite Hst in Ev.
  eexists. split.
  - cbn [registry_step]. rewrite Ho, (draft_intro _ _ _ _ _ _ Ev). cbn. rewrite decide_True by lia. reflexivity.
  - rewrite Ek, Ec, Eo.
    eapply reg_is_write; [|by intros e [= <-]|done
      |eapply (reg_is_version w w r c v (mkAssetClassVersion _ _ _ _ _)); [done|exact Hr|done|exact Hl|exact Hok]|];
      reflexivity.
Qed.

(** The functionalities of an instruction are [u16] values. *)
Definition instruction_ok (ix : FactoryInstruction) : Prop :=
  match ix with
  | IxEnableFunctionalities _ _ _ fs | IxDisableFunctionalities _ _ _ fs => Forall (fun f => 0 <= f <= U16_MAX) fs
  | _ => True
  end.

Lemma factory_step signers ix w w' r :
  instruction_ok ix -> reg_is w r -> factory signers ix w = Ok (tt, w') -> refines signers ix w' r.
Proof.
  intros Hix Hr Hrun. destruct ix; simpl in Hix, Hrun;
    eauto using initialize_factory_step, nominate_manager_step, accept_nomination_step, cancel_nomination_step,
      pause_step, unpause_step, create_class_step, nominate_owner_step.
  - by eapply accept_ownership_step.
  - by eapply cancel_ownership_step.
  - by eapply init_version_step.
  - by eapply enable_step.
  - by eapply disable_step.
  - by eapply finalize_step.
Qed.

(** ** Sequences of instructions *)

Definition Tx : Set := list Pubkey * FactoryInstruction.

Fixpoint factory_run (txs : list Tx) : M unit :=
  match txs with
  | [] => mret tt
  | (signers, ix) :: txs => factory signers ix;; factory_run txs
  end.

Fixpoint registry_run (txs : list Tx) (r : Registry) : option Registry :=
  match txs with
  | [] => Some r
  | (signers, ix) :: txs => r' ← registry_step signers ix r; registry_run txs r'
  end.

Definition txs_ok (txs : list Tx) : Prop := Forall (fun tx => instruction_ok tx.2) txs.

Lemma factory_run_refines txs : forall w w' r,
  txs_ok txs -> reg_is w r -> factory_run txs w = Ok (tt, w') ->
  exists r', registry_run txs r = Some r' /\ reg_is w' r'.
Proof.
  induction txs as [|[signers ix] txs IH]; intros w w' r Hok Hr Hrun; simpl in *.
  - inv_ok. eauto.
  - apply bind_ok in Hrun as ([] & w1 & H1 & Hrun). apply Forall_cons in Hok as [Hix Hok]. simpl in Hix.
    destruct (factory_step _ _ _ _ _ Hix Hr H1) as (r1 & E & Hr1). cbn. rewrite E. cbn. eauto.
Qed.

(** An invariant of the steps of the registry is an invariant of its runs. *)
Lemma registry_run_inv (P : Registry -> Prop) txs : forall r r',
  (forall signers ix r r', registry_step signers ix r = Some r' -> P r -> P r') ->
  registry_run txs r = Some r' -> P r -> P r'.
Proof.
  induction txs as [|[signers ix] txs IH]; intros r r' Hs Hrun HP; cbn in Hrun.
  - by simplify_eq.
  - destruct (registry_step signers ix r) as [r1|] eqn:E; [|done]. cbn in Hrun. eauto.
Qed.

Lemma reg_is_self w : registry_wf w -> reg_is w (registry w).
Proof. by split. Qed.
End steps.
