(* ===== verification/FactoryTheorems.v ===== *)
(** * FactoryTheorems: what the registry of asset classes guarantees

    The properties of the factory program, on the accounts, and a run of it from
    an empty ledger: a class is created, its first version is filled and
    finalized, its owner hands the class over, the factory is paused. *)

From S2P Require Import Prelude.
From S2P Require Import Bitmask.
From S2P Require Import ProgramIds.
From S2P Require Import Errors.
From S2P Require Import State.
From S2P Require Import Runtime.
From S2P Require Import Anchor.
From S2P Require Import Reference.
From S2P Require Import PdaSeeds.
From S2P Require Import Common.
From S2P Require Import Sample.
From S2P Require Import Factory.
From S2P Require Import Registry.
From S2P Require Import FactoryProofs.

Section theorems.
Context `{Rt : SolanaRuntime} `{Laws : !RuntimeLaws}.

(** C20: the factory program implements the abstract
    registry.  Whatever the instructions of a sequence, when each of them
    succeeds on a ledger whose factory accounts read as the registry [r], the
    specification allows the same sequence of steps from [r] and the accounts
    left behind read as the registry it ends in: nothing else is written under
    the program, every account stays at its canonical address, and every
    authority check, version number and functionality bit is the
    specification's. *)
Theorem factory_refines_registry txs w w' r :
  txs_ok txs -> reg_is w r -> factory_run txs w = Ok (tt, w') ->
  exists r', registry_run txs r = Some r' /\ reg_is w' r'.
Proof. apply factory_run_refines. Qed.

Lemma history_ext r r' : (forall k, r k = r' k) -> history r -> history r'.
Proof.
  intros E H c. rewrite <- E. pose proof (H c) as Hc. destruct (r (KClass c)) as [[]|]; try done.
  - destruct Hc as [? Hc]. split; [done|]. intros v. by rewrite <- E.
  - intros v. by rewrite <- E.
Qed.

(** C21: the versions of every asset class are
    numbered 1, 2, 3, ... without gap.  For every class and after any sequence of
    factory instructions, the versions up to [latest_version] exist and are
    finalized, the next one is at most a draft, no other version account exists,
    each version account carries the class and number of its address, and
    [latest_version] is a [u64]. *)
Theorem versions_are_sequential txs w w' :
  txs_ok txs -> registry_wf w -> history (registry w) -> factory_run txs w = Ok (tt, w') ->
  history (registry w').
Proof.
  intros Hok Hw Hh Hrun.
  destruct (factory_run_refines _ _ _ _ Hok (reg_is_self w Hw) Hrun) as (r' & E & _ & Hr').
  eapply (registry_run_inv history) in E; [|eauto using step_history|done].
  eapply history_ext; [|exact E]. intros k. by rewrite Hr'.
Qed.

(** C22: a finalized version never changes again.
    No sequence of factory instructions, whoever signs them, alters the entry of
    a finalized version: its class, number, state and set of functionalities are
    those it was finalized with. *)
Theorem finalized_versions_are_final txs w w' config_id version c v fs :
  txs_ok txs -> registry_wf w -> factory_run txs w = Ok (tt, w') ->
  registry w (KVersion config_id version) = Some (EVersion c v ASSET_CLASS_VERSION_STATE_FINALIZED fs) ->
  registry w' (KVersion config_id version) = registry w (KVersion config_id version).
Proof.
  intros Hok Hw Hrun Hf.
  destruct (factory_run_refines _ _ _ _ Hok (reg_is_self w Hw) Hrun) as (r' & E & _ & Hr').
  rewrite Hr', Hf.
  eapply (registry_run_inv (fun r => r (KVersion config_id version) =
    Some (EVersion c v ASSET_CLASS_VERSION_STATE_FINALIZED fs))) in E; [done| |done].
  intros signers ix r1 r2 Hs H1. by rewrite (step_finalized _ _ _ _ _ _ _ _ _ Hs H1).
Qed.

(** C23: control over the factory and over a class
    changes hands in two steps only.  When an instruction leaves another manager
    than it found, it is the acceptance signed by the new manager, whom a
    nomination names; when it leaves another owner of a class, it is the
    acceptance signed by the new owner, whom the nomination of that class names.
    In a paused factory the only instruction that succeeds is [unpause], signed
    by the manager. *)
Theorem control_changes_by_consent signers ix w w' :
  instruction_ok ix -> registry_wf w -> factory signers ix w = Ok (tt, w') ->
  (forall m p m' p', registry w KFactory = Some (EFac m p) -> registry w' KFactory = Some (EFac m' p') ->
    m' = m \/ (exists a, ix = IxAcceptNomination a) /\ m' ∈ signers /\ registry w KNominee = Some (ENominee m')) /\
  (forall c o l o' l', registry w (KClass c) = Some (EClass o l) -> registry w' (KClass c) = Some (EClass o' l') ->
    o' = o \/ (exists a, ix = IxAcceptAssetClassOwnership a c) /\ o' ∈ signers /\
      registry w (KHeir c) = Some (EHeir o')) /\
  (forall m, registry w KFactory = Some (EFac m true) -> (exists a, ix = IxUnpause a) /\ m ∈ signers).
Proof.
  intros Hix Hw Hrun. destruct (factory_step _ _ _ _ _ Hix (reg_is_self w Hw) Hrun) as (r' & E & _ & Hr').
  split; [|split].
  - intros m p m' p' Hm Hm'. rewrite Hr' in Hm'. exact (step_manager _ _ _ _ _ _ _ _ E Hm Hm').
  - intros c o l o' l' Ho Ho'. rewrite Hr' in Ho'. exact (step_owner _ _ _ _ _ _ _ _ _ E Ho Ho').
  - intros m Hm. exact (step_paused _ _ _ _ _ E Hm).
Qed.
End theorems.

(** ** A run *)

Definition FACTORY_PDA : Pubkey := Eval vm_compute in ref_pda factory_seeds FACTORY_PROGRAM_ID.
Definition CLASS_PDA : Pubkey := Eval vm_compute in ref_pda (asset_class_ownership_seeds 7) FACTORY_PROGRAM_ID.
Definition HEIR_PDA : Pubkey := Eval vm_compute in ref_pda (asset_class_pending_owner_seeds 7) FACTORY_PROGRAM_ID.
Definition VERSION_PDA : Pubkey := Eval vm_compute in ref_pda (asset_class_version_seeds 7 1) FACTORY_PROGRAM_ID.

Definition empty_world : World := {|
  w_lamports := <[ADMIN := 10 ^ 12]> (<[ALICE := 10 ^ 12]> (<[BOB := 10 ^ 12]> ∅));
  w_accounts := ∅; w_now := 1000000; w_events := [] |}.

Definition version_accounts : InitAssetClassVersion := mkInitAssetClassVersion ALICE FACTORY_PDA CLASS_PDA VERSION_PDA.
Definition heir_accounts (signer : Pubkey) : NominateAssetClassOwner :=
  mkNominateAssetClassOwner signer FACTORY_PDA CLASS_PDA HEIR_PDA.

Definition first_version : list Tx :=
  [([ADMIN], IxInitialize (mkInitialize ADMIN ADMIN FACTORY_PDA));
   ([ADMIN], IxCreateAssetClass (mkCreateAssetClass ADMIN FACTORY_PDA CLASS_PDA) 7 ALICE);
   ([ALICE], IxInitVersion version_accounts 7 1);
   ([ALICE], IxEnableFunctionalities version_accounts 7 1 [3; 700; 8191]);
   ([ALICE], IxDisableFunctionalities version_accounts 7 1 [700]);
   ([ALICE], IxFinalizeVersion version_accounts 7 1)].
Definition hand_over : list Tx :=
  [([ALICE], IxNominateAssetClassOwner (heir_accounts ALICE) 7 BOB);
   ([BOB], IxAcceptAssetClassOwnership (heir_accounts BOB) 7)].

Definition first_version_world : World := run_world (factory_run first_version) empty_world.
Definition handed_over_world : World := run_world (factory_run hand_over) first_version_world.

Lemma first_version_ok : factory_run first_version empty_world = Ok (tt, first_version_world).
Proof. apply run_ok. vm_compute. reflexivity. Qed.

Lemma hand_over_ok : factory_run hand_over first_version_world = Ok (tt, handed_over_world).
Proof. apply run_ok. vm_compute. reflexivity. Qed.

Lemma txs_ok_sample : txs_ok first_version /\ txs_ok hand_over.
Proof.
  unfold txs_ok, first_version, hand_over. rewrite !Forall_cons. simpl. unfold U16_MAX.
  rewrite !Forall_cons. split_and!; try done; try lia; apply Forall_nil; done.
Qed.

Lemma empty_registry : reg_is empty_world (fun _ => None).
Proof.
  assert (E : forall k, account empty_world k = mkAccount SYSTEM_PROGRAM_ID DEmpty).
  { intros k. reflexivity. }
  split; [intros a e|intros k; unfold registry]; rewrite E; [intros [=]|done].
Qed.

Example first_version_is_final :
  registry first_version_world (KVersion 7 1) =
    Some (EVersion 7 1 ASSET_CLASS_VERSION_STATE_FINALIZED {[3; 8191]}).
Proof. vm_compute. reflexivity. Qed.

Lemma factory_refines_registry_witness :
  exists r, registry_run first_version (fun _ => None) = Some r /\ reg_is first_version_world r.
Proof.
  eapply (factory_refines_registry first_version empty_world);
    [apply txs_ok_sample|exact empty_registry|exact first_version_ok].
Defined.

Lemma versions_are_sequential_witness : history (registry first_version_world).
Proof.
  eapply (versions_are_sequential first_version empty_world);
    [apply txs_ok_sample|apply empty_registry| |exact first_version_ok].
  eapply history_ext; [intros k; symmetry; apply empty_registry|done].
Defined.

Lemma first_version_wf : registry_wf first_version_world.
Proof.
  destruct (factory_run_refines first_version empty_world first_version_world (fun _ => None)) as (r & _ & Hr & _);
    [apply txs_ok_sample|exact empty_registry|exact first_version_ok|exact Hr].
Qed.

Lemma finalized_versions_are_final_witness :
  registry handed_over_world (KVersion 7 1) = registry first_version_world (KVersion 7 1).
Proof.
  eapply (finalized_versions_are_final hand_over first_version_world);
    [apply txs_ok_sample|exact first_version_wf|exact hand_over_ok|exact first_version_is_final].
Defined.

(** ALICE, who owns the class, nominates BOB, and BOB accepts. *)
Definition nominated_world : World := run_world (factory_run (take 1 hand_over)) first_version_world.

Lemma nominated_wf : registry_wf nominated_world.
Proof.
  destruct (factory_run_refines (take 1 hand_over) first_version_world nominated_world
    (registry first_version_world)) as (r & _ & Hr & _);
    [by repeat constructor|exact (reg_is_self _ first_version_wf)|apply run_ok; vm_compute; reflexivity|exact Hr].
Qed.

Definition accepted_world : World :=
  run_world (factory [BOB] (IxAcceptAssetClassOwnership (heir_accounts BOB) 7)) nominated_world.

Lemma acceptance_ok :
  factory [BOB] (IxAcceptAssetClassOwnership (heir_accounts BOB) 7) nominated_world = Ok (tt, accepted_world).
Proof. apply run_ok. vm_compute. reflexivity. Qed.

Example owners :
  registry nominated_world (KClass 7) = Some (EClass ALICE 1) /\
  registry accepted_world (KClass 7) = Some (EClass BOB 1).
Proof. split; vm_compute; reflexivity. Qed.

Lemma control_changes_by_consent_witness :
  BOB = ALICE \/
  (exists a, IxAcceptAssetClassOwnership (heir_accounts BOB) 7 = IxAcceptAssetClassOwnership a 7) /\
  BOB ∈ [BOB] /\ registry nominated_world (KHeir 7) = Some (EHeir BOB).
Proof.
  destruct owners as [E E'].
  destruct (control_changes_by_consent [BOB] (IxAcceptAssetClassOwnership (heir_accounts BOB) 7) nominated_world
    accepted_world I nominated_wf acceptance_ok) as (_ & Ho & _).
  exact (Ho 7 _ _ _ _ E E').
Defined.
