(* ===== verification/Pause.v ===== *)
(** * Pause: the pause program ([programs/pause])

    A pauser switches the [Pausable] extension of a mint on and off: the program
    signs Token-2022's pause and resume instructions for its pausable authority.
    [errors.rs] declares errors that no instruction returns. *)

From S2P Require Import Prelude.
From S2P Require Import Bitmask.
From S2P Require Import ProgramIds.
From S2P Require Import Errors.
From S2P Require Import State.
From S2P Require Import Runtime.
From S2P Require Import Anchor.
From S2P Require Import Frame.
From S2P Require Import PdaSeeds.
From S2P Require Import PdaUtils.
From S2P Require Import Common.
From S2P Require Import Token.

(** [PauseMint] and [UnpauseMint] have the same fields. *)
Record PauseMint : Set := mkPauseMint {
  pm_authority : Pubkey;
  pm_authority_roles_pda : Pubkey;
  pm_asset_configuration_pda : Pubkey;
  pm_deactivate_pda : Pubkey;
  pm_mint : Pubkey;
  pm_pausable_authority : Pubkey;
  pm_asset_class_version_pda : Pubkey;
  pm_token_2022_program : Pubkey }.

Section instructions.
Context `{Rt : SolanaRuntime} `{Tok : Token2022}.

Definition PauseMint_try_accounts (signers : list Pubkey) (a : PauseMint) : M Z :=
  signer signers (pm_authority a);;
  loader_load Roles (pm_authority_roles_pda a);;
  asset_configuration ← account_try_from AssetConfiguration (pm_asset_configuration_pda a);
  loader_load AssetClassVersion (pm_asset_class_version_pda a);;
  check_program (pm_token_2022_program a) TOKEN_2022_PROGRAM_ID;;
  roles_constraint (pm_authority_roles_pda a) (pm_mint a) (pm_authority a);;
  asset_configuration_constraint (pm_asset_configuration_pda a) (pm_mint a) asset_configuration;;
  deactivate_constraint (pm_deactivate_pda a) (pm_mint a);;
  authority_bump ← seeds_check (pm_pausable_authority a) (pausable_authority_seeds (pm_mint a)) PAUSE_PROGRAM_ID;
  asset_class_version_constraint (pm_asset_class_version_pda a) asset_configuration;;
  mret authority_bump.

(** What both instructions require of the caller and the mint. *)
Definition pauser_guards (a : PauseMint) (functionality : Z) : M unit :=
  roles ← loader_load Roles (pm_authority_roles_pda a);
  require_role roles ROLE_PAUSER;;
  require_active (pm_deactivate_pda a);;
  version ← loader_load AssetClassVersion (pm_asset_class_version_pda a);
  require_functionality version functionality.

Definition pause (signers : list Pubkey) (a : PauseMint) : M unit :=
  authority_bump ← PauseMint_try_accounts signers a;
  pauser_guards a PAUSE_PAUSE;;
  authority ← pda_signer (build_pda_signer_seeds (pausable_authority_seeds (pm_mint a)) authority_bump)
    PAUSE_PROGRAM_ID;
  set_paused (pm_mint a) (pm_pausable_authority a) true [authority];;
  emit_cpi (EvPause (Paused (pm_mint a) (pm_authority a))).

Definition unpause (signers : list Pubkey) (a : PauseMint) : M unit :=
  authority_bump ← PauseMint_try_accounts signers a;
  pauser_guards a PAUSE_UNPAUSE;;
  authority ← pda_signer (build_pda_signer_seeds (pausable_authority_seeds (pm_mint a)) authority_bump)
    PAUSE_PROGRAM_ID;
  set_paused (pm_mint a) (pm_pausable_authority a) false [authority];;
  emit_cpi (EvPause (Unpaused (pm_mint a) (pm_authority a))).
End instructions.

Inductive PauseInstruction : Set :=
| IxPause (a : PauseMint)
| IxUnpause (a : PauseMint).

Definition pause_program `{Rt : SolanaRuntime} `{Tok : Token2022} (signers : list Pubkey)
    (ix : PauseInstruction) : M unit :=
  match ix with IxPause a => pause signers a | IxUnpause a => unpause signers a end.

(** ** What they do *)

Section effects.
Context `{Rt : SolanaRuntime} `{Laws : !RuntimeLaws} `{Tok : Token2022} `{TLaws : !TokenLaws}.

#[export] Instance PauseMint_try_accounts_inv signers a :
  OkInv (PauseMint_try_accounts signers a) (fun w b w' => w' = w /\ pm_authority a ∈ signers /\
    pda_at (roles_seeds (pm_mint a) (pm_authority a)) ACCESS_CONTROL_PROGRAM_ID (pm_authority_roles_pda a) /\
    pm_deactivate_pda a = pda (deactivate_seeds (pm_mint a)) DEACTIVATE_PROGRAM_ID).
Proof. intros w b w' Hr. unfold PauseMint_try_accounts in Hr. by inv_ok. Qed.

#[export] Instance pauser_guards_inv a f :
  OkInv (pauser_guards a f) (fun w _ w' => w' = w /\
    (exists r : Roles, stored w (pm_authority_roles_pda a) r /\ has_role r ROLE_PAUSER) /\
    data_is_empty (data_of w (pm_deactivate_pda a)) = true).
Proof. intros w [] w' Hr. unfold pauser_guards in Hr. inv_ok. eauto. Qed.

Definition pm_accounts (ix : PauseInstruction) : PauseMint :=
  match ix with IxPause a | IxUnpause a => a end.
Definition pauses (ix : PauseInstruction) : bool := match ix with IxPause _ => true | IxUnpause _ => false end.

(** The event of the instruction. *)
Definition pause_event (ix : PauseInstruction) : Event :=
  let a := pm_accounts ix in
  EvPause (if pauses ix then Paused (pm_mint a) (pm_authority a) else Unpaused (pm_mint a) (pm_authority a)).

Lemma pause_program_effect signers ix w w' :
  pause_program signers ix w = Ok (tt, w') ->
  let mint := pm_mint (pm_accounts ix) in
  holder_of w signers mint (pm_authority (pm_accounts ix)) ROLE_PAUSER /\ active_mint w mint /\
  exists m, mint_account w mint m /\ m_paused m <> None /\
    w' = add_event (pause_event ix) (put_mint mint (with_paused (pauses ix) m) w).
Proof.
  intros Hr. destruct ix as [a|a]; cbn in Hr |- *; [unfold pause in Hr|unfold unpause in Hr]; inv_ok;
    rename select (set_paused _ _ _ _ _ = _) into Hp;
    apply set_paused_ok in Hp as (m & Hm & _ & Hn & ->);
    (split; [split; [done|]; by do 2 eexists|split; [unfold active_mint; congruence|eauto]]).
Qed.
End effects.
