(* ===== verification/Deactivate.v ===== *)
(** * Deactivate: the deactivate program ([programs/deactivate])

    Creates the marker of a deactivated mint, which [require_active] reads in the
    other programs; no instruction removes it. *)

From S2P Require Import Prelude.
From S2P Require Import Bitmask.
From S2P Require Import ProgramIds.
From S2P Require Import Errors.
From S2P Require Import State.
From S2P Require Import Runtime.
From S2P Require Import Anchor.
From S2P Require Import Frame.
From S2P Require Import PdaSeeds.
From S2P Require Import PdaUtils.
From S2P Require Import Common.

Record Deactivate : Set := mkDeactivate {
  de_authority : Pubkey;
  de_authority_roles_pda : Pubkey;
  de_asset_configuration_pda : Pubkey;
  de_mint : Pubkey;
  de_deactivate_pda : Pubkey;
  de_asset_class_version_pda : Pubkey }.

Section instructions.
Context `{Rt : SolanaRuntime}.

Definition Deactivate_try_accounts (signers : list Pubkey) (a : Deactivate) : M Z :=
  signer signers (de_authority a);;
  loader_load Roles (de_authority_roles_pda a);;
  asset_configuration ← account_try_from AssetConfiguration (de_asset_configuration_pda a);
  loader_load AssetClassVersion (de_asset_class_version_pda a);;
  bump ← seeds_check (de_deactivate_pda a) (deactivate_seeds (de_mint a)) DEACTIVATE_PROGRAM_ID;
  account_init DeactivateStatus (de_authority a) (de_deactivate_pda a) signers;;
  roles_constraint (de_authority_roles_pda a) (de_mint a) (de_authority a);;
  asset_configuration_constraint (de_asset_configuration_pda a) (de_mint a) asset_configuration;;
  asset_class_version_constraint (de_asset_class_version_pda a) asset_configuration;;
  mret bump.

Definition deactivate (signers : list Pubkey) (a : Deactivate) : M unit :=
  bump ← Deactivate_try_accounts signers a;
  roles ← loader_load Roles (de_authority_roles_pda a);
  require_role roles ROLE_DEACTIVATE;;
  require_not_paused (de_mint a);;
  version ← loader_load AssetClassVersion (de_asset_class_version_pda a);
  require_functionality version DEACTIVATE_DEACTIVATE;;
  emit_cpi (EvDeactivate (Deactivated (de_mint a) (de_authority a)));;
  account_exit (de_deactivate_pda a) (mkDeactivateStatus bump).
End instructions.

(** ** What it does *)

Section effects.
Context `{Rt : SolanaRuntime} `{Laws : !RuntimeLaws}.

Definition deactivate_pda_of (mint : Pubkey) : Pubkey := pda (deactivate_seeds mint) DEACTIVATE_PROGRAM_ID.

(** The marker of [mint] is there. *)
Definition deactivated (w : World) (mint : Pubkey) : Prop :=
  exists s : DeactivateStatus, stored w (deactivate_pda_of mint) s.

Lemma deactivated_not_active w mint : deactivated w mint -> ~ active_mint w mint.
Proof.
  intros [s Hs] Ha. unfold active_mint in Ha. apply stored_data in Hs.
  unfold deactivate_pda_of in Hs. rewrite Hs in Ha. discriminate Ha.
Qed.

#[export] Instance Deactivate_try_accounts_inv signers a :
  OkInv (Deactivate_try_accounts signers a) (fun w b w' => de_authority a ∈ signers /\
    de_deactivate_pda a = deactivate_pda_of (de_mint a) /\ fresh w (de_deactivate_pda a) /\
    pda_at (roles_seeds (de_mint a) (de_authority a)) ACCESS_CONTROL_PROGRAM_ID (de_authority_roles_pda a) /\
    (forall j, j <> de_deactivate_pda a -> account w' j = account w j) /\ w_now w' = w_now w).
Proof.
  intros w b w' Hr. unfold Deactivate_try_accounts in Hr. inv_ok. split_and!; try done.
  intros j Hj. by rewrite account_set_account_ne by done.
Qed.

Lemma deactivate_effect signers a w w' :
  deactivate signers a w = Ok (tt, w') ->
  fresh w (deactivate_pda_of (de_mint a)) /\ holder_of w signers (de_mint a) (de_authority a) ROLE_DEACTIVATE /\
  deactivated w' (de_mint a) /\ w_now w' = w_now w /\
  forall j, j <> deactivate_pda_of (de_mint a) -> account w' j = account w j.
Proof.
  intros Hr. unfold deactivate in Hr.
  apply bind_ok in Hr as (b & w1 & (Hs & Ek & Hf & Hk & Hj & Hn)%ok_inv & Hr). inv_ok.
  rewrite Ek in *. split; [done|]. split.
  - split; [done|]. do 2 eexists. split; [exact Hk|]. split; [|eassumption].
    unfold stored in *. rewrite <- Hj; [eassumption|].
    intros E. destruct (pda_at_unique _ _ _ _ _ Hk E) as [Es _]. discriminate Es.
  - split; [|split; [done|]].
    + eexists. unfold stored. by rewrite account_set_account_eq.
    + intros j Hne. rewrite account_set_account_ne by (by apply not_eq_sym). by apply Hj.
Qed.

Lemma deactivate_writes signers a : preserves (writes_only DEACTIVATE_PROGRAM_ID) (deactivate signers a).
Proof.
  intros w [] w' Hr. destruct (deactivate_effect _ _ _ _ Hr) as (Hf & _ & [s Hs] & Hn & Hj).
  split; [done|]. intros k. destruct (decide (k = deactivate_pda_of (de_mint a))) as [->|Hne].
  - right. unfold ours. rewrite (stored_owner _ _ _ Hs), (stored_data _ _ _ Hs).
    split; [right; apply Hf|]. split; [by left|by right].
  - left. by apply Hj.
Qed.
End effects.
