(* ===== verification/NominalValue.v ===== *)
(** * NominalValue: the nominal-value program ([programs/nominal-value])

    One account per mint holds the published value and the date it is effective
    from.  [publish] moves to a later date, [republish] corrects the value of the
    current one. *)

From S2P Require Import Prelude.
From S2P Require Import Bitmask.
From S2P Require Import ProgramIds.
From S2P Require Import Errors.
From S2P Require Import State.
From S2P Require Import Runtime.
From S2P Require Import Anchor.
From S2P Require Import Frame.
From S2P Require Import PdaSeeds.
From S2P Require Import PdaUtils.
From S2P Require Import Common.
From S2P Require Import Reference.
From S2P Require Import Sample.
From S2P Require Import Frames.

Record InitializeNominalValue : Set := mkInitializeNominalValue {
  in_payer : Pubkey;
  in_authority : Pubkey;
  in_authority_roles_pda : Pubkey;
  in_asset_configuration_pda : Pubkey;
  in_deactivate_pda : Pubkey;
  in_mint : Pubkey;
  in_nominal_value_pda : Pubkey;
  in_asset_class_version_pda : Pubkey }.

Record WriteNominalValue : Set := mkWriteNominalValue {
  wn_authority : Pubkey;
  wn_authority_roles_pda : Pubkey;
  wn_asset_configuration_pda : Pubkey;
  wn_deactivate_pda : Pubkey;
  wn_mint : Pubkey;
  wn_nominal_value_pda : Pubkey;
  wn_asset_class_version_pda : Pubkey }.

Section instructions.
Context `{Rt : SolanaRuntime}.

Definition InitializeNominalValue_try_accounts (signers : list Pubkey) (a : InitializeNominalValue) : M Z :=
  signer signers (in_payer a);;
  signer signers (in_authority a);;
  loader_load Roles (in_authority_roles_pda a);;
  asset_configuration ← account_try_from AssetConfiguration (in_asset_configuration_pda a);
  loader_load AssetClassVersion (in_asset_class_version_pda a);;
  bump ← seeds_check (in_nominal_value_pda a) (nominal_value_seeds (in_mint a)) NOMINAL_VALUE_PROGRAM_ID;
  account_init NominalValue (in_payer a) (in_nominal_value_pda a) signers;;
  roles_constraint (in_authority_roles_pda a) (in_mint a) (in_authority a);;
  asset_configuration_constraint (in_asset_configuration_pda a) (in_mint a) asset_configuration;;
  deactivate_constraint (in_deactivate_pda a) (in_mint a);;
  asset_class_version_constraint (in_asset_class_version_pda a) asset_configuration;;
  mret bump.

Definition initialize_nominal_value (signers : list Pubkey) (a : InitializeNominalValue)
    (nominal_value_decimals : Z) (nominal_value_currency : list Z)
    (nominal_value_publish_type : NominalValuePublishType) : M unit :=
  bump ← InitializeNominalValue_try_accounts signers a;
  operation_guards (in_authority_roles_pda a) (in_mint a) (in_deactivate_pda a)
    (in_asset_class_version_pda a) ROLE_ADMIN NOMINAL_VALUE_INITIALIZE;;
  emit_cpi (EvNominalValue (NominalValueInitialized (in_mint a) (in_authority a) nominal_value_decimals
    nominal_value_currency nominal_value_publish_type));;
  account_exit (in_nominal_value_pda a)
    (mkNominalValue bump nominal_value_currency nominal_value_publish_type nominal_value_decimals 0 0).

Definition WriteNominalValue_try_accounts (signers : list Pubkey) (a : WriteNominalValue) : M NominalValue :=
  signer signers (wn_authority a);;
  loader_load Roles (wn_authority_roles_pda a);;
  asset_configuration ← account_try_from AssetConfiguration (wn_asset_configuration_pda a);
  nominal_value ← account_try_from NominalValue (wn_nominal_value_pda a);
  loader_load AssetClassVersion (wn_asset_class_version_pda a);;
  roles_constraint (wn_authority_roles_pda a) (wn_mint a) (wn_authority a);;
  asset_configuration_constraint (wn_asset_configuration_pda a) (wn_mint a) asset_configuration;;
  deactivate_constraint (wn_deactivate_pda a) (wn_mint a);;
  seeds_bump_check (wn_nominal_value_pda a) (nominal_value_seeds (wn_mint a)) NOMINAL_VALUE_PROGRAM_ID
    (nv_bump nominal_value);;
  asset_class_version_constraint (wn_asset_class_version_pda a) asset_configuration;;
  mret nominal_value.

(** The account with the fields the two instructions assign. *)
Definition with_value (value effective_datetime : Z) (n : NominalValue) : NominalValue :=
  mkNominalValue (nv_bump n) (nv_nominal_value_currency n) (nv_nominal_value_publish_type n)
    (nv_nominal_value_decimals n) value effective_datetime.

Definition publish_nominal_value (signers : list Pubkey) (a : WriteNominalValue)
    (nominal_value effective_datetime : Z) : M unit :=
  account ← WriteNominalValue_try_accounts signers a;
  operation_guards (wn_authority_roles_pda a) (wn_mint a) (wn_deactivate_pda a)
    (wn_asset_class_version_pda a) ROLE_NOMINAL_VALUE NOMINAL_VALUE_PUBLISH;;
  require (0 <? effective_datetime) (ENominalValue NominalValueError.InvalidTimestamp);;
  require (nv_effective_datetime account <? effective_datetime)
    (ENominalValue NominalValueError.EffectiveDatetimeNotAfterCurrent);;
  w ← get;
  require (effective_datetime <? w_now w) (ENominalValue NominalValueError.EffectiveDatetimeNotInPast);;
  emit_cpi (EvNominalValue (NominalValuePublished (wn_mint a) (wn_authority a) nominal_value effective_datetime));;
  account_exit (wn_nominal_value_pda a) (with_value nominal_value effective_datetime account).

Definition republish_nominal_value (signers : list Pubkey) (a : WriteNominalValue)
    (nominal_value effective_datetime : Z) : M unit :=
  account ← WriteNominalValue_try_accounts signers a;
  operation_guards (wn_authority_roles_pda a) (wn_mint a) (wn_deactivate_pda a)
    (wn_asset_class_version_pda a) ROLE_NOMINAL_VALUE NOMINAL_VALUE_REPUBLISH;;
  require (0 <? effective_datetime) (ENominalValue NominalValueError.InvalidTimestamp);;
  require (effective_datetime =? nv_effective_datetime account)
    (ENominalValue NominalValueError.EffectiveDatetimeMismatch);;
  emit_cpi (EvNominalValue (NominalValueRepublished (wn_mint a) (wn_authority a) nominal_value effective_datetime));;
  account_exit (wn_nominal_value_pda a) (with_value nominal_value (nv_effective_datetime account) account).
End instructions.

Inductive NominalValueInstruction : Set :=
| IxInitializeNominalValue (a : InitializeNominalValue) (decimals : Z) (currency : list Z)
    (publish_type : NominalValuePublishType)
| IxPublishNominalValue (a : WriteNominalValue) (nominal_value effective_datetime : Z)
| IxRepublishNominalValue (a : WriteNominalValue) (nominal_value effective_datetime : Z).

Definition nominal_value `{Rt : SolanaRuntime} (signers : list Pubkey) (ix : NominalValueInstruction) : M unit :=
  match ix with
  | IxInitializeNominalValue a d c t => initialize_nominal_value signers a d c t
  | IxPublishNominalValue a v e => publish_nominal_value signers a v e
  | IxRepublishNominalValue a v e => republish_nominal_value signers a v e
  end.

(** ** The quote of a mint *)

(** What is published: the terms are fixed when the quote is opened. *)
Record Quote : Set := mkQuote {
  q_currency : list Z;
  q_publish_type : NominalValuePublishType;
  q_decimals : Z;
  q_value : Z;
  q_date : Z }.

(** What an instruction makes of the quote of its mint at the time [now]. *)
Definition quote_step (now : Z) (ix : NominalValueInstruction) (q : option Quote) : option Quote :=
  match ix, q with
  | IxInitializeNominalValue _ d c t, None => Some (mkQuote c t d 0 0)
  | IxPublishNominalValue _ v e, Some q =>
      if decide (0 < e /\ q_date q < e /\ e < now) then
        Some (mkQuote (q_currency q) (q_publish_type q) (q_decimals q) v e) else None
  | IxRepublishNominalValue _ v e, Some q =>
      if decide (0 < e /\ e = q_date q) then
        Some (mkQuote (q_currency q) (q_publish_type q) (q_decimals q) v e) else None
  | _, _ => None
  end.

(** The types of the fields, and the dates of the past. *)
Definition quote_ok (now : Z) (q : Quote) : Prop :=
  length (q_currency q) = 3%nat /\ Forall u8_ok (q_currency q) /\ u8_ok (q_decimals q) /\ u128_ok (q_value q) /\
  (q_date q = 0 /\ q_value q = 0 \/ 0 < q_date q < now) /\ i64_ok (q_date q).

(** The arguments have the types of the program. *)
Definition nominal_value_args_ok (ix : NominalValueInstruction) : Prop :=
  match ix with
  | IxInitializeNominalValue _ d c _ => u8_ok d /\ length c = 3%nat /\ Forall u8_ok c
  | IxPublishNominalValue _ v e | IxRepublishNominalValue _ v e => u128_ok v /\ i64_ok e
  end.

Lemma quote_step_ok now ix q q' :
  nominal_value_args_ok ix -> (forall q0, q = Some q0 -> quote_ok now q0) ->
  quote_step now ix q = Some q' -> quote_ok now q'.
Proof.
  intros Ha Hq Hs. destruct ix, q as [q|]; simpl in Hs; try discriminate Hs;
    repeat case_decide; simplify_eq; unfold quote_ok; simpl in *.
  - destruct Ha as (? & ? & ?). unfold u128_ok, i64_ok, U128_MAX, I64_MIN, I64_MAX. split_and!; try done; lia.
  - destruct (Hq q eq_refl) as (? & ? & ? & _), Ha. split_and!; try done; lia.
  - destruct (Hq q eq_refl) as (? & ? & ? & ? & Hd & ?), Ha. split_and!; try done; lia.
Qed.

Section quotes.
Context `{Rt : SolanaRuntime} `{Laws : !RuntimeLaws}.

Definition nominal_value_pda_of (mint : Pubkey) : Pubkey := pda (nominal_value_seeds mint) NOMINAL_VALUE_PROGRAM_ID.

Definition quote_of (n : NominalValue) : Quote :=
  mkQuote (nv_nominal_value_currency n) (nv_nominal_value_publish_type n) (nv_nominal_value_decimals n)
    (nv_nominal_value n) (nv_effective_datetime n).

Definition quote (w : World) (mint : Pubkey) : option Quote :=
  quote_of <$> view NominalValue w (nominal_value_pda_of mint).

(** Quotes are at their canonical addresses only. *)
Definition quotes_canonical (w : World) : Prop :=
  forall k (n : NominalValue), stored w k n -> exists mint, k = nominal_value_pda_of mint.

Lemma nominal_value_pda_inj mint mint' : nominal_value_pda_of mint = nominal_value_pda_of mint' -> mint = mint'.
Proof. intros [E _]%pda_inj. by injection E. Qed.

Lemma canonical_quote w mint k (n : NominalValue) :
  quotes_canonical w -> stored w k n -> pda_at (nominal_value_seeds mint) NOMINAL_VALUE_PROGRAM_ID k ->
  k = nominal_value_pda_of mint.
Proof.
  intros Hc Hs Hk. destruct (Hc k n Hs) as [mint' E].
  destruct (pda_at_unique _ _ _ _ _ Hk E) as [Em _]. by injection Em as ->.
Qed.

(** Exactly the quote of [mint] is written. *)
Lemma quote_written w w' mint (n : NominalValue) :
  quotes_canonical w -> stored w' (nominal_value_pda_of mint) n ->
  (forall j, j <> nominal_value_pda_of mint -> account w' j = account w j) ->
  quotes_canonical w' /\ quote w' mint = Some (quote_of n) /\
  forall m, m <> mint -> quote w' m = quote w m.
Proof.
  intros Hc Hs Hj. split; [|split].
  - intros k x Hx. destruct (decide (k = nominal_value_pda_of mint)) as [->|Hne]; [by exists mint|].
    unfold stored in Hx. rewrite (Hj _ Hne) in Hx. by eapply Hc.
  - unfold quote. apply view_Some in Hs. by rewrite Hs.
  - intros m Hm. unfold quote. f_equal. apply view_account, Hj. by intros ?%nominal_value_pda_inj.
Qed.

#[export] Instance InitializeNominalValue_try_accounts_inv signers a :
  OkInv (InitializeNominalValue_try_accounts signers a) (fun w b w' => in_authority a ∈ signers /\
    in_nominal_value_pda a = nominal_value_pda_of (in_mint a) /\ fresh w (in_nominal_value_pda a) /\
    pda_at (roles_seeds (in_mint a) (in_authority a)) ACCESS_CONTROL_PROGRAM_ID (in_authority_roles_pda a) /\
    in_deactivate_pda a = pda (deactivate_seeds (in_mint a)) DEACTIVATE_PROGRAM_ID /\
    (forall j, j <> in_nominal_value_pda a -> account w' j = account w j) /\
    data_of w' (in_nominal_value_pda a) = DZeroed (at_space (T:=NominalValue))).
Proof.
  intros w b w' Hr. unfold InitializeNominalValue_try_accounts in Hr. inv_ok. split_and!; try done.
  - intros j Hj. by rewrite account_set_account_ne by done.
  - unfold data_of. by rewrite account_set_account_eq.
Qed.

#[export] Instance WriteNominalValue_try_accounts_inv signers a :
  OkInv (WriteNominalValue_try_accounts signers a) (fun w n w' => w' = w /\ wn_authority a ∈ signers /\
    stored w (wn_nominal_value_pda a) n /\
    pda_at (nominal_value_seeds (wn_mint a)) NOMINAL_VALUE_PROGRAM_ID (wn_nominal_value_pda a) /\
    pda_at (roles_seeds (wn_mint a) (wn_authority a)) ACCESS_CONTROL_PROGRAM_ID (wn_authority_roles_pda a) /\
    wn_deactivate_pda a = pda (deactivate_seeds (wn_mint a)) DEACTIVATE_PROGRAM_ID).
Proof. intros w b w' Hr. unfold WriteNominalValue_try_accounts in Hr. by inv_ok. Qed.

Definition nv_mint (ix : NominalValueInstruction) : Pubkey :=
  match ix with
  | IxInitializeNominalValue a _ _ _ => in_mint a
  | IxPublishNominalValue a _ _ | IxRepublishNominalValue a _ _ => wn_mint a
  end.
Definition nv_actor (ix : NominalValueInstruction) : Pubkey :=
  match ix with
  | IxInitializeNominalValue a _ _ _ => in_authority a
  | IxPublishNominalValue a _ _ | IxRepublishNominalValue a _ _ => wn_authority a
  end.
Definition nv_role (ix : NominalValueInstruction) : Z :=
  match ix with IxInitializeNominalValue _ _ _ _ => ROLE_ADMIN | _ => ROLE_NOMINAL_VALUE end.

(** What an instruction did. *)
Definition quoted (signers : list Pubkey) (ix : NominalValueInstruction) (w w' : World) : Prop :=
  holder_of w signers (nv_mint ix) (nv_actor ix) (nv_role ix) /\ running w (nv_mint ix) /\
  active_mint w (nv_mint ix) /\ quotes_canonical w' /\
  (exists q, quote_step (w_now w) ix (quote w (nv_mint ix)) = Some q /\ quote w' (nv_mint ix) = Some q) /\
  forall m, m <> nv_mint ix -> quote w' m = quote w m.

Lemma quote_stored w mint (n : NominalValue) :
  stored w (nominal_value_pda_of mint) n -> quote w mint = Some (quote_of n).
Proof. intros Hs%view_Some. unfold quote. by rewrite Hs. Qed.

(** The account of the instruction's mint was written with [n]. *)
Lemma quoted_written signers ix w w1 ev (n : NominalValue) rk dk vk f :
  quotes_canonical w -> nv_actor ix ∈ signers ->
  pda_at (roles_seeds (nv_mint ix) (nv_actor ix)) ACCESS_CONTROL_PROGRAM_ID rk ->
  dk = pda (deactivate_seeds (nv_mint ix)) DEACTIVATE_PROGRAM_ID ->
  operation_allowed w rk (nv_mint ix) dk vk (nv_role ix) f ->
  (forall j, j <> nominal_value_pda_of (nv_mint ix) -> account w1 j = account w j) ->
  quote_step (w_now w) ix (quote w (nv_mint ix)) = Some (quote_of n) ->
  quoted signers ix w
    (set_account (nominal_value_pda_of (nv_mint ix)) (mkAccount (at_program (T:=NominalValue)) (at_data n)) (add_event ev w1)).
Proof.
  intros Hc Hs Hk Hd Ha Hj Hq. destruct (allowed_actor _ _ _ _ _ _ _ _ _ Hs Hk Hd Ha) as (? & ? & ?).
  destruct (quote_written w
    (set_account (nominal_value_pda_of (nv_mint ix)) (mkAccount (at_program (T:=NominalValue)) (at_data n)) (add_event ev w1))
    (nv_mint ix) n Hc) as (? & ? & ?).
  - unfold stored. by rewrite account_set_account_eq.
  - intros j Hne. rewrite account_set_account_ne by (by apply not_eq_sym). by apply Hj.
  - do 4 (split; [done|]). split; [by exists (quote_of n)|done].
Qed.

Lemma nominal_value_quoted signers ix w w' :
  quotes_canonical w -> nominal_value signers ix w = Ok (tt, w') -> quoted signers ix w w'.
Proof.
  intros Hc Hr. destruct ix as [a d c t|a v e|a v e]; simpl in Hr.
  - unfold initialize_nominal_value in Hr.
    apply bind_ok in Hr as (b & w1 & (Hs & Ek & Hf & Hk & Hd & Hj & Hz)%ok_inv & Hr). inv_ok.
    rename select (operation_allowed _ _ _ _ _ _ _) into Ha. rewrite Ek in *.
    eapply operation_allowed_created in Ha; [|by apply (Z.ltb_lt 0 (at_space (T:=NominalValue)))|exact Hz|exact Hj].
    eapply (quoted_written _ (IxInitializeNominalValue a d c t)); [done..|]. cbn.
    unfold quote. assert (Hp : at_program (T:=NominalValue) <> SYSTEM_PROGRAM_ID) by program_ne.
    rewrite (view_fresh _ _ Hp Hf). reflexivity.
  - unfold publish_nominal_value in Hr. inv_ok. zify_checks.
    match goal with Hs : stored _ _ ?n |- _ => pose proof (canonical_quote w (wn_mint a) _ n Hc Hs ltac:(done)) as Ek end.
    rewrite Ek in *.
    eapply (quoted_written _ (IxPublishNominalValue a v e)); [done..|]. cbn.
    erewrite quote_stored by eassumption. cbn. by rewrite decide_True by lia.
  - unfold republish_nominal_value in Hr. inv_ok. zify_checks.
    match goal with Hs : stored _ _ ?n |- _ => pose proof (canonical_quote w (wn_mint a) _ n Hc Hs ltac:(done)) as Ek end.
    rewrite Ek in *.
    eapply (quoted_written _ (IxRepublishNominalValue a _ _)); [done..|]. cbn.
    erewrite quote_stored by eassumption. cbn. by rewrite decide_True by lia.
Qed.
Lemma nominal_value_writes signers ix :
  preserves (writes_only NOMINAL_VALUE_PROGRAM_ID) (nominal_value signers ix).
Proof.
  destruct ix; simpl; unfold initialize_nominal_value, publish_nominal_value, republish_nominal_value,
    InitializeNominalValue_try_accounts, WriteNominalValue_try_accounts; solve_preserves.
Qed.

(** C17: the nominal-value program keeps well-typed,
    dated quotes.  Every instruction that succeeds is signed by an account with
    the role the instruction asks for (administrator to open the quote, nominal
    value to write it), on a mint that is neither paused nor deactivated, and is
    the step of the specification on the quote of its mint: a quote is opened
    once, publishing moves it to a strictly later date that has passed,
    republishing changes the value of the current date and nothing else; the
    currency, publish type and decimals never change, and the quotes of the other
    mints stay as they are.  In every world reached each quote has a 3-byte
    currency, [u8] decimals, a [u128] value and an [i64] date, which is 0 for an
    unpublished quote and lies in the past otherwise. *)
Theorem nominal_value_publishes_quotes signers ix w w' :
  nominal_value_args_ok ix -> quotes_canonical w ->
  (forall mint q, quote w mint = Some q -> quote_ok (w_now w) q) ->
  nominal_value signers ix w = Ok (tt, w') ->
  quoted signers ix w w' /\ forall mint q, quote w' mint = Some q -> quote_ok (w_now w') q.
Proof.
  intros Ha Hc Hq Hr. pose proof (nominal_value_quoted _ _ _ _ Hc Hr) as Hd. split; [done|].
  destruct (nominal_value_writes _ _ _ _ _ Hr) as [-> _]. destruct Hd as (_ & _ & _ & _ & (q1 & Hs & Eq) & Hm).
  intros mint q Hmint. destruct (decide (mint = nv_mint ix)) as [->|Hne].
  - rewrite Eq in Hmint. injection Hmint as <-. eapply quote_step_ok; [exact Ha| |exact Hs]. apply Hq.
  - rewrite Hm in Hmint by done. by eapply Hq.
Qed.
End quotes.

(** ** A run *)

Definition NOMINAL_VALUE_PDA : Pubkey := Eval vm_compute in ref_pda (nominal_value_seeds MINT) NOMINAL_VALUE_PROGRAM_ID.
Definition open_quote : NominalValueInstruction :=
  IxInitializeNominalValue (mkInitializeNominalValue ADMIN ADMIN SAMPLE_ROLES SAMPLE_CONFIG SAMPLE_DEACTIVATE MINT
    NOMINAL_VALUE_PDA SAMPLE_VERSION) 2 [69; 85; 82] Unit.
Definition write_accounts : WriteNominalValue :=
  mkWriteNominalValue ADMIN SAMPLE_ROLES SAMPLE_CONFIG SAMPLE_DEACTIVATE MINT NOMINAL_VALUE_PDA SAMPLE_VERSION.
Definition quote_world : World := run_world (nominal_value [ADMIN] open_quote) sample_world.
Definition publish_quote : NominalValueInstruction := IxPublishNominalValue write_accounts 10050 900000.
Definition published_world : World := run_world (nominal_value [ADMIN] publish_quote) quote_world.

Example published : quote published_world MINT = Some (mkQuote [69; 85; 82] Unit 2 10050 900000).
Proof. vm_compute. reflexivity. Qed.

Example not_before : is_ok (nominal_value [ADMIN] publish_quote published_world) = false.
Proof. vm_compute. reflexivity. Qed.

Example corrected :
  is_ok (nominal_value [ADMIN] (IxRepublishNominalValue write_accounts 10051 900000) published_world) = true.
Proof. vm_compute. reflexivity. Qed.

Lemma no_quotes k (n : NominalValue) : stored sample_world k n -> False.
Proof.
  intros Hs%stored_data. eapply (holds_no_ok NominalValue sample_world k n); [reflexivity|vm_compute; reflexivity|].
  by apply at_of_data_Some.
Qed.

Lemma nominal_value_publishes_quotes_witness :
  quoted [ADMIN] open_quote sample_world quote_world /\
  forall mint q, quote quote_world mint = Some q -> quote_ok (w_now quote_world) q.
Proof.
  eapply (nominal_value_publishes_quotes [ADMIN] open_quote sample_world quote_world).
  - simpl. unfold u8_ok, U8_MAX. split; [lia|]. split; [done|]. rewrite !Forall_cons. split_and!; try lia. constructor.
  - intros k n Hs. by apply no_quotes in Hs.
  - intros mint q Hq. unfold quote in Hq. apply fmap_Some in Hq as (n & Hn%view_Some & _). by apply no_quotes in Hn.
  - apply run_ok. vm_compute. reflexivity.
Defined.
