(* ===== verification/Document.v ===== *)
(** * Document: the document program ([programs/document])

    Named documents of a mint, each in an account of its own whose size follows
    the [uri]; the account is created, resized and written by hand. *)

From S2P Require Import Prelude.
From S2P Require Import Bitmask.
From S2P Require Import ProgramIds.
From S2P Require Import Errors.
From S2P Require Import State.
From S2P Require Import Runtime.
From S2P Require Import Anchor.
From S2P Require Import Frame.
From S2P Require Import PdaSeeds.
From S2P Require Import PdaUtils.
From S2P Require Import Common.
From S2P Require Import Reference.
From S2P Require Import Sample.
From S2P Require Import Frames.

(** [Document::FIXED_SPACE] and [Document::space] *)
Definition FIXED_SPACE : Z := 32 + 32 + 32 + 1.
Definition space (uri_len : Z) : Z := 8 + FIXED_SPACE + 4 + uri_len.

(** [str::len], in bytes *)
Definition str_len (s : string) : Z := Z.of_nat (String.length s).

(** [SetDocument]; [RemoveDocument] has the same fields. *)
Record SetDocument : Set := mkSetDocument {
  sd_payer : Pubkey;
  sd_authority : Pubkey;
  sd_authority_roles_pda : Pubkey;
  sd_asset_configuration_pda : Pubkey;
  sd_deactivate_pda : Pubkey;
  sd_mint : Pubkey;
  sd_document_pda : Pubkey;
  sd_asset_class_version_pda : Pubkey }.

Section instructions.
Context `{Rt : SolanaRuntime}.

Definition SetDocument_try_accounts (signers : list Pubkey) (a : SetDocument) (name : list Z) : M Z :=
  signer signers (sd_payer a);;
  signer signers (sd_authority a);;
  loader_load Roles (sd_authority_roles_pda a);;
  asset_configuration ← account_try_from AssetConfiguration (sd_asset_configuration_pda a);
  loader_load AssetClassVersion (sd_asset_class_version_pda a);;
  roles_constraint (sd_authority_roles_pda a) (sd_mint a) (sd_authority a);;
  asset_configuration_constraint (sd_asset_configuration_pda a) (sd_mint a) asset_configuration;;
  deactivate_constraint (sd_deactivate_pda a) (sd_mint a);;
  bump ← seeds_check (sd_document_pda a) (document_seeds (sd_mint a) name) DOCUMENT_PROGRAM_ID;
  asset_class_version_constraint (sd_asset_class_version_pda a) asset_configuration;;
  mret bump.

(** The guards of both instructions, in the order of this program. *)
Definition document_guards (a : SetDocument) (functionality : Z) : M unit :=
  roles ← loader_load Roles (sd_authority_roles_pda a);
  require_role roles ROLE_DOCUMENT_MANAGER;;
  version ← loader_load AssetClassVersion (sd_asset_class_version_pda a);
  require_functionality version functionality;;
  require_not_paused (sd_mint a);;
  require_active (sd_deactivate_pda a).

Definition set_document (signers : list Pubkey) (a : SetDocument) (name : list Z) (uri : string)
    (document_hash : list Z) : M unit :=
  bump ← SetDocument_try_accounts signers a name;
  document_guards a DOCUMENT_SET_DOCUMENT;;
  require (negb (bool_decide (uri = EmptyString))) (EDocument DocumentError.EmptyUri);;
  let space_needed := space (str_len uri) in
  w ← get;
  document ←
    (if data_is_empty (data_of w (sd_document_pda a)) then
       create_or_adopt_pda signers (sd_payer a) (sd_document_pda a) DOCUMENT_PROGRAM_ID space_needed
         (build_pda_signer_seeds (document_seeds (sd_mint a) name) bump);;
       mret (mkDocument (sd_mint a) name uri document_hash bump)
     else
       existing_document ← account_try_from Document (sd_document_pda a);
       resize_pda DOCUMENT_PROGRAM_ID signers (sd_payer a) (sd_document_pda a) space_needed;;
       mret (mkDocument (d_mint existing_document) name uri document_hash (d_bump existing_document)));
  serialize_pda (sd_document_pda a) document;;
  emit_cpi (EvDocument (DocumentUpdated (d_mint document) (sd_authority a) name uri document_hash)).

Definition RemoveDocument_try_accounts (signers : list Pubkey) (a : SetDocument) (name : list Z) : M Document :=
  signer signers (sd_payer a);;
  signer signers (sd_authority a);;
  loader_load Roles (sd_authority_roles_pda a);;
  asset_configuration ← account_try_from AssetConfiguration (sd_asset_configuration_pda a);
  document ← account_try_from Document (sd_document_pda a);
  loader_load AssetClassVersion (sd_asset_class_version_pda a);;
  roles_constraint (sd_authority_roles_pda a) (sd_mint a) (sd_authority a);;
  asset_configuration_constraint (sd_asset_configuration_pda a) (sd_mint a) asset_configuration;;
  deactivate_constraint (sd_deactivate_pda a) (sd_mint a);;
  seeds_bump_check (sd_document_pda a) (document_seeds (sd_mint a) name) DOCUMENT_PROGRAM_ID (d_bump document);;
  asset_class_version_constraint (sd_asset_class_version_pda a) asset_configuration;;
  mret document.

(** The account is closed when the instruction ends. *)
Definition remove_document (signers : list Pubkey) (a : SetDocument) (name : list Z) : M unit :=
  document ← RemoveDocument_try_accounts signers a name;
  document_guards a DOCUMENT_REMOVE_DOCUMENT;;
  emit_cpi (EvDocument (DocumentRemoved (d_mint document) (sd_authority a) name (d_uri document)
    (d_document_hash document)));;
  account_close DOCUMENT_PROGRAM_ID (sd_document_pda a) (sd_payer a).
End instructions.

Inductive DocumentInstruction : Set :=
| IxSetDocument (a : SetDocument) (name : list Z) (uri : string) (document_hash : list Z)
| IxRemoveDocument (a : SetDocument) (name : list Z).

Definition document `{Rt : SolanaRuntime} (signers : list Pubkey) (ix : DocumentInstruction) : M unit :=
  match ix with
  | IxSetDocument a name uri h => set_document signers a name uri h
  | IxRemoveDocument a name => remove_document signers a name
  end.

(** ** The documents of a mint *)

(** What an instruction makes of the document of its name. *)
Definition document_step (ix : DocumentInstruction) (d : option (string * list Z)) :
    option (option (string * list Z)) :=
  match ix, d with
  | IxSetDocument _ _ uri h, _ => if decide (uri = EmptyString) then None else Some (Some (uri, h))
  | IxRemoveDocument _ _, Some _ => Some None
  | IxRemoveDocument _ _, None => None
  end.

Definition sd_accounts (ix : DocumentInstruction) : SetDocument :=
  match ix with IxSetDocument a _ _ _ | IxRemoveDocument a _ => a end.
Definition sd_name (ix : DocumentInstruction) : list Z :=
  match ix with IxSetDocument _ n _ _ | IxRemoveDocument _ n => n end.

(** The event: a removal reports the document that was there. *)
Definition document_event (ix : DocumentInstruction) (d : option (string * list Z)) : Event :=
  let a := sd_accounts ix in
  EvDocument (match ix with
  | IxSetDocument _ name uri h => DocumentUpdated (sd_mint a) (sd_authority a) name uri h
  | IxRemoveDocument _ name =>
      let '(uri, h) := default (EmptyString, []) d in DocumentRemoved (sd_mint a) (sd_authority a) name uri h
  end).

Section register.
Context `{Rt : SolanaRuntime} `{Laws : !RuntimeLaws}.

Definition document_pda_of (mint : Pubkey) (name : list Z) : Pubkey :=
  pda (document_seeds mint name) DOCUMENT_PROGRAM_ID.

Definition document_of (w : World) (mint : Pubkey) (name : list Z) : option (string * list Z) :=
  (fun d => (d_uri d, d_document_hash d)) <$> view Document w (document_pda_of mint name).

(** Every document is at the address of the mint and name it records. *)
Definition documents_ok (w : World) : Prop :=
  forall k (d : Document), stored w k d -> k = document_pda_of (d_mint d) (d_name d).

Lemma document_pda_inj m n m' n' : document_pda_of m n = document_pda_of m' n' -> m = m' /\ n = n'.
Proof. intros [E _]%pda_inj. by injection E. Qed.

Lemma document_at w m n k (d : Document) :
  documents_ok w -> stored w k d -> pda_at (document_seeds m n) DOCUMENT_PROGRAM_ID k ->
  k = document_pda_of m n /\ d_mint d = m /\ d_name d = n.
Proof.
  intros Hw Hs Hk. pose proof (Hw k d Hs) as E. destruct (pda_at_unique _ _ _ _ _ Hk E) as [Es _].
  injection Es as -> ->. done.
Qed.

Lemma document_stored w m n (d : Document) :
  stored w (document_pda_of m n) d -> document_of w m n = Some (d_uri d, d_document_hash d).
Proof. intros Hs%view_Some. unfold document_of. by rewrite Hs. Qed.

(** What a successful instruction is. *)
Definition registered (signers : list Pubkey) (ix : DocumentInstruction) (w w' : World) : Prop :=
  let mint := sd_mint (sd_accounts ix) in
  holder_of w signers mint (sd_authority (sd_accounts ix)) ROLE_DOCUMENT_MANAGER /\
  running w mint /\ active_mint w mint /\ documents_ok w' /\
  document_step ix (document_of w mint (sd_name ix)) = Some (document_of w' mint (sd_name ix)) /\
  (forall m n, (m, n) <> (mint, sd_name ix) -> document_of w' m n = document_of w m n) /\
  exists w1, w_events w' = document_event ix (document_of w mint (sd_name ix)) :: w1.

Definition doc_pda (ix : DocumentInstruction) : Pubkey := document_pda_of (sd_mint (sd_accounts ix)) (sd_name ix).

(** Only the account of the document changes. *)
Lemma document_frame ix w w' :
  documents_ok w -> elsewhere (doc_pda ix) w w' ->
  (forall d : Document, stored w' (doc_pda ix) d -> d_mint d = sd_mint (sd_accounts ix) /\ d_name d = sd_name ix) ->
  documents_ok w' /\
  forall m n, (m, n) <> (sd_mint (sd_accounts ix), sd_name ix) -> document_of w' m n = document_of w m n.
Proof.
  intros Hw He Hd. split.
  - intros k d Hs. destruct (decide (k = doc_pda ix)) as [->|Hne].
    + destruct (Hd d Hs) as [-> ->]. done.
    + apply Hw. unfold stored in *. by rewrite <- He.
  - intros m n Hne. unfold document_of. f_equal. apply view_account, He.
    intros [-> ->]%document_pda_inj. done.
Qed.

#[export] Instance document_guards_inv a f :
  OkInv (document_guards a f) (fun w _ w' => w' = w /\
    operation_allowed w (sd_authority_roles_pda a) (sd_mint a) (sd_deactivate_pda a)
      (sd_asset_class_version_pda a) ROLE_DOCUMENT_MANAGER f).
Proof.
  intros w [] w' Hr. unfold document_guards in Hr. inv_ok. unfold functionality_enabled in *.
  unfold operation_allowed. split_and!; eauto.
Qed.

#[export] Instance SetDocument_try_accounts_inv signers a name :
  OkInv (SetDocument_try_accounts signers a name) (fun w _ w' => w' = w /\ sd_authority a ∈ signers /\
    sd_document_pda a = document_pda_of (sd_mint a) name /\
    pda_at (roles_seeds (sd_mint a) (sd_authority a)) ACCESS_CONTROL_PROGRAM_ID (sd_authority_roles_pda a) /\
    sd_deactivate_pda a = pda (deactivate_seeds (sd_mint a)) DEACTIVATE_PROGRAM_ID).
Proof. intros w b w' Hr. unfold SetDocument_try_accounts in Hr. by inv_ok. Qed.

#[export] Instance RemoveDocument_try_accounts_inv signers a name :
  OkInv (RemoveDocument_try_accounts signers a name) (fun w d w' => w' = w /\ sd_authority a ∈ signers /\
    stored w (sd_document_pda a) d /\
    pda_at (document_seeds (sd_mint a) name) DOCUMENT_PROGRAM_ID (sd_document_pda a) /\
    pda_at (roles_seeds (sd_mint a) (sd_authority a)) ACCESS_CONTROL_PROGRAM_ID (sd_authority_roles_pda a) /\
    sd_deactivate_pda a = pda (deactivate_seeds (sd_mint a)) DEACTIVATE_PROGRAM_ID).
Proof. intros w b w' Hr. unfold RemoveDocument_try_accounts in Hr. by inv_ok. Qed.
(** The account is created or resized: no other account changes. *)
Lemma document_opened signers a name uri h b w (d : Document) w' :
  documents_ok w -> sd_document_pda a = document_pda_of (sd_mint a) name ->
  (if data_is_empty (data_of w (sd_document_pda a)) then
     create_or_adopt_pda signers (sd_payer a) (sd_document_pda a) DOCUMENT_PROGRAM_ID (space (str_len uri))
       (build_pda_signer_seeds (document_seeds (sd_mint a) name) b);;
     mret (mkDocument (sd_mint a) name uri h b)
   else
     existing_document ← account_try_from Document (sd_document_pda a);
     resize_pda DOCUMENT_PROGRAM_ID signers (sd_payer a) (sd_document_pda a) (space (str_len uri));;
     mret (mkDocument (d_mint existing_document) name uri h (d_bump existing_document))) w = Ok (d, w') ->
  elsewhere (document_pda_of (sd_mint a) name) w w' /\
  d_mint d = sd_mint a /\ d_name d = name /\ d_uri d = uri /\ d_document_hash d = h.
Proof.
  intros Hw Ek Hr. rewrite Ek in Hr. destruct (data_is_empty _) eqn:E.
  - apply bind_ok in Hr as ([] & w1 & Hc & Hr). apply create_or_adopt_pda_elsewhere in Hc. inv_ok. done.
  - apply bind_ok in Hr as (e & w1 & (Hs & ->)%ok_inv & Hr). apply bind_ok in Hr as ([] & w1 & Hc & Hr).
    apply resize_pda_elsewhere in Hc. destruct (document_at _ _ name _ _ Hw Hs (pda_at_pda _ _)) as (_ & Em & _).
    inv_ok. done.
Qed.

Lemma set_document_registered signers a name uri h w w' :
  documents_ok w -> set_document signers a name uri h w = Ok (tt, w') ->
  registered signers (IxSetDocument a name uri h) w w'.
Proof.
  intros Hw Hr. unfold set_document in Hr.
  apply bind_ok in Hr as (b & w1 & (-> & Hs & Ek & Hk & Hd)%ok_inv & Hr).
  apply bind_ok in Hr as ([] & w1 & (-> & Ha)%ok_inv & Hr).
  destruct (allowed_actor _ _ _ _ _ _ _ _ _ Hs Hk Hd Ha) as (? & ? & ?). clear Ha.
  apply bind_ok in Hr as ([] & w1 & Hu & Hr). apply bind_ok in Hr as (w0 & w2 & [-> ->]%ok_inv & Hr).
  apply bind_ok in Hr as (d & w2 & Ho & Hr). inv_ok. zify_checks.
  apply document_opened in Ho as (He & Em & En & Eu & Eh); [|done|done]. rewrite Ek.
  set (w' := add_event _ _).
  assert (Hst : stored w' (document_pda_of (sd_mint a) name) d).
  { unfold stored, w'. rewrite account_add_event. by rewrite account_set_account_eq. }
  destruct (document_frame (IxSetDocument a name uri h) w w' Hw) as [Hok Hf].
  - intros j Hj. unfold w'. rewrite account_add_event, account_set_account_ne by (by apply not_eq_sym). by apply He.
  - intros d' Hd'. rewrite (stored_inj _ _ _ _ Hd' Hst). done.
  - do 4 (split; [done|]). simpl. split; [|split; [exact Hf|]].
    + rewrite (document_stored _ _ _ _ Hst), Eu, Eh. by rewrite decide_False.
    + exists (w_events w2). unfold w', document_event. simpl. by rewrite Em.
Qed.

Lemma remove_document_registered signers a name w w' :
  documents_ok w -> remove_document signers a name w = Ok (tt, w') ->
  registered signers (IxRemoveDocument a name) w w'.
Proof.
  intros Hw Hr. unfold remove_document in Hr.
  apply bind_ok in Hr as (d & w1 & (-> & Hs & Hst & Hk' & Hk & Hd)%ok_inv & Hr).
  apply bind_ok in Hr as ([] & w1 & (-> & Ha)%ok_inv & Hr).
  destruct (allowed_actor _ _ _ _ _ _ _ _ _ Hs Hk Hd Ha) as (? & ? & ?). clear Ha.
  destruct (document_at _ _ _ _ _ Hw Hst Hk') as (Ek & Em & _). rewrite Ek in *. inv_ok.
  match goal with |- registered _ _ _ ?x => set (w' := x) end.
  assert (Hno : view Document w' (document_pda_of (sd_mint a) name) = None).
  { unfold view, w', owner_of. by rewrite account_set_account_eq. }
  destruct (document_frame (IxRemoveDocument a name) w w' Hw) as [Hok Hf].
  - intros j Hj. unfold w'. by rewrite account_set_account_ne by (by apply not_eq_sym).
  - intros d' Hd'%view_Some. change (view Document w' (document_pda_of (sd_mint a) name) = Some d') in Hd'.
    rewrite Hno in Hd'. discriminate Hd'.
  - do 4 (split; [done|]). simpl. rewrite (document_stored _ _ _ _ Hst). split; [|split; [exact Hf|]].
    + unfold document_of. by rewrite Hno.
    + exists (w_events w). unfold w', document_event. simpl. by rewrite Em.
Qed.

(** C19: the documents of a mint are a register by name.
    An instruction that succeeds is signed by a document manager of a mint that
    is neither paused nor deactivated.  After [set_document] the document read
    under its mint and name is the one that was set, whether it is new or
    replaces one of another length; [remove_document] needs a document, reports
    in its event exactly the [uri] and hash that were set, and leaves none.  No
    document of another mint or name changes, and every document stays at the
    address of the mint and name it records. *)
Theorem documents_round_trip signers ix w w' :
  documents_ok w -> document signers ix w = Ok (tt, w') -> registered signers ix w w'.
Proof.
  intros Hw Hr. destruct ix; [by apply set_document_registered|by apply remove_document_registered].
Qed.

Lemma document_writes signers ix : preserves (writes_only DOCUMENT_PROGRAM_ID) (document signers ix).
Proof.
  destruct ix; simpl; unfold set_document, remove_document, SetDocument_try_accounts,
    RemoveDocument_try_accounts, document_guards; solve_preserves.
Qed.
End register.

(** ** A run: a document is set, replaced by a longer one, removed *)

Definition TERMS : list Z := replicate 32 7.
Definition document_accounts : SetDocument :=
  mkSetDocument ADMIN ADMIN SAMPLE_ROLES SAMPLE_CONFIG SAMPLE_DEACTIVATE MINT
    (ref_pda (document_seeds MINT TERMS) DOCUMENT_PROGRAM_ID) SAMPLE_VERSION.
Definition hash_1 : list Z := replicate 32 1.
Definition set_terms (uri : string) : DocumentInstruction := IxSetDocument document_accounts TERMS uri hash_1.

Definition document_world : World := run_world (document [ADMIN] (set_terms "ipfs://a")) sample_world.
Definition replaced_world : World := run_world (document [ADMIN] (set_terms "ipfs://longer")) document_world.
Definition removed_world : World :=
  run_world (document [ADMIN] (IxRemoveDocument document_accounts TERMS)) replaced_world.

Example documents_over_time :
  document_of document_world MINT TERMS = Some ("ipfs://a", hash_1) /\
  document_of replaced_world MINT TERMS = Some ("ipfs://longer", hash_1) /\
  document_of removed_world MINT TERMS = None.
Proof. split_and!; vm_compute; reflexivity. Qed.

Lemma documents_round_trip_witness : registered [ADMIN] (set_terms "ipfs://longer") document_world replaced_world.
Proof.
  eapply (documents_round_trip [ADMIN] (set_terms "ipfs://longer") document_world replaced_world).
  - intros k d Hd.
    assert (Hk : k ∈ [document_pda_of MINT TERMS]).
    { eapply (only_at_ok Document _ document_world k d); [reflexivity|vm_compute; reflexivity|].
      apply at_of_data_Some. by apply stored_data in Hd. }
    apply list_elem_of_singleton in Hk as ->.
    assert (E : view Document document_world (document_pda_of MINT TERMS) =
      Some (mkDocument MINT TERMS "ipfs://a" hash_1 255)) by (vm_compute; reflexivity).
    apply view_Some in Hd. rewrite Hd in E. by injection E as ->.
  - apply run_ok. vm_compute. reflexivity.
Defined.
