(* ===== verification/Transfer.v ===== *)
(** * Transfer: the transfer program ([programs/transfer])

    [batch_transfer] runs one Token-2022 transfer per amount, each with the
    accounts the transfer hook asks for; the signature of the holder is the only
    one involved.  A batch is the sequence of its transfers. *)

From S2P Require Import Prelude.
From S2P Require Import Bitmask.
From S2P Require Import ProgramIds.
From S2P Require Import Errors.
From S2P Require Import State.
From S2P Require Import Runtime.
From S2P Require Import Anchor.
From S2P Require Import Frame.
From S2P Require Import Reference.
From S2P Require Import PdaSeeds.
From S2P Require Import PdaUtils.
From S2P Require Import Common.
From S2P Require Import Sample.
From S2P Require Import Freeze.
From S2P Require Import FreezeProofs.
From S2P Require Import TransferControl.
From S2P Require Import Token.
From S2P Require Import TransferHook.
From S2P Require Import Deployed.
From S2P Require Import Operations.
From S2P Require Import Hold.
From S2P Require Import HoldProofs.
From S2P Require Import HoldInvariant.
From S2P Require Import SampleRuns.
From S2P Require Import Frames.
From S2P Require Import System.

Record BatchTransferTokens : Set := mkBatchTransferTokens {
  tr_source_owner : Pubkey;
  tr_source_account : Pubkey;
  tr_mint : Pubkey;
  tr_extra_account_meta_list : Pubkey;
  tr_transfer_hook_program : Pubkey;
  tr_freeze_program : Pubkey;
  tr_deploy_program : Pubkey;
  tr_asset_configuration_pda : Pubkey;
  tr_factory_program : Pubkey;
  tr_asset_class_version_pda : Pubkey;
  tr_deactivate_program : Pubkey;
  tr_deactivate_pda : Pubkey;
  tr_transfer_control_program : Pubkey;
  tr_transfer_control_mode_pda : Pubkey;
  tr_source_control_list_pda : Pubkey;
  tr_source_freeze_state_pda : Pubkey;
  tr_hold_program : Pubkey;
  tr_source_hold_position_pda : Pubkey;
  tr_token_2022_program : Pubkey }.

(** The accounts forwarded to the hook on the leg of a destination. *)
Definition leg_hook_accounts (a : BatchTransferTokens) (destination_control_list_pda : Pubkey) : HookAccounts := {|
  ha_extra_account_meta_list := tr_extra_account_meta_list a;
  ha_transfer_hook_program := tr_transfer_hook_program a;
  ha_deploy_program := tr_deploy_program a;
  ha_asset_configuration_pda := tr_asset_configuration_pda a;
  ha_factory_program := tr_factory_program a;
  ha_asset_class_version_pda := tr_asset_class_version_pda a;
  ha_deactivate_program := tr_deactivate_program a;
  ha_deactivate_pda := tr_deactivate_pda a;
  ha_transfer_control_program := tr_transfer_control_program a;
  ha_transfer_control_mode_pda := tr_transfer_control_mode_pda a;
  ha_source_control_list_pda := tr_source_control_list_pda a;
  ha_destination_control_list_pda := destination_control_list_pda;
  ha_freeze_program := tr_freeze_program a;
  ha_source_freeze_state_pda := tr_source_freeze_state_pda a;
  ha_hold_program := tr_hold_program a;
  ha_source_hold_position_pda := tr_source_hold_position_pda a |}.

Section instructions.
Context `{Rt : SolanaRuntime} `{Tok : Token2022} (other : HookCall).

Definition BatchTransferTokens_try_accounts (signers : list Pubkey) (a : BatchTransferTokens) : M unit :=
  signer signers (tr_source_owner a);;
  asset_configuration ← account_try_from AssetConfiguration (tr_asset_configuration_pda a);
  loader_load AssetClassVersion (tr_asset_class_version_pda a);;
  check_program (tr_token_2022_program a) TOKEN_2022_PROGRAM_ID;;
  seeds_check (tr_extra_account_meta_list a) (extra_account_metas_seeds (tr_mint a)) TRANSFER_HOOK_PROGRAM_ID;;
  check_address (tr_transfer_hook_program a) TRANSFER_HOOK_PROGRAM_ID;;
  check_address (tr_freeze_program a) FREEZE_PROGRAM_ID;;
  check_address (tr_deploy_program a) DEPLOY_PROGRAM_ID;;
  asset_configuration_constraint (tr_asset_configuration_pda a) (tr_mint a) asset_configuration;;
  check_address (tr_factory_program a) FACTORY_PROGRAM_ID;;
  asset_class_version_constraint (tr_asset_class_version_pda a) asset_configuration;;
  check_address (tr_deactivate_program a) DEACTIVATE_PROGRAM_ID;;
  deactivate_constraint (tr_deactivate_pda a) (tr_mint a);;
  check_address (tr_transfer_control_program a) TRANSFER_CONTROL_PROGRAM_ID;;
  seeds_check (tr_transfer_control_mode_pda a) (transfer_control_mode_seeds (tr_mint a))
    TRANSFER_CONTROL_PROGRAM_ID;;
  seeds_check (tr_source_control_list_pda a) (control_list_seeds (tr_mint a) (tr_source_account a))
    TRANSFER_CONTROL_PROGRAM_ID;;
  seeds_check (tr_source_freeze_state_pda a) (freeze_state_seeds (tr_mint a) (tr_source_account a))
    FREEZE_PROGRAM_ID;;
  check_address (tr_hold_program a) HOLD_PROGRAM_ID;;
  hold_position_constraint (tr_source_hold_position_pda a) (tr_mint a) (tr_source_account a).

(** The transfer of one leg. *)
Definition leg (a : BatchTransferTokens) (decimals amount destination destination_control_list_pda : _) :
    TransferChecked := {|
  tx_source := tr_source_account a; tx_mint := tr_mint a; tx_destination := destination;
  tx_authority := tr_source_owner a; tx_amount := amount; tx_decimals := decimals;
  tx_extra := ordered (leg_hook_accounts a destination_control_list_pda) |}.

Definition batch_transfer (signers : list Pubkey) (a : BatchTransferTokens)
    (remaining_accounts : list Pubkey) (amounts : list Z) : M unit :=
  BatchTransferTokens_try_accounts signers a;;
  require (negb (bool_decide (amounts = []))) (ETransfer TransferError.EmptyBatch);;
  require (bool_decide (length remaining_accounts = length amounts * 2)%nat)
    (ETransfer TransferError.InvalidRemainingAccounts);;
  mint_state ← unpack_mint (tr_mint a);
  for_each (zip amounts (pairs remaining_accounts)) (fun '(amount, (destination, control_list_pda)) =>
    transfer_checked (hook_program other) (leg a (m_decimals mint_state) amount destination control_list_pda)
      signers).
End instructions.

(** ** Balances *)

Definition balance (w : World) (k : Pubkey) : Z :=
  match data_of w k with DToken t => t_amount t | _ => 0 end.

(** What the legs pay to [k]. *)
Definition paid_to (k : Pubkey) (legs : list (Z * (Pubkey * Pubkey))) : Z :=
  foldr (fun l n => (if N.eqb l.2.1 k then l.1 else 0) + n) 0 legs.
Definition paid (legs : list (Z * (Pubkey * Pubkey))) : Z := foldr (fun l n => l.1 + n) 0 legs.

(** The balances after [legs] were paid out of [source]. *)
Definition paid_out (source : Pubkey) (legs : list (Z * (Pubkey * Pubkey))) (w w' : World) : Prop :=
  forall k, balance w' k = balance w k + paid_to k legs - (if N.eqb k source then paid legs else 0).

Section effects.
Context `{Rt : SolanaRuntime} `{Laws : !RuntimeLaws} `{Tok : Token2022} `{TLaws : !TokenLaws} (other : HookCall).

Lemma balance_token w k t : token_account w k t -> balance w k = t_amount t.
Proof. unfold token_account, balance, data_of. by intros ->. Qed.

Lemma hooked_not_token w mint t : hooked w mint -> ~ token_account w mint t.
Proof. intros (m & Hm & _) Ht. unfold mint_account, token_account in *. congruence. Qed.

(** One leg: [n] units of the mint leave the source for [destination], on the signature of the holder,
    while the mint is not paused.  Between different accounts the amount is debited and credited, no
    other account changes, and the hook found the transfer compliant while it was in flight. *)
Record leg_paid (a : BatchTransferTokens) (signers : list Pubkey) (l : Z * (Pubkey * Pubkey))
    (w w' : World) : Prop := {
  lp_signed : tr_source_owner a ∈ signers;
  lp_mint : exists m, mint_account w (tr_mint a) m /\ m_paused m <> Some true;
  lp_accounts : exists s d, token_account w (tr_source_account a) s /\ token_account w l.2.1 d /\
    t_mint s = tr_mint a /\ t_mint d = tr_mint a /\ 0 <= l.1 <= t_amount s /\
    if decide (tr_source_account a = l.2.1) then w' = w else
    transferred (tr_source_account a) l.2.1 l.1 s d w w' /\
    compliant (in_flight (leg a 0 l.1 l.2.1 l.2.2) s d w) (tr_mint a) (tr_source_account a) l.2.1 }.

(** The legs one after the other, from [w] to [w'], with nothing before, between or after. *)
Fixpoint legs_paid (a : BatchTransferTokens) (signers : list Pubkey) (legs : list (Z * (Pubkey * Pubkey)))
    (w w' : World) : Prop :=
  match legs with
  | [] => w' = w
  | l :: legs => exists w1, leg_paid a signers l w w1 /\ legs_paid a signers legs w1 w'
  end.

Lemma hooked_kept src dst n s d w w' mint :
  hooked w mint -> token_account w src s -> token_account w dst d -> transferred src dst n s d w w' -> hooked w' mint.
Proof.
  intros Hh Hs Hd [_ _ _ Hj]. pose proof Hh as (m & Hm & Ht). exists m. split; [|done].
  unfold mint_account. rewrite Hj; [exact Hm| |]; intros E.
  - rewrite <- E in Hs. by apply (hooked_not_token w mint s).
  - rewrite <- E in Hd. by apply (hooked_not_token w mint d).
Qed.

Lemma transfer_hooked ix signers w w' :
  hooked w (tx_mint ix) -> transfer_checked (hook_program other) ix signers w = Ok (tt, w') -> hooked w' (tx_mint ix).
Proof.
  intros Hh Hr. destruct (transfer_effect _ _ _ _ _ Hh Hr) as (s & d & Hs & Hd & _ & _ & _ & _ & Hw).
  destruct Hw as [[_ ->]|(_ & Ht & _)]; [done|]. exact (hooked_kept _ _ _ _ _ _ _ _ Hh Hs Hd Ht).
Qed.

Lemma leg_runs a signers decimals n d c w w' :
  users signers -> hooked w (tr_mint a) ->
  transfer_checked (hook_program other) (leg a decimals n d c) signers w = Ok (tt, w') ->
  leg_paid a signers (n, (d, c)) w w' /\ hooked w' (tr_mint a).
Proof.
  intros Hu Hh Hr. pose proof (transfer_checked_ok _ _ _ _ _ Hr) as (_ & _ & m & _ & _ & Hm & _ & _ & _ & Hp & _).
  destruct (transfer_effect _ (leg a decimals n d c) _ _ _ Hh Hr) as (s & t & Hs & Ht & Es & Et & Ha & Hn & Hw). simpl in *. split.
  - split; [done|by exists m|]. exists s, t. simpl. do 5 (split; [done|]).
    destruct Hw as [[E ->]|(Hne & Htr & Hc)]; case_decide; try done.
    split; [done|]. destruct Hc as [E|Hc]; [rewrite E in Ha; by destruct (Hu _ _ Ha)|exact Hc].
  - exact (transfer_hooked (leg a decimals n d c) _ _ _ Hh Hr).
Qed.

(** What a leg does to the balances. *)
Lemma leg_balances a signers l w w' :
  leg_paid a signers l w w' ->
  forall k, balance w' k = balance w k + (if N.eqb l.2.1 k then l.1 else 0)
    - (if N.eqb k (tr_source_account a) then l.1 else 0).
Proof.
  destruct l as [n [d c]]. intros [_ _ (s & t & Hs & Ht & _ & _ & Hn & Hw)] k. simpl in *. case_decide as E.
  - rewrite Hw, <- E, (N.eqb_sym k). destruct (N.eqb _ _); lia.
  - destruct Hw as [[_ Hs' Hd' Hj] _].
    destruct (N.eqb_spec d k) as [E1|H1], (N.eqb_spec k (tr_source_account a)) as [E2|H2].
    + congruence.
    + rewrite <- E1, (balance_token _ _ _ Ht), (balance_token _ _ _ Hd'). simpl. lia.
    + rewrite E2, (balance_token _ _ _ Hs), (balance_token _ _ _ Hs'). simpl. lia.
    + unfold balance, data_of. rewrite Hj by (done || by apply not_eq_sym). lia.
Qed.

Lemma legs_balances a signers legs : forall w w',
  legs_paid a signers legs w w' -> Forall (fun l => 0 <= l.1) legs /\ paid_out (tr_source_account a) legs w w'.
Proof.
  induction legs as [|l legs IH]; intros w w'.
  - intros ->. split; [constructor|]. intros k. unfold paid_to, paid. simpl. case_match; lia.
  - intros (w1 & Hl & Hr). pose proof (leg_balances _ _ _ _ _ Hl) as Hb. destruct (IH _ _ Hr) as [Hn Hb'].
    destruct Hl as [_ _ (s & t & _ & _ & _ & _ & [Hn' _] & _)]. split; [by constructor|].
    intros k. rewrite Hb', Hb. unfold paid_to, paid. simpl. repeat case_match; lia.
Qed.

(** The legs run one after the other, each a transfer of the system. *)
Lemma legs_run a decimals signers legs : forall w w',
  users signers -> hooked w (tr_mint a) ->
  for_each legs (fun '(amount, (destination, control_list_pda)) =>
    transfer_checked (hook_program other) (leg a decimals amount destination control_list_pda) signers) w
    = Ok (tt, w') ->
  rtc (step other) w w' /\ legs_paid a signers legs w w'.
Proof.
  induction legs as [|[n [d c]] legs IH]; intros w w' Hu Hh Hr; simpl in Hr.
  - by inv_ok.
  - apply bind_ok in Hr as ([] & w1 & Ht & Hr).
    destruct (leg_runs _ _ _ _ _ _ _ _ Hu Hh Ht) as [Hl Hh1]. destruct (IH w1 w' Hu Hh1 Hr) as [Hs Hp].
    split; [|by exists w1]. eapply rtc_l; [|exact Hs].
    exact (step_transfer other w w1 signers (leg a decimals n d c) Hu Hh Ht).
Qed.

#[export] Instance BatchTransferTokens_try_accounts_inv signers a :
  OkInv (BatchTransferTokens_try_accounts signers a) (fun w _ w' => w' = w /\ tr_source_owner a ∈ signers /\
    exists k (c : AssetConfiguration), pda_at (asset_configuration_seeds (tr_mint a)) DEPLOY_PROGRAM_ID k /\
      stored w k c).
Proof. intros w [] w' Hr. unfold BatchTransferTokens_try_accounts in Hr. inv_ok. split_and!; eauto. Qed.

(** What a batch is. *)
Lemma batch_transfer_runs signers a remaining amounts w w' :
  system_inv w -> users signers -> batch_transfer other signers a remaining amounts w = Ok (tt, w') ->
  let legs := zip amounts (pairs remaining) in
  (amounts <> [] /\ length remaining = length amounts * 2)%nat /\ length legs = length amounts /\
  tr_source_owner a ∈ signers /\ rtc (step other) w w' /\ legs_paid a signers legs w w'.
Proof.
  intros Hinv Hu Hr legs. unfold batch_transfer in Hr. inv_ok. zify_checks.
  rename select (length remaining = _) into Hl.
  assert (Hlen : length (pairs remaining) = length amounts) by (rewrite length_pairs, Hl; apply Nat.div_mul; done).
  match goal with Hk : pda_at (asset_configuration_seeds _) _ ?k, Hs : stored _ ?k ?c |- _ =>
    assert (Hh : hooked w (tr_mint a)) by exact (si_config _ Hinv _ _ c Hk Hs) end.
  destruct (legs_run _ _ _ _ _ _ Hu Hh Hr) as [Hs Hp]. do 2 (split; [try done|]); [|by split_and!].
  unfold legs. rewrite length_zip_with. lia.
Qed.
End effects.

Lemma batch_transfer_safe `{Laws : RuntimeLaws} `{TLaws : TokenLaws} other signers a remaining amounts w w' :
  system_inv w -> users signers -> batch_transfer other signers a remaining amounts w = Ok (tt, w') -> system_inv w'.
Proof.
  intros Hinv Hu Hr. destruct (batch_transfer_runs _ _ _ _ _ _ _ Hinv Hu Hr) as (_ & _ & _ & Hrtc & _).
  clear -Hinv Hrtc Laws TLaws. induction Hrtc as [|w w1 w' Hs _ IH]; [done|].
  by eapply IH, system_inv_step.
Qed.

(** C6: a batch transfer is the sequence of
    its transfers and nothing else.  When it succeeds in a world of the system,
    the batch is not empty, there are two accounts and one leg per amount, and
    the world it leaves is reached by exactly one transfer per leg, in order,
    whatever its amount: each signed by the holder of the source, of a mint that
    is not paused, of no more than the source holds, between token accounts of
    the mint, moving the amount and changing no other account, and found
    compliant by the hook with the accounts of its own source and destination (a
    leg from an account to itself changes nothing).  Hence every account ends
    with its balance plus what the legs pay it, the source with the sum of the
    amounts less, so that no token is lost or made up even when destinations
    repeat or include the source; and the invariant of the system, holds covered
    included, still holds. *)
Theorem batch_transfer_is_its_transfers `{Laws : RuntimeLaws} `{TLaws : TokenLaws} other signers a remaining amounts w w' :
  system_inv w -> users signers -> batch_transfer other signers a remaining amounts w = Ok (tt, w') ->
  let legs := zip amounts (pairs remaining) in
  tr_source_owner a ∈ signers /\ (amounts <> [] /\ length remaining = length amounts * 2)%nat /\
  length legs = length amounts /\ legs_paid a signers legs w w' /\
  paid_out (tr_source_account a) legs w w' /\ system_inv w'.
Proof.
  intros Hinv Hu Hr. destruct (batch_transfer_runs _ _ _ _ _ _ _ Hinv Hu Hr) as (? & ? & ? & _ & Hl).
  do 4 (split; [done|]). split; [by eapply legs_balances|]. by eapply batch_transfer_safe.
Qed.

(** ** A run: 40 and 60 units to the same destination *)

Definition sample_batch_accounts : BatchTransferTokens := {|
  tr_source_owner := BOB; tr_source_account := TOKEN_B; tr_mint := MINT;
  tr_extra_account_meta_list := ref_pda (extra_account_metas_seeds MINT) TRANSFER_HOOK_PROGRAM_ID;
  tr_transfer_hook_program := TRANSFER_HOOK_PROGRAM_ID; tr_freeze_program := FREEZE_PROGRAM_ID;
  tr_deploy_program := DEPLOY_PROGRAM_ID; tr_asset_configuration_pda := SAMPLE_CONFIG;
  tr_factory_program := FACTORY_PROGRAM_ID; tr_asset_class_version_pda := SAMPLE_VERSION;
  tr_deactivate_program := DEACTIVATE_PROGRAM_ID; tr_deactivate_pda := SAMPLE_DEACTIVATE;
  tr_transfer_control_program := TRANSFER_CONTROL_PROGRAM_ID;
  tr_transfer_control_mode_pda := ref_pda (transfer_control_mode_seeds MINT) TRANSFER_CONTROL_PROGRAM_ID;
  tr_source_control_list_pda := ref_pda (control_list_seeds MINT TOKEN_B) TRANSFER_CONTROL_PROGRAM_ID;
  tr_source_freeze_state_pda := ref_pda (freeze_state_seeds MINT TOKEN_B) FREEZE_PROGRAM_ID;
  tr_hold_program := HOLD_PROGRAM_ID;
  tr_source_hold_position_pda := ref_pda (hold_position_seeds MINT TOKEN_B) HOLD_PROGRAM_ID;
  tr_token_2022_program := TOKEN_2022_PROGRAM_ID |}.

Definition sample_legs : list Pubkey :=
  let list_a := ref_pda (control_list_seeds MINT TOKEN_A) TRANSFER_CONTROL_PROGRAM_ID in
  [TOKEN_A; list_a; TOKEN_A; list_a].
Definition batch_world : World :=
  run_world (batch_transfer no_hook [BOB] sample_batch_accounts sample_legs [40; 60]) hold_world.

Example batch_balances :
  balance hold_world TOKEN_A = 700 /\ balance hold_world TOKEN_B = 300 /\
  balance batch_world TOKEN_A = 800 /\ balance batch_world TOKEN_B = 200.
Proof. vm_compute. split_and!; reflexivity. Qed.

(** BOB is not a program address. *)
Lemma bob_is_a_user : users [BOB].
Proof.
  intros seeds program Hin. apply list_elem_of_singleton in Hin.
  unfold pda in Hin. simpl in Hin. unfold BOB in Hin. injection Hin as E.
  pose proof (decode_encode (seeds ++ [SBump 255], program)) as D. rewrite E in D.
  vm_compute in D. discriminate D.
Qed.

Lemma batch_transfer_is_its_transfers_witness :
  legs_paid sample_batch_accounts [BOB] (zip [40; 60] (pairs sample_legs)) hold_world batch_world /\
  system_inv batch_world.
Proof.
  destruct (batch_transfer_is_its_transfers no_hook [BOB] sample_batch_accounts sample_legs [40; 60]
    hold_world batch_world hold_world_system_inv bob_is_a_user) as (_ & _ & _ & Hs & _ & Hi).
  - apply run_ok. vm_compute. reflexivity.
  - by split.
Defined.
