(* ===== verification/HookMetas.v ===== *)
(** * HookMetas: the accounts the transfer hook asks for
      ([programs/transfer-hook/src/instructions/initialize_extra_account_meta_list.rs])

    At deployment the hook program writes the list of the accounts Token-2022 has
    to add to its calls of the hook: program addresses, derived from the accounts
    of the transfer and from the bytes of the asset configuration.  The library
    that stores and resolves such lists is a parameter ([ExtraAccountMetaList]). *)

From S2P Require Import Prelude.
From S2P Require Import Merkle.
From S2P Require Import Layout.
From S2P Require Import Bitmask.
From S2P Require Import ProgramIds.
From S2P Require Import Errors.
From S2P Require Import State.
From S2P Require Import Runtime.
From S2P Require Import Anchor.
From S2P Require Import Frame.
From S2P Require Import Reference.
From S2P Require Import PdaSeeds.
From S2P Require Import PdaUtils.
From S2P Require Import Common.
From S2P Require Import Sample.
From S2P Require Import Freeze.
From S2P Require Import TransferControl.
From S2P Require Import Token.
From S2P Require Import TransferHook.

(** ** The library *)

(** A seed of the list, on the accounts collected so far.  Eight bytes of account data are the
    bytes of a [u64]. *)
Definition seed_value `{Bl : BorshLayout} (w : World) (accounts : list Pubkey) (s : MetaSeed) : option Seed :=
  match s with
  | Literal bytes => Some (SLit bytes)
  | AccountKey i => SKey <$> accounts !! Z.to_nat i
  | SeedAccountData i d n =>
      k ← accounts !! Z.to_nat i;
      let bytes := take (Z.to_nat n) (drop (Z.to_nat d) (account_bytes (data_of w k))) in
      if n =? 8 then Some (SU64 (of_le_bytes bytes)) else Some (SBytes bytes)
  end.

Class ExtraAccountMetaList : Type := {
  (** [ExtraAccountMetaList::size_of] *)
  metas_size_of : Z -> Z;
  (** [ExtraAccountMetaList::init] into an account of these contents *)
  metas_init : list ExtraAccountMeta -> AccountData -> option AccountData;
  (** the accounts of a call of the hook, from those of the transfer *)
  metas_resolve : World -> list ExtraAccountMeta -> list Pubkey -> option (list Pubkey) }.

Class ExtraAccountMetaListLaws `{Rt : SolanaRuntime} `{Bl : BorshLayout} {El : ExtraAccountMetaList} : Prop := {
  metas_init_ok metas d d' : metas_init metas d = Some d' -> d' = DExtraAccountMetas metas;
  metas_resolve_nil w accounts : metas_resolve w [] accounts = Some accounts;
  metas_resolve_pubkey w k s x metas accounts :
    metas_resolve w (MetaPubkey k s x :: metas) accounts = metas_resolve w metas (accounts ++ [k]);
  metas_resolve_pda w i seeds s x metas accounts program values :
    accounts !! Z.to_nat i = Some program -> mapM (seed_value w accounts) seeds = Some values ->
    metas_resolve w (MetaExternalPda i seeds s x :: metas) accounts =
      metas_resolve w metas (accounts ++ [pda values program]) }.

(** ** The instruction *)

Definition EXTRA_ACCOUNT_META_COUNT : Z := 14.

Definition pda_meta (program_index : Z) (seeds : list MetaSeed) : ExtraAccountMeta :=
  MetaExternalPda program_index seeds false false.
Definition program_meta (k : Pubkey) : ExtraAccountMeta := MetaPubkey k false false.

(** [metas] of the handler. *)
Definition hook_metas : list ExtraAccountMeta :=
  [ program_meta DEPLOY_PROGRAM_ID;
    pda_meta 5 [Literal ASSET_CONFIGURATION; AccountKey 1];
    program_meta FACTORY_PROGRAM_ID;
    pda_meta 7 [Literal ASSET_CLASS_VERSION; SeedAccountData 6 ASSET_CLASS_CONFIG_ID_OFFSET 8;
                SeedAccountData 6 ASSET_CLASS_VERSION_ID_OFFSET 8];
    program_meta DEACTIVATE_PROGRAM_ID;
    pda_meta 9 [Literal DEACTIVATE; AccountKey 1];
    program_meta TRANSFER_CONTROL_PROGRAM_ID;
    pda_meta 11 [Literal TRANSFER_CONTROL_MODE; AccountKey 1];
    pda_meta 11 [Literal CONTROL_LIST; AccountKey 1; AccountKey 0];
    pda_meta 11 [Literal CONTROL_LIST; AccountKey 1; AccountKey 2];
    program_meta FREEZE_PROGRAM_ID;
    pda_meta 15 [Literal FREEZE_STATE; AccountKey 1; AccountKey 0];
    program_meta HOLD_PROGRAM_ID;
    pda_meta 17 [Literal HOLD_POSITION; AccountKey 1; AccountKey 0] ].

Record InitializeExtraAccountMetaList : Set := mkInitializeExtraAccountMetaList {
  ie_payer : Pubkey;
  ie_asset_configuration_pda : Pubkey;
  ie_extra_account_meta_list : Pubkey;
  ie_mint : Pubkey }.

Section instructions.
Context `{Rt : SolanaRuntime} `{El : ExtraAccountMetaList}.

Definition InitializeExtraAccountMetaList_try_accounts (signers : list Pubkey)
    (a : InitializeExtraAccountMetaList) : M unit :=
  signer signers (ie_payer a);;
  seeds_check (ie_extra_account_meta_list a) (extra_account_metas_seeds (ie_mint a)) TRANSFER_HOOK_PROGRAM_ID;;
  anchor_create_account (ie_payer a) (ie_extra_account_meta_list a) (metas_size_of EXTRA_ACCOUNT_META_COUNT)
    TRANSFER_HOOK_PROGRAM_ID (ie_extra_account_meta_list a :: signers);;
  seeds_check (ie_asset_configuration_pda a) (asset_configuration_seeds (ie_mint a)) DEPLOY_PROGRAM_ID;;
  require (bool_decide (ie_asset_configuration_pda a ∈ signers)) (EAnchor ConstraintSigner).

Definition initialize_extra_account_meta_list (signers : list Pubkey) (a : InitializeExtraAccountMetaList) : M unit :=
  InitializeExtraAccountMetaList_try_accounts signers a;;
  w ← get;
  data ← lift (ok_or (metas_init hook_metas (data_of w (ie_extra_account_meta_list a)))
                 (ETransferHook TransferHookError.InvalidAccountSize));
  write_data TRANSFER_HOOK_PROGRAM_ID (ie_extra_account_meta_list a) data.
End instructions.

(** The reference library. *)
#[export] Instance reference_metas : ExtraAccountMetaList := {|
  metas_size_of n := 8 + 4 + 4 + 35 * n;
  metas_init metas d := match d with
    | DZeroed n => if 16 + 35 * Z.of_nat (length metas) <=? n then Some (DExtraAccountMetas metas) else None
    | _ => None
    end;
  metas_resolve := fix resolve w metas accounts :=
    match metas with
    | [] => Some accounts
    | MetaPubkey k _ _ :: metas => resolve w metas (accounts ++ [k])
    | MetaExternalPda i seeds _ _ :: metas =>
        program ← accounts !! Z.to_nat i; values ← mapM (seed_value w accounts) seeds;
        resolve w metas (accounts ++ [pda values program])
    end |}.

#[export] Instance reference_metas_laws : ExtraAccountMetaListLaws.
Proof.
  split; [|done|done|].
  - intros metas d d'. simpl. destruct d; try done. destruct (_ <=? _); [by intros [= <-]|done].
  - intros * Hp Hv. simpl. by rewrite Hp, Hv.
Qed.

(** ** What the list resolves to *)

Section resolution.
Context `{Rt : SolanaRuntime} `{Laws : !RuntimeLaws} `{Bl : BorshLayout} `{BlLaws : !BorshLaws}
  `{El : ExtraAccountMetaList} `{ElLaws : !ExtraAccountMetaListLaws}.

(** The accounts of the hook for a transfer, at their canonical addresses. *)
Definition canonical_accounts (c : AssetConfiguration) (source mint destination : Pubkey) : list Pubkey :=
  [ DEPLOY_PROGRAM_ID; pda (asset_configuration_seeds mint) DEPLOY_PROGRAM_ID;
    FACTORY_PROGRAM_ID;
    pda (asset_class_version_seeds (ac_asset_class_config_id c) (ac_asset_class_version_id c)) FACTORY_PROGRAM_ID;
    DEACTIVATE_PROGRAM_ID; pda (deactivate_seeds mint) DEACTIVATE_PROGRAM_ID;
    TRANSFER_CONTROL_PROGRAM_ID; pda (transfer_control_mode_seeds mint) TRANSFER_CONTROL_PROGRAM_ID;
    pda (control_list_seeds mint source) TRANSFER_CONTROL_PROGRAM_ID;
    pda (control_list_seeds mint destination) TRANSFER_CONTROL_PROGRAM_ID;
    FREEZE_PROGRAM_ID; pda (freeze_state_seeds mint source) FREEZE_PROGRAM_ID;
    HOLD_PROGRAM_ID; pda (hold_position_seeds mint source) HOLD_PROGRAM_ID ].

Lemma hook_metas_resolve w c source mint destination owner metas_account :
  stored w (pda (asset_configuration_seeds mint) DEPLOY_PROGRAM_ID) c -> asset_configuration_ok c ->
  metas_resolve w hook_metas [source; mint; destination; owner; metas_account] =
    Some ([source; mint; destination; owner; metas_account] ++ canonical_accounts c source mint destination).
Proof.
  intros Hs Hc. destruct (asset_configuration_offsets c Hc) as [Ei Ev].
  unfold hook_metas, program_meta, pda_meta.
  repeat first
    [ rewrite metas_resolve_pubkey; cbn [app]
    | erewrite metas_resolve_pda; [cbn [app]|reflexivity|
        cbn [mapM seed_value fmap option_fmap option_map mbind option_bind mret option_ret]; reflexivity] ].
  rewrite metas_resolve_nil.
  change (pda [SLit ASSET_CONFIGURATION; SKey mint] DEPLOY_PROGRAM_ID) with (pda (asset_configuration_seeds mint) DEPLOY_PROGRAM_ID).
  rewrite (stored_data _ _ _ Hs). cbn [at_data AssetConfiguration_account].
  change (Z.to_nat 8) with 8%nat. by rewrite Ei, Ev.
Qed.

(** ** The checks of the hook pass on the canonical accounts *)

Lemma bind_Ok {A B} (m : M A) (f : A -> M B) w a w1 : m w = Ok (a, w1) -> (m ≫= f) w = f a w1.
Proof. unfold mbind, SM_bind. by intros ->. Qed.

Lemma loader_load_ok {T} `{AccountType T} w k (t : T) : stored w k t -> loader_load T k w = Ok (t, w).
Proof.
  intros Hs. unfold loader_load, mbind, SM_bind, get.
  rewrite (stored_owner _ _ _ Hs), (stored_data _ _ _ Hs), N.eqb_refl. cbn. by rewrite (proj2 (at_of_data_Some _ t)).
Qed.

Lemma seeds_check_ok seeds program w :
  seeds_check (pda seeds program) seeds program w = Ok (pda_bump seeds program, w).
Proof. unfold seeds_check. cbn. by rewrite N.eqb_refl. Qed.

Lemma seeds_bump_check_ok seeds program bump w :
  bump = pda_bump seeds program -> seeds_bump_check (pda seeds program) seeds program bump w = Ok (tt, w).
Proof.
  intros ->. unfold seeds_bump_check. rewrite bool_decide_eq_true_2; [done|].
  apply find_create. unfold pda, pda_bump. by destruct (find_program_address seeds program).
Qed.

Lemma check_address_ok k w : check_address k k w = Ok (tt, w).
Proof. unfold check_address. cbn. by rewrite N.eqb_refl. Qed.

(** The configuration of a mint and the version it names, at their canonical addresses. *)
Definition configured (w : World) (mint : Pubkey) (c : AssetConfiguration) : Prop :=
  asset_configuration_ok c /\ stored w (pda (asset_configuration_seeds mint) DEPLOY_PROGRAM_ID) c /\
  ac_bump c = pda_bump (asset_configuration_seeds mint) DEPLOY_PROGRAM_ID /\
  let seeds := asset_class_version_seeds (ac_asset_class_config_id c) (ac_asset_class_version_id c) in
  exists v : AssetClassVersion, stored w (pda seeds FACTORY_PROGRAM_ID) v /\
    acv_bump v = pda_bump seeds FACTORY_PROGRAM_ID.

Ltac check_next :=
  first
  [ rewrite (bind_Ok _ _ _ _ _ (check_address_ok _ _))
  | rewrite (bind_Ok _ _ _ _ _ (seeds_check_ok _ _ _)) ].

Lemma execute_accepts w source mint destination owner metas_account c :
  configured w mint c ->
  exists a, Execute_try_accounts
      ([source; mint; destination; owner; metas_account] ++ canonical_accounts c source mint destination) w = Ok (a, w) /\
    ex_source_token a = source /\ ex_mint a = mint /\ ex_destination_token a = destination /\ ex_owner a = owner.
Proof.
  intros (_ & Hc & Hb & v & Hv & Hbv). unfold Execute_try_accounts, canonical_accounts. cbn [app].
  rewrite (bind_Ok _ _ w (mkExecute _ _ _ _ _ _ _ _ _ _ _ _ _ _ _ _ _ _ _) w) by reflexivity.
  cbn [ex_source_token ex_mint ex_destination_token ex_owner ex_deploy_program ex_asset_configuration_pda
    ex_factory_program ex_asset_class_version_pda ex_deactivate_program ex_deactivate_pda
    ex_transfer_control_program ex_transfer_control_mode_pda ex_source_control_list_pda
    ex_destination_control_list_pda ex_freeze_program ex_source_freeze_state_pda ex_hold_program
    ex_source_hold_position_pda].
  assert (Hp : at_program (T:=AssetConfiguration) <> SYSTEM_PROGRAM_ID) by program_ne.
  rewrite (bind_Ok _ _ _ _ _ (account_try_from_stored w _ c Hp Hc)).
  rewrite (bind_Ok _ _ _ _ _ (loader_load_ok w _ v Hv)). check_next.
  rewrite (bind_Ok _ _ _ _ _ (seeds_bump_check_ok _ _ _ _ Hb)). check_next.
  rewrite (bind_Ok (asset_class_version_constraint _ _) _ w tt w).
  2: { unfold asset_class_version_constraint. rewrite (bind_Ok _ _ _ _ _ (loader_load_ok w _ v Hv)).
       by apply seeds_bump_check_ok. }
  unfold deactivate_constraint, hold_position_constraint.
  check_next. rewrite (bind_Ok (_ ≫= _) _ w tt w) by (by check_next).
  repeat check_next. rewrite (bind_Ok (_ ≫= _) _ w tt w) by (by check_next).
  eexists. split; [reflexivity|done].
Qed.

Lemma initialize_metas_effect signers a w w' :
  initialize_extra_account_meta_list signers a w = Ok (tt, w') ->
  ie_extra_account_meta_list a = pda (extra_account_metas_seeds (ie_mint a)) TRANSFER_HOOK_PROGRAM_ID /\
  fresh w (ie_extra_account_meta_list a) /\
  pda (asset_configuration_seeds (ie_mint a)) DEPLOY_PROGRAM_ID ∈ signers /\
  account w' (ie_extra_account_meta_list a) = mkAccount TRANSFER_HOOK_PROGRAM_ID (DExtraAccountMetas hook_metas) /\
  elsewhere (ie_extra_account_meta_list a) w w' /\ w_now w' = w_now w /\
  exists n, forall k, lamports_of w' k = lamports_of (move_lamports (ie_payer a) (ie_extra_account_meta_list a) n w) k.
Proof.
  intros Hr. unfold initialize_extra_account_meta_list, InitializeExtraAccountMetaList_try_accounts in Hr.
  apply bind_ok in Hr as ([] & w1 & Ha & Hr).
  apply bind_ok in Ha as ([] & w2 & (_ & ->)%ok_inv & Ha).
  apply bind_ok in Ha as (b & w2 & (Ek & _ & ->)%ok_inv & Ha).
  apply bind_ok in Ha as ([] & w2 & (Hf & n & _ & ->)%anchor_create_account_ok & Ha).
  apply bind_ok in Ha as (b2 & w3 & (Ec & _ & ->)%ok_inv & Ha). apply ok_inv in Ha as (Hs%bool_decide_eq_true_1 & ->).
  inv_ok. rename select (ok_or _ _ = _) into Hm. apply ok_or_Ok, metas_init_ok in Hm as ->.
  split; [done|]. split; [done|]. split; [congruence|]. split; [|split; [|split; [done|by exists n]]].
  - unfold set_data. rewrite account_set_account_eq. f_equal. done.
  - intros j Hj. unfold set_data. by rewrite !account_set_account_ne by (by apply not_eq_sym).
Qed.
End resolution.

(** C5: the list the hook program writes for a mint
    is the one its own checks ask for.  The list is created once, only with the
    signature of the mint's asset configuration (the deploy program), at the
    address of the mint.  In every later world where it is unchanged and the mint
    has a configuration naming an existing version, resolving it for any transfer
    gives exactly the accounts of the compliance programs at their canonical
    addresses, in the order of the hook, and the hook's account checks accept
    them: no transfer of a deployed mint fails because of its accounts. *)
Theorem hook_list_serves_transfers `{Laws : RuntimeLaws} `{BlLaws : BorshLaws} `{ElLaws : !ExtraAccountMetaListLaws}
    signers a w0 w0' w c source destination owner :
  initialize_extra_account_meta_list signers a w0 = Ok (tt, w0') ->
  account w (ie_extra_account_meta_list a) = account w0' (ie_extra_account_meta_list a) ->
  configured w (ie_mint a) c ->
  pda (asset_configuration_seeds (ie_mint a)) DEPLOY_PROGRAM_ID ∈ signers /\
  fresh w0 (ie_extra_account_meta_list a) /\
  exists metas accounts h,
    data_of w (ie_extra_account_meta_list a) = DExtraAccountMetas metas /\
    Z.of_nat (length metas) = EXTRA_ACCOUNT_META_COUNT /\
    metas_resolve w metas [source; ie_mint a; destination; owner; ie_extra_account_meta_list a] = Some accounts /\
    accounts = [source; ie_mint a; destination; owner; ie_extra_account_meta_list a] ++
      canonical_accounts c source (ie_mint a) destination /\
    Execute_try_accounts accounts w = Ok (h, w) /\
    ex_source_token h = source /\ ex_mint h = ie_mint a /\ ex_destination_token h = destination /\ ex_owner h = owner.
Proof.
  intros (Ek & Hf & Hs & Ha & _)%initialize_metas_effect E Hc. split; [done|]. split; [done|].
  destruct (execute_accepts w source (ie_mint a) destination owner (ie_extra_account_meta_list a) c Hc)
    as (h & Hh & Hx).
  exists hook_metas, ([source; ie_mint a; destination; owner; ie_extra_account_meta_list a] ++
      canonical_accounts c source (ie_mint a) destination), h.
  split; [unfold data_of; by rewrite E, Ha|]. split; [done|].
  split; [apply hook_metas_resolve; apply Hc|done].
Qed.

(** ** The list of the sample mint *)

Definition METAS : Pubkey := Eval vm_compute in ref_pda (extra_account_metas_seeds MINT) TRANSFER_HOOK_PROGRAM_ID.
Definition metas_accounts : InitializeExtraAccountMetaList :=
  mkInitializeExtraAccountMetaList ADMIN SAMPLE_CONFIG METAS MINT.
Definition metas_world : World :=
  run_world (initialize_extra_account_meta_list [ADMIN; SAMPLE_CONFIG] metas_accounts) sample_world.

Lemma metas_world_configured : configured metas_world MINT (mkAssetConfiguration 1 1 255).
Proof.
  split; [|split; [vm_compute; reflexivity|split; [done|]]].
  - repeat split; vm_compute; discriminate.
  - exists (mkAssetClassVersion 1 1 ASSET_CLASS_VERSION_STATE_FINALIZED 255 full_mask).
    split; [vm_compute; reflexivity|done].
Qed.

Lemma hook_list_serves_transfers_witness :
  exists metas accounts, data_of metas_world METAS = DExtraAccountMetas metas /\
    metas_resolve metas_world metas [TOKEN_A; MINT; TOKEN_B; ALICE; METAS] = Some accounts /\
    is_ok (Execute_try_accounts accounts metas_world) = true.
Proof.
  destruct (hook_list_serves_transfers [ADMIN; SAMPLE_CONFIG] metas_accounts sample_world metas_world metas_world
    (mkAssetConfiguration 1 1 255) TOKEN_A TOKEN_B ALICE) as (_ & _ & metas & accounts & h & Hm & _ & Hr & _ & He & _).
  - apply run_ok. vm_compute. reflexivity.
  - done.
  - exact metas_world_configured.
  - exists metas, accounts. split; [exact Hm|]. split; [exact Hr|]. by rewrite He.
Defined.
