(* ===== verification/TokenMint.v ===== *)
(** * TokenMint: the Token-2022 instructions that set a mint up and edit its metadata

    The instructions [deploy] and [metadata-update] call are operations of the
    class [MintInterface]: the sizes of mint and metadata, the extensions that
    precede the mint, the mint itself, its token metadata and its authorities.
    What the programs rely on is stated in [MintLaws]; [reference_mint] is an
    executable instance. *)

From S2P Require Import Prelude.
From S2P Require Import ProgramIds.
From S2P Require Import Errors.
From S2P Require Import State.
From S2P Require Import Runtime.
From S2P Require Import Anchor.
From S2P Require Import Token.

(** ** Data *)

Inductive ExtensionType : Set := PermanentDelegate | MetadataPointer | Pausable | TransferHook | PermissionedBurn.
Inductive AuthorityType : Set := MintTokens.

(** [spl_token_metadata_interface::state::Field] *)
Inductive Field : Set := FieldName | FieldSymbol | FieldUri | FieldKey (key : string).

(** The mint account before [initialize_mint2]: zeroed bytes, or the extensions set so far. *)
Definition empty_setup (n : Z) : MintSetup := mkMintSetup None None None None None n.
Definition setup_of (d : AccountData) : option MintSetup :=
  match d with DZeroed n => Some (empty_setup n) | DMintSetup s => Some s | _ => None end.
Definition mint_setup (w : World) (mint : Pubkey) (s : MintSetup) : Prop :=
  owner_of w mint = TOKEN_2022_PROGRAM_ID /\ setup_of (data_of w mint) = Some s.
Definition put_setup (mint : Pubkey) (s : MintSetup) (w : World) : World :=
  set_account mint (mkAccount TOKEN_2022_PROGRAM_ID (DMintSetup s)) w.

Definition with_metadata_pointer (p : option Pubkey * option Pubkey) (s : MintSetup) : MintSetup :=
  mkMintSetup (Some p) (su_permanent_delegate s) (su_permissioned_burn s) (su_pausable s) (su_transfer_hook s) (su_len s).
Definition with_permanent_delegate (k : Pubkey) (s : MintSetup) : MintSetup :=
  mkMintSetup (su_metadata_pointer s) (Some k) (su_permissioned_burn s) (su_pausable s) (su_transfer_hook s) (su_len s).
Definition with_permissioned_burn (k : Pubkey) (s : MintSetup) : MintSetup :=
  mkMintSetup (su_metadata_pointer s) (su_permanent_delegate s) (Some k) (su_pausable s) (su_transfer_hook s) (su_len s).
Definition with_pausable (k : Pubkey) (s : MintSetup) : MintSetup :=
  mkMintSetup (su_metadata_pointer s) (su_permanent_delegate s) (su_permissioned_burn s) (Some k) (su_transfer_hook s) (su_len s).
Definition with_transfer_hook (p : option Pubkey * option Pubkey) (s : MintSetup) : MintSetup :=
  mkMintSetup (su_metadata_pointer s) (su_permanent_delegate s) (su_permissioned_burn s) (su_pausable s) (Some p) (su_len s).

(** The mint with the extensions of [s]: no supply, not paused, no metadata yet. *)
Definition mint_of_setup (s : MintSetup) (authority : Pubkey) (freeze : option Pubkey) (decimals : Z) : MintState :=
  mkMintState 0 decimals ((fun _ => false) <$> su_pausable s) (su_transfer_hook s ≫= snd)
    (mkMintAuthorities (Some authority) freeze (su_permanent_delegate s) (su_permissioned_burn s) (su_pausable s)
       (su_transfer_hook s ≫= fst) (su_metadata_pointer s ≫= fst) (su_metadata_pointer s ≫= snd))
    None (su_len s).

(** The bytes of the metadata: two keys, three strings and the additional pairs, each string and
    the list behind its four-byte length. *)
Definition string_len (s : string) : Z := Z.of_nat (String.length s).
Definition pairs_len (l : list (string * string)) : Z :=
  foldr (fun kv n => 4 + string_len kv.1 + 4 + string_len kv.2 + n) 0 l.
Definition metadata_len (md : TokenMetadata) : Z :=
  32 + 32 + (4 + string_len (md_name md)) + (4 + string_len (md_symbol md)) + (4 + string_len (md_uri md)) +
  4 + pairs_len (md_additional_metadata md).

(** The type and the length in front of an extension. *)
Definition TLV_HEADER : Z := 4.

(** Writing the metadata reallocates the account to its new length. *)
Definition with_metadata (md : TokenMetadata) (m : MintState) : MintState :=
  mkMintState (m_supply m) (m_decimals m) (m_paused m) (m_transfer_hook m) (m_authorities m) (Some md)
    (m_data_len m + match m_metadata m with
                    | Some old => metadata_len md - metadata_len old
                    | None => TLV_HEADER + metadata_len md
                    end).

Definition with_mint_authority (k : option Pubkey) (m : MintState) : MintState :=
  let au := m_authorities m in
  mkMintState (m_supply m) (m_decimals m) (m_paused m) (m_transfer_hook m)
    (mkMintAuthorities k (au_freeze au) (au_permanent_delegate au) (au_permissioned_burn au) (au_pausable au)
       (au_transfer_hook au) (au_metadata_pointer au) (au_metadata_address au))
    (m_metadata m) (m_data_len m).

(** [TokenMetadata::update]: an additional key keeps its place, a new one is appended. *)
Fixpoint set_key_value (key value : string) (l : list (string * string)) : list (string * string) :=
  match l with
  | [] => [(key, value)]
  | (k, v) :: l => if String.eqb k key then (key, value) :: l else (k, v) :: set_key_value key value l
  end.

Definition updated (f : Field) (value : string) (md : TokenMetadata) : TokenMetadata :=
  match f with
  | FieldName => mkTokenMetadata (md_update_authority md) (md_mint md) value (md_symbol md) (md_uri md) (md_additional_metadata md)
  | FieldSymbol => mkTokenMetadata (md_update_authority md) (md_mint md) (md_name md) value (md_uri md) (md_additional_metadata md)
  | FieldUri => mkTokenMetadata (md_update_authority md) (md_mint md) (md_name md) (md_symbol md) value (md_additional_metadata md)
  | FieldKey key => mkTokenMetadata (md_update_authority md) (md_mint md) (md_name md) (md_symbol md) (md_uri md)
      (set_key_value key value (md_additional_metadata md))
  end.

(** [TokenMetadata::remove_key] retains the pairs with other keys. *)
Definition remove_pairs (key : string) (l : list (string * string)) : list (string * string) :=
  List.filter (fun kv => negb (String.eqb kv.1 key)) l.
Definition has_key (key : string) (l : list (string * string)) : bool := existsb (fun kv => String.eqb kv.1 key) l.
Definition removed (key : string) (md : TokenMetadata) : TokenMetadata :=
  mkTokenMetadata (md_update_authority md) (md_mint md) (md_name md) (md_symbol md) (md_uri md)
    (remove_pairs key (md_additional_metadata md)).
Definition with_update_authority (k : option Pubkey) (md : TokenMetadata) : TokenMetadata :=
  mkTokenMetadata k (md_mint md) (md_name md) (md_symbol md) (md_uri md) (md_additional_metadata md).

(** ** The interface *)

Class MintInterface : Type := {
  (** [ExtensionType::try_calculate_account_len::<Mint>] *)
  try_calculate_account_len : list ExtensionType -> option Z;
  (** [TokenMetadata::tlv_size_of] *)
  tlv_size_of : TokenMetadata -> option Z;
  (** [MaybeNull::try_from]: the null key is no key *)
  maybe_null_try_from : option Pubkey -> option (option Pubkey);
  initialize_metadata_pointer (mint : Pubkey) (authority address : option Pubkey) : M unit;
  initialize_permanent_delegate (mint delegate : Pubkey) : M unit;
  initialize_permissioned_burn (mint authority : Pubkey) : M unit;
  initialize_pausable (mint authority : Pubkey) : M unit;
  initialize_transfer_hook_ext (mint : Pubkey) (authority program : option Pubkey) : M unit;
  initialize_mint2 (mint authority : Pubkey) (freeze : option Pubkey) (decimals : Z) : M unit;
  (** [metadata] is the mint itself *)
  initialize_token_metadata (mint update_authority mint_authority : Pubkey) (name symbol uri : string)
    (signers : list Pubkey) : M unit;
  update_field (mint authority : Pubkey) (field : Field) (value : string) (signers : list Pubkey) : M unit;
  remove_key (mint authority : Pubkey) (key : string) (idempotent : bool) (signers : list Pubkey) : M unit;
  update_authority (mint authority : Pubkey) (new : option Pubkey) (signers : list Pubkey) : M unit;
  set_authority (mint : Pubkey) (new : option Pubkey) (type : AuthorityType) (owner : Pubkey)
    (signers : list Pubkey) : M unit }.

(** [authority] signed and is the update authority of the metadata of the mint. *)
Definition edits (w : World) (mint authority : Pubkey) (signers : list Pubkey) (m : MintState) (md : TokenMetadata) : Prop :=
  mint_account w mint m /\ m_metadata m = Some md /\ md_update_authority md = Some authority /\ authority ∈ signers.

Class MintLaws {Mi : MintInterface} : Prop := {
  tlv_size_of_fits md n : tlv_size_of md = Some n -> TLV_HEADER + metadata_len md <= n;
  maybe_null_some k o : maybe_null_try_from (Some k) = Some o -> o = Some k;
  initialize_metadata_pointer_ok mint o a w w' : initialize_metadata_pointer mint o a w = Ok (tt, w') ->
    exists s, mint_setup w mint s /\ w' = put_setup mint (with_metadata_pointer (o, a) s) w;
  initialize_permanent_delegate_ok mint k w w' : initialize_permanent_delegate mint k w = Ok (tt, w') ->
    exists s, mint_setup w mint s /\ w' = put_setup mint (with_permanent_delegate k s) w;
  initialize_permissioned_burn_ok mint k w w' : initialize_permissioned_burn mint k w = Ok (tt, w') ->
    exists s, mint_setup w mint s /\ w' = put_setup mint (with_permissioned_burn k s) w;
  initialize_pausable_ok mint k w w' : initialize_pausable mint k w = Ok (tt, w') ->
    exists s, mint_setup w mint s /\ w' = put_setup mint (with_pausable k s) w;
  initialize_transfer_hook_ext_ok mint o p w w' : initialize_transfer_hook_ext mint o p w = Ok (tt, w') ->
    exists s, mint_setup w mint s /\ w' = put_setup mint (with_transfer_hook (o, p) s) w;
  initialize_mint2_ok mint k freeze decimals w w' : initialize_mint2 mint k freeze decimals w = Ok (tt, w') ->
    exists s, mint_setup w mint s /\ w' = put_mint mint (mint_of_setup s k freeze decimals) w;
  initialize_token_metadata_ok mint k k' name symbol uri signers w w' :
    initialize_token_metadata mint k k' name symbol uri signers w = Ok (tt, w') ->
    exists m, mint_account w mint m /\ m_metadata m = None /\ au_mint (m_authorities m) = Some k' /\ k' ∈ signers /\
      au_metadata_address (m_authorities m) = Some mint /\
      w' = put_mint mint (with_metadata (mkTokenMetadata (Some k) mint name symbol uri []) m) w;
  update_field_ok mint k f value signers w w' : update_field mint k f value signers w = Ok (tt, w') ->
    exists m md, edits w mint k signers m md /\ w' = put_mint mint (with_metadata (updated f value md) m) w;
  remove_key_ok mint k key idempotent signers w w' : remove_key mint k key idempotent signers w = Ok (tt, w') ->
    exists m md, edits w mint k signers m md /\
      (idempotent = true \/ has_key key (md_additional_metadata md) = true) /\
      w' = put_mint mint (with_metadata (removed key md) m) w;
  update_authority_ok mint k new signers w w' : update_authority mint k new signers w = Ok (tt, w') ->
    exists m md, edits w mint k signers m md /\ w' = put_mint mint (with_metadata (with_update_authority new md) m) w;
  set_authority_ok mint new owner signers w w' : set_authority mint new MintTokens owner signers w = Ok (tt, w') ->
    exists m, mint_account w mint m /\ au_mint (m_authorities m) = Some owner /\ owner ∈ signers /\
      w' = put_mint mint (with_mint_authority new m) w }.

(** ** A reference implementation *)

Definition extension_len (e : ExtensionType) : Z :=
  match e with
  | PermanentDelegate => 36 | MetadataPointer => 68 | Pausable => 37 | TransferHook => 68 | PermissionedBurn => 36
  end.

Definition get_setup (mint : Pubkey) : M MintSetup :=
  w ← get;
  require (N.eqb (owner_of w mint) TOKEN_2022_PROGRAM_ID) (ERuntime InvalidAccountData);;
  lift (ok_or (setup_of (data_of w mint)) (ERuntime InvalidAccountData)).

(** An extension is initialised once. *)
Definition ref_extension {A} (mint : Pubkey) (get : MintSetup -> option A) (set : MintSetup -> MintSetup) : M unit :=
  s ← get_setup mint;
  require (match get s with None => true | Some _ => false end) (external 6);;
  modify (put_setup mint (set s)).

Definition setup_len (s : MintSetup) : Z :=
  let len {A} (o : option A) (e : ExtensionType) := if o is Some _ then extension_len e else 0 in
  166 + len (su_metadata_pointer s) MetadataPointer + len (su_permanent_delegate s) PermanentDelegate +
  len (su_permissioned_burn s) PermissionedBurn + len (su_pausable s) Pausable + len (su_transfer_hook s) TransferHook.

Definition ref_initialize_mint2 (mint authority : Pubkey) (freeze : option Pubkey) (decimals : Z) : M unit :=
  s ← get_setup mint;
  require (su_len s =? setup_len s) (ERuntime InvalidAccountData);;
  modify (put_mint mint (mint_of_setup s authority freeze decimals)).

Definition ref_initialize_token_metadata (mint update_authority mint_authority : Pubkey) (name symbol uri : string)
    (signers : list Pubkey) : M unit :=
  m ← get_mint mint;
  require (match m_metadata m with None => true | Some _ => false end) (external 6);;
  require (bool_decide (au_mint (m_authorities m) = Some mint_authority) && bool_decide (mint_authority ∈ signers))
    (ERuntime MissingRequiredSignature);;
  require (bool_decide (au_metadata_address (m_authorities m) = Some mint)) (ERuntime InvalidAccountData);;
  modify (put_mint mint (with_metadata (mkTokenMetadata (Some update_authority) mint name symbol uri []) m)).

(** An edit of the metadata by its update authority. *)
Definition ref_edit (mint authority : Pubkey) (signers : list Pubkey) (ok : TokenMetadata -> bool)
    (edit : TokenMetadata -> TokenMetadata) : M unit :=
  m ← get_mint mint;
  md ← lift (ok_or (m_metadata m) (ERuntime InvalidAccountData));
  require (bool_decide (md_update_authority md = Some authority) && bool_decide (authority ∈ signers))
    (ERuntime MissingRequiredSignature);;
  require (ok md) (external 1);;
  modify (put_mint mint (with_metadata (edit md) m)).

Definition ref_set_authority (mint : Pubkey) (new : option Pubkey) (owner : Pubkey) (signers : list Pubkey) : M unit :=
  m ← get_mint mint;
  require (bool_decide (au_mint (m_authorities m) = Some owner) && bool_decide (owner ∈ signers))
    (ERuntime MissingRequiredSignature);;
  modify (put_mint mint (with_mint_authority new m)).

#[export] Instance reference_mint : MintInterface := {|
  try_calculate_account_len es := Some (foldr (fun e n => extension_len e + n) 166 es);
  tlv_size_of md := Some (12 + metadata_len md);
  maybe_null_try_from o := match o with Some k => if N.eqb k 0 then None else Some (Some k) | None => Some None end;
  initialize_metadata_pointer mint o a := ref_extension mint su_metadata_pointer (with_metadata_pointer (o, a));
  initialize_permanent_delegate mint k := ref_extension mint su_permanent_delegate (with_permanent_delegate k);
  initialize_permissioned_burn mint k := ref_extension mint su_permissioned_burn (with_permissioned_burn k);
  initialize_pausable mint k := ref_extension mint su_pausable (with_pausable k);
  initialize_transfer_hook_ext mint o p := ref_extension mint su_transfer_hook (with_transfer_hook (o, p));
  initialize_mint2 := ref_initialize_mint2;
  initialize_token_metadata := ref_initialize_token_metadata;
  update_field mint k f value signers := ref_edit mint k signers (fun _ => true) (updated f value);
  remove_key mint k key idempotent signers :=
    ref_edit mint k signers (fun md => idempotent || has_key key (md_additional_metadata md)) (removed key);
  update_authority mint k new signers := ref_edit mint k signers (fun _ => true) (with_update_authority new);
  set_authority mint new _ owner signers := ref_set_authority mint new owner signers |}.

#[export] Instance get_setup_inv mint : OkInv (get_setup mint) (fun w s w' => mint_setup w mint s /\ w' = w).
Proof. intros w s w' Hr. unfold get_setup in Hr. inv_ok. by zify_checks. Qed.

#[export] Instance ref_extension_inv {A} mint (g : MintSetup -> option A) set :
  OkInv (ref_extension mint g set) (fun w _ w' => exists s, mint_setup w mint s /\ w' = put_setup mint (set s) w).
Proof. intros w [] w' Hr. unfold ref_extension in Hr. inv_ok. eauto. Qed.

#[export] Instance ref_edit_inv mint k signers ok edit :
  OkInv (ref_edit mint k signers ok edit) (fun w _ w' => exists m md, edits w mint k signers m md /\ ok md = true /\
    w' = put_mint mint (with_metadata (edit md) m) w).
Proof. intros w [] w' Hr. unfold ref_edit in Hr. inv_ok. zify_checks. unfold edits. eauto 10. Qed.

#[export] Instance reference_mint_laws : MintLaws.
Proof.
  split; simpl; try (intros *; apply ref_extension_inv).
  - intros md n [= <-]. unfold TLV_HEADER. lia.
  - intros k o. destruct (N.eqb k 0); [discriminate|by intros [= <-]].
  - intros * Hr. unfold ref_initialize_mint2 in Hr. inv_ok. eauto.
  - intros * Hr. unfold ref_initialize_token_metadata in Hr. inv_ok. zify_checks.
    destruct (m_metadata _) eqn:E; [done|]. eauto 10.
  - intros * (m & md & He & _ & Hw)%ok_inv. eauto.
  - intros * (m & md & He & Ho & Hw)%ok_inv. apply orb_true_iff in Ho. eauto 10.
  - intros * (m & md & He & _ & Hw)%ok_inv. eauto.
  - intros * Hr. unfold ref_set_authority in Hr. inv_ok. zify_checks. eauto 10.
Qed.
