(* ===== verification/MetadataUpdate.v ===== *)
(** * MetadataUpdate: the metadata-update program ([programs/metadata-update])

    [update_metadata_field] sets a field of the token metadata of a mint after
    it topped up the mint's rent, [remove_metadata_field] removes an additional
    key.  Names and symbols belong to administrators, the rest to the
    custom-data managers. *)

From S2P Require Import Prelude.
From S2P Require Import ProgramIds.
From S2P Require Import Errors.
From S2P Require Import State.
From S2P Require Import Runtime.
From S2P Require Import Anchor.
From S2P Require Import Frame.
From S2P Require Import Reference.
From S2P Require Import PdaSeeds.
From S2P Require Import PdaUtils.
From S2P Require Import Common.
From S2P Require Import Sample.
From S2P Require Import Token.
From S2P Require Import TokenMint.
From Stdlib Require Import Ascii.

(** [RemoveMetadata] has the same fields. *)
Record UpdateMetadata : Set := mkUpdateMetadata {
  um_payer : Pubkey;
  um_authority : Pubkey;
  um_authority_roles_pda : Pubkey;
  um_mint : Pubkey;
  um_asset_configuration_pda : Pubkey;
  um_metadata_update_authority : Pubkey;
  um_deactivate_pda : Pubkey;
  um_token_2022_program : Pubkey;
  um_asset_class_version_pda : Pubkey }.

(** ** Fields *)

(** [to_lowercase] on the characters that matter to a comparison with an ASCII word without a [k]:
    no other character lowers to an ASCII letter alone. *)
Definition ascii_lower (c : ascii) : ascii :=
  let n := nat_of_ascii c in if Nat.leb 65 n && Nat.leb n 90 then ascii_of_nat (n + 32) else c.
Fixpoint to_lowercase (s : string) : string :=
  match s with EmptyString => EmptyString | String c s => String (ascii_lower c) (to_lowercase s) end.

Definition to_field (key : string) : Field :=
  if String.eqb (to_lowercase key) "name" then FieldName
  else if String.eqb (to_lowercase key) "symbol" then FieldSymbol
  else if String.eqb (to_lowercase key) "uri" then FieldUri
  else FieldKey key.

(** [len()] of a string: its bytes. *)
Definition packed_meta_size (meta : TokenMetadata) : Z :=
  32 + 32 + 4 + string_len (md_name meta) + 4 + string_len (md_symbol meta) + 4 + string_len (md_uri meta) + 4 +
  foldr Z.add 0 (map (fun kv => 4 + string_len kv.1 + 4 + string_len kv.2) (md_additional_metadata meta)).

Definition new_packed_meta_size (meta : TokenMetadata) (field : Field) (new_value : string) : Z :=
  let base := packed_meta_size meta in
  match field with
  | FieldName => base - string_len (md_name meta) + string_len new_value
  | FieldSymbol => base - string_len (md_symbol meta) + string_len new_value
  | FieldUri => base - string_len (md_uri meta) + string_len new_value
  | FieldKey k =>
      match List.find (fun kv => String.eqb kv.1 k) (md_additional_metadata meta) with
      | Some (_, old_val) => base - string_len old_val + string_len new_value
      | None => base + 4 + string_len k + 4 + string_len new_value
      end
  end.

Definition required_role (field : Field) : Z :=
  match field with FieldName | FieldSymbol => ROLE_ADMIN | FieldUri | FieldKey _ => ROLE_CUSTOM_DATA_MANAGER end.

(** ** The instructions *)

Section instructions.
Context `{Rt : SolanaRuntime} `{Mi : MintInterface}.

Definition UpdateMetadata_try_accounts (signers : list Pubkey) (a : UpdateMetadata) : M Z :=
  signer signers (um_payer a);;
  signer signers (um_authority a);;
  loader_load Roles (um_authority_roles_pda a);;
  asset_configuration ← account_try_from AssetConfiguration (um_asset_configuration_pda a);
  check_program (um_token_2022_program a) TOKEN_2022_PROGRAM_ID;;
  loader_load AssetClassVersion (um_asset_class_version_pda a);;
  roles_constraint (um_authority_roles_pda a) (um_mint a) (um_authority a);;
  asset_configuration_constraint (um_asset_configuration_pda a) (um_mint a) asset_configuration;;
  authority_bump ← seeds_check (um_metadata_update_authority a) (metadata_update_authority_seeds (um_mint a))
    METADATA_UPDATE_PROGRAM_ID;
  deactivate_constraint (um_deactivate_pda a) (um_mint a);;
  asset_class_version_constraint (um_asset_class_version_pda a) asset_configuration;;
  mret authority_bump.

(** The lamports the mint lacks for its new size. *)
Definition additional_lamports (mint : Pubkey) (field : Field) (value : string) : M Z :=
  mint_state ← unpack_mint mint;
  meta ← lift (ok_or (m_metadata mint_state) (ERuntime InvalidAccountData));
  let old_size := packed_meta_size meta in
  let new_size := new_packed_meta_size meta field value in
  w ← get;
  if old_size <? new_size then
    let new_rent := minimum_balance (data_len (data_of w mint) + new_size - old_size) in
    mret (saturating_sub_u64 new_rent (lamports_of w mint))
  else mret 0.

Definition metadata_signer (a : UpdateMetadata) (authority_bump : Z) : M Pubkey :=
  pda_signer (build_pda_signer_seeds (metadata_update_authority_seeds (um_mint a)) authority_bump)
    METADATA_UPDATE_PROGRAM_ID.

Definition update_metadata_field (signers : list Pubkey) (a : UpdateMetadata) (key value : string) : M unit :=
  authority_bump ← UpdateMetadata_try_accounts signers a;
  let field := to_field key in
  operation_guards (um_authority_roles_pda a) (um_mint a) (um_deactivate_pda a) (um_asset_class_version_pda a)
    (required_role field) METADATA_UPDATE_UPDATE_METADATA_FIELD;;
  lamports ← additional_lamports (um_mint a) field value;
  (if 0 <? lamports then sys_transfer (um_payer a) (um_mint a) lamports signers else mret tt);;
  authority ← metadata_signer a authority_bump;
  update_field (um_mint a) (um_metadata_update_authority a) field value [authority];;
  emit_cpi (EvMetadata (MetadataFieldUpdated (um_mint a) (um_authority a) key value)).

Definition remove_metadata_field (signers : list Pubkey) (a : UpdateMetadata) (key : string) (idempotent : bool) :
    M unit :=
  authority_bump ← UpdateMetadata_try_accounts signers a;
  operation_guards (um_authority_roles_pda a) (um_mint a) (um_deactivate_pda a) (um_asset_class_version_pda a)
    ROLE_CUSTOM_DATA_MANAGER METADATA_UPDATE_REMOVE_METADATA_FIELD;;
  authority ← metadata_signer a authority_bump;
  remove_key (um_mint a) (um_metadata_update_authority a) key idempotent [authority];;
  emit_cpi (EvMetadata (MetadataFieldRemoved (um_mint a) (um_authority a) key)).
End instructions.

Inductive MetadataInstruction : Set :=
| IxUpdateMetadataField (a : UpdateMetadata) (key value : string)
| IxRemoveMetadataField (a : UpdateMetadata) (key : string) (idempotent : bool).

Definition metadata_update `{Rt : SolanaRuntime} `{Mi : MintInterface} (signers : list Pubkey)
    (ix : MetadataInstruction) : M unit :=
  match ix with
  | IxUpdateMetadataField a key value => update_metadata_field signers a key value
  | IxRemoveMetadataField a key idempotent => remove_metadata_field signers a key idempotent
  end.

(** ** The sizes are those of the stored metadata *)

Lemma pairs_len_sum l : foldr Z.add 0 (map (fun kv => 4 + string_len kv.1 + 4 + string_len kv.2) l) = pairs_len l.
Proof. induction l as [|kv l IH]; simpl; [done|]. rewrite IH. reflexivity. Qed.

Lemma packed_meta_size_spec meta : packed_meta_size meta = metadata_len meta.
Proof. unfold packed_meta_size, metadata_len. rewrite pairs_len_sum. lia. Qed.

Lemma string_len_nonneg s : 0 <= string_len s.
Proof. unfold string_len. lia. Qed.

Lemma pairs_len_set k v l :
  pairs_len (set_key_value k v l) =
    match List.find (fun kv => String.eqb kv.1 k) l with
    | Some (_, old) => pairs_len l - string_len old + string_len v
    | None => pairs_len l + 4 + string_len k + 4 + string_len v
    end.
Proof.
  induction l as [|[k' v'] l IH]; [simpl; lia|]. simpl. destruct (String.eqb_spec k' k) as [->|]; simpl.
  - lia.
  - rewrite IH. destruct (List.find _ l) as [[? old]|]; lia.
Qed.

Lemma new_packed_meta_size_spec meta f v : new_packed_meta_size meta f v = metadata_len (updated f v meta).
Proof.
  unfold new_packed_meta_size. rewrite packed_meta_size_spec. unfold metadata_len. destruct f as [| | |k]; simpl; [lia..|].
  rewrite pairs_len_set. destruct (List.find _ _) as [[? old]|]; lia.
Qed.

Lemma pairs_len_remove k l : pairs_len (remove_pairs k l) <= pairs_len l.
Proof.
  induction l as [|[k' v'] l IH]; [done|]. simpl. pose proof (string_len_nonneg k'). pose proof (string_len_nonneg v').
  destruct (String.eqb k' k); simpl; lia.
Qed.

Lemma metadata_len_removed k md : metadata_len (removed k md) <= metadata_len md.
Proof. unfold metadata_len. simpl. pose proof (pairs_len_remove k (md_additional_metadata md)). lia. Qed.

(** ** What the instructions do *)

Section effects.
Context `{Rt : SolanaRuntime} `{Laws : !RuntimeLaws} `{Mi : MintInterface} `{MLaws : !MintLaws}.

#[export] Instance UpdateMetadata_try_accounts_inv signers a :
  OkInv (UpdateMetadata_try_accounts signers a) (fun w _ w' => w' = w /\ um_authority a ∈ signers /\
    pda_at (roles_seeds (um_mint a) (um_authority a)) ACCESS_CONTROL_PROGRAM_ID (um_authority_roles_pda a) /\
    um_metadata_update_authority a = pda (metadata_update_authority_seeds (um_mint a)) METADATA_UPDATE_PROGRAM_ID /\
    um_deactivate_pda a = pda (deactivate_seeds (um_mint a)) DEACTIVATE_PROGRAM_ID).
Proof. intros w b w' Hr. unfold UpdateMetadata_try_accounts in Hr. by inv_ok. Qed.

#[export] Instance additional_lamports_inv mint f v :
  OkInv (additional_lamports mint f v) (fun w n w' => w' = w /\ exists m md, data_of w mint = DMint m /\
    m_metadata m = Some md /\ 0 <= n /\
    (metadata_len md < metadata_len (updated f v md) ->
     minimum_balance (m_data_len m + metadata_len (updated f v md) - metadata_len md) <= lamports_of w mint + n)).
Proof.
  intros w n w' Hr. unfold additional_lamports in Hr. inv_ok. zify_checks.
  rewrite packed_meta_size_spec, new_packed_meta_size_spec in *. rename select (data_of _ _ = _) into Hd.
  rewrite Hd in *. cbn [data_len] in *. destruct (Z.ltb_spec (metadata_len v1) (metadata_len (updated f v v1))); inv_ok.
  - split; [done|]. eexists _, _. split_and!; [done|done|unfold saturating_sub_u64; lia|].
    intros _. unfold saturating_sub_u64. lia.
  - split; [done|]. eexists _, _. split_and!; [done|done|lia|lia].
Qed.

Definition md_accounts (ix : MetadataInstruction) : UpdateMetadata :=
  match ix with IxUpdateMetadataField a _ _ | IxRemoveMetadataField a _ _ => a end.
Definition edit_role (ix : MetadataInstruction) : Z :=
  match ix with
  | IxUpdateMetadataField _ key _ => required_role (to_field key)
  | IxRemoveMetadataField _ _ _ => ROLE_CUSTOM_DATA_MANAGER
  end.
(** The edit of the metadata, and when it is possible. *)
Definition edit_of (ix : MetadataInstruction) (md : TokenMetadata) : TokenMetadata :=
  match ix with
  | IxUpdateMetadataField _ key value => updated (to_field key) value md
  | IxRemoveMetadataField _ key _ => removed key md
  end.
Definition edit_possible (ix : MetadataInstruction) (md : TokenMetadata) : Prop :=
  match ix with
  | IxRemoveMetadataField _ key false => has_key key (md_additional_metadata md) = true
  | _ => True
  end.

(** The balance of the mint covers the rent of its data. *)
Definition rent_exempt (w : World) (mint : Pubkey) (m : MintState) : Prop :=
  minimum_balance (m_data_len m) <= lamports_of w mint.

Lemma lamports_of_put_mint mint m w k : lamports_of (put_mint mint m w) k = lamports_of w k.
Proof. done. Qed.

Lemma lamports_of_move from to n w k :
  lamports_of (move_lamports from to n w) k =
    lamports_of w k + (if decide (k = to) then n else 0) - (if decide (k = from) then n else 0).
Proof.
  unfold move_lamports, lamports_of, set_lamports. cbn [w_lamports]. rewrite !lookup_insert.
  repeat case_decide; subst; simpl; try done; lia.
Qed.

(** The top-up: the data does not change, the mint has [n] more lamports. *)
Lemma top_up signers payer mint m n w w' :
  0 <= n -> data_of w mint = DMint m ->
  (if 0 <? n then sys_transfer payer mint n signers else mret tt) w = Ok (tt, w') ->
  (forall k, account w' k = account w k) /\ lamports_of w' mint = lamports_of w mint + n.
Proof.
  intros Hn Hm Hr. destruct (Z.ltb_spec 0 n).
  - pose proof (sys_transfer_from _ _ _ _ _ _ Hr) as [_ Hf]. apply sys_transfer_ok in Hr as (_ & _ & ->).
    split; [done|]. rewrite lamports_of_move, decide_True by done. rewrite decide_False; [lia|].
    intros <-. by rewrite Hm in Hf.
  - injection Hr as ->. split; [done|lia].
Qed.

Lemma mint_account_data w k m m' : mint_account w k m -> data_of w k = DMint m' -> m = m'.
Proof. unfold mint_account, data_of. intros ->. by intros [= ->]. Qed.

Lemma rent_exempt_grown w w' mint m md md' n :
  m_metadata m = Some md -> lamports_of w' mint = lamports_of w mint + n -> 0 <= n ->
  (metadata_len md < metadata_len md' ->
   minimum_balance (m_data_len m + metadata_len md' - metadata_len md) <= lamports_of w mint + n) ->
  rent_exempt w mint m -> rent_exempt w' mint (with_metadata md' m).
Proof.
  unfold rent_exempt, with_metadata. cbn [m_data_len]. intros -> -> Hn Hg Hr.
  rewrite Z.add_sub_assoc. destruct (Z.ltb_spec (metadata_len md) (metadata_len md')); [by apply Hg|].
  etransitivity; [apply (minimum_balance_mono _ (m_data_len m)); lia|lia].
Qed.

Lemma elsewhere_put_mint mint m w w1 :
  (forall k, account w1 k = account w k) -> elsewhere mint w (put_mint mint m w1).
Proof. intros Hk j Hj. unfold put_mint. rewrite account_set_account_ne by (by apply not_eq_sym). apply Hk. Qed.

(** What an edit did. *)
Definition edited (signers : list Pubkey) (ix : MetadataInstruction) (w w' : World) : Prop :=
  let mint := um_mint (md_accounts ix) in
  holder_of w signers mint (um_authority (md_accounts ix)) (edit_role ix) /\ running w mint /\ active_mint w mint /\
  exists m md, mint_account w mint m /\ m_metadata m = Some md /\
    md_update_authority md = Some (pda (metadata_update_authority_seeds mint) METADATA_UPDATE_PROGRAM_ID) /\
    edit_possible ix md /\
    mint_account w' mint (with_metadata (edit_of ix md) m) /\ elsewhere mint w w' /\
    (rent_exempt w mint m -> rent_exempt w' mint (with_metadata (edit_of ix md) m)).

Lemma update_metadata_field_edits signers a key value w w' :
  update_metadata_field signers a key value w = Ok (tt, w') ->
  edited signers (IxUpdateMetadataField a key value) w w'.
Proof.
  intros Hr. unfold update_metadata_field in Hr.
  apply bind_ok in Hr as (b & w1 & (-> & Hs & Hk & Ek & Hd)%ok_inv & Hr).
  apply bind_ok in Hr as ([] & w1 & [-> Ha]%ok_inv & Hr).
  apply bind_ok in Hr as (n & w1 & (-> & m & md & Hm & Emd & Hn & Hg)%ok_inv & Hr).
  apply bind_ok in Hr as ([] & w1 & Ht & Hr). apply (top_up _ _ _ _ _ _ _ Hn Hm) in Ht as [Hacc Hl].
  apply bind_ok in Hr as (k & w2 & [Hsig ->]%ok_inv & Hr).
  apply bind_ok in Hr as ([] & w2 & Hu & ->%ok_inv).
  apply update_field_ok in Hu as (m' & md' & (Hm' & Emd' & Hauth & _) & ->).
  rewrite Ek in Hauth. assert (mint_account w (um_mint a) m') as Hmw by (unfold mint_account; by rewrite <- Hacc).
  pose proof (mint_account_data _ _ _ _ Hmw Hm) as ->. rewrite Emd in Emd'. injection Emd' as <-.
  destruct (allowed_actor _ _ _ _ _ _ _ _ _ Hs Hk Hd Ha) as (? & ? & ?).
  do 3 (split; [done|]). exists m, md. do 4 (split; [done|]). split; [|split].
  - unfold mint_account. rewrite account_add_event. apply account_set_account_eq.
  - by apply elsewhere_put_mint.
  - intros Hre. by eapply (rent_exempt_grown w w1).
Qed.

Lemma remove_metadata_field_edits signers a key idempotent w w' :
  remove_metadata_field signers a key idempotent w = Ok (tt, w') ->
  edited signers (IxRemoveMetadataField a key idempotent) w w'.
Proof.
  intros Hr. unfold remove_metadata_field in Hr.
  apply bind_ok in Hr as (b & w1 & (-> & Hs & Hk & Ek & Hd)%ok_inv & Hr).
  apply bind_ok in Hr as ([] & w1 & [-> Ha]%ok_inv & Hr).
  apply bind_ok in Hr as (k & w2 & [Hsig ->]%ok_inv & Hr).
  apply bind_ok in Hr as ([] & w2 & Hu & ->%ok_inv).
  apply remove_key_ok in Hu as (m & md & (Hm & Emd & Hauth & _) & Hp & ->). rewrite Ek in Hauth.
  destruct (allowed_actor _ _ _ _ _ _ _ _ _ Hs Hk Hd Ha) as (? & ? & ?).
  do 3 (split; [done|]). exists m, md. do 3 (split; [done|]). split; [|split; [|split]].
  - destruct idempotent; [done|]. by destruct Hp.
  - unfold mint_account. rewrite account_add_event. apply account_set_account_eq.
  - by apply elsewhere_put_mint.
  - pose proof (metadata_len_removed key md). eapply (rent_exempt_grown w w _ _ _ _ 0); [done|lia|lia|]. simpl; lia.
Qed.

Lemma metadata_update_edits signers ix w w' :
  metadata_update signers ix w = Ok (tt, w') -> edited signers ix w w'.
Proof. destruct ix; simpl; [apply update_metadata_field_edits|apply remove_metadata_field_edits]. Qed.

End effects.

(** ** A renamed bond *)

Definition METADATA_AUTHORITY : Pubkey :=
  Eval vm_compute in ref_pda (metadata_update_authority_seeds MINT) METADATA_UPDATE_PROGRAM_ID.
Definition editable_metadata : TokenMetadata := with_update_authority (Some METADATA_AUTHORITY) sample_metadata.
Definition editable_mint : MintState :=
  mkMintState 1000 2 (Some false) (Some TRANSFER_HOOK_PROGRAM_ID) no_authorities (Some editable_metadata) 500.
Definition editable_world : World :=
  put_mint MINT editable_mint (set_lamports MINT (minimum_balance 500) sample_world).

Definition metadata_accounts : UpdateMetadata := {|
  um_payer := ADMIN; um_authority := ADMIN; um_authority_roles_pda := SAMPLE_ROLES; um_mint := MINT;
  um_asset_configuration_pda := SAMPLE_CONFIG; um_metadata_update_authority := METADATA_AUTHORITY;
  um_deactivate_pda := SAMPLE_DEACTIVATE; um_token_2022_program := TOKEN_2022_PROGRAM_ID;
  um_asset_class_version_pda := SAMPLE_VERSION |}.

Definition renamed_ix : MetadataInstruction := IxUpdateMetadataField metadata_accounts "NAME" "A longer bond name".
Definition renamed_world : World := run_world (metadata_update [ADMIN] renamed_ix) editable_world.

