(* ===== verification/Deploy.v ===== *)
(** * Deploy: the deploy program ([programs/deploy])

    One instruction creates a mint: the account with its extensions, the mint
    and its metadata, the hand-over of the authorities to the programs that use
    them, the asset configuration that ties the mint to a finalized version of
    an asset class, and two calls: of the hook program, for the accounts of the
    hook, and of access-control, for the first administrator. *)

From S2P Require Import Prelude.
From S2P Require Import Layout.
From S2P Require Import Bitmask.
From S2P Require Import ProgramIds.
From S2P Require Import Errors.
From S2P Require Import State.
From S2P Require Import Runtime.
From S2P Require Import Anchor.
From S2P Require Import Frame.
From S2P Require Import Reference.
From S2P Require Import PdaSeeds.
From S2P Require Import PdaUtils.
From S2P Require Import Common.
From S2P Require Import Sample.
From S2P Require Import Token.
From S2P Require Import AccessControl.
From S2P Require Import HookMetas.
From S2P Require Import TokenMint.
From S2P Require Import MetadataUpdate.

Record MetadataField : Set := mkMetadataField { mf_key : string; mf_value : string }.

Record DeployMintParams : Set := mkDeployMintParams {
  dp_decimals : Z;
  dp_name : string;
  dp_symbol : string;
  dp_uri : string;
  dp_additional_metadata : list MetadataField;
  dp_asset_class_config_id : Z;
  dp_asset_class_version_id : Z }.

Record DeployMint : Set := mkDeployMint {
  dm_payer : Pubkey;
  dm_deployer : Pubkey;
  dm_asset_configuration_pda : Pubkey;
  dm_asset_class_version_pda : Pubkey;
  dm_mint : Pubkey;
  dm_temp_mint_authority : Pubkey;
  dm_mint_authority : Pubkey;
  dm_permanent_delegate_authority : Pubkey;
  dm_permissioned_burn_authority : Pubkey;
  dm_metadata_update_authority : Pubkey;
  dm_pausable_authority : Pubkey;
  dm_transfer_hook_authority : Pubkey;
  dm_extra_account_meta_list : Pubkey;
  dm_transfer_hook_program : Pubkey;
  dm_token_2022_program : Pubkey;
  dm_roles_pda : Pubkey;
  dm_access_control_program : Pubkey }.

(** The key-value pairs of the parameters, as [TokenMetadata] has them. *)
Definition metadata_pairs (fields : list MetadataField) : list (string * string) :=
  map (fun f => (mf_key f, mf_value f)) fields.

(** The metadata of the parameters, the keys unset. *)
Definition params_metadata (params : DeployMintParams) : TokenMetadata :=
  mkTokenMetadata None 0 (dp_name params) (dp_symbol params) (dp_uri params) (metadata_pairs (dp_additional_metadata params)).

Definition event_isin (params : DeployMintParams) : option string :=
  mf_value <$> List.find (fun f => String.eqb (mf_key f) "isin") (dp_additional_metadata params).

Section instruction.
Context `{Rt : SolanaRuntime} `{Mi : MintInterface} `{El : ExtraAccountMetaList}.

(** The bumps of the configuration and of the temporary authority. *)
Definition DeployMint_try_accounts (signers : list Pubkey) (a : DeployMint) (params : DeployMintParams) : M (Z * Z) :=
  signer signers (dm_payer a);;
  signer signers (dm_deployer a);;
  loader_load AssetClassVersion (dm_asset_class_version_pda a);;
  check_program (dm_token_2022_program a) TOKEN_2022_PROGRAM_ID;;
  configuration_bump ← seeds_check (dm_asset_configuration_pda a) (asset_configuration_seeds (dm_mint a)) DEPLOY_PROGRAM_ID;
  account_init AssetConfiguration (dm_payer a) (dm_asset_configuration_pda a) signers;;
  version ← loader_load AssetClassVersion (dm_asset_class_version_pda a);
  seeds_bump_check (dm_asset_class_version_pda a)
    (asset_class_version_seeds (dp_asset_class_config_id params) (dp_asset_class_version_id params))
    FACTORY_PROGRAM_ID (acv_bump version);;
  require (acv_state version =? ASSET_CLASS_VERSION_STATE_FINALIZED) (ECommon CommonError.AssetClassVersionNotFinalized);;
  require (bool_decide (dm_mint a ∈ signers)) (EAnchor ConstraintSigner);;
  temp_bump ← seeds_check (dm_temp_mint_authority a) (temp_mint_authority_seeds (dm_mint a)) DEPLOY_PROGRAM_ID;
  seeds_check (dm_mint_authority a) (mint_authority_seeds (dm_mint a)) MINT_PROGRAM_ID;;
  seeds_check (dm_permanent_delegate_authority a) (permanent_delegate_seeds (dm_mint a)) OPERATIONS_PROGRAM_ID;;
  seeds_check (dm_permissioned_burn_authority a) (permissioned_burn_seeds (dm_mint a)) OPERATIONS_PROGRAM_ID;;
  seeds_check (dm_metadata_update_authority a) (metadata_update_authority_seeds (dm_mint a)) METADATA_UPDATE_PROGRAM_ID;;
  seeds_check (dm_pausable_authority a) (pausable_authority_seeds (dm_mint a)) PAUSE_PROGRAM_ID;;
  seeds_check (dm_transfer_hook_authority a) (transfer_hook_authority_seeds (dm_mint a)) TRANSFER_HOOK_PROGRAM_ID;;
  seeds_check (dm_extra_account_meta_list a) (extra_account_metas_seeds (dm_mint a)) TRANSFER_HOOK_PROGRAM_ID;;
  check_address (dm_transfer_hook_program a) TRANSFER_HOOK_PROGRAM_ID;;
  seeds_check (dm_roles_pda a) (roles_seeds (dm_mint a) (dm_deployer a)) ACCESS_CONTROL_PROGRAM_ID;;
  check_address (dm_access_control_program a) ACCESS_CONTROL_PROGRAM_ID;;
  mret (configuration_bump, temp_bump).

(** Steps 1 and 2: an account of the size of the mint and its extensions, with the rent of the
    metadata to come. *)
Definition create_mint_account (signers : list Pubkey) (a : DeployMint) (params : DeployMintParams) : M unit :=
  base_size ← lift (ok_or (try_calculate_account_len
      [PermanentDelegate; MetadataPointer; Pausable; TransferHook; PermissionedBurn])
    (EDeploy DeployError.InvalidMintAccountSize));
  metadata_tlv_size ← lift (ok_or (tlv_size_of (params_metadata params)) (EDeploy DeployError.InvalidMintAccountSize));
  sys_create_account (dm_payer a) (dm_mint a) (minimum_balance (base_size + metadata_tlv_size)) base_size
    (dm_token_2022_program a) signers.

(** Steps 3 to 8: the extensions, then the mint. *)
Definition initialize_mint (a : DeployMint) (params : DeployMintParams) : M unit :=
  initialize_metadata_pointer (dm_mint a) None (Some (dm_mint a));;
  initialize_permanent_delegate (dm_mint a) (dm_permanent_delegate_authority a);;
  initialize_permissioned_burn (dm_mint a) (dm_permissioned_burn_authority a);;
  initialize_pausable (dm_mint a) (dm_pausable_authority a);;
  initialize_transfer_hook_ext (dm_mint a) (Some (dm_transfer_hook_authority a)) (Some TRANSFER_HOOK_PROGRAM_ID);;
  initialize_mint2 (dm_mint a) (dm_temp_mint_authority a) None (dp_decimals params).

(** Step 10. *)
Fixpoint write_additional_metadata (a : DeployMint) (authority : Pubkey) (fields : list MetadataField) : M unit :=
  match fields with
  | [] => mret tt
  | f :: fields =>
      update_field (dm_mint a) (dm_temp_mint_authority a) (FieldKey (mf_key f)) (mf_value f) [authority];;
      write_additional_metadata a authority fields
  end.

(** Steps 9 to 12: the metadata, and the authorities handed over. *)
Definition initialize_metadata (a : DeployMint) (params : DeployMintParams) (authority : Pubkey) : M unit :=
  initialize_token_metadata (dm_mint a) (dm_temp_mint_authority a) (dm_temp_mint_authority a)
    (dp_name params) (dp_symbol params) (dp_uri params) [authority];;
  write_additional_metadata a authority (dp_additional_metadata params);;
  new_update_authority ← lift (ok_or (maybe_null_try_from (Some (dm_metadata_update_authority a)))
    (EDeploy DeployError.InvalidMintAccountSize));
  update_authority (dm_mint a) (dm_temp_mint_authority a) new_update_authority [authority];;
  set_authority (dm_mint a) (Some (dm_mint_authority a)) MintTokens (dm_temp_mint_authority a) [authority].

(** The signer seeds of the code are checked by the run-time at the first call that uses them. *)
Definition deploy_mint (signers : list Pubkey) (a : DeployMint) (params : DeployMintParams) : M unit :=
  '(configuration_bump, temp_bump) ← DeployMint_try_accounts signers a params;
  create_mint_account signers a params;;
  initialize_mint a params;;
  temp_authority ← pda_signer (build_pda_signer_seeds (temp_mint_authority_seeds (dm_mint a)) temp_bump) DEPLOY_PROGRAM_ID;
  initialize_metadata a params temp_authority;;
  asset_class_version ← loader_load AssetClassVersion (dm_asset_class_version_pda a);
  let configuration := mkAssetConfiguration (acv_config_id asset_class_version) (acv_version asset_class_version)
    configuration_bump in
  configuration_signer ← pda_signer (build_pda_signer_seeds (asset_configuration_seeds (dm_mint a)) configuration_bump)
    DEPLOY_PROGRAM_ID;
  initialize_extra_account_meta_list (configuration_signer :: signers) {|
    ie_payer := dm_payer a; ie_asset_configuration_pda := dm_asset_configuration_pda a;
    ie_extra_account_meta_list := dm_extra_account_meta_list a; ie_mint := dm_mint a |};;
  initialize (temp_authority :: signers) {|
    in_payer := dm_payer a; in_temp_mint_authority := dm_temp_mint_authority a; in_account := dm_deployer a;
    in_mint := dm_mint a; in_roles_pda := dm_roles_pda a |};;
  emit_cpi (EvDeploy (MintDeployed (dm_mint a) (dm_deployer a) (dp_decimals params) (dp_name params) (dp_symbol params)
    (dp_uri params) (event_isin params) (dp_asset_class_config_id params) (dp_asset_class_version_id params)));;
  account_exit (dm_asset_configuration_pda a) configuration.
End instruction.

(** ** What a deployment establishes *)

(** The pairs the writes of step 10 leave: a key given twice has its last value. *)
Definition written (fields : list MetadataField) (l : list (string * string)) : list (string * string) :=
  fold_left (fun l f => set_key_value (mf_key f) (mf_value f) l) fields l.

Definition with_additional (l : list (string * string)) (md : TokenMetadata) : TokenMetadata :=
  mkTokenMetadata (md_update_authority md) (md_mint md) (md_name md) (md_symbol md) (md_uri md) l.

(** Each write takes at most the room of its pair. *)
Lemma pairs_len_written fields l : pairs_len (written fields l) <= pairs_len l + pairs_len (metadata_pairs fields).
Proof.
  revert l. induction fields as [|[k v] fields IH]; intros l; [simpl; lia|]. simpl. etransitivity; [apply IH|].
  pose proof (string_len_nonneg k). rewrite pairs_len_set.
  destruct (List.find _ l) as [[? old]|]; [pose proof (string_len_nonneg old)|]; lia.
Qed.

Lemma set_new_key k v l : k ∉ l.*1 -> set_key_value k v l = l ++ [(k, v)].
Proof.
  induction l as [|[k' v'] l IH]; intros Hk; [done|]. simpl in *. apply not_elem_of_cons in Hk as [Hne Hk].
  destruct (String.eqb_spec k' k) as [->|]; [done|]. by rewrite IH.
Qed.

(** Distinct keys are written as they were given. *)
Lemma written_distinct fields l :
  NoDup (l.*1 ++ map mf_key fields) -> written fields l = l ++ metadata_pairs fields.
Proof.
  revert l. induction fields as [|[k v] fields IH]; intros l Hd; simpl in *; [by rewrite app_nil_r|].
  rewrite set_new_key.
  - rewrite IH; [by rewrite <- app_assoc|]. by rewrite fmap_app, <- app_assoc.
  - apply NoDup_app in Hd as (_ & Hd & _). intros Hk. apply (Hd k Hk). by left.
Qed.

Lemma with_metadata_twice md md' m : with_metadata md' (with_metadata md m) = with_metadata md' m.
Proof. unfold with_metadata. cbn. f_equal. destruct (m_metadata m); lia. Qed.

Section effects.
Context `{Rt : SolanaRuntime} `{Laws : !RuntimeLaws} `{Mi : MintInterface} `{MLaws : !MintLaws}
  `{Bl : BorshLayout} `{El : ExtraAccountMetaList} `{ElLaws : !ExtraAccountMetaListLaws}.

(** Only the account [mint] changes, no lamports move. *)
Definition at_mint (mint : Pubkey) (w w' : World) : Prop :=
  elsewhere mint w w' /\ forall k, lamports_of w' k = lamports_of w k.
#[local] Instance at_mint_preorder mint : PreOrder (at_mint mint).
Proof.
  split; [split; [reflexivity|done]|]. intros w1 w2 w3 [H1 L1] [H2 L2]. split; [by etransitivity|].
  intros k. by rewrite L2.
Qed.

Lemma at_mint_put mint m w : at_mint mint w (put_mint mint m w).
Proof. split; [apply elsewhere_put_mint|]; done. Qed.

(** One extension of the mint was set. *)
Lemma extension_step mint w w' s f :
  mint_setup w mint s -> (exists s, mint_setup w mint s /\ w' = put_setup mint (f s) w) ->
  mint_setup w' mint (f s) /\ at_mint mint w w'.
Proof.
  intros [_ Hs] (s' & [_ Hs'] & ->). rewrite Hs in Hs'. injection Hs' as <-. split; [|split; [|done]].
  - unfold mint_setup, put_setup, owner_of, data_of. by rewrite account_set_account_eq.
  - apply elsewhere_set_account.
Qed.

(** The authorities of a deployed mint: each with the program that uses it. *)
Definition program_authorities (mint : Pubkey) : MintAuthorities := {|
  au_mint := Some (pda (mint_authority_seeds mint) MINT_PROGRAM_ID);
  au_freeze := None;
  au_permanent_delegate := Some (pda (permanent_delegate_seeds mint) OPERATIONS_PROGRAM_ID);
  au_permissioned_burn := Some (pda (permissioned_burn_seeds mint) OPERATIONS_PROGRAM_ID);
  au_pausable := Some (pda (pausable_authority_seeds mint) PAUSE_PROGRAM_ID);
  au_transfer_hook := Some (pda (transfer_hook_authority_seeds mint) TRANSFER_HOOK_PROGRAM_ID);
  au_metadata_pointer := None;
  au_metadata_address := Some mint |}.

Definition bare_mint (mint : Pubkey) (decimals base_size : Z) : MintState :=
  mkMintState 0 decimals (Some false) (Some TRANSFER_HOOK_PROGRAM_ID) (program_authorities mint) None base_size.

Definition deployed_metadata (mint : Pubkey) (params : DeployMintParams) : TokenMetadata :=
  mkTokenMetadata (Some (pda (metadata_update_authority_seeds mint) METADATA_UPDATE_PROGRAM_ID)) mint
    (dp_name params) (dp_symbol params) (dp_uri params) (written (dp_additional_metadata params) []).

Definition deployed_mint (mint : Pubkey) (params : DeployMintParams) (base_size : Z) : MintState :=
  with_metadata (deployed_metadata mint params) (bare_mint mint (dp_decimals params) base_size).

(** The accounts are at the addresses the constraints ask for. *)
Definition authorities_ok (a : DeployMint) : Prop :=
  dm_mint_authority a = pda (mint_authority_seeds (dm_mint a)) MINT_PROGRAM_ID /\
  dm_permanent_delegate_authority a = pda (permanent_delegate_seeds (dm_mint a)) OPERATIONS_PROGRAM_ID /\
  dm_permissioned_burn_authority a = pda (permissioned_burn_seeds (dm_mint a)) OPERATIONS_PROGRAM_ID /\
  dm_metadata_update_authority a = pda (metadata_update_authority_seeds (dm_mint a)) METADATA_UPDATE_PROGRAM_ID /\
  dm_pausable_authority a = pda (pausable_authority_seeds (dm_mint a)) PAUSE_PROGRAM_ID /\
  dm_transfer_hook_authority a = pda (transfer_hook_authority_seeds (dm_mint a)) TRANSFER_HOOK_PROGRAM_ID.

#[export] Instance DeployMint_try_accounts_inv signers a params :
  OkInv (DeployMint_try_accounts signers a params) (fun w bumps w' =>
    dm_deployer a ∈ signers /\ dm_mint a ∈ signers /\ dm_token_2022_program a = TOKEN_2022_PROGRAM_ID /\
    authorities_ok a /\
    (exists v : AssetClassVersion, stored w (dm_asset_class_version_pda a) v /\
      acv_state v = ASSET_CLASS_VERSION_STATE_FINALIZED /\
      pda_at (asset_class_version_seeds (dp_asset_class_config_id params) (dp_asset_class_version_id params))
        FACTORY_PROGRAM_ID (dm_asset_class_version_pda a)) /\
    dm_asset_configuration_pda a = pda (asset_configuration_seeds (dm_mint a)) DEPLOY_PROGRAM_ID /\
    bumps.1 = pda_bump (asset_configuration_seeds (dm_mint a)) DEPLOY_PROGRAM_ID /\
    fresh w (dm_asset_configuration_pda a) /\
    account w' (dm_asset_configuration_pda a) = mkAccount DEPLOY_PROGRAM_ID (DZeroed (at_space (T:=AssetConfiguration))) /\
    elsewhere (dm_asset_configuration_pda a) w w').
Proof.
  intros w b w' Hr. unfold DeployMint_try_accounts in Hr.
  apply bind_ok in Hr as ([] & w1 & [_ ->]%ok_inv & Hr).
  apply bind_ok in Hr as ([] & w1 & [Hd ->]%ok_inv & Hr).
  apply bind_ok in Hr as (v & w1 & [Hv ->]%ok_inv & Hr).
  apply bind_ok in Hr as ([] & w1 & [Ht ->]%ok_inv & Hr).
  apply bind_ok in Hr as (cb & w1 & (Ec & Eb & ->)%ok_inv & Hr).
  apply bind_ok in Hr as (c & w1 & (Hf & _ & n & ->)%ok_inv & Hr).
  apply bind_ok in Hr as (v' & w1 & [Hv' ->]%ok_inv & Hr). inv_ok. zify_checks.
  assert (Hne : dm_asset_configuration_pda a <> dm_asset_class_version_pda a).
  { intros E. rewrite E in Hf. revert Hf. apply (stored_not_fresh (T:=AssetClassVersion) _ _ v); [program_ne|exact Hv]. }
  do 3 (split; [done|]). split; [by unfold authorities_ok|]. split.
  { exists v'. split; [|done]. unfold stored in *. by rewrite account_set_account_ne in Hv' by done. }
  do 3 (split; [done|]). split; [by rewrite account_set_account_eq|].
  intros j Hj. by rewrite account_set_account_ne by (by apply not_eq_sym).
Qed.

Lemma create_mint_account_effect signers a params w w' :
  dm_token_2022_program a = TOKEN_2022_PROGRAM_ID -> create_mint_account signers a params w = Ok (tt, w') ->
  exists base_size, fresh w (dm_mint a) /\ dm_payer a <> dm_mint a /\
    mint_setup w' (dm_mint a) (empty_setup base_size) /\ elsewhere (dm_mint a) w w' /\
    minimum_balance (base_size + TLV_HEADER + metadata_len (params_metadata params)) <= lamports_of w' (dm_mint a).
Proof.
  intros Et Hr. unfold create_mint_account in Hr.
  apply bind_ok in Hr as (base & w1 & [Hb ->]%ok_inv & Hr).
  apply bind_ok in Hr as (tlv & w1 & [Ht ->]%ok_inv & Hr). apply ok_or_Ok, tlv_size_of_fits in Ht.
  apply sys_create_account_ok in Hr as (_ & _ & Hne & Hf & Hl & _ & ->). exists base. rewrite Et.
  split; [done|]. split; [done|]. split; [|split].
  - unfold mint_setup, owner_of, data_of. by rewrite account_set_account_eq.
  - intros j Hj. by rewrite account_set_account_ne by (by apply not_eq_sym).
  - change (lamports_of (set_account ?k ?x ?y) ?j) with (lamports_of y j).
    rewrite lamports_of_move, Hl, decide_True, decide_False by (done || by apply not_eq_sym).
    pose proof (minimum_balance_mono (base + TLV_HEADER + metadata_len (params_metadata params)) (base + tlv)). lia.
Qed.

Lemma initialize_mint_effect a params w w' n :
  authorities_ok a -> mint_setup w (dm_mint a) (empty_setup n) -> initialize_mint a params w = Ok (tt, w') ->
  mint_account w' (dm_mint a)
    (with_mint_authority (Some (dm_temp_mint_authority a)) (bare_mint (dm_mint a) (dp_decimals params) n)) /\
  at_mint (dm_mint a) w w'.
Proof.
  intros (_ & Ed & Eb & _ & Ep & Eh) Hs Hr. unfold initialize_mint in Hr.
  apply bind_ok in Hr as ([] & w1 & H1%initialize_metadata_pointer_ok & Hr).
  apply bind_ok in Hr as ([] & w2 & H2%initialize_permanent_delegate_ok & Hr).
  apply bind_ok in Hr as ([] & w3 & H3%initialize_permissioned_burn_ok & Hr).
  apply bind_ok in Hr as ([] & w4 & H4%initialize_pausable_ok & Hr).
  apply bind_ok in Hr as ([] & w5 & H5%initialize_transfer_hook_ext_ok & (s & [_ Hm] & ->)%initialize_mint2_ok).
  destruct (extension_step _ _ _ _ _ Hs H1) as [S1 M1]. destruct (extension_step _ _ _ _ _ S1 H2) as [S2' M2].
  destruct (extension_step _ _ _ _ _ S2' H3) as [S3 M3]. destruct (extension_step _ _ _ _ _ S3 H4) as [S4 M4].
  destruct (extension_step _ _ _ _ _ S4 H5) as [[_ S5] M5]. rewrite S5 in Hm. injection Hm as <-.
  split; [|by rewrite M1, M2, M3, M4, M5; apply at_mint_put].
  unfold mint_account, put_mint. rewrite account_set_account_eq, Ed, Eb, Ep, Eh. done.
Qed.

Lemma write_additional_metadata_effect a authority fields w w' m md :
  mint_account w (dm_mint a) (with_metadata md m) ->
  write_additional_metadata a authority fields w = Ok (tt, w') ->
  mint_account w' (dm_mint a)
    (with_metadata (with_additional (written fields (md_additional_metadata md)) md) m) /\
  at_mint (dm_mint a) w w'.
Proof.
  revert w md. induction fields as [|f fields IH]; intros w md Hm Hr; simpl in Hr.
  - injection Hr as <-. split; [|reflexivity]. by destruct md.
  - apply bind_ok in Hr as ([] & w1 & (m' & md' & (Hm' & Emd & _) & ->)%update_field_ok & Hr).
    unfold mint_account in Hm, Hm'. rewrite Hm in Hm'. injection Hm' as <-. injection Emd as <-.
    rewrite with_metadata_twice in Hr.
    destruct (IH (put_mint (dm_mint a) (with_metadata (updated (FieldKey (mf_key f)) (mf_value f) md) m) w)
      (updated (FieldKey (mf_key f)) (mf_value f) md)) as [Hm' Hat]; [|exact Hr|].
    + apply account_set_account_eq.
    + split; [exact Hm'|]. etransitivity; [|exact Hat]. apply at_mint_put.
Qed.

Lemma initialize_metadata_effect a params authority w w' n :
  authorities_ok a ->
  mint_account w (dm_mint a)
    (with_mint_authority (Some (dm_temp_mint_authority a)) (bare_mint (dm_mint a) (dp_decimals params) n)) ->
  initialize_metadata a params authority w = Ok (tt, w') ->
  mint_account w' (dm_mint a) (deployed_mint (dm_mint a) params n) /\ at_mint (dm_mint a) w w'.
Proof.
  intros (Em & _ & _ & Eu & _) Hm Hr. unfold initialize_metadata in Hr.
  apply bind_ok in Hr as ([] & w1 & (m1 & H1 & _ & _ & _ & _ & ->)%initialize_token_metadata_ok & Hr).
  unfold mint_account in Hm, H1. rewrite Hm in H1. injection H1 as <-.
  apply bind_ok in Hr as ([] & w2 & Hw & Hr).
  eapply write_additional_metadata_effect with (md := mkTokenMetadata (Some (dm_temp_mint_authority a)) (dm_mint a)
    (dp_name params) (dp_symbol params) (dp_uri params) []) in Hw as [H2 Hat]; [|apply account_set_account_eq].
  apply bind_ok in Hr as (k & w3 & [Hk%ok_or_Ok%maybe_null_some ->]%ok_inv & Hr). subst k.
  apply bind_ok in Hr as ([] & w3 & (m3 & md3 & (H3 & Emd & _) & ->)%update_authority_ok & Hr).
  unfold mint_account in H2, H3. rewrite H2 in H3. injection H3 as <-. injection Emd as <-.
  apply set_authority_ok in Hr as (m4 & H4 & _ & _ & ->). unfold mint_account, put_mint in H4.
  rewrite account_set_account_eq in H4. injection H4 as <-. split.
  - unfold mint_account, put_mint. rewrite account_set_account_eq, with_metadata_twice. unfold deployed_mint, deployed_metadata.
    rewrite Em, Eu. done.
  - etransitivity; [apply at_mint_put|]. etransitivity; [exact Hat|]. etransitivity; apply at_mint_put.
Qed.

(** Steps 1 to 12: the mint is complete, and still has the rent of all its metadata. *)
Lemma mint_steps signers a params authority w w2 w3 w' :
  dm_token_2022_program a = TOKEN_2022_PROGRAM_ID -> authorities_ok a ->
  create_mint_account signers a params w = Ok (tt, w2) -> initialize_mint a params w2 = Ok (tt, w3) ->
  initialize_metadata a params authority w3 = Ok (tt, w') ->
  fresh w (dm_mint a) /\ dm_payer a <> dm_mint a /\ elsewhere (dm_mint a) w w' /\
  exists n, mint_account w' (dm_mint a) (deployed_mint (dm_mint a) params n) /\
    rent_exempt w' (dm_mint a) (deployed_mint (dm_mint a) params n).
Proof.
  intros Et Ha (n & Hf & Hp & Hs & He & Hl)%create_mint_account_effect H3 H4; [|done].
  destruct (initialize_mint_effect _ _ _ _ _ Ha Hs H3) as [Hm [He3 Hl3]].
  destruct (initialize_metadata_effect _ _ _ _ _ _ Ha Hm H4) as [Hm' [He4 Hl4]].
  split; [done|]. split; [done|]. split; [by rewrite He, He3|]. exists n. split; [done|].
  unfold rent_exempt. rewrite Hl4, Hl3. etransitivity; [apply minimum_balance_mono|exact Hl].
  unfold deployed_mint, with_metadata, bare_mint, metadata_len, deployed_metadata, params_metadata.
  cbn [m_data_len m_metadata md_name md_symbol md_uri md_additional_metadata].
  pose proof (pairs_len_written (dp_additional_metadata params) []) as Hw. change (pairs_len []) with 0 in Hw. lia.
Qed.

(** Steps 14 and 15, on a complete mint [m] and a configuration account of the program. *)
Lemma call_steps a signers signers' w w1 w' mint metas roles m :
  mint_account w mint m -> dm_payer a <> mint -> dm_mint a = mint -> dm_extra_account_meta_list a = metas ->
  dm_roles_pda a = roles ->
  initialize_extra_account_meta_list signers (mkInitializeExtraAccountMetaList (dm_payer a)
    (dm_asset_configuration_pda a) metas mint) w = Ok (tt, w1) ->
  initialize signers' (mkInitialize (dm_payer a) (dm_temp_mint_authority a) (dm_deployer a) mint roles) w1 = Ok (tt, w') ->
  metas = pda (extra_account_metas_seeds mint) TRANSFER_HOOK_PROGRAM_ID /\
  roles = pda (roles_seeds mint (dm_deployer a)) ACCESS_CONTROL_PROGRAM_ID /\
  metas <> mint /\ roles <> mint /\ fresh w metas /\ fresh w1 roles /\
  account w' metas = mkAccount TRANSFER_HOOK_PROGRAM_ID (DExtraAccountMetas hook_metas) /\
  roles_of w' roles = {[ ROLE_ADMIN ]} /\ lamports_of w' mint = lamports_of w mint /\
  elsewhere metas w w1 /\ elsewhere roles w1 w'.
Proof.
  intros Hm Hp Em Ex Er (Ek & Hf & _ & Ha & He & _ & n & Hn)%initialize_metas_effect
    (_ & _ & Hfr & Ekr & r & w2 & -> & Hr & _ & _ & Hj & n' & Hn')%initialize_effect. cbn in *.
  assert (Hmm : mint <> metas) by (eapply fresh_ne; [exact Hf|unfold owner_of; rewrite Hm; program_ne]).
  assert (Hmr : mint <> roles).
  { eapply fresh_ne; [exact Hfr|]. unfold owner_of. rewrite He by done. rewrite Hm. program_ne. }
  assert (Hxr : metas <> roles) by (eapply fresh_ne; [exact Hfr|unfold owner_of; rewrite Ha; program_ne]).
  do 2 (split; [done|]). do 2 (split; [by apply not_eq_sym|]). do 2 (split; [done|]). split; [|split; [|split; [|split]]].
  - rewrite account_set_account_ne by (by apply not_eq_sym). by rewrite Hj.
  - by rewrite roles_of_set_account.
  - change (lamports_of (set_account ?k ?x ?y) ?j) with (lamports_of y j).
    rewrite Hn', lamports_of_move, Hn, lamports_of_move. rewrite !decide_False by congruence. lia.
  - exact He.
  - intros j Hne. rewrite account_set_account_ne by (by apply not_eq_sym). by apply Hj.
Qed.

(** The four accounts of a deployment. *)
Definition deployment_accounts (mint deployer : Pubkey) : list Pubkey :=
  [ mint; pda (asset_configuration_seeds mint) DEPLOY_PROGRAM_ID;
    pda (extra_account_metas_seeds mint) TRANSFER_HOOK_PROGRAM_ID;
    pda (roles_seeds mint deployer) ACCESS_CONTROL_PROGRAM_ID ].

Definition deployed (signers : list Pubkey) (a : DeployMint) (params : DeployMintParams) (w w' : World) : Prop :=
  let mint := dm_mint a in
  let configuration := pda (asset_configuration_seeds mint) DEPLOY_PROGRAM_ID in
  dm_deployer a ∈ signers /\ mint ∈ signers /\ Forall (fresh w) (deployment_accounts mint (dm_deployer a)) /\
  (exists n, mint_account w' mint (deployed_mint mint params n) /\ rent_exempt w' mint (deployed_mint mint params n)) /\
  (exists v : AssetClassVersion, stored w (dm_asset_class_version_pda a) v /\
    acv_state v = ASSET_CLASS_VERSION_STATE_FINALIZED /\
    pda_at (asset_class_version_seeds (dp_asset_class_config_id params) (dp_asset_class_version_id params))
      FACTORY_PROGRAM_ID (dm_asset_class_version_pda a) /\
    stored w' configuration (mkAssetConfiguration (acv_config_id v) (acv_version v)
      (pda_bump (asset_configuration_seeds mint) DEPLOY_PROGRAM_ID))) /\
  account w' (pda (extra_account_metas_seeds mint) TRANSFER_HOOK_PROGRAM_ID) =
    mkAccount TRANSFER_HOOK_PROGRAM_ID (DExtraAccountMetas hook_metas) /\
  roles_of w' (pda (roles_seeds mint (dm_deployer a)) ACCESS_CONTROL_PROGRAM_ID) = {[ ROLE_ADMIN ]} /\
  forall j, j ∉ deployment_accounts mint (dm_deployer a) -> account w' j = account w j.

(** The version the configuration is written from is the one that was checked. *)
Lemma version_kept w w' cfg mint k (v v' : AssetClassVersion) :
  stored w k v -> fresh w cfg -> fresh w mint -> (forall j, j <> cfg -> j <> mint -> account w' j = account w j) ->
  stored w' k v' -> v' = v.
Proof.
  intros Hv Hc Hm Hj Hv'. eapply stored_inj; [|exact Hv]. unfold stored in *.
  rewrite <- Hj; [done|intros ->..]; [destruct Hc as [E _]|destruct Hm as [E _]]; unfold owner_of in E; rewrite Hv in E;
    revert E; program_ne.
Qed.

Lemma not_among {A} (x : A) (l : list A) j : x ∈ l -> j ∉ l -> j <> x.
Proof. by intros ?? ->. Qed.

Lemma fresh_account w w' k : account w' k = account w k -> fresh w' k -> fresh w k.
Proof. unfold fresh, owner_of, data_of. by intros ->. Qed.

Lemma deploy_mint_deploys signers a params w w' :
  deploy_mint signers a params w = Ok (tt, w') -> deployed signers a params w w'.
Proof.
  intros Hr. unfold deploy_mint in Hr. apply bind_ok in Hr as ([cb tb] & w1 &
    (Hd & Hms & Et & Hau & (v & Hv & Hfin & Hvk) & Ec & Eb & Hfc & Hcfg & He1)%ok_inv & Hr). cbn in Eb, Hr. subst cb.
  apply bind_ok in Hr as ([] & w2 & H2 & Hr). apply bind_ok in Hr as ([] & w3 & H3 & Hr).
  apply bind_ok in Hr as (ta & w3' & [_ ->]%ok_inv & Hr). apply bind_ok in Hr as ([] & w4 & H4 & Hr).
  destruct (mint_steps _ _ _ _ _ _ _ _ Et Hau H2 H3 H4) as (Hfm & Hp & He4 & n & Hm & Hrent).
  apply bind_ok in Hr as (v' & w4' & [Hv' ->]%ok_inv & Hr). apply bind_ok in Hr as (cs & w4' & [_ ->]%ok_inv & Hr).
  apply bind_ok in Hr as ([] & w5 & H5 & Hr). apply bind_ok in Hr as ([] & w6 & H6 & Hr).
  destruct (call_steps _ _ _ _ _ _ _ _ _ _ Hm Hp eq_refl eq_refl eq_refl H5 H6)
    as (Ex & Er & Hxm & Hrm & Hfx & Hfr & Hx & Hroles & Hl & He5 & He6). rewrite Ec, Ex, Er in *.
  apply bind_ok in Hr as ([] & w7 & ->%ok_inv & [_ ->]%ok_inv).
  assert (Hcm : pda (asset_configuration_seeds (dm_mint a)) DEPLOY_PROGRAM_ID <> dm_mint a).
  { eapply fresh_ne; [exact Hfm|]. unfold owner_of. rewrite Hcfg. program_ne. }
  assert (Hcx : pda (asset_configuration_seeds (dm_mint a)) DEPLOY_PROGRAM_ID <>
    pda (extra_account_metas_seeds (dm_mint a)) TRANSFER_HOOK_PROGRAM_ID) by (intros [E _]%pda_inj; discriminate E).
  assert (Hcr : pda (asset_configuration_seeds (dm_mint a)) DEPLOY_PROGRAM_ID <>
    pda (roles_seeds (dm_mint a) (dm_deployer a)) ACCESS_CONTROL_PROGRAM_ID) by (intros [E _]%pda_inj; discriminate E).
  assert (Hfm0 : fresh w (dm_mint a)).
  { eapply fresh_account; [|exact Hfm]. apply He1. by apply not_eq_sym. }
  assert (v' = v) as ->.
  { eapply (version_kept w w4); [exact Hv|exact Hfc|exact Hfm0| |exact Hv'].
    intros j Hj Hj'. by rewrite He4, He1. }
  assert (Hother : forall j, j <> pda (asset_configuration_seeds (dm_mint a)) DEPLOY_PROGRAM_ID -> forall d x,
    account (set_account (pda (asset_configuration_seeds (dm_mint a)) DEPLOY_PROGRAM_ID) d (add_event x w6)) j = account w6 j).
  { intros j Hj d x. rewrite account_set_account_ne by (by apply not_eq_sym). apply account_add_event. }
  unfold deployed. do 2 (split; [done|]). split; [|split; [|split; [|split; [|split]]]].
  - do 2 (apply Forall_cons_2; [done|]). apply Forall_cons_2; [|apply Forall_cons_2; [|constructor]].
    all: eapply fresh_account; [|eassumption].
    + by rewrite He4, He1 by (done || by apply not_eq_sym).
    + rewrite He5, He4, He1; [done|by apply not_eq_sym|done|]. intros [E _]%pda_inj; discriminate E.
  - exists n. split; [|unfold rent_exempt in *; by rewrite <- Hl in Hrent].
    unfold mint_account. rewrite Hother by (by apply not_eq_sym). by rewrite He6, He5 by (by apply not_eq_sym).
  - exists v. do 3 (split; [done|]). unfold stored. by rewrite account_set_account_eq.
  - by rewrite Hother by (by apply not_eq_sym).
  - rewrite <- Hroles. unfold roles_of. erewrite view_account; [reflexivity|]. apply Hother. by apply not_eq_sym.
  - intros j Hj. pose proof (fun x Hx => not_among x _ _ Hx Hj) as Hn.
    rewrite Hother, He6, He5, He4, He1 by (apply Hn; unfold deployment_accounts; repeat first [by left|right]). done.
Qed.

(** Whoever may act on the mint or its metadata. *)
Definition controllers (m : MintState) : list Pubkey :=
  let au := m_authorities m in
  omap id [au_mint au; au_freeze au; au_permanent_delegate au; au_permissioned_burn au; au_pausable au;
    au_transfer_hook au; au_metadata_pointer au; m_metadata m ≫= md_update_authority].

Lemma deployed_controllers mint params n k :
  k ∈ controllers (deployed_mint mint params n) ->
  exists seeds program, k = pda seeds program /\
    program ∈ [MINT_PROGRAM_ID; OPERATIONS_PROGRAM_ID; PAUSE_PROGRAM_ID; TRANSFER_HOOK_PROGRAM_ID; METADATA_UPDATE_PROGRAM_ID].
Proof.
  change (controllers (deployed_mint mint params n)) with
    [ pda (mint_authority_seeds mint) MINT_PROGRAM_ID; pda (permanent_delegate_seeds mint) OPERATIONS_PROGRAM_ID;
      pda (permissioned_burn_seeds mint) OPERATIONS_PROGRAM_ID; pda (pausable_authority_seeds mint) PAUSE_PROGRAM_ID;
      pda (transfer_hook_authority_seeds mint) TRANSFER_HOOK_PROGRAM_ID;
      pda (metadata_update_authority_seeds mint) METADATA_UPDATE_PROGRAM_ID ].
  rewrite !elem_of_cons. intros Hk. repeat destruct Hk as [->|Hk]; [eexists _, _; split; [reflexivity|set_solver]..|].
  by apply not_elem_of_nil in Hk.
Qed.

(** C11: a deployment that succeeds is signed
    by the deployer and by the mint's own key, at addresses that were free.  It
    leaves a mint with no supply and not paused whose hook is the repository's
    hook program, whose authorities are addresses of the programs that use them
    (so the temporary authority of the deploy program keeps none, and nobody can
    freeze the mint or move its metadata), whose metadata is that of the
    parameters, and whose lamports cover the rent of all of it; a configuration
    that names a finalized version, the one found at the address of the
    parameters; the list of the hook's accounts; and the deployer as its only new
    administrator.  No other account changes. *)
Theorem deployment_establishes_a_regulated_mint signers a params w w' :
  deploy_mint signers a params w = Ok (tt, w') ->
  deployed signers a params w w' /\
  (NoDup (map mf_key (dp_additional_metadata params)) ->
   md_additional_metadata (deployed_metadata (dm_mint a) params) = metadata_pairs (dp_additional_metadata params)) /\
  exists m, mint_account w' (dm_mint a) m /\ forall k, k ∈ controllers m ->
    k <> pda (temp_mint_authority_seeds (dm_mint a)) DEPLOY_PROGRAM_ID.
Proof.
  intros Hd%deploy_mint_deploys. split; [done|]. split; [intros Hn; by apply (written_distinct _ [])|].
  destruct Hd as (_ & _ & _ & (n & Hm & _) & _). eexists. split; [exact Hm|].
  intros k (seeds & program & -> & Hp)%deployed_controllers [_ ->]%pda_inj.
  apply (bool_decide_pack _) in Hp. by vm_compute in Hp.
Qed.
End effects.

(** ** A deployment on the sample world *)

Definition NEW_MINT : Pubkey := 501.
Definition sample_params : DeployMintParams :=
  mkDeployMintParams 2 "Bond" "BND" "ipfs://b" [mkMetadataField "isin" "ES01"; mkMetadataField "desk" "7"] 1 1.
Definition deploy_accounts : DeployMint := Eval vm_compute in {|
  dm_payer := ADMIN; dm_deployer := ADMIN;
  dm_asset_configuration_pda := ref_pda (asset_configuration_seeds NEW_MINT) DEPLOY_PROGRAM_ID;
  dm_asset_class_version_pda := SAMPLE_VERSION; dm_mint := NEW_MINT;
  dm_temp_mint_authority := ref_pda (temp_mint_authority_seeds NEW_MINT) DEPLOY_PROGRAM_ID;
  dm_mint_authority := ref_pda (mint_authority_seeds NEW_MINT) MINT_PROGRAM_ID;
  dm_permanent_delegate_authority := ref_pda (permanent_delegate_seeds NEW_MINT) OPERATIONS_PROGRAM_ID;
  dm_permissioned_burn_authority := ref_pda (permissioned_burn_seeds NEW_MINT) OPERATIONS_PROGRAM_ID;
  dm_metadata_update_authority := ref_pda (metadata_update_authority_seeds NEW_MINT) METADATA_UPDATE_PROGRAM_ID;
  dm_pausable_authority := ref_pda (pausable_authority_seeds NEW_MINT) PAUSE_PROGRAM_ID;
  dm_transfer_hook_authority := ref_pda (transfer_hook_authority_seeds NEW_MINT) TRANSFER_HOOK_PROGRAM_ID;
  dm_extra_account_meta_list := ref_pda (extra_account_metas_seeds NEW_MINT) TRANSFER_HOOK_PROGRAM_ID;
  dm_transfer_hook_program := TRANSFER_HOOK_PROGRAM_ID; dm_token_2022_program := TOKEN_2022_PROGRAM_ID;
  dm_roles_pda := ref_pda (roles_seeds NEW_MINT ADMIN) ACCESS_CONTROL_PROGRAM_ID;
  dm_access_control_program := ACCESS_CONTROL_PROGRAM_ID |}.
Definition deployed_world : World := run_world (deploy_mint [ADMIN; NEW_MINT] deploy_accounts sample_params) sample_world.

Lemma deployment_establishes_a_regulated_mint_witness :
  deployed [ADMIN; NEW_MINT] deploy_accounts sample_params sample_world deployed_world.
Proof.
  apply (deployment_establishes_a_regulated_mint [ADMIN; NEW_MINT] deploy_accounts sample_params).
  apply run_ok. vm_compute. reflexivity.
Defined.
