(* ===== verification/Kept.v ===== *)
(** * Kept: what no instruction of the workspace touches

    Three kinds of accounts are written once: the markers of deactivated mints,
    the asset configurations, and the finalized versions of asset classes.
    [fixed_kept] relates a world to the worlds that leave them as they are; every
    program of the workspace does. *)

From S2P Require Import Prelude.
From S2P Require Import Merkle.
From S2P Require Import Layout.
From S2P Require Import Bitmask.
From S2P Require Import ProgramIds.
From S2P Require Import Errors.
From S2P Require Import State.
From S2P Require Import Runtime.
From S2P Require Import Anchor.
From S2P Require Import Frame.
From S2P Require Import PdaSeeds.
From S2P Require Import PdaUtils.
From S2P Require Import Common.
From S2P Require Import Freeze.
From S2P Require Import TransferControl.
From S2P Require Import Token.
From S2P Require Import TransferHook.
From S2P Require Import Deployed.
From S2P Require Import Operations.
From S2P Require Import OperationsProofs.
From S2P Require Import Hold.
From S2P Require Import HoldProofs.
From S2P Require Import Frames.
From S2P Require Import System.
From S2P Require Import AccessControl.
From S2P Require Import Cap.
From S2P Require Import Mint.
From S2P Require Import MintProofs.
From S2P Require Import Snapshot.
From S2P Require Import Coupon.
From S2P Require Import Bond.
From S2P Require Import TokenInterface.
From S2P Require Import Treasury.
From S2P Require Import Factory.
From S2P Require Import Pause.
From S2P Require Import Deactivate.
From S2P Require Import NominalValue.
From S2P Require Import Document.
From S2P Require Import Transfer.
From S2P Require Import HookMetas.
From S2P Require Import TokenMint.
From S2P Require Import MetadataUpdate.
From S2P Require Import Deploy.

(** The accounts that are never written again. *)
Definition fixed (a : Account) : bool :=
  N.eqb (acc_owner a) DEACTIVATE_PROGRAM_ID || N.eqb (acc_owner a) DEPLOY_PROGRAM_ID ||
  N.eqb (acc_owner a) FACTORY_PROGRAM_ID &&
    match acc_data a with
    | DAssetClassVersion v => acv_state v =? ASSET_CLASS_VERSION_STATE_FINALIZED
    | _ => false
    end.

Definition fixed_kept (w w' : World) : Prop :=
  forall k, fixed (account w k) = true -> account w' k = account w k.

#[export] Instance fixed_kept_preorder : PreOrder fixed_kept.
Proof.
  split; [by intros w k|]. intros w1 w2 w3 H1 H2 k Hk. rewrite <- (H1 k Hk). apply H2. by rewrite H1.
Qed.

(** The programs that own no fixed account. *)
Definition outsider (p : Pubkey) : bool :=
  negb (N.eqb p DEACTIVATE_PROGRAM_ID || N.eqb p DEPLOY_PROGRAM_ID || N.eqb p FACTORY_PROGRAM_ID).

Lemma outsider_unfixed w k : outsider (owner_of w k) = true -> fixed (account w k) = false.
Proof.
  unfold outsider, fixed, owner_of. destruct (N.eqb _ DEACTIVATE_PROGRAM_ID), (N.eqb _ DEPLOY_PROGRAM_ID),
    (N.eqb _ FACTORY_PROGRAM_ID); done.
Qed.

Lemma fixed_owner w k p : fixed (account w k) = true -> outsider p = true -> owner_of w k <> p.
Proof. intros Hf Ho <-. by rewrite (outsider_unfixed _ _ Ho) in Hf. Qed.

Lemma system_outsider : outsider SYSTEM_PROGRAM_ID = true.
Proof. reflexivity. Qed.

Lemma kept_stored {T} `{AccountType T} w w' k (t : T) :
  fixed (mkAccount at_program (at_data t)) = true -> fixed_kept w w' -> stored w k t -> stored w' k t.
Proof. intros Hf Hk Hs. unfold stored in *. rewrite Hk; [done|]. by rewrite Hs. Qed.

(** ** The operations of the run-time and of Anchor *)

Section kept.
Context `{Rt : SolanaRuntime} `{Laws : !RuntimeLaws}.

Lemma kept_unfixed k w w' :
  fixed (account w k) = false -> elsewhere k w w' -> fixed_kept w w'.
Proof. intros Hk He j Hj. apply He. intros ->. by rewrite Hj in Hk. Qed.

Lemma kept_elsewhere k w w' :
  outsider (owner_of w k) = true -> elsewhere k w w' -> fixed_kept w w'.
Proof. intros Hk%outsider_unfixed. by apply kept_unfixed. Qed.

Lemma kept_accounts w w' : (forall k, account w' k = account w k) -> fixed_kept w w'.
Proof. by intros E k _. Qed.

Lemma kept_writes p w w' : outsider p = true -> writes_only p w w' -> fixed_kept w w'.
Proof.
  intros Hp Hw k Hk. eapply writes_only_account; [exact Hw|by eapply fixed_owner|].
  eapply fixed_owner; [exact Hk|reflexivity].
Qed.

Lemma kept_preserves_writes p {A} (m : M A) :
  outsider p = true -> preserves (writes_only p) m -> preserves fixed_kept m.
Proof. intros Hp Hm w a w' Hr. eapply kept_writes; [exact Hp|by eapply Hm]. Qed.

Lemma fresh_unfixed w k : fresh w k -> fixed (account w k) = false.
Proof. intros [Ho _]. apply outsider_unfixed. by rewrite Ho. Qed.

Lemma kept_fresh k a payer n w :
  fresh w k -> fixed_kept w (set_account k a (move_lamports payer k n w)).
Proof.
  intros [Ho _]. apply (kept_elsewhere k); [by rewrite Ho|].
  intros j Hj. by rewrite account_set_account_ne by (by apply not_eq_sym).
Qed.

Lemma preserves_kept_write p k d : outsider p = true -> preserves fixed_kept (write_data p k d).
Proof.
  intros Hp w [] w' Hr. inv_ok. apply (kept_elsewhere k); [congruence|].
  apply elsewhere_set_account.
Qed.

Lemma preserves_kept_exit {T} `{AccountType T} k (t : T) :
  outsider at_program = true -> preserves fixed_kept (account_exit k t).
Proof. apply preserves_kept_write. Qed.

Lemma preserves_kept_serialize {T} `{AccountType T} `{BorshSize T} k (t : T) :
  outsider at_program = true -> preserves fixed_kept (serialize_pda k t).
Proof.
  intros Hp. unfold serialize_pda.
  repeat (preserves_step || (apply preserves_kept_write; exact Hp)).
Qed.

Lemma preserves_kept_emit e : preserves fixed_kept (emit_cpi e).
Proof. intros w [] w' Hr. inv_ok. by apply kept_accounts. Qed.

Lemma preserves_kept_create payer k space p signers :
  preserves fixed_kept (anchor_create_account payer k space p signers).
Proof. intros w [] w' (Hf & n & _ & ->)%anchor_create_account_ok. by apply kept_fresh. Qed.

Lemma preserves_kept_init {T} `{AccountType T} payer k signers :
  preserves fixed_kept (account_init T payer k signers).
Proof. intros w t w' Hr. inv_ok. by apply kept_fresh. Qed.

Lemma preserves_kept_loader_init {T} `{AccountType T} payer k signers :
  preserves fixed_kept (loader_init T payer k signers).
Proof. intros w t w' Hr. inv_ok. by apply kept_fresh. Qed.

Lemma preserves_kept_init_if_needed {T} `{AccountType T} payer k signers :
  preserves fixed_kept (account_init_if_needed T payer k signers).
Proof. intros w t w' [(? & ? & n & ->)|(_ & _ & ->)]%ok_inv; [by apply kept_fresh|reflexivity]. Qed.

Lemma preserves_kept_loader_init_if_needed {T} `{AccountType T} payer k signers :
  preserves fixed_kept (loader_init_if_needed T payer k signers).
Proof. intros w t w' [(? & n & ->)|(? & ? & ->)]%ok_inv; [by apply kept_fresh|reflexivity]. Qed.

Lemma preserves_kept_close p k dest : outsider p = true -> preserves fixed_kept (account_close p k dest).
Proof.
  intros Hp w [] w' (Ho & n & ->)%ok_inv. apply (kept_elsewhere k); [congruence|].
  intros j Hj. by rewrite account_set_account_ne by (by apply not_eq_sym).
Qed.

Lemma preserves_kept_adopt p signers payer k n seeds :
  outsider p = true -> preserves fixed_kept (create_or_adopt_pda signers payer k p n seeds).
Proof. intros Hp. eapply kept_preserves_writes; [exact Hp|apply preserves_create_or_adopt_pda]. Qed.

Lemma preserves_kept_transfer from to n signers : preserves fixed_kept (sys_transfer from to n signers).
Proof. intros w [] w' (_ & _ & ->)%sys_transfer_ok. by apply kept_accounts. Qed.
End kept.

#[export] Hint Resolve preserves_kept_emit preserves_kept_create preserves_kept_init preserves_kept_loader_init
  preserves_kept_init_if_needed preserves_kept_loader_init_if_needed preserves_kept_transfer : preserves_db.
#[export] Hint Extern 1 (preserves fixed_kept (write_data _ _ _)) => apply preserves_kept_write; reflexivity : preserves_db.
#[export] Hint Extern 1 (preserves fixed_kept (account_exit _ _)) => apply preserves_kept_exit; reflexivity : preserves_db.
#[export] Hint Extern 1 (preserves fixed_kept (serialize_pda _ _)) => apply preserves_kept_serialize; reflexivity : preserves_db.
#[export] Hint Extern 1 (preserves fixed_kept (account_close _ _ _)) => apply preserves_kept_close; reflexivity : preserves_db.
#[export] Hint Extern 1 (preserves fixed_kept (create_or_adopt_pda _ _ _ _ _ _)) =>
  apply preserves_kept_adopt; reflexivity : preserves_db.
#[export] Hint Extern 9 (preserves _ (load_init_or_load _ _)) => solve_reader : preserves_db.
#[export] Hint Extern 9 (preserves _ (bits_or _ _)) => solve_reader : preserves_db.

(** ** The programs *)

Section programs.
Context `{Rt : SolanaRuntime} `{Laws : !RuntimeLaws}.

Lemma freeze_kept signers ix : preserves fixed_kept (freeze signers ix).
Proof. apply (kept_preserves_writes FREEZE_PROGRAM_ID); [reflexivity|apply freeze_writes]. Qed.
Lemma transfer_control_kept signers ix : preserves fixed_kept (transfer_control signers ix).
Proof. apply (kept_preserves_writes TRANSFER_CONTROL_PROGRAM_ID); [reflexivity|apply transfer_control_writes]. Qed.
Lemma nominal_value_kept signers ix : preserves fixed_kept (nominal_value signers ix).
Proof. apply (kept_preserves_writes NOMINAL_VALUE_PROGRAM_ID); [reflexivity|apply nominal_value_writes]. Qed.
Lemma document_kept signers ix : preserves fixed_kept (document signers ix).
Proof. apply (kept_preserves_writes DOCUMENT_PROGRAM_ID); [reflexivity|apply document_writes]. Qed.

Lemma access_control_kept signers ix : preserves fixed_kept (access_control signers ix).
Proof.
  destruct ix; simpl; unfold AccessControl.initialize, grant_roles, revoke_roles, AccessControl.Initialize_try_accounts, GrantRoles_try_accounts,
    RevokeRoles_try_accounts, roles_guards; solve_preserves.
Qed.

Lemma set_max_supply_kept signers a n : preserves fixed_kept (set_max_supply signers a n).
Proof. unfold set_max_supply, SetMaxSupply_try_accounts. solve_preserves. Qed.

Lemma take_snapshot_kept signers a root : preserves fixed_kept (take_snapshot signers a root).
Proof. unfold take_snapshot, TakeSnapshot_try_accounts, assert_take_snapshot_authorized_caller. solve_preserves. Qed.
#[local] Hint Resolve take_snapshot_kept : preserves_db.

Lemma coupon_kept signers ix : preserves fixed_kept (coupon signers ix).
Proof.
  destruct ix; simpl; unfold create_coupon, set_coupon_rate, CreateCoupon_try_accounts, SetCouponRate_try_accounts,
    step_counter, read_snapshot_id; solve_preserves.
Qed.

Lemma update_bond_terms_kept signers a args : preserves fixed_kept (update_bond_terms signers a args).
Proof. unfold update_bond_terms, UpdateBondTerms_try_accounts. solve_preserves. Qed.

Lemma metas_kept `{Mi : ExtraAccountMetaList} signers a :
  preserves fixed_kept (initialize_extra_account_meta_list signers a).
Proof.
  unfold initialize_extra_account_meta_list, InitializeExtraAccountMetaList_try_accounts. solve_preserves.
Qed.

End programs.

(** ** The factory, whose versions become fixed *)

Section factory.
Context `{Rt : SolanaRuntime} `{Laws : !RuntimeLaws}.

Lemma kept_set k a w w1 : fixed_kept w w1 -> fixed (account w1 k) = false -> fixed_kept w (set_account k a w1).
Proof. intros Hk Hu. etransitivity; [exact Hk|]. eapply kept_unfixed; [exact Hu|apply elsewhere_set_account]. Qed.

Lemma kept_event e w w1 : fixed_kept w w1 -> fixed_kept w (add_event e w1).
Proof. done. Qed.
Lemma kept_lamports k n w w1 : fixed_kept w w1 -> fixed_kept w (set_lamports k n w1).
Proof. done. Qed.
Lemma kept_move from to n w w1 : fixed_kept w w1 -> fixed_kept w (move_lamports from to n w1).
Proof. done. Qed.

Lemma unfixed_set k a j w :
  fixed a = false -> fixed (account w j) = false -> fixed (account (set_account k a w) j) = false.
Proof. rewrite account_set_account. by case_decide. Qed.
Lemma unfixed_event e j w : fixed (account w j) = false -> fixed (account (add_event e w) j) = false.
Proof. done. Qed.
Lemma unfixed_lamports k n j w : fixed (account w j) = false -> fixed (account (set_lamports k n w) j) = false.
Proof. done. Qed.
Lemma unfixed_move from to n j w : fixed (account w j) = false -> fixed (account (move_lamports from to n w) j) = false.
Proof. done. Qed.

Lemma stored_unfixed {T} `{AccountType T} w k (t : T) :
  fixed (mkAccount at_program (at_data t)) = false -> stored w k t -> fixed (account w k) = false.
Proof. intros Hf Hs. unfold stored in Hs. by rewrite Hs. Qed.

Lemma draft_unfixed w k (v : AssetClassVersion) :
  acv_state v = ASSET_CLASS_VERSION_STATE_DRAFT -> stored w k v -> fixed (account w k) = false.
Proof. intros Hd Hs. apply (stored_unfixed w k v); [|exact Hs]. cbn. by rewrite Hd. Qed.

(** A nomination that was opened, or found. *)
Lemma opened_kept {T} `{AccountType T} payer k w (t : T) w1 :
  (forall t, fixed (mkAccount at_program (at_data t)) = false) ->
  fixed (mkAccount at_program (DZeroed at_space)) = false ->
  (fresh w k /\ t = at_zero /\ (exists n,
     w1 = set_account k (mkAccount at_program (DZeroed at_space)) (move_lamports payer k n w))) \/
  (owner_of w k <> SYSTEM_PROGRAM_ID /\ stored w k t /\ w1 = w) ->
  fixed_kept w w1 /\ fixed (account w1 k) = false.
Proof.
  intros Hu Hz [(Hf & _ & n & ->)|(_ & Hs & ->)].
  - split; [by apply kept_fresh|]. by rewrite account_set_account_eq.
  - split; [reflexivity|]. by apply (stored_unfixed w k t).
Qed.

(** The account a write goes to was fresh, or read as something that is not fixed. *)
Ltac solve_unfixed :=
  repeat first [apply unfixed_event|apply unfixed_lamports|apply unfixed_move|apply unfixed_set; [reflexivity|]];
  first [ assumption | by apply fresh_unfixed | eapply draft_unfixed; [|eassumption]; assumption
        | match goal with Hs : stored ?w ?k ?t |- fixed (account ?w ?k) = false =>
            apply (stored_unfixed w k t); [reflexivity|exact Hs] end ].
Ltac solve_kept :=
  repeat first [reflexivity|apply kept_event|apply kept_lamports|apply kept_move|apply kept_set];
  first [assumption|solve_unfixed|idtac].

Lemma factory_kept signers ix : preserves fixed_kept (factory signers ix).
Proof.
  intros w [] w' Hr. destruct ix; simpl in Hr; unfold Factory.initialize, nominate_manager, accept_nomination, cancel_nomination, Factory.pause,
    Factory.unpause, create_asset_class, nominate_asset_class_owner, accept_asset_class_ownership,
    cancel_asset_class_ownership, init_asset_class_version, enable_asset_class_version_functionalities,
    disable_asset_class_version_functionalities, finalize_asset_class_version, helpers.require_paused, helpers.require_not_paused,
    helpers.verify_manager, helpers.verify_pending_manager, helpers.verify_owner, helpers.verify_pending_owner, factory_constraint,
    pending_manager_constraint, ownership_constraint, pending_owner_constraint, version_try_accounts, version_constraint,
    require_draft in Hr; inv_ok; zify_checks; subst; try solve [solve_kept];
    try match goal with Ho : fresh _ _ /\ _ \/ _ |- _ =>
      apply opened_kept in Ho as [? ?]; [by solve_kept|by intros []|reflexivity] end.
  apply kept_set; [by solve_kept|]. apply unfixed_event. rewrite account_set_account_ne; [by solve_unfixed|].
  intros E. match goal with Hv : stored w (iv_asset_class_version_pda a) ?v, Ho : stored w _ ?o |- _ =>
    rewrite E in Hv; unfold stored in Hv, Ho; rewrite Hv in Ho; discriminate Ho end.
Qed.
End factory.

(** ** The programs that move tokens *)

Section token_programs.
Context `{Rt : SolanaRuntime} `{Laws : !RuntimeLaws} `{Tok : Token2022} `{TLaws : !TokenLaws}.

Lemma kept_put_mint k m m' w : mint_account w k m -> fixed_kept w (put_mint k m' w).
Proof.
  intros Hm. apply (kept_elsewhere k); [|apply elsewhere_set_account].
  unfold owner_of. by rewrite Hm.
Qed.

Lemma kept_put_token k t t' w : token_account w k t -> fixed_kept w (put_token k t' w).
Proof.
  intros Hm. apply (kept_elsewhere k); [|apply elsewhere_set_account].
  unfold owner_of. by rewrite Hm.
Qed.

(** A token account and then the mint, which is not that account, were written. *)
Lemma kept_supply k mint t t' m m' w :
  token_account w k t -> mint_account w mint m -> fixed_kept w (put_mint mint m' (put_token k t' w)).
Proof.
  intros Ht Hm. etransitivity; [eapply kept_put_token; exact Ht|]. eapply (kept_put_mint _ m).
  unfold mint_account, put_token, token_account in *. rewrite account_set_account_ne; [exact Hm|]. congruence.
Qed.

Lemma preserves_kept_mint_to mint dest authority n signers :
  preserves fixed_kept (mint_to mint dest authority n signers).
Proof. intros w [] w' (t & m & Ht & Hm & _ & _ & _ & _ & _ & _ & ->)%mint_to_ok. by eapply kept_supply. Qed.

Lemma preserves_kept_burn k mint burner authority n signers :
  preserves fixed_kept (permissioned_burn k mint burner authority n signers).
Proof. intros w [] w' (t & m & Ht & Hm & _ & _ & _ & _ & _ & _ & ->)%permissioned_burn_ok. by eapply kept_supply. Qed.

Lemma preserves_kept_set_paused mint authority b signers :
  preserves fixed_kept (set_paused mint authority b signers).
Proof. intros w [] w' (m & Hm & _ & _ & ->)%set_paused_ok. by eapply kept_put_mint. Qed.
#[local] Hint Resolve preserves_kept_mint_to preserves_kept_burn preserves_kept_set_paused : preserves_db.

Lemma pause_program_kept signers ix : preserves fixed_kept (pause_program signers ix).
Proof.
  destruct ix; simpl; unfold pause, unpause, PauseMint_try_accounts, pauser_guards; solve_preserves.
Qed.

Lemma mint_program_kept signers ix : preserves fixed_kept (mint_program signers ix).
Proof.
  destruct ix; simpl; unfold mint, batch_mint, MintTokens_try_accounts, BatchMintTokens_try_accounts,
    require_within_max_supply, verify_transfer_control_mode, verify_control_list_membership, verify_control_list_pda; solve_preserves.
Qed.

Lemma burn_kept signers a n : preserves fixed_kept (burn signers a n).
Proof. unfold burn, BurnTokens_try_accounts, require_hold_covered. solve_preserves. Qed.

Lemma batch_burn_kept signers a r ns : preserves fixed_kept (batch_burn signers a r ns).
Proof.
  unfold batch_burn, BatchBurnTokens_try_accounts, require_hold_covered_unverified_pda, require_hold_covered.
  solve_preserves.
Qed.

(** A transfer of a deployed mint writes its two token accounts. *)
Lemma transferred_kept src dst n s d w w' :
  token_account w src s -> token_account w dst d -> transferred src dst n s d w w' -> fixed_kept w w'.
Proof.
  intros Hs Hd [_ _ _ Hj] k Hk. apply Hj; intros ->; revert Hk; unfold token_account in *.
  - by rewrite Hs.
  - by rewrite Hd.
Qed.

Lemma forced_kept mint from to n w w' : forced mint from to n w w' -> fixed_kept w w'.
Proof.
  intros (s & d & Hs & Hd & _ & _ & _ & [(_ & E & _)|[_ Ht]]);
    [|exact (transferred_kept _ _ _ _ _ _ _ Hs Hd Ht)].
  apply kept_accounts. intros k. unfold account. by rewrite E.
Qed.

Lemma operations_kept other signers ix w w' :
  config_inv w -> operations other signers ix w = Ok (tt, w') -> fixed_kept w w'.
Proof.
  intros Hc Hr. destruct ix as [a n|a r ns|a n|a n].
  - by eapply burn_kept.
  - by eapply batch_burn_kept.
  - apply operations_promise in Hr as (_ & Hf & _); [|done]. by eapply forced_kept.
  - apply operations_promise in Hr as (_ & Hf); [|done]. by eapply forced_kept.
Qed.

Lemma execute_hold_kept other signers a id n w w' :
  config_inv w -> execute_hold other signers a id n w = Ok (tt, w') -> fixed_kept w w'.
Proof.
  intros Hc (p & h & w1 & ev & He & Hp & Hh & _ & _ & _ & _ & _ & _ & _ & _ & _ & ->)%execute_hold_executed; [|done].
  assert (Hw1 : fixed_kept w w1).
  { destruct He as [(s & d & Hs & Hd & _ & _ & _ & [[_ ->]|[_ Ht]])]; [reflexivity|].
    exact (transferred_kept _ _ _ _ _ _ _ Hs Hd Ht). }
  etransitivity; [exact Hw1|]. intros k Hk. destruct (execution_untouched _ _ _ _ He) as [Hu _].
  assert (Hne : forall j, owner_of w j = HOLD_PROGRAM_ID -> j <> k).
  { intros j Hj ->. assert (E : account w1 k = account w k) by (apply Hu; [apply not_elem_of_nil|by left]).
    rewrite E in Hk. by apply (fixed_owner _ _ HOLD_PROGRAM_ID Hk). }
  rewrite !account_set_account_ne; [done|apply Hne..]; [exact (stored_owner _ _ _ Hp)|exact (stored_owner _ _ _ Hh)].
Qed.

Lemma hold_kept other signers ix w w' :
  config_inv w -> hold other signers ix w = Ok (tt, w') -> fixed_kept w w'.
Proof.
  intros Hc Hr. destruct ix; simpl in Hr; [| |by eapply execute_hold_kept|..];
    (eapply (kept_preserves_writes HOLD_PROGRAM_ID); [reflexivity| |exact Hr]).
  - apply create_hold_writes.
  - apply controller_create_hold_writes.
  - apply release_hold_writes.
  - apply reclaim_hold_writes.
Qed.

Lemma transfer_kept other ix signers w w' :
  hooked w (tx_mint ix) -> transfer_checked (hook_program other) ix signers w = Ok (tt, w') -> fixed_kept w w'.
Proof.
  intros Hh Ht. destruct (transfer_effect other ix signers w w' Hh Ht)
    as (s & d & Hs & Hd & _ & _ & _ & _ & [[_ ->]|(_ & Htr & _)]);
    [reflexivity|exact (transferred_kept _ _ _ _ _ _ _ Hs Hd Htr)].
Qed.

Lemma legs_kept other a decimals signers legs : forall w w',
  hooked w (tr_mint a) ->
  for_each legs (fun '(amount, (destination, control_list_pda)) =>
    transfer_checked (hook_program other) (leg a decimals amount destination control_list_pda) signers) w
    = Ok (tt, w') -> fixed_kept w w'.
Proof.
  induction legs as [|[n [d c]] legs IH]; intros w w' Hh Hr; simpl in Hr; [by inv_ok|].
  apply bind_ok in Hr as ([] & w1 & Ht & Hr).
  pose proof (transfer_hooked other (leg a decimals n d c) signers w w1 Hh Ht) as Hh1.
  etransitivity; [|by eapply IH]. exact (transfer_kept other (leg a decimals n d c) signers w w1 Hh Ht).
Qed.

Lemma batch_transfer_kept other signers a r ns w w' :
  config_inv w -> batch_transfer other signers a r ns w = Ok (tt, w') -> fixed_kept w w'.
Proof.
  intros Hc Hr. unfold batch_transfer in Hr. inv_ok.
  match goal with Hk : pda_at (asset_configuration_seeds _) _ ?k, Hs : stored _ ?k ?c |- _ =>
    assert (Hh : hooked w (tr_mint a)) by exact (Hc _ _ c Hk Hs) end.
  by eapply legs_kept.
Qed.

Lemma token_unfixed p d : is_token_program p = true -> fixed (mkAccount p d) = false.
Proof. by intros [->| ->]%is_token_program_or. Qed.

Lemma treasury_kept `{TiLaws : TokenInterfaceLaws} `{Bl : BorshLayout} hashv signers ix :
  preserves fixed_kept (treasury hashv signers ix).
Proof.
  assert (Ht : forall ix n d s, preserves fixed_kept (interface_transfer_checked ix n d s)).
  { intros x n d s w [] w' (ts & td & m & Hs & Hd & _ & Hp & _ & _ & _ & _ & _ & _ & Hj & _)%interface_transfer_ok.
    intros k Hk. apply Hj; intros ->; rewrite ?Hs, ?Hd in Hk; revert Hk; apply not_true_iff_false, token_unfixed, Hp. }
  destruct ix; simpl; unfold set_payment_token, pay_coupon, SetPaymentToken_try_accounts, PayCoupon_try_accounts,
    claims_guard, require_balance_proof; solve_preserves.
Qed.
End token_programs.

(** ** Mints and their metadata *)

Section mint_programs.
Context `{Rt : SolanaRuntime} `{Laws : !RuntimeLaws} `{Mi : MintInterface} `{MLaws : !MintLaws}.

Lemma metadata_update_kept signers ix : preserves fixed_kept (metadata_update signers ix).
Proof.
  intros w [] w' (_ & _ & _ & m & md & Hm & _ & _ & _ & _ & He & _)%metadata_update_edits.
  eapply kept_elsewhere; [|exact He]. unfold owner_of. by rewrite Hm.
Qed.

Lemma deactivate_kept signers a : preserves fixed_kept (deactivate signers a).
Proof.
  intros w [] w' (Hf & _ & _ & _ & Hj)%deactivate_effect. intros k Hk. apply Hj. intros ->.
  by rewrite (fresh_unfixed _ _ Hf) in Hk.
Qed.

Lemma deploy_kept `{Bl : BorshLayout} `{El : ExtraAccountMetaList} `{ElLaws : !ExtraAccountMetaListLaws} signers a params :
  preserves fixed_kept (deploy_mint signers a params).
Proof.
  intros w [] w' (_ & _ & Hf & _ & _ & _ & _ & Hj)%deploy_mint_deploys. intros k Hk. apply Hj.
  intros Hfk%(proj1 (Forall_forall _ _) Hf). by rewrite (fresh_unfixed _ _ Hfk) in Hk.
Qed.
End mint_programs.
