(* ===== verification/Workspace.v ===== *)
(** * Workspace: the twenty programs together, and what deactivation means

    [workspace] runs one instruction of any program.  A deactivated mint is
    inert for good: no instruction removes its marker, and every instruction
    that needs an active mint refuses it. *)

From S2P Require Import Prelude.
From S2P Require Import Merkle.
From S2P Require Import Layout.
From S2P Require Import Bitmask.
From S2P Require Import ProgramIds.
From S2P Require Import Errors.
From S2P Require Import State.
From S2P Require Import Runtime.
From S2P Require Import Anchor.
From S2P Require Import Frame.
From S2P Require Import Reference.
From S2P Require Import PdaSeeds.
From S2P Require Import PdaUtils.
From S2P Require Import Common.
From S2P Require Import Sample.
From S2P Require Import Freeze.
From S2P Require Import TransferControl.
From S2P Require Import Token.
From S2P Require Import TransferHook.
From S2P Require Import Deployed.
From S2P Require Import Operations.
From S2P Require Import OperationsProofs.
From S2P Require Import Hold.
From S2P Require Import HoldProofs.
From S2P Require Import SampleRuns.
From S2P Require Import Frames.
From S2P Require Import System.
From S2P Require Import AccessControl.
From S2P Require Import Cap.
From S2P Require Import Mint.
From S2P Require Import Snapshot.
From S2P Require Import Coupon.
From S2P Require Import Bond.
From S2P Require Import TokenInterface.
From S2P Require Import Treasury.
From S2P Require Import Factory.
From S2P Require Import Pause.
From S2P Require Import Deactivate.
From S2P Require Import NominalValue.
From S2P Require Import Document.
From S2P Require Import Transfer.
From S2P Require Import HookMetas.
From S2P Require Import TokenMint.
From S2P Require Import MetadataUpdate.
From S2P Require Import Deploy.
From S2P Require Import Kept.

(** ** Computations a deactivated mint refuses *)

Section refused.
Context `{Rt : SolanaRuntime} `{Laws : !RuntimeLaws} (mint : Pubkey).

Definition refused {A} (m : M A) : Prop := forall w a w', deactivated w mint -> m w = Ok (a, w') -> False.

Lemma deactivated_kept w w' : fixed_kept w w' -> deactivated w mint -> deactivated w' mint.
Proof.
  intros Hk [s Hs]. exists s. by apply (kept_stored w).
Qed.

Lemma refused_first {A B} (m : M A) (f : A -> M B) : refused m -> refused (m ≫= f).
Proof. intros Hm w b w' Hd (a & w1 & Hr & _)%bind_ok. by eapply Hm. Qed.

Lemma refused_later {A B} (m : M A) (f : A -> M B) :
  preserves fixed_kept m -> (forall a, refused (f a)) -> refused (m ≫= f).
Proof.
  intros Hm Hf w b w' Hd (a & w1 & Hr & Hr')%bind_ok. eapply Hf; [|exact Hr'].
  eapply deactivated_kept; [|exact Hd]. by eapply Hm.
Qed.

(** The accounts were checked: the marker passed is that of the mint. *)
Lemma refused_accounts {A B} k (m : M A) (f : A -> M B) :
  preserves fixed_kept m -> (forall w a w', m w = Ok (a, w') -> k = deactivate_pda_of mint) ->
  (k = deactivate_pda_of mint -> forall a, refused (f a)) -> refused (m ≫= f).
Proof.
  intros Hm Hk Hf w b w' Hd (a & w1 & Hr & Hr')%bind_ok. eapply Hf; [by eapply Hk| |exact Hr'].
  eapply deactivated_kept; [|exact Hd]. by eapply Hm.
Qed.

Lemma refused_active k : k = deactivate_pda_of mint -> refused (require_active k).
Proof. intros -> w [] w' Hd [Ha _]%ok_inv. by apply (deactivated_not_active w mint). Qed.

Lemma refused_guards rk mk k vk role f :
  k = deactivate_pda_of mint -> refused (operation_guards rk mk k vk role f).
Proof. intros -> w [] w' Hd (_ & _ & _ & Ha & _)%ok_inv. by apply (deactivated_not_active w mint). Qed.
End refused.

Ltac refused_step :=
  match goal with
  | |- refused _ (require_active _) => apply refused_active; assumption
  | |- refused _ (operation_guards _ _ _ _ _ _) => apply refused_guards; assumption
  | |- refused _ (match ?x with _ => _ end) => destruct x
  | |- refused _ (_ ≫= _) =>
      first [ apply refused_first; solve [repeat refused_step]
            | apply refused_later; [solve [solve_preserves]|intros ?] ]
  end.

(** [solve_refused k]: the accounts check that [k] is the marker, a guard after it refuses. *)
Ltac solve_refused k :=
  apply (refused_accounts _ k);
    [ solve [solve_preserves]
    | let Hr := fresh in intros ? ? ? Hr; inv_ok; assumption
    | intros ? ?; repeat refused_step ].

(** ** The instructions of the workspace *)

Inductive Instruction : Set :=
| WFreeze (ix : FreezeInstruction)
| WTransferControl (ix : TransferControlInstruction)
| WOperations (ix : OperationsInstruction)
| WHold (ix : HoldInstruction)
| WAccessControl (ix : AccessControlInstruction)
| WSetMaxSupply (a : SetMaxSupply) (max_supply : Z)
| WMint (ix : MintInstruction)
| WTakeSnapshot (a : TakeSnapshot) (merkle_root : Hash)
| WCoupon (ix : CouponInstruction)
| WUpdateBondTerms (a : UpdateBondTerms) (args : BondTermsArgs)
| WTreasury (ix : TreasuryInstruction)
| WFactory (ix : FactoryInstruction)
| WPause (ix : PauseInstruction)
| WDeactivate (a : Deactivate)
| WNominalValue (ix : NominalValueInstruction)
| WDocument (ix : DocumentInstruction)
| WBatchTransfer (a : BatchTransferTokens) (remaining_accounts : list Pubkey) (amounts : list Z)
| WInitializeMetas (a : InitializeExtraAccountMetaList)
| WMetadata (ix : MetadataInstruction)
| WDeployMint (a : DeployMint) (params : DeployMintParams).

Section workspace.
Context `{Rt : SolanaRuntime} `{Tok : Token2022} `{Ti : TokenInterface} `{Bl : BorshLayout}
  `{El : ExtraAccountMetaList} `{Mi : MintInterface}.
Context (other : HookCall) (hashv : list (list Z) -> Hash).

Definition workspace (signers : list Pubkey) (ix : Instruction) : M unit :=
  match ix with
  | WFreeze ix => freeze signers ix
  | WTransferControl ix => transfer_control signers ix
  | WOperations ix => operations other signers ix
  | WHold ix => hold other signers ix
  | WAccessControl ix => access_control signers ix
  | WSetMaxSupply a n => set_max_supply signers a n
  | WMint ix => mint_program signers ix
  | WTakeSnapshot a root => take_snapshot signers a root
  | WCoupon ix => coupon signers ix
  | WUpdateBondTerms a args => update_bond_terms signers a args
  | WTreasury ix => treasury hashv signers ix
  | WFactory ix => factory signers ix
  | WPause ix => pause_program signers ix
  | WDeactivate a => deactivate signers a
  | WNominalValue ix => nominal_value signers ix
  | WDocument ix => document signers ix
  | WBatchTransfer a r ns => batch_transfer other signers a r ns
  | WInitializeMetas a => initialize_extra_account_meta_list signers a
  | WMetadata ix => metadata_update signers ix
  | WDeployMint a params => deploy_mint signers a params
  end.
End workspace.

(** The mint an instruction acts on, for the instructions that need it to be active. *)
Definition freeze_mint (ix : FreezeInstruction) : Pubkey :=
  match ix with
  | IxFreezeAccount a | IxUnfreezeAccount a | IxFreezeAccountPartial a _ | IxUnfreezeAccountPartial a => fa_mint a
  | IxBatchFreezeAccount a _ | IxBatchUnfreezeAccount a _ | IxBatchFreezeAccountPartial a _ _
  | IxBatchUnfreezeAccountPartial a _ => bf_mint a
  end.
Definition transfer_control_mint (ix : TransferControlInstruction) : Pubkey :=
  match ix with TransferControl.IxInitialize a _ => sm_mint a | IxAddToControlList a | IxRemoveFromControlList a => cl_mint a end.

Definition active_mint_of (ix : Instruction) : option Pubkey :=
  match ix with
  | WFreeze ix => Some (freeze_mint ix)
  | WTransferControl ix => Some (transfer_control_mint ix)
  | WOperations (IxBurn a _) => Some (bu_mint a)
  | WOperations (IxBatchBurn a _ _) => Some (bb_mint a)
  | WOperations (IxControllerTransfer a _) => Some (ct_mint a)
  | WHold (IxCreateHold a _ _ _ _ _) => Some (ch_mint a)
  | WHold (IxControllerCreateHold a _ _ _ _ _) => Some (ch_mint (cch_accounts a))
  | WHold (IxExecuteHold a _ _) => Some (eh_mint a)
  | WAccessControl (IxGrantRoles a _) | WAccessControl (IxRevokeRoles a _) => Some (gr_mint a)
  | WSetMaxSupply a _ => Some (cs_mint a)
  | WMint (IxMint a _) => Some (mt_mint a)
  | WMint (IxBatchMint a _ _) => Some (bm_mint a)
  | WCoupon (IxCreateCoupon a _) => Some (cc_mint a)
  | WCoupon (IxSetCouponRate a _ _ _) => Some (cr_mint a)
  | WUpdateBondTerms a _ => Some (ub_mint a)
  | WTreasury (IxSetPaymentToken a) => Some (sp_mint a)
  | WTreasury (IxPayCoupon a _ _ _ _) => Some (pc_mint a)
  | WPause (IxPause a) | WPause (IxUnpause a) => Some (pm_mint a)
  | WNominalValue (IxInitializeNominalValue a _ _ _) => Some (in_mint a)
  | WNominalValue (IxPublishNominalValue a _ _) | WNominalValue (IxRepublishNominalValue a _ _) => Some (wn_mint a)
  | WDocument (IxSetDocument a _ _ _) | WDocument (IxRemoveDocument a _) => Some (sd_mint a)
  | WMetadata (IxUpdateMetadataField a _ _) | WMetadata (IxRemoveMetadataField a _ _) => Some (um_mint a)
  | _ => None
  end.

(** ** Every one of them refuses a deactivated mint *)

Section handlers.
Context `{Rt : SolanaRuntime} `{Laws : !RuntimeLaws}.

Lemma freeze_refused signers ix : refused (freeze_mint ix) (freeze signers ix).
Proof.
  destruct ix as [a|a r|a|a r|a b|a r bs|a|a r]; simpl; unfold freeze_account, freeze_account_partial,
    unfreeze_account, unfreeze_account_partial, batch_freeze_account, batch_freeze_account_partial, batch_unfreeze_account,
    batch_unfreeze_account_partial, FreezeAccountPartial_try_accounts, UnfreezeAccountPartial_try_accounts,
    BatchFreezeAccountPartial_try_accounts, BatchUnfreezeAccountPartial_try_accounts,
    BatchUnfreezeAccount_try_accounts, FreezeAccount_try_accounts, UnfreezeAccount_try_accounts,
    BatchFreezeAccount_try_accounts, account_guards, batch_guards;
    first [solve_refused (fa_deactivate_pda a)|solve_refused (bf_deactivate_pda a)].
Qed.

Lemma transfer_control_refused signers ix : refused (transfer_control_mint ix) (transfer_control signers ix).
Proof.
  destruct ix as [a m|a|a]; simpl; unfold TransferControl.initialize, add_to_control_list, remove_from_control_list,
    SetMode_try_accounts, AddToControlList_try_accounts, RemoveFromControlList_try_accounts;
    first [solve_refused (sm_deactivate_pda a)|solve_refused (cl_deactivate_pda a)].
Qed.

Lemma grant_roles_refused signers a roles : refused (gr_mint a) (grant_roles signers a roles).
Proof. unfold grant_roles, GrantRoles_try_accounts, roles_guards. solve_refused (gr_deactivate_pda a). Qed.
Lemma revoke_roles_refused signers a roles : refused (gr_mint a) (revoke_roles signers a roles).
Proof. unfold revoke_roles, RevokeRoles_try_accounts, roles_guards. solve_refused (gr_deactivate_pda a). Qed.

Lemma set_max_supply_refused signers a n : refused (cs_mint a) (set_max_supply signers a n).
Proof. unfold set_max_supply, SetMaxSupply_try_accounts. solve_refused (cs_deactivate_pda a). Qed.

Lemma update_bond_terms_refused signers a args : refused (ub_mint a) (update_bond_terms signers a args).
Proof. unfold update_bond_terms, UpdateBondTerms_try_accounts. solve_refused (ub_deactivate_pda a). Qed.

Lemma create_coupon_refused signers a args : refused (cc_mint a) (create_coupon signers a args).
Proof. unfold create_coupon, CreateCoupon_try_accounts. solve_refused (cc_deactivate_pda a). Qed.
Lemma set_coupon_rate_refused signers a id r d : refused (cr_mint a) (set_coupon_rate signers a id r d).
Proof. unfold set_coupon_rate, SetCouponRate_try_accounts. solve_refused (cr_deactivate_pda a). Qed.

Lemma initialize_nominal_value_refused signers a d c t : refused (in_mint a) (initialize_nominal_value signers a d c t).
Proof. unfold initialize_nominal_value, InitializeNominalValue_try_accounts. solve_refused (in_deactivate_pda a). Qed.
Lemma publish_nominal_value_refused signers a v e : refused (wn_mint a) (publish_nominal_value signers a v e).
Proof. unfold publish_nominal_value, WriteNominalValue_try_accounts. solve_refused (wn_deactivate_pda a). Qed.
Lemma republish_nominal_value_refused signers a v e : refused (wn_mint a) (republish_nominal_value signers a v e).
Proof. unfold republish_nominal_value, WriteNominalValue_try_accounts. solve_refused (wn_deactivate_pda a). Qed.

Lemma set_document_refused signers a n u h : refused (sd_mint a) (set_document signers a n u h).
Proof. unfold set_document, SetDocument_try_accounts, document_guards. solve_refused (sd_deactivate_pda a). Qed.
Lemma remove_document_refused signers a n : refused (sd_mint a) (remove_document signers a n).
Proof. unfold remove_document, RemoveDocument_try_accounts, document_guards. solve_refused (sd_deactivate_pda a). Qed.

Lemma create_hold_refused signers a id n e k d : refused (ch_mint a) (create_hold signers a id n e k d).
Proof.
  unfold create_hold, CreateHold_try_accounts, create_try_accounts, create_guards. solve_refused (ch_deactivate_pda a).
Qed.
Lemma controller_create_hold_refused signers a id n e k d :
  refused (ch_mint (cch_accounts a)) (controller_create_hold signers a id n e k d).
Proof.
  unfold controller_create_hold, ControllerCreateHold_try_accounts, create_try_accounts, create_guards.
  solve_refused (ch_deactivate_pda (cch_accounts a)).
Qed.
End handlers.

Section token_handlers.
Context `{Rt : SolanaRuntime} `{Laws : !RuntimeLaws} `{Tok : Token2022}.

Lemma burn_refused signers a n : refused (bu_mint a) (burn signers a n).
Proof. unfold burn, BurnTokens_try_accounts. solve_refused (bu_deactivate_pda a). Qed.
Lemma batch_burn_refused signers a r ns : refused (bb_mint a) (batch_burn signers a r ns).
Proof. unfold batch_burn, BatchBurnTokens_try_accounts. solve_refused (bb_deactivate_pda a). Qed.
Lemma controller_transfer_refused other signers a n : refused (ct_mint a) (controller_transfer other signers a n).
Proof. unfold controller_transfer, ControllerTransfer_try_accounts. solve_refused (ct_deactivate_pda a). Qed.
Lemma execute_hold_refused other signers a id n : refused (eh_mint a) (execute_hold other signers a id n).
Proof. unfold execute_hold, ExecuteHold_try_accounts. solve_refused (eh_deactivate_pda a). Qed.

Lemma mint_refused signers a n : refused (mt_mint a) (mint signers a n).
Proof. unfold mint, MintTokens_try_accounts. solve_refused (mt_deactivate_pda a). Qed.
Lemma batch_mint_refused signers a r ns : refused (bm_mint a) (batch_mint signers a r ns).
Proof. unfold batch_mint, BatchMintTokens_try_accounts. solve_refused (bm_deactivate_pda a). Qed.

Lemma pause_refused signers a : refused (pm_mint a) (pause signers a).
Proof. unfold pause, PauseMint_try_accounts, pauser_guards. solve_refused (pm_deactivate_pda a). Qed.
Lemma unpause_refused signers a : refused (pm_mint a) (unpause signers a).
Proof. unfold unpause, PauseMint_try_accounts, pauser_guards. solve_refused (pm_deactivate_pda a). Qed.

Lemma set_payment_token_refused `{Bl : BorshLayout} signers a : refused (sp_mint a) (set_payment_token signers a).
Proof. unfold set_payment_token, SetPaymentToken_try_accounts. solve_refused (sp_deactivate_pda a). Qed.
Lemma pay_coupon_refused `{Ti : TokenInterface} hashv signers a id k n proof :
  refused (pc_mint a) (pay_coupon hashv signers a id k n proof).
Proof. unfold pay_coupon, PayCoupon_try_accounts. solve_refused (pc_deactivate_pda a). Qed.

Lemma update_metadata_field_refused `{Mi : MintInterface} signers a k v :
  refused (um_mint a) (update_metadata_field signers a k v).
Proof. unfold update_metadata_field, UpdateMetadata_try_accounts. solve_refused (um_deactivate_pda a). Qed.
Lemma remove_metadata_field_refused `{Mi : MintInterface} signers a k b :
  refused (um_mint a) (remove_metadata_field signers a k b).
Proof. unfold remove_metadata_field, UpdateMetadata_try_accounts. solve_refused (um_deactivate_pda a). Qed.
End token_handlers.

Create HintDb refused_db discriminated.
#[export] Hint Constants Opaque : refused_db.
#[export] Hint Resolve burn_refused batch_burn_refused controller_transfer_refused execute_hold_refused
  create_hold_refused controller_create_hold_refused grant_roles_refused revoke_roles_refused
  set_max_supply_refused mint_refused batch_mint_refused create_coupon_refused set_coupon_rate_refused
  update_bond_terms_refused set_payment_token_refused pay_coupon_refused pause_refused unpause_refused
  initialize_nominal_value_refused publish_nominal_value_refused republish_nominal_value_refused
  set_document_refused remove_document_refused update_metadata_field_refused remove_metadata_field_refused : refused_db.

(** ** Deactivation is final *)

Section deactivation.
Context `{Rt : SolanaRuntime} `{Laws : !RuntimeLaws} `{Tok : Token2022} `{TLaws : !TokenLaws}
  `{Ti : TokenInterface} `{TiLaws : !TokenInterfaceLaws} `{Bl : BorshLayout}
  `{El : ExtraAccountMetaList} `{ElLaws : !ExtraAccountMetaListLaws} `{Mi : MintInterface} `{MLaws : !MintLaws}.
Context (other : HookCall) (hashv : list (list Z) -> Hash).

Lemma workspace_kept signers ix w w' :
  config_inv w -> workspace other hashv signers ix w = Ok (tt, w') -> fixed_kept w w'.
Proof.
  intros Hc Hr. destruct ix; simpl in Hr.
  - by eapply freeze_kept.
  - by eapply transfer_control_kept.
  - by eapply operations_kept.
  - by eapply hold_kept.
  - by eapply access_control_kept.
  - by eapply set_max_supply_kept.
  - by eapply mint_program_kept.
  - by eapply take_snapshot_kept.
  - by eapply coupon_kept.
  - by eapply update_bond_terms_kept.
  - by eapply treasury_kept.
  - by eapply factory_kept.
  - by eapply pause_program_kept.
  - by eapply deactivate_kept.
  - by eapply nominal_value_kept.
  - by eapply document_kept.
  - by eapply batch_transfer_kept.
  - by eapply metas_kept.
  - by eapply metadata_update_kept.
  - by eapply deploy_kept.
Qed.

Lemma workspace_refused signers ix mint :
  active_mint_of ix = Some mint -> refused mint (workspace other hashv signers ix).
Proof.
  intros Hm. destruct ix as [ix|ix|ix|ix|ix| |ix| |ix| |ix|ix|ix| |ix|ix| | |ix| ];
    [injection Hm as <-; apply freeze_refused|injection Hm as <-; apply transfer_control_refused|..];
    try destruct ix; simpl in *; try discriminate Hm; injection Hm as <-.
  all: auto with refused_db.
Qed.

(** A transfer of a deactivated mint that succeeds is one to the source itself. *)
Lemma transfer_idle ix signers w w' :
  users signers -> hooked w (tx_mint ix) -> deactivated w (tx_mint ix) ->
  transfer_checked (hook_program other) ix signers w = Ok (tt, w') -> w' = w.
Proof.
  intros Hu Hh [x Hd] Hr.
  destruct (transfer_effect _ _ _ _ _ Hh Hr) as (s & d & Hs & Hd' & _ & _ & Ha & _ & Hw).
  destruct Hw as [[_ ->]|(_ & _ & [E|[Hact _ _ _ _]])]; [done| |].
  - rewrite E in Ha. by destruct (Hu _ _ Ha).
  - exfalso. revert Hact. unfold data_of, in_flight, moved, put_token, token_account, stored, deactivate_pda_of in *.
    rewrite !account_set_account_ne; [by rewrite Hd|intros E; rewrite <- E in Hd|intros E; rewrite <- E in Hd].
    + rewrite Hs in Hd. discriminate Hd.
    + rewrite Hd' in Hd. discriminate Hd.
Qed.

Lemma legs_idle a decimals signers legs w w' :
  users signers -> hooked w (tr_mint a) -> deactivated w (tr_mint a) ->
  for_each legs (fun '(amount, (destination, control_list_pda)) =>
    transfer_checked (hook_program other) (leg a decimals amount destination control_list_pda) signers) w
    = Ok (tt, w') -> w' = w.
Proof.
  intros Hu Hh Hd. induction legs as [|[n [d c]] legs IH]; intros Hr; simpl in Hr; [by inv_ok|].
  apply bind_ok in Hr as ([] & w1 & Ht & Hr).
  rewrite (transfer_idle (leg a decimals n d c) signers w w1 Hu Hh Hd Ht) in Hr. by apply IH.
Qed.

Lemma batch_transfer_idle signers a r ns w w' :
  config_inv w -> users signers -> deactivated w (tr_mint a) ->
  batch_transfer other signers a r ns w = Ok (tt, w') -> w' = w.
Proof.
  intros Hc Hu Hd Hr. unfold batch_transfer in Hr. inv_ok.
  match goal with Hk : pda_at (asset_configuration_seeds _) _ ?k, Hs : stored _ ?k ?c |- _ =>
    assert (Hh : hooked w (tr_mint a)) by exact (Hc _ _ c Hk Hs) end.
  by eapply legs_idle.
Qed.
End deactivation.

(** C10: once a mint is deactivated it stays so and is
    inert.  Whatever instruction of the twenty programs then succeeds, the marker
    is still there, and the instruction is none of those that need an active mint
    (freezing, transfer control, issuance, burns, controller transfers, new and
    executed holds, roles, cap, coupons, bond terms, treasury, pause, nominal
    value, documents, metadata) on that mint; and a batch transfer of it signed by
    users leaves the world as it was. *)
Theorem deactivation_is_final `{Laws : RuntimeLaws} `{TLaws : TokenLaws} `{TiLaws : TokenInterfaceLaws}
    `{Bl : BorshLayout} `{ElLaws : !ExtraAccountMetaListLaws (El:=El)} `{MLaws : MintLaws}
    other hashv signers ix mint w w' :
  config_inv w -> deactivated w mint -> workspace other hashv signers ix w = Ok (tt, w') ->
  deactivated w' mint /\ active_mint_of ix <> Some mint /\
  forall a r ns, ix = WBatchTransfer a r ns -> tr_mint a = mint -> users signers -> w' = w.
Proof.
  intros Hc Hd Hr. split; [|split].
  - eapply deactivated_kept; [by eapply workspace_kept|done].
  - intros Hm. by eapply workspace_refused.
  - intros a r ns -> <- Hu. by eapply batch_transfer_idle.
Qed.

(** ** The sample mint, deactivated *)

Definition deactivate_accounts : Deactivate := {|
  de_authority := ADMIN; de_authority_roles_pda := SAMPLE_ROLES; de_asset_configuration_pda := SAMPLE_CONFIG;
  de_mint := MINT; de_deactivate_pda := SAMPLE_DEACTIVATE; de_asset_class_version_pda := SAMPLE_VERSION |}.
Definition inert_world : World := run_world (deactivate [ADMIN] deactivate_accounts) sample_world.

Lemma inert_world_ok : deactivate [ADMIN] deactivate_accounts sample_world = Ok (tt, inert_world).
Proof. apply run_ok. vm_compute. reflexivity. Qed.

Lemma inert_config_inv : config_inv inert_world.
Proof.
  apply (config_inv_quiet sample_world); [|exact sample_config_inv].
  apply (writes_only_quiet DEACTIVATE_PROGRAM_ID); [repeat split; program_ne|].
  exact (deactivate_writes _ _ _ _ _ inert_world_ok).
Qed.

(** Bob sends 40 units to himself: the only transfer that still succeeds, and it does nothing. *)
Definition self_transfer : Instruction :=
  WBatchTransfer sample_batch_accounts [TOKEN_B; ref_pda (control_list_seeds MINT TOKEN_B) TRANSFER_CONTROL_PROGRAM_ID] [40].

Definition sent_world : World := run_world (workspace no_hook (fun _ => []) [BOB] self_transfer) inert_world.

Lemma sent_world_ok : workspace no_hook (fun _ => []) [BOB] self_transfer inert_world = Ok (tt, sent_world).
Proof. apply run_ok. vm_compute. reflexivity. Qed.

Lemma inert_world_deactivated : deactivated inert_world MINT.
Proof. apply (deactivate_effect [ADMIN] deactivate_accounts sample_world), inert_world_ok. Qed.

Lemma deactivation_is_final_witness : deactivated sent_world MINT /\ sent_world = inert_world.
Proof.
  destruct (deactivation_is_final no_hook (fun _ => []) [BOB] self_transfer MINT inert_world sent_world
    inert_config_inv inert_world_deactivated sent_world_ok) as (Hd & _ & Hw).
  split; [exact Hd|]. exact (Hw _ _ _ eq_refl eq_refl bob_is_a_user).
Defined.
