(* ===== verification/Ledger.v ===== *)
(** * Ledger: every program of the workspace, the users and the rest of the chain

    [ledger_step] is what can happen to a ledger: an instruction of any of the
    twenty programs, a transfer of a deployed mint by its holder, or whatever
    other programs do to accounts that are theirs.  The invariant of the system
    and the terms of every mint survive all of it. *)

From S2P Require Import Prelude.
From S2P Require Import Merkle.
From S2P Require Import Layout.
From S2P Require Import Bitmask.
From S2P Require Import ProgramIds.
From S2P Require Import Errors.
From S2P Require Import State.
From S2P Require Import Runtime.
From S2P Require Import Anchor.
From S2P Require Import Frame.
From S2P Require Import Reference.
From S2P Require Import PdaSeeds.
From S2P Require Import PdaUtils.
From S2P Require Import Common.
From S2P Require Import Sample.
From S2P Require Import Freeze.
From S2P Require Import FreezeProofs.
From S2P Require Import TransferControl.
From S2P Require Import Token.
From S2P Require Import TransferHook.
From S2P Require Import Deployed.
From S2P Require Import Operations.
From S2P Require Import OperationsProofs.
From S2P Require Import Hold.
From S2P Require Import HoldProofs.
From S2P Require Import HoldInvariant.
From S2P Require Import SampleRuns.
From S2P Require Import HoldTheorems.
From S2P Require Import Frames.
From S2P Require Import System.
From S2P Require Import AccessControl.
From S2P Require Import Cap.
From S2P Require Import Mint.
From S2P Require Import MintProofs.
From S2P Require Import Snapshot.
From S2P Require Import Coupon.
From S2P Require Import Bond.
From S2P Require Import TokenInterface.
From S2P Require Import Treasury.
From S2P Require Import Factory.
From S2P Require Import Pause.
From S2P Require Import Deactivate.
From S2P Require Import NominalValue.
From S2P Require Import Document.
From S2P Require Import Transfer.
From S2P Require Import HookMetas.
From S2P Require Import TokenMint.
From S2P Require Import MetadataUpdate.
From S2P Require Import Deploy.
From S2P Require Import Kept.
From S2P Require Import Workspace.

(** ** Instructions that debit nobody *)

Definition calm (w w' : World) : Prop := forall source, moves source w w'.

#[export] Instance calm_preorder : PreOrder calm.
Proof. split; [intros w s; reflexivity|]. intros w1 w2 w3 H1 H2 s. transitivity w2; [apply H1|apply H2]. Qed.

(** The programs whose accounts the invariant does not look at. *)
Definition quiet_program (p : Pubkey) : bool :=
  negb (existsb (N.eqb p) [TOKEN_PROGRAM_ID; TOKEN_2022_PROGRAM_ID; DEPLOY_PROGRAM_ID; HOLD_PROGRAM_ID; FREEZE_PROGRAM_ID]).

Section calm.
Context `{Rt : SolanaRuntime} `{Laws : !RuntimeLaws} `{Tok : Token2022} `{TLaws : !TokenLaws}.

Lemma quiet_program_ne p : quiet_program p = true ->
  bystander p /\ p <> HOLD_PROGRAM_ID /\ p <> FREEZE_PROGRAM_ID.
Proof.
  unfold quiet_program. rewrite negb_true_iff. cbn [existsb]. rewrite !orb_false_iff, !N.eqb_neq.
  unfold bystander. tauto.
Qed.

Lemma calm_writes p w w' : quiet_program p = true -> writes_only p w w' -> calm w w'.
Proof.
  intros (Hb & Hh & Hf)%quiet_program_ne Hw s. split; [by eapply writes_only_quiet|by eapply writes_only_balances|
    by eapply writes_only_freeze|by eapply holds_untouched_writes].
Qed.

Lemma calm_program p {A} (m : M A) : quiet_program p = true -> preserves (writes_only p) m -> preserves calm m.
Proof. intros Hp Hm w a w' Hr. eapply calm_writes; [exact Hp|by eapply Hm]. Qed.

Lemma calm_accounts w w' : (forall k, account w' k = account w k) -> calm w w'.
Proof. intros E s. by apply moves_accounts. Qed.

Lemma preserves_calm_emit e : preserves calm (emit_cpi e).
Proof. intros w [] w' Hr. inv_ok. by apply calm_accounts. Qed.

Lemma calm_put_mint k m m' w :
  mint_account w k m -> m_transfer_hook m' = m_transfer_hook m -> calm w (put_mint k m' w).
Proof. intros Hm Hh s. by eapply put_mint_moves. Qed.

Lemma preserves_calm_mint_to mint dest authority n signers : preserves calm (mint_to mint dest authority n signers).
Proof.
  intros w [] w' (t & m & Ht & Hm & _ & _ & _ & Hn & _ & _ & ->)%mint_to_ok s.
  transitivity (put_token dest (with_amount (t_amount t + n) t) w).
  - eapply put_token_moves; [exact Ht|right; simpl; split; [done|lia]].
  - eapply (put_mint_moves _ _ m); [|done].
    unfold mint_account, put_token, token_account in *. rewrite account_set_account_ne; [exact Hm|congruence].
Qed.

Lemma preserves_calm_set_paused mint authority b signers : preserves calm (set_paused mint authority b signers).
Proof. intros w [] w' (m & Hm & _ & _ & ->)%set_paused_ok. by eapply calm_put_mint. Qed.
End calm.

#[export] Hint Resolve preserves_calm_emit preserves_calm_mint_to preserves_calm_set_paused : preserves_db.
#[export] Hint Extern 1 (preserves calm (account_exit _ _)) =>
  eapply calm_program; [|apply preserves_account_exit; [reflexivity|reflexivity]]; reflexivity : preserves_db.
#[export] Hint Extern 1 (preserves calm (account_init _ _ _ _)) =>
  eapply calm_program; [|apply preserves_account_init; reflexivity]; reflexivity : preserves_db.
#[export] Hint Extern 1 (preserves calm (account_init_if_needed _ _ _ _)) =>
  eapply calm_program; [|apply preserves_account_init_if_needed; reflexivity]; reflexivity : preserves_db.

Section programs.
Context `{Rt : SolanaRuntime} `{Laws : !RuntimeLaws} `{Tok : Token2022} `{TLaws : !TokenLaws}.

Lemma transfer_control_calm signers ix : preserves calm (transfer_control signers ix).
Proof. eapply calm_program; [|apply transfer_control_writes]. reflexivity. Qed.
Lemma nominal_value_calm signers ix : preserves calm (nominal_value signers ix).
Proof. eapply calm_program; [|apply nominal_value_writes]. reflexivity. Qed.
Lemma document_calm signers ix : preserves calm (document signers ix).
Proof. eapply calm_program; [|apply document_writes]. reflexivity. Qed.
Lemma deactivate_calm signers a : preserves calm (deactivate signers a).
Proof. eapply calm_program; [|apply deactivate_writes]. reflexivity. Qed.

Lemma access_control_calm signers ix : preserves calm (access_control signers ix).
Proof.
  apply (calm_program ACCESS_CONTROL_PROGRAM_ID); [reflexivity|].
  destruct ix; simpl; unfold AccessControl.initialize, grant_roles, revoke_roles, AccessControl.Initialize_try_accounts, GrantRoles_try_accounts,
    RevokeRoles_try_accounts, roles_guards; solve_preserves.
Qed.

Lemma set_max_supply_calm signers a n : preserves calm (set_max_supply signers a n).
Proof.
  apply (calm_program CAP_PROGRAM_ID); [reflexivity|]. unfold set_max_supply, SetMaxSupply_try_accounts. solve_preserves.
Qed.

Lemma take_snapshot_calm signers a root : preserves calm (take_snapshot signers a root).
Proof.
  apply (calm_program SNAPSHOT_PROGRAM_ID); [reflexivity|].
  unfold take_snapshot, TakeSnapshot_try_accounts, assert_take_snapshot_authorized_caller. solve_preserves.
Qed.
#[local] Hint Resolve take_snapshot_calm : preserves_db.

Lemma coupon_calm signers ix : preserves calm (coupon signers ix).
Proof.
  destruct ix; simpl; unfold create_coupon, set_coupon_rate, CreateCoupon_try_accounts, SetCouponRate_try_accounts,
    step_counter, read_snapshot_id; solve_preserves.
Qed.

Lemma update_bond_terms_calm signers a args : preserves calm (update_bond_terms signers a args).
Proof.
  apply (calm_program BOND_PROGRAM_ID); [reflexivity|]. unfold update_bond_terms, UpdateBondTerms_try_accounts. solve_preserves.
Qed.

Lemma factory_calm signers ix : preserves calm (factory signers ix).
Proof.
  apply (calm_program FACTORY_PROGRAM_ID); [reflexivity|].
  destruct ix; simpl; unfold Factory.initialize, nominate_manager, accept_nomination, cancel_nomination, Factory.pause,
    Factory.unpause, create_asset_class, nominate_asset_class_owner, accept_asset_class_ownership,
    cancel_asset_class_ownership, init_asset_class_version, enable_asset_class_version_functionalities,
    disable_asset_class_version_functionalities, finalize_asset_class_version, helpers.require_paused, helpers.require_not_paused,
    helpers.verify_manager, helpers.verify_pending_manager, helpers.verify_owner, helpers.verify_pending_owner, factory_constraint,
    pending_manager_constraint, ownership_constraint, pending_owner_constraint, version_try_accounts, version_constraint,
    require_draft; solve_preserves.
Qed.

Lemma metas_calm `{Bl : BorshLayout} `{El : ExtraAccountMetaList} `{ElLaws : !ExtraAccountMetaListLaws} signers a :
  preserves calm (initialize_extra_account_meta_list signers a).
Proof.
  intros w [] w' (_ & [Ho _] & _ & Ha & He & Hn & _)%initialize_metas_effect.
  apply (calm_writes TRANSFER_HOOK_PROGRAM_ID); [reflexivity|]. split; [done|]. intros k.
  destruct (decide (k = ie_extra_account_meta_list a)) as [->|Hk]; [|left; by apply He].
  right. unfold ours, owner_of, data_of in *. rewrite Ha. split_and!; [by right|by left|by right].
Qed.

Lemma pause_program_calm signers ix : preserves calm (pause_program signers ix).
Proof. destruct ix; simpl; unfold pause, unpause, PauseMint_try_accounts, pauser_guards; solve_preserves. Qed.

Lemma mint_program_calm signers ix : preserves calm (mint_program signers ix).
Proof.
  destruct ix; simpl; unfold mint, batch_mint, MintTokens_try_accounts, BatchMintTokens_try_accounts,
    require_within_max_supply, verify_transfer_control_mode, verify_control_list_membership, verify_control_list_pda; solve_preserves.
Qed.

Lemma metadata_update_calm `{Mi : MintInterface} `{MLaws : !MintLaws} signers ix :
  preserves calm (metadata_update signers ix).
Proof.
  intros w [] w' (_ & _ & _ & m & md & Hm & _ & _ & _ & Hm' & He & _)%metadata_update_edits.
  etransitivity; [eapply (calm_put_mint _ m (with_metadata (edit_of ix md) m)); [exact Hm|by destruct m]|].
  apply calm_accounts. intros k. unfold put_mint. rewrite account_set_account.
  case_decide; [subst; exact Hm'|by apply He].
Qed.
End programs.

(** ** What keeps the invariant *)

Section safe.
Context `{Rt : SolanaRuntime} `{Laws : !RuntimeLaws} `{Tok : Token2022} `{TLaws : !TokenLaws}.

Definition safe (w w' : World) : Prop := system_inv w -> system_inv w'.

#[export] Instance safe_preorder : PreOrder safe.
Proof. split; [intros w Hi; exact Hi|]. intros w1 w2 w3 H1 H2 Hi. by apply H2, H1. Qed.

Lemma calm_safe w w' : calm w w' -> safe w w'.
Proof.
  intros Hc Hi. destruct (Hc 0%N) as [Hq _ Hf Hu].
  apply (system_inv_moves w); [done|done|done|eapply freeze_inv_mono; [done|apply Hi]|].
  intros k p _ Hp. destruct (decide (hp_token_account p = 0%N)) as [E|].
  - apply (covered_kept w _ 1%N); [apply Hc|by rewrite E|done].
  - by apply (covered_kept w _ 0%N); [apply Hc| |].
Qed.

Lemma safe_calm {A} (m : M A) : preserves calm m -> preserves safe m.
Proof. intros Hm w a w' Hr. by eapply calm_safe, Hm. Qed.

(** ** The payment of a coupon *)

(** Only balances of mints without a hook changed. *)
Definition retained (w w' : World) : Prop :=
  forall k, account w' k = account w k \/ exists p t n, is_token_program p = true /\ ~ hooked w (t_mint t) /\
    account w k = mkAccount p (DToken t) /\ account w' k = mkAccount p (DToken (with_amount n t)).

Lemma retained_hooked w w' mint : retained w w' -> hooked w' mint <-> hooked w mint.
Proof.
  intros Hr. unfold hooked, mint_account. destruct (Hr mint) as [E|(p & t & n & _ & _ & E & E')]; [by rewrite E|].
  split; intros (m & Hm & _); exfalso; congruence.
Qed.

Lemma retained_stored {T} `{AccountType T} w w' k (x : T) :
  is_token_program at_program = false -> retained w w' -> stored w' k x -> stored w k x.
Proof.
  intros Hp Hr Hs. unfold stored in *. destruct (Hr k) as [E|(p & t & n & Hp' & _ & _ & E')]; [congruence|].
  rewrite Hs in E'. injection E' as <- _. congruence.
Qed.

Lemma retained_token w w' k t : retained w w' -> data_of w' k = DToken t ->
  exists t0, data_of w k = DToken t0 /\ t_mint t0 = t_mint t /\ owner_of w k = owner_of w' k.
Proof.
  intros Hr Hd. destruct (Hr k) as [E|(p & t0 & n & _ & _ & E & E')].
  - exists t. unfold data_of, owner_of in *. by rewrite E in *.
  - exists t0. unfold data_of, owner_of in *. rewrite E, E' in *. injection Hd as <-. done.
Qed.

Lemma retained_owner w w' k : retained w w' -> owner_of w' k = owner_of w k.
Proof. intros Hr. unfold owner_of. by destruct (Hr k) as [->|(p & t & n & _ & _ & -> & ->)]. Qed.

Lemma retained_env w w' : system_inv w -> retained w w' -> env_step w w'.
Proof.
  intros Hi Hr. pose proof (retained_hooked w w') as Hh. split.
  - intros j _ Ho. destruct (Hr j) as [E|(p & t & n & Hp & _ & E & E')]; [done|].
    exfalso. unfold owner_of in Ho. rewrite E, E' in Ho. simpl in Ho. destruct Ho as [-> | ->]; discriminate Hp.
  - intros k s. unfold freeze_state_of, data_of. by destruct (Hr k) as [->|(p & t & n & _ & _ & -> & ->)].
  - intros mint. by apply Hh.
  - intros mint k c _ Hs. left. by eapply retained_stored.
  - intros k t Ht Hm _. exists t. split; [|done]. unfold token_account in *.
    destruct (Hr k) as [E|(p & t0 & n & _ & Hn & E & _)]; [congruence|]. rewrite Ht in E. by injection E as <- <-.
  - intros k t Ho Hd Hm. apply (retained_token w) in Hd as (t0 & Hd & Em & Eo); [|done].
    rewrite <- Eo in *. apply (si_token _ Hi k t0); [done|done|]. rewrite Em. by apply Hh.
  - intros k t Ho Hd. apply (retained_token w) in Hd as (t0 & Hd & Em & Eo); [|done].
    rewrite (retained_owner w) by done. rewrite <- Em. apply (si_classic _ Hi k); [congruence|done].
Qed.

Lemma payment_safe `{Ti : TokenInterface} `{TiLaws : !TokenInterfaceLaws} ix n d signers :
  preserves safe (interface_transfer_checked ix n d signers).
Proof.
  intros w [] w' (s & t & m & Hs & Ht & Hm & Hp & Es & Et & _ & _ & _ & _ & Hj & Hw)%interface_transfer_ok Hi.
  apply (system_inv_env w); [done|]. apply retained_env; [done|].
  destruct (N.eqb_spec (it_from ix) (it_to ix)) as [E|Hne].
  { intros k. left. destruct (decide (k = it_from ix)) as [->|]; [done|]. apply Hj; [done|congruence]. }
  destruct Hw as (Hook & received & _ & _ & Hs' & Ht').
  assert (Hn : ~ hooked w (it_mint ix)).
  { intros (m' & Hm' & Hk). unfold mint_account in Hm'. rewrite Hm in Hm'. injection Hm' as _ <-. congruence. }
  intros k. destruct (decide (k = it_from ix)) as [->|]; [right; do 3 eexists; split_and!; [exact Hp| |done|done]; by rewrite Es|].
  destruct (decide (k = it_to ix)) as [->|]; [right; do 3 eexists; split_and!; [exact Hp| |done|done]; by rewrite Et|].
  left. by apply Hj.
Qed.
End safe.

#[export] Hint Extern 1 (preserves safe (emit_cpi _)) => apply safe_calm, preserves_calm_emit : preserves_db.
#[export] Hint Extern 1 (preserves safe (account_exit _ _)) =>
  apply safe_calm; eapply calm_program; [|apply preserves_account_exit; [reflexivity|reflexivity]]; reflexivity : preserves_db.
#[export] Hint Extern 1 (preserves safe (account_init _ _ _ _)) =>
  apply safe_calm; eapply calm_program; [|apply preserves_account_init; reflexivity]; reflexivity : preserves_db.
#[export] Hint Extern 1 (preserves safe (account_init_if_needed _ _ _ _)) =>
  apply safe_calm; eapply calm_program; [|apply preserves_account_init_if_needed; reflexivity]; reflexivity : preserves_db.
#[export] Hint Resolve payment_safe : preserves_db.

Section money.
Context `{Rt : SolanaRuntime} `{Laws : !RuntimeLaws} `{Tok : Token2022} `{TLaws : !TokenLaws}
  `{Ti : TokenInterface} `{TiLaws : !TokenInterfaceLaws} `{Bl : BorshLayout}
  `{El : ExtraAccountMetaList} `{ElLaws : !ExtraAccountMetaListLaws} `{Mi : MintInterface} `{MLaws : !MintLaws}.

Lemma treasury_safe hashv signers ix : preserves safe (treasury hashv signers ix).
Proof.
  destruct ix; simpl; unfold set_payment_token, pay_coupon, SetPaymentToken_try_accounts, PayCoupon_try_accounts,
    claims_guard, require_balance_proof; solve_preserves.
Qed.

(** ** Deployments *)

(** The accounts of a deployment and what they become. *)
Definition deployed_account (mint k : Pubkey) (a : Account) : Prop :=
  (exists m, a = mkAccount TOKEN_2022_PROGRAM_ID (DMint m)) \/
  (exists c, k = pda (asset_configuration_seeds mint) DEPLOY_PROGRAM_ID /\
     a = mkAccount DEPLOY_PROGRAM_ID (DAssetConfiguration c)) \/
  (exists l, a = mkAccount TRANSFER_HOOK_PROGRAM_ID (DExtraAccountMetas l)) \/
  (exists r, a = mkAccount ACCESS_CONTROL_PROGRAM_ID (DRoles r)).

Lemma deployed_cases signers a params w w' k :
  deployed signers a params w w' -> account w' k = account w k \/ fresh w k /\ deployed_account (dm_mint a) k (account w' k).
Proof.
  intros (_ & _ & Hf & (n & Hm & _) & (v & _ & _ & _ & Hc) & Hx & Hr & Hj). unfold mint_account, stored in *.
  destruct (decide (k ∈ deployment_accounts (dm_mint a) (dm_deployer a))) as [Hk|]; [right|left; by apply Hj].
  split; [by apply (proj1 (Forall_forall _ _) Hf)|]. unfold deployed_account.
  apply elem_of_cons in Hk as [->|Hk]; [left; by eexists|].
  apply elem_of_cons in Hk as [->|Hk]; [right; left; eexists; split; [done|exact Hc]|].
  apply elem_of_cons in Hk as [->|Hk]; [do 2 right; left; by eexists|].
  apply elem_of_cons in Hk as [->|Hk]; [do 3 right|by apply elem_of_nil in Hk].
  unfold roles_of in Hr. destruct (view Roles w' _) as [r|] eqn:E; [|set_solver].
  apply view_Some in E. by exists r.
Qed.

Lemma deployed_kept signers a params w w' k :
  deployed signers a params w w' -> owner_of w k <> SYSTEM_PROGRAM_ID -> account w' k = account w k.
Proof. intros Hd Ho. by destruct (deployed_cases _ _ _ _ _ k Hd) as [?|[[? _] _]]. Qed.

Lemma deployed_hooked signers a params w w' mint :
  deployed signers a params w w' -> hooked w mint -> hooked w' mint.
Proof.
  intros Hd (m & Hm & Hh). exists m. split; [|done]. unfold mint_account in *.
  rewrite (deployed_kept _ _ _ _ _ _ Hd); [done|]. unfold owner_of. rewrite Hm. program_ne.
Qed.

(** A token account was there before. *)
Lemma deployed_token signers a params w w' k t :
  deployed signers a params w w' -> data_of w' k = DToken t -> account w' k = account w k.
Proof.
  intros Hd Ht. destruct (deployed_cases _ _ _ _ _ k Hd) as [?|[_ Ha]]; [done|].
  unfold data_of in Ht. destruct Ha as [[? E]|[(? & _ & E)|[[? E]|[? E]]]]; rewrite E in Ht; discriminate Ht.
Qed.

Lemma deployed_env signers a params w w' : system_inv w -> deployed signers a params w w' -> env_step w w'.
Proof.
  intros Hi Hd. split.
  - intros j _ Ho. destruct (deployed_cases _ _ _ _ _ j Hd) as [?|[[Hs _] Ha]]; [done|]. exfalso. destruct Ho as [Ho|Ho].
    + rewrite Hs in Ho. revert Ho. program_ne.
    + unfold owner_of in Ho. destruct Ha as [[? E]|[(? & _ & E)|[[? E]|[? E]]]]; rewrite E in Ho; revert Ho; program_ne.
  - intros k s. unfold freeze_state_of, data_of.
    destruct (deployed_cases _ _ _ _ _ k Hd) as [->|[_ [[? ->]|[(? & _ & ->)|[[? ->]|[? ->]]]]]]; done.
  - intros mint. by eapply deployed_hooked.
  - intros mint k c Hk Hs. unfold stored in *. destruct (deployed_cases _ _ _ _ _ k Hd) as [E|[_ Ha]]; [left; congruence|].
    rewrite Hs in Ha. destruct Ha as [[? [=]]|[(? & Ek & _)|[[? [=]]|[? [=]]]]]. right.
    destruct (pda_at_unique _ _ _ _ _ Hk Ek) as [[= ->] _].
    destruct Hd as (_ & _ & _ & (n & Hm & _) & _). eexists. by split.
  - intros k t Ht _ _. exists t. split; [|done]. unfold token_account in *.
    rewrite (deployed_kept _ _ _ _ _ _ Hd); [done|]. unfold owner_of. rewrite Ht. program_ne.
  - intros k t Ho Ht Hm. pose proof (deployed_token _ _ _ _ _ _ _ Hd Ht) as E.
    unfold owner_of, data_of in *. rewrite E in *. destruct (is_token_program_or (acc_owner (account w k))) as [Hor _].
    destruct (Hor Ho) as [Hcl|]; [exfalso|done].
    pose proof (si_classic _ Hi k t Hcl Ht) as Hmo. destruct Hm as (m & Hm & _). unfold mint_account in Hm.
    rewrite (deployed_kept _ _ _ _ _ (t_mint t) Hd) in Hm by (rewrite Hmo; program_ne).
    unfold owner_of in Hmo. rewrite Hm in Hmo. revert Hmo. program_ne.
  - intros k t Ho Ht. pose proof (deployed_token _ _ _ _ _ _ _ Hd Ht) as E.
    unfold owner_of, data_of in *. rewrite E in *. pose proof (si_classic _ Hi k t Ho Ht) as Hmo.
    fold (owner_of w' (t_mint t)). unfold owner_of. rewrite (deployed_kept _ _ _ _ _ _ Hd) by (rewrite Hmo; program_ne). done.
Qed.
End money.

(** ** The ledger *)

(** The machine-integer arguments an instruction carries where the invariant depends on them. *)
Definition ix_ok (ix : Instruction) : Prop :=
  match ix with WFreeze ix => freeze_args_ok ix | _ => True end.

Section ledger.
Context `{Rt : SolanaRuntime} `{Laws : !RuntimeLaws} `{Tok : Token2022} `{TLaws : !TokenLaws}
  `{Ti : TokenInterface} `{TiLaws : !TokenInterfaceLaws} `{Bl : BorshLayout}
  `{El : ExtraAccountMetaList} `{ElLaws : !ExtraAccountMetaListLaws} `{Mi : MintInterface} `{MLaws : !MintLaws}.
Context (other : HookCall) (hashv : list (list Z) -> Hash).

Inductive ledger_step (w w' : World) : Prop :=
| ledger_workspace signers ix :
    users signers -> ix_ok ix -> workspace other hashv signers ix w = Ok (tt, w') -> ledger_step w w'
| ledger_transfer signers ix :
    users signers -> hooked w (tx_mint ix) ->
    transfer_checked (hook_program other) ix signers w = Ok (tt, w') -> ledger_step w w'
| ledger_env : env_step w w' -> fixed_kept w w' -> ledger_step w w'.

Lemma workspace_safe signers ix w w' :
  users signers -> ix_ok ix -> workspace other hashv signers ix w = Ok (tt, w') -> safe w w'.
Proof.
  intros Hu Hok Hr Hi. destruct ix; simpl in Hr.
  - apply (system_inv_step other w); [done|]. by eapply step_freeze.
  - apply (system_inv_step other w); [done|]. by eapply step_transfer_control.
  - by eapply system_inv_operations.
  - by eapply system_inv_hold_instruction.
  - by eapply calm_safe, Hi; eapply access_control_calm.
  - by eapply calm_safe, Hi; eapply set_max_supply_calm.
  - by eapply calm_safe, Hi; eapply mint_program_calm.
  - by eapply calm_safe, Hi; eapply take_snapshot_calm.
  - by eapply calm_safe, Hi; eapply coupon_calm.
  - by eapply calm_safe, Hi; eapply update_bond_terms_calm.
  - by eapply (treasury_safe hashv).
  - by eapply calm_safe, Hi; eapply factory_calm.
  - by eapply calm_safe, Hi; eapply pause_program_calm.
  - by eapply calm_safe, Hi; eapply deactivate_calm.
  - by eapply calm_safe, Hi; eapply nominal_value_calm.
  - by eapply calm_safe, Hi; eapply document_calm.
  - by eapply batch_transfer_safe.
  - by eapply calm_safe, Hi; eapply metas_calm.
  - by eapply calm_safe, Hi; eapply metadata_update_calm.
  - eapply system_inv_env; [done|]. eapply deployed_env; [done|]. by eapply deploy_mint_deploys.
Qed.

Lemma ledger_safe w w' : ledger_step w w' -> safe w w'.
Proof.
  intros [signers ix Hu Hok Hr|signers ix Hu Hh Hr|He _] Hi;
    [by eapply workspace_safe|by eapply system_inv_transfer|by eapply system_inv_env].
Qed.

Lemma ledger_kept w w' : system_inv w -> ledger_step w w' -> fixed_kept w w'.
Proof.
  intros Hi [signers ix _ _ Hr|signers ix _ Hh Hr|_ Hk]; [|by eapply transfer_kept|done].
  eapply workspace_kept; [apply Hi|exact Hr].
Qed.

Lemma ledger_run w w' : system_inv w -> rtc ledger_step w w' -> system_inv w' /\ fixed_kept w w'.
Proof.
  intros Hi Hr. revert Hi. induction Hr as [w|w w1 w2 Hs _ IH]; intros Hi; [done|].
  destruct IH as [Hi2 Hk2]; [by eapply ledger_safe|]. split; [done|].
  etransitivity; [by eapply ledger_kept|done].
Qed.
End ledger.

(** C2: Whatever happens to the ledger keeps the invariant of the
    system: an instruction of any of the twenty programs signed by users, a transfer of a deployed
    mint, or a step of other programs.  Mints with an asset configuration have the transfer hook,
    positions record the sums of what is left of their holds, freeze states are well formed, token
    accounts of deployed mints are Token-2022's, and the balance of each of them covers its holds. *)
Theorem workspace_keeps_invariant `{Laws : RuntimeLaws} `{TLaws : TokenLaws} `{TiLaws : TokenInterfaceLaws}
    `{Bl : BorshLayout} `{ElLaws : !ExtraAccountMetaListLaws (El:=El)} `{MLaws : MintLaws} other hashv w w' :
  system_inv w -> ledger_step other hashv w w' -> system_inv w'.
Proof. intros Hi Hs. by eapply ledger_safe. Qed.

(** C1: From a ledger where nothing is deployed, in every ledger reached by
    any interleaving of instructions of the twenty programs, transfers and steps of other programs,
    the balance of a token account covers the sum of what is left of all its holds: deployments,
    issuance, payments, batch and forced transfers, burns and metadata edits included, no
    instruction lets tokens on hold be moved, burnt or held twice. *)
Theorem workspace_holds_always_covered `{Laws : RuntimeLaws} `{TLaws : TokenLaws} `{TiLaws : TokenInterfaceLaws}
    `{Bl : BorshLayout} `{ElLaws : !ExtraAccountMetaListLaws (El:=El)} `{MLaws : MintLaws}
    other hashv w0 w mint token :
  genesis w0 -> rtc (ledger_step other hashv) w0 w -> 0 < held_sum mint token w ->
  exists t, token_account w token t /\ t_mint t = mint /\ held_sum mint token w <= t_amount t.
Proof.
  intros Hg Hr Hpos. destruct (ledger_run _ _ _ _ (system_inv_genesis _ Hg) Hr) as [Hinv _].
  destruct (held_sum_position _ _ _ (si_hold _ Hinv) Hpos) as (p & Hp & <- & <- & E).
  rewrite <- E in *. by apply (si_lien _ Hinv _ _ Hp).
Qed.

(** C3: The terms a mint was deployed under never change.  Whatever happens
    to the ledger afterwards, the asset configuration of the mint and the finalized version of its
    asset class load as they did, so that every functionality is allowed or refused as it was on
    the first day; the mint keeps the transfer hook; and a deactivation is never undone. *)
Theorem terms_are_fixed `{Laws : RuntimeLaws} `{TLaws : TokenLaws} `{TiLaws : TokenInterfaceLaws}
    `{Bl : BorshLayout} `{ElLaws : !ExtraAccountMetaListLaws (El:=El)} `{MLaws : MintLaws}
    other hashv w w' mint kc (c : AssetConfiguration) kv (v : AssetClassVersion) :
  system_inv w -> rtc (ledger_step other hashv) w w' ->
  pda_at (asset_configuration_seeds mint) DEPLOY_PROGRAM_ID kc -> stored w kc c ->
  stored w kv v -> acv_state v = ASSET_CLASS_VERSION_STATE_FINALIZED ->
  account_try_from AssetConfiguration kc w' = Ok (c, w') /\
  loader_load AssetClassVersion kv w' = Ok (v, w') /\
  (forall f, let gate := version ← loader_load AssetClassVersion kv; require_functionality version f in
     is_ok (gate w') = is_ok (gate w)) /\
  hooked w' mint /\ (deactivated w mint -> deactivated w' mint).
Proof.
  intros Hi Hr Hkc Hc Hv Hf. destruct (ledger_run _ _ _ _ Hi Hr) as [Hi' Hk].
  assert (Hc' : stored w' kc c) by (by apply (kept_stored w)).
  assert (Hv' : stored w' kv v) by (apply (kept_stored w); [cbn; by rewrite Hf|done|done]).
  split; [apply account_try_from_stored; [program_ne|done]|]. split; [by apply loader_load_ok|]. split; [|split].
  - intros f gate. unfold gate. rewrite (bind_Ok _ _ _ _ _ (loader_load_ok _ _ _ Hv)),
      (bind_Ok _ _ _ _ _ (loader_load_ok _ _ _ Hv')). unfold require_functionality, is_functionality_enabled.
    destruct (_ =? _); [|done]. by destruct (map_err _ _) as [[]|].
  - by eapply (si_config _ Hi').
  - by apply deactivated_kept.
Qed.

(** ** A run: a hold is created and executed *)

Lemma alice_is_a_user : users [ALICE].
Proof.
  intros seeds program Hin. apply list_elem_of_singleton in Hin.
  unfold pda in Hin. simpl in Hin. unfold ALICE in Hin. injection Hin as E.
  pose proof (decode_encode (seeds ++ [SBump 255], program)) as D. rewrite E in D.
  vm_compute in D. discriminate D.
Qed.

Definition sample_ledger : relation World := ledger_step no_hook (fun _ => []).

Lemma ledger_created : sample_ledger sample_world hold_world.
Proof. by eapply (ledger_workspace _ _ _ _ [ALICE] (WHold sample_create_hold)); [apply alice_is_a_user| |apply sample_create_hold_ok]. Qed.
Lemma ledger_executed : sample_ledger hold_world executed_world.
Proof. by eapply (ledger_workspace _ _ _ _ [BOB] (WHold sample_execute_hold)); [apply bob_is_a_user| |apply sample_execute_hold_ok]. Qed.
Lemma ledger_deployed : sample_ledger genesis_world sample_world.
Proof. apply ledger_env; [exact deployment_step|]. by intros k. Qed.

Lemma workspace_keeps_invariant_witness : system_inv executed_world.
Proof. exact (workspace_keeps_invariant no_hook (fun _ => []) hold_world executed_world hold_world_system_inv ledger_executed). Defined.

Lemma workspace_holds_always_covered_witness :
  held_sum MINT TOKEN_A executed_world = 150 /\
  exists t, token_account executed_world TOKEN_A t /\ t_mint t = MINT /\
    held_sum MINT TOKEN_A executed_world <= t_amount t.
Proof.
  split; [vm_compute; reflexivity|].
  apply (workspace_holds_always_covered no_hook (fun _ => []) genesis_world executed_world MINT TOKEN_A genesis_world_ok).
  - eapply rtc_l; [exact ledger_deployed|]. eapply rtc_l; [exact ledger_created|]. apply rtc_once, ledger_executed.
  - vm_compute. reflexivity.
Defined.

Lemma terms_are_fixed_witness :
  account_try_from AssetConfiguration SAMPLE_CONFIG executed_world = Ok (mkAssetConfiguration 1 1 255, executed_world) /\
  hooked executed_world MINT.
Proof.
  destruct (terms_are_fixed no_hook (fun _ => []) hold_world executed_world MINT SAMPLE_CONFIG (mkAssetConfiguration 1 1 255)
    SAMPLE_VERSION (mkAssetClassVersion 1 1 ASSET_CLASS_VERSION_STATE_FINALIZED 255 full_mask)) as (Hc & _ & _ & Hh & _).
  - exact hold_world_system_inv.
  - apply rtc_once, ledger_executed.
  - exists 255. vm_compute. reflexivity.
  - vm_compute. reflexivity.
  - vm_compute. reflexivity.
  - reflexivity.
  - by split.
Defined.
